(* ===== verification/_CoqProject ===== *)
-Q . S2P
Prelude.v
StdMap.v
Protocol.v
Utils.v
Codec.v
Text.v
Config.v
ConfigEnv.v
ConfigYaml.v
ConfigYamlSpec.v
ConfigYamlRoundTrip.v
SessionTypes.v
RuntimeLogger.v
ConnectionStateMachine.v
TxHandler.v
TxInvariant.v
TxLiveness.v
RxHandler.v
RxInvariant.v
RxRefinement.v
RxHazards.v
Session.v
SessionInvariant.v
SessionLifecycle.v
Handshake.v
SessionGiveUp.v
DataTransfer.v
ReliableTransfer.v
StreamLog.v
Stream.v
LossyHandshake.v
Closing.v
ServerSessionManager.v
ManagerInvariant.v
ManagerPolling.v
ManagerRouting.v
ManagerTermination.v
ServerHosting.v
ServerConnection.v
BsdUdpSocket.v
Process.v
LoadGenerator.v
ClientApp.v
ClientAppSpec.v
ClientLoad.v
ServerApp.v
ServerAppSpec.v
Runtime.v
Program.v
