(* ===== verification/Prelude.v ===== *)
(** * RUDP: a verification development

    RUDP is a reliable datagram protocol over UDP written in C++. A 28-byte header
    carries a connection id, a sequence number, a cumulative acknowledgement with a
    64-bit selective bitmap, a channel and flags; a connection multiplexes four
    kinds of channel (reliable ordered, reliable unordered, unreliable, monotonic
    state).

    ** The program and its model

    A datagram is decoded ([Codec]), classified by its flags
    ([ConnectionStateMachine]) and handed to a [Session], which owns the whole
    state of one connection. The session applies the peer's acknowledgement to the
    send side ([TxHandler]), moves its connection state by the state machine's
    decision, and passes the packet to the receive side ([RxHandler]), which keeps
    the acknowledgement fields and delivers data as events. Polling a session asks
    the send side for at most one datagram, in a fixed priority: handshake,
    retransmission, probe, ACK, fresh data. On the server a [ServerSessionManager]
    holds one session per peer, pending until its handshake completes, and routes
    datagrams by endpoint and connection id. The client application drives one
    session and the server application a manager, each from a loop over a socket
    and the terminal; the client also has threads that generate load. The entry
    point loads settings from a [.env] file and a profile from a YAML file, applies
    overrides from the environment and starts one of the two. SIGINT and SIGTERM set
    a flag that the loop of the running application tests.

    Every operation is a function from state to state (mutation is state passing),
    named as in the source; a struct is a Record with the source's field names
    (with a prefix where two structs share one), an enum an Inductive type. Every
    w-bit integer is a [Z] and each place where the C++ arithmetic wraps is written
    out with [u8], [u16], [u32], [u64]; [s32] is the cast to a signed 32-bit
    integer. A [std::map] is a sorted association list, an [unordered_map] a [gmap]
    whose iteration order is an argument of the loops over it. The settings the
    code reads from a global are the argument [cfg]; the words of
    [std::random_device] are the argument [rd]. A [std::string] is a [string], a
    function that returns a [bool] and writes through its arguments returns all of
    them. What comes from outside the program is a parameter: the contents of
    files, the environment, the clock, the signals, [std::hash] and the results of
    system calls are arguments; name resolution ([Kernel]), the logging library
    ([LogBackend]) and the order of an unordered map ([IterationOrder]) are classes.

    - [Prelude]: machine integers, bits, record update, bounded loops, reachability.
    - [StdMap]: [std::map] with an integer key.
    - [Protocol], [Utils], [Codec], [Text]: include/Rudp/Protocol.hpp, src/Utils.cpp
      (endian helpers in [Utils], string helpers in [Text]), src/Codec.cpp.
    - [Config], [SessionTypes]: the settings, profiles and the data of a connection.
    - [ConfigEnv], [ConfigYaml]: the two loaders of src/Config.cpp;
      [ConfigYamlSpec] what a loaded profile satisfies, [ConfigYamlRoundTrip]
      printing and reading back.
    - [RuntimeLogger]: src/RuntimeLogger.cpp.
    - [ConnectionStateMachine]: src/ConnectionStateMachine.cpp.
    - [TxHandler]: src/TxHandler.cpp; [TxInvariant] and [TxLiveness] hold its
      invariant, and its backoff and the progress of its queue.
    - [RxHandler]: src/RxHandler.cpp; [RxInvariant] its invariant and delivery,
      [RxRefinement] the abstract receiver, [RxHazards] three boundary behaviours.
    - [Session]: src/Session.cpp; [SessionInvariant] the invariant of every
      reachable connection, [SessionLifecycle] states and events, [Handshake] two
      sessions connecting, [SessionGiveUp] a session whose peer is silent, [DataTransfer] the moves of an established pair,
      [ReliableTransfer] exchanges of messages over a lossy network,
      [LossyHandshake] whole connections, the handshake over the same network,
      [Closing] their graceful close; [StreamLog] and [Stream] two sessions on a
      network that does anything with their datagrams.
    - [ServerSessionManager]: src/ServerSessionManager.cpp; [ManagerInvariant] the
      consistency of the table, [ManagerPolling] one poll of all sessions,
      [ManagerRouting] histories, isolation, routing, [ManagerTermination] the
      search for connection ids, [ServerHosting] the simulation of a single session
      by its entry of the table, [ServerConnection] a client and a server with other
      clients.
    - [BsdUdpSocket]: src/BsdUdpSocket.cpp. [Process]: signal dispositions and the
      set-up of a socket, shared by the two applications.
    - [LoadGenerator], [ClientApp]: src/BsdClientApp.cpp, its threads and its loop;
      [ClientAppSpec] what the loop guarantees, [ClientLoad] the loop and the threads
      executing together.
    - [ServerApp]: src/BsdServerApp.cpp; [ServerAppSpec] what its loop guarantees.
    - [Runtime]: src/BsdRuntime.cpp; [Program]: src/main.cpp and all the above
      composed.

    ** What the theorems show

    Codec and arithmetic: [decode] and [encode] are inverse on exactly the
    well-formed datagrams; sequence comparison is the order of any window of 2^31
    numbers across the wrap; the flag classification is a table.

    Send side: whatever acknowledgements arrive, stale or forged, at most 64
    reliable packets are in flight inside the window; an acknowledgement removes
    exactly what it covers; every datagram sent is well formed and carries the
    current acknowledgement fields; the queue advances whenever nothing else is
    due; the lowest-numbered packet, if it is never acknowledged, is sent again with
    exponential backoff as often as configured, and then the session resets and
    reports it ([unacknowledged_resets]).

    Receive side: ordered data is delivered in sequence, without repetition and
    eagerly, for any arrival order; monotonic state only moves forward; the window
    bookkeeping refines an abstract receiver on unbounded numbers, and along such
    arrivals the sender's reading of the acknowledgement fields is exact. There are
    three exceptions, each proved to be real: an in-order arrival that leaves a hole,
    an expected number of exactly 0, and a pure acknowledgement close to the wrap.

    Connection: an invariant holds in every state reachable by any sequence of
    calls and any received bytes; the connection state moves along a fixed
    diagram; Established is entered only by the handshake, with one Connected
    event; the effect of a datagram is exact on every branch
    ([on_datagram_received_branches]). Whatever a network does with the datagrams (loss, delay, repetition,
    reordering) and however many are in flight, an application is given only what
    its peer said, and ordered messages as one contiguous piece of the peer's
    stream ([stream_integrity]); the piece starts at the first message that arrives,
    so one that was overtaken before is lost ([overtaken_message_lost]). For every
    pattern of lost SYNs, SYN-ACKs and final ACKs, and then of lost
    data packets and acknowledgements, that the retry budget covers, the handshake
    completes and messages in both directions, one in flight at a time, are
    delivered exactly once and in order, with keep-alive probes in between; each
    application is told exactly that it is connected, and its messages; and either
    side can close an idle connection under the same losses ([connection_delivers],
    [graceful_close]). A close with a message in flight can lose it
    ([close_abandons_message]). The limits are proved too: a lost probe ends keep-alive; data that overtakes a
    lost final ACK blocks the server's side for good; a client that closed sends a
    SYN that is never answered.

    Server: the endpoint and connection-id maps stay consistent in every history;
    a datagram affects only its own endpoint; a poll serves every session once in
    any iteration order; the handler finishes unless it is searching for a connection
    id and the random device has returned only 0 and ids that are taken. [server_delivers] puts a client
    and a whole server together: while the server does anything with its other
    clients, the session in its table and the client behave as the pair of sessions
    above, so the delivery guarantee carries over to [drain_events]. Two theorems
    show that the events of a session that ends never reach the application, and
    that the session of a client that closed is never removed.

    Applications: whatever arrives from the network and the terminal, the run of an
    application is the run of a list of calls on its session or of operations on its
    manager, which gives the state it ends with and the datagrams it sends
    ([client_load_exact], [server_app_refines_manager]); so the invariants above hold
    in the running programs. Under every interleaving the load generator's queue
    loses, duplicates and reorders nothing, stopping it terminates, and in the joint
    execution with the client's loop everything pushed is given to the session, in
    order, or left in the queue. Commands are read as the usage
    texts say. Every descriptor has one owner and is closed once.

    Program: [program_outcome] composes configuration, socket set-up, signals and
    application for any environment and any results of the system calls, with the
    exceptions that nothing catches: those of [std::filesystem::exists], of the
    directories of the log file, of the buffer of [recv_from] (its size is whatever
    was configured) and of [std::thread]; [stop_signal_ends_run] shows that a signal ends the loop at the next test of
    the flag. A signal that arrives before the flag is reset is lost.

    Configuration: loading is all or nothing and yields integers that fit their
    fields; a complete settings file and a complete profile are read back exactly;
    a loaded profile is ready to run; the entry point starts the application of the
    profile's mode or exits with code 1 and a message. Several theorems show
    inputs on which the code does something unexpected: a port that is truncated, a
    mode entry that resets the log path, a setting that nothing reads, an override
    that undoes a check, a malformed command that is sent as data, a datagram that
    is cut short.

    ** Bounds and fuel

    [iter_while] bounds three loops by a measure that the body decreases: the
    window advance by 64 (it shifts a 64-bit bitmap right), the ordered drain by
    the size of the buffer (each iteration removes a packet), the gap loop by 66
    (it walks from the ack to at most 64 past it); the lemmas [advance_run],
    [drain_run] and [gap_loop_run] show that each stops through its own guard. The
    search for a connection id takes a bound on the draws and returns [None] when
    it is reached, that is, when the code is still in its loop. Nothing is assumed of
    [std::random_device], so no bound is always enough;
    [on_datagram_received_total] says exactly when a bound is not enough (all ids
    drawn are 0 or taken), that more distinct draws than ids held always are, and
    that the bound does not change the result; [server_app_refines_manager] and
    [program_outcome] say the same of whole runs. A loop of an application runs over
    the list of the inputs of its iterations; [poll_loop] takes its bound from the
    profile, as the code does. In the theorems about whole connections the sequence
    numbers stay 64 below the wrap, because of the exceptions named above; in
    [Stream] they may wrap, and each side sends fewer than 2^32 datagrams.

    ** Not modelled

    The clock, [select], [usleep] and the reading of standard input (their results
    are the inputs of an iteration, and a datagram that [send_to] fails to send is
    lost like any other); the logging library behind the file sink; the buckets of
    the unordered maps (any order of iteration is allowed); exhausted memory, but for
    the buffer of [recv_from], whose size is configured. Functions that only read
    a field ([role], [stats], [native_handle]) are the projections of the records,
    and [copy_payload] is the identity on values.

    ** Next

    Delivery in time with several packets in flight; the close and a lossy handshake
    through the server's session table. *)

From stdpp Require Export base gmap strings list fin_maps.
From Stdlib Require Export ZArith Lia Sorted.
#[global] Open Scope Z_scope.

(** ** Machine integers

    A [w]-bit unsigned integer of the source is a [Z] in [0, 2^w); the wrap of
    every C++ unsigned operation is written out with [u8] .. [u64]. [s32] is
    [static_cast<std::int32_t>] of an unsigned value (two's complement). *)

Definition u8 (x : Z) : Z := x mod 2 ^ 8.
Definition u16 (x : Z) : Z := x mod 2 ^ 16.
Definition u32 (x : Z) : Z := x mod 2 ^ 32.
Definition u64 (x : Z) : Z := x mod 2 ^ 64.

Definition s32 (x : Z) : Z :=
  let y := u32 x in if y <? 2 ^ 31 then y else y - 2 ^ 32.

Definition is_u8 (x : Z) : Prop := 0 <= x < 2 ^ 8.
Definition is_u16 (x : Z) : Prop := 0 <= x < 2 ^ 16.
Definition is_u32 (x : Z) : Prop := 0 <= x < 2 ^ 32.
Definition is_u64 (x : Z) : Prop := 0 <= x < 2 ^ 64.

(** A [std::vector<std::byte>] or [std::span<const std::byte>]. *)
Abbreviation bytes := (list Z).

Create HintDb rudp discriminated.
#[export] Hint Constants Opaque : rudp.

(** [word_lia]: linear arithmetic modulo the machine widths. *)
Ltac word_unfold :=
  unfold s32, u8, u16, u32, u64, is_u8, is_u16, is_u32, is_u64 in *.
Ltac word_lia :=
  word_unfold; repeat case_match; Z.div_mod_to_equations; lia.

Lemma u8_range x : is_u8 (u8 x).
Proof. apply Z.mod_pos_bound; lia. Qed.
Lemma u16_range x : is_u16 (u16 x).
Proof. apply Z.mod_pos_bound; lia. Qed.
Lemma u32_range x : is_u32 (u32 x).
Proof. apply Z.mod_pos_bound; lia. Qed.
Lemma u64_range x : is_u64 (u64 x).
Proof. apply Z.mod_pos_bound; lia. Qed.
Lemma u8_id x : is_u8 x -> u8 x = x.
Proof. apply Z.mod_small. Qed.
Lemma u32_id x : is_u32 x -> u32 x = x.
Proof. apply Z.mod_small. Qed.
Lemma u64_id x : is_u64 x -> u64 x = x.
Proof. apply Z.mod_small. Qed.

Lemma is_u8_0 : is_u8 0. Proof. unfold is_u8; lia. Qed.
Lemma is_u32_0 : is_u32 0. Proof. unfold is_u32; lia. Qed.
Lemma is_u64_0 : is_u64 0. Proof. unfold is_u64; lia. Qed.

#[export] Hint Resolve u8_range u16_range u32_range u64_range
  is_u8_0 is_u32_0 is_u64_0 : rudp.

Lemma u32_add_l x y : u32 (u32 x + y) = u32 (x + y).
Proof. unfold u32. apply Zplus_mod_idemp_l. Qed.
Lemma u32_add_r x y : u32 (x + u32 y) = u32 (x + y).
Proof. unfold u32. apply Zplus_mod_idemp_r. Qed.
Lemma u32_sub_l x y : u32 (u32 x - y) = u32 (x - y).
Proof. unfold u32. apply Zminus_mod_idemp_l. Qed.
Lemma u32_sub_r x y : u32 (x - u32 y) = u32 (x - y).
Proof. unfold u32. apply Zminus_mod_idemp_r. Qed.
Lemma u32_u32 x : u32 (u32 x) = u32 x.
Proof. apply u32_id, u32_range. Qed.

Create Rewrite HintDb u32.
#[export] Hint Rewrite u32_add_l u32_add_r u32_sub_l u32_sub_r u32_u32 : u32.

(** ** Bits *)

Lemma testbit_high w x i :
  0 <= x < 2 ^ w -> 0 <= w <= i -> Z.testbit x i = false.
Proof.
  intros Hx [Hw Hi]. rewrite <- (Z.mod_small x (2 ^ w)) by done.
  apply Z.mod_pow2_bits_high. lia.
Qed.

Lemma range_of_bits w x :
  0 <= w -> 0 <= x -> (forall i, w <= i -> Z.testbit x i = false) -> x < 2 ^ w.
Proof.
  intros Hw Hx Hb. destruct (Z.eq_dec x 0) as [->|Hne]; [lia|].
  apply Z.log2_lt_pow2; [lia|].
  destruct (Z_lt_le_dec (Z.log2 x) w) as [|Hge]; [done|].
  specialize (Hb _ Hge). rewrite Z.bit_log2 in Hb by lia. done.
Qed.

Lemma lor_range w x y :
  0 <= w -> 0 <= x < 2 ^ w -> 0 <= y < 2 ^ w -> 0 <= Z.lor x y < 2 ^ w.
Proof.
  intros Hw Hx Hy. split; [apply Z.lor_nonneg; lia|].
  apply range_of_bits; [done|apply Z.lor_nonneg; lia|].
  intros i Hi. rewrite Z.lor_spec, !(testbit_high w) by lia. done.
Qed.

Lemma shiftr_range w x n :
  0 <= n -> 0 <= x < 2 ^ w -> 0 <= Z.shiftr x n < 2 ^ w.
Proof.
  intros Hn Hx. rewrite Z.shiftr_div_pow2 by done.
  assert (0 < 2 ^ n) by (apply Z.pow_pos_nonneg; lia).
  split; [apply Z.div_pos; lia|].
  apply Z.div_lt_upper_bound; nia.
Qed.

(** [(x & (1 << i)) != 0] is a bit test. *)
Lemma land_bit_nonzero x i :
  0 <= i -> negb (Z.land x (Z.shiftl 1 i) =? 0) = Z.testbit x i.
Proof.
  intros Hi. rewrite Z.shiftl_1_l.
  destruct (Z.testbit x i) eqn:E.
  - apply negb_true_iff, Z.eqb_neq. intros H.
    assert (Hb : Z.testbit (Z.land x (2 ^ i)) i = false) by (rewrite H; apply Z.testbit_0_l).
    rewrite Z.land_spec, E, Z.pow2_bits_true in Hb by done. done.
  - apply negb_false_iff, Z.eqb_eq. apply Z.bits_inj'. intros j Hj.
    rewrite Z.land_spec, Z.testbit_0_l.
    destruct (Z.eq_dec i j) as [->|Hne]; [by rewrite E|].
    rewrite Z.pow2_bits_false by done. apply andb_false_r.
Qed.

(** ** Record update

    [r <| f := v |>] is the assignment [r.f = v] on a copy of [r]; every struct
    of the source has one [Setter] instance per field that is ever assigned. *)

Class Setter {R T : Type} (proj : R -> T) := set : (T -> T) -> R -> R.
#[global] Hint Mode Setter - - + : typeclass_instances.
Arguments set {R T} proj {_} f r.

Declare Scope record_scope.
Delimit Scope record_scope with rec.
Notation "r <| f := v |>" := (set f (fun _ => v) r)
  (at level 1, f at level 200, left associativity,
   format "r  <|  f  :=  v  |>") : record_scope.
Notation "r <| f ::= g |>" := (set f g r)
  (at level 1, f at level 200, left associativity,
   format "r  <|  f  ::=  g  |>") : record_scope.
#[global] Open Scope record_scope.

(** ** Loops

    [iter_while fuel cond body s] runs [while (cond(s)) s = body(s)] for at most
    [fuel] iterations. Every use comes with a measure that the body decreases:
    [iter_while_exit] then says that the loop ends through its own guard and
    [iter_while_unfold] that it satisfies the equation of the [while] loop, so
    the bound is never what stops it. *)

Section iter_while.
Context {S : Type} (cond : S -> bool) (body : S -> S).

Fixpoint iter_while (fuel : nat) (s : S) : S :=
  match fuel with
  | O => s
  | Datatypes.S n => if cond s then iter_while n (body s) else s
  end.

Lemma iter_while_stop fuel s : cond s = false -> iter_while fuel s = s.
Proof. intros H. destruct fuel; simpl; [done|]. by rewrite H. Qed.

Lemma iter_while_inv (P : S -> Prop) fuel s :
  (forall s, P s -> cond s = true -> P (body s)) -> P s -> P (iter_while fuel s).
Proof.
  intros Hstep. revert s. induction fuel as [|n IH]; simpl; [done|].
  intros s Hs. destruct (cond s) eqn:E; [|done]. apply IH, Hstep; done.
Qed.

Context (P : S -> Prop) (measure : S -> nat).
Hypothesis Hpres : forall s, P s -> cond s = true -> P (body s).
Hypothesis Hdecr :
  forall s, P s -> cond s = true -> (measure (body s) < measure s)%nat.

Lemma iter_while_exit fuel s :
  P s -> (measure s <= fuel)%nat -> cond (iter_while fuel s) = false.
Proof.
  revert s. induction fuel as [|n IH]; simpl; intros s Hs Hm.
  - destruct (cond s) eqn:E; [|done]. specialize (Hdecr s Hs E). lia.
  - destruct (cond s) eqn:E; [|done].
    apply IH; [by apply Hpres|]. specialize (Hdecr s Hs E). lia.
Qed.

Lemma iter_while_fuel fuel1 fuel2 s :
  P s -> (measure s <= fuel1)%nat -> (measure s <= fuel2)%nat ->
  iter_while fuel1 s = iter_while fuel2 s.
Proof.
  revert fuel2 s. induction fuel1 as [|n IH]; intros fuel2 s Hs H1 H2.
  - destruct (cond s) eqn:E; [specialize (Hdecr s Hs E); lia|].
    by rewrite !iter_while_stop.
  - destruct (cond s) eqn:E; [|by rewrite !iter_while_stop].
    specialize (Hdecr s Hs E). destruct fuel2 as [|m]; [lia|].
    simpl. rewrite E. apply IH; [by apply Hpres|lia|lia].
Qed.

Lemma iter_while_unfold fuel s :
  P s -> (measure s <= fuel)%nat ->
  iter_while fuel s = if cond s then iter_while fuel (body s) else s.
Proof.
  intros Hs Hm. destruct (cond s) eqn:E; [|by rewrite iter_while_stop].
  specialize (Hdecr s Hs E) as Hd. destruct fuel as [|n]; [lia|].
  transitivity (iter_while n (body s)); [simpl; by rewrite E|].
  apply iter_while_fuel; [by apply Hpres|lia|lia].
Qed.
End iter_while.

(** ** Reachability *)

Inductive star {A : Type} (R : A -> A -> Prop) (a : A) : A -> Prop :=
| star_refl : star R a a
| star_snoc b c : star R a b -> R b c -> star R a c.

Lemma star_inv {A} (R : A -> A -> Prop) (P : A -> Prop) a b :
  (forall x y, P x -> R x y -> P y) -> P a -> star R a b -> P b.
Proof. intros Hstep Ha Hs. induction Hs; eauto. Qed.

(** What every step of a loop keeps holds at its end. *)
Lemma fold_left_inv {A B} (P : A -> Prop) (f : A -> B -> A) l a :
  (forall a b, P a -> P (f a b)) -> P a -> P (fold_left f l a).
Proof. intros Hf. revert a. induction l as [|b l IH]; intros a Ha; [done|]. by apply IH, Hf. Qed.

Lemma star_trans {A} (R : A -> A -> Prop) a b c : star R a b -> star R b c -> star R a c.
Proof. intros Hab Hbc. induction Hbc; [done|]. by eapply star_snoc. Qed.

Lemma star_one {A} (R : A -> A -> Prop) a b : R a b -> star R a b.
Proof. intros H. eapply star_snoc; [apply star_refl|done]. Qed.

(** Every execution from [a] reaches [P]: [P] holds already, or some step is
    possible and every step leads to a state from which it is reached. *)
Inductive inevitable {A : Type} (R : A -> A -> Prop) (P : A -> Prop) (a : A) : Prop :=
| inevitable_now : P a -> inevitable R P a
| inevitable_next : (exists b, R a b) -> (forall b, R a b -> inevitable R P b) -> inevitable R P a.

(** A measure that every step before [P] decreases. *)
Lemma inevitable_measure {A} (R : A -> A -> Prop) (P I : A -> Prop) (m : A -> nat) a :
  (forall x, I x -> exists y, R x y) ->
  (forall x y, I x -> R x y -> P y \/ (I y /\ (m y < m x)%nat)) ->
  I a -> inevitable R P a.
Proof.
  intros Hprog Hstep. remember (m a) as n eqn:E. revert a E.
  induction (lt_wf n) as [n _ IH]. intros a -> Ha.
  apply inevitable_next; [auto|]. intros b Hb.
  destruct (Hstep a b Ha Hb) as [Hp|[Hi Hm]]; [by apply inevitable_now|]. by eapply IH.
Qed.

(** ** Options and lists *)

Lemma is_Some_if {A} (b : bool) (x : A) :
  is_Some (if b then Some x else None) <-> b = true.
Proof. destruct b; split; [done|by eexists|by intros [? [=]]|done]. Qed.

(** A list without duplicates whose elements fall in a window of [n] integers has
    at most [n] elements. *)
Lemma NoDup_window_length (l : list Z) lo (n : nat) :
  NoDup l -> (forall x, x ∈ l -> lo <= x < lo + Z.of_nat n) -> (length l <= n)%nat.
Proof.
  intros Hnd Hin.
  replace n with (length (seqZ lo (Z.of_nat n))) by (rewrite length_seqZ; lia).
  apply submseteq_length, NoDup_submseteq; [done|].
  intros x Hx. apply elem_of_seqZ, Hin, Hx.
Qed.
