(* ===== verification/StdMap.v ===== *)
(** [std::map<std::uint32_t, V>]: an ordered map, iterated in ascending key order.

    [TxSessionState::inflight] and [RxSessionState::ordered_reorder_buffer] are
    ordered maps whose iteration order decides which packet is retransmitted
    first, so they are association lists kept strictly sorted by key
    ([smap_sorted]). The operations are the ones the source uses: [find],
    [operator[]=], [emplace], [erase] and assignment through an iterator. *)

From S2P Require Import Prelude.

Section std_map.
Context {V : Type}.
Implicit Types (m : list (Z * V)) (k : Z) (v : V).

Fixpoint smap_find (k : Z) (m : list (Z * V)) : option V :=
  match m with
  | [] => None
  | (k', v) :: m' => if k =? k' then Some v else smap_find k m'
  end.

(** [m[k] = v] and [insert_or_assign]. *)
Fixpoint smap_assign (k : Z) (v : V) (m : list (Z * V)) : list (Z * V) :=
  match m with
  | [] => [(k, v)]
  | (k', v') :: m' =>
      if k <? k' then (k, v) :: m
      else if k =? k' then (k, v) :: m'
      else (k', v') :: smap_assign k v m'
  end.

(** [m.emplace(k, v)]: does nothing when [k] is already a key. *)
Definition smap_emplace (k : Z) (v : V) (m : list (Z * V)) : list (Z * V) :=
  match smap_find k m with
  | Some _ => m
  | None => smap_assign k v m
  end.

Fixpoint smap_erase (k : Z) (m : list (Z * V)) : list (Z * V) :=
  match m with
  | [] => []
  | (k', v') :: m' => if k =? k' then m' else (k', v') :: smap_erase k m'
  end.

(** [it->second = f(it->second)] for [it = m.find(k)]. *)
Definition smap_alter (f : V -> V) (k : Z) (m : list (Z * V)) : list (Z * V) :=
  map (fun '(k', v) => (k', if k =? k' then f v else v)) m.

Definition smap_sorted (m : list (Z * V)) : Prop :=
  StronglySorted Z.lt (map fst m).

(** *** Lookup laws *)

Lemma smap_find_Some_in k v m : smap_find k m = Some v -> (k, v) ∈ m.
Proof.
  induction m as [|[k' v'] m IH]; simpl; [done|].
  destruct (Z.eqb_spec k k') as [->|Hne].
  - intros [= ->]. apply list_elem_of_here.
  - intros H. apply list_elem_of_further, IH, H.
Qed.

Lemma smap_find_None k m : smap_find k m = None <-> k ∉ map fst m.
Proof.
  induction m as [|[k' v'] m IH]; simpl.
  - split; [intros _; apply not_elem_of_nil|done].
  - rewrite not_elem_of_cons. destruct (Z.eqb_spec k k'); naive_solver.
Qed.

Lemma smap_find_is_Some k m : is_Some (smap_find k m) <-> k ∈ map fst m.
Proof.
  rewrite <- not_eq_None_Some, smap_find_None.
  destruct (decide (k ∈ map fst m)); naive_solver.
Qed.

Lemma smap_sorted_cons k v m :
  smap_sorted ((k, v) :: m) <->
  smap_sorted m /\ forall k', k' ∈ map fst m -> k < k'.
Proof.
  unfold smap_sorted. simpl. split.
  - intros H. apply StronglySorted_inv in H as [H1 H2]. split; [done|].
    rewrite Forall_forall in H2. intros k' Hk'. apply H2. done.
  - intros [H1 H2]. constructor; [done|]. apply Forall_forall.
    intros x Hx. apply H2. done.
Qed.

Lemma smap_sorted_NoDup m : smap_sorted m -> NoDup (map fst m).
Proof.
  induction m as [|[k v] m IH]; intros H; simpl; [constructor|].
  apply smap_sorted_cons in H as [H1 H2]. constructor; [|auto].
  intros Hin. specialize (H2 _ Hin). lia.
Qed.

Lemma smap_find_in k v m : smap_sorted m -> (k, v) ∈ m -> smap_find k m = Some v.
Proof.
  induction m as [|[k' v'] m IH]; intros Hs Hin; [by apply not_elem_of_nil in Hin|].
  apply smap_sorted_cons in Hs as [Hs Hlt]. simpl.
  apply elem_of_cons in Hin as [[= -> ->]|Hin]; [by rewrite Z.eqb_refl|].
  assert (k' < k) by (apply Hlt, list_elem_of_fmap; exists (k, v); done).
  destruct (Z.eqb_spec k k'); [lia|]. by apply IH.
Qed.

Lemma smap_find_assign k k' v m :
  smap_find k' (smap_assign k v m) = if k' =? k then Some v else smap_find k' m.
Proof.
  induction m as [|[k0 v0] m IH]; simpl; [by destruct (k' =? k)|].
  destruct (Z.ltb_spec k k0); [done|].
  destruct (Z.eqb_spec k k0) as [<-|Hne]; simpl.
  - by destruct (k' =? k).
  - rewrite IH. destruct (Z.eqb_spec k' k0), (Z.eqb_spec k' k); congruence || done.
Qed.

Lemma smap_assign_keys k v m k' :
  k' ∈ map fst (smap_assign k v m) <-> k' = k \/ k' ∈ map fst m.
Proof.
  rewrite <- !smap_find_is_Some, smap_find_assign.
  destruct (Z.eqb_spec k' k); [|naive_solver].
  split; [by left|intros _; by eexists].
Qed.

Lemma smap_assign_sorted k v m : smap_sorted m -> smap_sorted (smap_assign k v m).
Proof.
  induction m as [|[k0 v0] m IH]; simpl; intros Hs.
  - apply smap_sorted_cons. split; [done|]. intros k' Hk. by apply not_elem_of_nil in Hk.
  - pose proof Hs as Hs0. apply smap_sorted_cons in Hs as [Hs Hlt].
    destruct (Z.ltb_spec k k0).
    + apply smap_sorted_cons. split; [done|]. simpl. intros k' Hk.
      apply elem_of_cons in Hk as [->|Hk]; [lia|]. specialize (Hlt _ Hk). lia.
    + destruct (Z.eqb_spec k k0) as [->|Hne].
      * apply smap_sorted_cons. done.
      * apply smap_sorted_cons. split; [auto|]. intros k' Hk.
        apply smap_assign_keys in Hk as [->|Hk]; [lia|auto].
Qed.

Lemma smap_assign_Forall (P : Z * V -> Prop) k v m :
  P (k, v) -> Forall P m -> Forall P (smap_assign k v m).
Proof.
  intros Hp Hm. induction Hm as [|[k0 v0] m H0 Hm IH]; simpl; [by repeat constructor|].
  repeat case_match; repeat constructor; done.
Qed.

(** *** Emplace *)

Lemma smap_emplace_fresh k v m :
  smap_find k m = None -> smap_emplace k v m = smap_assign k v m.
Proof. intros H. unfold smap_emplace. by rewrite H. Qed.

Lemma smap_emplace_sorted k v m : smap_sorted m -> smap_sorted (smap_emplace k v m).
Proof. unfold smap_emplace. case_match; [done|]. apply smap_assign_sorted. Qed.

Lemma smap_emplace_Forall (P : Z * V -> Prop) k v m :
  P (k, v) -> Forall P m -> Forall P (smap_emplace k v m).
Proof. unfold smap_emplace. case_match; [done|]. apply smap_assign_Forall. Qed.

(** *** Erase *)

Lemma smap_erase_elem k m x : x ∈ smap_erase k m -> x ∈ m.
Proof.
  induction m as [|[k0 v0] m IH]; simpl; [done|].
  destruct (k =? k0); intros Hx; [by apply list_elem_of_further|].
  apply elem_of_cons in Hx as [->|Hx]; [apply list_elem_of_here|].
  apply list_elem_of_further, IH, Hx.
Qed.

Lemma smap_erase_Forall (P : Z * V -> Prop) k m :
  Forall P m -> Forall P (smap_erase k m).
Proof.
  rewrite !Forall_forall. intros H x Hx. apply H, smap_erase_elem with k, Hx.
Qed.

Lemma smap_erase_sorted k m : smap_sorted m -> smap_sorted (smap_erase k m).
Proof.
  induction m as [|[k0 v0] m IH]; simpl; [done|]. intros Hs.
  apply smap_sorted_cons in Hs as [Hs Hlt]. destruct (k =? k0); [done|].
  apply smap_sorted_cons. split; [auto|]. intros k' Hk. apply Hlt.
  apply list_elem_of_fmap in Hk as [x [-> Hx]]. apply list_elem_of_fmap.
  exists x. split; [done|]. by apply smap_erase_elem with k.
Qed.

Lemma smap_find_erase k k' m :
  smap_sorted m ->
  smap_find k' (smap_erase k m) = if k' =? k then None else smap_find k' m.
Proof.
  induction m as [|[k0 v0] m IH]; simpl; intros Hs; [by case_match|].
  apply smap_sorted_cons in Hs as [Hs Hlt].
  destruct (Z.eqb_spec k k0) as [<-|Hne]; simpl.
  - destruct (Z.eqb_spec k' k) as [->|]; [|done].
    apply smap_find_None. intros Hin. specialize (Hlt _ Hin). lia.
  - rewrite IH by done. destruct (Z.eqb_spec k' k0), (Z.eqb_spec k' k); congruence || done.
Qed.

Lemma smap_erase_length k v m :
  smap_find k m = Some v -> length m = S (length (smap_erase k m)).
Proof.
  induction m as [|[k0 v0] m IH]; simpl; [done|].
  destruct (k =? k0); [done|]. simpl. intros H. by rewrite <- IH.
Qed.

(** *** Alter and filter *)

Lemma smap_alter_keys f k m : map fst (smap_alter f k m) = map fst m.
Proof. induction m as [|[k0 v0] m IH]; simpl; [done|]. by rewrite IH. Qed.

Lemma smap_alter_sorted f k m : smap_sorted m -> smap_sorted (smap_alter f k m).
Proof. unfold smap_sorted. by rewrite smap_alter_keys. Qed.

Lemma smap_find_alter f k k' m :
  smap_find k' (smap_alter f k m) =
  if k' =? k then f <$> smap_find k m else smap_find k' m.
Proof.
  induction m as [|[k0 v0] m IH]; simpl; [by case_match|]. rewrite IH.
  destruct (Z.eqb_spec k k0) as [<-|], (Z.eqb_spec k' k) as [->|]; simpl;
    try rewrite Z.eqb_refl; try done.
  destruct (Z.eqb_spec k k0); [done|]. done.
Qed.

Lemma smap_alter_Forall (P : Z * V -> Prop) f k m :
  (forall v, P (k, v) -> P (k, f v)) -> Forall P m -> Forall P (smap_alter f k m).
Proof.
  intros Hf Hm. induction Hm as [|[k0 v0] m H0 Hm IH]; simpl; [done|].
  constructor; [|done]. destruct (Z.eqb_spec k k0) as [<-|]; auto.
Qed.

Lemma smap_filter_sorted (p : Z * V -> bool) m :
  smap_sorted m -> smap_sorted (List.filter p m).
Proof.
  induction m as [|[k v] m IH]; simpl; [done|]. intros Hs.
  apply smap_sorted_cons in Hs as [Hs Hlt]. destruct (p (k, v)); [|auto].
  apply smap_sorted_cons. split; [auto|]. intros k' Hk. apply Hlt.
  apply list_elem_of_fmap in Hk as [x [-> Hx]].
  apply list_elem_of_In, filter_In in Hx as [Hx _].
  apply list_elem_of_fmap. exists x. split; [done|]. by apply list_elem_of_In.
Qed.

Lemma smap_find_filter (p : Z * V -> bool) k m :
  smap_sorted m ->
  smap_find k (List.filter p m) =
  match smap_find k m with
  | Some v => if p (k, v) then Some v else None
  | None => None
  end.
Proof.
  intros Hs. destruct (smap_find k m) as [v|] eqn:E.
  - destruct (p (k, v)) eqn:Ep.
    + apply smap_find_in; [by apply smap_filter_sorted|].
      apply list_elem_of_In, filter_In. split; [|done].
      apply list_elem_of_In, smap_find_Some_in, E.
    + destruct (smap_find k (List.filter p m)) as [v'|] eqn:E'; [|done].
      apply smap_find_Some_in, list_elem_of_In, filter_In in E' as [Hin Hp].
      apply list_elem_of_In, smap_find_in in Hin; [|done]. congruence.
  - apply smap_find_None in E. apply smap_find_None. intros Hin. apply E.
    apply list_elem_of_fmap in Hin as [x [-> Hx]].
    apply list_elem_of_In, filter_In in Hx as [Hx _].
    apply list_elem_of_fmap. exists x. split; [done|]. by apply list_elem_of_In.
Qed.

(** Removing or overwriting the element at an iterator. *)
Lemma smap_sorted_remove m1 x m2 : smap_sorted (m1 ++ x :: m2) -> smap_sorted (m1 ++ m2).
Proof.
  induction m1 as [|[k v] m1 IH]; simpl.
  - destruct x. intros H. apply smap_sorted_cons in H as [H _]. exact H.
  - rewrite !smap_sorted_cons. intros [H1 H2]. split; [auto|]. intros k' Hk'.
    apply H2. rewrite map_app, elem_of_app in *. simpl. rewrite elem_of_cons. tauto.
Qed.

Lemma smap_sorted_update m1 k v v' m2 :
  smap_sorted (m1 ++ (k, v) :: m2) -> smap_sorted (m1 ++ (k, v') :: m2).
Proof. unfold smap_sorted. by rewrite !map_app. Qed.

Lemma smap_find_middle m1 k v m2 :
  smap_sorted (m1 ++ (k, v) :: m2) -> smap_find k (m1 ++ (k, v) :: m2) = Some v.
Proof. intros H. apply smap_find_in; [done|]. apply list_elem_of_In, in_elt. Qed.

(** The keys below the one at an iterator are the ones before it. *)
Lemma smap_find_prefix m1 k v m2 k' v' :
  smap_sorted (m1 ++ (k, v) :: m2) -> smap_find k' (m1 ++ (k, v) :: m2) = Some v' ->
  k' < k -> (k', v') ∈ m1.
Proof.
  induction m1 as [|[k1 v1] m1 IH]; intros Hs Hf Hlt; simpl in *.
  - destruct (Z.eqb_spec k' k); [lia|]. apply smap_sorted_cons in Hs as [_ Hall].
    apply smap_find_Some_in in Hf.
    assert (k < k') by (apply Hall, list_elem_of_fmap; by exists (k', v')). lia.
  - apply smap_sorted_cons in Hs as [Hs _].
    destruct (Z.eqb_spec k' k1) as [->|]; [injection Hf as ->; apply list_elem_of_here|].
    apply list_elem_of_further. by apply IH.
Qed.

Lemma smap_find_update m1 k v v' m2 k' :
  k' <> k -> smap_find k' (m1 ++ (k, v') :: m2) = smap_find k' (m1 ++ (k, v) :: m2).
Proof.
  intros Hne. induction m1 as [|[k1 v1] m1 IH]; simpl.
  - by destruct (Z.eqb_spec k' k).
  - by rewrite IH.
Qed.

Lemma smap_find_remove m1 k v m2 k' :
  k' <> k -> smap_find k' (m1 ++ m2) = smap_find k' (m1 ++ (k, v) :: m2).
Proof.
  intros Hne. induction m1 as [|[k1 v1] m1 IH]; simpl.
  - by destruct (Z.eqb_spec k' k).
  - by rewrite IH.
Qed.
End std_map.

#[export] Hint Resolve smap_assign_sorted smap_emplace_sorted smap_erase_sorted
  smap_alter_sorted smap_filter_sorted : rudp.
