(* ===== verification/Protocol.v ===== *)
(** Protocol constants, the packet header and sequence-number arithmetic
    ([include/Rudp/Protocol.hpp], [src/Protocol.cpp]).

    Sequence numbers live in [0, 2^32) and are compared modulo 2^32. The
    theorems below say when that comparison is the order one wants: against any
    front [f], the numbers less than 2^31 ahead of it. *)

From S2P Require Import Prelude.

(** ** Constants and enumerations *)

Definition kHeaderLength : Z := 28.
Definition kAckBitsWindow : Z := 64.
Definition kReliableWindowSize : Z := 64.

(** [enum class ChannelType : std::uint8_t]. The decoder casts an arbitrary byte
    to this type before validating it, so the values without an enumerator are
    kept ([UnnamedChannel v], [3 < v < 256]). *)
Inductive ChannelType :=
| ReliableOrdered
| ReliableUnordered
| Unreliable
| MonotonicState
| UnnamedChannel (v : Z).

#[export] Instance ChannelType_eq_dec : EqDecision ChannelType.
Proof. solve_decision. Defined.

(** [static_cast<ChannelType>(byte)] and [static_cast<std::uint8_t>(type)]. *)
Definition channel_type_of_u8 (b : Z) : ChannelType :=
  if b =? 0 then ReliableOrdered
  else if b =? 1 then ReliableUnordered
  else if b =? 2 then Unreliable
  else if b =? 3 then MonotonicState
  else UnnamedChannel b.

Definition u8_of_channel_type (t : ChannelType) : Z :=
  match t with
  | ReliableOrdered => 0
  | ReliableUnordered => 1
  | Unreliable => 2
  | MonotonicState => 3
  | UnnamedChannel v => v
  end.

Inductive Flag := FlagSyn | FlagFin | FlagRst | FlagPing | FlagPong | FlagAck.

(** [static_cast<Flags>(flag)]. *)
Definition flag_bits (f : Flag) : Z :=
  match f with
  | FlagSyn => 0x01
  | FlagFin => 0x02
  | FlagRst => 0x04
  | FlagPing => 0x08
  | FlagPong => 0x10
  | FlagAck => 0x20
  end.

(** [operator|(Flag, Flag)] and [operator|(Flags, Flag)]. *)
Definition flag_or (lhs rhs : Flag) : Z := Z.lor (flag_bits lhs) (flag_bits rhs).
Definition flags_or (lhs : Z) (rhs : Flag) : Z := u8 (Z.lor lhs (flag_bits rhs)).

(** ** Header *)

Record Header := mkHeader {
  hdr_conn_id : Z;
  hdr_seq : Z;
  hdr_ack : Z;
  hdr_ack_bits : Z;
  hdr_channel_id : Z;
  hdr_channel_type : ChannelType;
  hdr_flags : Z;
  hdr_header_len : Z;
  hdr_reserved : Z
}.

(** [Header{}]: the default member initialisers. *)
Definition default_header : Header :=
  {| hdr_conn_id := 0; hdr_seq := 0; hdr_ack := 0; hdr_ack_bits := 0;
     hdr_channel_id := 0; hdr_channel_type := Unreliable; hdr_flags := 0;
     hdr_header_len := kHeaderLength; hdr_reserved := 0 |}.

#[export] Instance set_hdr_ack : Setter hdr_ack := fun f h =>
  mkHeader (hdr_conn_id h) (hdr_seq h) (f (hdr_ack h)) (hdr_ack_bits h)
    (hdr_channel_id h) (hdr_channel_type h) (hdr_flags h) (hdr_header_len h) (hdr_reserved h).
#[export] Instance set_hdr_ack_bits : Setter hdr_ack_bits := fun f h =>
  mkHeader (hdr_conn_id h) (hdr_seq h) (hdr_ack h) (f (hdr_ack_bits h))
    (hdr_channel_id h) (hdr_channel_type h) (hdr_flags h) (hdr_header_len h) (hdr_reserved h).
#[export] Instance set_hdr_conn_id : Setter hdr_conn_id := fun f h =>
  mkHeader (f (hdr_conn_id h)) (hdr_seq h) (hdr_ack h) (hdr_ack_bits h)
    (hdr_channel_id h) (hdr_channel_type h) (hdr_flags h) (hdr_header_len h) (hdr_reserved h).
#[export] Instance set_hdr_seq : Setter hdr_seq := fun f h =>
  mkHeader (hdr_conn_id h) (f (hdr_seq h)) (hdr_ack h) (hdr_ack_bits h)
    (hdr_channel_id h) (hdr_channel_type h) (hdr_flags h) (hdr_header_len h) (hdr_reserved h).
#[export] Instance set_hdr_channel_id : Setter hdr_channel_id := fun f h =>
  mkHeader (hdr_conn_id h) (hdr_seq h) (hdr_ack h) (hdr_ack_bits h)
    (f (hdr_channel_id h)) (hdr_channel_type h) (hdr_flags h) (hdr_header_len h) (hdr_reserved h).
#[export] Instance set_hdr_channel_type : Setter hdr_channel_type := fun f h =>
  mkHeader (hdr_conn_id h) (hdr_seq h) (hdr_ack h) (hdr_ack_bits h)
    (hdr_channel_id h) (f (hdr_channel_type h)) (hdr_flags h) (hdr_header_len h) (hdr_reserved h).
#[export] Instance set_hdr_flags : Setter hdr_flags := fun f h =>
  mkHeader (hdr_conn_id h) (hdr_seq h) (hdr_ack h) (hdr_ack_bits h)
    (hdr_channel_id h) (hdr_channel_type h) (f (hdr_flags h)) (hdr_header_len h) (hdr_reserved h).
#[export] Instance set_hdr_header_len : Setter hdr_header_len := fun f h =>
  mkHeader (hdr_conn_id h) (hdr_seq h) (hdr_ack h) (hdr_ack_bits h)
    (hdr_channel_id h) (hdr_channel_type h) (hdr_flags h) (f (hdr_header_len h)) (hdr_reserved h).
#[export] Instance set_hdr_reserved : Setter hdr_reserved := fun f h =>
  mkHeader (hdr_conn_id h) (hdr_seq h) (hdr_ack h) (hdr_ack_bits h)
    (hdr_channel_id h) (hdr_channel_type h) (hdr_flags h) (hdr_header_len h) (f (hdr_reserved h)).

Definition hasFlag (h : Header) (flag : Flag) : bool :=
  negb (Z.land (hdr_flags h) (flag_bits flag) =? 0).

(** [PacketView]: a header and a view of the payload. *)
Record PacketView := mkPacketView {
  pv_header : Header;
  pv_payload : bytes
}.

(** A value of the enumeration: one of the enumerators, or a byte above them. *)
Definition channel_type_typed (t : ChannelType) : Prop :=
  match t with UnnamedChannel v => 3 < v < 2 ^ 8 | _ => True end.

(** The fields fit the widths of the struct. *)
Record header_typed (h : Header) : Prop := mk_header_typed {
  ht_conn_id : is_u32 (hdr_conn_id h);
  ht_seq : is_u32 (hdr_seq h);
  ht_ack : is_u32 (hdr_ack h);
  ht_ack_bits : is_u64 (hdr_ack_bits h);
  ht_channel_id : is_u32 (hdr_channel_id h);
  ht_channel_type : channel_type_typed (hdr_channel_type h);
  ht_flags : is_u8 (hdr_flags h);
  ht_header_len : is_u8 (hdr_header_len h);
  ht_reserved : is_u8 (hdr_reserved h)
}.

(** ** Sequence numbers *)

Definition seq_lt (lhs rhs : Z) : bool := s32 (lhs - rhs) <? 0.
Definition seq_le (lhs rhs : Z) : bool := s32 (lhs - rhs) <=? 0.
Definition seq_gt (lhs rhs : Z) : bool := seq_lt rhs lhs.
Definition seq_ge (lhs rhs : Z) : bool := seq_le rhs lhs.

Definition isReliableChannel (type : ChannelType) : bool :=
  bool_decide (type = ReliableOrdered) || bool_decide (type = ReliableUnordered).

(** ** Lemmas *)

Lemma u8_of_channel_type_of b : u8_of_channel_type (channel_type_of_u8 b) = b.
Proof. unfold channel_type_of_u8. repeat case_match; simpl; lia. Qed.

Lemma channel_type_of_u8_typed b : is_u8 b -> channel_type_typed (channel_type_of_u8 b).
Proof.
  unfold channel_type_of_u8, is_u8. intros Hb. repeat case_match; simpl; try done.
  repeat match goal with H : (_ =? _) = false |- _ => apply Z.eqb_neq in H end. lia.
Qed.

Lemma channel_type_of_u8_of_typed t :
  channel_type_typed t -> channel_type_of_u8 (u8_of_channel_type t) = t.
Proof.
  destruct t as [| | | |v]; try done. simpl. intros Hv. unfold channel_type_of_u8.
  by rewrite !(proj2 (Z.eqb_neq _ _)) by lia.
Qed.

Lemma u8_of_channel_type_range t :
  channel_type_typed t -> is_u8 (u8_of_channel_type t).
Proof. unfold is_u8. destruct t; simpl; lia. Qed.

Lemma isReliableChannel_cases t :
  isReliableChannel t = true <-> t = ReliableOrdered \/ t = ReliableUnordered.
Proof.
  unfold isReliableChannel. rewrite orb_true_iff, !bool_decide_eq_true. done.
Qed.

#[export] Hint Resolve u8_of_channel_type_range channel_type_of_u8_typed : rudp.

(** The distance of [x] past the front [f], going up modulo 2^32. *)
Definition seq_offset (f x : Z) : Z := u32 (x - f).

Lemma seq_lt_offset a b : seq_lt a b = (2 ^ 31 <=? seq_offset b a).
Proof. unfold seq_lt, seq_offset. word_lia. Qed.

Lemma seq_gt_offset a b : seq_gt a b = (2 ^ 31 <=? seq_offset a b).
Proof. apply seq_lt_offset. Qed.

Lemma seq_lt_irrefl a : seq_lt a a = false.
Proof. unfold seq_lt. rewrite Z.sub_diag. done. Qed.

Lemma seq_offset_range f x : is_u32 (seq_offset f x).
Proof. apply u32_range. Qed.

Lemma seq_offset_add f i : is_u32 i -> seq_offset f (u32 (f + i)) = i.
Proof.
  intros Hi. unfold seq_offset. autorewrite with u32.
  replace (f + i - f) with i by lia. by apply u32_id.
Qed.

Lemma seq_offset_inv f x : is_u32 x -> u32 (f + seq_offset f x) = x.
Proof.
  intros Hx. unfold seq_offset. autorewrite with u32.
  replace (f + (x - f)) with x by lia. by apply u32_id.
Qed.

Lemma seq_offset_0 f x : is_u32 f -> is_u32 x -> seq_offset f x = 0 <-> x = f.
Proof.
  intros Hf Hx. split; [|intros ->; unfold seq_offset; by rewrite Z.sub_diag].
  intros H. rewrite <- (seq_offset_inv f x Hx), H, Z.add_0_r. by apply u32_id.
Qed.

(** Moving the front of an offset. *)
Lemma seq_offset_shift f d x :
  0 <= d <= seq_offset f x -> seq_offset (u32 (f + d)) x = seq_offset f x - d.
Proof. unfold seq_offset. autorewrite with u32. word_lia. Qed.

#[export] Hint Resolve seq_offset_range : rudp.

Lemma s32_window f a b :
  0 <= a < 2 ^ 31 -> 0 <= b < 2 ^ 31 -> s32 (u32 (f + a) - u32 (f + b)) = a - b.
Proof.
  intros Ha Hb. unfold s32. autorewrite with u32.
  replace (f + a - (f + b)) with (a - b) by lia. word_lia.
Qed.

Lemma seq_le_window f i j :
  0 <= i < 2 ^ 31 -> 0 <= j < 2 ^ 31 -> seq_le (u32 (f + i)) (u32 (f + j)) = (i <=? j).
Proof. intros Hi Hj. unfold seq_le. rewrite s32_window by done. lia. Qed.

(** ** Properties *)

(** C29: the modular comparisons order the window of 2^31 numbers after any
    front [f], across the wrap at 2^32, exactly as their distances from [f]. *)
Theorem seq_order_window f i j :
  0 <= i < 2 ^ 31 -> 0 <= j < 2 ^ 31 ->
  seq_lt (u32 (f + i)) (u32 (f + j)) = (i <? j) /\
  seq_le (u32 (f + i)) (u32 (f + j)) = (i <=? j) /\
  seq_gt (u32 (f + i)) (u32 (f + j)) = (j <? i) /\
  seq_ge (u32 (f + i)) (u32 (f + j)) = (j <=? i).
Proof.
  intros Hi Hj. unfold seq_gt, seq_ge, seq_lt, seq_le.
  rewrite !s32_window by done. repeat split; lia.
Qed.

Lemma seq_order_window_witness :
  seq_lt (u32 (4294967295 + 0)) (u32 (4294967295 + 2)) = (0 <? 2).
Proof. apply (seq_order_window 4294967295 0 2); lia. Defined.
