(* ===== verification/Utils.v ===== *)
(** Big-endian reads and writes of the packet buffer
    ([src/Utils.cpp], [readU32] .. [writeU64]).

    Accesses outside the buffer are undefined in the source; here a read outside
    gives 0 and a write outside does nothing, and [Codec] shows that its accesses
    are all inside. [be_combine] and [be_split] are the reference big-endian
    codec the routines are shown equal to. *)

From S2P Require Import Prelude Protocol.

Definition byte_at (bs : bytes) (i : nat) : Z := default 0 (bs !! i).

(** ** Operations *)

Definition readU32 (bs : bytes) (offset : nat) : Z :=
  Z.lor (Z.lor (Z.lor (u32 (Z.shiftl (byte_at bs (offset + 0)) 24))
                      (u32 (Z.shiftl (byte_at bs (offset + 1)) 16)))
               (u32 (Z.shiftl (byte_at bs (offset + 2)) 8)))
        (byte_at bs (offset + 3)).

Definition readU64 (bs : bytes) (offset : nat) : Z :=
  fold_left (fun value index =>
               Z.lor (u64 (Z.shiftl value 8)) (byte_at bs (offset + index)))
            (seq 0 8) 0.

Definition writeU32 (bs : bytes) (offset : nat) (value : Z) : bytes :=
  <[(offset + 3)%nat := u8 (Z.land value 0xff)]>
  (<[(offset + 2)%nat := u8 (Z.land (Z.shiftr value 8) 0xff)]>
   (<[(offset + 1)%nat := u8 (Z.land (Z.shiftr value 16) 0xff)]>
    (<[(offset + 0)%nat := u8 (Z.land (Z.shiftr value 24) 0xff)]> bs))).

Definition writeU64 (bs : bytes) (offset : nat) (value : Z) : bytes :=
  fold_left (fun bs index =>
               let shift := Z.of_nat ((7 - index) * 8) in
               <[(offset + index)%nat := u8 (Z.land (Z.shiftr value shift) 0xff)]> bs)
            (seq 0 8) bs.

(** ** Reference big-endian codec *)

Definition be_combine (l : bytes) : Z := fold_left (fun acc b => acc * 256 + b) l 0.

Fixpoint be_split (n : nat) (v : Z) : bytes :=
  match n with
  | O => []
  | S n' => (v / 256 ^ Z.of_nat n') mod 256 :: be_split n' v
  end.

Lemma be_combine_snoc l b : be_combine (l ++ [b]) = be_combine l * 256 + b.
Proof. unfold be_combine. by rewrite fold_left_app. Qed.

Lemma be_split_snoc n v : be_split (S n) v = be_split n (v / 256) ++ [v mod 256].
Proof.
  revert v. induction n as [|n IH]; intros v; [simpl; by rewrite Z.div_1_r|].
  change (be_split (S (S n)) v) with ((v / 256 ^ Z.of_nat (S n)) mod 256 :: be_split (S n) v).
  rewrite IH. simpl be_split. rewrite <- app_comm_cons. f_equal.
  f_equal. rewrite Z.div_div by lia.
  f_equal. rewrite Nat2Z.inj_succ, Z.pow_succ_r; lia.
Qed.

Lemma be_split_length n v : length (be_split n v) = n.
Proof. induction n; simpl; congruence. Qed.

Lemma be_split_bytes n v : Forall is_u8 (be_split n v).
Proof.
  induction n; simpl; constructor; [|done]. apply Z.mod_pos_bound. lia.
Qed.

Lemma be_combine_split n v :
  0 <= v < 256 ^ Z.of_nat n -> be_combine (be_split n v) = v.
Proof.
  revert v. induction n as [|n IH]; intros v Hv.
  - rewrite Z.pow_0_r in Hv. change (be_combine (be_split 0 v)) with 0. lia.
  - rewrite be_split_snoc, be_combine_snoc, IH.
    + pose proof (Z.div_mod v 256). lia.
    + rewrite Nat2Z.inj_succ, Z.pow_succ_r in Hv by lia.
      split; [apply Z.div_pos; lia|apply Z.div_lt_upper_bound; lia].
Qed.

Lemma be_combine_range l :
  Forall is_u8 l -> 0 <= be_combine l < 256 ^ Z.of_nat (length l).
Proof.
  induction l as [|b l IH] using rev_ind; intros Hl.
  { change (be_combine []) with 0. rewrite Z.pow_0_r. lia. }
  apply Forall_app in Hl as [Hl Hb]. apply Forall_cons in Hb as [Hb _].
  specialize (IH Hl). rewrite be_combine_snoc, length_app, Nat.add_1_r.
  rewrite Nat2Z.inj_succ, Z.pow_succ_r by lia. unfold is_u8 in Hb.
  lia.
Qed.

Lemma be_split_combine l : Forall is_u8 l -> be_split (length l) (be_combine l) = l.
Proof.
  induction l as [|b l IH] using rev_ind; intros Hl; [done|].
  apply Forall_app in Hl as [Hl Hb]. apply Forall_cons in Hb as [Hb _]. unfold is_u8 in Hb.
  rewrite length_app, Nat.add_1_r, be_split_snoc, be_combine_snoc.
  replace ((be_combine l * 256 + b) / 256) with (be_combine l)
    by (Z.div_mod_to_equations; lia).
  replace ((be_combine l * 256 + b) mod 256) with b by (Z.div_mod_to_equations; lia).
  by rewrite IH.
Qed.

(** ** The routines implement the reference *)

Lemma lor_disjoint_add n a b :
  0 <= n -> 0 <= b < 2 ^ n -> Z.lor (a * 2 ^ n) b = a * 2 ^ n + b.
Proof.
  intros Hn Hb. rewrite <- Z.shiftl_mul_pow2 by done.
  assert (Hd : Z.land (Z.shiftl a n) b = 0).
  { apply Z.bits_inj'. intros i Hi. rewrite Z.land_spec, Z.testbit_0_l.
    destruct (Z_lt_le_dec i n).
    - by rewrite Z.shiftl_spec_low by lia.
    - rewrite (testbit_high n b) by lia. apply andb_false_r. }
  rewrite <- Z.lxor_lor by done. symmetry. by apply Z.add_nocarry_lxor.
Qed.

Lemma byte_mask v s :
  0 <= s -> u8 (Z.land (Z.shiftr v s) 0xff) = (v / 2 ^ s) mod 256.
Proof.
  intros Hs. change 0xff with (Z.ones 8). rewrite Z.land_ones by lia.
  rewrite Z.shiftr_div_pow2 by done. unfold u8. apply Zmod_mod.
Qed.

Lemma byte_mask_0 v : u8 (Z.land v 0xff) = (v / 2 ^ 0) mod 256.
Proof. rewrite <- (Z.shiftr_0_r v) at 1. by apply byte_mask. Qed.

Lemma byte_at_app_r l1 l2 i :
  byte_at (l1 ++ l2) (length l1 + i) = byte_at l2 i.
Proof. unfold byte_at. by rewrite lookup_app_r, Nat.add_comm, Nat.add_sub by lia. Qed.

(** [readU32] reads the four bytes at [offset], most significant first. *)
Lemma readU32_be pre l post :
  Forall is_u8 l -> length l = 4%nat ->
  readU32 (pre ++ l ++ post) (length pre) = be_combine l.
Proof.
  intros Hb Hl. destruct l as [|b0 [|b1 [|b2 [|b3 [|]]]]]; try discriminate Hl.
  repeat (apply Forall_cons in Hb as [? Hb]).
  unfold readU32. rewrite !byte_at_app_r. unfold byte_at. simpl.
  rewrite !Z.shiftl_mul_pow2 by lia. rewrite !u32_id by word_lia.
  rewrite (lor_disjoint_add 24 b0 (b1 * 2 ^ 16)) by word_lia.
  replace (b0 * 2 ^ 24 + b1 * 2 ^ 16) with ((b0 * 256 + b1) * 2 ^ 16) by lia.
  rewrite (lor_disjoint_add 16) by word_lia.
  replace ((b0 * 256 + b1) * 2 ^ 16 + b2 * 2 ^ 8)
    with (((b0 * 256 + b1) * 256 + b2) * 2 ^ 8) by lia.
  rewrite (lor_disjoint_add 8) by word_lia. unfold be_combine. simpl. lia.
Qed.

(** [readU64] reads the eight bytes at [offset], most significant first. *)
Lemma readU64_be pre l post :
  Forall is_u8 l -> length l = 8%nat ->
  readU64 (pre ++ l ++ post) (length pre) = be_combine l.
Proof.
  intros Hb Hl. unfold readU64.
  assert (Hstep : forall n, (n <= 8)%nat ->
    fold_left (fun value index =>
               Z.lor (u64 (Z.shiftl value 8)) (byte_at (pre ++ l ++ post) (length pre + index)))
            (seq 0 n) 0 = be_combine (take n l)); cycle 1.
  { rewrite Hstep by done. by rewrite take_ge by lia. }
  intros n Hn. induction n as [|n IH]; [done|].
  rewrite seq_S, fold_left_app, IH by lia. simpl.
  destruct (lookup_lt_is_Some_2 l n) as [b Hlk]; [lia|].
  rewrite byte_at_app_r. unfold byte_at. rewrite lookup_app_l, Hlk by lia. simpl.
  rewrite (take_S_r _ _ _ Hlk), be_combine_snoc.
  assert (Hr : 0 <= be_combine (take n l) < 256 ^ 7).
  { pose proof (be_combine_range (take n l) ltac:(by apply Forall_take)) as Hr.
    rewrite length_take in Hr. split; [lia|]. eapply Z.lt_le_trans; [apply Hr|].
    apply Z.pow_le_mono_r; lia. }
  assert (is_u8 b) by (eapply Forall_lookup_1; done).
  rewrite Z.shiftl_mul_pow2, u64_id by (word_unfold; lia).
  rewrite (lor_disjoint_add 8) by (word_unfold; lia). lia.
Qed.

Lemma split_at (bs : bytes) off n :
  bs = take off bs ++ take n (drop off bs) ++ drop (off + n) bs.
Proof. by rewrite <- drop_drop, take_drop, take_drop. Qed.

(** The reads in terms of the buffer and the offset. *)
Lemma readU32_spec bs off :
  Forall is_u8 bs -> (off + 4 <= length bs)%nat ->
  readU32 bs off = be_combine (take 4 (drop off bs)).
Proof.
  intros Hb Hl. rewrite (split_at bs off 4) at 1.
  replace off with (length (take off bs)) at 4 by (rewrite length_take; lia).
  apply readU32_be; [by apply Forall_take, Forall_drop|].
  rewrite length_take, length_drop. lia.
Qed.

Lemma readU64_spec bs off :
  Forall is_u8 bs -> (off + 8 <= length bs)%nat ->
  readU64 bs off = be_combine (take 8 (drop off bs)).
Proof.
  intros Hb Hl. rewrite (split_at bs off 8) at 1.
  replace off with (length (take off bs)) at 4 by (rewrite length_take; lia).
  apply readU64_be; [by apply Forall_take, Forall_drop|].
  rewrite length_take, length_drop. lia.
Qed.

Lemma writeU32_be pre a0 a1 a2 a3 post v :
  writeU32 (pre ++ [a0; a1; a2; a3] ++ post) (length pre) v =
  pre ++ be_split 4 v ++ post.
Proof.
  unfold writeU32. rewrite !insert_app_r. f_equal. simpl.
  rewrite !byte_mask, byte_mask_0 by lia. reflexivity.
Qed.

Lemma writeU64_be pre a0 a1 a2 a3 a4 a5 a6 a7 post v :
  writeU64 (pre ++ [a0; a1; a2; a3; a4; a5; a6; a7] ++ post) (length pre) v =
  pre ++ be_split 8 v ++ post.
Proof.
  unfold writeU64. cbn [seq fold_left Nat.sub Nat.mul Z.of_nat].
  rewrite !insert_app_r. f_equal. simpl.
  rewrite !byte_mask by lia.
  reflexivity.
Qed.

Lemma writeU32_spec bs off v :
  (off + 4 <= length bs)%nat ->
  writeU32 bs off v = take off bs ++ be_split 4 v ++ drop (off + 4) bs.
Proof.
  intros Hl. rewrite (split_at bs off 4) at 1.
  assert (H4 : length (take 4 (drop off bs)) = 4%nat)
    by (rewrite length_take, length_drop; lia).
  destruct (take 4 (drop off bs)) as [|a0 [|a1 [|a2 [|a3 [|]]]]]; try discriminate H4.
  replace off with (length (take off bs)) at 3 by (rewrite length_take; lia).
  apply writeU32_be.
Qed.

Lemma writeU64_spec bs off v :
  (off + 8 <= length bs)%nat ->
  writeU64 bs off v = take off bs ++ be_split 8 v ++ drop (off + 8) bs.
Proof.
  intros Hl. rewrite (split_at bs off 8) at 1.
  assert (H8 : length (take 8 (drop off bs)) = 8%nat)
    by (rewrite length_take, length_drop; lia).
  destruct (take 8 (drop off bs)) as [|a0 [|a1 [|a2 [|a3 [|a4 [|a5 [|a6 [|a7 [|]]]]]]]]];
    try discriminate H8.
  replace off with (length (take off bs)) at 3 by (rewrite length_take; lia).
  apply writeU64_be.
Qed.

Lemma lookup_splice (bs mid : bytes) off i :
  (off + length mid <= length bs)%nat -> (i < off \/ off + length mid <= i)%nat ->
  (take off bs ++ mid ++ drop (off + length mid) bs) !! i = bs !! i.
Proof.
  intros Hl [Hi|Hi].
  - rewrite lookup_app_l by (rewrite length_take; lia). by apply lookup_take_lt.
  - rewrite lookup_app_r by (rewrite length_take; lia). rewrite length_take, Nat.min_l by lia.
    rewrite lookup_app_r by lia. rewrite lookup_drop. f_equal. lia.
Qed.

(** ** Properties *)

(** A 32-bit or 64-bit value written at an offset inside the buffer is
    read back unchanged, the buffer keeps its length and every byte outside the
    field is left as it was. *)
Theorem endian_roundtrip bs off v :
  Forall is_u8 bs ->
  ((off + 4 <= length bs)%nat -> is_u32 v ->
     readU32 (writeU32 bs off v) off = v /\
     length (writeU32 bs off v) = length bs /\
     forall i, (i < off \/ off + 4 <= i)%nat -> writeU32 bs off v !! i = bs !! i) /\
  ((off + 8 <= length bs)%nat -> is_u64 v ->
     readU64 (writeU64 bs off v) off = v /\
     length (writeU64 bs off v) = length bs /\
     forall i, (i < off \/ off + 8 <= i)%nat -> writeU64 bs off v !! i = bs !! i).
Proof.
  intros Hb. split; intros Hl Hv.
  - rewrite writeU32_spec by done.
    pose proof (be_split_length 4 v) as H4. repeat split.
    + replace off with (length (take off bs)) at 3 by (rewrite length_take; lia).
      rewrite readU32_be by auto using be_split_bytes.
      apply be_combine_split. unfold is_u32 in Hv. simpl. lia.
    + rewrite !length_app, H4, length_take, length_drop. lia.
    + intros i Hi. rewrite <- H4 at 2. apply lookup_splice; rewrite H4; lia.
  - rewrite writeU64_spec by done.
    pose proof (be_split_length 8 v) as H8. repeat split.
    + replace off with (length (take off bs)) at 3 by (rewrite length_take; lia).
      rewrite readU64_be by auto using be_split_bytes.
      apply be_combine_split. unfold is_u64 in Hv. simpl. lia.
    + rewrite !length_app, H8, length_take, length_drop. lia.
    + intros i Hi. rewrite <- H8 at 2. apply lookup_splice; rewrite H8; lia.
Qed.

Lemma endian_roundtrip_witness :
  readU32 (writeU32 [1; 2; 3; 4; 5; 6] 1 0x01020304) 1 = 0x01020304.
Proof.
  apply (endian_roundtrip [1; 2; 3; 4; 5; 6] 1 0x01020304).
  - repeat constructor; unfold is_u8; lia.
  - simpl; lia.
  - unfold is_u32; lia.
Defined.
