(* ===== verification/Codec.v ===== *)
(** The packet codec ([src/Codec.cpp]): header validation, [decode], [encode]. *)

From S2P Require Import Prelude Protocol Utils.

(** ** Operations *)

Definition isValidHeader (header : Header) : bool :=
  if negb (hdr_header_len header =? kHeaderLength) then false
  else if negb (hdr_reserved header =? 0) then false
  else if 3 <? u8_of_channel_type (hdr_channel_type header) then false
  else Z.land (hdr_flags header) 0xc0 =? 0.

Definition decode (bs : bytes) : option PacketView :=
  if Z.of_nat (length bs) <? kHeaderLength then None
  else
    let header_out :=
      {| hdr_conn_id := readU32 bs 0;
         hdr_seq := readU32 bs 4;
         hdr_ack := readU32 bs 8;
         hdr_ack_bits := readU64 bs 12;
         hdr_channel_id := readU32 bs 20;
         hdr_channel_type := channel_type_of_u8 (byte_at bs 24);
         hdr_flags := byte_at bs 25;
         hdr_header_len := byte_at bs 26;
         hdr_reserved := byte_at bs 27 |} in
    if negb (isValidHeader header_out) then None
    else Some {| pv_header := header_out;
                 pv_payload := drop (Z.to_nat kHeaderLength) bs |}.

(** [std::copy(payload.begin(), payload.end(), bytes.begin() + at)]. *)
Definition copy_at (bs : bytes) (pos : nat) (payload : bytes) : bytes :=
  list_inserts pos payload bs.

Definition encode (header : Header) (payload : bytes) : bytes :=
  let bs := replicate (Z.to_nat kHeaderLength + length payload) 0 in
  let bs := writeU32 bs 0 (hdr_conn_id header) in
  let bs := writeU32 bs 4 (hdr_seq header) in
  let bs := writeU32 bs 8 (hdr_ack header) in
  let bs := writeU64 bs 12 (hdr_ack_bits header) in
  let bs := writeU32 bs 20 (hdr_channel_id header) in
  let bs := <[24%nat := u8_of_channel_type (hdr_channel_type header)]> bs in
  let bs := <[25%nat := hdr_flags header]> bs in
  let bs := <[26%nat := hdr_header_len header]> bs in
  let bs := <[27%nat := hdr_reserved header]> bs in
  copy_at bs (Z.to_nat kHeaderLength) payload.

(** ** Layout *)

(** The header block: the fields in big-endian order at their offsets. *)
Definition header_block (h : Header) : bytes :=
  be_split 4 (hdr_conn_id h) ++ be_split 4 (hdr_seq h) ++ be_split 4 (hdr_ack h) ++
  be_split 8 (hdr_ack_bits h) ++ be_split 4 (hdr_channel_id h) ++
  [u8_of_channel_type (hdr_channel_type h); hdr_flags h; hdr_header_len h; hdr_reserved h].

Lemma header_block_length h : length (header_block h) = 28%nat.
Proof. unfold header_block. by rewrite !length_app, !be_split_length. Qed.


Lemma copy_at_end l tl p :
  length tl = length p -> copy_at (l ++ tl) (length l) p = l ++ p.
Proof.
  intros Hl. unfold copy_at. rewrite <- (Nat.add_0_r (length l)), list_inserts_app_r.
  f_equal. rewrite <- (app_nil_r p) at 1. by apply list_inserts_0_l.
Qed.

Lemma encode_layout h p : encode h p = header_block h ++ p.
Proof.
  rewrite <- (copy_at_end (header_block h) (replicate (length p) 0))
    by apply length_replicate.
  rewrite header_block_length. unfold encode.
  change (Z.to_nat kHeaderLength) with 28%nat. f_equal.
  rewrite replicate_add. unfold writeU32, writeU64. simpl.
  rewrite !byte_mask, !byte_mask_0 by lia. reflexivity.
Qed.

(** ** Lemmas *)

Lemma isValidHeader_iff h :
  isValidHeader h = true <->
  hdr_header_len h = 28 /\ hdr_reserved h = 0 /\
  u8_of_channel_type (hdr_channel_type h) <= 3 /\ Z.land (hdr_flags h) 0xc0 = 0.
Proof.
  unfold isValidHeader, kHeaderLength.
  destruct (Z.eqb_spec (hdr_header_len h) 28), (Z.eqb_spec (hdr_reserved h) 0),
    (Z.ltb_spec 3 (u8_of_channel_type (hdr_channel_type h))); simpl;
    rewrite ?Z.eqb_eq; try lia; naive_solver lia.
Qed.

Lemma header_block_bytes h : header_typed h -> Forall is_u8 (header_block h).
Proof.
  intros []. unfold header_block. rewrite !Forall_app.
  repeat apply conj; try apply be_split_bytes.
  repeat (apply Forall_cons_2; [auto using u8_of_channel_type_range|]). constructor.
Qed.

Lemma encode_length h p : length (encode h p) = (28 + length p)%nat.
Proof. by rewrite encode_layout, length_app, header_block_length. Qed.

(** A payload of arbitrary [Z]s does not matter to the header reads, which all
    fall in the first 28 bytes. *)
Lemma byte_at_app_l (l1 l2 : bytes) i :
  (i < length l1)%nat -> byte_at (l1 ++ l2) i = byte_at l1 i.
Proof. intros H. unfold byte_at. by rewrite lookup_app_l. Qed.

Lemma readU32_app_l l1 l2 off :
  (off + 4 <= length l1)%nat -> readU32 (l1 ++ l2) off = readU32 l1 off.
Proof. intros H. unfold readU32. by rewrite !byte_at_app_l by lia. Qed.

Lemma readU64_app_l l1 l2 off :
  (off + 8 <= length l1)%nat -> readU64 (l1 ++ l2) off = readU64 l1 off.
Proof.
  intros H. unfold readU64. cbn [seq fold_left]. by rewrite !byte_at_app_l by lia.
Qed.

Lemma decode_block hb p :
  length hb = 28%nat -> decode (hb ++ p) =
  match decode hb with
  | Some pv => Some {| pv_header := pv_header pv; pv_payload := p |}
  | None => None
  end.
Proof.
  intros Hl. unfold decode.
  assert (Hs : (Z.of_nat (length (hb ++ p)) <? kHeaderLength) = false).
  { apply Z.ltb_ge. rewrite length_app, Hl. unfold kHeaderLength. lia. }
  assert (Hs' : (Z.of_nat (length hb) <? kHeaderLength) = false) by (by rewrite Hl).
  rewrite Hs, Hs', !readU32_app_l, readU64_app_l, !byte_at_app_l by lia.
  case_match; [done|]. simpl. do 2 f_equal.
  change (Pos.to_nat 28) with 28%nat. rewrite drop_app_length'; done.
Qed.

Lemma decode_header_block h :
  header_typed h -> isValidHeader h = true ->
  decode (header_block h) = Some {| pv_header := h; pv_payload := [] |}.
Proof.
  intros Ht Hv. pose proof (header_block_bytes h Ht) as Hb.
  pose proof (header_block_length h) as Hl. destruct Ht.
  unfold decode. rewrite Hl. cbn [Z.of_nat Z.ltb].
  rewrite !readU32_spec, readU64_spec by (done || lia).
  change (take 4 (drop 0 (header_block h))) with (be_split 4 (hdr_conn_id h)).
  change (take 4 (drop 4 (header_block h))) with (be_split 4 (hdr_seq h)).
  change (take 4 (drop 8 (header_block h))) with (be_split 4 (hdr_ack h)).
  change (take 8 (drop 12 (header_block h))) with (be_split 8 (hdr_ack_bits h)).
  change (take 4 (drop 20 (header_block h))) with (be_split 4 (hdr_channel_id h)).
  rewrite !be_combine_split by done.
  change (byte_at (header_block h) 24) with (u8_of_channel_type (hdr_channel_type h)).
  change (byte_at (header_block h) 25) with (hdr_flags h).
  change (byte_at (header_block h) 26) with (hdr_header_len h).
  change (byte_at (header_block h) 27) with (hdr_reserved h).
  rewrite channel_type_of_u8_of_typed by done.
  destruct h; simpl in *. rewrite Hv. done.
Qed.

(** ** Properties *)

(** C11: decoding an encoded packet gives back its header and payload, for
    every header whose fields fit their widths and that validation accepts. *)
Theorem decode_encode h p :
  header_typed h -> isValidHeader h = true ->
  decode (encode h p) = Some {| pv_header := h; pv_payload := p |}.
Proof.
  intros Ht Hv. rewrite encode_layout, decode_block by apply header_block_length.
  by rewrite decode_header_block.
Qed.

Lemma decode_encode_witness :
  let h := {| hdr_conn_id := 7; hdr_seq := 0xfffffffe; hdr_ack := 9; hdr_ack_bits := 5;
              hdr_channel_id := 3; hdr_channel_type := ReliableOrdered; hdr_flags := 0x20;
              hdr_header_len := 28; hdr_reserved := 0 |} in
  decode (encode h [1; 2; 3]) = Some {| pv_header := h; pv_payload := [1; 2; 3] |}.
Proof.
  intros h. apply (decode_encode h [1; 2; 3]); [|reflexivity].
  constructor; simpl; try done; word_unfold; lia.
Defined.

(** The fields [decode] reads, as the reference codec gives them. *)
Definition header_of_block (bs : bytes) : Header :=
  {| hdr_conn_id := be_combine (take 4 bs);
     hdr_seq := be_combine (take 4 (drop 4 bs));
     hdr_ack := be_combine (take 4 (drop 8 bs));
     hdr_ack_bits := be_combine (take 8 (drop 12 bs));
     hdr_channel_id := be_combine (take 4 (drop 20 bs));
     hdr_channel_type := channel_type_of_u8 (byte_at bs 24);
     hdr_flags := byte_at bs 25;
     hdr_header_len := byte_at bs 26;
     hdr_reserved := byte_at bs 27 |}.

Lemma decode_spec bs :
  Forall is_u8 bs ->
  decode bs =
  if bool_decide (28 <= length bs)%nat && isValidHeader (header_of_block bs)
  then Some {| pv_header := header_of_block bs; pv_payload := drop 28 bs |}
  else None.
Proof.
  intros Hb. unfold decode.
  case_bool_decide as Hl; simpl.
  - rewrite (proj2 (Z.ltb_ge _ _)) by (unfold kHeaderLength; lia).
    rewrite !readU32_spec, readU64_spec by (done || lia). rewrite drop_0.
    fold (header_of_block bs). by destruct (isValidHeader (header_of_block bs)).
  - by rewrite (proj2 (Z.ltb_lt _ _)) by (unfold kHeaderLength; lia).
Qed.

Lemma byte_at_u8 bs i : Forall is_u8 bs -> is_u8 (byte_at bs i).
Proof.
  intros Hb. unfold byte_at. destruct (bs !! i) eqn:E; simpl; [|apply is_u8_0].
  eapply Forall_lookup_1; done.
Qed.

Lemma be_combine_take_drop bs off n :
  Forall is_u8 bs -> (off + n <= length bs)%nat ->
  0 <= be_combine (take n (drop off bs)) < 256 ^ Z.of_nat n.
Proof.
  intros Hb Hl.
  pose proof (be_combine_range (take n (drop off bs)) ltac:(by apply Forall_take, Forall_drop)).
  rewrite length_take, length_drop, Nat.min_l in H by lia. done.
Qed.

Lemma header_of_block_typed bs :
  Forall is_u8 bs -> (28 <= length bs)%nat -> header_typed (header_of_block bs).
Proof.
  intros Hb Hl.
  pose proof (be_combine_take_drop bs 0 4 Hb ltac:(lia)).
  pose proof (be_combine_take_drop bs 4 4 Hb ltac:(lia)).
  pose proof (be_combine_take_drop bs 8 4 Hb ltac:(lia)).
  pose proof (be_combine_take_drop bs 12 8 Hb ltac:(lia)).
  pose proof (be_combine_take_drop bs 20 4 Hb ltac:(lia)).
  constructor; simpl; auto using byte_at_u8, channel_type_of_u8_typed.
Qed.

Lemma header_block_of_block bs :
  Forall is_u8 bs -> (28 <= length bs)%nat -> header_block (header_of_block bs) = take 28 bs.
Proof.
  intros Hb Hl.
  assert (Hfield : forall off n, (off + n <= length bs)%nat ->
    be_split n (be_combine (take n (drop off bs))) = take n (drop off bs)).
  { intros off n Hn. pose proof (be_split_combine (take n (drop off bs))) as He.
    rewrite length_take, length_drop, Nat.min_l in He by lia.
    apply He. by apply Forall_take, Forall_drop. }
  unfold header_block, header_of_block.
  cbn [hdr_conn_id hdr_seq hdr_ack hdr_ack_bits hdr_channel_id hdr_channel_type
       hdr_flags hdr_header_len hdr_reserved].
  rewrite u8_of_channel_type_of. rewrite <- (drop_0 bs) at 1 2.
  rewrite !Hfield by lia.
  do 28 (destruct bs as [|? bs]; [simpl in Hl; lia|]). reflexivity.
Qed.

(** On a buffer of bytes [decode] succeeds exactly when the buffer
    holds at least the 28 header bytes, HeaderLen (byte 26) is 28, Reserved (byte
    27) is 0, the channel byte (24) is an enumerator and the two top flag bits
    (byte 25) are clear; the result then has every field inside its width and
    passes validation, and its payload is the rest of the buffer. *)
Theorem decode_accepts bs :
  Forall is_u8 bs ->
  (is_Some (decode bs) <->
     (28 <= length bs)%nat /\ byte_at bs 26 = 28 /\ byte_at bs 27 = 0 /\
     byte_at bs 24 <= 3 /\ Z.land (byte_at bs 25) 0xc0 = 0) /\
  (forall pv, decode bs = Some pv ->
     header_typed (pv_header pv) /\ isValidHeader (pv_header pv) = true /\
     pv_payload pv = drop 28 bs).
Proof.
  intros Hb. rewrite decode_spec by done. split.
  - pose proof (isValidHeader_iff (header_of_block bs)) as Hv. simpl in Hv.
    rewrite u8_of_channel_type_of in Hv.
    by rewrite is_Some_if, andb_true_iff, bool_decide_eq_true, Hv.
  - intros pv H. case_bool_decide; [|done]. destruct (isValidHeader _) eqn:E; [|done].
    injection H as <-. simpl. auto using header_of_block_typed.
Qed.

Lemma decode_accepts_witness :
  is_Some (decode (replicate 24 0 ++ [1; 0x21; 28; 0; 9])).
Proof.
  apply (decode_accepts (replicate 24 0 ++ [1; 0x21; 28; 0; 9])).
  - repeat constructor; lia.
  - repeat split; simpl; try lia; done.
Defined.

(** [encode] inverts [decode]: re-encoding an accepted buffer gives
    exactly that buffer, so no two datagrams decode to the same packet. *)
Theorem encode_decode bs pv :
  Forall is_u8 bs -> decode bs = Some pv -> encode (pv_header pv) (pv_payload pv) = bs.
Proof.
  intros Hb Hd. rewrite decode_spec in Hd by done. rewrite encode_layout.
  case_bool_decide; [|done]. destruct (isValidHeader _); [|done].
  injection Hd as <-. cbn [pv_header pv_payload].
  rewrite header_block_of_block by done. apply take_drop.
Qed.

Lemma encode_decode_witness :
  let bs := replicate 24 7 ++ [2; 0x08; 28; 0; 9] in
  match decode bs with
  | Some pv => encode (pv_header pv) (pv_payload pv) = bs
  | None => False
  end.
Proof.
  intros bs. destruct (decode bs) as [pv|] eqn:E; [|vm_compute in E; discriminate E].
  apply (encode_decode bs pv); [|exact E]. repeat constructor; lia.
Defined.
