(* ===== verification/Text.v ===== *)
(** Text: the parts of [std::string], [std::getline], [std::to_string] and
    [std::stoull] that the runtime uses, and the string helpers of
    [src/Utils.cpp].

    A [std::string] or [std::string_view] is a [string] of bytes. [substr] is
    only used with a start inside the string, where it does not throw. On the
    targets of this program [unsigned long] and [unsigned long long] are both 64
    bits wide, so [std::stoul] and [std::stoull] are one function. *)

From S2P Require Import Prelude Protocol.
From stdpp Require Export pretty.
From Stdlib Require Export Ascii.
#[global] Open Scope Z_scope.
#[global] Arguments String.append !_ _ /.

(** ** The standard library *)

Infix "==" := String.eqb (at level 70, no associativity) : stdpp_scope.

Definition newline : ascii := "010".
Definition double_quote : ascii := "034".

Definition is_empty (s : string) : bool := s == "".

Fixpoint sdrop (n : nat) (s : string) : string :=
  match n, s with
  | O, _ => s
  | S n, String _ s => sdrop n s
  | S _, EmptyString => ""
  end.

Fixpoint stake (n : nat) (s : string) : string :=
  match n, s with
  | O, _ => ""
  | S n, String c s => String c (stake n s)
  | S _, EmptyString => ""
  end.

(** [s.substr(pos)] and [s.substr(pos, n)]. *)
Definition substr_from (s : string) (pos : nat) : string := sdrop pos s.
Definition substr (s : string) (pos n : nat) : string := stake n (sdrop pos s).

(** [s.find(c)] and [s.find(c, pos)]; [None] is [npos]. *)
Fixpoint find (s : string) (c : ascii) : option nat :=
  match s with
  | EmptyString => None
  | String a s => if (a =? c)%char then Some O else S <$> find s c
  end.

Definition find_from (s : string) (c : ascii) (pos : nat) : option nat :=
  Nat.add pos <$> find (sdrop pos s) c.

(** [s.rfind(prefix, 0) == 0]. *)
Fixpoint starts_with (s prefix : string) {struct prefix} : bool :=
  match prefix, s with
  | EmptyString, _ => true
  | String p prefix, String a s => (a =? p)%char && starts_with s prefix
  | String _ _, EmptyString => false
  end.

Definition front (s : string) : option ascii :=
  match s with EmptyString => None | String c _ => Some c end.

Fixpoint back (s : string) : option ascii :=
  match s with
  | EmptyString => None
  | String c EmptyString => Some c
  | String _ s => back s
  end.

(** [s.ends_with(c)], and [s.front() == c] on a non-empty string. *)
Definition ends_with (s : string) (c : ascii) : bool := bool_decide (back s = Some c).
Definition front_is (s : string) (c : ascii) : bool := bool_decide (front s = Some c).

(** The successive results of [std::getline]: the text is split at newlines, and
    what follows the last one is a line only when it is not empty. *)
Fixpoint getlines (s : string) : list string :=
  match s with
  | EmptyString => []
  | String c s =>
      if (c =? newline)%char then "" :: getlines s
      else match getlines s with
           | [] => [String c ""]
           | l :: ls => String c l :: ls
           end
  end.

(** [std::to_string] of an unsigned value. *)
Definition to_string (x : Z) : string := pretty x.

Definition digit (c : ascii) : option Z := Z.of_nat <$> Ascii.is_nat c.

Fixpoint skip_spaces (s : string) : string :=
  match s with
  | EmptyString => ""
  | String c s' => if Ascii.is_space c then skip_spaces s' else s
  end.

(** The value of the longest prefix of decimal digits. *)
Fixpoint parse_digits (acc : Z) (s : string) : Z :=
  match s with
  | EmptyString => acc
  | String c s =>
      match digit c with
      | Some d => parse_digits (acc * 10 + d) s
      | None => acc
      end
  end.

Definition starts_with_digit (s : string) : bool :=
  match s with
  | String c _ => match digit c with Some _ => true | None => false end
  | EmptyString => false
  end.

(** An optional sign. *)
Definition split_sign (s : string) : bool * string :=
  if front_is s "-" then (true, sdrop 1 s)
  else if front_is s "+" then (false, sdrop 1 s)
  else (false, s).

(** [std::stoull(s)]; [None] is [std::invalid_argument] (no digits) or
    [std::out_of_range] (a magnitude above 2^64 - 1). What follows the digits is
    ignored, and a negative number is negated in the unsigned type. *)
Definition stoull (s : string) : option Z :=
  let '(negative, digits) := split_sign (skip_spaces s) in
  if negb (starts_with_digit digits) then None
  else
    let magnitude := parse_digits 0 digits in
    if 2 ^ 64 <=? magnitude then None
    else Some (if negative then u64 (- magnitude) else magnitude).

(** ** [src/Utils.cpp] *)

(** The second loop of [trim]: characters leave at the back while they are spaces. *)
Fixpoint drop_trailing_spaces (s : string) : string :=
  match s with
  | EmptyString => ""
  | String c s =>
      match drop_trailing_spaces s with
      | EmptyString => if Ascii.is_space c then "" else String c ""
      | t => String c t
      end
  end.

Definition trim (value : string) : string := drop_trailing_spaces (skip_spaces value).

Definition unquote (value : string) : string :=
  if (2 <=? String.length value)%nat &&
     ((front_is value double_quote && ends_with value double_quote) ||
      (front_is value "'" && ends_with value "'"))
  then substr value 1 (String.length value - 2)
  else value.

(** The boolean result, and [target] after the call. *)
Definition parseBool (value : string) (target : bool) : bool * bool :=
  if value == "true" then (true, true)
  else if value == "false" then (true, false)
  else (false, target).

Definition channelTypeName (type : ChannelType) : string :=
  match type with
  | ReliableOrdered => "reliable_ordered"
  | ReliableUnordered => "reliable_unordered"
  | Unreliable => "unreliable"
  | MonotonicState => "monotonic_state"
  | UnnamedChannel _ => "unknown"
  end.

(** ** Lemmas: strings *)

Create HintDb text discriminated.

Lemma sapp_assoc (a b c : string) : (a +:+ b) +:+ c = a +:+ (b +:+ c).
Proof. induction a as [|x a IH]; simpl; [done|]. by rewrite IH. Qed.

Lemma sapp_nil_r (a : string) : a +:+ "" = a.
Proof. induction a as [|x a IH]; simpl; [done|]. by rewrite IH. Qed.

Lemma slength_app (a b : string) :
  String.length (a +:+ b) = (String.length a + String.length b)%nat.
Proof. induction a as [|x a IH]; simpl; [done|]. by rewrite IH. Qed.

Lemma sapp_eq_nil (a b : string) : a +:+ b = "" <-> a = "" /\ b = "".
Proof. destruct a, b; naive_solver. Qed.

(** Every character of [s] satisfies [p]. *)
Fixpoint all_chars (p : ascii -> bool) (s : string) : bool :=
  match s with EmptyString => true | String c s => p c && all_chars p s end.

Definition no_char (x : ascii) : string -> bool := all_chars (fun c => negb (c =? x)%char).

Lemma all_chars_app p a b : all_chars p (a +:+ b) = all_chars p a && all_chars p b.
Proof. induction a as [|x a IH]; simpl; [done|]. by rewrite IH, andb_assoc. Qed.

Lemma all_chars_impl (p q : ascii -> bool) s :
  (forall c, p c = true -> q c = true) -> all_chars p s = true -> all_chars q s = true.
Proof.
  intros H. induction s as [|x s IH]; simpl; [done|].
  rewrite !andb_true_iff. intros [H1 H2]. auto.
Qed.

Lemma sdrop_app a b : sdrop (String.length a) (a +:+ b) = b.
Proof. by induction a. Qed.

Lemma sdrop_app_cons a c b : sdrop (String.length a + 1) (a +:+ String c b) = b.
Proof. by induction a. Qed.

Lemma stake_app a b : stake (String.length a) (a +:+ b) = a.
Proof. induction a as [|x a IH]; simpl; [by destruct b|]. by rewrite IH. Qed.

Lemma stake_all a : stake (String.length a) a = a.
Proof. induction a as [|x a IH]; simpl; [done|]. by rewrite IH. Qed.

Lemma find_app a c b : no_char c a = true -> find (a +:+ String c b) c = Some (String.length a).
Proof.
  unfold no_char.
  induction a as [|x a IH]; simpl; [by rewrite Ascii.eqb_refl|].
  rewrite andb_true_iff, negb_true_iff. intros [-> H]. by rewrite IH.
Qed.

Lemma find_none a c : no_char c a = true -> find a c = None.
Proof.
  unfold no_char.
  induction a as [|x a IH]; simpl; [done|].
  rewrite andb_true_iff, negb_true_iff. intros [-> H]. by rewrite IH.
Qed.

Lemma find_Some s c n :
  find s c = Some n ->
  s = stake n s +:+ String c (sdrop (n + 1) s) /\ no_char c (stake n s) = true.
Proof.
  unfold no_char.
  revert n. induction s as [|x s IH]; simpl; intros n; [done|].
  destruct (Ascii.eqb_spec x c) as [->|Hne].
  - intros [= <-]. done.
  - intros (m & E & ->)%fmap_Some. destruct (IH _ E) as [H1 H2]. simpl.
    rewrite <- H1, H2. split; [done|]. apply Ascii.eqb_neq in Hne. by rewrite Hne.
Qed.

Lemma starts_with_app p s : starts_with (p +:+ s) p = true.
Proof. induction p as [|x p IH]; simpl; [done|]. by rewrite Ascii.eqb_refl. Qed.

Lemma back_app a c : back (a +:+ String c "") = Some c.
Proof.
  induction a as [|x a IH]; [done|]. simpl. rewrite IH.
  by destruct (a +:+ String c "") eqn:E; [apply sapp_eq_nil in E as [_ [=]]|].
Qed.

Lemma back_String x s : s <> "" -> back (String x s) = back s.
Proof. by destruct s. Qed.

Lemma back_Some s c : back s = Some c -> exists t, s = t +:+ String c "".
Proof.
  induction s as [|x s IH]; [done|]. destruct s as [|y s]; [intros [= ->]; by exists ""|].
  intros H. destruct (IH H) as [t Ht]. exists (String x t). by rewrite Ht.
Qed.

Lemma back_app_r a b : b <> "" -> back (a +:+ b) = back b.
Proof.
  intros Hb. induction a as [|x a IH]; [done|]. cbn [String.append].
  rewrite back_String; [done|]. intros H. by apply sapp_eq_nil in H as [_ H].
Qed.

Lemma front_app a b : a <> "" -> front (a +:+ b) = front a.
Proof. by destruct a. Qed.

(** ** Lemmas: trimming and quotes *)

Definition spaces : string -> bool := all_chars Ascii.is_space.

(** The first and last characters are not spaces. *)
Definition tight (s : string) : Prop :=
  (forall c, front s = Some c -> Ascii.is_space c = false) /\
  (forall c, back s = Some c -> Ascii.is_space c = false).

Lemma skip_spaces_split s :
  exists pre, s = pre +:+ skip_spaces s /\ spaces pre = true.
Proof.
  induction s as [|c s (pre & E & H)]; simpl; [by exists ""|].
  destruct (Ascii.is_space c) eqn:Ec; [|by exists ""].
  exists (String c pre). unfold spaces in *. simpl. rewrite Ec, <- E. done.
Qed.

Lemma drop_trailing_spaces_split s :
  exists post, s = drop_trailing_spaces s +:+ post /\ spaces post = true.
Proof.
  unfold spaces. induction s as [|c s (post & E & H)]; simpl; [by exists ""|].
  destruct (drop_trailing_spaces s) as [|x t]; simpl in *.
  - destruct (Ascii.is_space c) eqn:Ec; subst.
    + exists (String c post). simpl. by rewrite Ec.
    + by exists post.
  - exists post. by rewrite E.
Qed.

Lemma skip_spaces_front s c : front (skip_spaces s) = Some c -> Ascii.is_space c = false.
Proof.
  induction s as [|x s IH]; simpl; [done|].
  destruct (Ascii.is_space x) eqn:E; [done|]. simpl. congruence.
Qed.

Lemma drop_trailing_spaces_back s c :
  back (drop_trailing_spaces s) = Some c -> Ascii.is_space c = false.
Proof.
  induction s as [|x s IH]; simpl; [done|].
  destruct (drop_trailing_spaces s) as [|y t].
  - destruct (Ascii.is_space x) eqn:E; simpl; congruence.
  - intros H. apply IH. exact H.
Qed.

Lemma drop_trailing_spaces_front s c :
  front (drop_trailing_spaces s) = Some c -> front s = Some c.
Proof. destruct s as [|x s]; simpl; [done|]. by repeat case_match. Qed.

Lemma skip_spaces_id s :
  (forall c, front s = Some c -> Ascii.is_space c = false) -> skip_spaces s = s.
Proof. destruct s as [|c s]; simpl; [done|]. intros H. by rewrite (H c eq_refl). Qed.

Lemma drop_trailing_spaces_id s :
  (forall c, back s = Some c -> Ascii.is_space c = false) -> drop_trailing_spaces s = s.
Proof.
  induction s as [|c s IH]; [done|]. intros H. simpl.
  destruct s as [|x s]; [by rewrite (H c eq_refl)|].
  rewrite IH; [done|]. intros y Hy. apply H. exact Hy.
Qed.

Lemma tight_app a b : tight a -> tight b -> a <> "" -> b <> "" -> tight (a +:+ b).
Proof.
  intros Ha Hb Hna Hnb. split; intros c.
  - rewrite front_app by done. apply Ha.
  - rewrite back_app_r by done. apply Hb.
Qed.

Lemma trim_id s : tight s -> trim s = s.
Proof.
  intros [H1 H2]. unfold trim. rewrite skip_spaces_id by done.
  by apply drop_trailing_spaces_id.
Qed.

Lemma trim_tight s : tight (trim s).
Proof.
  split; intros c Hc.
  - apply skip_spaces_front with s, drop_trailing_spaces_front, Hc.
  - by apply drop_trailing_spaces_back in Hc.
Qed.

Lemma trim_split s :
  exists pre post, s = pre +:+ trim s +:+ post /\ spaces pre = true /\ spaces post = true.
Proof.
  destruct (skip_spaces_split s) as (pre & E & Hp).
  destruct (drop_trailing_spaces_split (skip_spaces s)) as (post & E' & Hq).
  exists pre, post. split; [|done]. rewrite E at 1. f_equal. exact E'.
Qed.

(** Leading spaces do not matter. *)
Lemma trim_skip c s : Ascii.is_space c = true -> trim (String c s) = trim s.
Proof. intros H. unfold trim. simpl. by rewrite H. Qed.

(** A value in double quotes, the form [unquote] takes apart. *)
Definition quoted (s : string) : string := String double_quote (s +:+ String double_quote "").

Lemma quoted_tight s : tight (quoted s).
Proof.
  split; intros c.
  - by intros [= <-].
  - change (quoted s) with (String double_quote s +:+ String double_quote "").
    rewrite back_app. by intros [= <-].
Qed.

Lemma unquote_quoted s : unquote (quoted s) = s.
Proof.
  unfold unquote, front_is, ends_with.
  assert (Hb : back (quoted s) = Some double_quote) by apply (back_app (String double_quote s)).
  assert (Hl : String.length (quoted s) = (String.length s + 2)%nat)
    by (unfold quoted; simpl; rewrite slength_app; simpl; lia).
  rewrite Hb, Hl, (proj2 (Nat.leb_le _ _)) by lia.
  unfold substr, quoted. simpl.
  replace (String.length s + 2 - 2)%nat with (String.length s) by lia.
  apply stake_app.
Qed.

Lemma quoted_no_char x s :
  x <> double_quote -> no_char x s = true -> no_char x (quoted s) = true.
Proof.
  intros Hx Hs. apply not_eq_sym, Ascii.eqb_neq in Hx. unfold no_char, quoted in *.
  cbn [all_chars]. rewrite all_chars_app, Hs. cbn [all_chars]. by rewrite Hx.
Qed.

(** ** Lemmas: lines *)

Lemma getlines_cons l rest :
  no_char newline l = true -> getlines (l +:+ String newline rest) = l :: getlines rest.
Proof.
  unfold no_char. induction l as [|c l IH]; [done|]. simpl.
  rewrite andb_true_iff, negb_true_iff. intros [Hc Hl]. by rewrite Hc, IH.
Qed.

(** The text with the given lines. *)
Definition unlines (ls : list string) : string :=
  foldr (fun l rest => l +:+ String newline rest) "" ls.

Lemma getlines_unlines ls : Forall (fun l => no_char newline l = true) ls -> getlines (unlines ls) = ls.
Proof.
  induction 1 as [|l ls Hl Hls IH]; [done|]. cbn [unlines foldr].
  rewrite getlines_cons by done. f_equal. exact IH.
Qed.

(** ** Lemmas: decimal numbers *)

Definition is_digit (c : ascii) : bool := match digit c with Some _ => true | None => false end.

Lemma digit_pretty_N_char n : (n < 10)%N -> digit (pretty_N_char n) = Some (Z.of_N n).
Proof.
  intros H. assert (Hn : n ∈ [0; 1; 2; 3; 4; 5; 6; 7; 8; 9]%N)
    by (destruct n as [|[[[|[]|]|[[]|[]|]|]|[[|[]|]|[[]|[]|]|]|]]; (set_solver || lia)).
  repeat (apply elem_of_cons in Hn as [->|Hn]; [done|]). by apply not_elem_of_nil in Hn.
Qed.

Lemma pretty_N_go_parse n s :
  parse_digits 0 (pretty_N_go n s) = parse_digits (Z.of_N n) s.
Proof.
  revert s. induction (N.lt_wf_0 n) as [n _ IH]; intros s.
  destruct (N.eq_0_gt_0_cases n) as [->|Hn]; [by rewrite pretty_N_go_0|].
  rewrite pretty_N_go_step by lia. rewrite IH by (apply N.div_lt; lia). simpl.
  rewrite digit_pretty_N_char by (apply N.mod_lt; lia). f_equal.
  rewrite N2Z.inj_div, N2Z.inj_mod. pose proof (Z.div_mod (Z.of_N n) 10). lia.
Qed.

Lemma pretty_N_go_digits n s :
  all_chars is_digit s = true -> all_chars is_digit (pretty_N_go n s) = true.
Proof.
  revert s. induction (N.lt_wf_0 n) as [n _ IH]; intros s Hs.
  destruct (N.eq_0_gt_0_cases n) as [->|Hn]; [by rewrite pretty_N_go_0|].
  rewrite pretty_N_go_step by lia. apply IH; [apply N.div_lt; lia|]. simpl.
  unfold is_digit at 1. by rewrite digit_pretty_N_char by (apply N.mod_lt; lia).
Qed.

Lemma pretty_N_go_nonempty n s : s <> "" -> pretty_N_go n s <> "".
Proof.
  revert s. induction (N.lt_wf_0 n) as [n _ IH]; intros s Hs.
  destruct (N.eq_0_gt_0_cases n) as [->|Hn]; [by rewrite pretty_N_go_0|].
  rewrite pretty_N_go_step by lia. apply IH; [apply N.div_lt; lia|done].
Qed.

Lemma to_string_cases x :
  0 <= x -> to_string x = "0" /\ x = 0 \/ to_string x = pretty_N_go (Z.to_N x) "" /\ 0 < x.
Proof. intros Hx. destruct x as [|p|p]; [by left|by right|lia]. Qed.

Lemma parse_digits_to_string x : 0 <= x -> parse_digits 0 (to_string x) = x.
Proof.
  intros Hx. destruct (to_string_cases x Hx) as [[-> ->]|[-> Hp]]; [done|].
  rewrite pretty_N_go_parse. simpl. lia.
Qed.

Lemma to_string_digits x : 0 <= x -> all_chars is_digit (to_string x) = true.
Proof.
  intros Hx. destruct (to_string_cases x Hx) as [[-> ->]|[-> Hp]]; [done|].
  by apply pretty_N_go_digits.
Qed.

Lemma to_string_nonempty x : 0 <= x -> to_string x <> "".
Proof.
  intros Hx. destruct (to_string_cases x Hx) as [[-> ->]|[-> Hp]]; [done|].
  rewrite pretty_N_go_step by lia. by apply pretty_N_go_nonempty.
Qed.

Lemma is_digit_not_space c : is_digit c = true -> Ascii.is_space c = false.
Proof. destruct c as [[] [] [] [] [] [] [] []]; (done || by intros [=]). Qed.

Lemma is_digit_neq c x : is_digit c = true -> is_digit x = false -> (c =? x)%char = false.
Proof. intros Hc Hx. apply Ascii.eqb_neq. intros ->. congruence. Qed.

Lemma to_string_front x : 0 <= x -> exists c, front (to_string x) = Some c /\ is_digit c = true.
Proof.
  intros Hx. pose proof (to_string_digits x Hx) as Hd. pose proof (to_string_nonempty x Hx).
  destruct (to_string x) as [|c s]; [done|]. apply andb_true_iff in Hd as [Hd _]. by exists c.
Qed.

Lemma all_chars_back p s c : all_chars p s = true -> back s = Some c -> p c = true.
Proof.
  intros H Hb. apply back_Some in Hb as [t ->]. rewrite all_chars_app in H.
  apply andb_true_iff in H as [_ H]. simpl in H. by rewrite andb_true_r in H.
Qed.

Lemma to_string_tight x : 0 <= x -> tight (to_string x).
Proof.
  intros Hx. destruct (to_string_front x Hx) as (c & Hc & Hd). split; intros y Hy.
  - assert (y = c) as -> by congruence. by apply is_digit_not_space.
  - apply is_digit_not_space. eapply all_chars_back; [by apply to_string_digits|done].
Qed.

Lemma to_string_no_char x d :
  0 <= x -> is_digit d = false -> no_char d (to_string x) = true.
Proof.
  intros Hx Hd. apply all_chars_impl with is_digit; [|by apply to_string_digits].
  intros c Hc. by rewrite (is_digit_neq c d).
Qed.

Lemma parse_digits_app x c s acc :
  is_digit c = false ->
  parse_digits acc (x +:+ String c s) = parse_digits acc x.
Proof.
  intros Hc. revert acc. induction x as [|a x IH]; intros acc; simpl.
  - unfold is_digit in Hc. by destruct (digit c).
  - destruct (digit a); [apply IH|done].
Qed.

(** A printed number is read back. *)
Lemma stoull_to_string x : is_u64 x -> stoull (to_string x) = Some x.
Proof.
  intros Hx. assert (0 <= x) by (unfold is_u64 in Hx; lia).
  destruct (to_string_front x) as (c & Hc & Hd); [done|].
  destruct (to_string_tight x) as [Ht _]; [done|].
  unfold stoull. rewrite (skip_spaces_id _ Ht).
  assert (Hs : split_sign (to_string x) = (false, to_string x)).
  { unfold split_sign, front_is. rewrite Hc, !bool_decide_eq_false_2; [done|..];
      intros [= ->]; done. }
  rewrite Hs. destruct (to_string x) as [|a s] eqn:E; [done|]. injection Hc as ->.
  unfold starts_with_digit. unfold is_digit in Hd. destruct (digit c); [|done]. cbn [negb].
  rewrite <- E, parse_digits_to_string, (proj2 (Z.leb_gt _ _)) by (unfold is_u64 in Hx; lia).
  done.
Qed.

(** The result fits an [unsigned long]. *)
Lemma parse_digits_nonneg acc s : 0 <= acc -> 0 <= parse_digits acc s.
Proof.
  revert acc. induction s as [|c s IH]; intros acc H; simpl; [done|].
  unfold digit. destruct (Ascii.is_nat c) eqn:E; simpl; [|done]. apply IH. lia.
Qed.

Lemma stoull_range s v : stoull s = Some v -> is_u64 v.
Proof.
  unfold stoull. destruct (split_sign _) as [neg d]. destruct (negb _); [done|].
  destruct (Z.leb_spec (2 ^ 64) (parse_digits 0 d)); [done|]. intros [= <-].
  destruct neg; [apply u64_range|]. split; [apply parse_digits_nonneg|]; lia.
Qed.

(** ** Properties *)

(** [trim] returns the unique middle of the text between two runs of
    spaces: what it removes is spaces only, and what remains neither starts nor
    ends with one. *)
Theorem trim_spec s :
  (exists pre post, s = pre +:+ trim s +:+ post /\ spaces pre = true /\ spaces post = true) /\
  tight (trim s) /\ trim (trim s) = trim s.
Proof.
  split; [apply trim_split|]. split; [apply trim_tight|]. apply trim_id, trim_tight.
Qed.

#[export] Hint Resolve to_string_tight quoted_tight trim_tight : text.
