(* ===== verification/Config.v ===== *)
(** The settings ([include/Rudp/Config.hpp]): transport and runtime settings, and
    the runtime profile of one process.

    The handlers read the global [Config::current().transport]; here it is the
    argument [cfg] of the operations that read it. The global [g_settings] itself
    is an argument and a result of the loaders in [ConfigEnv] and [ConfigYaml]. *)

From S2P Require Import Prelude Protocol.

Record TransportSettings := mkTransportSettings {
  initial_rto_ms : Z;
  max_rto_ms : Z;
  max_retransmit_count : Z;
  handshake_linger_ms : Z;
  keepalive_idle_ms : Z;
  idle_timeout_ms : Z;
  reliable_ack_delay_ms : Z;
  fast_retx_evidence_threshold : Z;
  enable_activity_ack_only : bool
}.

Definition default_transport : TransportSettings :=
  {| initial_rto_ms := 250;
     max_rto_ms := 4000;
     max_retransmit_count := 5;
     handshake_linger_ms := 1000;
     keepalive_idle_ms := 500;
     idle_timeout_ms := 15000;
     reliable_ack_delay_ms := 2;
     fast_retx_evidence_threshold := 2;
     enable_activity_ack_only := false |}.

#[export] Instance set_initial_rto_ms : Setter initial_rto_ms := fun f r =>
  mkTransportSettings (f (initial_rto_ms r)) (max_rto_ms r) (max_retransmit_count r)
    (handshake_linger_ms r) (keepalive_idle_ms r) (idle_timeout_ms r) (reliable_ack_delay_ms r)
    (fast_retx_evidence_threshold r) (enable_activity_ack_only r).
#[export] Instance set_max_rto_ms : Setter max_rto_ms := fun f r =>
  mkTransportSettings (initial_rto_ms r) (f (max_rto_ms r)) (max_retransmit_count r)
    (handshake_linger_ms r) (keepalive_idle_ms r) (idle_timeout_ms r) (reliable_ack_delay_ms r)
    (fast_retx_evidence_threshold r) (enable_activity_ack_only r).
#[export] Instance set_max_retransmit_count : Setter max_retransmit_count := fun f r =>
  mkTransportSettings (initial_rto_ms r) (max_rto_ms r) (f (max_retransmit_count r))
    (handshake_linger_ms r) (keepalive_idle_ms r) (idle_timeout_ms r) (reliable_ack_delay_ms r)
    (fast_retx_evidence_threshold r) (enable_activity_ack_only r).
#[export] Instance set_handshake_linger_ms : Setter handshake_linger_ms := fun f r =>
  mkTransportSettings (initial_rto_ms r) (max_rto_ms r) (max_retransmit_count r)
    (f (handshake_linger_ms r)) (keepalive_idle_ms r) (idle_timeout_ms r)
    (reliable_ack_delay_ms r) (fast_retx_evidence_threshold r) (enable_activity_ack_only r).
#[export] Instance set_keepalive_idle_ms : Setter keepalive_idle_ms := fun f r =>
  mkTransportSettings (initial_rto_ms r) (max_rto_ms r) (max_retransmit_count r)
    (handshake_linger_ms r) (f (keepalive_idle_ms r)) (idle_timeout_ms r)
    (reliable_ack_delay_ms r) (fast_retx_evidence_threshold r) (enable_activity_ack_only r).
#[export] Instance set_idle_timeout_ms : Setter idle_timeout_ms := fun f r =>
  mkTransportSettings (initial_rto_ms r) (max_rto_ms r) (max_retransmit_count r)
    (handshake_linger_ms r) (keepalive_idle_ms r) (f (idle_timeout_ms r))
    (reliable_ack_delay_ms r) (fast_retx_evidence_threshold r) (enable_activity_ack_only r).
#[export] Instance set_reliable_ack_delay_ms : Setter reliable_ack_delay_ms := fun f r =>
  mkTransportSettings (initial_rto_ms r) (max_rto_ms r) (max_retransmit_count r)
    (handshake_linger_ms r) (keepalive_idle_ms r) (idle_timeout_ms r)
    (f (reliable_ack_delay_ms r)) (fast_retx_evidence_threshold r) (enable_activity_ack_only r).
#[export] Instance set_fast_retx_evidence_threshold : Setter fast_retx_evidence_threshold := fun f r =>
  mkTransportSettings (initial_rto_ms r) (max_rto_ms r) (max_retransmit_count r)
    (handshake_linger_ms r) (keepalive_idle_ms r) (idle_timeout_ms r) (reliable_ack_delay_ms r)
    (f (fast_retx_evidence_threshold r)) (enable_activity_ack_only r).
#[export] Instance set_enable_activity_ack_only : Setter enable_activity_ack_only := fun f r =>
  mkTransportSettings (initial_rto_ms r) (max_rto_ms r) (max_retransmit_count r)
    (handshake_linger_ms r) (keepalive_idle_ms r) (idle_timeout_ms r) (reliable_ack_delay_ms r)
    (fast_retx_evidence_threshold r) (f (enable_activity_ack_only r)).

(** The settings fit the widths of the struct. *)
Record settings_typed (cfg : TransportSettings) : Prop := mk_settings_typed {
  cfg_initial_rto : is_u64 (initial_rto_ms cfg);
  cfg_max_rto : is_u64 (max_rto_ms cfg);
  cfg_max_retransmit : is_u32 (max_retransmit_count cfg);
  cfg_linger : is_u64 (handshake_linger_ms cfg);
  cfg_keepalive : is_u64 (keepalive_idle_ms cfg);
  cfg_idle : is_u64 (idle_timeout_ms cfg);
  cfg_ack_delay : is_u64 (reliable_ack_delay_ms cfg);
  cfg_threshold : is_u32 (fast_retx_evidence_threshold cfg)
}.

Lemma default_transport_typed : settings_typed default_transport.
Proof. constructor; simpl; word_unfold; lia. Qed.

(** ** Runtime settings *)

Record RuntimeSettings := mkRuntimeSettings {
  server_bind_address : string;
  server_port : Z;
  client_server_address : string;
  client_server_port : Z;
  client_bind_address : string;
  socket_buffer_size : Z;
  server_loop_sleep_us : Z;
  client_select_timeout_us : Z;
  client_poll_budget : Z;
  server_log_path : string;
  client_log_path : string
}.

Definition default_runtime : RuntimeSettings :=
  {| server_bind_address := "127.0.0.1";
     server_port := 9000;
     client_server_address := "127.0.0.1";
     client_server_port := 9000;
     client_bind_address := "0.0.0.0";
     socket_buffer_size := 1500;
     server_loop_sleep_us := 10000;
     client_select_timeout_us := 10000;
     client_poll_budget := 8;
     server_log_path := "logs/rudp_server.log";
     client_log_path := "logs/rudp_client.log" |}.

#[export] Instance set_server_bind_address : Setter server_bind_address := fun f r =>
  mkRuntimeSettings (f (server_bind_address r)) (server_port r) (client_server_address r)
    (client_server_port r) (client_bind_address r) (socket_buffer_size r)
    (server_loop_sleep_us r) (client_select_timeout_us r) (client_poll_budget r)
    (server_log_path r) (client_log_path r).
#[export] Instance set_server_port : Setter server_port := fun f r =>
  mkRuntimeSettings (server_bind_address r) (f (server_port r)) (client_server_address r)
    (client_server_port r) (client_bind_address r) (socket_buffer_size r)
    (server_loop_sleep_us r) (client_select_timeout_us r) (client_poll_budget r)
    (server_log_path r) (client_log_path r).
#[export] Instance set_client_server_address : Setter client_server_address := fun f r =>
  mkRuntimeSettings (server_bind_address r) (server_port r) (f (client_server_address r))
    (client_server_port r) (client_bind_address r) (socket_buffer_size r)
    (server_loop_sleep_us r) (client_select_timeout_us r) (client_poll_budget r)
    (server_log_path r) (client_log_path r).
#[export] Instance set_client_server_port : Setter client_server_port := fun f r =>
  mkRuntimeSettings (server_bind_address r) (server_port r) (client_server_address r)
    (f (client_server_port r)) (client_bind_address r) (socket_buffer_size r)
    (server_loop_sleep_us r) (client_select_timeout_us r) (client_poll_budget r)
    (server_log_path r) (client_log_path r).
#[export] Instance set_client_bind_address : Setter client_bind_address := fun f r =>
  mkRuntimeSettings (server_bind_address r) (server_port r) (client_server_address r)
    (client_server_port r) (f (client_bind_address r)) (socket_buffer_size r)
    (server_loop_sleep_us r) (client_select_timeout_us r) (client_poll_budget r)
    (server_log_path r) (client_log_path r).
#[export] Instance set_socket_buffer_size : Setter socket_buffer_size := fun f r =>
  mkRuntimeSettings (server_bind_address r) (server_port r) (client_server_address r)
    (client_server_port r) (client_bind_address r) (f (socket_buffer_size r))
    (server_loop_sleep_us r) (client_select_timeout_us r) (client_poll_budget r)
    (server_log_path r) (client_log_path r).
#[export] Instance set_server_loop_sleep_us : Setter server_loop_sleep_us := fun f r =>
  mkRuntimeSettings (server_bind_address r) (server_port r) (client_server_address r)
    (client_server_port r) (client_bind_address r) (socket_buffer_size r)
    (f (server_loop_sleep_us r)) (client_select_timeout_us r) (client_poll_budget r)
    (server_log_path r) (client_log_path r).
#[export] Instance set_client_select_timeout_us : Setter client_select_timeout_us := fun f r =>
  mkRuntimeSettings (server_bind_address r) (server_port r) (client_server_address r)
    (client_server_port r) (client_bind_address r) (socket_buffer_size r)
    (server_loop_sleep_us r) (f (client_select_timeout_us r)) (client_poll_budget r)
    (server_log_path r) (client_log_path r).
#[export] Instance set_client_poll_budget : Setter client_poll_budget := fun f r =>
  mkRuntimeSettings (server_bind_address r) (server_port r) (client_server_address r)
    (client_server_port r) (client_bind_address r) (socket_buffer_size r)
    (server_loop_sleep_us r) (client_select_timeout_us r) (f (client_poll_budget r))
    (server_log_path r) (client_log_path r).
#[export] Instance set_server_log_path : Setter server_log_path := fun f r =>
  mkRuntimeSettings (server_bind_address r) (server_port r) (client_server_address r)
    (client_server_port r) (client_bind_address r) (socket_buffer_size r)
    (server_loop_sleep_us r) (client_select_timeout_us r) (client_poll_budget r)
    (f (server_log_path r)) (client_log_path r).
#[export] Instance set_client_log_path : Setter client_log_path := fun f r =>
  mkRuntimeSettings (server_bind_address r) (server_port r) (client_server_address r)
    (client_server_port r) (client_bind_address r) (socket_buffer_size r)
    (server_loop_sleep_us r) (client_select_timeout_us r) (client_poll_budget r)
    (server_log_path r) (f (client_log_path r)).

Record Settings := mkSettings {
  transport : TransportSettings;
  runtime : RuntimeSettings
}.

Definition default_settings : Settings :=
  {| transport := default_transport; runtime := default_runtime |}.

#[export] Instance set_transport : Setter transport := fun f r =>
  mkSettings (f (transport r)) (runtime r).
#[export] Instance set_runtime : Setter runtime := fun f r =>
  mkSettings (transport r) (f (runtime r)).

(** [std::uint16_t], [std::uint32_t] and [std::size_t] (64 bits) fields. *)
Record runtime_typed (r : RuntimeSettings) : Prop := mk_runtime_typed {
  rs_server_port : is_u16 (server_port r);
  rs_client_port : is_u16 (client_server_port r);
  rs_buffer : is_u64 (socket_buffer_size r);
  rs_sleep : is_u32 (server_loop_sleep_us r);
  rs_timeout : is_u32 (client_select_timeout_us r);
  rs_budget : is_u32 (client_poll_budget r)
}.

Definition all_settings_typed (s : Settings) : Prop :=
  settings_typed (transport s) /\ runtime_typed (runtime s).

Lemma default_settings_typed : all_settings_typed default_settings.
Proof. split; [apply default_transport_typed|]. constructor; simpl; word_unfold; lia. Qed.

(** ** Runtime profiles *)

(** [enum class RuntimeMode]. *)
Inductive RuntimeMode := ModeServer | ModeClient.

#[export] Instance RuntimeMode_eq_dec : EqDecision RuntimeMode.
Proof. solve_decision. Defined.

Record ChannelDefinition := mkChannel {
  ch_id : Z;
  ch_name : string;
  ch_type : ChannelType;
  ch_is_default : bool
}.

(** [ChannelDefinition{}]. *)
Definition default_channel_definition : ChannelDefinition :=
  {| ch_id := 0; ch_name := ""; ch_type := Unreliable; ch_is_default := false |}.

#[export] Instance set_ch_id : Setter ch_id := fun f r =>
  mkChannel (f (ch_id r)) (ch_name r) (ch_type r) (ch_is_default r).
#[export] Instance set_ch_name : Setter ch_name := fun f r =>
  mkChannel (ch_id r) (f (ch_name r)) (ch_type r) (ch_is_default r).
#[export] Instance set_ch_type : Setter ch_type := fun f r =>
  mkChannel (ch_id r) (ch_name r) (f (ch_type r)) (ch_is_default r).
#[export] Instance set_ch_is_default : Setter ch_is_default := fun f r =>
  mkChannel (ch_id r) (ch_name r) (ch_type r) (f (ch_is_default r)).

Record RuntimeProfile := mkProfile {
  pf_mode : RuntimeMode;
  pf_bind_address : string;
  pf_bind_port : Z;
  pf_remote_address : string;
  pf_remote_port : Z;
  pf_log_path : string;
  pf_socket_buffer_size : Z;
  pf_loop_sleep_us : Z;
  pf_select_timeout_us : Z;
  pf_poll_budget : Z;
  pf_channels : list ChannelDefinition
}.

(** [RuntimeProfile{}]. *)
Definition default_profile : RuntimeProfile :=
  {| pf_mode := ModeServer;
     pf_bind_address := "127.0.0.1";
     pf_bind_port := 9000;
     pf_remote_address := "127.0.0.1";
     pf_remote_port := 9000;
     pf_log_path := "logs/rudp.log";
     pf_socket_buffer_size := 1500;
     pf_loop_sleep_us := 10000;
     pf_select_timeout_us := 10000;
     pf_poll_budget := 8;
     pf_channels := [] |}.

#[export] Instance set_pf_mode : Setter pf_mode := fun f r =>
  mkProfile (f (pf_mode r)) (pf_bind_address r) (pf_bind_port r) (pf_remote_address r)
    (pf_remote_port r) (pf_log_path r) (pf_socket_buffer_size r) (pf_loop_sleep_us r)
    (pf_select_timeout_us r) (pf_poll_budget r) (pf_channels r).
#[export] Instance set_pf_bind_address : Setter pf_bind_address := fun f r =>
  mkProfile (pf_mode r) (f (pf_bind_address r)) (pf_bind_port r) (pf_remote_address r)
    (pf_remote_port r) (pf_log_path r) (pf_socket_buffer_size r) (pf_loop_sleep_us r)
    (pf_select_timeout_us r) (pf_poll_budget r) (pf_channels r).
#[export] Instance set_pf_bind_port : Setter pf_bind_port := fun f r =>
  mkProfile (pf_mode r) (pf_bind_address r) (f (pf_bind_port r)) (pf_remote_address r)
    (pf_remote_port r) (pf_log_path r) (pf_socket_buffer_size r) (pf_loop_sleep_us r)
    (pf_select_timeout_us r) (pf_poll_budget r) (pf_channels r).
#[export] Instance set_pf_remote_address : Setter pf_remote_address := fun f r =>
  mkProfile (pf_mode r) (pf_bind_address r) (pf_bind_port r) (f (pf_remote_address r))
    (pf_remote_port r) (pf_log_path r) (pf_socket_buffer_size r) (pf_loop_sleep_us r)
    (pf_select_timeout_us r) (pf_poll_budget r) (pf_channels r).
#[export] Instance set_pf_remote_port : Setter pf_remote_port := fun f r =>
  mkProfile (pf_mode r) (pf_bind_address r) (pf_bind_port r) (pf_remote_address r)
    (f (pf_remote_port r)) (pf_log_path r) (pf_socket_buffer_size r) (pf_loop_sleep_us r)
    (pf_select_timeout_us r) (pf_poll_budget r) (pf_channels r).
#[export] Instance set_pf_log_path : Setter pf_log_path := fun f r =>
  mkProfile (pf_mode r) (pf_bind_address r) (pf_bind_port r) (pf_remote_address r)
    (pf_remote_port r) (f (pf_log_path r)) (pf_socket_buffer_size r) (pf_loop_sleep_us r)
    (pf_select_timeout_us r) (pf_poll_budget r) (pf_channels r).
#[export] Instance set_pf_socket_buffer_size : Setter pf_socket_buffer_size := fun f r =>
  mkProfile (pf_mode r) (pf_bind_address r) (pf_bind_port r) (pf_remote_address r)
    (pf_remote_port r) (pf_log_path r) (f (pf_socket_buffer_size r)) (pf_loop_sleep_us r)
    (pf_select_timeout_us r) (pf_poll_budget r) (pf_channels r).
#[export] Instance set_pf_loop_sleep_us : Setter pf_loop_sleep_us := fun f r =>
  mkProfile (pf_mode r) (pf_bind_address r) (pf_bind_port r) (pf_remote_address r)
    (pf_remote_port r) (pf_log_path r) (pf_socket_buffer_size r) (f (pf_loop_sleep_us r))
    (pf_select_timeout_us r) (pf_poll_budget r) (pf_channels r).
#[export] Instance set_pf_select_timeout_us : Setter pf_select_timeout_us := fun f r =>
  mkProfile (pf_mode r) (pf_bind_address r) (pf_bind_port r) (pf_remote_address r)
    (pf_remote_port r) (pf_log_path r) (pf_socket_buffer_size r) (pf_loop_sleep_us r)
    (f (pf_select_timeout_us r)) (pf_poll_budget r) (pf_channels r).
#[export] Instance set_pf_poll_budget : Setter pf_poll_budget := fun f r =>
  mkProfile (pf_mode r) (pf_bind_address r) (pf_bind_port r) (pf_remote_address r)
    (pf_remote_port r) (pf_log_path r) (pf_socket_buffer_size r) (pf_loop_sleep_us r)
    (pf_select_timeout_us r) (f (pf_poll_budget r)) (pf_channels r).
#[export] Instance set_pf_channels : Setter pf_channels := fun f r =>
  mkProfile (pf_mode r) (pf_bind_address r) (pf_bind_port r) (pf_remote_address r)
    (pf_remote_port r) (pf_log_path r) (pf_socket_buffer_size r) (pf_loop_sleep_us r)
    (pf_select_timeout_us r) (pf_poll_budget r) (f (pf_channels r)).

(** The integer fields fit the widths of the struct. *)
Record profile_typed (p : RuntimeProfile) : Prop := mk_profile_typed {
  pt_bind_port : is_u16 (pf_bind_port p);
  pt_remote_port : is_u16 (pf_remote_port p);
  pt_buffer : is_u64 (pf_socket_buffer_size p);
  pt_sleep : is_u32 (pf_loop_sleep_us p);
  pt_timeout : is_u32 (pf_select_timeout_us p);
  pt_budget : is_u32 (pf_poll_budget p);
  pt_channels : Forall (fun c => is_u32 (ch_id c)) (pf_channels p)
}.
