(* ===== verification/ConfigEnv.v ===== *)
(** The [.env] loader ([src/Config.cpp]: [assign_integer], [apply_kv],
    [load_from_env_file]).

    A [std::string* error_message] is an [option string]: [None] is the null
    pointer, [Some] the text it points to. A function that returns a [bool] and
    writes through its arguments returns the boolean, the target and the message.
    The file is [None] when it cannot be opened, and its text otherwise. *)

From S2P Require Import Prelude Protocol Text Config.

Definition ErrorMessage := option string.

(** [if (error_message != nullptr) *error_message = msg;] *)
Definition set_error (msg : string) (err : ErrorMessage) : ErrorMessage :=
  match err with Some _ => Some msg | None => None end.

(** [cast] is [static_cast<Integer>]. *)
Definition assign_integer (cast : Z -> Z) (target : Z) (raw_value : string)
    (err : ErrorMessage) (key : string) : bool * Z * ErrorMessage :=
  match stoull raw_value with
  | Some parsed => (true, cast parsed, err)
  | None => (false, target, set_error ("invalid integer for key " +:+ key) err)
  end.

(** [return assign_integer(field, value, error_message, key)], where [put] assigns
    the field. *)
Definition assign_field {T : Type} (cast : Z -> Z) (field : Z) (put : Z -> T) (value : string)
    (err : ErrorMessage) (key : string) : bool * T * ErrorMessage :=
  let '(ok, v, err) := assign_integer cast field value err key in (ok, put v, err).

Definition apply_kv (settings : Settings) (key value : string) (err : ErrorMessage)
    : bool * Settings * ErrorMessage :=
  let tr := transport settings in
  let rt := runtime settings in
  let put_tr t := settings <| transport := t |> in
  let put_rt r := settings <| runtime := r |> in
  if key == "RUDP_TRANSPORT_INITIAL_RTO_MS" then
    assign_field u64 (initial_rto_ms tr) (fun v => put_tr (tr <| initial_rto_ms := v |>))
      value err key
  else if key == "RUDP_TRANSPORT_MAX_RTO_MS" then
    assign_field u64 (max_rto_ms tr) (fun v => put_tr (tr <| max_rto_ms := v |>)) value err key
  else if key == "RUDP_TRANSPORT_MAX_RETRANSMIT_COUNT" then
    assign_field u32 (max_retransmit_count tr)
      (fun v => put_tr (tr <| max_retransmit_count := v |>)) value err key
  else if key == "RUDP_TRANSPORT_HANDSHAKE_LINGER_MS" then
    assign_field u64 (handshake_linger_ms tr)
      (fun v => put_tr (tr <| handshake_linger_ms := v |>)) value err key
  else if key == "RUDP_TRANSPORT_KEEPALIVE_IDLE_MS" then
    assign_field u64 (keepalive_idle_ms tr)
      (fun v => put_tr (tr <| keepalive_idle_ms := v |>)) value err key
  else if key == "RUDP_TRANSPORT_IDLE_TIMEOUT_MS" then
    assign_field u64 (idle_timeout_ms tr)
      (fun v => put_tr (tr <| idle_timeout_ms := v |>)) value err key
  else if key == "RUDP_TRANSPORT_RELIABLE_ACK_DELAY_MS" then
    assign_field u64 (reliable_ack_delay_ms tr)
      (fun v => put_tr (tr <| reliable_ack_delay_ms := v |>)) value err key
  else if key == "RUDP_TRANSPORT_FAST_RETX_EVIDENCE_THRESHOLD" then
    assign_field u32 (fast_retx_evidence_threshold tr)
      (fun v => put_tr (tr <| fast_retx_evidence_threshold := v |>)) value err key
  else if key == "RUDP_TRANSPORT_ENABLE_ACTIVITY_ACK_ONLY" then
    let '(ok, parsed) := parseBool value false in
    if negb ok then (false, settings, set_error ("invalid boolean for key " +:+ key) err)
    else (true, put_tr (tr <| enable_activity_ack_only := parsed |>), err)
  else if key == "RUDP_RUNTIME_SERVER_BIND_ADDRESS" then
    (true, put_rt (rt <| server_bind_address := unquote value |>), err)
  else if key == "RUDP_RUNTIME_SERVER_PORT" then
    assign_field u16 (server_port rt) (fun v => put_rt (rt <| server_port := v |>)) value err key
  else if key == "RUDP_RUNTIME_CLIENT_SERVER_ADDRESS" then
    (true, put_rt (rt <| client_server_address := unquote value |>), err)
  else if key == "RUDP_RUNTIME_CLIENT_SERVER_PORT" then
    assign_field u16 (client_server_port rt)
      (fun v => put_rt (rt <| client_server_port := v |>)) value err key
  else if key == "RUDP_RUNTIME_CLIENT_BIND_ADDRESS" then
    (true, put_rt (rt <| client_bind_address := unquote value |>), err)
  else if key == "RUDP_RUNTIME_SOCKET_BUFFER_SIZE" then
    assign_field u64 (socket_buffer_size rt)
      (fun v => put_rt (rt <| socket_buffer_size := v |>)) value err key
  else if key == "RUDP_RUNTIME_SERVER_LOOP_SLEEP_US" then
    assign_field u32 (server_loop_sleep_us rt)
      (fun v => put_rt (rt <| server_loop_sleep_us := v |>)) value err key
  else if key == "RUDP_RUNTIME_CLIENT_SELECT_TIMEOUT_US" then
    assign_field u32 (client_select_timeout_us rt)
      (fun v => put_rt (rt <| client_select_timeout_us := v |>)) value err key
  else if key == "RUDP_RUNTIME_CLIENT_POLL_BUDGET" then
    assign_field u32 (client_poll_budget rt)
      (fun v => put_rt (rt <| client_poll_budget := v |>)) value err key
  else if key == "RUDP_RUNTIME_SERVER_LOG_PATH" then
    (true, put_rt (rt <| server_log_path := unquote value |>), err)
  else if key == "RUDP_RUNTIME_CLIENT_LOG_PATH" then
    (true, put_rt (rt <| client_log_path := unquote value |>), err)
  else (true, settings, err).

(** One iteration of the [getline] loop; [line_number] is already incremented. *)
Definition env_line (loaded : Settings) (line : string) (line_number : Z) (err : ErrorMessage)
    : bool * Settings * ErrorMessage :=
  let trimmed := trim line in
  if is_empty trimmed || front_is trimmed "#" then (true, loaded, err)
  else
    match find trimmed "=" with
    | None => (false, loaded, set_error ("invalid .env line " +:+ to_string line_number) err)
    | Some separator =>
        let key := trim (substr trimmed 0 separator) in
        let value := trim (substr_from trimmed (separator + 1)) in
        apply_kv loaded key value err
    end.

Fixpoint env_lines (loaded : Settings) (lines : list string) (line_number : Z)
    (err : ErrorMessage) : bool * Settings * ErrorMessage :=
  match lines with
  | [] => (true, loaded, err)
  | line :: lines =>
      let line_number := u64 (line_number + 1) in
      let '(ok, loaded, err) := env_line loaded line line_number err in
      if negb ok then (false, loaded, err) else env_lines loaded lines line_number err
  end.

(** The settings returned are the new [g_settings]. *)
Definition load_from_env_file (path : string) (file : option string) (g_settings : Settings)
    (err : ErrorMessage) : bool * Settings * ErrorMessage :=
  match file with
  | None => (false, g_settings, set_error ("unable to open " +:+ path) err)
  | Some text =>
      let '(ok, loaded, err) := env_lines g_settings (getlines text) 0 err in
      if negb ok then (false, g_settings, err) else (true, loaded, err)
  end.

(** ** Lemmas *)

Lemma env_line_kv loaded key value n err :
  tight key -> key <> "" -> no_char "=" key = true -> front key <> Some "#"%char ->
  tight value -> value <> "" ->
  env_line loaded (key +:+ String "=" value) n err = apply_kv loaded key value err.
Proof.
  intros Hk Hne Hno Hc Hv Hvne. unfold env_line.
  assert (Ht : tight (key +:+ String "=" value)).
  { apply tight_app; [done| |done|done]. split; [by intros c [= <-]|].
    rewrite back_String by done. apply Hv. }
  rewrite (trim_id _ Ht), find_app by done.
  assert (is_empty (key +:+ String "=" value) = false) as ->.
  { apply String.eqb_neq. intros H. by apply sapp_eq_nil in H as [H _]. }
  unfold front_is. rewrite front_app, bool_decide_eq_false_2 by done. cbn [orb].
  unfold substr, substr_from. cbn [sdrop].
  by rewrite stake_app, sdrop_app_cons, !trim_id.
Qed.

Lemma env_lines_step loaded line lines n err loaded' :
  env_line loaded line (u64 (n + 1)) err = (true, loaded', err) ->
  env_lines loaded (line :: lines) n err = env_lines loaded' lines (u64 (n + 1)) err.
Proof. intros H. cbn [env_lines]. by rewrite H. Qed.

Lemma assign_field_to_string {T} (cast : Z -> Z) field (put : Z -> T) x err key :
  is_u64 x -> cast x = x ->
  assign_field cast field put (to_string x) err key = (true, put x, err).
Proof.
  intros Hx Hc. unfold assign_field, assign_integer. by rewrite stoull_to_string, Hc.
Qed.

Definition bool_text (b : bool) : string := if b then "true" else "false".

Lemma bool_text_tight b : tight (bool_text b).
Proof. by destruct b; split; intros c [= <-]. Qed.

(** A settings file that lists every key; texts are quoted. *)
Definition env_entries (s : Settings) : list (string * string) :=
  let tr := transport s in
  let rt := runtime s in
  [("RUDP_TRANSPORT_INITIAL_RTO_MS", to_string (initial_rto_ms tr));
   ("RUDP_TRANSPORT_MAX_RTO_MS", to_string (max_rto_ms tr));
   ("RUDP_TRANSPORT_MAX_RETRANSMIT_COUNT", to_string (max_retransmit_count tr));
   ("RUDP_TRANSPORT_HANDSHAKE_LINGER_MS", to_string (handshake_linger_ms tr));
   ("RUDP_TRANSPORT_KEEPALIVE_IDLE_MS", to_string (keepalive_idle_ms tr));
   ("RUDP_TRANSPORT_IDLE_TIMEOUT_MS", to_string (idle_timeout_ms tr));
   ("RUDP_TRANSPORT_RELIABLE_ACK_DELAY_MS", to_string (reliable_ack_delay_ms tr));
   ("RUDP_TRANSPORT_FAST_RETX_EVIDENCE_THRESHOLD", to_string (fast_retx_evidence_threshold tr));
   ("RUDP_TRANSPORT_ENABLE_ACTIVITY_ACK_ONLY", bool_text (enable_activity_ack_only tr));
   ("RUDP_RUNTIME_SERVER_BIND_ADDRESS", quoted (server_bind_address rt));
   ("RUDP_RUNTIME_SERVER_PORT", to_string (server_port rt));
   ("RUDP_RUNTIME_CLIENT_SERVER_ADDRESS", quoted (client_server_address rt));
   ("RUDP_RUNTIME_CLIENT_SERVER_PORT", to_string (client_server_port rt));
   ("RUDP_RUNTIME_CLIENT_BIND_ADDRESS", quoted (client_bind_address rt));
   ("RUDP_RUNTIME_SOCKET_BUFFER_SIZE", to_string (socket_buffer_size rt));
   ("RUDP_RUNTIME_SERVER_LOOP_SLEEP_US", to_string (server_loop_sleep_us rt));
   ("RUDP_RUNTIME_CLIENT_SELECT_TIMEOUT_US", to_string (client_select_timeout_us rt));
   ("RUDP_RUNTIME_CLIENT_POLL_BUDGET", to_string (client_poll_budget rt));
   ("RUDP_RUNTIME_SERVER_LOG_PATH", quoted (server_log_path rt));
   ("RUDP_RUNTIME_CLIENT_LOG_PATH", quoted (client_log_path rt))].

Definition env_entry_line (e : string * string) : string := fst e +:+ String "=" (snd e).
Definition render_env (s : Settings) : string := unlines (map env_entry_line (env_entries s)).

(** The texts of the settings stay on one line. *)
Definition single_line (s : Settings) : Prop :=
  Forall (fun t => no_char newline t = true)
    [server_bind_address (runtime s); client_server_address (runtime s);
     client_bind_address (runtime s); server_log_path (runtime s); client_log_path (runtime s)].

(** A key and a value as [env_entry_line] prints them. *)
Record entry_ok (e : string * string) : Prop := mk_entry_ok {
  ek_key_tight : tight (fst e);
  ek_key_nonempty : fst e <> "";
  ek_key_sep : no_char "=" (fst e) = true;
  ek_key_comment : front (fst e) <> Some "#"%char;
  ek_value_tight : tight (snd e);
  ek_value_nonempty : snd e <> ""
}.

(** The loop over well-formed entries is the fold of [apply_kv] over them. *)
Fixpoint apply_entries (s : Settings) (es : list (string * string)) (err : ErrorMessage)
    : bool * Settings * ErrorMessage :=
  match es with
  | [] => (true, s, err)
  | e :: es =>
      let '(ok, s, err) := apply_kv s (fst e) (snd e) err in
      if negb ok then (false, s, err) else apply_entries s es err
  end.

Lemma env_lines_entries s es n err :
  Forall entry_ok es -> env_lines s (map env_entry_line es) n err = apply_entries s es err.
Proof.
  intros H. revert s n err. induction H as [|e es He Hes IH]; intros s n err; [done|].
  cbn [map env_lines apply_entries]. unfold env_entry_line at 1.
  rewrite env_line_kv by apply He.
  destruct (apply_kv s (fst e) (snd e) err) as [[[] s'] err']; [|done]. apply IH.
Qed.

Ltac closed_tight := split; let c := fresh in intros c [= <-]; reflexivity.

Lemma entry_ok_number key x :
  tight key -> key <> "" -> no_char "=" key = true -> front key <> Some "#"%char ->
  0 <= x -> entry_ok (key, to_string x).
Proof. constructor; cbn [fst snd]; auto using to_string_tight, to_string_nonempty. Qed.

Lemma entry_ok_quoted key t :
  tight key -> key <> "" -> no_char "=" key = true -> front key <> Some "#"%char ->
  entry_ok (key, quoted t).
Proof. constructor; cbn [fst snd]; auto using quoted_tight; done. Qed.

Lemma env_entries_ok s : all_settings_typed s -> Forall entry_ok (env_entries s).
Proof.
  intros [[] []]. word_unfold.
  repeat (apply Forall_cons_2; [|]); [..|constructor];
    first [ apply entry_ok_number | apply entry_ok_quoted
          | constructor; cbn [fst snd]; [..|apply bool_text_tight|by destruct (enable_activity_ack_only _)] ];
    (closed_tight || discriminate || lia || reflexivity).
Qed.

(** [apply_kv] at a literal key reduces to the branch of that key. *)
Ltac apply_kv_key :=
  lazymatch goal with
  | |- context [apply_kv ?g ?k ?v ?e] =>
      let r := eval lazy beta iota zeta delta [apply_kv String.eqb Ascii.eqb Bool.eqb] in
        (apply_kv g k v e) in
      change (apply_kv g k v e) with r
  end.

Lemma apply_entries_cons s e es err :
  apply_entries s (e :: es) err =
  let '(ok, s, err) := apply_kv s (fst e) (snd e) err in
  if negb ok then (false, s, err) else apply_entries s es err.
Proof. reflexivity. Qed.

Lemma parseBool_text b t : parseBool (bool_text b) t = (true, b).
Proof. by destruct b. Qed.

Lemma is_u32_u64 x : is_u32 x -> is_u64 x.
Proof. word_unfold. lia. Qed.
Lemma is_u16_u64 x : is_u16 x -> is_u64 x.
Proof. word_unfold. lia. Qed.
Lemma u16_id x : is_u16 x -> u16 x = x.
Proof. apply Z.mod_small. Qed.

#[local] Hint Resolve u16_id u32_id u64_id is_u32_u64 is_u16_u64 : core.

Lemma apply_entries_env s g err :
  all_settings_typed s -> apply_entries g (env_entries s) err = (true, s, err).
Proof.
  intros [Ht Hr]. destruct s as [tr rt], g as [gt gr]. destruct tr, rt, gt, gr.
  pose proof Ht as []. pose proof Hr as []. cbn [transport runtime] in *.
  unfold env_entries. cbn [transport runtime].
  repeat (rewrite apply_entries_cons; cbn [fst snd]; apply_kv_key;
    rewrite ?assign_field_to_string, ?parseBool_text, ?unquote_quoted by auto;
    cbn -[apply_entries to_string quoted bool_text]).
  reflexivity.
Qed.

(** The contract of a fallible step: success leaves the message alone, failure
    writes a non-empty one (when there is somewhere to write). *)
Definition reports {T : Type} (err : ErrorMessage) (r : bool * T * ErrorMessage) : Prop :=
  let '(ok, _, err') := r in
  if ok then err' = err else exists msg, msg <> "" /\ err' = set_error msg err.

Lemma reports_error {T} (t : T) msg err :
  msg <> "" -> reports err (false, t, set_error msg err).
Proof. intros H. by exists msg. Qed.

Lemma assign_field_reports {T} cast field (put : Z -> T) v err key :
  reports err (assign_field cast field put v err key).
Proof.
  unfold assign_field, assign_integer. destruct (stoull v); [done|]. by apply reports_error.
Qed.

(** An assigned field is the old one or a value of the width of the cast. *)
Lemma assign_field_typed {T} (P : T -> Prop) cast field (put : Z -> T) v err key :
  (forall x, x = field \/ (exists y, x = cast y) -> P (put x)) ->
  P (snd (fst (assign_field cast field put v err key))).
Proof.
  intros H. unfold assign_field, assign_integer.
  destruct (stoull v) as [y|]; apply H; eauto.
Qed.

#[export] Hint Resolve reports_error assign_field_reports : rudp.

(** Case analysis on which key a line has. *)
Ltac each_key :=
  unfold apply_kv;
  repeat match goal with |- context [if ?k == ?lit then _ else _] =>
    destruct (String.eqb_spec k lit) end.

Lemma apply_kv_reports s key value err : reports err (apply_kv s key value err).
Proof.
  each_key; try apply assign_field_reports; try done.
  destruct (parseBool value false) as [[] b]; [done|]. by apply reports_error.
Qed.

Lemma env_line_reports s line n err : reports err (env_line s line n err).
Proof.
  unfold env_line. destruct (_ || _); [done|].
  destruct (find _ _); [apply apply_kv_reports|]. by apply reports_error.
Qed.

Lemma env_lines_reports s lines n err : reports err (env_lines s lines n err).
Proof.
  revert s n. induction lines as [|l lines IH]; intros s n; [done|]. cbn [env_lines].
  pose proof (env_line_reports s l (u64 (n + 1)) err) as H.
  destruct (env_line _ _ _ _) as [[[] s'] err']; [|exact H].
  cbn in H. subst err'. apply IH.
Qed.

Lemma apply_kv_typed s key value err :
  all_settings_typed s -> all_settings_typed (snd (fst (apply_kv s key value err))).
Proof.
  intros [[] []]. each_key;
    try (apply assign_field_typed; intros x [-> | [y ->]]);
    try destruct (parseBool value false) as [[] b];
    (split; constructor; cbn; auto with rudp).
Qed.

Lemma env_lines_typed s lines n err :
  all_settings_typed s -> all_settings_typed (snd (fst (env_lines s lines n err))).
Proof.
  revert s n err. induction lines as [|l lines IH]; intros s n err Hs; [done|].
  cbn [env_lines].
  assert (Hl : all_settings_typed (snd (fst (env_line s l (u64 (n + 1)) err)))).
  { unfold env_line. destruct (_ || _); [done|].
    destruct (find _ _); [by apply apply_kv_typed|done]. }
  destruct (env_line _ _ _ _) as [[[] s'] err']; [by apply IH|done].
Qed.

Lemma no_char_app x a b : no_char x (a +:+ b) = no_char x a && no_char x b.
Proof. apply all_chars_app. Qed.

Lemma env_entries_single_line s :
  all_settings_typed s -> single_line s ->
  Forall (fun l => no_char newline l = true) (map env_entry_line (env_entries s)).
Proof.
  intros [[] []] Hs. word_unfold. unfold single_line in Hs.
  repeat (apply Forall_cons in Hs as [? Hs]).
  unfold env_entries, env_entry_line. cbn [map fst snd].
  repeat apply Forall_cons_2; [..|by apply Forall_nil_2];
    lazymatch goal with |- no_char newline (_ +:+ String _ ?v) = true =>
      change (no_char newline v = true) end;
    first [ apply to_string_no_char; [lia|reflexivity]
          | apply quoted_no_char; [discriminate|done]
          | by destruct (enable_activity_ack_only _) ].
Qed.

(** ** Properties *)

(** C39: a complete settings file is read back exactly. For any typed settings
    whose texts contain no newline, loading the file that lists all twenty keys
    (texts in double quotes) succeeds and installs precisely those settings,
    whatever the settings were before, and leaves the message untouched. *)
Theorem env_file_roundtrip path s g err :
  all_settings_typed s -> single_line s ->
  load_from_env_file path (Some (render_env s)) g err = (true, s, err).
Proof.
  intros Ht Hs. unfold load_from_env_file, render_env.
  rewrite getlines_unlines by by apply env_entries_single_line.
  by rewrite env_lines_entries, apply_entries_env by auto using env_entries_ok.
Qed.

Lemma env_file_roundtrip_witness :
  load_from_env_file ".env"
    (Some (render_env (default_settings <| runtime ::= fun r => r <| server_port := 9010 |> |>)))
    default_settings (Some "") =
  (true, default_settings <| runtime ::= fun r => r <| server_port := 9010 |> |>, Some "").
Proof.
  apply env_file_roundtrip.
  - split; constructor; cbn; word_unfold; lia.
  - repeat constructor.
Defined.

(** C40: loading a [.env] file is all or nothing. Whatever the file holds, on
    failure the settings in force are unchanged and a non-empty message is
    written; on success the message is unchanged and every integer still fits
    its field. *)
Theorem env_load_atomic path file g err :
  all_settings_typed g ->
  let '(ok, g', err') := load_from_env_file path file g err in
  (ok = false -> g' = g /\ exists msg, msg <> "" /\ err' = set_error msg err) /\
  (ok = true -> all_settings_typed g' /\ err' = err).
Proof.
  intros Hg. unfold load_from_env_file. destruct file as [text|].
  - pose proof (env_lines_reports g (getlines text) 0 err) as Hr.
    pose proof (env_lines_typed g (getlines text) 0 err Hg) as Ht.
    destruct (env_lines _ _ _ _) as [[[] s] err']; cbn in *; naive_solver.
  - split; [|done]. intros _. split; [done|]. by exists ("unable to open " +:+ path).
Qed.

Lemma env_load_atomic_witness :
  let '(ok, g', _) := load_from_env_file ".env" (Some "RUDP_TRANSPORT_MAX_RTO_MS=1
oops") default_settings (Some "") in
  ok = false /\ g' = default_settings.
Proof.
  pose proof (env_load_atomic ".env" (Some "RUDP_TRANSPORT_MAX_RTO_MS=1
oops") default_settings (Some "") default_settings_typed) as H.
  destruct (load_from_env_file _ _ _ _) as [[ok g'] e'] eqn:E.
  assert (Hok : ok = false) by (vm_compute in E; congruence).
  destruct H as [H _]. split; [exact Hok|]. exact (proj1 (H Hok)).
Defined.

(** A port is not range-checked. Any number below 2^64 is accepted for
    RUDP_RUNTIME_SERVER_PORT, without an error, and the port becomes its low 16
    bits. *)
Theorem env_port_truncated path g err x :
  is_u64 x ->
  load_from_env_file path (Some (unlines ["RUDP_RUNTIME_SERVER_PORT=" +:+ to_string x])) g err =
  (true, g <| runtime ::= fun r => r <| server_port := u16 x |> |>, err).
Proof.
  intros Hx. assert (0 <= x) by (unfold is_u64 in Hx; lia). unfold load_from_env_file.
  rewrite getlines_unlines.
  2: { apply Forall_singleton. rewrite no_char_app, to_string_no_char by done. done. }
  change ["RUDP_RUNTIME_SERVER_PORT=" +:+ to_string x] with
    (map env_entry_line [("RUDP_RUNTIME_SERVER_PORT", to_string x)]).
  rewrite env_lines_entries.
  2: { apply Forall_singleton, entry_ok_number; (closed_tight || done). }
  rewrite apply_entries_cons. cbn [fst snd]. apply_kv_key.
  unfold assign_field, assign_integer. rewrite stoull_to_string by done. reflexivity.
Qed.

Lemma env_port_truncated_witness :
  load_from_env_file ".env" (Some (unlines ["RUDP_RUNTIME_SERVER_PORT=" +:+ to_string 70000]))
    default_settings None =
  (true, default_settings <| runtime ::= fun r => r <| server_port := u16 70000 |> |>, None).
Proof. apply env_port_truncated. unfold is_u64. lia. Defined.
