(* ===== verification/ConfigYaml.v ===== *)
(** The runtime profile loader ([src/Config.cpp]: the YAML subset,
    [load_runtime_profile_from_yaml]).

    [g_settings] is the global the loader takes its defaults from. The pointer
    [current_channel] always points into [profile.channels]: it is an index. *)

From S2P Require Import Prelude Protocol Text Config ConfigEnv.

(** [if (error_message != nullptr && error_message->empty()) ...] *)
Definition set_error_if_empty (msg : string) (err : ErrorMessage) : ErrorMessage :=
  match err with
  | Some text => if is_empty text then Some msg else err
  | None => None
  end.

Definition assign_yaml_integer (cast : Z -> Z) (target : Z) (raw_value : string)
    (err : ErrorMessage) (key : string) : bool * Z * ErrorMessage :=
  assign_integer cast target raw_value err key.

(** [return assign_yaml_integer(field, ...)], where [put] assigns the field. *)
Definition assign_yaml_field {T : Type} (cast : Z -> Z) (field : Z) (put : Z -> T)
    (value : string) (err : ErrorMessage) (key : string) : bool * T * ErrorMessage :=
  let '(ok, v, err) := assign_yaml_integer cast field value err key in (ok, put v, err).

Definition parse_runtime_mode (value : string) : option RuntimeMode :=
  if value == "server" then Some ModeServer
  else if value == "client" then Some ModeClient
  else None.

Definition parse_channel_type (value : string) : option ChannelType :=
  if value == "reliable_ordered" then Some ReliableOrdered
  else if value == "reliable_unordered" then Some ReliableUnordered
  else if value == "unreliable" then Some Unreliable
  else if value == "monotonic_state" then Some MonotonicState
  else None.

Definition default_runtime_profile (g_settings : Settings) : RuntimeProfile :=
  let rt := runtime g_settings in
  {| pf_mode := ModeServer;
     pf_bind_address := server_bind_address rt;
     pf_bind_port := server_port rt;
     pf_remote_address := client_server_address rt;
     pf_remote_port := client_server_port rt;
     pf_log_path := server_log_path rt;
     pf_socket_buffer_size := socket_buffer_size rt;
     pf_loop_sleep_us := server_loop_sleep_us rt;
     pf_select_timeout_us := client_select_timeout_us rt;
     pf_poll_budget := client_poll_budget rt;
     pf_channels := [] |}.

Fixpoint indentation_of (line : string) : Z :=
  match line with
  | String c line => if (c =? " ")%char then 1 + indentation_of line else 0
  | EmptyString => 0
  end.

(** The key and the value, or [None] for [false]. *)
Definition parse_key_value (line : string) : option (string * string) :=
  match find line ":" with
  | None => None
  | Some separator =>
      Some (trim (substr line 0 separator), unquote (trim (substr_from line (separator + 1))))
  end.

Definition apply_profile_field (g_settings : Settings) (profile : RuntimeProfile)
    (scope key value : string) (err : ErrorMessage) : bool * RuntimeProfile * ErrorMessage :=
  if is_empty scope then
    if key == "mode" then
      match parse_runtime_mode value with
      | None => (false, profile, set_error "mode must be server or client" err)
      | Some parsed_mode =>
          let profile := profile <| pf_mode := parsed_mode |> in
          (true,
           profile <| pf_log_path :=
             if bool_decide (pf_mode profile = ModeClient)
             then client_log_path (runtime g_settings)
             else server_log_path (runtime g_settings) |>, err)
      end
    else (true, profile, err)
  else if scope == "runtime" then
    if key == "log_path" then (true, profile <| pf_log_path := value |>, err)
    else if key == "socket_buffer_size" then
      assign_yaml_field u64 (pf_socket_buffer_size profile)
        (fun v => profile <| pf_socket_buffer_size := v |>) value err "runtime.socket_buffer_size"
    else if key == "loop_sleep_us" then
      assign_yaml_field u32 (pf_loop_sleep_us profile)
        (fun v => profile <| pf_loop_sleep_us := v |>) value err "runtime.loop_sleep_us"
    else if key == "select_timeout_us" then
      assign_yaml_field u32 (pf_select_timeout_us profile)
        (fun v => profile <| pf_select_timeout_us := v |>) value err "runtime.select_timeout_us"
    else if key == "poll_budget" then
      assign_yaml_field u32 (pf_poll_budget profile)
        (fun v => profile <| pf_poll_budget := v |>) value err "runtime.poll_budget"
    else (true, profile, err)
  else if scope == "connection" then
    if key == "bind_address" then (true, profile <| pf_bind_address := value |>, err)
    else if key == "bind_port" then
      assign_yaml_field u16 (pf_bind_port profile)
        (fun v => profile <| pf_bind_port := v |>) value err "connection.bind_port"
    else if key == "remote_address" then (true, profile <| pf_remote_address := value |>, err)
    else if key == "remote_port" then
      assign_yaml_field u16 (pf_remote_port profile)
        (fun v => profile <| pf_remote_port := v |>) value err "connection.remote_port"
    else (true, profile, err)
  else (true, profile, err).

Definition apply_channel_field (channel : ChannelDefinition) (key value : string)
    (err : ErrorMessage) : bool * ChannelDefinition * ErrorMessage :=
  if key == "id" then
    assign_yaml_field u32 (ch_id channel) (fun v => channel <| ch_id := v |>) value err
      "channels[].id"
  else if key == "name" then (true, channel <| ch_name := value |>, err)
  else if key == "type" then
    match parse_channel_type value with
    | None =>
        (false, channel,
         set_error ("channel type must be reliable_ordered, reliable_unordered, " +:+
                    "unreliable, or monotonic_state") err)
    | Some parsed_type => (true, channel <| ch_type := parsed_type |>, err)
    end
  else if key == "default" then
    let '(ok, b) := parseBool value (ch_is_default channel) in
    if negb ok then (false, channel, set_error "channels[].default must be true or false" err)
    else (true, channel <| ch_is_default := b |>, err)
  else (true, channel, err).

(** [if (!parse_key_value(line, key, value) || !apply(key, value)) { ... return false; }] *)
Definition apply_entry {T : Type} (line : string) (target : T)
    (apply : string -> string -> bool * T * ErrorMessage) (msg : string) (err : ErrorMessage)
    : bool * T * ErrorMessage :=
  let '(ok, target, err) :=
    match parse_key_value line with
    | None => (false, target, err)
    | Some (key, value) => apply key value
    end in
  if negb ok then (false, target, set_error_if_empty msg err) else (true, target, err).

(** The locals of the loop. *)
Record YamlState := mkYamlState {
  ys_profile : RuntimeProfile;
  ys_section : string;
  ys_current_channel : option nat
}.
#[export] Instance set_ys_profile : Setter ys_profile := fun f r =>
  mkYamlState (f (ys_profile r)) (ys_section r) (ys_current_channel r).
#[export] Instance set_ys_section : Setter ys_section := fun f r =>
  mkYamlState (ys_profile r) (f (ys_section r)) (ys_current_channel r).
#[export] Instance set_ys_current_channel : Setter ys_current_channel := fun f r =>
  mkYamlState (ys_profile r) (ys_section r) (f (ys_current_channel r)).

(** [apply_channel_field( *current_channel, ...)] through [apply_entry]. *)
Definition apply_current_channel (st : YamlState) (index : nat) (line msg : string)
    (err : ErrorMessage) : bool * YamlState * ErrorMessage :=
  match pf_channels (ys_profile st) !! index with
  | None => (false, st, err)
  | Some channel =>
      let '(ok, channel, err) :=
        apply_entry line channel (fun key value => apply_channel_field channel key value err)
          msg err in
      (ok, st <| ys_profile ::= fun p => p <| pf_channels ::= <[index := channel]> |> |>, err)
  end.

(** One iteration of the [getline] loop; [line_number] is already incremented. *)
Definition yaml_line (g_settings : Settings) (st : YamlState) (line : string) (line_number : Z)
    (err : ErrorMessage) : bool * YamlState * ErrorMessage :=
  let trimmed := trim line in
  if is_empty trimmed || front_is trimmed "#" then (true, st, err)
  else
    let indent := indentation_of line in
    if indent =? 0 then
      let st := st <| ys_current_channel := None |> in
      if ends_with trimmed ":" then
        (true, st <| ys_section := substr trimmed 0 (String.length trimmed - 1) |>, err)
      else
        let '(ok, profile, err) :=
          apply_entry trimmed (ys_profile st)
            (fun key value => apply_profile_field g_settings (ys_profile st) "" key value err)
            ("invalid root entry on line " +:+ to_string line_number) err in
        (ok, st <| ys_profile := profile |>, err)
    else if ys_section st == "channels" then
      if (indent =? 2) && starts_with trimmed "- " then
        let index := length (pf_channels (ys_profile st)) in
        let st := st <| ys_profile ::= fun p =>
                          p <| pf_channels ::= fun cs => cs ++ [default_channel_definition] |> |>
                     <| ys_current_channel := Some index |> in
        apply_current_channel st index (substr_from trimmed 2)
          ("invalid channel entry on line " +:+ to_string line_number) err
      else
        match (if indent =? 4 then ys_current_channel st else None) with
        | Some index =>
            apply_current_channel st index trimmed
              ("invalid channel field on line " +:+ to_string line_number) err
        | None =>
            (false, st,
             set_error ("invalid channels indentation on line " +:+ to_string line_number) err)
        end
    else if (indent =? 2) && ((ys_section st == "runtime") || (ys_section st == "connection")) then
      let '(ok, profile, err) :=
        apply_entry trimmed (ys_profile st)
          (fun key value =>
             apply_profile_field g_settings (ys_profile st) (ys_section st) key value err)
          ("invalid " +:+ ys_section st +:+ " field on line " +:+ to_string line_number) err in
      (ok, st <| ys_profile := profile |>, err)
    else
      (false, st, set_error ("unsupported YAML shape on line " +:+ to_string line_number) err).

Fixpoint yaml_lines (g_settings : Settings) (st : YamlState) (lines : list string)
    (line_number : Z) (err : ErrorMessage) : bool * YamlState * ErrorMessage :=
  match lines with
  | [] => (true, st, err)
  | line :: lines =>
      let line_number := u64 (line_number + 1) in
      let '(ok, st, err) := yaml_line g_settings st line line_number err in
      if negb ok then (false, st, err) else yaml_lines g_settings st lines line_number err
  end.

(** After the loop: a default channel, and the remote endpoint of the mode. *)
Definition ensure_default_channel (profile : RuntimeProfile) : RuntimeProfile :=
  match pf_channels profile with
  | [] =>
      profile <| pf_channels :=
        [{| ch_id := 1; ch_name := "default"; ch_type := Unreliable; ch_is_default := true |}] |>
  | channel :: channels =>
      if forallb (fun c => negb (ch_is_default c)) (channel :: channels)
      then profile <| pf_channels := channel <| ch_is_default := true |> :: channels |>
      else profile
  end.

Definition check_remote (profile : RuntimeProfile) (err : ErrorMessage)
    : bool * RuntimeProfile * ErrorMessage :=
  if bool_decide (pf_mode profile = ModeServer) then
    (true, profile <| pf_remote_address := "" |> <| pf_remote_port := 0 |>, err)
  else if is_empty (pf_remote_address profile) || (pf_remote_port profile =? 0) then
    (false, profile,
     set_error ("client profiles must define connection.remote_address and " +:+
                "connection.remote_port") err)
  else (true, profile, err).

Definition apply_profile_yaml (g_settings : Settings) (profile : RuntimeProfile) (text : string)
    (err : ErrorMessage) : bool * RuntimeProfile * ErrorMessage :=
  let st := {| ys_profile := profile <| pf_channels := [] |>; ys_section := "";
               ys_current_channel := None |} in
  let '(ok, st, err) := yaml_lines g_settings st (getlines text) 0 err in
  if negb ok then (false, ys_profile st, err)
  else check_remote (ensure_default_channel (ys_profile st)) err.

Definition load_runtime_profile_from_yaml (path : string) (file : option string)
    (g_settings : Settings) (profile : RuntimeProfile) (err : ErrorMessage)
    : bool * RuntimeProfile * ErrorMessage :=
  match file with
  | None => (false, profile, set_error ("unable to open " +:+ path) err)
  | Some text =>
      let loaded := default_runtime_profile g_settings in
      let '(ok, loaded, err) := apply_profile_yaml g_settings loaded text err in
      if negb ok then (false, profile, err) else (true, loaded, err)
  end.
