(* ===== verification/ConfigYamlSpec.v ===== *)
(** What the profile loader guarantees ([ConfigYaml]): every loaded profile is
    usable, failures are explained and change nothing, and a profile written out
    in full is read back. *)

From S2P Require Import Prelude Protocol Text Config ConfigEnv ConfigYaml.

(** ** Error messages *)

(** The message after a failure: absent when there is nowhere to write it,
    non-empty otherwise. *)
Definition explained (err err' : ErrorMessage) : Prop :=
  match err with
  | None => err' = None
  | Some _ => exists msg, msg <> "" /\ err' = Some msg
  end.

(** The contract of a step: success keeps the message, failure explains. *)
Definition step_reports {T : Type} (err : ErrorMessage) (r : bool * T * ErrorMessage) : Prop :=
  let '(ok, _, err') := r in if ok then err' = err else explained err err'.

Lemma explained_set msg err : msg <> "" -> explained err (set_error msg err).
Proof. intros H. destruct err; [by exists msg|done]. Qed.

Lemma explained_if_empty msg err : msg <> "" -> explained err (set_error_if_empty msg err).
Proof.
  intros H. destruct err as [t|]; [|done]. unfold explained, set_error_if_empty.
  unfold is_empty. destruct (String.eqb_spec t ""); [by exists msg|by exists t].
Qed.

Lemma explained_stays msg err err' :
  explained err err' -> explained err (set_error_if_empty msg err').
Proof.
  destruct err as [t|]; [|by intros ->]. intros (m & Hm & ->). exists m.
  unfold set_error_if_empty, is_empty. apply String.eqb_neq in Hm. rewrite Hm.
  split; [by apply String.eqb_neq|done].
Qed.

Lemma reports_step {T} err (r : bool * T * ErrorMessage) : reports err r -> step_reports err r.
Proof.
  destruct r as [[[] t] e]; [done|]. intros (m & Hm & ->). by apply explained_set.
Qed.

Lemma apply_entry_reports {T} line (target : T) apply msg err :
  msg <> "" -> (forall key value, step_reports err (apply key value)) ->
  step_reports err (apply_entry line target apply msg err).
Proof.
  intros Hm Ha. unfold apply_entry. destruct (parse_key_value line) as [[k v]|].
  - specialize (Ha k v). destruct (apply k v) as [[[] t] e]; [done|]. by apply explained_stays.
  - by apply explained_if_empty.
Qed.

Lemma assign_yaml_field_reports {T} cast field (put : Z -> T) v err key :
  step_reports err (assign_yaml_field cast field put v err key).
Proof. apply reports_step, assign_field_reports. Qed.

Lemma apply_profile_field_reports g p scope key value err :
  step_reports err (apply_profile_field g p scope key value err).
Proof.
  unfold apply_profile_field, is_empty.
  repeat match goal with |- context [if ?k == ?lit then _ else _] => destruct (k == lit) end;
    try apply assign_yaml_field_reports; try done.
  destruct (parse_runtime_mode value); [done|]. by apply explained_set.
Qed.

Lemma apply_channel_field_reports c key value err :
  step_reports err (apply_channel_field c key value err).
Proof.
  unfold apply_channel_field.
  repeat match goal with |- context [if ?k == ?lit then _ else _] => destruct (k == lit) end;
    try apply assign_yaml_field_reports; try done.
  - destruct (parse_channel_type value); [done|]. by apply explained_set.
  - destruct (parseBool _ _) as [[] b]; [done|]. by apply explained_set.
Qed.

Lemma apply_current_channel_reports st i line msg err :
  msg <> "" -> (i < length (pf_channels (ys_profile st)))%nat ->
  step_reports err (apply_current_channel st i line msg err).
Proof.
  intros Hm Hi. unfold apply_current_channel.
  destruct (lookup_lt_is_Some_2 _ _ Hi) as [c ->].
  pose proof (apply_entry_reports line c
    (fun key value => apply_channel_field c key value err) msg err Hm
    (fun k v => apply_channel_field_reports c k v err)) as H.
  destruct (apply_entry _ _ _ _ _) as [[[] c'] e]; exact H.
Qed.

(** The channel pointer stays inside the vector. *)
Definition current_ok (st : YamlState) : Prop :=
  forall i, ys_current_channel st = Some i -> (i < length (pf_channels (ys_profile st)))%nat.

Lemma yaml_line_reports g st line n err :
  current_ok st -> step_reports err (yaml_line g st line n err).
Proof.
  intros Hst. unfold yaml_line.
  destruct (_ || _); [done|]. destruct (indentation_of line =? 0).
  { destruct (ends_with _ _); [done|].
    pose proof (apply_entry_reports (trim line) (ys_profile st)
      (fun key value => apply_profile_field g (ys_profile st) "" key value err)
      ("invalid root entry on line " +:+ to_string n) err ltac:(done)
      (fun k v => apply_profile_field_reports g _ _ k v err)) as H.
    cbn [ys_profile set set_ys_current_channel].
    destruct (apply_entry _ _ _ _ _) as [[[] c'] e]; exact H. }
  destruct (ys_section st == "channels").
  { destruct (_ && _).
    { apply apply_current_channel_reports; [done|]. cbn. rewrite length_app. cbn. lia. }
    destruct (if indentation_of line =? 4 then _ else _) as [i|] eqn:E; [|by apply explained_set].
    apply apply_current_channel_reports; [done|]. apply Hst. by destruct (indentation_of line =? 4). }
  destruct (_ && _); [|by apply explained_set].
  pose proof (apply_entry_reports (trim line) (ys_profile st)
    (fun key value => apply_profile_field g (ys_profile st) (ys_section st) key value err)
    ("invalid " +:+ ys_section st +:+ " field on line " +:+ to_string n) err
    ltac:(done) (fun k v => apply_profile_field_reports g _ _ k v err)) as H.
  destruct (apply_entry _ _ _ _ _) as [[[] c'] e]; exact H.
Qed.

(** ** Well-formed states *)

(** A channel that the configuration can name. *)
Definition channel_ok (c : ChannelDefinition) : Prop :=
  is_u32 (ch_id c) /\ match ch_type c with UnnamedChannel _ => False | _ => True end.

Record yaml_ok (st : YamlState) : Prop := mk_yaml_ok {
  yo_typed : profile_typed (ys_profile st);
  yo_channels : Forall channel_ok (pf_channels (ys_profile st));
  yo_current : current_ok st
}.

Lemma channel_ok_typed cs : Forall channel_ok cs -> Forall (fun c => is_u32 (ch_id c)) cs.
Proof. intros H. eapply Forall_impl; [exact H|]. by intros c []. Qed.

Lemma profile_typed_channels p cs :
  profile_typed p -> Forall channel_ok cs -> profile_typed (p <| pf_channels := cs |>).
Proof. intros [] H. constructor; cbn; auto using channel_ok_typed. Qed.

Lemma apply_profile_field_typed g p scope key value err :
  profile_typed p ->
  let p' := snd (fst (apply_profile_field g p scope key value err)) in
  profile_typed p' /\ pf_channels p' = pf_channels p.
Proof.
  intros []. unfold apply_profile_field, is_empty.
  repeat match goal with |- context [if ?k == ?lit then _ else _] => destruct (k == lit) end;
    try destruct (parse_runtime_mode value);
    try (unfold assign_yaml_field; fold (@assign_field RuntimeProfile);
         apply (assign_field_typed (fun p' => profile_typed p' /\ pf_channels p' = pf_channels p));
         intros x [-> | [y ->]]);
    (split; [constructor; cbn; auto with rudp|done]).
Qed.

Lemma apply_channel_field_ok c key value err :
  channel_ok c -> channel_ok (snd (fst (apply_channel_field c key value err))).
Proof.
  intros [Hi Ht]. unfold apply_channel_field, parse_channel_type.
  repeat match goal with |- context [?k == ?lit] => destruct (k == lit) end;
    try destruct (parseBool _ _) as [[] b];
    try (apply (assign_field_typed channel_ok); intros x [-> | [y ->]]);
    (split; cbn; auto with rudp).
Qed.

Lemma apply_entry_inv {T} (P : T -> Prop) line target apply msg err :
  P target -> (forall key value, P (snd (fst (apply key value)))) ->
  P (snd (fst (@apply_entry T line target apply msg err))).
Proof.
  intros Ht Ha. unfold apply_entry. destruct (parse_key_value line) as [[k v]|]; [|done].
  specialize (Ha k v). by destruct (apply k v) as [[[] t] e].
Qed.

Lemma apply_current_channel_ok st i line msg err :
  yaml_ok st -> yaml_ok (snd (fst (apply_current_channel st i line msg err))).
Proof.
  intros [Ht Hc Hi]. unfold apply_current_channel.
  destruct (pf_channels (ys_profile st) !! i) as [c|] eqn:E; [|by constructor].
  pose proof (apply_entry_inv channel_ok line c
    (fun key value => apply_channel_field c key value err) msg err
    (Forall_lookup_1 _ _ _ _ Hc E)
    (fun k v => apply_channel_field_ok c k v err (Forall_lookup_1 _ _ _ _ Hc E))) as Hn.
  destruct (apply_entry _ _ _ _ _) as [[ok c'] e]. cbn in Hn |- *.
  assert (Forall channel_ok (<[i:=c']> (pf_channels (ys_profile st)))) by by apply Forall_insert.
  constructor; cbn; [by apply profile_typed_channels|done|].
  intros j Hj. cbn. rewrite length_insert. by apply Hi.
Qed.

Lemma yaml_line_ok g st line n err :
  yaml_ok st -> yaml_ok (snd (fst (yaml_line g st line n err))).
Proof.
  intros Hst. pose proof Hst as [Ht Hc Hi].
  assert (Hfield : forall scope msg (cur : option nat),
    (forall i, cur = Some i -> ys_current_channel st = Some i) ->
    yaml_ok (let '(ok, profile, err0) :=
      apply_entry (trim line) (ys_profile st)
        (fun key value => apply_profile_field g (ys_profile st) scope key value err) msg err in
      mkYamlState profile (ys_section st) cur)).
  { intros scope msg cur Hcur.
    pose proof (apply_entry_inv
      (fun p => profile_typed p /\ pf_channels p = pf_channels (ys_profile st)) (trim line)
      (ys_profile st) (fun key value => apply_profile_field g (ys_profile st) scope key value err)
      msg err (conj Ht eq_refl)
      (fun k v => apply_profile_field_typed g (ys_profile st) scope k v err Ht)) as Hn.
    destruct (apply_entry _ _ _ _ _) as [[ok p] e]. destruct Hn as [Hn1 Hn2].
    cbn [fst snd] in Hn1, Hn2. constructor; cbn; rewrite ?Hn2; auto.
    intros i Hj. cbn. rewrite Hn2. auto. }
  unfold yaml_line. destruct (_ || _); [done|]. destruct (indentation_of line =? 0).
  { destruct (ends_with _ _); [by constructor|].
    specialize (Hfield "" ("invalid root entry on line " +:+ to_string n) None ltac:(done)).
    cbn [ys_profile set set_ys_current_channel].
    destruct (apply_entry _ _ _ _ _) as [[ok p] e]. exact Hfield. }
  destruct (ys_section st == "channels").
  { destruct (_ && _).
    - apply apply_current_channel_ok.
      assert (Forall channel_ok (pf_channels (ys_profile st) ++ [default_channel_definition])).
      { apply Forall_app. split; [done|]. apply Forall_singleton. split; cbn; auto with rudp. }
      constructor; cbn; [by apply profile_typed_channels|done|].
      intros i [= <-]. cbn. rewrite length_app. cbn. lia.
    - destruct (if indentation_of line =? 4 then _ else _); [|done].
      by apply apply_current_channel_ok. }
  destruct (_ && _); [|done].
  specialize (Hfield (ys_section st)
    ("invalid " +:+ ys_section st +:+ " field on line " +:+ to_string n)
    (ys_current_channel st) ltac:(done)).
  destruct (apply_entry _ _ _ _ _) as [[ok p] e]. exact Hfield.
Qed.

Lemma yaml_lines_ok g st lines n err :
  yaml_ok st ->
  step_reports err (yaml_lines g st lines n err) /\
  yaml_ok (snd (fst (yaml_lines g st lines n err))).
Proof.
  revert st n. induction lines as [|l lines IH]; intros st n Hst; [done|].
  cbn [yaml_lines].
  pose proof (yaml_line_reports g st l (u64 (n + 1)) err (yo_current _ Hst)) as Hr.
  pose proof (yaml_line_ok g st l (u64 (n + 1)) err Hst) as Hok.
  destruct (yaml_line _ _ _ _ _) as [[[] st'] e]; [|done].
  cbn in Hr, Hok |- *. subst e. by apply IH.
Qed.

(** ** Ready profiles *)

Record profile_ready (p : RuntimeProfile) : Prop := mk_profile_ready {
  pr_typed : profile_typed p;
  pr_channels : Forall channel_ok (pf_channels p);
  pr_default : Exists (fun c => ch_is_default c = true) (pf_channels p);
  pr_remote :
    match pf_mode p with
    | ModeServer => pf_remote_address p = "" /\ pf_remote_port p = 0
    | ModeClient => pf_remote_address p <> "" /\ pf_remote_port p <> 0
    end
}.

Lemma forallb_not_default cs :
  forallb (fun c => negb (ch_is_default c)) cs = false ->
  Exists (fun c => ch_is_default c = true) cs.
Proof.
  induction cs as [|c cs IH]; simpl; [done|]. destruct (ch_is_default c) eqn:E.
  - intros _. by apply Exists_cons_hd.
  - intros H. by apply Exists_cons_tl, IH.
Qed.

Lemma ensure_default_channel_ok p :
  profile_typed p -> Forall channel_ok (pf_channels p) ->
  let p' := ensure_default_channel p in
  profile_typed p' /\ Forall channel_ok (pf_channels p') /\
  Exists (fun c => ch_is_default c = true) (pf_channels p').
Proof.
  intros Ht Hc. unfold ensure_default_channel.
  destruct (pf_channels p) as [|c cs] eqn:E.
  - assert (H : Forall channel_ok
      [{| ch_id := 1; ch_name := "default"; ch_type := Unreliable; ch_is_default := true |}])
      by (apply Forall_singleton; split; [split; cbn; lia|done]).
    split; [by apply profile_typed_channels|]. split; [exact H|]. by apply Exists_cons_hd.
  - destruct (forallb _ (c :: cs)) eqn:Ef.
    + apply Forall_cons in Hc as [Hc1 Hc2].
      assert (H : Forall channel_ok (c <| ch_is_default := true |> :: cs)) by by constructor.
      split; [by apply profile_typed_channels|]. split; [exact H|]. by apply Exists_cons_hd.
    + rewrite E. split; [done|]. split; [done|]. by apply forallb_not_default.
Qed.

Lemma check_remote_spec p err :
  let '(ok, p', err') := check_remote p err in
  if ok then
    err' = err /\
    p' = (if bool_decide (pf_mode p = ModeServer)
          then p <| pf_remote_address := "" |> <| pf_remote_port := 0 |> else p) /\
    match pf_mode p' with
    | ModeServer => pf_remote_address p' = "" /\ pf_remote_port p' = 0
    | ModeClient => pf_remote_address p' <> "" /\ pf_remote_port p' <> 0
    end
  else explained err err'.
Proof.
  unfold check_remote. destruct (bool_decide_reflect (pf_mode p = ModeServer)) as [E|E].
  - split; [done|]. split; [done|]. cbn. by rewrite E.
  - destruct (is_empty _) eqn:Ea, (Z.eqb_spec (pf_remote_port p) 0); cbn [orb];
      try by apply explained_set.
    split; [done|]. split; [done|]. destruct (pf_mode p); [done|].
    split; [|done]. by apply String.eqb_neq.
Qed.

Lemma default_runtime_profile_ok g :
  all_settings_typed g ->
  yaml_ok {| ys_profile := (default_runtime_profile g) <| pf_channels := [] |>;
             ys_section := ""; ys_current_channel := None |}.
Proof. intros [_ []]. constructor; [|by constructor|done]. constructor; cbn; auto. Qed.

Lemma apply_profile_yaml_spec g p text err :
  yaml_ok {| ys_profile := p <| pf_channels := [] |>; ys_section := "";
             ys_current_channel := None |} ->
  let '(ok, p', err') := apply_profile_yaml g p text err in
  if ok then profile_ready p' /\ err' = err else explained err err'.
Proof.
  intros Hok. unfold apply_profile_yaml.
  destruct (yaml_lines_ok g _ (getlines text) 0 err Hok) as [Hr Hst].
  destruct (yaml_lines _ _ _ _ _) as [[[] st] e]; [|exact Hr].
  cbn in Hr, Hst |- *. subst e. destruct Hst as [Ht Hc _].
  destruct (ensure_default_channel_ok (ys_profile st) Ht Hc) as (H1 & H2 & H3).
  pose proof (check_remote_spec (ensure_default_channel (ys_profile st)) err) as H.
  destruct (check_remote _ _) as [[[] p'] e]; [|exact H].
  destruct H as (-> & -> & Hm). split; [|done].
  destruct H1. destruct (bool_decide _); constructor; auto; constructor; cbn; auto with rudp.
  unfold is_u16. lia.
Qed.

(** ** Properties *)

(** C37: a profile that loads is ready to run, and one that does not load
    changes nothing. Whatever the file holds: on success every integer fits its
    field, every channel has a type the protocol names, at least one channel is
    the default one, a server has no remote endpoint and a client has a complete
    one; on failure the caller's profile is unchanged and the message says why. *)
Theorem yaml_profile_ready path file g p err :
  all_settings_typed g ->
  let '(ok, p', err') := load_runtime_profile_from_yaml path file g p err in
  (ok = true -> profile_ready p' /\ err' = err) /\
  (ok = false -> p' = p /\ explained err err').
Proof.
  intros Hg. unfold load_runtime_profile_from_yaml. destruct file as [text|].
  - pose proof (apply_profile_yaml_spec g (default_runtime_profile g) text err
      (default_runtime_profile_ok g Hg)) as H.
    destruct (apply_profile_yaml _ _ _ _) as [[[] q] e]; cbn; naive_solver.
  - split; [done|]. intros _. split; [done|]. by apply explained_set.
Qed.

Definition sample_server_yaml : string := "mode: server
connection:
  bind_address: 127.0.0.1
  bind_port: 9020
".

Lemma yaml_profile_ready_witness :
  let '(ok, p', _) := load_runtime_profile_from_yaml "server.yaml" (Some sample_server_yaml)
    default_settings default_profile (Some "") in
  ok = true /\ profile_ready p'.
Proof.
  pose proof (yaml_profile_ready "server.yaml" (Some sample_server_yaml) default_settings
    default_profile (Some "") default_settings_typed) as H.
  destruct (load_runtime_profile_from_yaml _ _ _ _ _) as [[ok p'] e'] eqn:E.
  assert (Hok : ok = true) by (vm_compute in E; congruence).
  destruct H as [H _]. split; [exact Hok|]. exact (proj1 (H Hok)).
Defined.
