(* ===== verification/ConfigYamlRoundTrip.v ===== *)
(** A profile written out in full is read back by the loader ([ConfigYaml]). *)

From S2P Require Import Prelude Protocol Text Config ConfigEnv ConfigYaml ConfigYamlSpec.

(** ** Printing a profile *)

Definition yaml_entry (key value : string) : string := key +:+ ": " +:+ value.

Definition mode_name (m : RuntimeMode) : string :=
  match m with ModeServer => "server" | ModeClient => "client" end.

Definition channel_lines (c : ChannelDefinition) : list string :=
  ["  - " +:+ yaml_entry "id" (to_string (ch_id c));
   "    " +:+ yaml_entry "name" (quoted (ch_name c));
   "    " +:+ yaml_entry "type" (channelTypeName (ch_type c));
   "    " +:+ yaml_entry "default" (bool_text (ch_is_default c))].

Definition profile_lines (p : RuntimeProfile) : list string :=
  [yaml_entry "mode" (mode_name (pf_mode p));
   "runtime:";
   "  " +:+ yaml_entry "log_path" (quoted (pf_log_path p));
   "  " +:+ yaml_entry "socket_buffer_size" (to_string (pf_socket_buffer_size p));
   "  " +:+ yaml_entry "loop_sleep_us" (to_string (pf_loop_sleep_us p));
   "  " +:+ yaml_entry "select_timeout_us" (to_string (pf_select_timeout_us p));
   "  " +:+ yaml_entry "poll_budget" (to_string (pf_poll_budget p));
   "connection:";
   "  " +:+ yaml_entry "bind_address" (quoted (pf_bind_address p));
   "  " +:+ yaml_entry "bind_port" (to_string (pf_bind_port p));
   "  " +:+ yaml_entry "remote_address" (quoted (pf_remote_address p));
   "  " +:+ yaml_entry "remote_port" (to_string (pf_remote_port p));
   "channels:"] ++ concat (map channel_lines (pf_channels p)).

Definition render_profile (p : RuntimeProfile) : string := unlines (profile_lines p).

Definition profile_single_line (p : RuntimeProfile) : Prop :=
  no_char newline (pf_log_path p) = true /\ no_char newline (pf_bind_address p) = true /\
  no_char newline (pf_remote_address p) = true /\
  Forall (fun c => no_char newline (ch_name c) = true) (pf_channels p).

(** ** One entry *)

(** The shape of the keys of the format. *)
Record key_ok (key : string) : Prop := mk_key_ok {
  ko_tight : tight key;
  ko_nonempty : key <> "";
  ko_colon : no_char ":" key = true;
  ko_comment : front key <> Some "#"%char
}.

Record value_ok (value : string) : Prop := mk_value_ok {
  vo_tight : tight value;
  vo_nonempty : value <> "";
  vo_colon : back value <> Some ":"%char
}.

Ltac key_ok_tac := constructor; [closed_tight|discriminate|reflexivity|discriminate].

Lemma value_ok_quoted s : value_ok (quoted s).
Proof.
  constructor; [apply quoted_tight|done|].
  change (quoted s) with (String double_quote s +:+ String double_quote "").
  by rewrite back_app.
Qed.

Lemma value_ok_to_string x : 0 <= x -> value_ok (to_string x).
Proof.
  intros Hx. constructor; [by apply to_string_tight|by apply to_string_nonempty|].
  intros H. apply (all_chars_back is_digit) in H; [done|by apply to_string_digits].
Qed.

Lemma value_ok_bool b : value_ok (bool_text b).
Proof. destruct b; constructor; (closed_tight || discriminate). Qed.

Lemma value_ok_type t : value_ok (channelTypeName t).
Proof. destruct t; constructor; (closed_tight || discriminate). Qed.

Lemma value_ok_mode m : value_ok (mode_name m).
Proof. destruct m; constructor; (closed_tight || discriminate). Qed.

Lemma unquote_to_string x : 0 <= x -> unquote (to_string x) = to_string x.
Proof.
  intros Hx. destruct (to_string_front x Hx) as (c & Hc & Hd).
  unfold unquote, front_is. rewrite Hc, !(bool_decide_eq_false_2 (Some c = _)); [|by intros [= ->]..].
  cbn [andb orb]. by rewrite andb_false_r.
Qed.

Lemma yaml_entry_tight key value : key_ok key -> value_ok value -> tight (yaml_entry key value).
Proof.
  intros [] []. apply tight_app; [done| |done|done]. split; [by intros c [= <-]|].
  rewrite (back_app_r ": ") by done. by apply vo_tight0.
Qed.

Lemma yaml_entry_front key value : key_ok key -> front (yaml_entry key value) = front key.
Proof. intros []. by apply front_app. Qed.

Lemma yaml_entry_nonempty key value : key_ok key -> is_empty (yaml_entry key value) = false.
Proof.
  intros []. apply String.eqb_neq. intros H. by apply sapp_eq_nil in H as [H _].
Qed.

Lemma yaml_entry_not_header key value :
  value_ok value -> ends_with (yaml_entry key value) ":" = false.
Proof.
  intros []. unfold ends_with, yaml_entry.
  rewrite (back_app_r key), (back_app_r ": ") by done. by apply bool_decide_eq_false_2.
Qed.

Lemma parse_key_value_entry key value :
  key_ok key -> value_ok value ->
  parse_key_value (yaml_entry key value) = Some (key, unquote value).
Proof.
  intros [] []. unfold parse_key_value, yaml_entry.
  change (key +:+ ": " +:+ value) with (key +:+ String ":" (String " " value)).
  rewrite find_app by done. unfold substr, substr_from. cbn [sdrop].
  rewrite stake_app, sdrop_app_cons, trim_skip by done. by rewrite !trim_id.
Qed.

Lemma apply_entry_ok {T} key value (target target' : T) apply msg err :
  key_ok key -> value_ok value -> apply key (unquote value) = (true, target', err) ->
  apply_entry (yaml_entry key value) target apply msg err = (true, target', err).
Proof. intros Hk Hv Ha. unfold apply_entry. by rewrite parse_key_value_entry, Ha. Qed.

(** ** One line *)

Lemma indentation_of_tight body : tight body -> indentation_of body = 0.
Proof.
  intros [Ht _]. destruct body as [|c body]; [done|]. cbn [indentation_of].
  destruct (Ascii.eqb_spec c " ") as [->|]; [|done]. by specialize (Ht _ eq_refl).
Qed.

Lemma indented_2 body :
  tight body -> trim ("  " +:+ body) = body /\ indentation_of ("  " +:+ body) = 2.
Proof.
  intros Ht. cbn [String.append]. rewrite !trim_skip, trim_id by done. split; [done|].
  change (1 + (1 + indentation_of body) = 2). by rewrite indentation_of_tight.
Qed.

Lemma indented_4 body :
  tight body -> trim ("    " +:+ body) = body /\ indentation_of ("    " +:+ body) = 4.
Proof.
  intros Ht. cbn [String.append]. rewrite !trim_skip, trim_id by done. split; [done|].
  change (1 + (1 + (1 + (1 + indentation_of body))) = 4). by rewrite indentation_of_tight.
Qed.

Section lines.
Context (g : Settings) (err : ErrorMessage).

Lemma yaml_line_root st key value n p' :
  key_ok key -> value_ok value ->
  apply_profile_field g (ys_profile st) "" key (unquote value) err = (true, p', err) ->
  yaml_line g st (yaml_entry key value) n err =
  (true, st <| ys_current_channel := None |> <| ys_profile := p' |>, err).
Proof.
  intros Hk Hv Ha. pose proof (yaml_entry_tight key value Hk Hv) as Ht.
  unfold yaml_line. rewrite trim_id, indentation_of_tight, yaml_entry_nonempty by done.
  unfold front_is. rewrite yaml_entry_front, bool_decide_eq_false_2 by (done || apply Hk).
  cbn [orb Z.eqb]. rewrite yaml_entry_not_header by done.
  by rewrite (apply_entry_ok key value _ p').
Qed.

Lemma yaml_line_section st key value n p' :
  key_ok key -> value_ok value -> ys_section st = "runtime" \/ ys_section st = "connection" ->
  apply_profile_field g (ys_profile st) (ys_section st) key (unquote value) err =
    (true, p', err) ->
  yaml_line g st ("  " +:+ yaml_entry key value) n err =
  (true, st <| ys_profile := p' |>, err).
Proof.
  intros Hk Hv Hs Ha. pose proof (yaml_entry_tight key value Hk Hv) as Ht.
  destruct (indented_2 _ Ht) as [E1 E2].
  unfold yaml_line. rewrite E1, E2, yaml_entry_nonempty by done.
  unfold front_is. rewrite yaml_entry_front, bool_decide_eq_false_2 by (done || apply Hk).
  assert (Hc : (ys_section st == "channels") = false) by by destruct Hs as [-> | ->].
  assert (Hr : (ys_section st == "runtime") || (ys_section st == "connection") = true)
    by by destruct Hs as [-> | ->].
  cbn [orb Z.eqb Pos.eqb andb]. rewrite Hc, Hr. by rewrite (apply_entry_ok key value _ p').
Qed.

(** The state after a channel line. *)
Definition with_channels (st : YamlState) (cs : list ChannelDefinition) (i : nat) : YamlState :=
  {| ys_profile := (ys_profile st) <| pf_channels := cs |>; ys_section := "channels";
     ys_current_channel := Some i |}.

Lemma with_channels_twice st cs1 i1 cs2 i2 :
  with_channels (with_channels st cs1 i1) cs2 i2 = with_channels st cs2 i2.
Proof. by destruct st as [[] ? ?]. Qed.

Lemma apply_current_channel_last st cs c c' key value msg :
  key_ok key -> value_ok value ->
  apply_channel_field c key (unquote value) err = (true, c', err) ->
  apply_current_channel (with_channels st (cs ++ [c]) (length cs)) (length cs)
    (yaml_entry key value) msg err =
  (true, with_channels st (cs ++ [c']) (length cs), err).
Proof.
  intros Hk Hv Ha. unfold apply_current_channel. cbn [with_channels ys_profile pf_channels set set_pf_channels].
  rewrite lookup_app_r, Nat.sub_diag by lia. cbn [lookup list_lookup].
  rewrite (apply_entry_ok key value _ c') by done.
  assert (E : <[length cs := c']> (cs ++ [c]) = cs ++ [c'])
    by (rewrite insert_app_r_alt, Nat.sub_diag by lia; done).
  unfold with_channels. rewrite <- E. destruct st as [[] ? ?]. reflexivity.
Qed.

Lemma yaml_line_new_channel st cs i key value n c' :
  pf_channels (ys_profile st) = cs -> ys_section st = "channels" ->
  ys_current_channel st = i -> key_ok key -> value_ok value ->
  apply_channel_field default_channel_definition key (unquote value) err = (true, c', err) ->
  yaml_line g st ("  - " +:+ yaml_entry key value) n err =
  (true, with_channels st (cs ++ [c']) (length cs), err).
Proof.
  intros Hcs Hs Hi Hk Hv Ha. pose proof (yaml_entry_tight key value Hk Hv) as Ht.
  assert (Hne : yaml_entry key value <> "") by by apply String.eqb_neq, yaml_entry_nonempty.
  destruct (indented_2 ("- " +:+ yaml_entry key value)) as [E1 E2].
  { split; [by intros c [= <-]|]. intros c. rewrite (back_app_r "- ") by done. apply Ht. }
  unfold yaml_line. change ("  - " +:+ yaml_entry key value) with ("  " +:+ "- " +:+ yaml_entry key value).
  rewrite E1, E2. change (is_empty ("- " +:+ yaml_entry key value)) with false.
  change (front_is ("- " +:+ yaml_entry key value) "#") with false.
  change (starts_with ("- " +:+ yaml_entry key value) "- ") with true.
  cbn [orb Z.eqb Pos.eqb andb]. rewrite Hs.
  change ("channels" == "channels") with true. cbv iota. rewrite Hcs.
  pose proof (apply_current_channel_last st cs _ c' key value
    ("invalid channel entry on line " +:+ to_string n) Hk Hv Ha) as H.
  rewrite <- H. clear H. destruct st as [[] ? ?]. cbn in Hcs, Hs. subst. reflexivity.
Qed.

Lemma yaml_line_channel_field st cs c c' key value n :
  key_ok key -> value_ok value ->
  apply_channel_field c key (unquote value) err = (true, c', err) ->
  yaml_line g (with_channels st (cs ++ [c]) (length cs)) ("    " +:+ yaml_entry key value) n err =
  (true, with_channels st (cs ++ [c']) (length cs), err).
Proof.
  intros Hk Hv Ha. pose proof (yaml_entry_tight key value Hk Hv) as Ht.
  destruct (indented_4 _ Ht) as [E1 E2].
  unfold yaml_line. rewrite E1, E2, yaml_entry_nonempty by done.
  unfold front_is. rewrite yaml_entry_front, bool_decide_eq_false_2 by (done || apply Hk).
  cbn [orb Z.eqb Pos.eqb andb with_channels ys_section ys_current_channel].
  change ("channels" == "channels") with true. cbv iota.
  by apply apply_current_channel_last.
Qed.
Lemma yaml_lines_step st st' l ls n :
  (forall k, yaml_line g st l k err = (true, st', err)) ->
  yaml_lines g st (l :: ls) n err = yaml_lines g st' ls (u64 (n + 1)) err.
Proof. intros H. cbn [yaml_lines]. by rewrite H. Qed.

Lemma assign_yaml_to_string {T} (cast : Z -> Z) field (put : Z -> T) x key :
  is_u64 x -> cast x = x ->
  assign_yaml_field cast field put (unquote (to_string x)) err key = (true, put x, err).
Proof.
  intros Hx Hc. rewrite unquote_to_string by (unfold is_u64 in Hx; lia).
  by apply assign_field_to_string.
Qed.

Lemma parse_channel_type_name c :
  channel_ok c -> parse_channel_type (unquote (channelTypeName (ch_type c))) = Some (ch_type c).
Proof. intros [_ Ht]. by destruct (ch_type c). Qed.

(** The four lines of one channel append it. *)
Lemma channel_lines_run st cs c rest n :
  channel_ok c -> pf_channels (ys_profile st) = cs -> ys_section st = "channels" ->
  exists n', yaml_lines g st (channel_lines c ++ rest) n err =
    yaml_lines g (with_channels st (cs ++ [c]) (length cs)) rest n' err.
Proof.
  intros Hc Hcs Hs. destruct (Hc) as [Hid _].
  assert (0 <= ch_id c) by (unfold is_u32 in Hid; lia).
  set (next c := with_channels st (cs ++ [c]) (length cs)).
  set (c1 := default_channel_definition <| ch_id := ch_id c |>).
  set (c2 := c1 <| ch_name := ch_name c |>).
  set (c3 := c2 <| ch_type := ch_type c |>).
  assert (E1 : forall k, yaml_line g st ("  - " +:+ yaml_entry "id" (to_string (ch_id c))) k err =
    (true, next c1, err)).
  { intros k. apply (yaml_line_new_channel _ _ _ _ _ _ _ Hcs Hs eq_refl);
      [key_ok_tac|by apply value_ok_to_string|].
    apply (assign_yaml_to_string u32 0 (fun v => default_channel_definition <| ch_id := v |>));
      [by apply is_u32_u64|by apply u32_id]. }
  assert (E2 : forall k, yaml_line g (next c1) ("    " +:+ yaml_entry "name" (quoted (ch_name c))) k err =
    (true, next c2, err)).
  { intros k. apply yaml_line_channel_field; [key_ok_tac|apply value_ok_quoted|].
    by rewrite unquote_quoted. }
  assert (E3 : forall k, yaml_line g (next c2)
      ("    " +:+ yaml_entry "type" (channelTypeName (ch_type c))) k err = (true, next c3, err)).
  { intros k. apply yaml_line_channel_field; [key_ok_tac|apply value_ok_type|].
    unfold apply_channel_field. cbn -[parse_channel_type unquote].
    by rewrite parse_channel_type_name. }
  assert (E4 : forall k, yaml_line g (next c3)
      ("    " +:+ yaml_entry "default" (bool_text (ch_is_default c))) k err = (true, next c, err)).
  { intros k. apply yaml_line_channel_field; [key_ok_tac|apply value_ok_bool|].
    destruct c as [? ? ? []]; reflexivity. }
  unfold channel_lines. cbn [app]. eexists.
  rewrite (yaml_lines_step _ _ _ _ _ E1), (yaml_lines_step _ _ _ _ _ E2),
    (yaml_lines_step _ _ _ _ _ E3), (yaml_lines_step _ _ _ _ _ E4). reflexivity.
Qed.

Lemma channels_run st cs todo n :
  Forall channel_ok todo -> pf_channels (ys_profile st) = cs -> ys_section st = "channels" ->
  exists st', yaml_lines g st (concat (map channel_lines todo)) n err = (true, st', err) /\
    ys_profile st' = (ys_profile st) <| pf_channels := cs ++ todo |>.
Proof.
  intros H. revert st cs n. induction H as [|c todo Hc _ IH]; intros st cs n Hcs Hs.
  - exists st. split; [done|]. rewrite app_nil_r, <- Hcs. by destruct st as [[] ? ?].
  - cbn [map concat]. destruct (channel_lines_run st cs c (concat (map channel_lines todo)) n)
      as [n' ->]; [done..|].
    destruct (IH (with_channels st (cs ++ [c]) (length cs)) (cs ++ [c]) n') as (st' & E & Hp);
      [done..|].
    exists st'. split; [exact E|]. rewrite Hp, <- app_assoc. by destruct st as [[] ? ?].
Qed.
Lemma run_section st key value ls n p' :
  key_ok key -> value_ok value -> ys_section st = "runtime" \/ ys_section st = "connection" ->
  apply_profile_field g (ys_profile st) (ys_section st) key (unquote value) err =
    (true, p', err) ->
  yaml_lines g st (("  " +:+ yaml_entry key value) :: ls) n err =
  yaml_lines g (st <| ys_profile := p' |>) ls (u64 (n + 1)) err.
Proof. intros Hk Hv Hs Ha. apply yaml_lines_step. intros k. by apply yaml_line_section. Qed.

Lemma run_mode st m ls n :
  exists log, yaml_lines g st (yaml_entry "mode" (mode_name m) :: ls) n err =
  yaml_lines g (st <| ys_current_channel := None |>
    <| ys_profile ::= fun p => p <| pf_mode := m |> <| pf_log_path := log |> |>) ls
    (u64 (n + 1)) err.
Proof.
  eexists. apply yaml_lines_step. intros k.
  apply yaml_line_root; [key_ok_tac|apply value_ok_mode|]. by destruct m.
Qed.

Ltac run_text := etransitivity;
  [ apply run_section; [key_ok_tac|apply value_ok_quoted|by (left + right)|];
    rewrite unquote_quoted; reflexivity |].
Ltac run_number := etransitivity;
  [ apply run_section; [key_ok_tac|apply value_ok_to_string; lia|by (left + right)|];
    cbn -[assign_yaml_field to_string unquote u16 u32 u64];
    apply assign_yaml_to_string; [word_unfold; lia|apply Z.mod_small; lia] |].

Lemma run_header name ls st n :
  name = "runtime" \/ name = "connection" \/ name = "channels" ->
  yaml_lines g st ((name +:+ ":") :: ls) n err =
  yaml_lines g (st <| ys_current_channel := None |> <| ys_section := name |>) ls (u64 (n + 1)) err.
Proof.
  intros H. apply yaml_lines_step. intros k. by destruct H as [-> |[-> | ->]].
Qed.

(** The lines before the channels set every other field. *)
Lemma head_run st p rest n :
  profile_typed p ->
  exists n', yaml_lines g st (take 13 (profile_lines p) ++ rest) n err =
    yaml_lines g {| ys_profile := p <| pf_channels := pf_channels (ys_profile st) |>;
                    ys_section := "channels"; ys_current_channel := None |} rest n' err.
Proof.
  intros []. word_unfold. destruct st as [q sec cur].
  destruct (run_mode {| ys_profile := q; ys_section := sec; ys_current_channel := cur |}
    (pf_mode p) (tail (take 13 (profile_lines p)) ++ rest) n) as [log E].
  eexists. etransitivity; [exact E|]. clear E. unfold profile_lines. cbn [app take tail].
  etransitivity; [apply (run_header "runtime"); by left|].
  run_text. run_number. run_number. run_number. run_number.
  etransitivity; [apply (run_header "connection"); by right; left|].
  run_text. run_number. run_text. run_number.
  etransitivity; [apply (run_header "channels"); by right; right|].
  destruct p, q. reflexivity.
Qed.
End lines.

(** Every printed line is one line. *)
Lemma profile_lines_single p :
  profile_typed p -> profile_single_line p ->
  Forall (fun l => no_char newline l = true) (profile_lines p).
Proof.
  intros [] (H1 & H2 & H3 & H4). word_unfold. unfold profile_lines.
  assert (Hq : forall t, no_char newline t = true -> no_char newline (quoted t) = true)
    by (intros; by apply quoted_no_char).
  apply Forall_app. split.
  - repeat apply Forall_cons_2; [..|by apply Forall_nil_2]; try reflexivity;
      try (lazymatch goal with |- no_char newline (_ +:+ yaml_entry _ ?v) = true =>
             change (no_char newline v = true) end;
           first [ by apply Hq | apply to_string_no_char; [lia|done] ]).
    by destruct (pf_mode p).
  - apply Forall_concat, Forall_map.
    pose proof (proj2 (Forall_and _ _) (conj pt_channels H4)) as H.
    eapply Forall_impl; [exact H|]. intros c [Hi Hn]. cbn.
    repeat apply Forall_cons_2; [..|by apply Forall_nil_2];
      lazymatch goal with |- no_char newline (_ +:+ yaml_entry _ ?v) = true =>
        change (no_char newline v = true) end;
      [apply to_string_no_char; [lia|done]|by apply Hq|by destruct (ch_type c)
      |by destruct (ch_is_default c)].
Qed.

(** ** Properties *)

(** C38: a profile that is written out in full is read back exactly. For every
    ready profile whose texts contain no newline, loading its YAML rendering (all
    fields, all channels, texts in double quotes) succeeds and yields the same
    profile, whatever the global settings provide as defaults. *)
Theorem yaml_profile_roundtrip path g p q err :
  profile_ready p -> profile_single_line p ->
  load_runtime_profile_from_yaml path (Some (render_profile p)) g q err = (true, p, err).
Proof.
  intros [Ht Hc Hd Hr] Hs. unfold load_runtime_profile_from_yaml, apply_profile_yaml, render_profile.
  rewrite getlines_unlines by by apply profile_lines_single.
  change (profile_lines p) with
    (take 13 (profile_lines p) ++ concat (map channel_lines (pf_channels p))).
  set (st0 := mkYamlState _ _ _).
  destruct (head_run g err st0 p (concat (map channel_lines (pf_channels p))) 0 Ht) as [n ->].
  destruct (channels_run g err {| ys_profile := p <| pf_channels := [] |>; ys_section := "channels";
    ys_current_channel := None |} [] (pf_channels p) n Hc) as (st & E & Hp);
    [by destruct p|done|].
  change (pf_channels (ys_profile st0)) with (@nil ChannelDefinition).
  rewrite E. cbn [negb]. rewrite Hp.
  replace ((ys_profile _) <| pf_channels := [] ++ pf_channels p |>) with p by by destruct p.
  assert (Ed : ensure_default_channel p = p).
  { unfold ensure_default_channel. destruct (pf_channels p) as [|c cs]; [by inversion Hd|].
    destruct (forallb _ _) eqn:Ef; [|done]. exfalso.
    apply Exists_exists in Hd as (x & Hx & Hxd). rewrite forallb_forall in Ef.
    specialize (Ef x (proj1 (list_elem_of_In _ _) Hx)). by rewrite Hxd in Ef. }
  rewrite Ed. unfold check_remote. destruct (pf_mode p) eqn:Em; destruct Hr as [Hr1 Hr2].
  - rewrite bool_decide_eq_true_2 by done. destruct p. cbn in *. by subst.
  - rewrite bool_decide_eq_false_2 by done. apply String.eqb_neq in Hr1.
    unfold is_empty. rewrite Hr1. apply Z.eqb_neq in Hr2. by rewrite Hr2.
Qed.

Definition sample_client : RuntimeProfile :=
  {| pf_mode := ModeClient; pf_bind_address := "0.0.0.0"; pf_bind_port := 0;
     pf_remote_address := "127.0.0.1"; pf_remote_port := 9010;
     pf_log_path := "logs/test: client.log"; pf_socket_buffer_size := 1500;
     pf_loop_sleep_us := 10000; pf_select_timeout_us := 10000; pf_poll_budget := 8;
     pf_channels :=
       [{| ch_id := 7; ch_name := "chat"; ch_type := ReliableOrdered; ch_is_default := true |};
        {| ch_id := 8; ch_name := "# state"; ch_type := Unreliable; ch_is_default := false |}] |}.

Lemma yaml_profile_roundtrip_witness :
  load_runtime_profile_from_yaml "client.yaml" (Some (render_profile sample_client))
    default_settings default_profile (Some "") = (true, sample_client, Some "").
Proof.
  apply yaml_profile_roundtrip.
  - constructor; cbn.
    + constructor; cbn; try (unfold is_u16, is_u32, is_u64; lia).
      repeat apply Forall_cons_2; try apply Forall_nil_2; unfold is_u32; cbn; lia.
    + repeat apply Forall_cons_2; try apply Forall_nil_2; (split; [unfold is_u32; cbn; lia|exact I]).
    + apply Exists_cons_hd. reflexivity.
    + split; discriminate.
  - repeat split. repeat apply Forall_cons_2; try apply Forall_nil_2; reflexivity.
Defined.

(** The order of the entries matters. A [mode] entry resets the log path
    to the default of that mode, so a log path given before the mode is lost,
    while one given after it is kept. *)
Theorem yaml_mode_resets_log_path g err path q :
  let before := "runtime:
  log_path: my.log
mode: server
" in
  let after := "mode: server
runtime:
  log_path: my.log
" in
  pf_log_path (snd (fst (load_runtime_profile_from_yaml path (Some before) g q err))) =
    server_log_path (runtime g) /\
  pf_log_path (snd (fst (load_runtime_profile_from_yaml path (Some after) g q err))) = "my.log".
Proof. destruct g as [tr rt]. destruct rt, err; split; vm_compute; reflexivity. Qed.
