(* ===== verification/SessionTypes.v ===== *)
(** The data of one connection ([include/Rudp/SessionTypes.hpp]): packets, send
    requests, in-flight entries, events, statistics and the TX / RX / session
    state records, with one [Setter] per field that the code assigns.

    Field names are the source's; a prefix ([hdr_], [req_], [te_], [ev_], [st_],
    ...) separates equal names of different structs. *)

From S2P Require Import Prelude StdMap Protocol.

Inductive SessionRole := Client | Server.

Inductive ConnectionState :=
| Closed
| HandshakeSent
| HandshakeReceived
| Established
| Closing
| Reset.

Inductive EventType :=
| DataReceived
| Connected
| ConnectionClosed
| ConnectionReset
| ErrorEvent.

#[export] Instance SessionRole_eq_dec : EqDecision SessionRole.
Proof. solve_decision. Defined.
#[export] Instance ConnectionState_eq_dec : EqDecision ConnectionState.
Proof. solve_decision. Defined.
#[export] Instance EventType_eq_dec : EqDecision EventType.
Proof. solve_decision. Defined.

(** An owned copy of a packet. *)
Record OwnedPacket := mkOwnedPacket {
  op_header : Header;
  op_payload : bytes
}.
#[export] Instance set_op_header : Setter op_header := fun f r =>
  mkOwnedPacket (f (op_header r)) (op_payload r).

(** A queued application send. *)
Record SendRequest := mkSendRequest {
  req_channel_id : Z;
  req_channel_type : ChannelType;
  req_payload : bytes
}.

(** A reliable packet sent and not yet acknowledged. *)
Record TxEntry := mkTxEntry {
  te_packet : OwnedPacket;
  te_first_send_ms : Z;
  te_last_send_ms : Z;
  te_retry_count : Z;
  te_gap_evidence_count : Z;
  te_fast_retx_pending : bool
}.
#[export] Instance set_te_packet : Setter te_packet := fun f r =>
  mkTxEntry (f (te_packet r)) (te_first_send_ms r) (te_last_send_ms r) (te_retry_count r)
    (te_gap_evidence_count r) (te_fast_retx_pending r).
#[export] Instance set_te_last_send_ms : Setter te_last_send_ms := fun f r =>
  mkTxEntry (te_packet r) (te_first_send_ms r) (f (te_last_send_ms r)) (te_retry_count r)
    (te_gap_evidence_count r) (te_fast_retx_pending r).
#[export] Instance set_te_retry_count : Setter te_retry_count := fun f r =>
  mkTxEntry (te_packet r) (te_first_send_ms r) (te_last_send_ms r) (f (te_retry_count r))
    (te_gap_evidence_count r) (te_fast_retx_pending r).
#[export] Instance set_te_gap_evidence_count : Setter te_gap_evidence_count := fun f r =>
  mkTxEntry (te_packet r) (te_first_send_ms r) (te_last_send_ms r) (te_retry_count r)
    (f (te_gap_evidence_count r)) (te_fast_retx_pending r).
#[export] Instance set_te_fast_retx_pending : Setter te_fast_retx_pending := fun f r =>
  mkTxEntry (te_packet r) (te_first_send_ms r) (te_last_send_ms r) (te_retry_count r)
    (te_gap_evidence_count r) (f (te_fast_retx_pending r)).

(** An event handed to the application. *)
Record SessionEvent := mkSessionEvent {
  ev_type : EventType;
  ev_seq : Z;
  ev_channel_id : Z;
  ev_channel_type : ChannelType;
  ev_payload : bytes;
  ev_error_message : string
}.

(** Per-session counters; 64-bit, wrapping. *)
Record SessionStats := mkSessionStats {
  packets_sent : Z;
  packets_received : Z;
  bytes_sent : Z;
  bytes_received : Z;
  control_packets_sent : Z;
  control_packets_received : Z;
  data_packets_sent : Z;
  data_packets_received : Z;
  pings_sent : Z;
  pongs_sent : Z;
  pings_received : Z;
  pongs_received : Z;
  retransmissions_sent : Z;
  rtt_sample_count : Z;
  rtt_sum_ms : Z;
  latest_rtt_ms : option Z;
  min_rtt_ms : option Z;
  max_rtt_ms : option Z
}.

Definition default_stats : SessionStats :=
  {| packets_sent := 0;
     packets_received := 0;
     bytes_sent := 0;
     bytes_received := 0;
     control_packets_sent := 0;
     control_packets_received := 0;
     data_packets_sent := 0;
     data_packets_received := 0;
     pings_sent := 0;
     pongs_sent := 0;
     pings_received := 0;
     pongs_received := 0;
     retransmissions_sent := 0;
     rtt_sample_count := 0;
     rtt_sum_ms := 0;
     latest_rtt_ms := None;
     min_rtt_ms := None;
     max_rtt_ms := None |}.
#[export] Instance set_packets_sent : Setter packets_sent := fun f r =>
  mkSessionStats (f (packets_sent r)) (packets_received r) (bytes_sent r) (bytes_received r)
    (control_packets_sent r) (control_packets_received r) (data_packets_sent r)
    (data_packets_received r) (pings_sent r) (pongs_sent r) (pings_received r)
    (pongs_received r) (retransmissions_sent r) (rtt_sample_count r) (rtt_sum_ms r)
    (latest_rtt_ms r) (min_rtt_ms r) (max_rtt_ms r).
#[export] Instance set_packets_received : Setter packets_received := fun f r =>
  mkSessionStats (packets_sent r) (f (packets_received r)) (bytes_sent r) (bytes_received r)
    (control_packets_sent r) (control_packets_received r) (data_packets_sent r)
    (data_packets_received r) (pings_sent r) (pongs_sent r) (pings_received r)
    (pongs_received r) (retransmissions_sent r) (rtt_sample_count r) (rtt_sum_ms r)
    (latest_rtt_ms r) (min_rtt_ms r) (max_rtt_ms r).
#[export] Instance set_bytes_sent : Setter bytes_sent := fun f r =>
  mkSessionStats (packets_sent r) (packets_received r) (f (bytes_sent r)) (bytes_received r)
    (control_packets_sent r) (control_packets_received r) (data_packets_sent r)
    (data_packets_received r) (pings_sent r) (pongs_sent r) (pings_received r)
    (pongs_received r) (retransmissions_sent r) (rtt_sample_count r) (rtt_sum_ms r)
    (latest_rtt_ms r) (min_rtt_ms r) (max_rtt_ms r).
#[export] Instance set_bytes_received : Setter bytes_received := fun f r =>
  mkSessionStats (packets_sent r) (packets_received r) (bytes_sent r) (f (bytes_received r))
    (control_packets_sent r) (control_packets_received r) (data_packets_sent r)
    (data_packets_received r) (pings_sent r) (pongs_sent r) (pings_received r)
    (pongs_received r) (retransmissions_sent r) (rtt_sample_count r) (rtt_sum_ms r)
    (latest_rtt_ms r) (min_rtt_ms r) (max_rtt_ms r).
#[export] Instance set_control_packets_sent : Setter control_packets_sent := fun f r =>
  mkSessionStats (packets_sent r) (packets_received r) (bytes_sent r) (bytes_received r)
    (f (control_packets_sent r)) (control_packets_received r) (data_packets_sent r)
    (data_packets_received r) (pings_sent r) (pongs_sent r) (pings_received r)
    (pongs_received r) (retransmissions_sent r) (rtt_sample_count r) (rtt_sum_ms r)
    (latest_rtt_ms r) (min_rtt_ms r) (max_rtt_ms r).
#[export] Instance set_control_packets_received : Setter control_packets_received := fun f r =>
  mkSessionStats (packets_sent r) (packets_received r) (bytes_sent r) (bytes_received r)
    (control_packets_sent r) (f (control_packets_received r)) (data_packets_sent r)
    (data_packets_received r) (pings_sent r) (pongs_sent r) (pings_received r)
    (pongs_received r) (retransmissions_sent r) (rtt_sample_count r) (rtt_sum_ms r)
    (latest_rtt_ms r) (min_rtt_ms r) (max_rtt_ms r).
#[export] Instance set_data_packets_sent : Setter data_packets_sent := fun f r =>
  mkSessionStats (packets_sent r) (packets_received r) (bytes_sent r) (bytes_received r)
    (control_packets_sent r) (control_packets_received r) (f (data_packets_sent r))
    (data_packets_received r) (pings_sent r) (pongs_sent r) (pings_received r)
    (pongs_received r) (retransmissions_sent r) (rtt_sample_count r) (rtt_sum_ms r)
    (latest_rtt_ms r) (min_rtt_ms r) (max_rtt_ms r).
#[export] Instance set_data_packets_received : Setter data_packets_received := fun f r =>
  mkSessionStats (packets_sent r) (packets_received r) (bytes_sent r) (bytes_received r)
    (control_packets_sent r) (control_packets_received r) (data_packets_sent r)
    (f (data_packets_received r)) (pings_sent r) (pongs_sent r) (pings_received r)
    (pongs_received r) (retransmissions_sent r) (rtt_sample_count r) (rtt_sum_ms r)
    (latest_rtt_ms r) (min_rtt_ms r) (max_rtt_ms r).
#[export] Instance set_pings_sent : Setter pings_sent := fun f r =>
  mkSessionStats (packets_sent r) (packets_received r) (bytes_sent r) (bytes_received r)
    (control_packets_sent r) (control_packets_received r) (data_packets_sent r)
    (data_packets_received r) (f (pings_sent r)) (pongs_sent r) (pings_received r)
    (pongs_received r) (retransmissions_sent r) (rtt_sample_count r) (rtt_sum_ms r)
    (latest_rtt_ms r) (min_rtt_ms r) (max_rtt_ms r).
#[export] Instance set_pongs_sent : Setter pongs_sent := fun f r =>
  mkSessionStats (packets_sent r) (packets_received r) (bytes_sent r) (bytes_received r)
    (control_packets_sent r) (control_packets_received r) (data_packets_sent r)
    (data_packets_received r) (pings_sent r) (f (pongs_sent r)) (pings_received r)
    (pongs_received r) (retransmissions_sent r) (rtt_sample_count r) (rtt_sum_ms r)
    (latest_rtt_ms r) (min_rtt_ms r) (max_rtt_ms r).
#[export] Instance set_pings_received : Setter pings_received := fun f r =>
  mkSessionStats (packets_sent r) (packets_received r) (bytes_sent r) (bytes_received r)
    (control_packets_sent r) (control_packets_received r) (data_packets_sent r)
    (data_packets_received r) (pings_sent r) (pongs_sent r) (f (pings_received r))
    (pongs_received r) (retransmissions_sent r) (rtt_sample_count r) (rtt_sum_ms r)
    (latest_rtt_ms r) (min_rtt_ms r) (max_rtt_ms r).
#[export] Instance set_pongs_received : Setter pongs_received := fun f r =>
  mkSessionStats (packets_sent r) (packets_received r) (bytes_sent r) (bytes_received r)
    (control_packets_sent r) (control_packets_received r) (data_packets_sent r)
    (data_packets_received r) (pings_sent r) (pongs_sent r) (pings_received r)
    (f (pongs_received r)) (retransmissions_sent r) (rtt_sample_count r) (rtt_sum_ms r)
    (latest_rtt_ms r) (min_rtt_ms r) (max_rtt_ms r).
#[export] Instance set_retransmissions_sent : Setter retransmissions_sent := fun f r =>
  mkSessionStats (packets_sent r) (packets_received r) (bytes_sent r) (bytes_received r)
    (control_packets_sent r) (control_packets_received r) (data_packets_sent r)
    (data_packets_received r) (pings_sent r) (pongs_sent r) (pings_received r)
    (pongs_received r) (f (retransmissions_sent r)) (rtt_sample_count r) (rtt_sum_ms r)
    (latest_rtt_ms r) (min_rtt_ms r) (max_rtt_ms r).
#[export] Instance set_rtt_sample_count : Setter rtt_sample_count := fun f r =>
  mkSessionStats (packets_sent r) (packets_received r) (bytes_sent r) (bytes_received r)
    (control_packets_sent r) (control_packets_received r) (data_packets_sent r)
    (data_packets_received r) (pings_sent r) (pongs_sent r) (pings_received r)
    (pongs_received r) (retransmissions_sent r) (f (rtt_sample_count r)) (rtt_sum_ms r)
    (latest_rtt_ms r) (min_rtt_ms r) (max_rtt_ms r).
#[export] Instance set_rtt_sum_ms : Setter rtt_sum_ms := fun f r =>
  mkSessionStats (packets_sent r) (packets_received r) (bytes_sent r) (bytes_received r)
    (control_packets_sent r) (control_packets_received r) (data_packets_sent r)
    (data_packets_received r) (pings_sent r) (pongs_sent r) (pings_received r)
    (pongs_received r) (retransmissions_sent r) (rtt_sample_count r) (f (rtt_sum_ms r))
    (latest_rtt_ms r) (min_rtt_ms r) (max_rtt_ms r).
#[export] Instance set_latest_rtt_ms : Setter latest_rtt_ms := fun f r =>
  mkSessionStats (packets_sent r) (packets_received r) (bytes_sent r) (bytes_received r)
    (control_packets_sent r) (control_packets_received r) (data_packets_sent r)
    (data_packets_received r) (pings_sent r) (pongs_sent r) (pings_received r)
    (pongs_received r) (retransmissions_sent r) (rtt_sample_count r) (rtt_sum_ms r)
    (f (latest_rtt_ms r)) (min_rtt_ms r) (max_rtt_ms r).
#[export] Instance set_min_rtt_ms : Setter min_rtt_ms := fun f r =>
  mkSessionStats (packets_sent r) (packets_received r) (bytes_sent r) (bytes_received r)
    (control_packets_sent r) (control_packets_received r) (data_packets_sent r)
    (data_packets_received r) (pings_sent r) (pongs_sent r) (pings_received r)
    (pongs_received r) (retransmissions_sent r) (rtt_sample_count r) (rtt_sum_ms r)
    (latest_rtt_ms r) (f (min_rtt_ms r)) (max_rtt_ms r).
#[export] Instance set_max_rtt_ms : Setter max_rtt_ms := fun f r =>
  mkSessionStats (packets_sent r) (packets_received r) (bytes_sent r) (bytes_received r)
    (control_packets_sent r) (control_packets_received r) (data_packets_sent r)
    (data_packets_received r) (pings_sent r) (pongs_sent r) (pings_received r)
    (pongs_received r) (retransmissions_sent r) (rtt_sample_count r) (rtt_sum_ms r)
    (latest_rtt_ms r) (min_rtt_ms r) (f (max_rtt_ms r)).

(** What one [TxHandler::poll] produced. *)
Record TxPollResult := mkTxPollResult {
  poll_datagram : option bytes;
  poll_fatal_error : bool;
  poll_retransmission : bool;
  poll_error_message : string
}.

Definition empty_poll_result : TxPollResult :=
  {| poll_datagram := None;
     poll_fatal_error := false;
     poll_retransmission := false;
     poll_error_message := "" |}.

(** PING/PONG scheduling. *)
Record ProbeTxState := mkProbeTxState {
  ping_pending : bool;
  pong_pending : bool;
  ping_outstanding : bool;
  probe_last_sent_ms : Z;
  last_ping_sent_ms : Z
}.

Definition default_probe : ProbeTxState :=
  {| ping_pending := false;
     pong_pending := false;
     ping_outstanding := false;
     probe_last_sent_ms := 0;
     last_ping_sent_ms := 0 |}.
#[export] Instance set_ping_pending : Setter ping_pending := fun f r =>
  mkProbeTxState (f (ping_pending r)) (pong_pending r) (ping_outstanding r)
    (probe_last_sent_ms r) (last_ping_sent_ms r).
#[export] Instance set_pong_pending : Setter pong_pending := fun f r =>
  mkProbeTxState (ping_pending r) (f (pong_pending r)) (ping_outstanding r)
    (probe_last_sent_ms r) (last_ping_sent_ms r).
#[export] Instance set_ping_outstanding : Setter ping_outstanding := fun f r =>
  mkProbeTxState (ping_pending r) (pong_pending r) (f (ping_outstanding r))
    (probe_last_sent_ms r) (last_ping_sent_ms r).
#[export] Instance set_probe_last_sent_ms : Setter probe_last_sent_ms := fun f r =>
  mkProbeTxState (ping_pending r) (pong_pending r) (ping_outstanding r)
    (f (probe_last_sent_ms r)) (last_ping_sent_ms r).
#[export] Instance set_last_ping_sent_ms : Setter last_ping_sent_ms := fun f r =>
  mkProbeTxState (ping_pending r) (pong_pending r) (ping_outstanding r) (probe_last_sent_ms r)
    (f (last_ping_sent_ms r)).

(** Sender-side state. *)
Record TxSessionState := mkTxSessionState {
  next_seq : Z;
  remote_ack : Z;
  remote_ack_bits : Z;
  pending_send : list SendRequest;
  inflight : list (Z * TxEntry);
  syn_ack_pending : bool;
  final_ack_pending : bool;
  final_ack_linger_until_ms : Z;
  fin_pending : bool;
  ack_only_pending : bool;
  reliable_ack_pending : bool;
  reliable_ack_due_ms : Z;
  activity_ack_pending : bool;
  probe : ProbeTxState
}.
#[export] Instance set_next_seq : Setter next_seq := fun f r =>
  mkTxSessionState (f (next_seq r)) (remote_ack r) (remote_ack_bits r) (pending_send r)
    (inflight r) (syn_ack_pending r) (final_ack_pending r) (final_ack_linger_until_ms r)
    (fin_pending r) (ack_only_pending r) (reliable_ack_pending r) (reliable_ack_due_ms r)
    (activity_ack_pending r) (probe r).
#[export] Instance set_remote_ack : Setter remote_ack := fun f r =>
  mkTxSessionState (next_seq r) (f (remote_ack r)) (remote_ack_bits r) (pending_send r)
    (inflight r) (syn_ack_pending r) (final_ack_pending r) (final_ack_linger_until_ms r)
    (fin_pending r) (ack_only_pending r) (reliable_ack_pending r) (reliable_ack_due_ms r)
    (activity_ack_pending r) (probe r).
#[export] Instance set_remote_ack_bits : Setter remote_ack_bits := fun f r =>
  mkTxSessionState (next_seq r) (remote_ack r) (f (remote_ack_bits r)) (pending_send r)
    (inflight r) (syn_ack_pending r) (final_ack_pending r) (final_ack_linger_until_ms r)
    (fin_pending r) (ack_only_pending r) (reliable_ack_pending r) (reliable_ack_due_ms r)
    (activity_ack_pending r) (probe r).
#[export] Instance set_pending_send : Setter pending_send := fun f r =>
  mkTxSessionState (next_seq r) (remote_ack r) (remote_ack_bits r) (f (pending_send r))
    (inflight r) (syn_ack_pending r) (final_ack_pending r) (final_ack_linger_until_ms r)
    (fin_pending r) (ack_only_pending r) (reliable_ack_pending r) (reliable_ack_due_ms r)
    (activity_ack_pending r) (probe r).
#[export] Instance set_inflight : Setter inflight := fun f r =>
  mkTxSessionState (next_seq r) (remote_ack r) (remote_ack_bits r) (pending_send r)
    (f (inflight r)) (syn_ack_pending r) (final_ack_pending r) (final_ack_linger_until_ms r)
    (fin_pending r) (ack_only_pending r) (reliable_ack_pending r) (reliable_ack_due_ms r)
    (activity_ack_pending r) (probe r).
#[export] Instance set_syn_ack_pending : Setter syn_ack_pending := fun f r =>
  mkTxSessionState (next_seq r) (remote_ack r) (remote_ack_bits r) (pending_send r) (inflight r)
    (f (syn_ack_pending r)) (final_ack_pending r) (final_ack_linger_until_ms r) (fin_pending r)
    (ack_only_pending r) (reliable_ack_pending r) (reliable_ack_due_ms r)
    (activity_ack_pending r) (probe r).
#[export] Instance set_final_ack_pending : Setter final_ack_pending := fun f r =>
  mkTxSessionState (next_seq r) (remote_ack r) (remote_ack_bits r) (pending_send r) (inflight r)
    (syn_ack_pending r) (f (final_ack_pending r)) (final_ack_linger_until_ms r) (fin_pending r)
    (ack_only_pending r) (reliable_ack_pending r) (reliable_ack_due_ms r)
    (activity_ack_pending r) (probe r).
#[export] Instance set_final_ack_linger_until_ms : Setter final_ack_linger_until_ms := fun f r =>
  mkTxSessionState (next_seq r) (remote_ack r) (remote_ack_bits r) (pending_send r) (inflight r)
    (syn_ack_pending r) (final_ack_pending r) (f (final_ack_linger_until_ms r)) (fin_pending r)
    (ack_only_pending r) (reliable_ack_pending r) (reliable_ack_due_ms r)
    (activity_ack_pending r) (probe r).
#[export] Instance set_fin_pending : Setter fin_pending := fun f r =>
  mkTxSessionState (next_seq r) (remote_ack r) (remote_ack_bits r) (pending_send r) (inflight r)
    (syn_ack_pending r) (final_ack_pending r) (final_ack_linger_until_ms r) (f (fin_pending r))
    (ack_only_pending r) (reliable_ack_pending r) (reliable_ack_due_ms r)
    (activity_ack_pending r) (probe r).
#[export] Instance set_ack_only_pending : Setter ack_only_pending := fun f r =>
  mkTxSessionState (next_seq r) (remote_ack r) (remote_ack_bits r) (pending_send r) (inflight r)
    (syn_ack_pending r) (final_ack_pending r) (final_ack_linger_until_ms r) (fin_pending r)
    (f (ack_only_pending r)) (reliable_ack_pending r) (reliable_ack_due_ms r)
    (activity_ack_pending r) (probe r).
#[export] Instance set_reliable_ack_pending : Setter reliable_ack_pending := fun f r =>
  mkTxSessionState (next_seq r) (remote_ack r) (remote_ack_bits r) (pending_send r) (inflight r)
    (syn_ack_pending r) (final_ack_pending r) (final_ack_linger_until_ms r) (fin_pending r)
    (ack_only_pending r) (f (reliable_ack_pending r)) (reliable_ack_due_ms r)
    (activity_ack_pending r) (probe r).
#[export] Instance set_reliable_ack_due_ms : Setter reliable_ack_due_ms := fun f r =>
  mkTxSessionState (next_seq r) (remote_ack r) (remote_ack_bits r) (pending_send r) (inflight r)
    (syn_ack_pending r) (final_ack_pending r) (final_ack_linger_until_ms r) (fin_pending r)
    (ack_only_pending r) (reliable_ack_pending r) (f (reliable_ack_due_ms r))
    (activity_ack_pending r) (probe r).
#[export] Instance set_activity_ack_pending : Setter activity_ack_pending := fun f r =>
  mkTxSessionState (next_seq r) (remote_ack r) (remote_ack_bits r) (pending_send r) (inflight r)
    (syn_ack_pending r) (final_ack_pending r) (final_ack_linger_until_ms r) (fin_pending r)
    (ack_only_pending r) (reliable_ack_pending r) (reliable_ack_due_ms r)
    (f (activity_ack_pending r)) (probe r).
#[export] Instance set_probe : Setter probe := fun f r =>
  mkTxSessionState (next_seq r) (remote_ack r) (remote_ack_bits r) (pending_send r) (inflight r)
    (syn_ack_pending r) (final_ack_pending r) (final_ack_linger_until_ms r) (fin_pending r)
    (ack_only_pending r) (reliable_ack_pending r) (reliable_ack_due_ms r)
    (activity_ack_pending r) (f (probe r)).

(** Receiver-side state. *)
Record RxSessionState := mkRxSessionState {
  next_expected : Z;
  received_bits : Z;
  ordered_reorder_buffer : list (Z * OwnedPacket);
  next_ordered_delivery : Z;
  ordered_delivery_started : bool;
  monotonic_versions : gmap Z Z;
  pending_events : list SessionEvent
}.

Definition default_rx : RxSessionState :=
  {| next_expected := 0;
     received_bits := 0;
     ordered_reorder_buffer := [];
     next_ordered_delivery := 0;
     ordered_delivery_started := false;
     monotonic_versions := ∅;
     pending_events := [] |}.
#[export] Instance set_next_expected : Setter next_expected := fun f r =>
  mkRxSessionState (f (next_expected r)) (received_bits r) (ordered_reorder_buffer r)
    (next_ordered_delivery r) (ordered_delivery_started r) (monotonic_versions r)
    (pending_events r).
#[export] Instance set_received_bits : Setter received_bits := fun f r =>
  mkRxSessionState (next_expected r) (f (received_bits r)) (ordered_reorder_buffer r)
    (next_ordered_delivery r) (ordered_delivery_started r) (monotonic_versions r)
    (pending_events r).
#[export] Instance set_ordered_reorder_buffer : Setter ordered_reorder_buffer := fun f r =>
  mkRxSessionState (next_expected r) (received_bits r) (f (ordered_reorder_buffer r))
    (next_ordered_delivery r) (ordered_delivery_started r) (monotonic_versions r)
    (pending_events r).
#[export] Instance set_next_ordered_delivery : Setter next_ordered_delivery := fun f r =>
  mkRxSessionState (next_expected r) (received_bits r) (ordered_reorder_buffer r)
    (f (next_ordered_delivery r)) (ordered_delivery_started r) (monotonic_versions r)
    (pending_events r).
#[export] Instance set_ordered_delivery_started : Setter ordered_delivery_started := fun f r =>
  mkRxSessionState (next_expected r) (received_bits r) (ordered_reorder_buffer r)
    (next_ordered_delivery r) (f (ordered_delivery_started r)) (monotonic_versions r)
    (pending_events r).
#[export] Instance set_monotonic_versions : Setter monotonic_versions := fun f r =>
  mkRxSessionState (next_expected r) (received_bits r) (ordered_reorder_buffer r)
    (next_ordered_delivery r) (ordered_delivery_started r) (f (monotonic_versions r))
    (pending_events r).
#[export] Instance set_pending_events : Setter pending_events := fun f r =>
  mkRxSessionState (next_expected r) (received_bits r) (ordered_reorder_buffer r)
    (next_ordered_delivery r) (ordered_delivery_started r) (monotonic_versions r)
    (f (pending_events r)).

(** The whole state of one connection. *)
Record SessionState := mkSessionState {
  st_role : SessionRole;
  st_conn_id : Z;
  st_connection_state : ConnectionState;
  st_established_since_ms : Z;
  st_last_rx_ms : Z;
  st_last_tx_ms : Z;
  st_stats : SessionStats;
  st_tx : TxSessionState;
  st_rx : RxSessionState
}.
#[export] Instance set_st_conn_id : Setter st_conn_id := fun f r =>
  mkSessionState (st_role r) (f (st_conn_id r)) (st_connection_state r)
    (st_established_since_ms r) (st_last_rx_ms r) (st_last_tx_ms r) (st_stats r) (st_tx r)
    (st_rx r).
#[export] Instance set_st_connection_state : Setter st_connection_state := fun f r =>
  mkSessionState (st_role r) (st_conn_id r) (f (st_connection_state r))
    (st_established_since_ms r) (st_last_rx_ms r) (st_last_tx_ms r) (st_stats r) (st_tx r)
    (st_rx r).
#[export] Instance set_st_established_since_ms : Setter st_established_since_ms := fun f r =>
  mkSessionState (st_role r) (st_conn_id r) (st_connection_state r)
    (f (st_established_since_ms r)) (st_last_rx_ms r) (st_last_tx_ms r) (st_stats r) (st_tx r)
    (st_rx r).
#[export] Instance set_st_last_rx_ms : Setter st_last_rx_ms := fun f r =>
  mkSessionState (st_role r) (st_conn_id r) (st_connection_state r) (st_established_since_ms r)
    (f (st_last_rx_ms r)) (st_last_tx_ms r) (st_stats r) (st_tx r) (st_rx r).
#[export] Instance set_st_last_tx_ms : Setter st_last_tx_ms := fun f r =>
  mkSessionState (st_role r) (st_conn_id r) (st_connection_state r) (st_established_since_ms r)
    (st_last_rx_ms r) (f (st_last_tx_ms r)) (st_stats r) (st_tx r) (st_rx r).
#[export] Instance set_st_stats : Setter st_stats := fun f r =>
  mkSessionState (st_role r) (st_conn_id r) (st_connection_state r) (st_established_since_ms r)
    (st_last_rx_ms r) (st_last_tx_ms r) (f (st_stats r)) (st_tx r) (st_rx r).
#[export] Instance set_st_tx : Setter st_tx := fun f r =>
  mkSessionState (st_role r) (st_conn_id r) (st_connection_state r) (st_established_since_ms r)
    (st_last_rx_ms r) (st_last_tx_ms r) (st_stats r) (f (st_tx r)) (st_rx r).
#[export] Instance set_st_rx : Setter st_rx := fun f r =>
  mkSessionState (st_role r) (st_conn_id r) (st_connection_state r) (st_established_since_ms r)
    (st_last_rx_ms r) (st_last_tx_ms r) (st_stats r) (st_tx r) (f (st_rx r)).
