(* ===== verification/RuntimeLogger.v ===== *)
(** Log lines ([src/RuntimeLogger.cpp]): the text of events and statistics, and
    the composition of sinks.

    A [LogSink] is a [std::function], possibly empty, whose calls change the world
    [W] that receives the lines. The file sink is made by a logging library: the
    class [LogBackend] stands for it and for the file system it writes to. *)

From S2P Require Import Prelude Protocol Text SessionTypes.

(** ** Sinks *)

Definition LogSink (W : Type) := option (string -> W -> W).

Definition log_line {W : Type} (logger : LogSink W) (message : string) (w : W) : W :=
  match logger with Some f => f message w | None => w end.

Definition compose_loggers {W : Type} (sinks : list (LogSink W)) : LogSink W :=
  Some (fun message w => fold_left (fun w sink => log_line sink message w) sinks w).

(** The logging library: whether the directories of a log file can be made, the
    logger for a file ([inr] is the text of a [spdlog_ex]), and a line written at
    level info to the logger of a file. *)
Class LogBackend := {
  FileWorld : Type;
  create_parent_directories : string -> FileWorld -> bool * FileWorld;
  basic_logger_mt : string -> string -> FileWorld -> FileWorld + string;
  logger_info : string -> string -> FileWorld -> FileWorld
}.

Section sinks.
Context `{LogBackend}.

(** The text of the standard output, and the log files. *)
Record LogWorld := mkLogWorld { log_stdout : string; log_files : FileWorld }.
#[export] Instance set_log_stdout : Setter log_stdout := fun f w =>
  mkLogWorld (f (log_stdout w)) (log_files w).
#[export] Instance set_log_files : Setter log_files := fun f w =>
  mkLogWorld (log_stdout w) (f (log_files w)).

Definition make_console_logger : LogSink LogWorld :=
  Some (fun message w => w <| log_stdout ::= fun out => out +:+ message +:+ String newline "" |>).

(** What [make_text_logger] does: it throws [std::filesystem::filesystem_error] or
    [spdlog::spdlog_ex], or returns a sink. *)
Inductive TextLogger :=
| ThrowsFilesystem
| ThrowsSpdlog (what : string)
| MadeSink (sink : LogSink LogWorld).

Definition make_text_logger (logger_name log_path : string) (w : LogWorld)
    : TextLogger * LogWorld :=
  let '(ok, files) := create_parent_directories log_path (log_files w) in
  let w := w <| log_files := files |> in
  if negb ok then (ThrowsFilesystem, w)
  else
    match basic_logger_mt logger_name log_path (log_files w) with
    | inr what => (ThrowsSpdlog what, w)
    | inl files =>
        (MadeSink (Some (fun message w => w <| log_files ::= logger_info log_path message |>)),
         w <| log_files := files |>)
    end.
End sinks.

(** ** Formatting *)

Definition event_type_name (type : EventType) : string :=
  match type with
  | DataReceived => "DataReceived"
  | Connected => "Connected"
  | ConnectionClosed => "ConnectionClosed"
  | ConnectionReset => "ConnectionReset"
  | ErrorEvent => "Error"
  end.

(** [std::string(reinterpret_cast<const char*>(payload.data()), payload.size())] *)
Fixpoint text_of_bytes (bs : bytes) : string :=
  match bs with
  | [] => ""
  | b :: bs => String (ascii_of_N (Z.to_N b)) (text_of_bytes bs)
  end.

(** The bytes of [text], for [std::span<const std::byte>(text.data(), text.size())]. *)
Fixpoint bytes_of_text (text : string) : bytes :=
  match text with
  | EmptyString => []
  | String c text => Z.of_N (N_of_ascii c) :: bytes_of_text text
  end.

Definition in_quotes (s : string) : string := String double_quote (s +:+ String double_quote "").

Definition format_session_event (prefix : string) (event : SessionEvent) : string :=
  let line := prefix in
  let line := line +:+ " event=" +:+ event_type_name (ev_type event) in
  let line := line +:+ " seq=" +:+ to_string (ev_seq event) in
  let line := line +:+ " channel_id=" +:+ to_string (ev_channel_id event) in
  let line := line +:+ " payload_size=" +:+ to_string (Z.of_nat (length (ev_payload event))) in
  let line := if negb (is_empty (ev_error_message event))
              then line +:+ " error=" +:+ in_quotes (ev_error_message event) else line in
  if negb (bool_decide (ev_payload event = []))
  then line +:+ " payload=" +:+ in_quotes (text_of_bytes (ev_payload event))
  else line.

Definition optional_text (x : option Z) : string :=
  match x with Some v => to_string v | None => "n/a" end.

(** [stats.rtt_sum_ms / stats.rtt_sample_count], when there is a sample. *)
Definition rtt_average (stats : SessionStats) : option Z :=
  if negb (rtt_sample_count stats =? 0) then Some (rtt_sum_ms stats / rtt_sample_count stats)
  else None.

Definition format_session_stats (stats : SessionStats) : string :=
  " sent=" +:+ to_string (packets_sent stats) +:+
  " recv=" +:+ to_string (packets_received stats) +:+
  " tx_bytes=" +:+ to_string (bytes_sent stats) +:+
  " rx_bytes=" +:+ to_string (bytes_received stats) +:+
  " ctrl_tx=" +:+ to_string (control_packets_sent stats) +:+
  " ctrl_rx=" +:+ to_string (control_packets_received stats) +:+
  " data_tx=" +:+ to_string (data_packets_sent stats) +:+
  " data_rx=" +:+ to_string (data_packets_received stats) +:+
  " ping=" +:+ to_string (pings_sent stats) +:+ "/" +:+ to_string (pings_received stats) +:+
  " pong=" +:+ to_string (pongs_sent stats) +:+ "/" +:+ to_string (pongs_received stats) +:+
  " retx=" +:+ to_string (retransmissions_sent stats) +:+
  " rtt_ms=" +:+ optional_text (latest_rtt_ms stats) +:+
  " rtt_avg_ms=" +:+ optional_text (rtt_average stats) +:+
  " rtt_min_ms=" +:+ optional_text (min_rtt_ms stats) +:+
  " rtt_max_ms=" +:+ optional_text (max_rtt_ms stats).

Definition format_session_summary (prefix : string) (stats : SessionStats) : string :=
  prefix +:+ " summary" +:+ format_session_stats stats.

(** ** Lemmas *)

Lemma bytes_of_text_length s : length (bytes_of_text s) = String.length s.
Proof. induction s as [|c s IH]; simpl; [done|]. by rewrite IH. Qed.

Lemma bytes_of_text_typed s : Forall is_u8 (bytes_of_text s).
Proof.
  induction s as [|c s IH]; simpl; constructor; [|done].
  pose proof (N_ascii_bounded c). unfold is_u8. lia.
Qed.

Lemma text_of_bytes_of_text s : text_of_bytes (bytes_of_text s) = s.
Proof.
  induction s as [|c s IH]; simpl; [done|]. by rewrite N2Z.id, ascii_N_embedding, IH.
Qed.

Lemma bytes_of_text_of_bytes bs : Forall is_u8 bs -> bytes_of_text (text_of_bytes bs) = bs.
Proof.
  induction 1 as [|b bs Hb _ IH]; simpl; [done|]. unfold is_u8 in Hb.
  rewrite N_ascii_embedding, Z2N.id, IH by lia. done.
Qed.

#[export] Hint Resolve bytes_of_text_typed : rudp.

(** A field that does not contain its separator can be cut off. *)
Lemma token_inj c a b r r' :
  no_char c a = true -> no_char c b = true ->
  a +:+ String c r = b +:+ String c r' -> a = b /\ r = r'.
Proof.
  unfold no_char. revert b. induction a as [|x a IH]; intros [|y b]; simpl; intros Ha Hb E.
  - by injection E.
  - injection E as -> _. by rewrite Ascii.eqb_refl in Hb.
  - injection E as -> _. by rewrite Ascii.eqb_refl in Ha.
  - injection E as -> E. apply andb_true_iff in Ha as [_ Ha], Hb as [_ Hb].
    destruct (IH b Ha Hb E) as [-> ->]. done.
Qed.

Lemma to_string_inj x y : 0 <= x -> 0 <= y -> to_string x = to_string y -> x = y.
Proof. intros _ _ E. by apply (inj pretty) in E. Qed.

Definition optional_nonneg (x : option Z) : Prop := match x with Some v => 0 <= v | None => True end.

Lemma optional_text_inj x y :
  optional_nonneg x -> optional_nonneg y -> optional_text x = optional_text y -> x = y.
Proof.
  destruct x as [x|], y as [y|]; cbn; intros Hx Hy E; [| | |done].
  - f_equal. by apply to_string_inj.
  - destruct (to_string_front x Hx) as (c & Hc & Hd). rewrite E in Hc. by injection Hc as <-.
  - destruct (to_string_front y Hy) as (c & Hc & Hd). rewrite <- E in Hc. by injection Hc as <-.
Qed.

Lemma optional_text_no_space x : optional_nonneg x -> no_char " " (optional_text x) = true.
Proof. destruct x; cbn; intros H; [by apply to_string_no_char|done]. Qed.

(** The counters are unsigned. *)
Record stats_nonneg (s : SessionStats) : Prop := mk_stats_nonneg {
  sn_counters : Forall (fun x => 0 <= x)
    [packets_sent s; packets_received s; bytes_sent s; bytes_received s;
     control_packets_sent s; control_packets_received s; data_packets_sent s;
     data_packets_received s; pings_sent s; pings_received s; pongs_sent s; pongs_received s;
     retransmissions_sent s; rtt_sample_count s; rtt_sum_ms s];
  sn_latest : optional_nonneg (latest_rtt_ms s);
  sn_min : optional_nonneg (min_rtt_ms s);
  sn_max : optional_nonneg (max_rtt_ms s)
}.

Lemma rtt_average_nonneg s : stats_nonneg s -> optional_nonneg (rtt_average s).
Proof.
  intros [H _ _ _]. repeat (apply Forall_cons in H as [? H]). unfold rtt_average.
  destruct (Z.eqb_spec (rtt_sample_count s) 0); cbn; [done|]. apply Z.div_pos; lia.
Qed.

(** The printed content of the statistics. *)
Definition stats_fields (s : SessionStats) : list Z * list (option Z) :=
  ([packets_sent s; packets_received s; bytes_sent s; bytes_received s;
    control_packets_sent s; control_packets_received s; data_packets_sent s;
    data_packets_received s; pings_sent s; pings_received s; pongs_sent s; pongs_received s;
    retransmissions_sent s],
   [latest_rtt_ms s; rtt_average s; min_rtt_ms s; max_rtt_ms s]).

(** A number, or an optional one, followed by a label that starts with a
    separator. *)
Lemma cut_number c x y p r r' :
  0 <= x -> 0 <= y -> is_digit c = false ->
  to_string x +:+ String c p +:+ r = to_string y +:+ String c p +:+ r' -> x = y /\ r = r'.
Proof.
  intros Hx Hy Hc E. apply token_inj in E as [E1 E2]; [|by apply to_string_no_char..].
  split; [by apply to_string_inj|]. by apply (inj (String.append p)) in E2.
Qed.

Lemma cut_optional x y p r r' :
  optional_nonneg x -> optional_nonneg y ->
  optional_text x +:+ String " " p +:+ r = optional_text y +:+ String " " p +:+ r' ->
  x = y /\ r = r'.
Proof.
  intros Hx Hy E. apply token_inj in E as [E1 E2]; [|by apply optional_text_no_space..].
  split; [by apply optional_text_inj|]. by apply (inj (String.append p)) in E2.
Qed.

(** ** Properties *)

(** A statistics line is unambiguous: two sessions with the same line have
    the same thirteen counters and the same latest, average, minimum and maximum
    round-trip time, including which of the times are absent. *)
Theorem stats_line_injective s1 s2 :
  stats_nonneg s1 -> stats_nonneg s2 ->
  format_session_stats s1 = format_session_stats s2 -> stats_fields s1 = stats_fields s2.
Proof.
  intros H1 H2. pose proof (rtt_average_nonneg s1 H1). pose proof (rtt_average_nonneg s2 H2).
  destruct H1 as [H1 ? ? ?], H2 as [H2 ? ? ?].
  repeat (apply Forall_cons in H1 as [? H1]). repeat (apply Forall_cons in H2 as [? H2]).
  unfold format_session_stats, stats_fields. intros E.
  apply (inj (String.append _)) in E.
  do 13 (apply cut_number in E as [-> E]; [|done..]).
  do 3 (apply cut_optional in E as [-> E]; [|done..]).
  apply optional_text_inj in E as ->; done.
Qed.

Lemma stats_line_injective_witness :
  stats_fields (default_stats <| rtt_sample_count := 2 |> <| rtt_sum_ms := 10 |>) =
  stats_fields (default_stats <| rtt_sample_count := 1 |> <| rtt_sum_ms := 5 |>).
Proof.
  apply stats_line_injective; [| |reflexivity];
    (constructor; [|exact I..]; repeat apply Forall_cons_2; try apply Forall_nil_2; cbn; lia).
Defined.
