(* ===== verification/ConnectionStateMachine.v ===== *)
(** The connection state machine ([src/ConnectionStateMachine.cpp]): the
    classification of a header's flags and the decision for every role, state
    and kind. *)

From S2P Require Import Prelude StdMap Protocol SessionTypes.

Inductive ControlKind :=
| KindNone
| KindSyn
| KindSynAck
| KindAck
| KindFin
| KindRst
| KindPing
| KindPong
| KindInvalid.

#[export] Instance ControlKind_eq_dec : EqDecision ControlKind.
Proof. solve_decision. Defined.

Record ConnectionDecision := mkDecision {
  dec_valid : bool;
  dec_next_state : option ConnectionState;
  dec_schedule_syn_ack : bool;
  dec_schedule_final_ack : bool;
  dec_schedule_ack_only : bool;
  dec_emit_connected : bool;
  dec_emit_connection_closed : bool;
  dec_emit_connection_reset : bool;
  dec_error_message : string
}.

(** [ConnectionDecision{}]. *)
Definition default_decision : ConnectionDecision :=
  mkDecision true None false false false false false false "".

Definition make_invalid_decision (message : string) : ConnectionDecision :=
  mkDecision false None false false false false false false message.

Definition classify_control_kind (header : Header) : ControlKind :=
  let syn := hasFlag header FlagSyn in
  let ack := hasFlag header FlagAck in
  let fin := hasFlag header FlagFin in
  let rst := hasFlag header FlagRst in
  let ping := hasFlag header FlagPing in
  let pong := hasFlag header FlagPong in
  let flag_count := Z.b2z syn + Z.b2z fin + Z.b2z rst + Z.b2z ping + Z.b2z pong in
  if ack then
    if syn && negb fin && negb rst && negb ping && negb pong then KindSynAck
    else if negb syn && negb fin && negb rst && negb ping && negb pong then KindAck
    else KindInvalid
  else if flag_count =? 0 then KindNone
  else if 1 <? flag_count then KindInvalid
  else if syn then KindSyn
  else if fin then KindFin
  else if rst then KindRst
  else if ping then KindPing
  else if pong then KindPong
  else KindInvalid.

Definition decide_connection_transition
    (role : SessionRole) (current_state : ConnectionState) (kind : ControlKind)
    : ConnectionDecision :=
  match kind with
  | KindNone | KindPing | KindPong => default_decision
  | KindInvalid => make_invalid_decision "invalid control-flag combination"
  | KindRst =>
      {| dec_valid := true; dec_next_state := Some Reset;
         dec_schedule_syn_ack := false; dec_schedule_final_ack := false;
         dec_schedule_ack_only := false; dec_emit_connected := false;
         dec_emit_connection_closed := false; dec_emit_connection_reset := true;
         dec_error_message := "" |}
  | KindFin =>
      {| dec_valid := true; dec_next_state := Some Closing;
         dec_schedule_syn_ack := false; dec_schedule_final_ack := false;
         dec_schedule_ack_only := true; dec_emit_connected := false;
         dec_emit_connection_closed := true; dec_emit_connection_reset := false;
         dec_error_message := "" |}
  | KindSyn =>
      if bool_decide (role = Server) && bool_decide (current_state = Closed) then
        {| dec_valid := true; dec_next_state := Some HandshakeReceived;
           dec_schedule_syn_ack := true; dec_schedule_final_ack := false;
           dec_schedule_ack_only := false; dec_emit_connected := false;
           dec_emit_connection_closed := false; dec_emit_connection_reset := false;
           dec_error_message := "" |}
      else if bool_decide (current_state = Established) then
        make_invalid_decision "unexpected SYN in Established state"
      else default_decision
  | KindSynAck =>
      if bool_decide (role = Client) && bool_decide (current_state = HandshakeSent) then
        {| dec_valid := true; dec_next_state := Some Established;
           dec_schedule_syn_ack := false; dec_schedule_final_ack := true;
           dec_schedule_ack_only := false; dec_emit_connected := true;
           dec_emit_connection_closed := false; dec_emit_connection_reset := false;
           dec_error_message := "" |}
      else if bool_decide (role = Client) && bool_decide (current_state = Established) then
        default_decision
      else default_decision
  | KindAck =>
      if bool_decide (role = Server) && bool_decide (current_state = HandshakeReceived) then
        {| dec_valid := true; dec_next_state := Some Established;
           dec_schedule_syn_ack := false; dec_schedule_final_ack := false;
           dec_schedule_ack_only := false; dec_emit_connected := true;
           dec_emit_connection_closed := false; dec_emit_connection_reset := false;
           dec_error_message := "" |}
      else default_decision
  end.

(** ** Properties *)

(** The flag byte (six defined bits) of each well-formed kind of packet. *)
Definition control_flags (kind : ControlKind) : option Z :=
  match kind with
  | KindNone => Some 0
  | KindSyn => Some (flag_bits FlagSyn)
  | KindSynAck => Some (flag_or FlagSyn FlagAck)
  | KindAck => Some (flag_bits FlagAck)
  | KindFin => Some (flag_bits FlagFin)
  | KindRst => Some (flag_bits FlagRst)
  | KindPing => Some (flag_bits FlagPing)
  | KindPong => Some (flag_bits FlagPong)
  | KindInvalid => None
  end.

Lemma classify_control_kind_flags h :
  classify_control_kind h = classify_control_kind (default_header <| hdr_flags := hdr_flags h |>).
Proof. done. Qed.

Lemma classify_exhaustive :
  Forall (fun f => Forall (fun k =>
    k <> KindInvalid ->
    classify_control_kind (default_header <| hdr_flags := f |>) = k <->
    control_flags k = Some (Z.land f 0x3f))
    [KindNone; KindSyn; KindSynAck; KindAck; KindFin; KindRst; KindPing; KindPong; KindInvalid])
    (seqZ 0 256).
Proof. apply (bool_decide_unpack _). vm_compute. exact I. Qed.

(** The flag classification is a table: a packet is of a well-formed
    kind exactly when its six defined flag bits are that kind's bits, and every
    other combination is invalid (all 256 flag bytes). *)
Theorem classify_control_kind_table h kind :
  is_u8 (hdr_flags h) ->
  (kind <> KindInvalid ->
   classify_control_kind h = kind <-> control_flags kind = Some (Z.land (hdr_flags h) 0x3f)) /\
  (classify_control_kind h = KindInvalid <->
   forall k, control_flags k <> Some (Z.land (hdr_flags h) 0x3f)).
Proof.
  intros Hf. rewrite classify_control_kind_flags.
  pose proof classify_exhaustive as H. rewrite Forall_forall in H.
  specialize (H (hdr_flags h)). rewrite elem_of_seqZ in H. specialize (H Hf).
  rewrite Forall_forall in H.
  assert (Hall : forall k, k <> KindInvalid ->
    classify_control_kind (default_header <| hdr_flags := hdr_flags h |>) = k <->
    control_flags k = Some (Z.land (hdr_flags h) 0x3f))
    by (intros k; apply H; destruct k; set_solver).
  split; [apply Hall|]. split.
  - intros Hi k Hk. destruct (decide (k = KindInvalid)) as [->|Hne]; [done|].
    apply (Hall k Hne) in Hk. congruence.
  - intros Hno. destruct (classify_control_kind _) eqn:E; [..|done]; exfalso;
      (eapply Hno, Hall; [|reflexivity]; done).
Qed.

Lemma classify_control_kind_table_witness :
  classify_control_kind (default_header <| hdr_flags := 0x21 |>) = KindSynAck.
Proof.
  apply (classify_control_kind_table (default_header <| hdr_flags := 0x21 |>) KindSynAck).
  - unfold is_u8. simpl. lia.
  - discriminate.
  - reflexivity.
Defined.
