(* ===== verification/TxHandler.v ===== *)
(** The send side of a connection ([src/TxHandler.cpp]): acknowledgement
    processing, retransmission, and the choice of the next datagram.

    [std::map] iteration is in key order, so the retransmission scan and the
    erase loop are recursions over the sorted association list. A datagram slot
    [std::optional<std::vector<std::byte>>] is [option bytes]; every operation
    returns the state it leaves. *)

From S2P Require Import Prelude StdMap Protocol Utils Codec Config SessionTypes.

(** ** File-local helpers *)

Definition kInternalProbeChannelId : Z := 0.
Definition kInternalProbeChannelType : ChannelType := Unreliable.

Definition is_acknowledged_by_remote (seq ack ack_bits : Z) : bool :=
  if seq_lt seq ack then true
  else if negb (seq_gt seq ack) then false
  else
    let distance := u32 (seq - ack) in
    if (distance =? 0) || (kAckBitsWindow <? distance) then false
    else
      let bit_index := u32 (distance - 1) in
      negb (Z.land ack_bits (u64 (Z.shiftl 1 bit_index)) =? 0).

Definition consumes_reliable_seq (flags : Z) : bool :=
  negb (Z.land flags (flag_bits FlagSyn) =? 0) ||
  negb (Z.land flags (flag_bits FlagFin) =? 0).

Definition retransmit_timeout_for (cfg : TransportSettings) (retry_count : Z) : Z :=
  let clamped_retry_count := Z.min retry_count 4 in
  let rto := u64 (Z.shiftl (initial_rto_ms cfg) clamped_retry_count) in
  Z.min rto (max_rto_ms cfg).

Definition make_internal_probe_header (conn_id flags : Z) (rx : RxSessionState) : Header :=
  default_header <| hdr_conn_id := conn_id |>
    <| hdr_flags := flags |>
    <| hdr_channel_id := kInternalProbeChannelId |>
    <| hdr_channel_type := kInternalProbeChannelType |>
    <| hdr_ack := next_expected rx |>
    <| hdr_ack_bits := received_bits rx |>.

Definition make_poll_result (datagram : option bytes) (retransmission : bool) : TxPollResult :=
  {| poll_datagram := datagram; poll_fatal_error := false;
     poll_retransmission := retransmission; poll_error_message := "" |}.

(** The loop of [erase_acknowledged_inflight] over the rest of the map. *)
Fixpoint erase_acknowledged_loop (ack ack_bits : Z) (m : list (Z * TxEntry)) (fin : bool)
    : list (Z * TxEntry) * bool :=
  match m with
  | [] => ([], fin)
  | (seq, entry) :: m' =>
      if negb (is_acknowledged_by_remote seq ack ack_bits) then
        let '(rest, fin) := erase_acknowledged_loop ack ack_bits m' fin in
        ((seq, entry) :: rest, fin)
      else
        let fin := if hasFlag (op_header (te_packet entry)) FlagFin then true else fin in
        erase_acknowledged_loop ack ack_bits m' fin
  end.

Definition erase_acknowledged_inflight (ack ack_bits : Z) (tx : TxSessionState)
    (acknowledged_fin : bool) : TxSessionState * bool :=
  let '(m, fin) := erase_acknowledged_loop ack ack_bits (inflight tx) acknowledged_fin in
  (tx <| inflight := m |>, fin).

(** [std::countl_zero] on 64 bits. *)
Definition countl_zero (x : Z) : Z := if x =? 0 then 64 else 63 - Z.log2 x.

Definition add_gap_evidence (threshold : Z) (e : TxEntry) : TxEntry :=
  let e := e <| te_gap_evidence_count ::= fun c => u32 (c + 1) |> in
  if threshold <=? te_gap_evidence_count e then e <| te_fast_retx_pending := true |> else e.

(** One iteration of the gap loop at [seq]. *)
Definition mark_gap_at (ack ack_bits threshold seq : Z) (m : list (Z * TxEntry))
    : list (Z * TxEntry) :=
  if is_acknowledged_by_remote seq ack ack_bits then m
  else
    match smap_find seq m with
    | None => m
    | Some _ => smap_alter (add_gap_evidence threshold) seq m
    end.

(** [for (seq = ack; seq_le(seq, highest); ++seq)]: at most 65 iterations, see
    [gap_loop_run]. *)
Definition gap_loop (ack ack_bits threshold highest : Z) (s : Z * list (Z * TxEntry))
    : Z * list (Z * TxEntry) :=
  iter_while (fun s => seq_le (fst s) highest)
    (fun s => (u32 (fst s + 1), mark_gap_at ack ack_bits threshold (fst s) (snd s)))
    66 s.

Definition mark_gap_fast_retransmit_candidates (cfg : TransportSettings) (ack ack_bits : Z)
    (tx : TxSessionState) : TxSessionState :=
  if ack_bits =? 0 then tx
  else
    let highest_bit := u32 (63 - countl_zero ack_bits) in
    let highest_acked_seq := u32 (ack + highest_bit + 1) in
    let threshold := fast_retx_evidence_threshold cfg in
    tx <| inflight := snd (gap_loop ack ack_bits threshold highest_acked_seq (ack, inflight tx)) |>.

Definition reliable_window_full (tx : TxSessionState) : bool :=
  kReliableWindowSize <=? u32 (next_seq tx - remote_ack tx).

(** ** Queueing and acknowledgements *)

Definition queue_app_data (channel_id : Z) (channel_type : ChannelType) (payload : bytes)
    (tx : TxSessionState) : TxSessionState :=
  tx <| pending_send ::= fun q =>
    q ++ [{| req_channel_id := channel_id; req_channel_type := channel_type;
             req_payload := payload |}] |>.

(** The boolean is [TxAckResult::acknowledged_fin]. *)
Definition on_remote_ack (cfg : TransportSettings) (ack ack_bits : Z) (tx : TxSessionState)
    : TxSessionState * bool :=
  let tx := tx <| remote_ack := ack |> in
  let tx := tx <| remote_ack_bits := ack_bits |> in
  let '(tx, acknowledged_fin) := erase_acknowledged_inflight ack ack_bits tx false in
  let tx := mark_gap_fast_retransmit_candidates cfg ack ack_bits tx in
  (tx, acknowledged_fin).

(** ** Building datagrams *)

Definition new_entry (packet : OwnedPacket) (now_ms : Z) : TxEntry :=
  {| te_packet := packet; te_first_send_ms := now_ms; te_last_send_ms := now_ms;
     te_retry_count := 0; te_gap_evidence_count := 0; te_fast_retx_pending := false |}.

Definition build_control_packet (now_ms conn_id flags : Z) (rx : RxSessionState)
    (tx : TxSessionState) : option bytes * TxSessionState :=
  let assign_reliable_seq := consumes_reliable_seq flags in
  if assign_reliable_seq && reliable_window_full tx then (None, tx)
  else
    let header :=
      default_header <| hdr_conn_id := conn_id |>
        <| hdr_channel_type := Unreliable |>
        <| hdr_flags := flags |>
        <| hdr_ack := next_expected rx |>
        <| hdr_ack_bits := received_bits rx |> in
    let '(header, tx) :=
      if assign_reliable_seq
      then (header <| hdr_seq := next_seq tx |>, tx <| next_seq ::= fun n => u32 (n + 1) |>)
      else (header, tx) in
    let encoded := encode header [] in
    if negb assign_reliable_seq then (Some encoded, tx)
    else
      let entry := new_entry {| op_header := header; op_payload := [] |} now_ms in
      (Some encoded, tx <| inflight ::= smap_emplace (hdr_seq header) entry |>).

Definition try_build_handshake (cfg : TransportSettings) (now_ms : Z) (role : SessionRole)
    (conn_id : Z) (cs : ConnectionState) (rx : RxSessionState) (tx : TxSessionState)
    : option bytes * ConnectionState * TxSessionState :=
  if bool_decide (role = Client) && bool_decide (cs = Closed) then
    let '(packet, tx) := build_control_packet now_ms conn_id (flag_bits FlagSyn) rx tx in
    (packet, HandshakeSent, tx)
  else if syn_ack_pending tx && bool_decide (cs = HandshakeReceived) then
    let '(packet, tx) :=
      build_control_packet now_ms conn_id (flag_or FlagSyn FlagAck) rx tx in
    match packet with
    | Some _ => (packet, cs, tx <| syn_ack_pending := false |>)
    | None => (None, cs, tx)
    end
  else if final_ack_pending tx && bool_decide (cs = Established) then
    let '(packet, tx) := build_control_packet now_ms conn_id (flag_bits FlagAck) rx tx in
    match packet with
    | Some _ =>
        (packet, cs,
         tx <| final_ack_pending := false |>
            <| final_ack_linger_until_ms := u64 (now_ms + handshake_linger_ms cfg) |>)
    | None => (None, cs, tx)
    end
  else if fin_pending tx && bool_decide (cs = Closing) then
    let '(packet, tx) := build_control_packet now_ms conn_id (flag_bits FlagFin) rx tx in
    match packet with
    | Some _ => (packet, cs, tx <| fin_pending := false |>)
    | None => (None, cs, tx)
    end
  else (None, cs, tx).

(** The retransmission of one entry: its ack fields are refreshed from the
    receive state, both in the stored packet and in the encoded copy. *)
Definition refresh_acks (rx : RxSessionState) (h : Header) : Header :=
  h <| hdr_ack := next_expected rx |> <| hdr_ack_bits := received_bits rx |>.

Definition resend_entry (now_ms : Z) (rx : RxSessionState) (entry : TxEntry) : TxEntry :=
  entry <| te_packet ::= fun p => p <| op_header ::= refresh_acks rx |> |>
    <| te_last_send_ms := now_ms |>
    <| te_retry_count ::= fun c => u32 (c + 1) |>
    <| te_gap_evidence_count := 0 |>
    <| te_fast_retx_pending := false |>.

Definition retry_limit_error : TxPollResult :=
  {| poll_datagram := None; poll_fatal_error := true; poll_retransmission := false;
     poll_error_message := "retransmission retry limit exceeded" |}.

Definition entry_timed_out (cfg : TransportSettings) (now_ms : Z) (entry : TxEntry) : bool :=
  u64 (te_last_send_ms entry + retransmit_timeout_for cfg (te_retry_count entry)) <=? now_ms.

(** The loop of [try_build_retransmit] over the rest of the map. *)
Fixpoint retransmit_loop (cfg : TransportSettings) (now_ms : Z) (rx : RxSessionState)
    (m : list (Z * TxEntry)) : TxPollResult * list (Z * TxEntry) :=
  match m with
  | [] => (empty_poll_result, [])
  | (seq, entry) :: m' =>
      if max_retransmit_count cfg <=? te_retry_count entry then (retry_limit_error, m')
      else if negb (te_fast_retx_pending entry) && negb (entry_timed_out cfg now_ms entry) then
        let '(result, rest) := retransmit_loop cfg now_ms rx m' in
        (result, (seq, entry) :: rest)
      else
        let header := refresh_acks rx (op_header (te_packet entry)) in
        let encoded := encode header (op_payload (te_packet entry)) in
        (make_poll_result (Some encoded) true, (seq, resend_entry now_ms rx entry) :: m')
  end.

Definition try_build_retransmit (cfg : TransportSettings) (now_ms : Z) (rx : RxSessionState)
    (tx : TxSessionState) : TxPollResult * TxSessionState :=
  let '(result, m) := retransmit_loop cfg now_ms rx (inflight tx) in
  (result, tx <| inflight := m |>).

Definition try_build_ack_only (conn_id : Z) (rx : RxSessionState) (tx : TxSessionState)
    : option bytes * TxSessionState :=
  if negb (ack_only_pending tx) then (None, tx)
  else
    let header :=
      default_header <| hdr_conn_id := conn_id |>
        <| hdr_flags := flag_bits FlagAck |>
        <| hdr_channel_type := Unreliable |>
        <| hdr_ack := next_expected rx |>
        <| hdr_ack_bits := received_bits rx |> in
    (Some (encode header []), tx <| ack_only_pending := false |>).

Definition make_packet_from_request (req : SendRequest) (conn_id : Z) (rx : RxSessionState)
    (tx : TxSessionState) (assign_reliable_seq : bool) : OwnedPacket * TxSessionState :=
  let header :=
    default_header <| hdr_conn_id := conn_id |>
      <| hdr_channel_id := req_channel_id req |>
      <| hdr_channel_type := req_channel_type req |>
      <| hdr_ack := next_expected rx |>
      <| hdr_ack_bits := received_bits rx |> in
  let '(header, tx) :=
    if assign_reliable_seq
    then (header <| hdr_seq := next_seq tx |>, tx <| next_seq ::= fun n => u32 (n + 1) |>)
    else (header <| hdr_seq := 0 |>, tx) in
  ({| op_header := header; op_payload := req_payload req |}, tx).

Definition try_build_fresh (now_ms conn_id : Z) (rx : RxSessionState) (tx : TxSessionState)
    : option bytes * TxSessionState :=
  match pending_send tx with
  | [] => (None, tx)
  | request :: rest =>
      let tx := tx <| pending_send := rest |> in
      let assign_reliable_seq := isReliableChannel (req_channel_type request) in
      if assign_reliable_seq && reliable_window_full tx then
        (None, tx <| pending_send ::= fun q => request :: q |>)
      else
        let '(packet, tx) :=
          make_packet_from_request request conn_id rx tx assign_reliable_seq in
        let encoded := encode (op_header packet) (op_payload packet) in
        let tx :=
          if assign_reliable_seq
          then tx <| inflight ::= smap_emplace (hdr_seq (op_header packet))
                                    (new_entry packet now_ms) |>
          else tx in
        (Some encoded, tx)
  end.

Definition try_build_probe_lane (conn_id : Z) (rx : RxSessionState) (tx : TxSessionState)
    : option bytes * TxSessionState :=
  if pong_pending (probe tx) then
    let header := make_internal_probe_header conn_id (flag_bits FlagPong) rx in
    (Some (encode header []), tx <| probe ::= fun p => p <| pong_pending := false |> |>)
  else if negb (ping_pending (probe tx)) then (None, tx)
  else
    let header := make_internal_probe_header conn_id (flag_bits FlagPing) rx in
    (Some (encode header []), tx <| probe ::= fun p => p <| ping_pending := false |> |>).

(** ** [TxHandler::poll] *)

Definition has_value {A} (o : option A) : bool := match o with Some _ => true | None => false end.

Definition poll (cfg : TransportSettings) (now_ms : Z) (role : SessionRole) (conn_id : Z)
    (cs : ConnectionState) (rx : RxSessionState) (tx : TxSessionState)
    : TxPollResult * ConnectionState * TxSessionState :=
  let '(bs, cs, tx) := try_build_handshake cfg now_ms role conn_id cs rx tx in
  if has_value bs then (make_poll_result bs false, cs, tx)
  else
    let '(result, tx) := try_build_retransmit cfg now_ms rx tx in
    if poll_fatal_error result || has_value (poll_datagram result) then (result, cs, tx)
    else
      let '(bs, tx) := try_build_probe_lane conn_id rx tx in
      if has_value bs then (make_poll_result bs false, cs, tx)
      else
        let '(bs, tx) := try_build_ack_only conn_id rx tx in
        if has_value bs then (make_poll_result bs false, cs, tx)
        else
          let '(bs, tx) := try_build_fresh now_ms conn_id rx tx in
          if has_value bs then (make_poll_result bs false, cs, tx)
          else (empty_poll_result, cs, tx).

(** ** Acknowledgements: lemmas *)

(** The SACK rule: at or past half the sequence space behind [ack], or bit
    [distance - 1] of the bitmap for a distance of 1 to 64. *)
Lemma is_acked_spec seq ack ack_bits :
  is_acknowledged_by_remote seq ack ack_bits =
  (2 ^ 31 <=? seq_offset ack seq) ||
  ((1 <=? seq_offset ack seq) && (seq_offset ack seq <=? 64) &&
   Z.testbit ack_bits (seq_offset ack seq - 1)).
Proof.
  unfold is_acknowledged_by_remote. rewrite seq_lt_offset, seq_gt_offset.
  fold (seq_offset ack seq). pose proof (seq_offset_range ack seq) as Hr.
  destruct (Z.leb_spec (2 ^ 31) (seq_offset ack seq)) as [|Hlt]; [done|].
  assert (Hgt : (2 ^ 31 <=? seq_offset seq ack) = (1 <=? seq_offset ack seq)).
  { unfold seq_offset in *. word_lia. }
  rewrite Hgt. unfold kAckBitsWindow.
  destruct (Z.leb_spec 1 (seq_offset ack seq)); [|done]. simpl.
  rewrite (proj2 (Z.eqb_neq _ _)) by lia. simpl.
  destruct (Z.ltb_spec 64 (seq_offset ack seq)), (Z.leb_spec (seq_offset ack seq) 64);
    try lia. simpl.
  rewrite (u32_id (_ - 1)) by (unfold is_u32; lia).
  rewrite u64_id.
  - apply land_bit_nonzero. lia.
  - rewrite Z.shiftl_1_l. split; [apply Z.pow_nonneg; lia|]. apply Z.pow_lt_mono_r; lia.
Qed.

(** What is left is not behind the front. *)
Lemma not_acked_offset seq ack ack_bits :
  is_acknowledged_by_remote seq ack ack_bits = false -> seq_offset ack seq < 2 ^ 31.
Proof. rewrite is_acked_spec. intros H. apply orb_false_iff in H. lia. Qed.

Lemma erase_acknowledged_loop_spec ack ack_bits m fin :
  erase_acknowledged_loop ack ack_bits m fin =
  (List.filter (fun x => negb (is_acknowledged_by_remote (fst x) ack ack_bits)) m,
   fin || existsb (fun x => is_acknowledged_by_remote (fst x) ack ack_bits &&
                            hasFlag (op_header (te_packet (snd x))) FlagFin) m).
Proof.
  revert fin. induction m as [|[k e] m IH]; intros fin; simpl; [by rewrite orb_false_r|].
  destruct (is_acknowledged_by_remote k ack ack_bits); simpl; rewrite IH.
  - f_equal. destruct (hasFlag _ _), fin; simpl; done.
  - done.
Qed.

Lemma add_gap_evidence_packet th e : te_packet (add_gap_evidence th e) = te_packet e.
Proof. unfold add_gap_evidence. by case_match. Qed.
Lemma add_gap_evidence_retry th e : te_retry_count (add_gap_evidence th e) = te_retry_count e.
Proof. unfold add_gap_evidence. by case_match. Qed.
Lemma add_gap_evidence_last th e : te_last_send_ms (add_gap_evidence th e) = te_last_send_ms e.
Proof. unfold add_gap_evidence. by case_match. Qed.

Lemma mark_gap_at_keys ack ack_bits th seq m :
  map fst (mark_gap_at ack ack_bits th seq m) = map fst m.
Proof. unfold mark_gap_at. repeat case_match; auto using smap_alter_keys. Qed.

Lemma mark_gap_at_find ack ack_bits th seq m k :
  smap_find k (mark_gap_at ack ack_bits th seq m) =
  if (k =? seq) && negb (is_acknowledged_by_remote seq ack ack_bits)
  then add_gap_evidence th <$> smap_find k m else smap_find k m.
Proof.
  unfold mark_gap_at. destruct (is_acknowledged_by_remote seq ack ack_bits).
  { by rewrite andb_false_r. }
  rewrite andb_true_r. destruct (Z.eqb_spec k seq) as [->|Hne].
  - destruct (smap_find seq m) eqn:E; [|by rewrite E].
    rewrite smap_find_alter, Z.eqb_refl, E. done.
  - destruct (smap_find seq m); [|done].
    rewrite smap_find_alter. by rewrite (proj2 (Z.eqb_neq _ _)).
Qed.

(** The gap loop run from offset [i] up to the highest offset [n]: it ends past
    [n] through its guard, and has visited each number between once. *)
Lemma gap_loop_run ack ack_bits th n fuel i m :
  is_u32 ack -> 0 <= i <= n + 1 -> 0 <= n <= 64 -> n + 1 - i <= Z.of_nat fuel ->
  exists m',
    iter_while (fun s => seq_le (fst s) (u32 (ack + n)))
      (fun s => (u32 (fst s + 1), mark_gap_at ack ack_bits th (fst s) (snd s)))
      fuel (u32 (ack + i), m) = (u32 (ack + (n + 1)), m') /\
    map fst m' = map fst m /\
    forall k, is_u32 k ->
      smap_find k m' =
      if (i <=? seq_offset ack k) && (seq_offset ack k <=? n) &&
         negb (is_acknowledged_by_remote k ack ack_bits)
      then add_gap_evidence th <$> smap_find k m else smap_find k m.
Proof.
  intros Hack. revert i m. induction fuel as [|fuel IH]; intros i m Hi Hn Hf.
  - assert (i = n + 1) as -> by lia. exists m. split; [done|]. split; [done|].
    intros k Hk. destruct (Z.leb_spec (n + 1) (seq_offset ack k)),
      (Z.leb_spec (seq_offset ack k) n); done || lia.
  - simpl iter_while. cbn [fst snd]. rewrite seq_le_window by lia.
    destruct (Z.leb_spec i n) as [Hin|Hin].
    + rewrite u32_add_l, <- Z.add_assoc.
      destruct (IH (i + 1) (mark_gap_at ack ack_bits th (u32 (ack + i)) m))
        as (m' & Heq & Hs & Hf'); [lia..|].
      exists m'. split; [done|]. split; [by rewrite Hs, mark_gap_at_keys|].
      intros k Hk. rewrite Hf', mark_gap_at_find by done.
      pose proof (seq_offset_inv ack k Hk) as Hinv.
      destruct (Z.eqb_spec k (u32 (ack + i))) as [->|Hne].
      * rewrite seq_offset_add by (unfold is_u32; lia).
        rewrite (proj2 (Z.leb_gt (i + 1) i)), (proj2 (Z.leb_le i i)),
          (proj2 (Z.leb_le i n)) by lia. done.
      * assert (seq_offset ack k <> i) by congruence.
        cbn [andb]. replace (i + 1 <=? seq_offset ack k) with (i <=? seq_offset ack k) by lia.
        done.
    + assert (i = n + 1) as -> by lia. exists m. split; [done|]. split; [done|].
      intros k Hk. destruct (Z.leb_spec (n + 1) (seq_offset ack k)),
        (Z.leb_spec (seq_offset ack k) n); done || lia.
Qed.

(** The highest offset the gap loop visits. *)
Definition gap_top (ack_bits : Z) : Z := Z.log2 ack_bits + 1.

Lemma gap_top_range ack_bits : is_u64 ack_bits -> ack_bits <> 0 -> 1 <= gap_top ack_bits <= 64.
Proof.
  unfold is_u64, gap_top. intros H H0. pose proof (Z.log2_nonneg ack_bits).
  pose proof (proj1 (Z.log2_lt_pow2 ack_bits 64 ltac:(lia)) ltac:(lia)). lia.
Qed.

Lemma highest_acked_seq_eq ack ack_bits :
  is_u64 ack_bits -> ack_bits <> 0 ->
  u32 (ack + u32 (63 - countl_zero ack_bits) + 1) = u32 (ack + gap_top ack_bits).
Proof.
  intros Hb Hne. pose proof (gap_top_range _ Hb Hne). unfold gap_top in *. unfold countl_zero.
  rewrite (proj2 (Z.eqb_neq _ _)) by done.
  rewrite (u32_id (63 - _)) by (unfold is_u32; lia). f_equal. lia.
Qed.

Definition gap_marked (ack ack_bits k : Z) : bool :=
  negb (ack_bits =? 0) && (seq_offset ack k <=? gap_top ack_bits).

Lemma mark_gap_spec cfg ack ack_bits tx :
  is_u32 ack -> is_u64 ack_bits ->
  exists m,
    mark_gap_fast_retransmit_candidates cfg ack ack_bits tx = tx <| inflight := m |> /\
    map fst m = map fst (inflight tx) /\
    forall k, is_u32 k ->
      smap_find k m =
      if gap_marked ack ack_bits k && negb (is_acknowledged_by_remote k ack ack_bits)
      then add_gap_evidence (fast_retx_evidence_threshold cfg) <$> smap_find k (inflight tx)
      else smap_find k (inflight tx).
Proof.
  intros Hack Hbits. unfold mark_gap_fast_retransmit_candidates, gap_marked.
  destruct (Z.eqb_spec ack_bits 0) as [->|Hne]; simpl.
  { exists (inflight tx). split; [by destruct tx|]. done. }
  pose proof (gap_top_range _ Hbits Hne).
  rewrite highest_acked_seq_eq by done. unfold gap_loop.
  destruct (gap_loop_run ack ack_bits (fast_retx_evidence_threshold cfg) (gap_top ack_bits)
              66 0 (inflight tx)) as (m & Heq & Hs & Hf); [done|lia..|].
  rewrite Z.add_0_r, (u32_id ack) in Heq by done. rewrite Heq.
  exists m. split; [done|]. split; [done|]. intros k Hk. rewrite Hf by done.
  pose proof (seq_offset_range ack k) as [? ?].
  rewrite (proj2 (Z.leb_le 0 _)) by done. done.
Qed.

Lemma on_remote_ack_frame cfg ack ack_bits tx :
  is_u32 ack -> is_u64 ack_bits ->
  let tx' := fst (on_remote_ack cfg ack ack_bits tx) in
  tx' = tx <| remote_ack := ack |> <| remote_ack_bits := ack_bits |>
           <| inflight := inflight tx' |>.
Proof.
  intros Hack Hbits. unfold on_remote_ack, erase_acknowledged_inflight.
  rewrite erase_acknowledged_loop_spec. set (tx1 := set inflight _ _).
  by destruct (mark_gap_spec cfg ack ack_bits tx1 Hack Hbits) as (m & -> & Hms & Hmf).
Qed.

Lemma on_remote_ack_inflight cfg ack ack_bits tx :
  is_u32 ack -> is_u64 ack_bits -> smap_sorted (inflight tx) ->
  let tx' := fst (on_remote_ack cfg ack ack_bits tx) in
  smap_sorted (inflight tx') /\
  (forall k, k ∈ map fst (inflight tx') -> k ∈ map fst (inflight tx)) /\
  forall k, is_u32 k ->
    smap_find k (inflight tx') =
    match smap_find k (inflight tx) with
    | None => None
    | Some e =>
        if is_acknowledged_by_remote k ack ack_bits then None
        else Some (if gap_marked ack ack_bits k
                   then add_gap_evidence (fast_retx_evidence_threshold cfg) e else e)
    end.
Proof.
  intros Hack Hbits Hs. unfold on_remote_ack, erase_acknowledged_inflight.
  rewrite erase_acknowledged_loop_spec. set (tx1 := set inflight _ _).
  destruct (mark_gap_spec cfg ack ack_bits tx1 Hack Hbits) as (m & -> & Hms & Hmf).
  subst tx1. cbn [fst inflight set set_inflight set_remote_ack set_remote_ack_bits] in *. split; [|split].
  - unfold smap_sorted. rewrite Hms. by apply smap_filter_sorted.
  - intros k. rewrite Hms. intros Hk. apply list_elem_of_fmap in Hk as [x [-> Hx]].
    apply list_elem_of_In, filter_In in Hx as [Hx _].
    apply list_elem_of_fmap. exists x. split; [done|]. by apply list_elem_of_In.
  - intros k Hk. rewrite Hmf, smap_find_filter by done. cbn [fst].
    destruct (smap_find k (inflight tx)); [|by repeat case_match].
    destruct (is_acknowledged_by_remote k ack ack_bits); simpl; [by repeat case_match|].
    rewrite andb_true_r. by case_match.
Qed.

Lemma on_remote_ack_fin cfg ack ack_bits tx :
  smap_sorted (inflight tx) ->
  snd (on_remote_ack cfg ack ack_bits tx) = true <-> exists k e,
    smap_find k (inflight tx) = Some e /\
    is_acknowledged_by_remote k ack ack_bits = true /\
    hasFlag (op_header (te_packet e)) FlagFin = true.
Proof.
  intros Hs. unfold on_remote_ack, erase_acknowledged_inflight.
  rewrite erase_acknowledged_loop_spec. cbn [snd orb inflight set set_remote_ack set_remote_ack_bits].
  rewrite existsb_exists. split.
  - intros ([k e] & Hin & Hb). apply andb_true_iff in Hb as [Ha Hf]. exists k, e.
    split; [|done]. apply smap_find_in; [done|]. by apply list_elem_of_In.
  - intros (k & e & Hfind & Ha & Hf). exists (k, e). split.
    + apply list_elem_of_In. by apply smap_find_Some_in.
    + simpl. by rewrite Ha, Hf.
Qed.

(** ** Acknowledgements: properties *)

(** A sequence number counts as acknowledged exactly when the peer's
    cumulative ACK has passed it (it is less than 2^31 behind [ack]) or it is 1 to
    64 past [ack] and its bit of the selective bitmap is set. In particular the
    number [ack] itself, and everything more than 64 past it, is not. *)
Theorem is_acknowledged_by_remote_spec seq ack ack_bits :
  is_u32 seq -> is_u32 ack ->
  is_acknowledged_by_remote seq ack ack_bits = true <->
  (exists d, 1 <= d <= 2 ^ 31 /\ seq = u32 (ack - d)) \/
  (exists i, 0 <= i < 64 /\ seq = u32 (ack + i + 1) /\ Z.testbit ack_bits i = true).
Proof.
  intros Hseq Hack. rewrite is_acked_spec, orb_true_iff, !andb_true_iff, !Z.leb_le.
  pose proof (seq_offset_range ack seq) as Hr. pose proof (seq_offset_inv ack seq Hseq) as Hinv.
  split.
  - intros [Hb|[[H1 H2] Ht]].
    + left. exists (2 ^ 32 - seq_offset ack seq). unfold is_u32 in Hr. split; [lia|].
      rewrite <- Hinv at 1. word_lia.
    + right. exists (seq_offset ack seq - 1). split; [lia|]. split; [|done].
      rewrite <- Hinv at 1. f_equal. lia.
  - intros [(d & Hd & ->)|(i & Hi & -> & Ht)].
    + left. unfold seq_offset. word_lia.
    + right. rewrite <- Z.add_assoc, seq_offset_add by (unfold is_u32; lia).
      replace (i + 1 - 1) with i by lia. split; [lia|done].
Qed.

Lemma is_acknowledged_by_remote_spec_witness :
  is_acknowledged_by_remote 1 0xffffffff 2 = true.
Proof.
  apply (is_acknowledged_by_remote_spec 1 0xffffffff 2); [unfold is_u32; lia..|].
  right. exists 1. split; [lia|]. split; reflexivity.
Defined.

(** C12: [on_remote_ack] records the peer's ack fields, removes from the
    in-flight map exactly the acknowledged numbers, keeps every other entry with
    its packet, and adds gap evidence to exactly the unacknowledged entries at or
    above [ack] and below the highest selectively acknowledged number. It reports
    an acknowledged FIN exactly when it removed an entry carrying FIN; no other
    part of the TX state changes. *)
Theorem on_remote_ack_spec cfg ack ack_bits tx :
  is_u32 ack -> is_u64 ack_bits -> smap_sorted (inflight tx) ->
  let '(tx', fin) := on_remote_ack cfg ack ack_bits tx in
  tx' = tx <| remote_ack := ack |> <| remote_ack_bits := ack_bits |>
           <| inflight := inflight tx' |> /\
  smap_sorted (inflight tx') /\
  (forall k, is_u32 k ->
     smap_find k (inflight tx') =
     match smap_find k (inflight tx) with
     | None => None
     | Some e =>
         if is_acknowledged_by_remote k ack ack_bits then None
         else Some (if gap_marked ack ack_bits k
                    then add_gap_evidence (fast_retx_evidence_threshold cfg) e else e)
     end) /\
  (fin = true <-> exists k e,
     smap_find k (inflight tx) = Some e /\
     is_acknowledged_by_remote k ack ack_bits = true /\
     hasFlag (op_header (te_packet e)) FlagFin = true).
Proof.
  intros Hack Hbits Hs.
  pose proof (on_remote_ack_frame cfg ack ack_bits tx Hack Hbits).
  pose proof (on_remote_ack_inflight cfg ack ack_bits tx Hack Hbits Hs) as (? & _ & ?).
  pose proof (on_remote_ack_fin cfg ack ack_bits tx Hs).
  destruct (on_remote_ack cfg ack ack_bits tx). done.
Qed.

Definition sample_entry (seq flags : Z) : TxEntry :=
  new_entry {| op_header := default_header <| hdr_seq := seq |> <| hdr_flags := flags |>;
               op_payload := [] |} 0.

Definition sample_tx : TxSessionState :=
  {| next_seq := 103; remote_ack := 100; remote_ack_bits := 0; pending_send := [];
     inflight := [(100, sample_entry 100 1); (101, sample_entry 101 2); (102, sample_entry 102 2)];
     syn_ack_pending := false; final_ack_pending := false; final_ack_linger_until_ms := 0;
     fin_pending := false; ack_only_pending := false; reliable_ack_pending := false;
     reliable_ack_due_ms := 0; activity_ack_pending := false; probe := default_probe |}.

Lemma on_remote_ack_spec_witness :
  smap_find 101 (inflight (fst (on_remote_ack default_transport 100 1 sample_tx))) = None /\
  snd (on_remote_ack default_transport 100 1 sample_tx) = true.
Proof.
  pose proof (on_remote_ack_spec default_transport 100 1 sample_tx) as H.
  destruct (on_remote_ack default_transport 100 1 sample_tx) as [tx' fin].
  destruct H as (_ & _ & Hf & Hfin); [unfold is_u32; lia|unfold is_u64; lia| |].
  { repeat constructor; lia. }
  split; [rewrite Hf by (unfold is_u32; lia); reflexivity|].
  apply Hfin. exists 101, (sample_entry 101 2). repeat split; reflexivity.
Defined.
