(* ===== verification/TxInvariant.v ===== *)
(** The invariant of the send side and what [TxHandler::poll] emits.

    [tx_ok] bounds the in-flight map: every key lies in the 64 numbers before
    [next_seq] and not behind the peer's latest cumulative ACK. It is kept by
    every operation for arbitrary (also stale or forged) acknowledgements, and
    gives the limit of 64 unacknowledged reliable packets. *)

From S2P Require Import Prelude StdMap Protocol Utils Codec Config SessionTypes TxHandler.

(** ** Well-formed entries and states *)

(** A channel an application can name: one of the enumerators. *)
Definition channel_named (t : ChannelType) : Prop := u8_of_channel_type t <= 3 /\ channel_type_typed t.

Record req_ok (r : SendRequest) : Prop := mk_req_ok {
  rq_id : is_u32 (req_channel_id r);
  rq_type : channel_named (req_channel_type r);
  rq_payload : Forall is_u8 (req_payload r)
}.

Definition header_ok (h : Header) : Prop := header_typed h /\ isValidHeader h = true.

(** The packets that take a reliable sequence number. *)
Definition reliable_header (h : Header) : bool :=
  isReliableChannel (hdr_channel_type h) || consumes_reliable_seq (hdr_flags h).

Record entry_ok (cfg : TransportSettings) (k : Z) (e : TxEntry) : Prop := mk_entry_ok {
  eo_key : is_u32 k;
  eo_seq : hdr_seq (op_header (te_packet e)) = k;
  eo_header : header_ok (op_header (te_packet e));
  eo_reliable : reliable_header (op_header (te_packet e)) = true;
  eo_payload : Forall is_u8 (op_payload (te_packet e));
  eo_last : is_u64 (te_last_send_ms e);
  eo_retry : 0 <= te_retry_count e <= max_retransmit_count cfg
}.

(** [k] is one of the 64 numbers before [next], and not behind [front]. *)
Definition in_window (front next k : Z) : Prop :=
  1 <= seq_offset k next <= 64 /\ seq_offset front k < 2 ^ 31.

Record tx_ok (cfg : TransportSettings) (tx : TxSessionState) : Prop := mk_tx_ok {
  to_next : is_u32 (next_seq tx);
  to_ack : is_u32 (remote_ack tx);
  to_pending : Forall req_ok (pending_send tx);
  to_sorted : smap_sorted (inflight tx);
  to_entries : Forall (fun x => entry_ok cfg (fst x) (snd x)) (inflight tx);
  to_window : Forall (fun x => in_window (remote_ack tx) (next_seq tx) (fst x)) (inflight tx)
}.

(** ** Window arithmetic *)

Lemma window_not_full tx :
  reliable_window_full tx = false -> seq_offset (remote_ack tx) (next_seq tx) < 64.
Proof. unfold reliable_window_full, kReliableWindowSize, seq_offset. lia. Qed.

(** Sending [next] keeps the window when fewer than 64 numbers separate it from
    the peer's ack. *)
Lemma in_window_advance front next k :
  is_u32 k -> is_u32 front -> is_u32 next -> seq_offset front next < 64 ->
  in_window front next k -> in_window front (u32 (next + 1)) k.
Proof. unfold in_window, seq_offset. intros. word_lia. Qed.

Lemma in_window_new front next :
  is_u32 front -> is_u32 next -> seq_offset front next < 64 ->
  in_window front (u32 (next + 1)) next.
Proof. unfold in_window, seq_offset. intros. word_lia. Qed.

Lemma in_window_not_next front next k : in_window front next k -> k <> next.
Proof. unfold in_window, seq_offset. intros H ->. word_lia. Qed.

(** ** Headers *)

Lemma default_header_ok : header_ok default_header.
Proof. split; [|reflexivity]. constructor; simpl; try done; word_unfold; unfold kHeaderLength; lia. Qed.

Lemma header_ok_set_acks h ack bits :
  is_u32 ack -> is_u64 bits -> header_ok h ->
  header_ok (h <| hdr_ack := ack |> <| hdr_ack_bits := bits |>).
Proof. intros Ha Hb [[] Hv]. split; [by constructor|done]. Qed.

Definition control_header (conn_id flags seq ack bits : Z) : Header :=
  {| hdr_conn_id := conn_id; hdr_seq := seq; hdr_ack := ack; hdr_ack_bits := bits;
     hdr_channel_id := 0; hdr_channel_type := Unreliable; hdr_flags := flags;
     hdr_header_len := kHeaderLength; hdr_reserved := 0 |}.

Definition valid_flags (flags : Z) : Prop := is_u8 flags /\ Z.land flags 0xc0 = 0.

Lemma control_header_ok conn_id flags seq ack bits :
  is_u32 conn_id -> valid_flags flags -> is_u32 seq -> is_u32 ack -> is_u64 bits ->
  header_ok (control_header conn_id flags seq ack bits).
Proof.
  intros Hc [Hf Hv] Hs Ha Hb. split.
  - constructor; simpl; try done; word_unfold; unfold kHeaderLength; lia.
  - by apply isValidHeader_iff.
Qed.

Lemma flag_bits_valid f : valid_flags (flag_bits f).
Proof. split; [unfold is_u8; destruct f; cbn [flag_bits]; lia|by destruct f]. Qed.
Lemma syn_ack_valid : valid_flags (flag_or FlagSyn FlagAck).
Proof. split; [change (is_u8 0x21); unfold is_u8; lia|reflexivity]. Qed.
#[export] Hint Resolve flag_bits_valid syn_ack_valid : rudp.

(** ** What a datagram carries *)

(** The datagram is the encoding of a well-formed packet whose ack fields are the
    receive state's. *)
Definition carries (rx : RxSessionState) (P : Header -> bytes -> Prop) (bs : bytes) : Prop :=
  exists h p, bs = encode h p /\ header_ok h /\ hdr_ack h = next_expected rx /\
              hdr_ack_bits h = received_bits rx /\ P h p.

Lemma carries_weaken rx (P Q : Header -> bytes -> Prop) bs :
  (forall h p, P h p -> Q h p) -> carries rx P bs -> carries rx Q bs.
Proof. intros HPQ (h & p & H). exists h, p. destruct H as (? & ? & ? & ? & ?). auto 6. Qed.

Lemma carries_decode rx P bs :
  carries rx P bs -> exists pv, decode bs = Some pv /\
    header_ok (pv_header pv) /\ hdr_ack (pv_header pv) = next_expected rx /\
    hdr_ack_bits (pv_header pv) = received_bits rx /\ P (pv_header pv) (pv_payload pv).
Proof.
  intros (h & p & -> & [Ht Hv] & Ha & Hb & HP).
  exists {| pv_header := h; pv_payload := p |}. split; [|done].
  rewrite encode_layout, decode_block by apply header_block_length.
  by rewrite decode_header_block.
Qed.

(** ** Preservation *)

Section preservation.
Context (cfg : TransportSettings) (Hcfg : settings_typed cfg).

Lemma queue_app_data_ok id t p tx :
  is_u32 id -> channel_named t -> Forall is_u8 p ->
  tx_ok cfg tx -> tx_ok cfg (queue_app_data id t p tx).
Proof.
  intros Hid Ht Hp []. constructor; simpl; try done.
  apply Forall_app. split; [done|]. apply Forall_cons_2; [by constructor|constructor].
Qed.

Lemma add_gap_evidence_ok k e th : entry_ok cfg k e -> entry_ok cfg k (add_gap_evidence th e).
Proof.
  intros []. constructor; try done;
    by rewrite ?add_gap_evidence_packet, ?add_gap_evidence_last, ?add_gap_evidence_retry.
Qed.

(** Any acknowledgement, however stale or forged. *)
Lemma on_remote_ack_ok ack ack_bits tx :
  is_u32 ack -> is_u64 ack_bits -> tx_ok cfg tx ->
  tx_ok cfg (fst (on_remote_ack cfg ack ack_bits tx)).
Proof.
  intros Hack Hbits [].
  pose proof (on_remote_ack_frame cfg ack ack_bits tx Hack Hbits) as Hfr.
  destruct (on_remote_ack_inflight cfg ack ack_bits tx Hack Hbits to_sorted0)
    as (Hs & Hkeys & Hf).
  destruct (on_remote_ack cfg ack ack_bits tx) as [tx' fin]. cbn [fst] in *.
  assert (Hall : forall x, x ∈ inflight tx' ->
    exists e, (fst x, e) ∈ inflight tx /\
      is_acknowledged_by_remote (fst x) ack ack_bits = false /\
      (snd x = e \/ snd x = add_gap_evidence (fast_retx_evidence_threshold cfg) e)).
  { intros [k e] Hin. cbn [fst snd].
    assert (Hk : k ∈ map fst (inflight tx))
      by (apply Hkeys, list_elem_of_fmap; by exists (k, e)).
    apply list_elem_of_fmap in Hk as [[k0 e0] [-> Hk0]]. cbn [fst] in *.
    rewrite Forall_forall in to_entries0. pose proof (to_entries0 _ Hk0) as []. cbn [fst snd] in *.
    apply smap_find_in in Hin; [|done]. pose proof (smap_find_in _ _ _ to_sorted0 Hk0) as Hk1.
    rewrite Hf, Hk1 in Hin by done. exists e0. split; [done|].
    destruct (is_acknowledged_by_remote k0 ack ack_bits); [done|]. split; [done|].
    injection Hin as <-. case_match; auto. }
  rewrite Forall_forall in to_entries0, to_window0. rewrite Hfr.
  constructor; simpl; try done; apply Forall_forall; intros x Hx;
    destruct (Hall x Hx) as (e & Hin & Hna & He).
  - specialize (to_entries0 _ Hin). cbn [fst snd] in *.
    destruct He as [-> | ->]; auto using add_gap_evidence_ok.
  - specialize (to_window0 _ Hin) as [Hw _]. cbn [fst] in *. split; [done|].
    by eapply not_acked_offset.
Qed.

(** A reliable packet numbered [next_seq], sent with the window open. *)
Lemma tx_ok_push tx e :
  tx_ok cfg tx -> reliable_window_full tx = false -> entry_ok cfg (next_seq tx) e ->
  tx_ok cfg (tx <| next_seq ::= fun n => u32 (n + 1) |>
                <| inflight ::= smap_emplace (next_seq tx) e |>) /\
  smap_find (next_seq tx) (inflight tx) = None.
Proof.
  intros [] Hw He. apply window_not_full in Hw.
  assert (Hnew : smap_find (next_seq tx) (inflight tx) = None).
  { apply smap_find_None. intros Hin. apply list_elem_of_fmap in Hin as [x [Hx Hin]].
    rewrite Forall_forall in to_window0. apply to_window0 in Hin.
    by apply in_window_not_next in Hin. }
  split; [|done]. constructor; simpl; try done; auto with rudp.
  - by apply smap_emplace_Forall.
  - apply smap_emplace_Forall; [by apply in_window_new|].
    rewrite Forall_forall in *. intros x Hx. apply in_window_advance; auto.
    by destruct (to_entries0 x Hx).
Qed.

Lemma new_entry_ok h p now :
  header_ok h -> reliable_header h = true -> Forall is_u8 p -> is_u64 now ->
  entry_ok cfg (hdr_seq h) (new_entry {| op_header := h; op_payload := p |} now).
Proof.
  intros Hh Hr Hp Hn. constructor; simpl; try done; [apply Hh|].
  destruct Hcfg. unfold is_u32 in *. lia.
Qed.

(** *** The builders, for a fixed time, connection id and receive state *)

Context (now conn_id : Z) (rx : RxSessionState).
Context (Hnow : is_u64 now) (Hid : is_u32 conn_id).
Context (Hack : is_u32 (next_expected rx)) (Hbits : is_u64 (received_bits rx)).

(** The postcondition of a builder that leaves the application queue alone. *)
Definition control_packet (flags seq : Z) (h : Header) (p : bytes) : Prop :=
  h = control_header conn_id flags seq (next_expected rx) (received_bits rx) /\ p = [].

Lemma build_control_packet_ok flags tx o tx' :
  valid_flags flags -> tx_ok cfg tx ->
  build_control_packet now conn_id flags rx tx = (o, tx') ->
  tx_ok cfg tx' /\
  match o with
  | None => tx' = tx /\ consumes_reliable_seq flags = true /\ reliable_window_full tx = true
  | Some bs =>
      let seq := if consumes_reliable_seq flags then next_seq tx else 0 in
      carries rx (control_packet flags seq) bs
  end.
Proof.
  intros Hf Htx. unfold build_control_packet.
  destruct (consumes_reliable_seq flags) eqn:Ec; simpl.
  - destruct (reliable_window_full tx) eqn:Ew; simpl; [by intros [= <- <-]|].
    assert (Hh : header_ok (control_header conn_id flags (next_seq tx)
                              (next_expected rx) (received_bits rx)))
      by (apply control_header_ok; try done; apply Htx).
    intros [= <- <-]. split.
    + apply tx_ok_push; [done..|]. change (next_seq tx) with
        (hdr_seq (control_header conn_id flags (next_seq tx) (next_expected rx) (received_bits rx))).
      by apply new_entry_ok.
    + exists (control_header conn_id flags (next_seq tx) (next_expected rx) (received_bits rx)), [].
      done.
  - intros [= <- <-]. split; [done|].
    exists (control_header conn_id flags 0 (next_expected rx) (received_bits rx)), [].
    split; [done|]. split; [|done]. apply control_header_ok; auto with rudp.
Qed.

(** [tx_ok] looks at four fields only. *)
Lemma tx_ok_frame tx tx' :
  next_seq tx' = next_seq tx -> remote_ack tx' = remote_ack tx ->
  pending_send tx' = pending_send tx -> inflight tx' = inflight tx ->
  tx_ok cfg tx -> tx_ok cfg tx'.
Proof. intros E1 E2 E3 E4 []. constructor; by rewrite ?E1, ?E2, ?E3, ?E4. Qed.

(** The six control packets [poll] can build, each an empty packet on channel 0. *)
Definition control_flags : list Z :=
  [flag_bits FlagSyn; flag_or FlagSyn FlagAck; flag_bits FlagAck; flag_bits FlagFin;
   flag_bits FlagPong; flag_bits FlagPing].

Definition some_control_packet (tx : TxSessionState) (h : Header) (p : bytes) : Prop :=
  exists flags, flags ∈ control_flags /\
    control_packet flags (if consumes_reliable_seq flags then next_seq tx else 0) h p.

Lemma some_control_carries flags tx bs :
  flags ∈ control_flags ->
  carries rx (control_packet flags (if consumes_reliable_seq flags then next_seq tx else 0)) bs ->
  carries rx (some_control_packet tx) bs.
Proof. intros Hin. apply carries_weaken. intros h p H. by exists flags. Qed.

Lemma plain_control_carries flags tx :
  flags ∈ control_flags -> valid_flags flags -> consumes_reliable_seq flags = false ->
  carries rx (some_control_packet tx)
    (encode (control_header conn_id flags 0 (next_expected rx) (received_bits rx)) []).
Proof.
  intros Hin Hv Hc. eapply some_control_carries; [done|]. rewrite Hc.
  eexists _, []. split; [done|]. split; [apply control_header_ok; auto with rudp|]. done.
Qed.

Ltac in_flags := unfold control_flags; set_solver.

Lemma try_build_handshake_ok role cs tx o cs' tx' :
  tx_ok cfg tx ->
  try_build_handshake cfg now role conn_id cs rx tx = (o, cs', tx') ->
  tx_ok cfg tx' /\
  cs' = (if bool_decide (role = Client) && bool_decide (cs = Closed)
         then HandshakeSent else cs) /\
  match o with
  | None => tx' = tx
  | Some bs => carries rx (some_control_packet tx) bs
  end.
Proof.
  intros Htx. unfold try_build_handshake.
  destruct (bool_decide (role = Client) && bool_decide (cs = Closed)).
  { destruct (build_control_packet _ _ _ _ _) as [o1 tx1] eqn:E. intros [= <- <- <-].
    apply build_control_packet_ok in E as [H1 H2]; auto with rudp.
    split; [done|]. split; [done|]. destruct o1; [|apply H2].
    eapply some_control_carries; [|exact H2]. in_flags. }
  assert (Hstep : forall flags (g : TxSessionState -> TxSessionState),
    flags ∈ control_flags -> valid_flags flags ->
    (forall tx1, tx_ok cfg tx1 -> tx_ok cfg (g tx1)) ->
    (let '(packet, tx1) := build_control_packet now conn_id flags rx tx in
     match packet with
     | Some _ => (packet, cs, g tx1)
     | None => (None, cs, tx1)
     end) = (o, cs', tx') ->
    tx_ok cfg tx' /\ cs' = cs /\
    match o with None => tx' = tx | Some bs => carries rx (some_control_packet tx) bs end).
  { intros flags g Hin Hv Hg.
    destruct (build_control_packet now conn_id flags rx tx) as [o1 tx1] eqn:E.
    apply build_control_packet_ok in E as [H1 H2]; [|done..].
    destruct o1; intros [= <- <- <-]; [|by destruct H2 as [-> _]].
    split; [auto|]. split; [done|]. by eapply some_control_carries. }
  destruct (syn_ack_pending tx && _).
  { apply (Hstep _ (fun tx1 => tx1 <| syn_ack_pending := false |>)); auto with rudp; [in_flags|].
    intros tx1. by apply tx_ok_frame. }
  destruct (final_ack_pending tx && _).
  { apply (Hstep _ (fun tx1 => tx1 <| final_ack_pending := false |>
      <| final_ack_linger_until_ms := u64 (now + handshake_linger_ms cfg) |>));
      auto with rudp; [in_flags|].
    intros tx1. by apply tx_ok_frame. }
  destruct (fin_pending tx && _).
  { apply (Hstep _ (fun tx1 => tx1 <| fin_pending := false |>)); auto with rudp; [in_flags|].
    intros tx1. by apply tx_ok_frame. }
  by intros [= <- <- <-].
Qed.

Lemma try_build_probe_lane_ok tx o tx' :
  tx_ok cfg tx -> try_build_probe_lane conn_id rx tx = (o, tx') ->
  tx_ok cfg tx' /\
  match o with None => tx' = tx | Some bs => carries rx (some_control_packet tx) bs end.
Proof.
  intros Htx. unfold try_build_probe_lane.
  destruct (pong_pending (probe tx)); [|destruct (ping_pending (probe tx)); simpl];
    intros [= <- <-]; try done; (split; [by apply tx_ok_frame with tx|]).
  - apply (plain_control_carries (flag_bits FlagPong)); auto with rudp; in_flags.
  - apply (plain_control_carries (flag_bits FlagPing)); auto with rudp; in_flags.
Qed.

Lemma try_build_ack_only_ok tx o tx' :
  tx_ok cfg tx -> try_build_ack_only conn_id rx tx = (o, tx') ->
  tx_ok cfg tx' /\
  match o with None => tx' = tx | Some bs => carries rx (some_control_packet tx) bs end.
Proof.
  intros Htx. unfold try_build_ack_only.
  destruct (ack_only_pending tx); simpl; intros [= <- <-]; [|done].
  split; [by apply tx_ok_frame with tx|].
  apply (plain_control_carries (flag_bits FlagAck)); auto with rudp; in_flags.
Qed.

(** *** Fresh application data *)

Definition request_packet (req : SendRequest) (seq : Z) (h : Header) (p : bytes) : Prop :=
  h = {| hdr_conn_id := conn_id; hdr_seq := seq; hdr_ack := next_expected rx;
         hdr_ack_bits := received_bits rx; hdr_channel_id := req_channel_id req;
         hdr_channel_type := req_channel_type req; hdr_flags := 0;
         hdr_header_len := kHeaderLength; hdr_reserved := 0 |} /\ p = req_payload req.

Lemma request_packet_ok req seq h p :
  req_ok req -> is_u32 seq -> request_packet req seq h p -> header_ok h.
Proof.
  intros [H1 [H2 H3] H4] Hs [-> ->]. split.
  - constructor; simpl; try done; word_unfold; unfold kHeaderLength; lia.
  - by apply isValidHeader_iff.
Qed.

Lemma try_build_fresh_ok tx o tx' :
  tx_ok cfg tx -> try_build_fresh now conn_id rx tx = (o, tx') ->
  tx_ok cfg tx' /\
  match o with
  | None => tx' = tx
  | Some bs =>
      exists req rest, pending_send tx = req :: rest /\ pending_send tx' = rest /\
        carries rx (request_packet req
          (if isReliableChannel (req_channel_type req) then next_seq tx else 0)) bs
  end.
Proof.
  intros Htx. unfold try_build_fresh, make_packet_from_request.
  destruct (pending_send tx) as [|req rest] eqn:Ep; [by intros [= <- <-]|].
  assert (Hreq : req_ok req /\ Forall req_ok rest).
  { apply Forall_cons. rewrite <- Ep. apply Htx. }
  destruct Hreq as [Hreq Hrest].
  assert (Htx1 : tx_ok cfg (tx <| pending_send := rest |>)) by (destruct Htx; by constructor).
  destruct (isReliableChannel (req_channel_type req)) eqn:Er.
  - change (reliable_window_full (tx <| pending_send := rest |>)) with (reliable_window_full tx).
    destruct (reliable_window_full tx) eqn:Ew; cbn [andb].
    { intros [= <- <-]. split; [|destruct tx; simpl in *; by subst].
      destruct Htx. constructor; simpl; try done. by rewrite <- Ep. }
    intros [= <- <-]. set (h := set hdr_seq _ _). set (tx1 := tx <| pending_send := rest |>) in *.
    assert (Hrp : request_packet req (next_seq tx) h (req_payload req)) by done.
    assert (Hh : header_ok h) by (eapply request_packet_ok; [done| |done]; apply Htx).
    split.
    + refine (proj1 (tx_ok_push tx1 _ Htx1 Ew _)). apply (new_entry_ok h); try done.
      * unfold reliable_header. simpl. by rewrite Er.
      * by destruct Hreq.
    + exists req, rest. split; [done|]. split; [done|].
      exists h, (req_payload req). split; [done|]. split; [exact Hh|]. rewrite Er. done.
  - cbn [andb]. intros [= <- <-]. split; [done|]. exists req, rest.
    split; [done|]. split; [done|]. set (h := set hdr_seq _ _).
    assert (Hrp : request_packet req 0 h (req_payload req)) by done.
    exists h, (req_payload req). split; [done|]. rewrite Er. split; [|done].
    by eapply request_packet_ok; [..|exact Hrp]; auto with rudp.
Qed.

(** *** Retransmission *)

(** Nothing to do for this entry at time [now]. *)
Definition entry_idle (e : TxEntry) : Prop :=
  te_retry_count e < max_retransmit_count cfg /\
  te_fast_retx_pending e = false /\ entry_timed_out cfg now e = false.

Definition resent_datagram (e : TxEntry) : bytes :=
  encode (refresh_acks rx (op_header (te_packet e))) (op_payload (te_packet e)).

(** The scan stops at the lowest-numbered entry that is not idle: it fails there
    when the retry budget is spent and resends it otherwise. *)
Lemma retransmit_loop_cases m r m' :
  retransmit_loop cfg now rx m = (r, m') ->
  (r = empty_poll_result /\ m' = m /\ Forall (fun x => entry_idle (snd x)) m) \/
  (exists m1 k e m2, m = m1 ++ (k, e) :: m2 /\ Forall (fun x => entry_idle (snd x)) m1 /\
     ((max_retransmit_count cfg <= te_retry_count e /\ r = retry_limit_error /\
       m' = m1 ++ m2) \/
      (te_retry_count e < max_retransmit_count cfg /\
       te_fast_retx_pending e || entry_timed_out cfg now e = true /\
       r = make_poll_result (Some (resent_datagram e)) true /\
       m' = m1 ++ (k, resend_entry now rx e) :: m2))).
Proof.
  revert r m'. induction m as [|[k e] m IH]; simpl; intros r m'.
  { intros [= <- <-]. by left. }
  destruct (Z.leb_spec (max_retransmit_count cfg) (te_retry_count e)) as [Hmax|Hmax].
  { intros [= <- <-]. right. exists [], k, e, m. split; [done|]. split; [done|]. by left. }
  destruct (te_fast_retx_pending e) eqn:Ef, (entry_timed_out cfg now e) eqn:Et; simpl.
  4:{ destruct (retransmit_loop cfg now rx m) as [r1 m1] eqn:E. intros [= <- <-].
      assert (entry_idle e) by done.
      destruct (IH _ _ eq_refl) as [(-> & -> & Hf)|(ma & k1 & e1 & mb & -> & Hf & Hc)].
      - left. split; [done|]. split; [done|]. by constructor.
      - right. exists ((k, e) :: ma), k1, e1, mb. split; [done|].
        split; [by constructor|]. destruct Hc as [(? & ? & ->)|(? & ? & ? & ->)]; auto. }
  all: intros [= <- <-]; right; exists [], k, e, m; split; [done|]; split; [done|];
    right; rewrite Ef, Et; done.
Qed.

Lemma resend_entry_ok k e :
  te_retry_count e < max_retransmit_count cfg ->
  entry_ok cfg k e -> entry_ok cfg k (resend_entry now rx e).
Proof.
  intros Hr []. constructor; simpl; try done.
  - by apply header_ok_set_acks.
  - destruct Hcfg. word_unfold. rewrite Z.mod_small; lia.
Qed.

Definition resent_packet (tx : TxSessionState) (h : Header) (p : bytes) : Prop :=
  exists k e, (k, e) ∈ inflight tx /\ h = refresh_acks rx (op_header (te_packet e)) /\
              p = op_payload (te_packet e).

Lemma try_build_retransmit_ok tx r tx' :
  tx_ok cfg tx -> try_build_retransmit cfg now rx tx = (r, tx') ->
  tx_ok cfg tx' /\
  ((r = empty_poll_result /\ tx' = tx) \/ r = retry_limit_error \/
   exists bs, r = make_poll_result (Some bs) true /\ carries rx (resent_packet tx) bs).
Proof.
  intros Htx. unfold try_build_retransmit.
  destruct (retransmit_loop cfg now rx (inflight tx)) as [r1 m] eqn:E. intros [= <- <-].
  destruct Htx. apply retransmit_loop_cases in E
    as [(-> & -> & _)|(m1 & k & e & m2 & Hm & _ & [(_ & -> & ->)|(Hlt & _ & -> & ->)])].
  - split; [by constructor|]. left. split; [done|]. by destruct tx.
  - rewrite Hm in *. apply Forall_app in to_entries0 as [? [? ?]%Forall_cons].
    apply Forall_app in to_window0 as [? [? ?]%Forall_cons].
    split; [|by right; left].
    constructor; simpl; try done; [|by apply Forall_app..].
    by apply smap_sorted_remove with (k, e).
  - rewrite Hm in *. apply Forall_app in to_entries0 as [? [He ?]%Forall_cons].
    apply Forall_app in to_window0 as [? [? ?]%Forall_cons].
    split.
    + constructor; simpl; try done; [by eapply smap_sorted_update| |].
      * apply Forall_app. split; [done|]. constructor; [|done]. by apply resend_entry_ok.
      * apply Forall_app. split; [done|]. by constructor.
    + right; right. eexists. split; [done|].
      exists (refresh_acks rx (op_header (te_packet e))), (op_payload (te_packet e)).
      split; [done|]. split; [by apply header_ok_set_acks; [..|destruct He]|].
      split; [done|]. split; [done|]. exists k, e. split; [|done].
      rewrite Hm. set_solver.
Qed.

(** *** The whole poll *)

(** What a datagram returned by [poll] holds: a copy of an in-flight packet
    (retransmission), one of the six control packets, or the request at the head
    of the queue, numbered [next_seq] when its channel is reliable. *)
Definition polled_packet (tx : TxSessionState) (retx : bool) (h : Header) (p : bytes) : Prop :=
  if retx then resent_packet tx h p
  else some_control_packet tx h p \/
       exists req rest, pending_send tx = req :: rest /\
         request_packet req
           (if isReliableChannel (req_channel_type req) then next_seq tx else 0) h p.

Lemma poll_ok role cs tx r cs' tx' :
  tx_ok cfg tx -> poll cfg now role conn_id cs rx tx = (r, cs', tx') ->
  tx_ok cfg tx' /\
  cs' = (if bool_decide (role = Client) && bool_decide (cs = Closed)
         then HandshakeSent else cs) /\
  (poll_fatal_error r = true -> r = retry_limit_error) /\
  (forall bs, poll_datagram r = Some bs ->
     carries rx (polled_packet tx (poll_retransmission r)) bs).
Proof.
  intros Htx. unfold poll.
  destruct (try_build_handshake _ _ _ _ _ _ _) as [[o1 cs1] tx1] eqn:E1.
  apply try_build_handshake_ok in E1 as (Hok1 & -> & Ho1); [|done].
  destruct o1 as [bs1|]; cbn [has_value].
  { intros [= <- <- <-]. simpl. repeat (split; [done|]). intros bs [= <-].
    revert Ho1. apply carries_weaken. by left. }
  subst tx1. destruct (try_build_retransmit _ _ _ _) as [r2 tx2] eqn:E2.
  apply try_build_retransmit_ok in E2 as [Hok2 Ho2]; [|done].
  destruct Ho2 as [[-> ->]|[-> |(bs2 & -> & Hc2)]]; cbn [poll_fatal_error poll_datagram
    empty_poll_result retry_limit_error make_poll_result orb has_value].
  2:{ by intros [= <- <- <-]. }
  2:{ intros [= <- <- <-]. simpl. repeat (split; [done|]). by intros bs [= <-]. }
  destruct (try_build_probe_lane _ _ _) as [o3 tx3] eqn:E3.
  apply try_build_probe_lane_ok in E3 as [Hok3 Ho3]; [|done].
  destruct o3 as [bs3|]; cbn [has_value].
  { intros [= <- <- <-]. simpl. repeat (split; [done|]). intros bs [= <-].
    revert Ho3. apply carries_weaken. by left. }
  subst tx3. destruct (try_build_ack_only _ _ _) as [o4 tx4] eqn:E4.
  apply try_build_ack_only_ok in E4 as [Hok4 Ho4]; [|done].
  destruct o4 as [bs4|]; cbn [has_value].
  { intros [= <- <- <-]. simpl. repeat (split; [done|]). intros bs [= <-].
    revert Ho4. apply carries_weaken. by left. }
  subst tx4. destruct (try_build_fresh _ _ _ _) as [o5 tx5] eqn:E5.
  apply try_build_fresh_ok in E5 as [Hok5 Ho5]; [|done].
  destruct o5 as [bs5|]; cbn [has_value]; intros [= <- <- <-]; simpl; [|done].
  repeat (split; [done|]). intros bs [= <-].
  destruct Ho5 as (req & rest & Hp & _ & Hc). revert Hc. apply carries_weaken.
  intros h p Hr. right. by exists req, rest.
Qed.
End preservation.

(** ** The in-flight bound *)

Lemma seq_offset_inj_l k k' n :
  is_u32 k -> is_u32 k' -> seq_offset k n = seq_offset k' n -> k = k'.
Proof. unfold seq_offset. intros. word_lia. Qed.

Lemma inflight_length_bound cfg tx : tx_ok cfg tx -> (length (inflight tx) <= 64)%nat.
Proof.
  intros []. rewrite <- (length_map fst), <- (length_map (fun k => seq_offset k (next_seq tx))).
  apply NoDup_window_length with (lo := 1).
  - apply NoDup_fmap_2_strong; [|by apply smap_sorted_NoDup].
    rewrite Forall_forall in to_entries0.
    intros k k' Hk Hk'. apply list_elem_of_fmap in Hk as [x [-> Hx]].
    apply list_elem_of_fmap in Hk' as [x' [-> Hx']].
    destruct (to_entries0 x Hx), (to_entries0 x' Hx'). by apply seq_offset_inj_l.
  - intros x Hx. apply list_elem_of_fmap in Hx as [k [-> Hk]].
    apply list_elem_of_fmap in Hk as [y [-> Hy]].
    rewrite Forall_forall in to_window0. destruct (to_window0 y Hy). lia.
Qed.

(** ** Properties *)

(** C13: every datagram [poll] returns decodes; its Ack and AckBits are the
    receive state's current ones; and it holds either a copy of an in-flight
    packet (marked as a retransmission), or one of the SYN, SYN-ACK, ACK, FIN,
    PONG, PING control packets, or the request at the head of the send queue,
    which takes sequence number [next_seq] when its channel is reliable and 0
    otherwise. A fatal result is always the retry-limit error, and only a client
    in Closed changes its connection state (to HandshakeSent). *)
Theorem poll_emits cfg now conn_id rx role cs tx :
  settings_typed cfg -> is_u64 now -> is_u32 conn_id ->
  is_u32 (next_expected rx) -> is_u64 (received_bits rx) -> tx_ok cfg tx ->
  let '(r, cs', tx') := poll cfg now role conn_id cs rx tx in
  tx_ok cfg tx' /\
  cs' = (if bool_decide (role = Client) && bool_decide (cs = Closed)
         then HandshakeSent else cs) /\
  (poll_fatal_error r = true -> r = retry_limit_error) /\
  (forall bs, poll_datagram r = Some bs -> exists pv,
     decode bs = Some pv /\
     hdr_ack (pv_header pv) = next_expected rx /\
     hdr_ack_bits (pv_header pv) = received_bits rx /\
     polled_packet conn_id rx tx (poll_retransmission r) (pv_header pv) (pv_payload pv)).
Proof.
  intros Hcfg Hnow Hid Ha Hb Htx.
  destruct (poll cfg now role conn_id cs rx tx) as [[r cs'] tx'] eqn:E.
  apply poll_ok in E as (H1 & H2 & H3 & H4); try done.
  split; [done|]. split; [done|]. split; [done|]. intros bs Hbs.
  destruct (carries_decode _ _ _ (H4 bs Hbs)) as (pv & ? & _ & ? & ? & ?). by exists pv.
Qed.

Lemma sample_tx_ok : tx_ok default_transport sample_tx.
Proof.
  assert (He : forall k f, is_u32 k -> valid_flags f ->
            consumes_reliable_seq f = true -> entry_ok default_transport k (sample_entry k f)).
  { intros k f Hk Hf Hc. unfold sample_entry.
    refine (new_entry_ok default_transport default_transport_typed
              (control_header 0 f k 0 0) [] 0 _ _ _ _); auto with rudp.
    apply control_header_ok; auto with rudp. }
  constructor; simpl; try (unfold is_u32; lia); [done|repeat constructor; lia| |].
  - repeat (apply Forall_cons_2; [apply He; [unfold is_u32; simpl; lia| |reflexivity]|]);
      [| | |done]; (split; [unfold is_u8; lia|reflexivity]).
  - repeat (apply Forall_cons_2; [unfold in_window, seq_offset; simpl; vm_compute; auto|]);
      [..|done]; (split; [split; discriminate|reflexivity]).
Qed.

Lemma poll_emits_witness :
  exists bs pv, poll_datagram (fst (fst (poll default_transport 900 Server 5 Established
                                           default_rx sample_tx))) = Some bs /\
    decode bs = Some pv /\ hdr_ack (pv_header pv) = 0.
Proof.
  pose proof (poll_emits default_transport 900 5 default_rx Server Established sample_tx
    default_transport_typed ltac:(unfold is_u64; lia) ltac:(unfold is_u32; lia)
    is_u32_0 is_u64_0 sample_tx_ok) as H.
  destruct (poll_datagram (fst (fst (poll default_transport 900 Server 5 Established
              default_rx sample_tx)))) as [bs|] eqn:E; [|vm_compute in E; discriminate E].
  destruct (poll default_transport 900 Server 5 Established default_rx sample_tx)
    as [[r cs'] tx']. simpl in E. destruct H as (_ & _ & _ & H).
  destruct (H bs E) as (pv & Hd & Ha & _). by exists bs, pv.
Defined.

(** The retransmission scan stops at the lowest-numbered entry that is
    flagged for fast retransmit, has timed out or has spent its retries. If its
    retries are spent the poll fails and that entry alone is dropped; otherwise a
    copy of it with fresh ack fields is sent and only its bookkeeping changes. If
    there is no such entry nothing is sent and nothing changes. No entry is ever
    dropped silently. *)
Theorem try_build_retransmit_spec cfg now rx tx :
  smap_sorted (inflight tx) ->
  let '(r, tx') := try_build_retransmit cfg now rx tx in
  (r = empty_poll_result /\ tx' = tx /\
     forall k e, smap_find k (inflight tx) = Some e -> entry_idle cfg now e) \/
  (exists k e,
     smap_find k (inflight tx) = Some e /\ ~ entry_idle cfg now e /\
     (forall k' e', smap_find k' (inflight tx) = Some e' -> k' < k -> entry_idle cfg now e') /\
     (forall k', k' <> k -> smap_find k' (inflight tx') = smap_find k' (inflight tx)) /\
     ((max_retransmit_count cfg <= te_retry_count e /\ r = retry_limit_error) \/
      (te_retry_count e < max_retransmit_count cfg /\
       r = make_poll_result (Some (resent_datagram rx e)) true /\
       smap_find k (inflight tx') = Some (resend_entry now rx e)))).
Proof.
  intros Hs. unfold try_build_retransmit.
  destruct (retransmit_loop cfg now rx (inflight tx)) as [r m] eqn:E.
  apply retransmit_loop_cases in E as [(-> & -> & Hf)|(m1 & k & e & m2 & Hm & Hf & Hc)].
  - left. split; [done|]. split; [by destruct tx|]. intros k e Hk.
    rewrite Forall_forall in Hf. apply (Hf (k, e)). by apply smap_find_Some_in.
  - right. exists k, e. rewrite Hm in *. cbn [inflight set set_inflight].
    split; [by apply smap_find_middle|]. split; [|split; [|split]].
    + unfold entry_idle. intros (? & Hfast & Htime).
      destruct Hc as [(? & _ & _)|(_ & Hdue & _ & _)]; [lia|]. by rewrite Hfast, Htime in Hdue.
    + intros k' e' Hk' Hlt. rewrite Forall_forall in Hf. apply (Hf (k', e')).
      eapply smap_find_prefix; done.
    + intros k' Hne. destruct Hc as [(_ & _ & ->)|(_ & _ & _ & ->)].
      * by apply smap_find_remove.
      * by apply smap_find_update.
    + destruct Hc as [(? & -> & _)|(? & _ & -> & ->)]; [by left|right].
      split; [done|]. split; [done|]. by eapply smap_find_middle, smap_sorted_update.
Qed.

Lemma try_build_retransmit_spec_witness :
  exists k e, smap_find k (inflight sample_tx) = Some e /\ ~ entry_idle default_transport 900 e.
Proof.
  pose proof (try_build_retransmit_spec default_transport 900 default_rx sample_tx) as H.
  destruct (try_build_retransmit default_transport 900 default_rx sample_tx) as [r tx'] eqn:E.
  destruct H as [(-> & _)|(k & e & Hk & Hi & _)]; [repeat constructor; lia| |].
  - vm_compute in E. discriminate E.
  - by exists k, e.
Defined.
