(* ===== verification/TxLiveness.v ===== *)
(** Backoff, and what a poll does first: the retransmission of the lowest-numbered
    packet in flight, or giving up on it; and the progress of the send queue. *)

From S2P Require Import Prelude StdMap Protocol Utils Codec Config SessionTypes TxHandler.
From S2P Require Import TxInvariant.

(** ** Backoff *)

Lemma retransmit_timeout_le_max cfg r :
  retransmit_timeout_for cfg r <= max_rto_ms cfg.
Proof. unfold retransmit_timeout_for. lia. Qed.

Lemma retransmit_timeout_nonneg cfg r :
  settings_typed cfg -> 0 <= retransmit_timeout_for cfg r.
Proof.
  intros []. unfold retransmit_timeout_for.
  pose proof (u64_range (Z.shiftl (initial_rto_ms cfg) (Z.min r 4))). word_unfold. lia.
Qed.

(** The timeout doubles with every retry up to the fourth, is capped by
    [max_rto_ms], never decreases with the retry count, and never wraps as long
    as sixteen times the initial timeout fits 64 bits. *)
Theorem retransmit_backoff cfg :
  0 <= initial_rto_ms cfg -> initial_rto_ms cfg * 16 < 2 ^ 64 ->
  (forall r, 0 <= r ->
     retransmit_timeout_for cfg r =
     Z.min (initial_rto_ms cfg * 2 ^ Z.min r 4) (max_rto_ms cfg)) /\
  (forall r r', 0 <= r <= r' ->
     retransmit_timeout_for cfg r <= retransmit_timeout_for cfg r' <= max_rto_ms cfg).
Proof.
  intros H0 H16.
  assert (Heq : forall r, 0 <= r -> retransmit_timeout_for cfg r =
     Z.min (initial_rto_ms cfg * 2 ^ Z.min r 4) (max_rto_ms cfg)).
  { intros r Hr. unfold retransmit_timeout_for. rewrite Z.shiftl_mul_pow2 by lia.
    assert (0 < 2 ^ Z.min r 4 <= 2 ^ 4)
      by (split; [apply Z.pow_pos_nonneg; lia|apply Z.pow_le_mono_r; lia]).
    rewrite u64_id; [done|]. unfold is_u64. change (2 ^ 4) with 16 in *. nia. }
  split; [done|]. intros r r' Hr. rewrite !Heq by lia. split; [|lia].
  assert (2 ^ Z.min r 4 <= 2 ^ Z.min r' 4) by (apply Z.pow_le_mono_r; lia). nia.
Qed.

Lemma retransmit_backoff_witness :
  map (retransmit_timeout_for default_transport) [0; 1; 2; 3; 4; 5] =
    [250; 500; 1000; 2000; 4000; 4000] /\
  retransmit_timeout_for default_transport 1 <= retransmit_timeout_for default_transport 3.
Proof.
  split; [reflexivity|]. apply (retransmit_backoff default_transport); simpl; lia.
Defined.

(** ** The packet that is not acknowledged *)

(** No handshake or close packet is waiting. *)
Definition handshake_idle (role : SessionRole) (cs : ConnectionState) (tx : TxSessionState)
    : bool :=
  negb (bool_decide (role = Client) && bool_decide (cs = Closed)) &&
  negb (syn_ack_pending tx && bool_decide (cs = HandshakeReceived)) &&
  negb (final_ack_pending tx && bool_decide (cs = Established)) &&
  negb (fin_pending tx && bool_decide (cs = Closing)).

Lemma handshake_idle_none cfg now role conn_id cs rx tx :
  handshake_idle role cs tx = true ->
  try_build_handshake cfg now role conn_id cs rx tx = (None, cs, tx).
Proof.
  unfold handshake_idle, try_build_handshake. rewrite !andb_true_iff, !negb_true_iff.
  intros [[[-> ->] ->] ->]. done.
Qed.

(** One poll while the lowest entry is overdue or has spent its budget. *)
Lemma poll_first_entry cfg now role conn_id cs rx tx k e m :
  handshake_idle role cs tx = true -> inflight tx = (k, e) :: m ->
  (te_retry_count e < max_retransmit_count cfg -> entry_timed_out cfg now e = true) ->
  poll cfg now role conn_id cs rx tx =
  if max_retransmit_count cfg <=? te_retry_count e
  then (retry_limit_error, cs, tx <| inflight := m |>)
  else (make_poll_result (Some (resent_datagram rx e)) true, cs,
        tx <| inflight := (k, resend_entry now rx e) :: m |>).
Proof.
  intros Hi Hm Hdue. unfold poll. rewrite handshake_idle_none by done. cbn [has_value].
  unfold try_build_retransmit. rewrite Hm. simpl.
  destruct (Z.leb_spec (max_retransmit_count cfg) (te_retry_count e)); [done|].
  rewrite Hdue, andb_false_r by done. done.
Qed.

(** Resending does not change what is resent. *)
Lemma resent_again rx t e : resent_datagram rx (resend_entry t rx e) = resent_datagram rx e.
Proof. by destruct e as [[[] ?] ? ? ? ? ?]. Qed.

(** ** Progress of the send queue *)

(** Nothing has priority over fresh data at time [now]. *)
Record quiet (cfg : TransportSettings) (now : Z) (role : SessionRole) (cs : ConnectionState)
    (tx : TxSessionState) : Prop := mk_quiet {
  qu_syn : ~ (role = Client /\ cs = Closed);
  qu_syn_ack : ~ (syn_ack_pending tx = true /\ cs = HandshakeReceived);
  qu_final_ack : ~ (final_ack_pending tx = true /\ cs = Established);
  qu_fin : ~ (fin_pending tx = true /\ cs = Closing);
  qu_idle : Forall (fun x => entry_idle cfg now (snd x)) (inflight tx);
  qu_ping : ping_pending (probe tx) = false;
  qu_pong : pong_pending (probe tx) = false;
  qu_ack : ack_only_pending tx = false
}.

Lemma andb_decide_false (b : bool) (P : Prop) `{Decision P} :
  ~ (b = true /\ P) -> b && bool_decide P = false.
Proof. intros Hn. destruct b; [|done]. apply bool_decide_eq_false_2. tauto. Qed.

Lemma retransmit_loop_idle cfg now rx m :
  Forall (fun x => entry_idle cfg now (snd x)) m ->
  retransmit_loop cfg now rx m = (empty_poll_result, m).
Proof.
  induction 1 as [|[k e] m (Hr & Hf & Ht) Hm IH]; [done|]. cbn [snd] in *. simpl.
  rewrite (proj2 (Z.leb_gt _ _)), Hf, Ht by done. simpl. by rewrite IH.
Qed.

(** Under [quiet] the poll is the fresh-data step. *)
Lemma poll_quiet cfg now role conn_id cs rx tx :
  quiet cfg now role cs tx ->
  poll cfg now role conn_id cs rx tx =
  let '(bs, tx') := try_build_fresh now conn_id rx tx in
  (if has_value bs then make_poll_result bs false else empty_poll_result, cs, tx').
Proof.
  intros [Q1 Q2 Q3 Q4 Q5 Q6 Q7 Q8]. unfold poll, try_build_handshake.
  rewrite <- bool_decide_and, bool_decide_eq_false_2, !andb_decide_false by done. cbn [has_value].
  unfold try_build_retransmit. rewrite retransmit_loop_idle by done.
  replace (tx <| inflight := inflight tx |>) with tx by by destruct tx.
  cbn [poll_fatal_error empty_poll_result poll_datagram has_value orb].
  unfold try_build_probe_lane. rewrite Q7, Q6. cbn [negb has_value].
  unfold try_build_ack_only. rewrite Q8. cbn [negb has_value].
  destruct (try_build_fresh now conn_id rx tx) as [[bs|] tx']; done.
Qed.

Lemma next_seq_fresh cfg tx : tx_ok cfg tx -> smap_find (next_seq tx) (inflight tx) = None.
Proof.
  intros Htx. apply smap_find_None. intros Hin. apply list_elem_of_fmap in Hin as [x [Hx Hin]].
  pose proof (to_window _ _ Htx) as Hw. rewrite Forall_forall in Hw.
  apply Hw in Hin. by apply in_window_not_next in Hin.
Qed.

(** The send queue advances. When no handshake packet, retransmission,
    probe or ACK is due, a poll sends the request at the head of the queue with
    its channel and payload, removes it from the queue, and, when the channel is
    reliable, gives it the next sequence number and keeps it in flight; only when
    the channel is reliable and the window of 64 is full does it send nothing,
    and then the queue and everything else stay as they are. *)
Theorem poll_sends_next_request cfg now role conn_id cs rx tx req rest :
  settings_typed cfg -> is_u64 now -> is_u32 conn_id ->
  is_u32 (next_expected rx) -> is_u64 (received_bits rx) -> tx_ok cfg tx ->
  quiet cfg now role cs tx -> pending_send tx = req :: rest ->
  let reliable := isReliableChannel (req_channel_type req) in
  let '(r, cs', tx') := poll cfg now role conn_id cs rx tx in
  if reliable && reliable_window_full tx then r = empty_poll_result /\ cs' = cs /\ tx' = tx
  else
    exists bs pv, poll_datagram r = Some bs /\ decode bs = Some pv /\
      pv_payload pv = req_payload req /\
      hdr_channel_id (pv_header pv) = req_channel_id req /\
      hdr_channel_type (pv_header pv) = req_channel_type req /\
      hdr_seq (pv_header pv) = (if reliable then next_seq tx else 0) /\
      pending_send tx' = rest /\
      (reliable = true -> next_seq tx' = u32 (next_seq tx + 1) /\
         exists e, smap_find (next_seq tx) (inflight tx') = Some e /\
           te_packet e = {| op_header := pv_header pv; op_payload := pv_payload pv |}) /\
      (reliable = false -> next_seq tx' = next_seq tx /\ inflight tx' = inflight tx).
Proof.
  intros Hcfg Hnow Hid Ha Hb Htx Hq Hp. cbn zeta. rewrite poll_quiet by done.
  destruct (try_build_fresh now conn_id rx tx) as [o tx'] eqn:E.
  pose proof (try_build_fresh_ok cfg Hcfg now conn_id rx Hnow Hid Ha Hb tx o tx' Htx E) as [_ Ho].
  unfold try_build_fresh in E. rewrite Hp in E.
  change (reliable_window_full (tx <| pending_send := rest |>)) with (reliable_window_full tx) in E.
  destruct (isReliableChannel (req_channel_type req)) eqn:Er; cbn [andb] in E |- *.
  - destruct (reliable_window_full tx) eqn:Ew.
    { injection E as <- <-. split; [done|]. split; [done|]. exact Ho. }
    injection E as <- <-. destruct Ho as (req' & rest' & Hp' & _ & Hc).
    rewrite Hp in Hp'. injection Hp' as <- <-.
    apply carries_decode in Hc as (pv & Hd & _ & _ & _ & [Hh Hpl]). rewrite Er in Hh.
    eexists _, pv. split; [reflexivity|]. split; [exact Hd|]. rewrite Hh, Hpl.
    do 5 (split; [done|]). split; [|done]. intros _. split; [done|].
    eexists. split; [cbn|]; [rewrite smap_emplace_fresh by (by eapply next_seq_fresh);
      rewrite smap_find_assign, Z.eqb_refl by apply Htx; reflexivity|reflexivity].
  - injection E as <- <-. destruct Ho as (req' & rest' & Hp' & _ & Hc).
    rewrite Hp in Hp'. injection Hp' as <- <-.
    apply carries_decode in Hc as (pv & Hd & _ & _ & _ & [Hh Hpl]). rewrite Er in Hh.
    eexists _, pv. split; [reflexivity|]. split; [exact Hd|]. rewrite Hh, Hpl.
    do 5 (split; [done|]). split; [done|]. intros _. done.
Qed.

Lemma poll_sends_next_request_witness :
  let tx := sample_tx <| pending_send := [mkSendRequest 4 ReliableOrdered [9]] |> in
  exists bs pv, poll_datagram (fst (fst (poll default_transport 10 Server 5 Established
                                           default_rx tx))) = Some bs /\
    decode bs = Some pv /\ hdr_seq (pv_header pv) = 103.
Proof.
  intros tx. pose proof (poll_sends_next_request default_transport 10 Server 5 Established default_rx
    tx (mkSendRequest 4 ReliableOrdered [9]) [] default_transport_typed
    ltac:(unfold is_u64; lia) ltac:(unfold is_u32; lia) is_u32_0 is_u64_0) as H.
  cbn zeta in H. destruct (poll default_transport 10 Server 5 Established default_rx tx)
    as [[r cs'] tx'].
  destruct H as (bs & pv & Hb & Hd & _ & _ & _ & Hs & _).
  - pose proof sample_tx_ok as [H1 H2 H3 H4 H5 H6]. constructor; try done.
    apply Forall_cons_2; [|constructor]. constructor; simpl;
      [unfold is_u32; lia|split; [simpl; lia|exact I]|repeat constructor; lia].
  - constructor; try (intros [Hx Hy]; discriminate); try reflexivity.
    repeat (apply Forall_cons_2; [split; [reflexivity|split; reflexivity]|]). constructor.
  - reflexivity.
  - exists bs, pv. split; [exact Hb|]. split; [exact Hd|exact Hs].
Defined.
