(* ===== verification/RxHandler.v ===== *)
(** The receive side of a connection ([src/RxHandler.cpp]): acknowledgement
    bookkeeping ([next_expected], [received_bits]) and channel delivery.

    The two loops of the file are [iter_while]s: the window advance shifts a
    64-bit bitmap (at most 64 iterations) and the ordered drain removes a buffered
    packet per iteration (at most the size of the buffer). *)

From S2P Require Import Prelude StdMap Protocol Utils Codec SessionTypes.
From S2P Require Import ConnectionStateMachine.

(** ** File-local helpers *)

Definition make_owned_packet (packet : PacketView) : OwnedPacket :=
  {| op_header := pv_header packet; op_payload := pv_payload packet |}.

Definition make_data_event (packet : PacketView) : SessionEvent :=
  {| ev_type := DataReceived; ev_seq := hdr_seq (pv_header packet);
     ev_channel_id := hdr_channel_id (pv_header packet);
     ev_channel_type := hdr_channel_type (pv_header packet);
     ev_payload := pv_payload packet; ev_error_message := "" |}.

Definition is_control_only (control_kind : ControlKind) : bool :=
  negb (bool_decide (control_kind = KindNone)).

Definition ensure_ordered_delivery_started (seq : Z) (rx : RxSessionState) : RxSessionState :=
  if negb (ordered_delivery_started rx)
  then rx <| next_ordered_delivery := seq |> <| ordered_delivery_started := true |>
  else rx.

(** [while ((rx.received_bits & 1) != 0) { ++rx.next_expected; rx.received_bits >>= 1; }] *)
Definition advance_loop (rx : RxSessionState) : RxSessionState :=
  iter_while (fun rx => negb (Z.land (received_bits rx) 1 =? 0))
    (fun rx => rx <| next_expected ::= fun n => u32 (n + 1) |>
                  <| received_bits ::= fun b => Z.shiftr b 1 |>)
    64 rx.

Definition advance_receive_window (rx : RxSessionState) : RxSessionState :=
  advance_loop (rx <| next_expected ::= fun n => u32 (n + 1) |>).

(** The event for a packet leaving the reorder buffer. *)
Definition owned_event (p : OwnedPacket) : SessionEvent :=
  {| ev_type := DataReceived; ev_seq := hdr_seq (op_header p);
     ev_channel_id := hdr_channel_id (op_header p);
     ev_channel_type := hdr_channel_type (op_header p);
     ev_payload := op_payload p; ev_error_message := "" |}.

Definition drain_guard (rx : RxSessionState) : bool :=
  match smap_find (next_ordered_delivery rx) (ordered_reorder_buffer rx) with
  | Some _ => true
  | None => false
  end.

Definition drain_body (rx : RxSessionState) : RxSessionState :=
  match smap_find (next_ordered_delivery rx) (ordered_reorder_buffer rx) with
  | Some p =>
      rx <| pending_events ::= fun evs => evs ++ [owned_event p] |>
         <| ordered_reorder_buffer ::= smap_erase (next_ordered_delivery rx) |>
         <| next_ordered_delivery ::= fun n => u32 (n + 1) |>
  | None => rx
  end.

Definition drain_contiguous_ordered (rx : RxSessionState) : RxSessionState :=
  if negb (ordered_delivery_started rx) then rx
  else iter_while drain_guard drain_body (length (ordered_reorder_buffer rx)) rx.

(** ** Operations *)

(** Returns [should_process_payload], [result.schedule_ack_only] and the state. *)
Definition update_reliable_receive_state (packet : PacketView) (control_kind : ControlKind)
    (rx : RxSessionState) : bool * bool * RxSessionState :=
  let header := pv_header packet in
  if negb (isReliableChannel (hdr_channel_type header)) &&
     negb (bool_decide (control_kind = KindSyn)) &&
     negb (bool_decide (control_kind = KindSynAck)) &&
     negb (bool_decide (control_kind = KindAck)) &&
     negb (bool_decide (control_kind = KindFin))
  then (true, false, rx)
  else
    let schedule_ack_only :=
      isReliableChannel (hdr_channel_type header) || bool_decide (control_kind = KindFin) in
    let rx :=
      if next_expected rx =? 0 then rx <| next_expected := hdr_seq header |> else rx in
    if hdr_seq header =? next_expected rx then
      (true, schedule_ack_only, advance_receive_window rx)
    else if seq_gt (hdr_seq header) (next_expected rx) then
      let delta := u32 (hdr_seq header - next_expected rx) in
      if delta <=? kAckBitsWindow then
        let bit := u64 (Z.shiftl 1 (u32 (delta - 1))) in
        let already_received := negb (Z.land (received_bits rx) bit =? 0) in
        (negb already_received, schedule_ack_only,
         rx <| received_bits ::= fun b => Z.lor b bit |>)
      else (false, schedule_ack_only, rx)
    else (false, schedule_ack_only, rx).

Definition handle_reliable_ordered (packet : PacketView) (rx : RxSessionState) : RxSessionState :=
  let seq := hdr_seq (pv_header packet) in
  let rx := ensure_ordered_delivery_started seq rx in
  let rx := rx <| ordered_reorder_buffer ::= smap_assign seq (make_owned_packet packet) |> in
  drain_contiguous_ordered rx.

Definition handle_reliable_unordered (packet : PacketView) (rx : RxSessionState)
    : RxSessionState :=
  rx <| pending_events ::= fun evs => evs ++ [make_data_event packet] |>.

Definition handle_unreliable (packet : PacketView) (rx : RxSessionState) : RxSessionState :=
  rx <| pending_events ::= fun evs => evs ++ [make_data_event packet] |>.

Definition payload_version (payload : bytes) : Z :=
  Z.lor (Z.lor (Z.lor (u32 (Z.shiftl (byte_at payload 0) 24))
                      (u32 (Z.shiftl (byte_at payload 1) 16)))
               (u32 (Z.shiftl (byte_at payload 2) 8)))
        (byte_at payload 3).

Definition handle_monotonic_state (packet : PacketView) (rx : RxSessionState) : RxSessionState :=
  if (length (pv_payload packet) <? 4)%nat then rx
  else
    let version := payload_version (pv_payload packet) in
    let channel := hdr_channel_id (pv_header packet) in
    let deliver :=
      rx <| monotonic_versions ::= fun m => <[channel := version]> m |>
         <| pending_events ::= fun evs => evs ++ [make_data_event packet] |> in
    match monotonic_versions rx !! channel with
    | Some current => if s32 (version - current) <=? 0 then rx else deliver
    | None => deliver
    end.

(** The boolean is [RxPacketResult::schedule_ack_only]; the unused [now_ms] of the
    source is dropped. *)
Definition on_packet (packet : PacketView) (control_kind : ControlKind) (rx : RxSessionState)
    : bool * RxSessionState :=
  let '(should_process_payload, schedule_ack_only, rx) :=
    update_reliable_receive_state packet control_kind rx in
  if is_control_only control_kind || negb should_process_payload then (schedule_ack_only, rx)
  else
    (schedule_ack_only,
     match hdr_channel_type (pv_header packet) with
     | ReliableOrdered => handle_reliable_ordered packet rx
     | ReliableUnordered => handle_reliable_unordered packet rx
     | Unreliable => handle_unreliable packet rx
     | MonotonicState => handle_monotonic_state packet rx
     | UnnamedChannel _ => rx
     end).

Definition drain_events (rx : RxSessionState) : list SessionEvent * RxSessionState :=
  (pending_events rx, rx <| pending_events := [] |>).

(** ** The window advance *)

Lemma odd_testbit b : negb (Z.land b 1 =? 0) = Z.testbit b 0.
Proof. apply (land_bit_nonzero b 0). lia. Qed.

Lemma advance_run (n : nat) rx :
  is_u32 (next_expected rx) -> 0 <= received_bits rx < 2 ^ Z.of_nat n ->
  exists t, 0 <= t <= Z.of_nat n /\
    (forall i, 0 <= i < t -> Z.testbit (received_bits rx) i = true) /\
    Z.testbit (received_bits rx) t = false /\
    iter_while (fun rx => negb (Z.land (received_bits rx) 1 =? 0))
      (fun rx => rx <| next_expected ::= fun n => u32 (n + 1) |>
                    <| received_bits ::= fun b => Z.shiftr b 1 |>) n rx =
    rx <| next_expected ::= fun m => u32 (m + t) |>
       <| received_bits ::= fun b => Z.shiftr b t |>.
Proof.
  revert rx. induction n as [|n IH]; intros rx Hn Hb.
  - exists 0. assert (received_bits rx = 0) as E by (rewrite Z.pow_0_r in Hb; lia).
    rewrite E. split; [lia|]. split; [lia|]. split; [done|]. simpl.
    destruct rx; simpl in *. unfold set, set_next_expected, set_received_bits; simpl.
    by rewrite Z.add_0_r, u32_id, Z.shiftr_0_r.
  - cbn [iter_while]. rewrite odd_testbit. destruct (Z.testbit (received_bits rx) 0) eqn:E0.
    + set (rx1 := rx <| next_expected ::= _ |> <| received_bits ::= _ |>).
      destruct (IH rx1) as (t & Ht & Hones & Hz & Heq).
      { apply u32_range. }
      { subst rx1. simpl. rewrite Nat2Z.inj_succ, Z.pow_succ_r in Hb by lia.
        rewrite Z.shiftr_div_pow2 by lia. change (2 ^ 1) with 2.
        split; [apply Z.div_pos; lia|apply Z.div_lt_upper_bound; lia]. }
      exists (t + 1). split; [lia|]. split; [|split].
      * intros i Hi. destruct (Z.eq_dec i 0) as [->|Hne]; [done|].
        replace i with (i - 1 + 1) by lia. rewrite <- Z.shiftr_spec by lia. apply Hones. lia.
      * rewrite <- Z.shiftr_spec by lia. exact Hz.
      * rewrite Heq. subst rx1. destruct rx; simpl. unfold set, set_next_expected, set_received_bits.
        simpl. rewrite u32_add_l, Z.shiftr_shiftr by lia.
        f_equal; f_equal; lia.
    + exists 0. split; [lia|]. split; [lia|]. split; [done|].
      destruct rx; simpl in *. unfold set, set_next_expected, set_received_bits; simpl.
      by rewrite Z.add_0_r, u32_id, Z.shiftr_0_r.
Qed.

(** [advance_receive_window] moves the front past the [t] numbers whose bits are
    set below the lowest clear bit, and one more; it shifts the bitmap by [t]. *)
Lemma advance_receive_window_run rx :
  is_u64 (received_bits rx) ->
  exists t, 0 <= t <= 64 /\
    (forall i, 0 <= i < t -> Z.testbit (received_bits rx) i = true) /\
    Z.testbit (received_bits rx) t = false /\
    advance_receive_window rx =
    rx <| next_expected ::= fun m => u32 (m + 1 + t) |>
       <| received_bits ::= fun b => Z.shiftr b t |>.
Proof.
  intros Hb. unfold advance_receive_window, advance_loop.
  destruct (advance_run 64 (rx <| next_expected ::= fun n => u32 (n + 1) |>))
    as (t & Ht & H1 & H2 & H3); [apply u32_range|done|].
  exists t. split; [done|]. split; [done|]. split; [done|]. rewrite H3.
  destruct rx; unfold set, set_next_expected, set_received_bits; simpl.
  by rewrite u32_add_l.
Qed.

(** The advance loop ends through its guard. *)
Lemma advance_loop_exit rx :
  is_u64 (received_bits rx) ->
  Z.testbit (received_bits (advance_receive_window rx)) 0 = false.
Proof.
  intros Hb. destruct (advance_receive_window_run rx Hb) as (t & Ht & _ & Hz & ->).
  change (Z.testbit (Z.shiftr (received_bits rx) t) 0 = false). by rewrite Z.shiftr_spec.
Qed.

(** ** The ordered drain *)

(** [ordered_run buf n evs]: [evs] are the events of the buffered packets
    [n], [n + 1], ... up to the first number missing from [buf]. *)
Inductive ordered_run : list (Z * OwnedPacket) -> Z -> list SessionEvent ->
    list (Z * OwnedPacket) -> Z -> Prop :=
| run_stop buf n :
    smap_find n buf = None -> ordered_run buf n [] buf n
| run_step buf n p evs buf' n' :
    smap_find n buf = Some p ->
    ordered_run (smap_erase n buf) (u32 (n + 1)) evs buf' n' ->
    ordered_run buf n (owned_event p :: evs) buf' n'.

Lemma drain_run rx :
  exists evs buf' n',
    ordered_run (ordered_reorder_buffer rx) (next_ordered_delivery rx) evs buf' n' /\
    iter_while drain_guard drain_body (length (ordered_reorder_buffer rx)) rx =
    rx <| pending_events ::= fun l => l ++ evs |>
       <| ordered_reorder_buffer := buf' |> <| next_ordered_delivery := n' |>.
Proof.
  remember (length (ordered_reorder_buffer rx)) as n eqn:Hn. revert rx Hn.
  induction n as [|n IH]; intros rx Hn.
  - destruct rx as [ne rb [|] no od mv pe]; [|discriminate Hn]. exists [], [], no.
    split; [by constructor|]. unfold set, set_pending_events; simpl. by rewrite app_nil_r.
  - cbn [iter_while]. unfold drain_guard at 1.
    destruct (smap_find (next_ordered_delivery rx) (ordered_reorder_buffer rx)) as [p|] eqn:E.
    + assert (Hb : drain_body rx =
        rx <| pending_events ::= fun evs => evs ++ [owned_event p] |>
           <| ordered_reorder_buffer ::= smap_erase (next_ordered_delivery rx) |>
           <| next_ordered_delivery ::= fun n => u32 (n + 1) |>)
        by (unfold drain_body; by rewrite E).
      rewrite Hb. set (rx1 := set next_ordered_delivery _ _).
      destruct (IH rx1) as (evs & buf' & n' & Hrun & Heq).
      { apply smap_erase_length in E. simpl. lia. }
      exists (owned_event p :: evs), buf', n'. split; [by econstructor|].
      rewrite Heq. subst rx1. unfold set, set_pending_events; simpl. by rewrite <- app_assoc.
    + exists [], (ordered_reorder_buffer rx), (next_ordered_delivery rx).
      split; [by constructor|]. unfold set, set_pending_events; simpl.
      rewrite app_nil_r. by destruct rx.
Qed.

Lemma drain_contiguous_ordered_run rx :
  ordered_delivery_started rx = true ->
  exists evs buf' n',
    ordered_run (ordered_reorder_buffer rx) (next_ordered_delivery rx) evs buf' n' /\
    drain_contiguous_ordered rx =
    rx <| pending_events ::= fun l => l ++ evs |>
       <| ordered_reorder_buffer := buf' |> <| next_ordered_delivery := n' |>.
Proof. intros H. unfold drain_contiguous_ordered. rewrite H. apply drain_run. Qed.

Lemma ordered_run_facts buf n evs buf' n' :
  ordered_run buf n evs buf' n' -> smap_sorted buf -> is_u32 n ->
  smap_sorted buf' /\ is_u32 n' /\ smap_find n' buf' = None /\
  (forall x, x ∈ buf' -> x ∈ buf) /\
  n' = u32 (n + Z.of_nat (length evs)) /\
  (forall k, smap_find k buf' = None \/ smap_find k buf' = smap_find k buf).
Proof.
  induction 1 as [buf n Hn|buf n p evs buf' n' Hf Hr IH]; intros Hs Hu.
  - rewrite Z.add_0_r, u32_id by done. auto 10.
  - destruct IH as (H1 & H2 & H3 & H4 & H5 & H6); [auto with rudp|apply u32_range|].
    split; [done|]. split; [done|]. split; [done|]. split; [|split].
    + intros x Hx. eapply smap_erase_elem, H4, Hx.
    + rewrite H5, u32_add_l. f_equal. simpl length. lia.
    + intros k. destruct (H6 k) as [|Hk]; [by left|].
      rewrite smap_find_erase in Hk by done. case_match; auto.
Qed.
