(* ===== verification/RxInvariant.v ===== *)
(** The invariant of the receive side and the delivery guarantees. *)

From S2P Require Import Prelude StdMap Protocol Utils Codec SessionTypes.
From S2P Require Import ConnectionStateMachine RxHandler.

(** A packet as [decode] produces it from a buffer of bytes. *)
Definition packet_ok (pv : PacketView) : Prop :=
  header_typed (pv_header pv) /\ Forall is_u8 (pv_payload pv).

Definition buffered_ok (x : Z * OwnedPacket) : Prop :=
  is_u32 (fst x) /\ hdr_seq (op_header (snd x)) = fst x /\
  hdr_channel_type (op_header (snd x)) = ReliableOrdered.

Record rx_ok (rx : RxSessionState) : Prop := mk_rx_ok {
  ro_next : is_u32 (next_expected rx);
  ro_bits : is_u64 (received_bits rx);
  ro_sorted : smap_sorted (ordered_reorder_buffer rx);
  ro_buffer : Forall buffered_ok (ordered_reorder_buffer rx);
  ro_ordered : is_u32 (next_ordered_delivery rx);
  ro_eager : smap_find (next_ordered_delivery rx) (ordered_reorder_buffer rx) = None;
  ro_versions : map_Forall (fun _ v => is_u32 v) (monotonic_versions rx)
}.

Lemma default_rx_ok : rx_ok default_rx.
Proof.
  constructor; simpl; auto with rudp;
    [apply SSorted_nil|apply map_Forall_empty].
Qed.

(** ** Acknowledgement bookkeeping *)

(** The packets that take part in it. *)
Definition tracked (packet : PacketView) (kind : ControlKind) : bool :=
  isReliableChannel (hdr_channel_type (pv_header packet)) ||
  bool_decide (kind = KindSyn) || bool_decide (kind = KindSynAck) ||
  bool_decide (kind = KindAck) || bool_decide (kind = KindFin).

(** The front the packet is compared with: an expected number of 0 means that
    nothing has been received yet and adopts the packet's. *)
Definition rx_front (packet : PacketView) (rx : RxSessionState) : Z :=
  if next_expected rx =? 0 then hdr_seq (pv_header packet) else next_expected rx.

Lemma update_untracked packet kind rx :
  tracked packet kind = false ->
  update_reliable_receive_state packet kind rx = (true, false, rx).
Proof.
  unfold tracked, update_reliable_receive_state. rewrite !orb_false_iff.
  by intros [[[[-> ->] ->] ->] ->].
Qed.

Lemma bit_range d : 1 <= d <= 64 -> is_u64 (Z.shiftl 1 (d - 1)).
Proof.
  intros Hd. rewrite Z.shiftl_1_l. split; [apply Z.pow_nonneg; lia|].
  apply Z.pow_lt_mono_r; lia.
Qed.

Lemma update_tracked packet kind rx :
  tracked packet kind = true -> is_u32 (hdr_seq (pv_header packet)) ->
  is_u32 (next_expected rx) ->
  let front := rx_front packet rx in
  let off := seq_offset front (hdr_seq (pv_header packet)) in
  update_reliable_receive_state packet kind rx =
  (if off =? 0 then true
   else if off <=? 64 then negb (Z.testbit (received_bits rx) (off - 1)) else false,
   isReliableChannel (hdr_channel_type (pv_header packet)) || bool_decide (kind = KindFin),
   if off =? 0 then advance_receive_window (rx <| next_expected := front |>)
   else if off <=? 64
        then rx <| next_expected := front |>
                <| received_bits ::= fun b => Z.lor b (2 ^ (off - 1)) |>
        else rx <| next_expected := front |>).
Proof.
  intros Ht Hs Hn front off.
  assert (Hf : is_u32 front) by (subst front; unfold rx_front; by case_match).
  unfold update_reliable_receive_state.
  assert (Hguard : forall (a b c d e : bool), a || b || c || d || e = true ->
    negb a && negb b && negb c && negb d && negb e = false)
    by (intros [] [] [] [] []; done).
  rewrite Hguard by exact Ht.
  assert (Hrx : (if next_expected rx =? 0 then rx <| next_expected := hdr_seq (pv_header packet) |>
                 else rx) = rx <| next_expected := front |>).
  { subst front. unfold rx_front. case_match; [done|by destruct rx]. }
  rewrite Hrx. cbn [next_expected set set_next_expected].
  assert (Heq : (hdr_seq (pv_header packet) =? front) = (off =? 0)).
  { pose proof (seq_offset_0 front (hdr_seq (pv_header packet)) Hf Hs). subst off.
    destruct (Z.eqb_spec (hdr_seq (pv_header packet)) front),
      (Z.eqb_spec (seq_offset front (hdr_seq (pv_header packet))) 0); tauto. }
  rewrite Heq. destruct (Z.eqb_spec off 0) as [|Hne]; [done|].
  change (u32 (hdr_seq (pv_header packet) - front)) with off.
  pose proof (seq_offset_range front (hdr_seq (pv_header packet))) as Hr. fold off in Hr.
  unfold kAckBitsWindow, is_u32 in *.
  destruct (Z.leb_spec off 64) as [Hle|Hgt].
  - replace (seq_gt (hdr_seq (pv_header packet)) front) with true.
    2:{ unfold off in *. rewrite seq_gt_offset. unfold seq_offset in *. word_lia. }
    rewrite (u32_id (off - 1)), u64_id by (apply bit_range || (unfold is_u32; lia); lia).
    rewrite land_bit_nonzero by lia. by rewrite Z.shiftl_1_l.
  - by destruct (seq_gt _ _).
Qed.

(** ** Preservation *)

Lemma advance_receive_window_ok rx : rx_ok rx -> rx_ok (advance_receive_window rx).
Proof.
  intros []. destruct (advance_receive_window_run rx) as (t & Ht & _ & _ & ->); [done|].
  constructor; simpl; try done; [apply u32_range|].
  apply shiftr_range; [lia|done].
Qed.

Lemma rx_ok_next rx n : is_u32 n -> rx_ok rx -> rx_ok (rx <| next_expected := n |>).
Proof. intros Hn []. by constructor. Qed.

Lemma rx_ok_events rx f : rx_ok rx -> rx_ok (rx <| pending_events ::= f |>).
Proof. intros []. by constructor. Qed.

Lemma rx_front_u32 packet rx :
  packet_ok packet -> rx_ok rx -> is_u32 (rx_front packet rx).
Proof. intros [[] _] []. unfold rx_front. by case_match. Qed.

Lemma update_reliable_receive_state_ok packet kind rx :
  packet_ok packet -> rx_ok rx ->
  rx_ok (snd (update_reliable_receive_state packet kind rx)).
Proof.
  intros Hp Hrx. destruct (tracked packet kind) eqn:Et; [|by rewrite update_untracked].
  rewrite update_tracked by (done || apply Hp || apply Hrx). cbn [snd].
  pose proof (rx_front_u32 packet rx Hp Hrx) as Hf.
  pose proof (seq_offset_range (rx_front packet rx) (hdr_seq (pv_header packet))) as Ho.
  unfold is_u32 in Ho.
  set (off := seq_offset (rx_front packet rx) (hdr_seq (pv_header packet))) in *.
  destruct (Z.eqb_spec off 0); [by apply advance_receive_window_ok, rx_ok_next|].
  destruct (Z.leb_spec off 64); [|by apply rx_ok_next].
  destruct Hrx. constructor; simpl; try done.
  apply lor_range; [lia|done|]. rewrite <- Z.shiftl_1_l. apply bit_range. lia.
Qed.

(** The number ordered delivery is waiting for: the packet's own when it is the
    first one. *)
Definition ordered_front (packet : PacketView) (rx : RxSessionState) : Z :=
  if ordered_delivery_started rx then next_ordered_delivery rx else hdr_seq (pv_header packet).

Lemma handle_reliable_ordered_run packet rx :
  exists evs buf' n',
    ordered_run (smap_assign (hdr_seq (pv_header packet)) (make_owned_packet packet)
                   (ordered_reorder_buffer rx)) (ordered_front packet rx) evs buf' n' /\
    handle_reliable_ordered packet rx =
    rx <| ordered_delivery_started := true |> <| pending_events ::= fun l => l ++ evs |>
       <| ordered_reorder_buffer := buf' |> <| next_ordered_delivery := n' |>.
Proof.
  unfold handle_reliable_ordered.
  set (rx2 := set ordered_reorder_buffer _ _).
  assert (Hst : ordered_delivery_started rx2 = true).
  { subst rx2. unfold ensure_ordered_delivery_started.
    by destruct (ordered_delivery_started rx) eqn:E. }
  destruct (drain_contiguous_ordered_run rx2 Hst) as (evs & buf' & n' & Hrun & ->).
  exists evs, buf', n'. subst rx2. unfold ordered_front, ensure_ordered_delivery_started in *.
  destruct rx as [ne rb buf no [] mv pe]; done.
Qed.

Lemma ordered_front_u32 packet rx :
  packet_ok packet -> rx_ok rx -> is_u32 (ordered_front packet rx).
Proof. intros [[] _] []. unfold ordered_front. by case_match. Qed.

Lemma assign_buffer_ok packet rx :
  packet_ok packet -> hdr_channel_type (pv_header packet) = ReliableOrdered -> rx_ok rx ->
  let buf := smap_assign (hdr_seq (pv_header packet)) (make_owned_packet packet)
               (ordered_reorder_buffer rx) in
  smap_sorted buf /\ Forall buffered_ok buf.
Proof. intros [[] _] Hc []. split; [auto with rudp|by apply smap_assign_Forall]. Qed.

Lemma handle_reliable_ordered_ok packet rx :
  packet_ok packet -> hdr_channel_type (pv_header packet) = ReliableOrdered ->
  rx_ok rx -> rx_ok (handle_reliable_ordered packet rx).
Proof.
  intros Hp Hc Hrx. destruct (assign_buffer_ok packet rx Hp Hc Hrx) as [H1 H2].
  destruct (handle_reliable_ordered_run packet rx) as (evs & buf' & n' & Hrun & ->).
  destruct (ordered_run_facts _ _ _ _ _ Hrun H1 (ordered_front_u32 _ _ Hp Hrx))
    as (Hs & Hu & He & Hsub & _ & _).
  destruct Hrx. constructor; simpl; try done. rewrite Forall_forall in *. auto.
Qed.

Lemma payload_version_readU32 p : payload_version p = readU32 p 0.
Proof. done. Qed.

Lemma payload_version_u32 p :
  Forall is_u8 p -> (4 <= length p)%nat -> is_u32 (payload_version p).
Proof.
  intros Hp Hl. rewrite payload_version_readU32, readU32_spec by (done || lia).
  apply (be_combine_take_drop p 0 4); done || lia.
Qed.

Lemma handle_monotonic_state_ok packet rx :
  packet_ok packet -> rx_ok rx -> rx_ok (handle_monotonic_state packet rx).
Proof.
  intros [_ Hp] Hrx. unfold handle_monotonic_state.
  destruct (Nat.ltb_spec (length (pv_payload packet)) 4); [done|].
  assert (Hd : rx_ok (rx
      <| monotonic_versions ::= fun m =>
           <[hdr_channel_id (pv_header packet) := payload_version (pv_payload packet)]> m |>
      <| pending_events ::= fun evs => evs ++ [make_data_event packet] |>)).
  { apply rx_ok_events. destruct Hrx. constructor; simpl; try done.
    apply map_Forall_insert_2; [by apply payload_version_u32|done]. }
  repeat case_match; done.
Qed.

Lemma on_packet_ok packet kind rx :
  packet_ok packet -> rx_ok rx -> rx_ok (snd (on_packet packet kind rx)).
Proof.
  intros Hp Hrx. unfold on_packet.
  pose proof (update_reliable_receive_state_ok packet kind rx Hp Hrx) as H.
  destruct (update_reliable_receive_state packet kind rx) as [[d a] rx1]. cbn [snd] in H.
  destruct (is_control_only kind || negb d); [done|]. cbn [snd].
  destruct (hdr_channel_type (pv_header packet)) eqn:Ec; try done.
  - by apply handle_reliable_ordered_ok.
  - by apply rx_ok_events.
  - by apply rx_ok_events.
  - by apply handle_monotonic_state_ok.
Qed.

(** ** Delivery *)

(** The bookkeeping touches the two ack fields only. *)
Lemma update_frame packet kind rx :
  packet_ok packet -> rx_ok rx ->
  exists n b, snd (update_reliable_receive_state packet kind rx) =
    rx <| next_expected := n |> <| received_bits := b |>.
Proof.
  intros Hp Hrx. destruct (tracked packet kind) eqn:Et.
  2:{ rewrite update_untracked by done. exists (next_expected rx), (received_bits rx).
      by destruct rx. }
  rewrite update_tracked by (done || apply Hp || apply Hrx). cbn [snd].
  repeat case_match.
  - destruct (advance_receive_window_run (rx <| next_expected := rx_front packet rx |>))
      as (t & _ & _ & _ & ->); [apply Hrx|]. eexists _, _. reflexivity.
  - eexists _, _. reflexivity.
  - exists (rx_front packet rx), (received_bits rx). by destruct rx.
Qed.

(** The sequence numbers [n], [n + 1], ... ([len] of them, modulo 2^32). *)
Definition seqs_from (n : Z) (len : nat) : list Z :=
  map (fun i => u32 (n + Z.of_nat i)) (seq 0 len).

Lemma seqs_from_cons n len :
  is_u32 n -> seqs_from n (S len) = n :: seqs_from (u32 (n + 1)) len.
Proof.
  intros Hn. unfold seqs_from. cbn [seq map]. rewrite Z.add_0_r, u32_id by done. f_equal.
  rewrite <- seq_shift, map_map. apply map_ext. intros i.
  rewrite u32_add_l. f_equal. lia.
Qed.

Lemma seqs_from_app n l1 l2 :
  seqs_from n (l1 + l2) = seqs_from n l1 ++ seqs_from (u32 (n + Z.of_nat l1)) l2.
Proof.
  unfold seqs_from. rewrite seq_app, map_app. f_equal. simpl.
  rewrite <- (Nat.add_0_r l1) at 1. generalize 0%nat as k. induction l2 as [|l2 IH]; intros k; [done|].
  simpl. rewrite u32_add_l. f_equal; [f_equal; lia|].
  rewrite <- Nat.add_succ_r. apply IH.
Qed.

Definition is_ordered_event (e : SessionEvent) : bool :=
  bool_decide (ev_channel_type e = ReliableOrdered).

Lemma ordered_run_seqs buf n evs buf' n' :
  ordered_run buf n evs buf' n' -> Forall buffered_ok buf -> is_u32 n ->
  map ev_seq evs = seqs_from n (length evs) /\
  Forall (fun e => is_ordered_event e = true) evs.
Proof.
  induction 1 as [buf n Hn|buf n p evs buf' n' Hf Hr IH]; intros Hb Hu; [done|].
  destruct IH as [IH1 IH2]; [by apply smap_erase_Forall|apply u32_range|].
  apply smap_find_Some_in in Hf. rewrite Forall_forall in Hb.
  destruct (Hb _ Hf) as (_ & Hseq & Htype). cbn [fst snd] in *. split.
  - simpl length. rewrite seqs_from_cons by done. simpl. by rewrite Hseq, IH1.
  - constructor; [|done]. unfold is_ordered_event. simpl. by rewrite Htype.
Qed.

Lemma filter_all {A} (f : A -> bool) l : Forall (fun x => f x = true) l -> List.filter f l = l.
Proof. induction 1 as [|x l Hx Hl IH]; simpl; [done|]. by rewrite Hx, IH. Qed.

(** What one packet adds for the ordered channel: nothing, or the run starting at
    the ordered front. *)
Definition ordered_progress (rx : RxSessionState) (new : list SessionEvent)
    (rx' : RxSessionState) : Prop :=
  let ord := List.filter is_ordered_event new in
  (ord = [] /\ next_ordered_delivery rx' = next_ordered_delivery rx /\
   ordered_delivery_started rx' = ordered_delivery_started rx) \/
  (exists n0, is_u32 n0 /\ (ordered_delivery_started rx = true -> n0 = next_ordered_delivery rx) /\
   ordered_delivery_started rx' = true /\
   map ev_seq ord = seqs_from n0 (length ord) /\
   next_ordered_delivery rx' = u32 (n0 + Z.of_nat (length ord))).

Lemma handle_reliable_ordered_delivery packet rx :
  packet_ok packet -> hdr_channel_type (pv_header packet) = ReliableOrdered -> rx_ok rx ->
  let rx' := handle_reliable_ordered packet rx in
  exists new, pending_events rx' = pending_events rx ++ new /\ ordered_progress rx new rx'.
Proof.
  intros Hp Hc Hrx. destruct (assign_buffer_ok packet rx Hp Hc Hrx) as [Hs Hb].
  pose proof (ordered_front_u32 _ _ Hp Hrx) as Hu.
  destruct (handle_reliable_ordered_run packet rx) as (evs & buf' & n' & Hrun & ->).
  destruct (ordered_run_seqs _ _ _ _ _ Hrun Hb Hu) as [Hseqs Hall].
  destruct (ordered_run_facts _ _ _ _ _ Hrun Hs Hu) as (_ & _ & _ & _ & Hn' & _).
  exists evs. split; [done|]. right. exists (ordered_front packet rx).
  rewrite filter_all by done. unfold ordered_front in *.
  split; [done|]. split; [by intros ->|]. auto.
Qed.

Lemma handle_monotonic_state_delivery packet rx :
  let rx' := handle_monotonic_state packet rx in
  exists new, pending_events rx' = pending_events rx ++ new /\
    Forall (fun e => ev_channel_type e = hdr_channel_type (pv_header packet)) new /\
    next_ordered_delivery rx' = next_ordered_delivery rx /\
    ordered_delivery_started rx' = ordered_delivery_started rx /\
    ordered_reorder_buffer rx' = ordered_reorder_buffer rx /\
    next_expected rx' = next_expected rx /\ received_bits rx' = received_bits rx.
Proof.
  unfold handle_monotonic_state. cbn zeta. repeat case_match;
    (exists []; cbn; rewrite app_nil_r; done) ||
    (exists [make_data_event packet]; cbn; split; [done|]; by repeat constructor).
Qed.

Lemma on_packet_delivery packet kind rx :
  packet_ok packet -> rx_ok rx ->
  let rx' := snd (on_packet packet kind rx) in
  exists new, pending_events rx' = pending_events rx ++ new /\ ordered_progress rx new rx'.
Proof.
  intros Hp Hrx. unfold on_packet.
  pose proof (update_reliable_receive_state_ok packet kind rx Hp Hrx) as Hok.
  destruct (update_frame packet kind rx Hp Hrx) as (n & b & Hfr).
  destruct (update_reliable_receive_state packet kind rx) as [[d a] rx1]. cbn [snd] in *.
  assert (Hkeep : forall new rx', pending_events rx' = pending_events rx1 ++ new ->
    ordered_progress rx1 new rx' ->
    exists new, pending_events rx' = pending_events rx ++ new /\ ordered_progress rx new rx')
    by (subst rx1; eauto).
  assert (Hnone : ordered_progress rx1 [] rx1) by (left; done).
  assert (Hother : hdr_channel_type (pv_header packet) <> ReliableOrdered -> forall rx',
    next_ordered_delivery rx' = next_ordered_delivery rx1 ->
    ordered_delivery_started rx' = ordered_delivery_started rx1 ->
    ordered_progress rx1 [make_data_event packet] rx').
  { intros Hne rx' E1 E2. left. unfold is_ordered_event. simpl.
    by rewrite bool_decide_eq_false_2 by done. }
  destruct (is_control_only kind || negb d); cbn [snd].
  { apply (Hkeep []); [by rewrite app_nil_r|done]. }
  destruct (hdr_channel_type (pv_header packet)) eqn:Ec.
  - destruct (handle_reliable_ordered_delivery packet rx1 Hp Ec Hok) as (new & H1 & H2).
    by apply (Hkeep new).
  - apply (Hkeep [make_data_event packet]); [done|]. by apply Hother.
  - apply (Hkeep [make_data_event packet]); [done|]. by apply Hother.
  - destruct (handle_monotonic_state_delivery packet rx1) as (new & H1 & H2 & H3 & H4 & _).
    apply (Hkeep new); [done|]. left. split; [|done].
    rewrite Ec in H2. clear -H2. induction H2 as [|e l He Hl IH]; [done|]. simpl.
    unfold is_ordered_event. by rewrite bool_decide_eq_false_2 by congruence.
  - apply (Hkeep []); [by rewrite app_nil_r|done].
Qed.

(** ** Runs of packets *)

Definition rx_run (ps : list (PacketView * ControlKind)) (rx : RxSessionState) : RxSessionState :=
  fold_left (fun rx p => snd (on_packet (fst p) (snd p) rx)) ps rx.

Lemma rx_run_ok ps rx :
  Forall (fun p => packet_ok (fst p)) ps -> rx_ok rx -> rx_ok (rx_run ps rx).
Proof.
  intros Hps. revert rx. induction Hps as [|p ps Hp Hps IH]; intros rx Hrx; [done|].
  apply IH. by apply on_packet_ok.
Qed.

Lemma ordered_progress_trans rx new1 rx1 new2 rx2 :
  ordered_progress rx new1 rx1 -> ordered_progress rx1 new2 rx2 ->
  ordered_progress rx (new1 ++ new2) rx2.
Proof.
  unfold ordered_progress. rewrite List.filter_app.
  intros [(E1 & En1 & Es1)|(n1 & Hu1 & Hold1 & Es1 & Em1 & En1)]
         [(E2 & En2 & Es2)|(n2 & Hu2 & Hold2 & Es2 & Em2 & En2)].
  - left. rewrite E1, E2. split; [done|]. by rewrite En2, Es2.
  - right. exists n2. rewrite E1. simpl. split; [done|].
    split; [intros Hs; rewrite Hold2 by congruence; done|done].
  - right. exists n1. rewrite E2, app_nil_r. split; [done|]. split; [done|].
    split; [congruence|]. split; [done|congruence].
  - right. exists n1. split; [done|]. split; [done|]. split; [done|].
    rewrite map_app, length_app, seqs_from_app, Em1, Em2.
    rewrite (Hold2 Es1), En1 in *. split; [done|].
    rewrite En2, u32_add_l. f_equal. lia.
Qed.

Lemma rx_run_delivery ps rx :
  Forall (fun p => packet_ok (fst p)) ps -> rx_ok rx ->
  exists new, pending_events (rx_run ps rx) = pending_events rx ++ new /\
              ordered_progress rx new (rx_run ps rx).
Proof.
  intros Hps. revert rx. induction Hps as [|[p k] ps Hp Hps IH]; intros rx Hrx.
  { exists []. split; [by rewrite app_nil_r|by left]. }
  destruct (on_packet_delivery p k rx Hp Hrx) as (new1 & E1 & P1).
  destruct (IH (snd (on_packet p k rx))) as (new2 & E2 & P2); [by apply on_packet_ok|].
  exists (new1 ++ new2). split.
  - change (rx_run ((p, k) :: ps) rx) with (rx_run ps (snd (on_packet p k rx))).
    by rewrite E2, E1, app_assoc.
  - by eapply ordered_progress_trans.
Qed.

(** ** Properties *)

(** C6: in-order delivery. Whatever packets arrive and in whatever order,
    loss or duplication, the events delivered for reliable-ordered data carry
    consecutive sequence numbers (modulo 2^32), each exactly once: once ordered
    delivery has started they continue from [next_ordered_delivery], and that
    front ends right after the last one delivered. Delivery is eager: no packet
    that could be delivered next stays in the reorder buffer. *)
Theorem ordered_delivery_in_order ps rx :
  Forall (fun p => packet_ok (fst p)) ps -> rx_ok rx ->
  exists new n0,
    pending_events (rx_run ps rx) = pending_events rx ++ new /\
    (ordered_delivery_started rx = true -> n0 = next_ordered_delivery rx) /\
    map ev_seq (List.filter is_ordered_event new) =
      seqs_from n0 (length (List.filter is_ordered_event new)) /\
    (ordered_delivery_started (rx_run ps rx) = true ->
     next_ordered_delivery (rx_run ps rx) =
       u32 (n0 + Z.of_nat (length (List.filter is_ordered_event new)))) /\
    smap_find (next_ordered_delivery (rx_run ps rx))
      (ordered_reorder_buffer (rx_run ps rx)) = None.
Proof.
  intros Hps Hrx. destruct (rx_run_delivery ps rx Hps Hrx) as (new & E & Hprog).
  pose proof (ro_eager _ (rx_run_ok ps rx Hps Hrx)) as He.
  pose proof (ro_ordered _ Hrx) as Hu. exists new.
  destruct Hprog as [(E1 & En & Es)|(n0 & Hn0 & Hold & Es & Em & En)].
  - exists (next_ordered_delivery rx). rewrite E1. simpl.
    split; [done|]. split; [done|]. split; [done|]. split; [|done]. intros _.
    by rewrite Z.add_0_r, u32_id.
  - by exists n0.
Qed.

Definition data_packet (t : ChannelType) (seq : Z) (p : bytes) : PacketView :=
  {| pv_header := default_header <| hdr_seq := seq |> <| hdr_channel_id := 1 |>
                    <| hdr_channel_type := t |>;
     pv_payload := p |}.

Lemma data_packet_ok t seq p :
  channel_type_typed t -> is_u32 seq -> Forall is_u8 p -> packet_ok (data_packet t seq p).
Proof.
  intros Ht Hs Hp. split; [|done].
  constructor; simpl; try done; word_unfold; unfold kHeaderLength; lia.
Qed.

Lemma ordered_delivery_in_order_witness :
  let ps := [(data_packet ReliableOrdered 10 [1], KindNone);
             (data_packet ReliableOrdered 12 [3], KindNone);
             (data_packet ReliableOrdered 11 [2], KindNone)] in
  exists new n0,
    pending_events (rx_run ps default_rx) = new /\
    map ev_seq (List.filter is_ordered_event new) =
      seqs_from n0 (length (List.filter is_ordered_event new)) /\ length new = 3%nat.
Proof.
  intros ps. destruct (ordered_delivery_in_order ps default_rx) as (new & n0 & E & _ & Em & _ & _).
  - repeat (apply Forall_cons_2; [apply data_packet_ok; [done|unfold is_u32; lia|]|]);
      repeat constructor; lia.
  - apply default_rx_ok.
  - exists new, n0. change (pending_events default_rx ++ new) with new in E.
    split; [exact E|]. split; [exact Em|]. rewrite <- E. vm_compute. reflexivity.
Defined.

(** *** The receive window *)

Lemma testbit_lor_pow2 b k j :
  0 <= k -> 0 <= j -> Z.testbit (Z.lor b (2 ^ k)) j = Z.testbit b j || (j =? k).
Proof.
  intros Hk Hj. rewrite Z.lor_spec. f_equal.
  rewrite Z.pow2_bits_eqb by done. apply Z.eqb_sym.
Qed.

(** Every branch of the acknowledgement bookkeeping. Relative to the
    front (the expected number, or the packet's own when none is set yet): the
    expected packet is processed and moves the front past it and the [t]
    consecutive packets recorded after it, shifting the bitmap by [t]; a packet 1
    to 64 ahead is processed unless its bit is already set, and sets that bit
    only; anything else (too far ahead, or behind) is not processed and changes
    nothing. Data on a non-reliable channel, PING, PONG and RST are not tracked
    at all. *)
Theorem update_reliable_receive_state_spec packet kind rx :
  packet_ok packet -> rx_ok rx ->
  let '(deliver, ack, rx') := update_reliable_receive_state packet kind rx in
  let front := rx_front packet rx in
  let off := seq_offset front (hdr_seq (pv_header packet)) in
  if tracked packet kind then
    ack = isReliableChannel (hdr_channel_type (pv_header packet)) ||
          bool_decide (kind = KindFin) /\
    (off = 0 -> deliver = true /\ exists t, 0 <= t <= 64 /\
       (forall i, 0 <= i < t -> Z.testbit (received_bits rx) i = true) /\
       Z.testbit (received_bits rx) t = false /\
       rx' = rx <| next_expected := u32 (front + 1 + t) |>
                <| received_bits := Z.shiftr (received_bits rx) t |>) /\
    (1 <= off <= 64 ->
       deliver = negb (Z.testbit (received_bits rx) (off - 1)) /\
       (forall j, 0 <= j -> Z.testbit (received_bits rx') j =
                            Z.testbit (received_bits rx) j || (j =? off - 1)) /\
       rx' = rx <| next_expected := front |> <| received_bits := received_bits rx' |>) /\
    (64 < off -> deliver = false /\ rx' = rx <| next_expected := front |>)
  else deliver = true /\ ack = false /\ rx' = rx.
Proof.
  intros Hp Hrx. destruct (tracked packet kind) eqn:Et; [|by rewrite update_untracked].
  rewrite update_tracked by (done || apply Hp || apply Hrx).
  cbn zeta. set (off := seq_offset _ _). split; [done|]. split; [|split].
  - intros H0. rewrite (proj2 (Z.eqb_eq _ _) H0). split; [done|].
    destruct (advance_receive_window_run (rx <| next_expected := rx_front packet rx |>))
      as (t & Ht & H1 & H2 & ->); [apply Hrx|]. by exists t.
  - intros Hoff. rewrite (proj2 (Z.eqb_neq _ _)), (proj2 (Z.leb_le _ _)) by lia.
    split; [done|]. split; [|done]. intros j Hj. simpl. apply testbit_lor_pow2; lia.
  - intros Hoff. by rewrite (proj2 (Z.eqb_neq _ _)), (proj2 (Z.leb_gt _ _)) by lia.
Qed.

Lemma update_reliable_receive_state_spec_witness :
  let p := data_packet ReliableUnordered 1 [7] in
  let rx := default_rx <| next_expected := 0xffffffff |> in
  fst (fst (update_reliable_receive_state p KindNone rx)) = true.
Proof.
  intros p rx. pose proof (update_reliable_receive_state_spec p KindNone rx) as H.
  destruct (update_reliable_receive_state p KindNone rx) as [[d a] rx'].
  destruct H as (_ & _ & H & _).
  - apply data_packet_ok; [done|unfold is_u32; lia|repeat constructor; lia].
  - apply rx_ok_next; [unfold is_u32; lia|apply default_rx_ok].
  - destruct H as [-> _]; [|reflexivity].
    split; vm_compute; discriminate.
Defined.

(** *** Duplicates *)

(** Delivery leaves the ack fields as the bookkeeping set them. *)
Lemma on_packet_acks packet kind rx :
  let rx1 := snd (update_reliable_receive_state packet kind rx) in
  next_expected (snd (on_packet packet kind rx)) = next_expected rx1 /\
  received_bits (snd (on_packet packet kind rx)) = received_bits rx1.
Proof.
  unfold on_packet. destruct (update_reliable_receive_state packet kind rx) as [[d a] rx1].
  destruct (is_control_only kind || negb d); [done|]. cbn [snd].
  destruct (hdr_channel_type (pv_header packet)); try done.
  - by destruct (handle_reliable_ordered_run packet rx1) as (evs & buf' & n' & _ & ->).
  - by destruct (handle_monotonic_state_delivery packet rx1) as (_ & _ & _ & _ & _ & _ & H).
Qed.

(** A reliable packet that the state already covers is dropped whole. *)
Lemma on_packet_covered packet rx :
  packet_ok packet -> rx_ok rx -> isReliableChannel (hdr_channel_type (pv_header packet)) = true ->
  next_expected rx <> 0 ->
  let off := seq_offset (next_expected rx) (hdr_seq (pv_header packet)) in
  off <> 0 -> (off <= 64 -> Z.testbit (received_bits rx) (off - 1) = true) ->
  on_packet packet KindNone rx = (true, rx).
Proof.
  intros Hp Hrx Hc Hne off Hoff Hbit. unfold on_packet.
  rewrite update_tracked by (apply Hp || apply Hrx || (unfold tracked; by rewrite Hc)).
  assert (Hf : rx_front packet rx = next_expected rx)
    by (unfold rx_front; by rewrite (proj2 (Z.eqb_neq _ _))).
  rewrite Hf, Hc. fold off. rewrite (proj2 (Z.eqb_neq _ _)) by done.
  pose proof (seq_offset_range (next_expected rx) (hdr_seq (pv_header packet))) as [Hr _].
  fold off in Hr.
  destruct (Z.leb_spec off 64) as [Hle|_]; [|simpl; by destruct rx].
  rewrite (Hbit Hle). cbn. f_equal. destruct rx; unfold set, set_next_expected, set_received_bits.
  simpl in *. f_equal. apply Z.bits_inj'. intros j Hj. rewrite testbit_lor_pow2 by lia.
  destruct (Z.eqb_spec j (off - 1)) as [->|]; [by rewrite Hbit|apply orb_false_r].
Qed.

(** A reliable data packet received a second time in a row (a duplicate or
    a retransmission crossing its ACK) has no effect at all: it is still ACKed,
    but nothing is delivered and the receive state is unchanged, on both reliable
    channel types and across the wrap; the only exception is a front of exactly
    0, which the code reads as "nothing received yet". *)
Theorem duplicate_reliable_dropped packet rx :
  packet_ok packet -> rx_ok rx ->
  isReliableChannel (hdr_channel_type (pv_header packet)) = true ->
  next_expected rx <> 0 ->
  let rx1 := snd (on_packet packet KindNone rx) in
  next_expected rx1 <> 0 ->
  on_packet packet KindNone rx1 = (true, rx1).
Proof.
  intros Hp Hrx Hc Hne rx1 Hne1.
  pose proof (on_packet_ok packet KindNone rx Hp Hrx) as Hrx1. fold rx1 in Hrx1.
  destruct (on_packet_acks packet KindNone rx) as [En Eb]. fold rx1 in En, Eb.
  rewrite update_tracked in En, Eb by (apply Hp || apply Hrx || (unfold tracked; by rewrite Hc)).
  assert (Hf : rx_front packet rx = next_expected rx)
    by (unfold rx_front; by rewrite (proj2 (Z.eqb_neq _ _))).
  rewrite Hf in En, Eb. cbn [snd] in En, Eb.
  set (off := seq_offset (next_expected rx) (hdr_seq (pv_header packet))) in *.
  pose proof (seq_offset_range (next_expected rx) (hdr_seq (pv_header packet))) as Hr.
  fold off in Hr. pose proof (ro_next _ Hrx) as Hn.
  destruct (Z.eqb_spec off 0) as [H0|H0].
  - destruct (advance_receive_window_run (rx <| next_expected := next_expected rx |>))
      as (t & Ht & _ & _ & Ea); [apply Hrx|]. rewrite Ea in En. simpl in En.
    assert (Hs : seq_offset (next_expected rx1) (hdr_seq (pv_header packet)) = 2 ^ 32 - (1 + t)).
    { rewrite En. apply (proj1 (seq_offset_0 _ _ Hn (ht_seq _ (proj1 Hp)))) in H0. rewrite H0.
      unfold seq_offset. word_lia. }
    apply on_packet_covered; try done; rewrite Hs; lia.
  - assert (E : next_expected rx1 = next_expected rx) by (rewrite En; by case_match).
    unfold is_u32 in Hr.
    apply on_packet_covered; try done; rewrite E; fold off; [done|].
    intros Hle. rewrite (proj2 (Z.leb_le _ _)) in Eb by done. rewrite Eb. simpl.
    rewrite testbit_lor_pow2, Z.eqb_refl by lia. apply orb_true_r.
Qed.

Lemma duplicate_reliable_dropped_witness :
  let p := data_packet ReliableUnordered 12 [7] in
  let rx1 := snd (on_packet p KindNone (default_rx <| next_expected := 10 |>)) in
  on_packet p KindNone rx1 = (true, rx1) /\ length (pending_events rx1) = 1%nat.
Proof.
  intros p rx1. split; [|reflexivity].
  apply (duplicate_reliable_dropped p (default_rx <| next_expected := 10 |>)).
  - apply data_packet_ok; [done|unfold is_u32; lia|repeat constructor; lia].
  - apply rx_ok_next; [unfold is_u32; lia|apply default_rx_ok].
  - reflexivity.
  - discriminate.
  - vm_compute. discriminate.
Defined.
