(* ===== verification/RxRefinement.v ===== *)
(** What the receive side promises: an abstract receiver on unbounded sequence
    numbers, the refinement of the acknowledgement bookkeeping to it, what the
    acknowledgement fields mean to the sender that reads them, and the channel
    contract of monotonic state. *)

From S2P Require Import Prelude StdMap Protocol Utils Codec SessionTypes.
From S2P Require Import ConnectionStateMachine TxHandler RxHandler RxInvariant.

(** ** The abstract receiver

    Sequence numbers are unwrapped integers. Every number below [rc_front] has
    been received; [rc_ahead] holds the ones received beyond it. *)

Record Receiver := mk_receiver { rc_front : Z; rc_ahead : gset Z }.

Fixpoint least_missing (fuel : nat) (n : Z) (s : gset Z) : Z :=
  match fuel with
  | O => n
  | S fuel => if bool_decide (n ∈ s) then least_missing fuel (n + 1) s else n
  end.

Definition receive (x : Z) (r : Receiver) : bool * Receiver :=
  if x =? rc_front r then
    let front := least_missing 64 (rc_front r + 1) (rc_ahead r) in
    (true, mk_receiver front (filter (fun y => front < y) (rc_ahead r)))
  else if (rc_front r <? x) && (x <=? rc_front r + 64) then
    (bool_decide (x ∉ rc_ahead r), mk_receiver (rc_front r) ({[x]} ∪ rc_ahead r))
  else (false, r).

Definition received (r : Receiver) (x : Z) : Prop := x < rc_front r \/ x ∈ rc_ahead r.

(** The concrete fields: the front modulo 2^32, and bit [i] of the bitmap for the
    number [i + 1] past it. *)
Definition represents (r : Receiver) (rx : RxSessionState) : Prop :=
  next_expected rx = u32 (rc_front r) /\
  forall y, y ∈ rc_ahead r <->
    1 <= y - rc_front r <= 64 /\ Z.testbit (received_bits rx) (y - rc_front r - 1) = true.

(** [x] is the number a 32-bit header field stands for: the one within half the
    sequence space of the front. *)
Definition near (r : Receiver) (x : Z) : Prop :=
  - 2 ^ 31 <= x - rc_front r < 2 ^ 31.

Lemma near_offset f x :
  - 2 ^ 31 <= x - f < 2 ^ 31 ->
  seq_offset (u32 f) (u32 x) = if f <=? x then x - f else x - f + 2 ^ 32.
Proof.
  intros H. unfold seq_offset. autorewrite with u32.
  destruct (Z.leb_spec f x); word_unfold.
  - apply Z.mod_small. lia.
  - rewrite <- (Z_mod_plus_full (x - f) 1). apply Z.mod_small. lia.
Qed.

Lemma least_missing_run fuel n s t :
  0 <= t <= Z.of_nat fuel -> (forall i, 0 <= i < t -> n + i ∈ s) -> n + t ∉ s ->
  least_missing fuel n s = n + t.
Proof.
  revert n t. induction fuel as [|fuel IH]; intros n t Ht Hin Hout; simpl.
  { assert (t = 0) as -> by lia. lia. }
  destruct (Z.eq_dec t 0) as [->|Hne].
  - rewrite Z.add_0_r in *. by rewrite bool_decide_eq_false_2.
  - rewrite bool_decide_eq_true_2.
    + replace (n + t) with (n + 1 + (t - 1)) by lia. apply IH; [lia| |].
      * intros i Hi. replace (n + 1 + i) with (n + (1 + i)) by lia. apply Hin. lia.
      * by replace (n + 1 + (t - 1)) with (n + t) by lia.
    + rewrite <- (Z.add_0_r n). apply Hin. lia.
Qed.

(** The in-order step in both worlds. *)
Lemma receive_front r rx :
  represents r rx -> rx_ok rx -> exists t, 0 <= t <= 64 /\
    Z.testbit (received_bits rx) t = false /\
    receive (rc_front r) r =
      (true, mk_receiver (rc_front r + 1 + t)
               (filter (fun y => rc_front r + 1 + t < y) (rc_ahead r))) /\
    advance_receive_window rx =
      rx <| next_expected := u32 (rc_front r + 1 + t) |>
         <| received_bits := Z.shiftr (received_bits rx) t |>.
Proof.
  intros [Hn Hb] Hrx.
  destruct (advance_receive_window_run rx) as (t & Ht & Hones & Hz & Ha); [apply Hrx|].
  exists t. split; [done|]. split; [done|]. split.
  - unfold receive. rewrite Z.eqb_refl.
    rewrite (least_missing_run 64 _ _ t); [done|lia| |].
    + intros i Hi. apply Hb. split; [lia|].
      replace (rc_front r + 1 + i - rc_front r - 1) with i by lia. apply Hones. lia.
    + rewrite Hb. replace (rc_front r + 1 + t - rc_front r - 1) with t by lia.
      rewrite Hz. by intros [].
  - rewrite Ha. unfold set, set_next_expected, set_received_bits. simpl.
    rewrite Hn. f_equal. rewrite <- !Z.add_assoc. apply u32_add_l.
Qed.

(** With nothing left beyond the new front the shifted bitmap is empty. *)
Lemma represents_no_gap r rx t :
  represents r rx -> rx_ok rx -> 0 <= t <= 64 -> Z.testbit (received_bits rx) t = false ->
  filter (fun y => rc_front r + 1 + t < y) (rc_ahead r) = ∅ ->
  represents (mk_receiver (rc_front r + 1 + t) ∅)
    (rx <| next_expected := u32 (rc_front r + 1 + t) |>
        <| received_bits := Z.shiftr (received_bits rx) t |>).
Proof.
  intros [_ Hb] Hrx Ht Hz Hno. split; [done|]. intros y. split; [set_solver|].
  cbn. intros [Hy Hbit]. exfalso. rewrite Z.shiftr_spec in Hbit by lia.
  replace (y - (rc_front r + 1 + t) - 1 + t) with (y - 1 - rc_front r - 1) in Hbit by lia.
  assert (Hlt : y - 1 - rc_front r <= 64).
  { apply Z.nlt_ge. intros Hge. rewrite (testbit_high 64) in Hbit; [done|apply Hrx|lia]. }
  assert (Hne : y - 1 <> rc_front r + 1 + t).
  { intros E. rewrite E in Hbit.
    replace (rc_front r + 1 + t - rc_front r - 1) with t in Hbit by lia. congruence. }
  assert (Hin : y - 1 ∈ rc_ahead r) by (apply Hb; split; [lia|done]).
  assert (y - 1 ∈ filter (fun y => rc_front r + 1 + t < y) (rc_ahead r)); [|set_solver].
  apply elem_of_filter. split; [lia|done].
Qed.

Lemma represents_ahead r rx x :
  represents r rx -> 1 <= x - rc_front r <= 64 ->
  represents (mk_receiver (rc_front r) ({[x]} ∪ rc_ahead r))
    (rx <| received_bits ::= fun b => Z.lor b (2 ^ (x - rc_front r - 1)) |>).
Proof.
  intros [Hn Hb] Hx. split; [done|]. intros y. cbn.
  rewrite elem_of_union, elem_of_singleton, Hb. split.
  - intros [->|[Hy Hbit]]; (split; [lia|]); rewrite testbit_lor_pow2 by lia.
    + rewrite Z.eqb_refl. apply orb_true_r.
    + by rewrite Hbit.
  - intros [Hy Hbit]. rewrite testbit_lor_pow2 in Hbit by lia.
    apply orb_true_iff in Hbit as [Hbit|Heq]; [by right|left; lia].
Qed.

Lemma represents_claims r rx x :
  represents r rx -> near r x ->
  is_acknowledged_by_remote (u32 x) (next_expected rx) (received_bits rx) = true <->
  received r x.
Proof.
  intros [Hn Hb] Hx. rewrite is_acked_spec, Hn, near_offset by done.
  unfold received, near in *. rewrite orb_true_iff, !andb_true_iff, !Z.leb_le, Hb.
  destruct (Z.leb_spec (rc_front r) x).
  - split; [intros [|[[]]]; [lia|right; lia || (split; [lia|done])]|].
    intros [|[? ?]]; [lia|right]. repeat split; lia || done.
  - split; [intros; left; lia|intros; left; lia].
Qed.

Lemma top_bit w x k :
  0 <= w -> 0 <= x < 2 ^ w -> 0 <= k -> Z.testbit x k = true ->
  exists j, 0 <= j /\ Z.testbit x j = true /\ Z.testbit x (j + 1) = false.
Proof.
  intros Hw Hx Hk Hb. assert (0 < x).
  { destruct (Z.eq_dec x 0) as [->|]; [by rewrite Z.testbit_0_l in Hb|lia]. }
  exists (Z.log2 x). split; [apply Z.log2_nonneg|]. split; [by apply Z.bit_log2|].
  apply Z.bits_above_log2; lia.
Qed.

Lemma testbit_lt w x k : 0 <= x < 2 ^ w -> 0 <= w -> Z.testbit x k = true -> k < w.
Proof.
  intros Hx Hw Hb. apply Z.nle_gt. intros Hge. by rewrite (testbit_high w) in Hb by lia.
Qed.

Lemma update_refines r rx packet kind x :
  packet_ok packet -> rx_ok rx -> tracked packet kind = true ->
  hdr_seq (pv_header packet) = u32 x -> near r x -> next_expected rx <> 0 ->
  represents r rx ->
  (x = rc_front r -> rc_ahead (snd (receive x r)) = ∅) ->
  let '(deliver, _, rx') := update_reliable_receive_state packet kind rx in
  deliver = fst (receive x r) /\ represents (snd (receive x r)) rx'.
Proof.
  intros Hp Hrx Ht Hs Hx H0 Hrep Hnogap.
  rewrite update_tracked by (done || apply Hp || apply Hrx). cbn zeta.
  assert (Hf : rx_front packet rx = next_expected rx)
    by (unfold rx_front; by rewrite (proj2 (Z.eqb_neq _ _))).
  rewrite Hf. replace (rx <| next_expected := next_expected rx |>) with rx by by destruct rx.
  pose proof (proj1 Hrep) as Hn.
  assert (Hoff : seq_offset (next_expected rx) (hdr_seq (pv_header packet)) =
    if rc_front r <=? x then x - rc_front r else x - rc_front r + 2 ^ 32)
    by (rewrite Hn, Hs; by apply near_offset).
  rewrite Hoff. unfold near in Hx.
  destruct (Z.eq_dec x (rc_front r)) as [->|Hne].
  - destruct (receive_front r rx Hrep Hrx) as (t & Ht' & Hz & Hr & Ha).
    rewrite Z.leb_refl, Z.sub_diag, Z.eqb_refl, Ha. specialize (Hnogap eq_refl).
    rewrite Hr in *. cbn [fst snd rc_ahead] in *. split; [done|].
    rewrite Hnogap. by apply represents_no_gap.
  - assert (Hd : forall c : bool, (c = true <-> 1 <= x - rc_front r <= 64) ->
      (rc_front r <? x) && (x <=? rc_front r + 64) = c) by (intros []; lia).
    unfold receive. rewrite (proj2 (Z.eqb_neq x _)) by done.
    destruct (Z.leb_spec (rc_front r) x) as [Hle|Hgt].
    2:{ rewrite (Hd false), (proj2 (Z.eqb_neq _ _)), (proj2 (Z.leb_gt _ _)) by lia. done. }
    rewrite (proj2 (Z.eqb_neq _ _)) by lia. destruct (Z.leb_spec (x - rc_front r) 64).
    2:{ by rewrite (Hd false) by lia. }
    rewrite (Hd true) by lia. cbn [fst snd]. split; [|by apply represents_ahead; [|lia]].
    destruct Hrep as [_ Hb]. destruct (Z.testbit _ _) eqn:E; simpl; symmetry.
    + apply bool_decide_eq_false_2. intros Hout. apply Hout, Hb. split; [lia|done].
    + apply bool_decide_eq_true_2. rewrite Hb, E. by intros [].
Qed.

(** *** Runs of arrivals *)

(** A packet, its kind, and the number its header field stands for. *)
Definition Arrival : Type := PacketView * ControlKind * Z.

(** The bookkeeping over a list of arrivals: the numbers it judged new, and the
    fields after them. *)
Fixpoint track (ps : list Arrival) (rx : RxSessionState) : list Z * RxSessionState :=
  match ps with
  | [] => ([], rx)
  | (p, kind, x) :: ps =>
      let '(deliver, _, rx) := update_reliable_receive_state p kind rx in
      let '(xs, rx) := track ps rx in
      (if deliver then x :: xs else xs, rx)
  end.

Definition receive_run (ps : list Arrival) (r : Receiver) : Receiver :=
  fold_left (fun r p => snd (receive (snd p) r)) ps r.

Definition arrival_ok (p : Arrival) : Prop :=
  packet_ok (fst (fst p)) /\ tracked (fst (fst p)) (snd (fst p)) = true /\
  hdr_seq (pv_header (fst (fst p))) = u32 (snd p).

(** Well-formed arrivals that avoid the two cases in which the code does not refine
    the receiver. *)
Fixpoint orderly (ps : list Arrival) (r : Receiver) : Prop :=
  match ps with
  | [] => True
  | p :: ps =>
      arrival_ok p /\ near r (snd p) /\ u32 (rc_front r) <> 0 /\
      (snd p = rc_front r -> rc_ahead (snd (receive (snd p) r)) = ∅) /\
      orderly ps (snd (receive (snd p) r))
  end.

Lemma least_missing_spec fuel n s :
  exists t, 0 <= t <= Z.of_nat fuel /\ least_missing fuel n s = n + t /\
    (forall i, 0 <= i < t -> n + i ∈ s) /\ (t < Z.of_nat fuel -> n + t ∉ s).
Proof.
  revert n. induction fuel as [|fuel IH]; intros n; cbn [least_missing].
  { exists 0. split_and!; lia || (intros; lia). }
  case_bool_decide as Hn.
  - destruct (IH (n + 1)) as (t & Ht & -> & Hin & Hout). exists (t + 1). split_and!; [lia|lia|lia| |].
    + intros i Hi. destruct (Z.eq_dec i 0) as [->|]; [by rewrite Z.add_0_r|].
      replace (n + i) with (n + 1 + (i - 1)) by lia. apply Hin. lia.
    + intros Hlt. replace (n + (t + 1)) with (n + 1 + t) by lia. apply Hout. lia.
  - exists 0. rewrite Z.add_0_r. split_and!; [lia|lia|lia|intros; lia|done].
Qed.

(** What the abstract receiver has received grows by what it judges new. *)
Lemma receive_received x r y :
  (forall z, z ∈ rc_ahead r -> 1 <= z - rc_front r <= 64) ->
  (x = rc_front r -> rc_ahead (snd (receive x r)) = ∅) ->
  received (snd (receive x r)) y <-> received r y \/ (fst (receive x r) = true /\ y = x).
Proof.
  intros Hwf Hno. unfold receive in *. destruct (Z.eqb_spec x (rc_front r)) as [->|Hne].
  - specialize (Hno eq_refl). cbn [fst snd rc_ahead] in *.
    destruct (least_missing_spec 64 (rc_front r + 1) (rc_ahead r)) as (t & Ht & E & Hin & Hout).
    rewrite E in *. assert (Hend : rc_front r + 1 + t ∉ rc_ahead r).
    { destruct (Z.eq_dec t 64) as [->|]; [|apply Hout; lia]. intros H. apply Hwf in H. lia. }
    unfold received. cbn [rc_front rc_ahead]. rewrite Hno. split.
    + intros [Hy|Hy]; [|by apply elem_of_empty in Hy]. destruct (Z.ltb_spec y (rc_front r)); [by left; left|].
      destruct (Z.eq_dec y (rc_front r)) as [->|]; [by right|]. left; right.
      replace y with (rc_front r + 1 + (y - rc_front r - 1)) by lia. apply Hin. lia.
    + intros [[Hy|Hy]|[_ ->]]; left; [lia| |lia]. pose proof (Hwf y Hy).
      apply Z.nle_gt. intros Hge.
      assert (y <> rc_front r + 1 + t) by (intros ->; done).
      assert (Hf : y ∈ filter (fun z => rc_front r + 1 + t < z) (rc_ahead r))
        by (apply elem_of_filter; split; [lia|done]).
      rewrite Hno in Hf. by apply elem_of_empty in Hf.
  - destruct ((rc_front r <? x) && (x <=? rc_front r + 64)); cbn [fst snd].
    + unfold received. cbn [rc_front rc_ahead]. rewrite bool_decide_eq_true. set_unfold.
      destruct (decide (x ∈ rc_ahead r)); naive_solver.
    + naive_solver.
Qed.

Lemma represents_ahead_bound r rx z :
  represents r rx -> z ∈ rc_ahead r -> 1 <= z - rc_front r <= 64.
Proof. intros [_ Hb] Hz. by apply Hb in Hz as []. Qed.

Lemma track_refines ps r rx :
  rx_ok rx -> represents r rx -> orderly ps r ->
  let '(xs, rx') := track ps rx in
  represents (receive_run ps r) rx' /\
  forall y, received (receive_run ps r) y <-> received r y \/ y ∈ xs.
Proof.
  revert r rx. induction ps as [|[[p kind] x] ps IH]; intros r rx Hrx Hrep Ho;
    cbn [track orderly receive_run fold_left fst snd] in *.
  { split; [done|]. intros y. set_solver. }
  destruct Ho as ((Hp & Ht & Hs) & Hn & H0 & Hno & Ho). cbn [fst snd] in *.
  pose proof (update_refines r rx p kind x Hp Hrx Ht Hs Hn
    ltac:(rewrite (proj1 Hrep); exact H0) Hrep Hno) as H.
  pose proof (update_reliable_receive_state_ok p kind rx Hp Hrx) as Hrx'.
  destruct (update_reliable_receive_state p kind rx) as [[d a] rx1]. destruct H as [-> Hrep1].
  cbn [snd] in Hrx'. specialize (IH _ rx1 Hrx' Hrep1 Ho). destruct (track ps rx1) as [xs rx'].
  destruct IH as [Hr Hy]. split; [exact Hr|]. intros y.
  change (fold_left (fun r p => snd (receive (snd p) r)) ps (snd (receive x r))) with
    (receive_run ps (snd (receive x r))).
  rewrite Hy, receive_received; [|intros z; by apply (represents_ahead_bound r rx)|done].
  destruct (fst (receive x r)); [rewrite elem_of_cons|]; naive_solver.
Qed.

(** The first tracked packet of a fresh receiver sets the front. *)
Lemma track_first p kind x :
  arrival_ok (p, kind, x) ->
  let '(deliver, _, rx) := update_reliable_receive_state p kind default_rx in
  deliver = true /\ represents (mk_receiver (x + 1) ∅) rx.
Proof.
  intros (Hp & Ht & Hs). cbn [fst snd] in *. pose proof (ht_seq _ (proj1 Hp)) as Hu.
  rewrite update_tracked by (done || apply Hp || apply default_rx_ok). cbn zeta.
  assert (Hf : rx_front p default_rx = hdr_seq (pv_header p)) by done. rewrite Hf.
  unfold seq_offset. rewrite Z.sub_diag. change (u32 0) with 0. cbn [Z.eqb]. split; [done|].
  set (rx := default_rx <| next_expected := hdr_seq (pv_header p) |>).
  assert (Hrx : rx_ok rx) by (pose proof default_rx_ok as []; by constructor).
  assert (Hrep : represents (mk_receiver x ∅) rx).
  { split; [exact Hs|]. intros y. cbn. rewrite Z.testbit_0_l. set_solver. }
  destruct (receive_front _ rx Hrep Hrx) as (t & Ht' & Hz & Hr & ->). cbn [rc_front rc_ahead] in *.
  assert (t = 0) as ->.
  { unfold receive in Hr. cbn [rc_front rc_ahead] in Hr. rewrite Z.eqb_refl in Hr.
    pose proof (f_equal (fun q => rc_front (snd q)) Hr) as Hl. cbn [snd rc_front] in Hl.
    destruct (least_missing_spec 64 (x + 1) ∅) as (t' & ? & Hl' & Hin & _). rewrite Hl' in Hl.
    destruct (Z.eq_dec t' 0); [lia|]. specialize (Hin 0 ltac:(lia)).
    by apply elem_of_empty in Hin. }
  pose proof (represents_no_gap _ rx 0 Hrep Hrx ltac:(lia) Hz ltac:(set_solver)) as H.
  cbn [rc_front] in H. by rewrite Z.add_0_r in H |- *.
Qed.

(** ** Properties *)

(** C17: the sender and the receiver agree on what has arrived, for orderly
    arrivals. A fresh receiver gets a first tracked packet with the number [x0] and
    then any list of tracked packets, in any order and with any repetitions, along
    which the expected number is never exactly 0 and no packet that arrives in order
    leaves a later one beyond a hole. Then the test a sender applies to the fields
    [ack] and [ack_bits] this receiver puts in its headers accepts a number, within
    half the sequence space of the front, exactly when it is at most [x0] or the
    receiver judged it new at some arrival. Without the condition the fields can
    claim packets that never arrived: [gap_fill_claims_unreceived]. *)
Theorem acknowledgement_exact p0 kind0 x0 ps x :
  arrival_ok (p0, kind0, x0) -> orderly ps (mk_receiver (x0 + 1) ∅) ->
  near (receive_run ps (mk_receiver (x0 + 1) ∅)) x ->
  let '(new, rx) := track ((p0, kind0, x0) :: ps) default_rx in
  is_acknowledged_by_remote (u32 x) (next_expected rx) (received_bits rx) = true <->
  x <= x0 \/ x ∈ new.
Proof.
  intros H0 Ho Hx. cbn [track]. pose proof (track_first p0 kind0 x0 H0) as H1.
  pose proof (update_reliable_receive_state_ok p0 kind0 default_rx (proj1 H0) default_rx_ok) as Hok.
  destruct (update_reliable_receive_state p0 kind0 default_rx) as [[d a] rx1]. destruct H1 as [-> Hrep].
  pose proof (track_refines ps _ rx1 Hok Hrep Ho) as H2. destruct (track ps rx1) as [xs rx'].
  destruct H2 as [Hrep' Hy]. rewrite (represents_claims _ rx' x Hrep' Hx), Hy.
  unfold received. cbn [rc_front rc_ahead]. rewrite elem_of_cons. set_unfold.
  split; [intros [[|]|]|intros [|[|]]]; (lia || tauto || naive_solver lia).
Qed.

(** C5: the bookkeeping refines the abstract receiver, but for two cases. For a
    tracked packet carrying number [x], within half the sequence space of the front,
    the concrete verdict is the abstract one and the new fields represent the new
    abstract state, provided that the expected number is not exactly 0 and that the
    arrival, if it is in order, leaves no later packet beyond a hole. In the two
    excluded cases the code does not refine the receiver: [gap_fill_claims_unreceived]
    and [front_zero_skips]. *)
Theorem update_refines_receive r rx packet kind x :
  packet_ok packet -> rx_ok rx -> tracked packet kind = true ->
  hdr_seq (pv_header packet) = u32 x -> near r x -> next_expected rx <> 0 ->
  represents r rx ->
  (x = rc_front r -> rc_ahead (snd (receive x r)) = ∅) ->
  let '(deliver, _, rx') := update_reliable_receive_state packet kind rx in
  deliver = fst (receive x r) /\ represents (snd (receive x r)) rx'.
Proof. apply update_refines. Qed.

(** Packets 11 and 12 received ahead of 10. *)
Definition sample_receiver : Receiver := mk_receiver 10 {[11; 12]}.
Definition sample_rx : RxSessionState :=
  default_rx <| next_expected := 10 |> <| received_bits := 3 |>.

Lemma sample_represents : represents sample_receiver sample_rx.
Proof.
  split; [done|]. intros y. cbn. split.
  - rewrite elem_of_union, !elem_of_singleton. intros [->| ->]; (split; [lia|done]).
  - intros [Hy Hb]. destruct (Z.eq_dec y 11) as [->|]; [set_solver|].
    destruct (Z.eq_dec y 12) as [->|]; [set_solver|].
    rewrite (testbit_high 2) in Hb; [done|lia|lia].
Qed.

Lemma sample_rx_ok : rx_ok sample_rx.
Proof.
  pose proof default_rx_ok as []. constructor; simpl; try done; word_unfold; lia.
Qed.

(** After the first packet, 9: the numbers 11, 12, 10, 12 again and 14. *)
Definition sample_arrival (x : Z) : Arrival := (data_packet ReliableUnordered x [7], KindNone, x).
Definition sample_arrivals : list Arrival := map sample_arrival [11; 12; 10; 12; 14].

Lemma sample_arrival_ok x : is_u32 x -> arrival_ok (sample_arrival x).
Proof.
  intros Hx. split; [|split; [reflexivity|cbn; symmetry; by apply u32_id]].
  apply data_packet_ok; [done|exact Hx|repeat constructor; lia].
Qed.

Lemma sample_arrivals_orderly : orderly sample_arrivals (mk_receiver 10 ∅).
Proof.
  repeat (split; [apply sample_arrival_ok; unfold is_u32; lia|];
          split; [unfold near; vm_compute; split; congruence|]; split; [vm_compute; discriminate|];
          split; [intros H; first [vm_compute in H; discriminate H|
                                   apply (bool_decide_unpack _); vm_compute; exact I]|]).
  exact I.
Qed.

Lemma acknowledgement_exact_witness :
  let rx := snd (track (sample_arrival 9 :: sample_arrivals) default_rx) in
  is_acknowledged_by_remote (u32 12) (next_expected rx) (received_bits rx) = true /\
  is_acknowledged_by_remote (u32 13) (next_expected rx) (received_bits rx) <> true.
Proof.
  assert (H : forall x, near (receive_run sample_arrivals (mk_receiver 10 ∅)) x ->
    let '(new, rx) := track (sample_arrival 9 :: sample_arrivals) default_rx in
    is_acknowledged_by_remote (u32 x) (next_expected rx) (received_bits rx) = true <->
    x <= 9 \/ x ∈ new).
  { intros x. apply (acknowledgement_exact (data_packet ReliableUnordered 9 [7]) KindNone 9
      sample_arrivals x (sample_arrival_ok 9 ltac:(unfold is_u32; lia)) sample_arrivals_orderly). }
  assert (Hnew : fst (track (sample_arrival 9 :: sample_arrivals) default_rx) = [9; 11; 12; 10; 14])
    by (vm_compute; reflexivity).
  assert (Hnear : forall x, 0 <= x < 20 -> near (receive_run sample_arrivals (mk_receiver 10 ∅)) x).
  { assert (Hf : rc_front (receive_run sample_arrivals (mk_receiver 10 ∅)) = 13)
      by (vm_compute; reflexivity).
    intros x Hx. unfold near. rewrite Hf. lia. }
  cbn zeta. revert H Hnew.
  destruct (track (sample_arrival 9 :: sample_arrivals) default_rx) as [new rx]. intros H Hnew.
  cbn [fst] in Hnew. subst new. cbn [snd]. split.
  - apply (proj2 (H 12 (Hnear 12 ltac:(lia)))). right. do 2 apply list_elem_of_further.
    apply list_elem_of_here.
  - intros Hn. destruct (proj1 (H 13 (Hnear 13 ltac:(lia))) Hn) as [Hle|Hin]; [lia|].
    apply list_elem_of_In in Hin. cbn in Hin. lia.
Defined.

Lemma update_refines_receive_witness :
  let p := data_packet ReliableUnordered 10 [7] in
  let '(deliver, _, rx') := update_reliable_receive_state p KindNone sample_rx in
  deliver = fst (receive 10 sample_receiver) /\
  represents (snd (receive 10 sample_receiver)) rx'.
Proof.
  intros p. apply (update_refines_receive sample_receiver sample_rx p KindNone 10).
  - apply data_packet_ok; [done|unfold is_u32; lia|repeat constructor; lia].
  - apply sample_rx_ok.
  - reflexivity.
  - reflexivity.
  - unfold near. simpl. lia.
  - discriminate.
  - apply sample_represents.
  - intros _. apply (bool_decide_unpack _). vm_compute. exact I.
Defined.

(** C19: what happens in the excluded case. When the expected packet arrives
    and a later packet stays beyond a hole, the bitmap is shifted by one position
    too few: the acknowledgement fields then claim a number that was never
    received, so the peer stops retransmitting a packet this side does not have. *)
Theorem gap_fill_claims_unreceived r rx packet kind :
  packet_ok packet -> rx_ok rx -> tracked packet kind = true ->
  hdr_seq (pv_header packet) = u32 (rc_front r) -> next_expected rx <> 0 ->
  represents r rx -> rc_ahead (snd (receive (rc_front r) r)) <> ∅ ->
  let rx' := snd (update_reliable_receive_state packet kind rx) in
  exists x, near r x /\ ~ received (snd (receive (rc_front r) r)) x /\
    is_acknowledged_by_remote (u32 x) (next_expected rx') (received_bits rx') = true.
Proof.
  intros Hp Hrx Ht Hs H0 Hrep Hgap.
  rewrite update_tracked by (done || apply Hp || apply Hrx). cbn [snd].
  assert (Hf : rx_front packet rx = next_expected rx)
    by (unfold rx_front; by rewrite (proj2 (Z.eqb_neq _ _))).
  rewrite Hf. replace (rx <| next_expected := next_expected rx |>) with rx by by destruct rx.
  rewrite (proj2 (seq_offset_0 _ _ (ro_next _ Hrx) (ht_seq _ (proj1 Hp))))
    by (rewrite Hs; symmetry; apply Hrep).
  rewrite Z.eqb_refl.
  destruct (receive_front r rx Hrep Hrx) as (t & Ht' & Hz & Hr & Ha).
  rewrite Hr in Hgap |- *. rewrite Ha. cbn [snd rc_ahead] in *.
  apply set_choose_L in Hgap as (y & Hy). apply elem_of_filter in Hy as [Hlt Hy].
  destruct Hrep as [_ Hb]. apply Hb in Hy as [Hy Hbit].
  destruct (top_bit 64 (Z.shiftr (received_bits rx) t) (y - rc_front r - 1 - t))
    as (j & Hj & Hset & Hclear).
  { lia. }
  { apply shiftr_range; [lia|apply Hrx]. }
  { lia. }
  { rewrite Z.shiftr_spec by lia. by replace (_ + t) with (y - rc_front r - 1) by lia. }
  exists (rc_front r + 1 + t + (1 + j)).
  rewrite Z.shiftr_spec in Hset, Hclear by lia.
  assert (Hjt : j + t < 64) by (apply (testbit_lt 64 (received_bits rx)); [apply Hrx|lia|done]).
  split; [unfold near; lia|]. split.
  - intros [Hf'|Hin]; cbn in *; [lia|]. apply elem_of_filter in Hin as [_ Hin].
    apply Hb in Hin as [_ Hin].
    replace (_ - rc_front r - 1) with (j + 1 + t) in Hin by lia. congruence.
  - cbn. rewrite is_acked_spec, <- (u32_add_l (rc_front r + 1 + t)).
    rewrite seq_offset_add by (unfold is_u32; lia).
    replace (1 + j - 1) with j by lia. rewrite Z.shiftr_spec, Hset by lia.
    apply orb_true_iff. right. lia.
Qed.

Lemma gap_fill_claims_unreceived_witness :
  let rx := default_rx <| next_expected := 10 |> <| received_bits := 2 |> in
  let rx' := snd (update_reliable_receive_state (data_packet ReliableUnordered 10 [7])
                    KindNone rx) in
  exists x, near (mk_receiver 10 {[12]}) x /\
    ~ received (snd (receive 10 (mk_receiver 10 {[12]}))) x /\
    is_acknowledged_by_remote (u32 x) (next_expected rx') (received_bits rx') = true.
Proof.
  intros rx. apply (gap_fill_claims_unreceived (mk_receiver 10 {[12]}) rx _ KindNone).
  - apply data_packet_ok; [done|unfold is_u32; lia|repeat constructor; lia].
  - pose proof default_rx_ok as []. constructor; simpl; try done; word_unfold; lia.
  - reflexivity.
  - reflexivity.
  - discriminate.
  - split; [done|]. intros y. cbn. rewrite elem_of_singleton. split; [intros ->; split; [lia|done]|].
    intros [Hy Hb]. destruct (Z.eq_dec y 11) as [->|]; [done|].
    destruct (Z.eq_dec y 12) as [->|]; [done|].
    rewrite (testbit_high 2) in Hb; [done|lia|lia].
  - apply (bool_decide_unpack _). vm_compute. exact I.
Defined.

(** *** Monotonic state *)

(** [newer_chain cur vs last]: [vs] are versions each newer (modulo 2^32, by less
    than half the space) than the one before, starting after [cur] and ending
    with [last]. *)
Inductive newer_chain : option Z -> list Z -> option Z -> Prop :=
| chain_nil cur : newer_chain cur [] cur
| chain_cons cur v vs last :
    (forall c, cur = Some c -> 0 < s32 (v - c)) ->
    newer_chain (Some v) vs last -> newer_chain cur (v :: vs) last.

Lemma newer_chain_app cur vs1 mid vs2 last :
  newer_chain cur vs1 mid -> newer_chain mid vs2 last -> newer_chain cur (vs1 ++ vs2) last.
Proof. induction 1; simpl; intros; [done|by constructor; auto]. Qed.

Definition is_state_event (channel : Z) (e : SessionEvent) : bool :=
  bool_decide (ev_channel_type e = MonotonicState) && (ev_channel_id e =? channel).

Definition state_versions (channel : Z) (evs : list SessionEvent) : list Z :=
  map (fun e => readU32 (ev_payload e) 0) (List.filter (is_state_event channel) evs).

Definition versions_progress (rx : RxSessionState) (new : list SessionEvent)
    (rx' : RxSessionState) : Prop :=
  forall c, newer_chain (monotonic_versions rx !! c) (state_versions c new)
              (monotonic_versions rx' !! c).

Lemma handle_monotonic_state_progress packet rx :
  hdr_channel_type (pv_header packet) = MonotonicState ->
  let rx' := handle_monotonic_state packet rx in
  exists new, pending_events rx' = pending_events rx ++ new /\ versions_progress rx new rx'.
Proof.
  intros Ht. unfold handle_monotonic_state. cbn zeta.
  assert (Hnone : exists new, pending_events rx = pending_events rx ++ new /\
    versions_progress rx new rx).
  { exists []. rewrite app_nil_r. split; [done|]. intros c. constructor. }
  case_match; [done|].
  set (v := payload_version _). set (k := hdr_channel_id _).
  assert (Hdel : (forall cur, monotonic_versions rx !! k = Some cur -> 0 < s32 (v - cur)) ->
    let rx' := rx <| monotonic_versions ::= fun m => <[k := v]> m |>
                  <| pending_events ::= fun evs => evs ++ [make_data_event packet] |> in
    exists new, pending_events rx' = pending_events rx ++ new /\ versions_progress rx new rx').
  { intros Hnew. exists [make_data_event packet]. split; [done|]. intros c.
    unfold state_versions, is_state_event. cbn. rewrite Ht. cbn. fold k.
    destruct (Z.eqb_spec k c) as [<-|Hne].
    - rewrite lookup_insert_eq. cbn. apply chain_cons; [done|constructor].
    - rewrite lookup_insert_ne by done. constructor. }
  destruct (monotonic_versions rx !! k) as [cur|] eqn:E; [|apply Hdel; intros ? [=]].
  destruct (Z.leb_spec (s32 (v - cur)) 0); [done|]. apply Hdel. intros ? [= <-]. lia.
Qed.

Lemma not_state_events c t evs :
  t <> MonotonicState -> Forall (fun e => ev_channel_type e = t) evs -> state_versions c evs = [].
Proof.
  intros Ht He. unfold state_versions. induction He as [|e evs He Hes IH]; [done|]. simpl.
  unfold is_state_event at 1. by rewrite He, bool_decide_eq_false_2.
Qed.

Lemma handle_reliable_ordered_versions packet rx :
  packet_ok packet -> hdr_channel_type (pv_header packet) = ReliableOrdered -> rx_ok rx ->
  let rx' := handle_reliable_ordered packet rx in
  exists new, pending_events rx' = pending_events rx ++ new /\ versions_progress rx new rx'.
Proof.
  intros Hp Hc Hrx. destruct (assign_buffer_ok packet rx Hp Hc Hrx) as [_ Hb].
  destruct (handle_reliable_ordered_run packet rx) as (evs & buf' & n' & Hrun & ->).
  destruct (ordered_run_seqs _ _ _ _ _ Hrun Hb (ordered_front_u32 _ _ Hp Hrx)) as [_ Hall].
  exists evs. split; [done|]. intros c. rewrite (not_state_events c ReliableOrdered).
  - constructor.
  - done.
  - eapply Forall_impl; [exact Hall|]. intros e He. by apply bool_decide_eq_true in He.
Qed.

Lemma on_packet_versions packet kind rx :
  packet_ok packet -> rx_ok rx ->
  let rx' := snd (on_packet packet kind rx) in
  exists new, pending_events rx' = pending_events rx ++ new /\ versions_progress rx new rx'.
Proof.
  intros Hp Hrx. unfold on_packet.
  pose proof (update_reliable_receive_state_ok packet kind rx Hp Hrx) as Hok.
  destruct (update_frame packet kind rx Hp Hrx) as (n & b & Hfr).
  destruct (update_reliable_receive_state packet kind rx) as [[d a] rx1]. cbn [snd] in *.
  assert (Hkeep : forall rx', (exists new, pending_events rx' = pending_events rx1 ++ new /\
                                          versions_progress rx1 new rx') ->
    exists new, pending_events rx' = pending_events rx ++ new /\ versions_progress rx new rx')
    by (subst rx1; intros rx' (new & H1 & H2); by exists new).
  assert (Hone : hdr_channel_type (pv_header packet) <> MonotonicState ->
    versions_progress rx1 [make_data_event packet]
      (rx1 <| pending_events ::= fun evs => evs ++ [make_data_event packet] |>)).
  { intros Hne c. rewrite (not_state_events c (hdr_channel_type (pv_header packet)));
      [constructor|done|by repeat constructor]. }
  assert (Hnone : exists new, pending_events rx1 = pending_events rx1 ++ new /\
                              versions_progress rx1 new rx1)
    by (exists []; rewrite app_nil_r; split; [done|constructor]).
  destruct (is_control_only kind || negb d); cbn [snd]; [by apply Hkeep|].
  destruct (hdr_channel_type (pv_header packet)) eqn:Ec; apply Hkeep.
  - by apply handle_reliable_ordered_versions.
  - eexists. split; [done|by apply Hone].
  - eexists. split; [done|by apply Hone].
  - by apply handle_monotonic_state_progress.
  - done.
Qed.

Lemma rx_run_versions ps rx :
  Forall (fun p => packet_ok (fst p)) ps -> rx_ok rx ->
  exists new, pending_events (rx_run ps rx) = pending_events rx ++ new /\
              versions_progress rx new (rx_run ps rx).
Proof.
  intros Hps. revert rx. induction Hps as [|[p k] ps Hp Hps IH]; intros rx Hrx.
  { exists []. rewrite app_nil_r. split; [done|constructor]. }
  destruct (on_packet_versions p k rx Hp Hrx) as (new1 & E1 & P1).
  destruct (IH (snd (on_packet p k rx))) as (new2 & E2 & P2); [by apply on_packet_ok|].
  exists (new1 ++ new2). split.
  - change (rx_run ((p, k) :: ps) rx) with (rx_run ps (snd (on_packet p k rx))).
    by rewrite E2, E1, app_assoc.
  - intros c. unfold state_versions. rewrite List.filter_app, map_app.
    eapply newer_chain_app; [apply P1|apply P2].
Qed.

Lemma on_packet_newer_state packet rx :
  hdr_channel_type (pv_header packet) = MonotonicState ->
  (4 <= length (pv_payload packet))%nat ->
  (forall cur, monotonic_versions rx !! hdr_channel_id (pv_header packet) = Some cur ->
     0 < s32 (readU32 (pv_payload packet) 0 - cur)) ->
  pending_events (snd (on_packet packet KindNone rx)) =
    pending_events rx ++ [make_data_event packet].
Proof.
  intros Ht Hl Hnew. unfold on_packet. rewrite update_untracked.
  2:{ unfold tracked. by rewrite Ht. }
  rewrite Ht. cbn [snd is_control_only negb orb]. unfold handle_monotonic_state.
  rewrite (proj2 (Nat.ltb_ge _ _)), payload_version_readU32 by done. cbn zeta.
  destruct (monotonic_versions rx !! _) as [cur|] eqn:E; [|done].
  by rewrite (proj2 (Z.leb_gt _ _)) by (by apply Hnew).
Qed.

(** C18: only newer state is delivered. Whatever packets arrive, the versions
    (first four payload bytes, big endian) of the monotonic-state events delivered
    on one channel are each strictly newer, modulo 2^32, than the one before and
    than the version known at the start, and the stored version is the last one
    delivered: stale and repeated states are never delivered. A state that is
    newer than the stored one is delivered at once. *)
Theorem monotonic_state_newer ps rx :
  Forall (fun p => packet_ok (fst p)) ps -> rx_ok rx ->
  exists new, pending_events (rx_run ps rx) = pending_events rx ++ new /\
    (forall c, newer_chain (monotonic_versions rx !! c) (state_versions c new)
                 (monotonic_versions (rx_run ps rx) !! c)) /\
    (forall packet, hdr_channel_type (pv_header packet) = MonotonicState ->
       (4 <= length (pv_payload packet))%nat ->
       (forall cur, monotonic_versions (rx_run ps rx) !! hdr_channel_id (pv_header packet) = Some cur ->
          0 < s32 (readU32 (pv_payload packet) 0 - cur)) ->
       pending_events (snd (on_packet packet KindNone (rx_run ps rx))) =
         pending_events rx ++ new ++ [make_data_event packet]).
Proof.
  intros Hps Hrx. destruct (rx_run_versions ps rx Hps Hrx) as (new & E & Hc).
  exists new. split; [done|]. split; [done|]. intros packet Ht Hl Hnew.
  rewrite on_packet_newer_state by done. by rewrite E, app_assoc.
Qed.

Lemma monotonic_state_newer_witness :
  let ps := [(data_packet MonotonicState 0 [0; 0; 0; 5], KindNone);
             (data_packet MonotonicState 0 [0; 0; 0; 4], KindNone);
             (data_packet MonotonicState 0 [0; 0; 0; 9], KindNone)] in
  exists new, pending_events (rx_run ps default_rx) = new /\ state_versions 1 new = [5; 9] /\
    newer_chain None (state_versions 1 new) (Some 9).
Proof.
  intros ps. destruct (monotonic_state_newer ps default_rx) as (new & E & Hc).
  - repeat (apply Forall_cons_2; [apply data_packet_ok; [done|unfold is_u32; lia|]|]);
      repeat constructor; lia.
  - apply default_rx_ok.
  - exists new. change (pending_events default_rx ++ new) with new in E.
    split; [exact E|]. split; [rewrite <- E; vm_compute; reflexivity|]. exact (proj1 Hc 1).
Defined.
