(* ===== verification/RxHazards.v ===== *)
(** Three boundary behaviours of the receive side: ordered delivery waits for the
    exact next number of a sequence space it shares with the other channels, an
    expected number of 0 is read as "nothing received yet", and a pure
    acknowledgement is recorded as the packet numbered 0. *)

From S2P Require Import Prelude StdMap Protocol Utils Codec SessionTypes.
From S2P Require Import ConnectionStateMachine TxHandler RxHandler RxInvariant RxRefinement.

(** ** Ordered delivery waits *)

(** The packet is not the one ordered delivery waits for. *)
Definition not_awaited (rx : RxSessionState) (packet : PacketView) : Prop :=
  hdr_channel_type (pv_header packet) = ReliableOrdered ->
  hdr_seq (pv_header packet) <> next_ordered_delivery rx.

Definition ordered_unchanged (rx rx' : RxSessionState) : Prop :=
  ordered_delivery_started rx' = ordered_delivery_started rx /\
  next_ordered_delivery rx' = next_ordered_delivery rx /\
  exists new, pending_events rx' = pending_events rx ++ new /\
              List.filter is_ordered_event new = [].

Lemma handle_reliable_ordered_waits packet rx :
  rx_ok rx -> ordered_delivery_started rx = true ->
  hdr_seq (pv_header packet) <> next_ordered_delivery rx ->
  ordered_unchanged rx (handle_reliable_ordered packet rx).
Proof.
  intros Hrx Hst Hne.
  destruct (handle_reliable_ordered_run packet rx) as (evs & buf' & n' & Hrun & ->).
  unfold ordered_front in Hrun. rewrite Hst in Hrun.
  assert (Hno : smap_find (next_ordered_delivery rx)
    (smap_assign (hdr_seq (pv_header packet)) (make_owned_packet packet)
       (ordered_reorder_buffer rx)) = None).
  { rewrite smap_find_assign by apply Hrx. rewrite (proj2 (Z.eqb_neq _ _)) by congruence. apply Hrx. }
  inversion Hrun; subst; [|congruence]. split; [by rewrite Hst|]. split; [done|].
  exists []. done.
Qed.

Lemma on_packet_waits packet kind rx :
  packet_ok packet -> rx_ok rx -> ordered_delivery_started rx = true -> not_awaited rx packet ->
  ordered_unchanged rx (snd (on_packet packet kind rx)).
Proof.
  intros Hp Hrx Hst Hno. unfold on_packet.
  pose proof (update_reliable_receive_state_ok packet kind rx Hp Hrx) as Hok.
  destruct (update_frame packet kind rx Hp Hrx) as (n & b & Hfr).
  destruct (update_reliable_receive_state packet kind rx) as [[d a] rx1]. cbn [snd] in *.
  assert (Hkeep : forall rx', ordered_unchanged rx1 rx' -> ordered_unchanged rx rx')
    by (by subst rx1).
  assert (Hsame : ordered_unchanged rx1 rx1)
    by (split; [done|]; split; [done|]; exists []; by rewrite app_nil_r).
  apply Hkeep. destruct (is_control_only kind || negb d); cbn [snd]; [done|].
  destruct (hdr_channel_type (pv_header packet)) eqn:Ec.
  - apply handle_reliable_ordered_waits; [done|by subst rx1|]. subst rx1. by apply Hno.
  - split; [done|]. split; [done|]. exists [make_data_event packet]. split; [done|]. cbn.
    unfold is_ordered_event. cbn. by rewrite Ec.
  - split; [done|]. split; [done|]. exists [make_data_event packet]. split; [done|]. cbn.
    unfold is_ordered_event. cbn. by rewrite Ec.
  - destruct (handle_monotonic_state_delivery packet rx1) as (new & H1 & H2 & H3 & H4 & _).
    split; [done|]. split; [done|]. exists new. split; [done|]. rewrite Ec in H2.
    clear -H2. induction H2 as [|e l He Hl IH]; [done|]. cbn.
    unfold is_ordered_event. by rewrite bool_decide_eq_false_2 by congruence.
  - done.
Qed.

(** C20: ordered delivery never skips a number: once started, as long as the
    packet with number [next_ordered_delivery] does not arrive on a
    reliable-ordered channel, no ordered data is delivered, whatever else
    arrives. Reliable-unordered data, SYN and FIN take their numbers from the same
    sequence, so when one of them has that number, ordered delivery stops for
    good. *)
Theorem ordered_delivery_waits ps rx :
  Forall (fun p => packet_ok (fst p) /\ not_awaited rx (fst p)) ps -> rx_ok rx ->
  ordered_delivery_started rx = true -> ordered_unchanged rx (rx_run ps rx).
Proof.
  intros Hps. revert rx Hps.
  induction ps as [|[p k] ps IH]; intros rx Hps Hrx Hst.
  { split; [done|]. split; [done|]. exists []. by rewrite app_nil_r. }
  apply Forall_cons in Hps as [[Hp Hno] Hps]. cbn [fst] in *.
  destruct (on_packet_waits p k rx Hp Hrx Hst Hno) as (E1 & E2 & new1 & E3 & E4).
  change (rx_run ((p, k) :: ps) rx) with (rx_run ps (snd (on_packet p k rx))).
  destruct (IH (snd (on_packet p k rx))) as (F1 & F2 & new2 & F3 & F4).
  - unfold not_awaited in *. by rewrite E2.
  - by apply on_packet_ok.
  - congruence.
  - split; [congruence|]. split; [congruence|]. exists (new1 ++ new2).
    split; [by rewrite F3, E3, app_assoc|]. by rewrite List.filter_app, E4, F4.
Qed.

Lemma ordered_delivery_waits_witness :
  let rx := snd (on_packet (data_packet ReliableOrdered 10 [1]) KindNone default_rx) in
  let ps := [(data_packet ReliableUnordered 11 [2], KindNone);
             (data_packet ReliableOrdered 12 [3], KindNone)] in
  ordered_unchanged rx (rx_run ps rx).
Proof.
  intros rx ps. apply ordered_delivery_waits.
  - repeat (apply Forall_cons_2; [split; [apply data_packet_ok; [done|unfold is_u32; lia|
      repeat constructor; lia]|]|]); [intros E; discriminate E|intros _; vm_compute; discriminate|constructor].
  - apply on_packet_ok; [|apply default_rx_ok].
    apply data_packet_ok; [done|unfold is_u32; lia|repeat constructor; lia].
  - vm_compute. reflexivity.
Defined.

(** ** An expected number of 0 *)

(** When the expected number wraps around to exactly 0, the next tracked
    packet is taken for the first one: a packet [d] numbers ahead moves the front
    past itself, and the acknowledgement fields then claim the packet numbered 0,
    which was never received. *)
Theorem front_zero_skips packet kind rx r d :
  packet_ok packet -> rx_ok rx -> tracked packet kind = true -> represents r rx ->
  u32 (rc_front r) = 0 -> 1 <= d <= 64 -> hdr_seq (pv_header packet) = u32 (rc_front r + d) ->
  let rx' := snd (update_reliable_receive_state packet kind rx) in
  ~ received r (rc_front r) /\
  is_acknowledged_by_remote (u32 (rc_front r)) (next_expected rx') (received_bits rx') = true.
Proof.
  intros Hp Hrx Ht [Hn Hb] H0 Hd Hs. split.
  { intros [|Hin]; [lia|]. apply Hb in Hin. lia. }
  rewrite update_tracked by (done || apply Hp || apply Hrx). cbn [snd].
  assert (Hf : rx_front packet rx = u32 (rc_front r + d)).
  { unfold rx_front. by rewrite Hn, H0. }
  rewrite Hf, Hs, (proj2 (seq_offset_0 _ _ (u32_range _) (u32_range _)) eq_refl), Z.eqb_refl.
  destruct (advance_receive_window_run (rx <| next_expected := u32 (rc_front r + d) |>))
    as (t & Ht' & _ & _ & ->); [apply Hrx|]. cbn.
  rewrite is_acked_spec. apply orb_true_iff. left. rewrite H0. unfold seq_offset.
  rewrite <- (u32_add_l (rc_front r)), H0. autorewrite with u32. word_lia.
Qed.

Lemma front_zero_skips_witness :
  let r := mk_receiver (2 ^ 32) ∅ in
  let rx' := snd (update_reliable_receive_state (data_packet ReliableUnordered 3 [7]) KindNone
                    default_rx) in
  ~ received r (2 ^ 32) /\
  is_acknowledged_by_remote (u32 (2 ^ 32)) (next_expected rx') (received_bits rx') = true.
Proof.
  intros r. apply (front_zero_skips (data_packet ReliableUnordered 3 [7]) KindNone default_rx r 3).
  - apply data_packet_ok; [done|unfold is_u32; lia|repeat constructor; lia].
  - apply default_rx_ok.
  - reflexivity.
  - split; [reflexivity|]. intros y. cbn. rewrite Z.testbit_0_l. split; [set_solver|by intros []].
  - reflexivity.
  - lia.
  - reflexivity.
Defined.

(** ** The number of a pure acknowledgement *)

(** A pure ACK is tracked, with the number 0 it carries. *)
Lemma ack_tracked h : tracked {| pv_header := h; pv_payload := [] |} KindAck = true.
Proof. unfold tracked. cbn. by rewrite !orb_true_r. Qed.

Definition zero_claimed (rx : RxSessionState) : bool :=
  is_acknowledged_by_remote 0 (next_expected rx) (received_bits rx).

(** A number that was claimed is not accepted any more. *)
Lemma claimed_dropped packet rx :
  packet_ok packet -> rx_ok rx -> isReliableChannel (hdr_channel_type (pv_header packet)) = true ->
  hdr_seq (pv_header packet) = 0 -> next_expected rx <> 0 -> zero_claimed rx = true ->
  pending_events (snd (on_packet packet KindNone rx)) = pending_events rx.
Proof.
  intros Hp Hrx Hr Hs Hn Hz. unfold zero_claimed in Hz. rewrite is_acked_spec in Hz.
  assert (Ht : tracked packet KindNone = true) by (unfold tracked; by rewrite Hr).
  unfold on_packet. destruct (update_frame packet KindNone rx Hp Hrx) as (n & b & Ef).
  rewrite update_tracked in * by (done || apply Hp || apply Hrx). cbn [snd] in Ef.
  assert (Hf : rx_front packet rx = next_expected rx)
    by (unfold rx_front; by rewrite (proj2 (Z.eqb_neq _ _))).
  rewrite Hf, Hs in *. pose proof (seq_offset_range (next_expected rx) 0) as Ho.
  set (off := seq_offset (next_expected rx) 0) in *.
  assert (Hd : (if off =? 0 then true
    else if off <=? 64 then negb (Z.testbit (received_bits rx) (off - 1)) else false) = false).
  { destruct (Z.eqb_spec off 0) as [E|E]; [rewrite E in Hz; cbn in Hz; discriminate Hz|].
    destruct (Z.leb_spec off 64); [|done]. rewrite (proj2 (Z.leb_gt _ _)) in Hz by lia.
    cbn [orb] in Hz. apply andb_true_iff in Hz as [_ ->]. done. }
  rewrite Hd. cbn [negb]. rewrite orb_true_r. cbn [snd]. by rewrite Ef.
Qed.

(** C22: a pure acknowledgement can count as data. Every acknowledgement-only
    packet carries the sequence number 0, and the receive side records that number
    like any other: when its front is 0 or within 64 below the wrap, number 0
    counts as received although it was not, the acknowledgement fields claim it,
    and the data packet numbered 0 is dropped when it arrives. *)
Theorem pure_ack_counts_as_data h packet rx :
  packet_ok {| pv_header := h; pv_payload := [] |} -> hdr_seq h = 0 -> rx_ok rx ->
  next_expected rx = 0 \/ 2 ^ 32 - 64 <= next_expected rx ->
  packet_ok packet -> isReliableChannel (hdr_channel_type (pv_header packet)) = true ->
  hdr_seq (pv_header packet) = 0 ->
  let rx' := snd (on_packet {| pv_header := h; pv_payload := [] |} KindAck rx) in
  zero_claimed rx' = true /\
  pending_events (snd (on_packet packet KindNone rx')) = pending_events rx.
Proof.
  intros Hh H0 Hrx Hfront Hp Hr Hs.
  set (ack := {| pv_header := h; pv_payload := [] |}). cbn zeta.
  pose proof (on_packet_ok ack KindAck rx Hh Hrx) as Hok'.
  assert (E : snd (on_packet ack KindAck rx) = snd (update_reliable_receive_state ack KindAck rx)).
  { unfold on_packet. by destruct (update_reliable_receive_state ack KindAck rx) as [[[] ?] ?]. }
  rewrite E in *. destruct (update_frame ack KindAck rx Hh Hrx) as (n & b & Ef).
  rewrite update_tracked in * by (apply ack_tracked || apply Hh || apply Hrx). cbn [snd] in *.
  change (hdr_seq (pv_header ack)) with (hdr_seq h) in *. rewrite H0 in *.
  assert (Hz : next_expected (rx <| next_expected := n |> <| received_bits := b |>) <> 0 /\
    zero_claimed (rx <| next_expected := n |> <| received_bits := b |>) = true).
  2: { rewrite Ef in *. destruct Hz as [Hn Hz]. split; [exact Hz|].
       by rewrite claimed_dropped. }
  rewrite <- Ef. unfold zero_claimed. rewrite is_acked_spec. destruct Hrx as [Un Ub _ _ _ _ _].
  destruct (Z.eq_dec (next_expected rx) 0) as [Hz|Hz].
  - assert (rx_front ack rx = 0) as -> by (unfold rx_front; rewrite Hz; exact H0).
    change (seq_offset 0 0 =? 0) with true. cbv iota.
    destruct (advance_receive_window_run (rx <| next_expected := 0 |>)) as (t & Ht & _ & _ & ->);
      [done|]. cbn. unfold seq_offset. autorewrite with u32.
    split; [word_lia|]. apply orb_true_iff. left. word_lia.
  - assert (rx_front ack rx = next_expected rx) as ->
      by (unfold rx_front; by rewrite (proj2 (Z.eqb_neq _ _))).
    assert (Hoff : 1 <= seq_offset (next_expected rx) 0 <= 64) by (unfold seq_offset; word_lia).
    rewrite (proj2 (Z.eqb_neq _ _)), (proj2 (Z.leb_le _ 64)) by lia. cbn.
    split; [done|]. apply orb_true_iff. right.
    rewrite (proj2 (Z.leb_le 1 _)), (proj2 (Z.leb_le _ 64)) by lia.
    rewrite Z.lor_spec, Z.pow2_bits_true by lia. by rewrite orb_true_r.
Qed.

Lemma pure_ack_counts_as_data_witness :
  let rx := default_rx <| next_expected := 2 ^ 32 - 1 |> in
  let rx' := snd (on_packet {| pv_header := default_header <| hdr_flags := 0x20 |>;
                               pv_payload := [] |} KindAck rx) in
  zero_claimed rx' = true /\
  pending_events (snd (on_packet (data_packet ReliableUnordered 0 [7]) KindNone rx')) =
    pending_events rx.
Proof.
  apply (pure_ack_counts_as_data (default_header <| hdr_flags := 0x20 |>)
    (data_packet ReliableUnordered 0 [7]) (default_rx <| next_expected := 2 ^ 32 - 1 |>)).
  - split; [|constructor]. constructor; cbn; try done; word_unfold; lia.
  - reflexivity.
  - apply rx_ok_next; [unfold is_u32; lia|apply default_rx_ok].
  - right. cbn. lia.
  - apply data_packet_ok; [done|unfold is_u32; lia|apply Forall_singleton; unfold is_u8; lia].
  - reflexivity.
  - reflexivity.
Defined.
