(* ===== verification/Session.v ===== *)
(** One connection ([src/Session.cpp], [include/Rudp/Session.hpp]): it owns the TX,
    RX and connection state and composes the codec, the state machine and the two
    handlers.

    [cfg] stands for [Config::current().transport]. Mutation of [state_] is state
    passing; the two stateless handler objects disappear. *)

From S2P Require Import Prelude StdMap Protocol Utils Codec Config SessionTypes.
From S2P Require Import ConnectionStateMachine TxHandler RxHandler.

(** ** Events *)

(** [generate_initial_seq], with the two words the random device returned. *)
Definition generate_initial_seq (rd1 rd2 : Z) : Z :=
  let upper := u32 (Z.shiftl (u32 rd1) 16) in
  let lower := Z.land (u32 rd2) 0xffff in
  Z.lxor upper lower.

Definition emit_local_error (error_message : string) (rx : RxSessionState) : RxSessionState :=
  rx <| pending_events ::= fun evs => evs ++
    [{| ev_type := ErrorEvent; ev_seq := 0; ev_channel_id := 0;
        ev_channel_type := Unreliable; ev_payload := [];
        ev_error_message := error_message |}] |>.

Definition emit_control_event (type : EventType) (packet : PacketView) (error_message : string)
    (rx : RxSessionState) : RxSessionState :=
  rx <| pending_events ::= fun evs => evs ++
    [{| ev_type := type; ev_seq := hdr_seq (pv_header packet);
        ev_channel_id := hdr_channel_id (pv_header packet);
        ev_channel_type := hdr_channel_type (pv_header packet); ev_payload := [];
        ev_error_message := error_message |}] |>.

(** ** Receive-side guards *)

Definition should_adopt_server_conn_id (state : SessionState) (control_kind : ControlKind)
    (header : Header) : bool :=
  bool_decide (st_role state = Client) && bool_decide (control_kind = KindSynAck) &&
  (st_conn_id state =? 0) && negb (hdr_conn_id header =? 0).

Definition allows_server_zero_conn_id_bootstrap (state : SessionState) (header : Header) : bool :=
  bool_decide (st_role state = Server) && bool_decide (st_connection_state state = Closed) &&
  (hdr_conn_id header =? 0).

Definition has_conn_id_mismatch (state : SessionState) (control_kind : ControlKind)
    (header : Header) : bool :=
  negb (st_conn_id state =? 0) && negb (bool_decide (control_kind = KindSyn)) &&
  negb (allows_server_zero_conn_id_bootstrap state header) &&
  negb (hdr_conn_id header =? st_conn_id state).

Definition is_duplicate_client_syn_ack (state : SessionState) (control_kind : ControlKind)
    : bool :=
  bool_decide (st_role state = Client) &&
  bool_decide (st_connection_state state = Established) &&
  bool_decide (control_kind = KindSynAck).

Definition adopt_server_conn_id (header : Header) (state : SessionState) : SessionState :=
  state <| st_conn_id := hdr_conn_id header |>.

Definition reset_for_conn_id_mismatch (state : SessionState) : SessionState :=
  state <| st_connection_state := Reset |> <| st_rx ::= emit_local_error "conn_id mismatch" |>.

Definition schedule_final_ack_during_linger (now_ms : Z) (state : SessionState) : SessionState :=
  if now_ms <=? final_ack_linger_until_ms (st_tx state)
  then state <| st_tx ::= fun tx => tx <| final_ack_pending := true |> |>
  else state.

Definition should_apply_remote_ack (control_kind : ControlKind) : bool :=
  negb (bool_decide (control_kind = KindSyn)).

(** Returns the TX state and [ack_result.acknowledged_fin]. *)
Definition apply_remote_ack (cfg : TransportSettings) (header : Header)
    (control_kind : ControlKind) (tx : TxSessionState) : TxSessionState * bool :=
  if negb (should_apply_remote_ack control_kind) then (tx, false)
  else on_remote_ack cfg (hdr_ack header) (hdr_ack_bits header) tx.

Definition should_close_after_fin_acknowledgement (state : SessionState)
    (acknowledged_fin : bool) : bool :=
  acknowledged_fin && bool_decide (st_connection_state state = Closing).

Definition close_after_fin_acknowledgement (packet : PacketView) (state : SessionState)
    : SessionState :=
  state <| st_connection_state := Closed |>
        <| st_rx ::= emit_control_event ConnectionClosed packet "" |>.

Definition emit_connection_decision_events (packet : PacketView) (decision : ConnectionDecision)
    (rx : RxSessionState) : RxSessionState :=
  let rx := if dec_emit_connected decision
            then emit_control_event Connected packet "" rx else rx in
  let rx := if dec_emit_connection_closed decision
            then emit_control_event ConnectionClosed packet "" rx else rx in
  if dec_emit_connection_reset decision
  then emit_control_event ConnectionReset packet "" rx else rx.

(** ** Timers *)

Definition should_schedule_probe (cfg : TransportSettings) (state : SessionState) (now_ms : Z)
    : bool :=
  let p := probe (st_tx state) in
  if negb (bool_decide (st_role state = Client)) ||
     negb (bool_decide (st_connection_state state = Established)) ||
     ping_outstanding p || ping_pending p || pong_pending p
  then false
  else
    let probe_baseline :=
      if negb (probe_last_sent_ms p =? 0) then probe_last_sent_ms p
      else st_established_since_ms state in
    u64 (probe_baseline + keepalive_idle_ms cfg) <=? now_ms.

Definition should_schedule_activity_ack (cfg : TransportSettings) (state : SessionState)
    (now_ms : Z) : bool :=
  if negb (enable_activity_ack_only cfg) then false
  else
    let tx := st_tx state in
    if negb (bool_decide (st_connection_state state = Established)) ||
       negb (activity_ack_pending tx) || ack_only_pending tx ||
       ping_pending (probe tx) || pong_pending (probe tx)
    then false
    else u64 (st_last_tx_ms state + keepalive_idle_ms cfg) <=? now_ms.

Definition should_schedule_reliable_ack (state : SessionState) (now_ms : Z) : bool :=
  let tx := st_tx state in
  if negb (bool_decide (st_connection_state state = Established)) ||
     negb (reliable_ack_pending tx) || ack_only_pending tx ||
     ping_pending (probe tx) || pong_pending (probe tx)
  then false
  else reliable_ack_due_ms tx <=? now_ms.

Definition should_timeout_idle_session (cfg : TransportSettings) (state : SessionState)
    (now_ms : Z) : bool :=
  if negb (bool_decide (st_connection_state state = Established)) then false
  else u64 (st_last_rx_ms state + idle_timeout_ms cfg) <=? now_ms.

Definition mark_idle_timeout (state : SessionState) : SessionState :=
  state <| st_connection_state := Reset |> <| st_rx ::= emit_local_error "idle timeout" |>.

Definition schedule_pending_tx_work (cfg : TransportSettings) (now_ms : Z) (state : SessionState)
    : SessionState :=
  if should_schedule_reliable_ack state now_ms then
    state <| st_tx ::= fun tx => tx <| ack_only_pending := true |>
                                    <| reliable_ack_pending := false |> |>
  else if should_schedule_activity_ack cfg state now_ms then
    state <| st_tx ::= fun tx => tx <| ack_only_pending := true |> |>
  else if should_schedule_probe cfg state now_ms then
    state <| st_tx ::= fun tx => tx <| probe ::= fun p => p <| ping_pending := true |> |> |>
  else state.

(** ** Statistics *)

Definition incr (n : Z) : Z := u64 (n + 1).

Definition record_received_stats (control_kind : ControlKind) (datagram_size now_ms : Z)
    (state : SessionState) : SessionState :=
  let state := state <| st_last_rx_ms := now_ms |> in
  let stats := st_stats state in
  let stats := stats <| packets_received ::= incr |>
                     <| bytes_received ::= fun b => u64 (b + datagram_size) |> in
  let stats :=
    if negb (bool_decide (control_kind = KindNone))
    then stats <| control_packets_received ::= incr |>
    else stats <| data_packets_received ::= incr |> in
  let stats :=
    if bool_decide (control_kind = KindPing) then stats <| pings_received ::= incr |>
    else if bool_decide (control_kind = KindPong) then stats <| pongs_received ::= incr |>
    else stats in
  state <| st_stats := stats |>.

Definition record_outbound_stats (packet : PacketView) (datagram_size now_ms : Z)
    (is_retransmission : bool) (state : SessionState) : SessionState :=
  let state := state <| st_last_tx_ms := now_ms |> in
  let stats := st_stats state in
  let stats := stats <| packets_sent ::= incr |>
                     <| bytes_sent ::= fun b => u64 (b + datagram_size) |> in
  let control_kind := classify_control_kind (pv_header packet) in
  let stats :=
    if negb (bool_decide (control_kind = KindNone))
    then stats <| control_packets_sent ::= incr |>
    else stats <| data_packets_sent ::= incr |> in
  let stats :=
    if bool_decide (control_kind = KindPing) then stats <| pings_sent ::= incr |>
    else if bool_decide (control_kind = KindPong) then stats <| pongs_sent ::= incr |>
    else stats in
  let stats := if is_retransmission then stats <| retransmissions_sent ::= incr |> else stats in
  state <| st_stats := stats |>.

Definition update_outbound_probe_state (control_kind : ControlKind) (now_ms : Z)
    (state : SessionState) : SessionState :=
  if negb (bool_decide (control_kind = KindPing)) then state
  else
    state <| st_tx ::= fun tx => tx <| probe ::= fun p =>
      p <| ping_outstanding := true |> <| probe_last_sent_ms := now_ms |>
        <| last_ping_sent_ms := now_ms |> |> |>.

Definition clear_outbound_ack_state (control_kind : ControlKind) (state : SessionState)
    : SessionState :=
  let state := state <| st_tx ::= fun tx => tx <| activity_ack_pending := false |> |> in
  if bool_decide (control_kind = KindAck)
  then state <| st_tx ::= fun tx => tx <| reliable_ack_pending := false |> |>
  else state.

Definition apply_outbound_result (datagram : bytes) (now_ms : Z) (is_retransmission : bool)
    (state : SessionState) : SessionState :=
  match decode datagram with
  | None => state
  | Some decoded =>
      let control_kind := classify_control_kind (pv_header decoded) in
      let state := update_outbound_probe_state control_kind now_ms state in
      let state := record_outbound_stats decoded (Z.of_nat (length datagram)) now_ms
                     is_retransmission state in
      clear_outbound_ack_state control_kind state
  end.

(** ** Probes and scheduling *)

Definition record_rtt (rtt_ms : Z) (stats : SessionStats) : SessionStats :=
  let stats := stats <| latest_rtt_ms := Some rtt_ms |> <| rtt_sample_count ::= incr |>
                     <| rtt_sum_ms ::= fun s => u64 (s + rtt_ms) |> in
  let stats :=
    match min_rtt_ms stats with
    | None => stats <| min_rtt_ms := Some rtt_ms |>
    | Some m => if rtt_ms <? m then stats <| min_rtt_ms := Some rtt_ms |> else stats
    end in
  match max_rtt_ms stats with
  | None => stats <| max_rtt_ms := Some rtt_ms |>
  | Some m => if m <? rtt_ms then stats <| max_rtt_ms := Some rtt_ms |> else stats
  end.

Definition handle_probe_receive (control_kind : ControlKind) (now_ms : Z) (state : SessionState)
    : SessionState :=
  if bool_decide (control_kind = KindPing) &&
     bool_decide (st_connection_state state = Established)
  then state <| st_tx ::= fun tx => tx <| probe ::= fun p => p <| pong_pending := true |> |> |>
  else if bool_decide (control_kind = KindPong) && ping_outstanding (probe (st_tx state)) then
    let state :=
      state <| st_tx ::= fun tx => tx <| probe ::= fun p => p <| ping_outstanding := false |> |> |> in
    let rtt_ms := u64 (now_ms - last_ping_sent_ms (probe (st_tx state))) in
    state <| st_stats ::= record_rtt rtt_ms |>
  else state.

Definition update_post_receive_liveness (control_kind : ControlKind) (state : SessionState)
    : SessionState :=
  if bool_decide (control_kind = KindNone) &&
     bool_decide (st_connection_state state = Established)
  then state <| st_tx ::= fun tx => tx <| activity_ack_pending := true |> |>
  else state.

Definition schedule_receive_side_ack (cfg : TransportSettings) (packet : PacketView)
    (control_kind : ControlKind) (schedule_ack_only : bool) (now_ms : Z) (state : SessionState)
    : SessionState :=
  if negb schedule_ack_only then state
  else if bool_decide (control_kind = KindNone) &&
          isReliableChannel (hdr_channel_type (pv_header packet))
  then state <| st_tx ::= fun tx =>
         tx <| reliable_ack_pending := true |>
            <| reliable_ack_due_ms := u64 (now_ms + reliable_ack_delay_ms cfg) |> |>
  else state <| st_tx ::= fun tx => tx <| ack_only_pending := true |> |>.

(** ** The class *)

Definition default_tx (initial_seq : Z) : TxSessionState :=
  {| next_seq := initial_seq; remote_ack := initial_seq; remote_ack_bits := 0;
     pending_send := []; inflight := []; syn_ack_pending := false;
     final_ack_pending := false; final_ack_linger_until_ms := 0; fin_pending := false;
     ack_only_pending := false; reliable_ack_pending := false; reliable_ack_due_ms := 0;
     activity_ack_pending := false; probe := default_probe |}.

(** [Session::Session(role, initial_seq)]. *)
Definition new_session (role : SessionRole) (initial_seq : Z) : SessionState :=
  {| st_role := role; st_conn_id := 0; st_connection_state := Closed;
     st_established_since_ms := 0; st_last_rx_ms := 0; st_last_tx_ms := 0;
     st_stats := default_stats; st_tx := default_tx initial_seq; st_rx := default_rx |}.

(** [Session(SessionRole role)], with the two words of the random device. *)
Definition new_random_session (role : SessionRole) (rd1 rd2 : Z) : SessionState :=
  new_session role (generate_initial_seq rd1 rd2).

(** [Session::next_expected_seq()]. *)
Definition next_expected_seq (state : SessionState) : Z := next_expected (st_rx state).

Definition queue_send (channel_id : Z) (channel_type : ChannelType) (payload : bytes)
    (state : SessionState) : SessionState :=
  state <| st_tx ::= queue_app_data channel_id channel_type payload |>.

Definition poll_tx (cfg : TransportSettings) (now_ms : Z) (state : SessionState)
    : option bytes * SessionState :=
  if should_timeout_idle_session cfg state now_ms then (None, mark_idle_timeout state)
  else
    let state := schedule_pending_tx_work cfg now_ms state in
    let '(result, cs, tx) :=
      poll cfg now_ms (st_role state) (st_conn_id state) (st_connection_state state)
        (st_rx state) (st_tx state) in
    let state := state <| st_connection_state := cs |> <| st_tx := tx |> in
    if poll_fatal_error result then
      (None, state <| st_connection_state := Reset |>
                   <| st_rx ::= emit_local_error (poll_error_message result) |>)
    else
      let state :=
        match poll_datagram result with
        | Some datagram =>
            apply_outbound_result datagram now_ms (poll_retransmission result) state
        | None => state
        end in
      (poll_datagram result, state).

(** The state change of a decision; entering Established stamps the time. *)
Definition apply_next_state (decision : ConnectionDecision) (state : SessionState)
    : SessionState :=
  let previous_state := st_connection_state state in
  match dec_next_state decision with
  | Some next =>
      let state := state <| st_connection_state := next |> in
      if negb (bool_decide (previous_state = Established)) &&
         bool_decide (st_connection_state state = Established)
      then state <| st_established_since_ms := st_last_rx_ms state |>
      else state
  | None => state
  end.

Definition apply_connection_decision (packet : PacketView) (decision : ConnectionDecision)
    (state : SessionState) : SessionState :=
  if negb (dec_valid decision) then
    if negb (bool_decide (dec_error_message decision = ""))
    then state <| st_rx ::= emit_control_event ErrorEvent packet (dec_error_message decision) |>
    else state
  else
    let state := apply_next_state decision state in
    let state := if dec_schedule_syn_ack decision
                 then state <| st_tx ::= fun tx => tx <| syn_ack_pending := true |> |>
                 else state in
    let state := if dec_schedule_final_ack decision
                 then state <| st_tx ::= fun tx => tx <| final_ack_pending := true |> |>
                 else state in
    let state := if dec_schedule_ack_only decision
                 then state <| st_tx ::= fun tx => tx <| ack_only_pending := true |> |>
                 else state in
    state <| st_rx ::= emit_connection_decision_events packet decision |>.

(** The body of [Session::on_datagram_received] after a successful decode. *)
Definition on_decoded (cfg : TransportSettings) (decoded : PacketView) (size now_ms : Z)
    (state : SessionState) : SessionState :=
  let header := pv_header decoded in
  let control_kind := classify_control_kind header in
  let state := record_received_stats control_kind size now_ms state in
  let state := if should_adopt_server_conn_id state control_kind header
               then adopt_server_conn_id header state else state in
  if has_conn_id_mismatch state control_kind header then reset_for_conn_id_mismatch state
  else if is_duplicate_client_syn_ack state control_kind then
    schedule_final_ack_during_linger now_ms state
  else
    let state := handle_probe_receive control_kind now_ms state in
    let '(tx, acknowledged_fin) := apply_remote_ack cfg header control_kind (st_tx state) in
    let state := state <| st_tx := tx |> in
    let state := if should_close_after_fin_acknowledgement state acknowledged_fin
                 then close_after_fin_acknowledgement decoded state else state in
    let decision :=
      decide_connection_transition (st_role state) (st_connection_state state) control_kind in
    let state := apply_connection_decision decoded decision state in
    let '(schedule_ack_only, rx) := on_packet decoded control_kind (st_rx state) in
    let state := state <| st_rx := rx |> in
    let state := update_post_receive_liveness control_kind state in
    schedule_receive_side_ack cfg decoded control_kind schedule_ack_only now_ms state.

Definition on_datagram_received (cfg : TransportSettings) (bs : bytes) (now_ms : Z)
    (state : SessionState) : SessionState :=
  match decode bs with
  | None => state
  | Some decoded => on_decoded cfg decoded (Z.of_nat (length bs)) now_ms state
  end.

Definition request_close (state : SessionState) : SessionState :=
  if bool_decide (st_connection_state state = Established)
  then state <| st_connection_state := Closing |>
             <| st_tx ::= fun tx => tx <| fin_pending := true |> |>
  else state.

Definition assign_conn_id (conn_id : Z) (state : SessionState) : SessionState :=
  state <| st_conn_id := conn_id |>.

Definition drain_events (state : SessionState) : list SessionEvent * SessionState :=
  let '(events, rx) := RxHandler.drain_events (st_rx state) in
  (events, state <| st_rx := rx |>).
