(* ===== verification/SessionInvariant.v ===== *)
(** The invariant of a connection, kept by every operation of [Session] for any
    datagram the network may deliver, and what holds in every reachable state. *)

From S2P Require Import Prelude StdMap Protocol Utils Codec Config SessionTypes.
From S2P Require Import ConnectionStateMachine TxHandler TxInvariant RxHandler RxInvariant.
From S2P Require Import Session.

(** ** Statistics *)

(** The counters agree with each other (modulo 2^64), and the latest round-trip
    sample lies between the extremes. *)
Record stats_ok (st : SessionStats) : Prop := mk_stats_ok {
  so_sent : packets_sent st = u64 (control_packets_sent st + data_packets_sent st);
  so_received : packets_received st = u64 (control_packets_received st + data_packets_received st);
  so_rtt : match latest_rtt_ms st, min_rtt_ms st, max_rtt_ms st with
           | None, None, None => True
           | Some l, Some lo, Some hi => lo <= l <= hi
           | _, _, _ => False
           end
}.

Record session_ok (cfg : TransportSettings) (s : SessionState) : Prop := mk_session_ok {
  so_tx : tx_ok cfg (st_tx s);
  so_rx : rx_ok (st_rx s);
  so_conn_id : is_u32 (st_conn_id s);
  so_stats : stats_ok (st_stats s)
}.

Lemma u64_incr a b : u64 (u64 (a + b) + 1) = u64 (u64 (a + 1) + b).
Proof. unfold u64. rewrite !Zplus_mod_idemp_l. f_equal. lia. Qed.
Lemma u64_incr_r a b : u64 (u64 (a + b) + 1) = u64 (a + u64 (b + 1)).
Proof. unfold u64. rewrite Zplus_mod_idemp_l, Zplus_mod_idemp_r. f_equal. lia. Qed.

Lemma record_received_stats_frame kind size now s :
  let s' := record_received_stats kind size now s in
  s' = s <| st_last_rx_ms := now |> <| st_stats := st_stats s' |>.
Proof. by destruct s. Qed.

Lemma record_received_stats_ok kind size now s :
  stats_ok (st_stats s) -> stats_ok (st_stats (record_received_stats kind size now s)).
Proof.
  intros []. unfold record_received_stats. simpl.
  destruct kind; simpl; constructor; simpl; try done; unfold incr; rewrite so_received0;
    apply u64_incr || apply u64_incr_r.
Qed.

Lemma record_outbound_stats_ok pv size now retx s :
  stats_ok (st_stats s) -> stats_ok (st_stats (record_outbound_stats pv size now retx s)).
Proof.
  intros []. unfold record_outbound_stats. simpl.
  destruct (classify_control_kind (pv_header pv)), retx; simpl; constructor; simpl; try done;
    unfold incr; rewrite so_sent0; apply u64_incr || apply u64_incr_r.
Qed.

Lemma record_rtt_ok rtt st : stats_ok st -> stats_ok (record_rtt rtt st).
Proof.
  intros [Hs Hr Ht].
  destruct st as [? ? ? ? ? ? ? ? ? ? ? ? ? ? ? [l|] [lo|] [hi|]]; simpl in *; try done;
    unfold record_rtt; simpl.
  all: destruct (Z.ltb_spec rtt lo); simpl; destruct (Z.ltb_spec hi rtt); simpl;
    constructor; simpl; try done; lia.
Qed.

(** ** Shapes of the state changes *)

Section ok.
Context (cfg : TransportSettings).

Lemma session_ok_tx f s :
  (forall tx, tx_ok cfg tx -> tx_ok cfg (f tx)) -> session_ok cfg s ->
  session_ok cfg (s <| st_tx ::= f |>).
Proof. intros Hf []. constructor; simpl; auto. Qed.

Lemma session_ok_rx f s :
  (forall rx, rx_ok rx -> rx_ok (f rx)) -> session_ok cfg s ->
  session_ok cfg (s <| st_rx ::= f |>).
Proof. intros Hf []. constructor; simpl; auto. Qed.

Lemma session_ok_state c s :
  session_ok cfg s -> session_ok cfg (s <| st_connection_state := c |>).
Proof. intros []. by constructor. Qed.

Lemma session_ok_conn_id n s :
  is_u32 n -> session_ok cfg s -> session_ok cfg (s <| st_conn_id := n |>).
Proof. intros Hn []. by constructor. Qed.

Lemma session_ok_established t s :
  session_ok cfg s -> session_ok cfg (s <| st_established_since_ms := t |>).
Proof. intros []. by constructor. Qed.

Lemma session_ok_rtt r s :
  session_ok cfg s -> session_ok cfg (s <| st_stats ::= record_rtt r |>).
Proof. intros []. constructor; simpl; auto using record_rtt_ok. Qed.

(** Setting a scheduling flag or a timer of the TX state. *)
Ltac tx_flag := intros; eapply tx_ok_frame; [| | | |eassumption]; reflexivity.

Lemma emit_local_error_ok m rx : rx_ok rx -> rx_ok (emit_local_error m rx).
Proof. apply rx_ok_events. Qed.
Lemma emit_control_event_ok t p m rx : rx_ok rx -> rx_ok (emit_control_event t p m rx).
Proof. apply rx_ok_events. Qed.

Hint Resolve emit_local_error_ok emit_control_event_ok : rudp.
Hint Resolve session_ok_tx session_ok_rx session_ok_state session_ok_conn_id
  session_ok_established session_ok_rtt : rudp.

Lemma emit_connection_decision_events_ok p d rx :
  rx_ok rx -> rx_ok (emit_connection_decision_events p d rx).
Proof. intros H. unfold emit_connection_decision_events. repeat case_match; auto 6 with rudp. Qed.
Hint Resolve emit_connection_decision_events_ok : rudp.

(** ** Each operation *)

Lemma new_session_ok role isn : is_u32 isn -> session_ok cfg (new_session role isn).
Proof.
  intros Hi. constructor; simpl; auto with rudp.
  - constructor; simpl; try done. constructor.
  - apply default_rx_ok.
  - by constructor.
Qed.

Lemma queue_send_ok id t p s :
  is_u32 id -> channel_named t -> Forall is_u8 p ->
  session_ok cfg s -> session_ok cfg (queue_send id t p s).
Proof. intros. apply session_ok_tx; [|done]. intros. by apply queue_app_data_ok. Qed.

Lemma request_close_ok s : session_ok cfg s -> session_ok cfg (request_close s).
Proof.
  intros H. unfold request_close. case_match; [|done].
  apply session_ok_tx; [tx_flag|auto with rudp].
Qed.

Lemma drain_events_ok s : session_ok cfg s -> session_ok cfg (snd (drain_events s)).
Proof. intros []. constructor; simpl; try done. by apply (rx_ok_events _ (fun _ => [])). Qed.

Lemma schedule_pending_tx_work_ok now s :
  session_ok cfg s -> session_ok cfg (schedule_pending_tx_work cfg now s).
Proof.
  intros H. unfold schedule_pending_tx_work. repeat case_match; try done;
    (apply session_ok_tx; [tx_flag|done]).
Qed.

Lemma apply_outbound_result_ok bs now retx s :
  session_ok cfg s -> session_ok cfg (apply_outbound_result bs now retx s).
Proof.
  intros H. unfold apply_outbound_result. case_match; [|done]. cbn zeta.
  unfold clear_outbound_ack_state. set (k := classify_control_kind _).
  assert (H1 : session_ok cfg (update_outbound_probe_state k now s)).
  { unfold update_outbound_probe_state. case_match; [done|].
    apply session_ok_tx; [tx_flag|done]. }
  revert H1. generalize (update_outbound_probe_state k now s) as s1. intros s1 [].
  case_match; (constructor; [tx_flag|done|done|]);
    exact (record_outbound_stats_ok p _ now retx s1 so_stats0).
Qed.

Lemma poll_tx_ok now s :
  settings_typed cfg -> is_u64 now -> session_ok cfg s ->
  session_ok cfg (snd (poll_tx cfg now s)).
Proof.
  intros Hcfg Hnow Hs. unfold poll_tx. case_match.
  { unfold mark_idle_timeout. simpl. auto with rudp. }
  apply (schedule_pending_tx_work_ok now) in Hs.
  set (s1 := schedule_pending_tx_work cfg now s) in *. clearbody s1.
  destruct (poll _ _ _ _ _ _ _) as [[r cs'] tx'] eqn:E.
  apply poll_ok in E as (Htx & _); try done; try apply Hs.
  assert (Hs2 : session_ok cfg (s1 <| st_connection_state := cs' |> <| st_tx := tx' |>))
    by (apply session_ok_tx; auto with rudp).
  repeat case_match; simpl; auto using apply_outbound_result_ok with rudp.
Qed.

Lemma apply_connection_decision_ok p d s :
  session_ok cfg s -> session_ok cfg (apply_connection_decision p d s).
Proof.
  intros H. unfold apply_connection_decision.
  case_match; [case_match; auto with rudp|]. cbn zeta.
  apply session_ok_rx; [auto with rudp|].
  assert (H1 : session_ok cfg (apply_next_state d s))
    by (unfold apply_next_state; repeat case_match; auto with rudp).
  revert H1. generalize (apply_next_state d s) as s1. intros s1 H1.
  repeat case_match; repeat (apply session_ok_tx; [tx_flag|]); done.
Qed.

Lemma decode_packet_ok bs pv : Forall is_u8 bs -> decode bs = Some pv -> packet_ok pv.
Proof.
  intros Hb Hd. rewrite decode_spec in Hd by done.
  case_bool_decide; [|done]. destruct (isValidHeader _); [|done]. injection Hd as <-.
  split; [by apply header_of_block_typed|by apply Forall_drop].
Qed.

Lemma apply_remote_ack_ok h kind tx :
  header_typed h -> tx_ok cfg tx -> tx_ok cfg (fst (apply_remote_ack cfg h kind tx)).
Proof.
  intros [] Htx. unfold apply_remote_ack. case_match; [done|]. by apply on_remote_ack_ok.
Qed.

Lemma handle_probe_receive_ok kind now s :
  session_ok cfg s -> session_ok cfg (handle_probe_receive kind now s).
Proof.
  intros H. unfold handle_probe_receive.
  repeat case_match; try done; try apply session_ok_rtt; (apply session_ok_tx; [tx_flag|done]).
Qed.

Lemma received_and_adopted_ok pv kind size now s :
  packet_ok pv -> session_ok cfg s ->
  let s1 := record_received_stats kind size now s in
  session_ok cfg (if should_adopt_server_conn_id s1 kind (pv_header pv)
                  then adopt_server_conn_id (pv_header pv) s1 else s1).
Proof.
  intros [[] _] []. cbn zeta.
  assert (session_ok cfg (record_received_stats kind size now s))
    by (constructor; [done..|by apply record_received_stats_ok]).
  case_match; [by apply session_ok_conn_id|done].
Qed.

Lemma on_decoded_ok pv size now s :
  packet_ok pv -> session_ok cfg s -> session_ok cfg (on_decoded cfg pv size now s).
Proof.
  intros Hp Hs. unfold on_decoded. cbn zeta. set (k := classify_control_kind _).
  pose proof (received_and_adopted_ok pv k size now s Hp Hs) as H1. cbn zeta in H1.
  revert H1. set (s1 := if should_adopt_server_conn_id _ _ _ then _ else _). clearbody s1.
  intros H1. case_match; [unfold reset_for_conn_id_mismatch; auto with rudp|].
  case_match.
  { unfold schedule_final_ack_during_linger. case_match; [|done].
    apply session_ok_tx; [tx_flag|done]. }
  pose proof (handle_probe_receive_ok k now s1 H1) as H2.
  set (s2 := handle_probe_receive k now s1) in *. clearbody s2.
  pose proof (apply_remote_ack_ok (pv_header pv) k (st_tx s2) (proj1 Hp) (so_tx _ _ H2)) as Ht.
  destruct (apply_remote_ack _ _ _ _) as [tx fin]. cbn [fst] in Ht.
  set (s4 := if should_close_after_fin_acknowledgement _ _ then _ else _).
  assert (H4 : session_ok cfg s4).
  { subst s4. unfold close_after_fin_acknowledgement.
    case_match; auto with rudp. }
  clearbody s4. set (d := decide_connection_transition _ _ _).
  pose proof (apply_connection_decision_ok pv d s4 H4) as H5.
  set (s5 := apply_connection_decision pv d s4) in *. clearbody s5.
  pose proof (on_packet_ok pv k (st_rx s5) Hp (so_rx _ _ H5)) as Hr.
  destruct (on_packet pv k (st_rx s5)) as [ack rx]. cbn [snd] in Hr.
  assert (H6 : session_ok cfg (update_post_receive_liveness k (s5 <| st_rx := rx |>))).
  { unfold update_post_receive_liveness. case_match; [apply session_ok_tx; [tx_flag|]|];
      auto with rudp. }
  unfold schedule_receive_side_ack.
  repeat case_match; try done; (apply session_ok_tx; [tx_flag|done]).
Qed.

Lemma on_datagram_received_ok bs now s :
  Forall is_u8 bs -> session_ok cfg s -> session_ok cfg (on_datagram_received cfg bs now s).
Proof.
  intros Hb Hs. unfold on_datagram_received. destruct (decode bs) eqn:E; [|done].
  apply on_decoded_ok; [|done]. by eapply decode_packet_ok.
Qed.
End ok.

(** ** Every history of a connection

    One step is one call of a public method, with any arguments of the right
    type: application sends and closes, polls at any time, any datagram at all. *)

Inductive session_step (cfg : TransportSettings) : SessionState -> SessionState -> Prop :=
| step_send id t p s :
    is_u32 id -> channel_named t -> Forall is_u8 p ->
    session_step cfg s (queue_send id t p s)
| step_poll now s :
    is_u64 now -> session_step cfg s (snd (poll_tx cfg now s))
| step_receive bs now s :
    Forall is_u8 bs -> session_step cfg s (on_datagram_received cfg bs now s)
| step_close s : session_step cfg s (request_close s)
| step_assign n s : is_u32 n -> session_step cfg s (assign_conn_id n s)
| step_drain s : session_step cfg s (snd (drain_events s)).

Lemma session_step_ok cfg s s' :
  settings_typed cfg -> session_ok cfg s -> session_step cfg s s' -> session_ok cfg s'.
Proof.
  intros Hcfg Hs Hstep. destruct Hstep.
  - by apply queue_send_ok.
  - by apply poll_tx_ok.
  - by apply on_datagram_received_ok.
  - by apply request_close_ok.
  - by apply session_ok_conn_id.
  - by apply drain_events_ok.
Qed.

Definition reachable (cfg : TransportSettings) (s : SessionState) : Prop :=
  exists role isn, is_u32 isn /\ star (session_step cfg) (new_session role isn) s.

Lemma reachable_ok cfg s : settings_typed cfg -> reachable cfg s -> session_ok cfg s.
Proof.
  intros Hcfg (role & isn & Hisn & Hs).
  eapply (star_inv _ (session_ok cfg)); [|by apply new_session_ok|exact Hs].
  intros x y. by apply session_step_ok.
Qed.

(** C4: in every reachable state of a connection, whatever the application
    calls and whatever the network delivers: at most 64 reliable packets are in
    flight, each under its own sequence number, inside the 64 numbers before
    [next_seq] and not behind the peer's cumulative ACK, none retried more than
    the configured limit; the reorder buffer is keyed by its packets' sequence
    numbers and holds no deliverable packet; the packet counters are the sums of
    their parts (modulo 2^64) and the RTT extremes bound the latest sample. *)
Theorem reachable_session_invariant cfg s :
  settings_typed cfg -> reachable cfg s ->
  (length (inflight (st_tx s)) <= 64)%nat /\
  NoDup (map fst (inflight (st_tx s))) /\
  (forall k e, smap_find k (inflight (st_tx s)) = Some e ->
     hdr_seq (op_header (te_packet e)) = k /\
     in_window (remote_ack (st_tx s)) (next_seq (st_tx s)) k /\
     0 <= te_retry_count e <= max_retransmit_count cfg) /\
  Forall buffered_ok (ordered_reorder_buffer (st_rx s)) /\
  smap_find (next_ordered_delivery (st_rx s)) (ordered_reorder_buffer (st_rx s)) = None /\
  stats_ok (st_stats s).
Proof.
  intros Hcfg Hr. destruct (reachable_ok cfg s Hcfg Hr) as [Htx Hrx _ Hst].
  split; [by eapply inflight_length_bound|]. split; [by apply smap_sorted_NoDup, Htx|].
  split; [|by destruct Hrx]. intros k e He. apply smap_find_Some_in in He.
  destruct Htx as [_ _ _ _ Hent Hwin]. rewrite Forall_forall in Hent, Hwin.
  pose proof (Hent _ He) as []. by pose proof (Hwin _ He).
Qed.

Lemma reachable_session_invariant_witness :
  let s := snd (poll_tx default_transport 0 (new_session Client 7)) in
  (length (inflight (st_tx s)) <= 64)%nat /\ length (inflight (st_tx s)) = 1%nat.
Proof.
  intros s. assert (Hr : reachable default_transport s).
  { exists Client, 7. split; [unfold is_u32; lia|].
    eapply star_snoc; [apply star_refl|]. apply step_poll. apply is_u64_0. }
  destruct (reachable_session_invariant default_transport s default_transport_typed Hr)
    as [Hlen _].
  split; [exact Hlen|vm_compute; reflexivity].
Defined.
