(* ===== verification/SessionLifecycle.v ===== *)
(** The life of a connection: which operation changes [connection_state] and how,
    which events the application sees, and the early returns of
    [Session::on_datagram_received]. *)

From S2P Require Import Prelude StdMap Protocol Utils Codec Config SessionTypes.
From S2P Require Import ConnectionStateMachine TxHandler TxInvariant RxHandler RxInvariant.
From S2P Require Import Session SessionInvariant.

(** ** What the RX handler adds: data events only *)

Definition is_data_event (e : SessionEvent) : Prop := ev_type e = DataReceived.

Lemma ordered_run_data buf n evs buf' n' :
  ordered_run buf n evs buf' n' -> Forall is_data_event evs.
Proof. induction 1; by constructor. Qed.

Lemma on_packet_events packet kind rx :
  packet_ok packet -> rx_ok rx ->
  exists new, pending_events (snd (on_packet packet kind rx)) = pending_events rx ++ new /\
    Forall is_data_event new /\ (kind <> KindNone -> new = []).
Proof.
  intros Hp Hrx. destruct (update_frame packet kind rx Hp Hrx) as (n & b & Hfr).
  unfold on_packet. destruct (update_reliable_receive_state packet kind rx) as [[d a] rx1].
  cbn [snd] in Hfr. assert (Hpe : pending_events rx1 = pending_events rx) by (by subst).
  assert (Hnone : exists new, pending_events rx1 = pending_events rx ++ new /\
    Forall is_data_event new /\ (kind <> KindNone -> new = []))
    by (exists []; rewrite app_nil_r; done).
  unfold is_control_only. case_bool_decide as Hk; [|done]. cbn [negb orb].
  destruct d; [|done]. cbn [negb snd]. rewrite <- Hpe in *.
  assert (Hone : exists new, pending_events rx1 ++ [make_data_event packet] =
      pending_events rx1 ++ new /\ Forall is_data_event new /\ (kind <> KindNone -> new = []))
    by (eexists; split; [done|]; split; [by repeat constructor|done]).
  destruct (hdr_channel_type (pv_header packet)); try done.
  - destruct (handle_reliable_ordered_run packet rx1) as (evs & buf' & n' & Hrun & ->).
    exists evs. split; [done|]. split; [by eapply ordered_run_data|done].
  - unfold handle_monotonic_state. repeat case_match; done.
Qed.

(** ** The normal path of [on_datagram_received] *)

Definition control_event (type : EventType) (packet : PacketView) (m : string) : SessionEvent :=
  {| ev_type := type; ev_seq := hdr_seq (pv_header packet);
     ev_channel_id := hdr_channel_id (pv_header packet);
     ev_channel_type := hdr_channel_type (pv_header packet); ev_payload := [];
     ev_error_message := m |}.

Definition local_error (m : string) : SessionEvent :=
  {| ev_type := ErrorEvent; ev_seq := 0; ev_channel_id := 0; ev_channel_type := Unreliable;
     ev_payload := []; ev_error_message := m |}.

Definition decision_events (packet : PacketView) (d : ConnectionDecision) : list SessionEvent :=
  if dec_valid d then
    (if dec_emit_connected d then [control_event Connected packet ""] else []) ++
    (if dec_emit_connection_closed d then [control_event ConnectionClosed packet ""] else []) ++
    (if dec_emit_connection_reset d then [control_event ConnectionReset packet ""] else [])
  else if bool_decide (dec_error_message d = "") then []
  else [control_event ErrorEvent packet (dec_error_message d)].

Definition decided_state (cs : ConnectionState) (d : ConnectionDecision) : ConnectionState :=
  if dec_valid d then default cs (dec_next_state d) else cs.

Lemma apply_connection_decision_shape p d s :
  let s' := apply_connection_decision p d s in
  st_role s' = st_role s /\ st_conn_id s' = st_conn_id s /\
  st_connection_state s' = decided_state (st_connection_state s) d /\
  st_rx s' = (st_rx s) <| pending_events ::= fun l => l ++ decision_events p d |> /\
  st_stats s' = st_stats s /\ st_last_rx_ms s' = st_last_rx_ms s /\
  st_established_since_ms s' =
    (if negb (bool_decide (st_connection_state s = Established)) &&
        bool_decide (decided_state (st_connection_state s) d = Established)
     then st_last_rx_ms s else st_established_since_ms s).
Proof.
  assert (Hne : forall c (a b : Z),
    (if negb (bool_decide (c = Established)) && bool_decide (c = Established) then a else b) = b)
    by (intros c a b; by destruct (bool_decide (c = Established))).
  assert (Hrx : forall rx : RxSessionState,
    rx <| pending_events ::= fun l => l ++ [] |> = rx)
    by (intros []; unfold set, set_pending_events; simpl; by rewrite app_nil_r).
  unfold apply_connection_decision, decided_state, decision_events, apply_next_state.
  destruct d as [[] next sa fa ao ec ecl er em]; cbn.
  - destruct next as [next|]; cbn; [destruct (negb _ && _)|rewrite Hne];
      destruct sa, fa, ao; cbn; (do 3 (split; [done|]));
      (split; [|done]); unfold emit_connection_decision_events, emit_control_event;
      destruct ec, ecl, er; cbn; rewrite ?Hrx; try done;
      unfold set, set_pending_events; simpl; by rewrite <- ?app_assoc.
  - rewrite Hne. destruct (bool_decide (em = "")); cbn; [|done].
    rewrite Hrx. done.
Qed.

(** The connection id after the adoption step. *)
Definition adopted_id (s : SessionState) (kind : ControlKind) (h : Header) : Z :=
  if should_adopt_server_conn_id s kind h then hdr_conn_id h else st_conn_id s.

Lemma handle_probe_receive_frame kind now s :
  let s' := handle_probe_receive kind now s in
  st_role s' = st_role s /\ st_conn_id s' = st_conn_id s /\
  st_connection_state s' = st_connection_state s /\ st_rx s' = st_rx s /\
  st_last_rx_ms s' = st_last_rx_ms s /\
  st_established_since_ms s' = st_established_since_ms s /\
  inflight (st_tx s') = inflight (st_tx s).
Proof. unfold handle_probe_receive. by repeat case_match. Qed.

Lemma post_receive_frame cfg pv kind ack now s :
  let s' := schedule_receive_side_ack cfg pv kind ack now (update_post_receive_liveness kind s) in
  st_role s' = st_role s /\ st_conn_id s' = st_conn_id s /\
  st_connection_state s' = st_connection_state s /\ st_rx s' = st_rx s /\
  st_established_since_ms s' = st_established_since_ms s /\
  inflight (st_tx s') = inflight (st_tx s).
Proof.
  unfold schedule_receive_side_ack, update_post_receive_liveness. by repeat case_match.
Qed.

Section received.
Context (cfg : TransportSettings) (pv : PacketView) (size now : Z) (s : SessionState).
Let kind := classify_control_kind (pv_header pv).
Let id := adopted_id s kind (pv_header pv).

(** The three ways a decoded datagram is handled. *)
Definition rejected (s' : SessionState) : Prop :=
  has_conn_id_mismatch (s <| st_conn_id := id |>) kind (pv_header pv) = true /\
  st_connection_state s' = Reset /\ st_tx s' = st_tx s /\
  st_rx s' = (st_rx s) <| pending_events ::= fun l => l ++ [local_error "conn_id mismatch"] |>.

Definition repeated_syn_ack (s' : SessionState) : Prop :=
  has_conn_id_mismatch (s <| st_conn_id := id |>) kind (pv_header pv) = false /\
  is_duplicate_client_syn_ack s kind = true /\
  st_connection_state s' = st_connection_state s /\ st_rx s' = st_rx s /\
  st_tx s' = (st_tx s) <| final_ack_pending ::= fun b =>
                            b || (now <=? final_ack_linger_until_ms (st_tx s)) |>.

(** What a packet that passes both guards leaves to be sent: [tx1] is the TX state
    after its acknowledgement, [d] the decision, [up] whether the connection is
    Established after it and [ack] whether the RX handler wants an acknowledgement. *)
Record answers (tx1 : TxSessionState) (d : ConnectionDecision) (up ack : bool)
    (tx' : TxSessionState) : Prop := mk_answers {
  an_next_seq : next_seq tx' = next_seq tx1;
  an_remote_ack : remote_ack tx' = remote_ack tx1;
  an_remote_ack_bits : remote_ack_bits tx' = remote_ack_bits tx1;
  an_pending_send : pending_send tx' = pending_send tx1;
  an_inflight : inflight tx' = inflight tx1;
  an_fin : fin_pending tx' = fin_pending tx1;
  an_linger : final_ack_linger_until_ms tx' = final_ack_linger_until_ms tx1;
  an_syn_ack : syn_ack_pending tx' =
    syn_ack_pending tx1 || (dec_valid d && dec_schedule_syn_ack d);
  an_final_ack : final_ack_pending tx' =
    final_ack_pending tx1 || (dec_valid d && dec_schedule_final_ack d);
  an_ack_only : ack_only_pending tx' =
    ack_only_pending tx1 || (dec_valid d && dec_schedule_ack_only d) ||
    (ack && negb (bool_decide (kind = KindNone) && isReliableChannel (hdr_channel_type (pv_header pv))));
  an_reliable_ack : reliable_ack_pending tx' = reliable_ack_pending tx1 ||
    (ack && (bool_decide (kind = KindNone) && isReliableChannel (hdr_channel_type (pv_header pv))));
  an_reliable_due : reliable_ack_due_ms tx' =
    (if ack && (bool_decide (kind = KindNone) && isReliableChannel (hdr_channel_type (pv_header pv)))
     then u64 (now + reliable_ack_delay_ms cfg) else reliable_ack_due_ms tx1);
  an_activity : activity_ack_pending tx' =
    activity_ack_pending tx1 || (bool_decide (kind = KindNone) && up);
  an_probe : probe tx' = (probe tx1)
    <| pong_pending ::= fun b =>
         b || (bool_decide (kind = KindPing) && bool_decide (st_connection_state s = Established)) |>
    <| ping_outstanding ::= fun b => b && negb (bool_decide (kind = KindPong)) |>
}.

(** A packet that passes both guards: the remote acknowledgement, the close it may
    complete, the state machine's decision, and the RX handler, which finds the new
    events already in the queue. *)
Definition handled (s' : SessionState) : Prop :=
  has_conn_id_mismatch (s <| st_conn_id := id |>) kind (pv_header pv) = false /\
  is_duplicate_client_syn_ack s kind = false /\
  exists fin data,
    let closed := fin && bool_decide (st_connection_state s = Closing) in
    let cs := if closed then Closed else st_connection_state s in
    let d := decide_connection_transition (st_role s) cs kind in
    let evs := (if closed then [control_event ConnectionClosed pv ""] else []) ++ decision_events pv d in
    let received := on_packet pv kind ((st_rx s) <| pending_events ::= fun l => l ++ evs |>) in
    fin = snd (apply_remote_ack cfg (pv_header pv) kind (st_tx s)) /\
    st_connection_state s' = decided_state cs d /\
    st_rx s' = snd received /\
    pending_events (st_rx s') = pending_events (st_rx s) ++ evs ++ data /\
    Forall is_data_event data /\ (kind <> KindNone -> data = []) /\
    st_established_since_ms s' =
      (if negb (bool_decide (st_connection_state s = Established)) &&
          bool_decide (decided_state cs d = Established)
       then now else st_established_since_ms s) /\
    answers (fst (apply_remote_ack cfg (pv_header pv) kind (st_tx s))) d
      (bool_decide (decided_state cs d = Established)) (fst received) (st_tx s').

(** The acknowledgement and the probe fields do not interact. *)
Lemma apply_remote_ack_probe k tx p :
  apply_remote_ack cfg (pv_header pv) k (tx <| probe := p |>) =
  ((fst (apply_remote_ack cfg (pv_header pv) k tx)) <| probe := p |>,
   snd (apply_remote_ack cfg (pv_header pv) k tx)).
Proof.
  unfold apply_remote_ack. case_match; [done|].
  unfold on_remote_ack, erase_acknowledged_inflight, mark_gap_fast_retransmit_candidates. cbn.
  destruct (erase_acknowledged_loop _ _ _ _) as [m fin]. cbn. by case_match.
Qed.

Lemma apply_remote_ack_keeps_probe k tx :
  probe (fst (apply_remote_ack cfg (pv_header pv) k tx)) = probe tx.
Proof.
  transitivity (probe (fst (apply_remote_ack cfg (pv_header pv) k (tx <| probe := probe tx |>)))).
  - by destruct tx.
  - by rewrite apply_remote_ack_probe.
Qed.

(** [handle_probe_receive]'s effect on the probe fields. *)
Definition probed (cs : ConnectionState) (p : ProbeTxState) : ProbeTxState :=
  p <| pong_pending ::= fun b =>
         b || (bool_decide (kind = KindPing) && bool_decide (cs = Established)) |>
    <| ping_outstanding ::= fun b => b && negb (bool_decide (kind = KindPong)) |>.

Lemma handle_probe_receive_tx s1 :
  st_tx (handle_probe_receive kind now s1) =
  (st_tx s1) <| probe := probed (st_connection_state s1) (probe (st_tx s1)) |>.
Proof.
  unfold handle_probe_receive, probed. clearbody kind.
  destruct s1 as [? ? cs ? ? ? ? tx ?], tx as [? ? ? ? ? ? ? ? ? ? ? ? ? []], kind; cbn;
    try (destruct cs; cbn); try (destruct ping_outstanding; cbn);
    unfold set, set_probe, set_pong_pending, set_ping_outstanding; cbn;
    by rewrite ?orb_true_r, ?orb_false_r, ?andb_true_r.
Qed.

Lemma apply_connection_decision_tx d s1 :
  st_tx (apply_connection_decision pv d s1) = (st_tx s1)
    <| syn_ack_pending ::= fun b => b || (dec_valid d && dec_schedule_syn_ack d) |>
    <| final_ack_pending ::= fun b => b || (dec_valid d && dec_schedule_final_ack d) |>
    <| ack_only_pending ::= fun b => b || (dec_valid d && dec_schedule_ack_only d) |>.
Proof.
  unfold apply_connection_decision, apply_next_state.
  destruct d as [[] next sa fa ao ec ecl er em], s1 as [? ? ? ? ? ? ? tx ?], tx; cbn.
  - destruct next; cbn; [destruct (negb _ && _)|]; destruct sa, fa, ao; cbn;
      unfold set, set_syn_ack_pending, set_final_ack_pending, set_ack_only_pending; cbn;
      by rewrite ?orb_true_r, ?orb_false_r.
  - case_match; cbn; unfold set, set_syn_ack_pending, set_final_ack_pending, set_ack_only_pending; cbn;
      by rewrite ?orb_false_r.
Qed.

(** The last two steps, on the TX state after the decision. *)
Lemma post_receive_answers tx1 d cs ack s5 :
  st_tx s5 = (tx1 <| probe := probed (st_connection_state s) (probe tx1) |>)
    <| syn_ack_pending ::= fun b => b || (dec_valid d && dec_schedule_syn_ack d) |>
    <| final_ack_pending ::= fun b => b || (dec_valid d && dec_schedule_final_ack d) |>
    <| ack_only_pending ::= fun b => b || (dec_valid d && dec_schedule_ack_only d) |> ->
  st_connection_state s5 = cs ->
  answers tx1 d (bool_decide (cs = Established)) ack
    (st_tx (schedule_receive_side_ack cfg pv kind ack now (update_post_receive_liveness kind s5))).
Proof.
  intros E <-. unfold schedule_receive_side_ack, update_post_receive_liveness.
  destruct (bool_decide (kind = KindNone)) eqn:Ek; cbn [andb].
  - destruct (bool_decide (st_connection_state s5 = Established)), ack,
      (isReliableChannel (hdr_channel_type (pv_header pv))) eqn:Ec; cbn [negb];
      constructor; cbn; rewrite ?E, ?Ek, ?Ec; cbn; by rewrite ?orb_true_r, ?orb_false_r.
  - destruct ack; cbn [negb]; constructor; cbn; rewrite ?E, ?Ek; cbn; by rewrite ?orb_true_r, ?orb_false_r.
Qed.

(** The state after the remote acknowledgement and the close it may complete. *)
Lemma after_remote_ack_frame tx fin s2 :
  tx_ok cfg tx -> session_ok cfg s2 ->
  let s3 := s2 <| st_tx := tx |> in
  let s4 := if should_close_after_fin_acknowledgement s3 fin
            then close_after_fin_acknowledgement pv s3 else s3 in
  let closed := fin && bool_decide (st_connection_state s2 = Closing) in
  st_role s4 = st_role s2 /\ st_conn_id s4 = st_conn_id s2 /\
  st_connection_state s4 = (if closed then Closed else st_connection_state s2) /\
  st_last_rx_ms s4 = st_last_rx_ms s2 /\ session_ok cfg s4 /\ st_tx s4 = tx /\
  st_established_since_ms s4 = st_established_since_ms s2 /\
  st_rx s4 = (st_rx s2) <| pending_events ::= fun l => l ++
    (if closed then [control_event ConnectionClosed pv ""] else []) |>.
Proof.
  intros Ht H2. cbn zeta. unfold should_close_after_fin_acknowledgement. cbn.
  assert (session_ok cfg (s2 <| st_tx := tx |>)) by by apply session_ok_tx.
  destruct (_ && _); cbn; (do 4 (split; [done|])).
  - split; [|done]. apply session_ok_rx; [intros; by apply emit_control_event_ok|].
    by apply session_ok_state.
  - split; [done|]. do 2 (split; [done|]). destruct (st_rx s2).
    unfold set, set_pending_events. cbn. by rewrite app_nil_r.
Qed.

(** The session after the statistics and the adoption of a connection id. *)
Definition adopted (s1 : SessionState) : Prop :=
  st_role s1 = st_role s /\ st_conn_id s1 = id /\ st_connection_state s1 = st_connection_state s /\
  st_tx s1 = st_tx s /\ st_rx s1 = st_rx s /\ st_last_rx_ms s1 = now /\
  st_established_since_ms s1 = st_established_since_ms s.

Lemma received_and_adopted :
  let s1 := record_received_stats kind size now s in
  adopted (if should_adopt_server_conn_id s1 kind (pv_header pv)
           then adopt_server_conn_id (pv_header pv) s1 else s1).
Proof.
  cbn zeta. unfold adopted. subst id. unfold adopted_id.
  change (should_adopt_server_conn_id (record_received_stats kind size now s) kind (pv_header pv))
    with (should_adopt_server_conn_id s kind (pv_header pv)). by case_match.
Qed.

Lemma adopted_guards s1 :
  adopted s1 ->
  has_conn_id_mismatch (s <| st_conn_id := id |>) kind (pv_header pv) =
    has_conn_id_mismatch s1 kind (pv_header pv) /\
  is_duplicate_client_syn_ack s kind = is_duplicate_client_syn_ack s1 kind.
Proof.
  intros (Er & Ei & Ec & _). split.
  - unfold has_conn_id_mismatch, allows_server_zero_conn_id_bootstrap. cbn. by rewrite Er, Ei, Ec.
  - unfold is_duplicate_client_syn_ack. by rewrite Er, Ec.
Qed.

(** The rest of [on_decoded] for a packet that passes the two guards. *)
Definition accept (s1 : SessionState) : SessionState :=
  let s2 := handle_probe_receive kind now s1 in
  let '(tx, fin) := apply_remote_ack cfg (pv_header pv) kind (st_tx s2) in
  let s3 := s2 <| st_tx := tx |> in
  let s4 := if should_close_after_fin_acknowledgement s3 fin
            then close_after_fin_acknowledgement pv s3 else s3 in
  let d := decide_connection_transition (st_role s4) (st_connection_state s4) kind in
  let s5 := apply_connection_decision pv d s4 in
  let '(ack, rx) := on_packet pv kind (st_rx s5) in
  schedule_receive_side_ack cfg pv kind ack now
    (update_post_receive_liveness kind (s5 <| st_rx := rx |>)).

Lemma accept_handled s1 :
  packet_ok pv -> session_ok cfg s1 -> adopted s1 ->
  has_conn_id_mismatch s1 kind (pv_header pv) = false -> is_duplicate_client_syn_ack s1 kind = false ->
  st_role (accept s1) = st_role s /\ st_conn_id (accept s1) = id /\ handled (accept s1).
Proof.
  intros Hp H1 Had Emm Edd. destruct (adopted_guards s1 Had) as [Em Ed].
  destruct Had as (Er & Ei & Ec & Et & Ex & El & Ee). unfold accept.
  pose proof (handle_probe_receive_ok cfg kind now s1 H1) as H2.
  pose proof (handle_probe_receive_frame kind now s1) as E2.
  pose proof (handle_probe_receive_tx s1) as Et2. rewrite Et, Ec in Et2.
  set (s2 := handle_probe_receive kind now s1) in *. clearbody s2. cbn zeta in E2 |- *.
  destruct E2 as (Er2 & Ei2 & Ec2 & Ex2 & El2 & Ee2 & _).
  pose proof (apply_remote_ack_ok cfg (pv_header pv) kind (st_tx s2) (proj1 Hp) (so_tx _ _ H2)) as Ht.
  pose proof (apply_remote_ack_keeps_probe kind (st_tx s)) as Hpr.
  rewrite Et2, apply_remote_ack_probe in Ht |- *. cbn [fst] in Ht.
  destruct (apply_remote_ack cfg (pv_header pv) kind (st_tx s)) as [tx fin] eqn:Era. cbn [fst snd] in *.
  set (closed := fin && bool_decide (st_connection_state s = Closing)).
  pose proof (after_remote_ack_frame _ fin s2 Ht H2) as E4. cbn zeta in E4.
  set (s4 := if should_close_after_fin_acknowledgement _ _ then _ else _) in *.
  rewrite Er2, Ei2, Ec2, El2, Ex2, Ee2, Er, Ei, Ec, El, Ex, Ee in E4. fold closed in E4.
  clearbody s4. destruct E4 as (Er4 & Ei4 & Ec4 & El4 & H4 & Et4 & Ee4 & Ex4).
  set (d := decide_connection_transition _ _ _).
  pose proof (apply_connection_decision_ok cfg pv d s4 H4) as H5.
  pose proof (apply_connection_decision_shape pv d s4) as E5. cbn zeta in E5.
  pose proof (apply_connection_decision_tx d s4) as Et5. rewrite Et4 in Et5.
  set (s5 := apply_connection_decision pv d s4) in *. clearbody s5.
  destruct E5 as (Er5 & Ei5 & Ec5 & Ex5 & _ & _ & Ee5).
  set (evs := (if closed then [control_event ConnectionClosed pv ""] else []) ++ decision_events pv d).
  assert (Ex5' : st_rx s5 = (st_rx s) <| pending_events ::= fun l => l ++ evs |>).
  { rewrite Ex5, Ex4. destruct (st_rx s). unfold set, set_pending_events, evs. cbn. by rewrite app_assoc. }
  destruct (on_packet_events pv kind (st_rx s5) Hp (so_rx _ _ H5)) as (data & Ed6 & Hd & Hk).
  destruct (on_packet pv kind (st_rx s5)) as [ack rx] eqn:Ep. cbn [snd] in Ed6.
  pose proof (post_receive_frame cfg pv kind ack now (s5 <| st_rx := rx |>)) as E6.
  pose proof (post_receive_answers tx d (st_connection_state s5) ack (s5 <| st_rx := rx |>)) as E7.
  cbn zeta in E6. destruct E6 as (Er6 & Ei6 & Ec6 & Ex6 & Ee6 & _).
  rewrite Er6, Ei6. cbn [st_role st_conn_id set set_st_rx].
  split; [congruence|]. split; [congruence|].
  split; [congruence|]. split; [congruence|]. exists fin, data. cbn zeta. fold closed.
  rewrite <- Ec4, <- Er4. fold d. fold evs. rewrite <- Ex5', Ep, Ex6, Ec6, Ee6, Era. cbn [fst snd].
  change (st_connection_state (s5 <| st_rx := rx |>)) with (st_connection_state s5).
  change (st_established_since_ms (s5 <| st_rx := rx |>)) with (st_established_since_ms s5).
  change (st_rx (s5 <| st_rx := rx |>)) with rx. rewrite <- Ec5.
  split_and!; try done.
  - rewrite Ed6, Ex5'. symmetry. apply app_assoc.
  - rewrite Ee5, El4, Ee4, <- Ec5. rewrite Ec4.
    destruct closed eqn:Ecl; [|done]. apply andb_true_iff in Ecl as [_ ->%bool_decide_eq_true]. done.
  - apply E7; [|done]. rewrite Hpr. exact Et5.
Qed.

Lemma on_decoded_cases :
  packet_ok pv -> session_ok cfg s ->
  let s' := on_decoded cfg pv size now s in
  st_role s' = st_role s /\ st_conn_id s' = id /\
  (rejected s' \/ repeated_syn_ack s' \/ handled s').
Proof.
  intros Hp Hs. unfold on_decoded. cbn zeta. fold kind.
  pose proof (received_and_adopted_ok cfg pv kind size now s Hp Hs) as H1.
  pose proof received_and_adopted as Had. cbn zeta in H1, Had.
  set (s1 := if should_adopt_server_conn_id _ _ _ then _ else _) in *. clearbody s1.
  destruct (adopted_guards s1 Had) as [Em Ed].
  destruct (has_conn_id_mismatch s1 kind (pv_header pv)) eqn:Emm.
  { destruct Had as (Er & Ei & Ec & Et & Ex & El & Ee). split; [done|]. split; [done|]. left.
    split; [done|]. split; [done|]. split; [done|]. cbn. by rewrite Ex. }
  destruct (is_duplicate_client_syn_ack s1 kind) eqn:Edd.
  { destruct Had as (Er & Ei & Ec & Et & Ex & El & Ee).
    unfold schedule_final_ack_during_linger, repeated_syn_ack. rewrite Et.
    case_match; cbn; rewrite ?Et; (split; [done|]; split; [done|]; right; left);
      (split; [done|]; split; [done|]; split; [done|]); destruct (st_tx s); cbn in *;
      unfold set, set_final_ack_pending; simpl; f_equal; by destruct final_ack_pending. }
  destruct (accept_handled s1 Hp H1 Had Emm Edd) as (H2 & H3 & H4).
  split; [exact H2|]. split; [exact H3|]. right; right. exact H4.
Qed.
End received.

(** ** [poll_tx] *)

Lemma schedule_pending_tx_work_frame cfg now s :
  let s' := schedule_pending_tx_work cfg now s in
  st_role s' = st_role s /\ st_conn_id s' = st_conn_id s /\
  st_connection_state s' = st_connection_state s /\ st_rx s' = st_rx s /\
  inflight (st_tx s') = inflight (st_tx s) /\ pending_send (st_tx s') = pending_send (st_tx s) /\
  next_seq (st_tx s') = next_seq (st_tx s) /\ remote_ack (st_tx s') = remote_ack (st_tx s).
Proof. unfold schedule_pending_tx_work. by repeat case_match. Qed.

Lemma apply_outbound_result_frame bs now retx s :
  let s' := apply_outbound_result bs now retx s in
  st_role s' = st_role s /\ st_conn_id s' = st_conn_id s /\
  st_connection_state s' = st_connection_state s /\ st_rx s' = st_rx s /\
  inflight (st_tx s') = inflight (st_tx s) /\ next_seq (st_tx s') = next_seq (st_tx s).
Proof.
  unfold apply_outbound_result, clear_outbound_ack_state, update_outbound_probe_state.
  by repeat case_match.
Qed.

Definition polled_state (s : SessionState) : ConnectionState :=
  if bool_decide (st_role s = Client) && bool_decide (st_connection_state s = Closed)
  then HandshakeSent else st_connection_state s.

Definition poll_error (s s' : SessionState) (m : string) : Prop :=
  st_connection_state s' = Reset /\
  st_rx s' = (st_rx s) <| pending_events ::= fun l => l ++ [local_error m] |>.

Lemma poll_tx_cases cfg now s o s' :
  settings_typed cfg -> is_u64 now -> session_ok cfg s -> poll_tx cfg now s = (o, s') ->
  st_role s' = st_role s /\ st_conn_id s' = st_conn_id s /\
  if should_timeout_idle_session cfg s now
  then o = None /\ poll_error s s' "idle timeout" /\ st_tx s' = st_tx s
  else
    (o = None /\ poll_error s s' "retransmission retry limit exceeded") \/
    (st_connection_state s' = polled_state s /\ st_rx s' = st_rx s).
Proof.
  intros Hcfg Hnow Hs. unfold poll_tx.
  destruct (should_timeout_idle_session cfg s now); [by intros [= <- <-]|].
  pose proof (schedule_pending_tx_work_ok cfg now s Hs) as H1.
  pose proof (schedule_pending_tx_work_frame cfg now s) as E1. cbn zeta in E1.
  set (s1 := schedule_pending_tx_work cfg now s) in *. clearbody s1.
  destruct E1 as (Er & Ei & Ec & Ex & _).
  destruct (poll _ _ _ _ _ _ _) as [[r cs'] tx'] eqn:E.
  apply poll_ok in E as (_ & -> & Hfatal & _); try done; try apply H1.
  destruct (poll_fatal_error r) eqn:Ef.
  { intros [= <- <-]. rewrite (Hfatal eq_refl). cbn. do 2 (split; [done|]). left.
    unfold poll_error. cbn. by rewrite Ex. }
  intros [= <- <-]. set (s2 := s1 <| st_connection_state := _ |> <| st_tx := tx' |>).
  assert (E2 : st_role s2 = st_role s /\ st_conn_id s2 = st_conn_id s /\
    st_connection_state s2 = polled_state s /\ st_rx s2 = st_rx s)
    by (subst s2; unfold polled_state; cbn; rewrite <- Er, <- Ec; done).
  clearbody s2. destruct E2 as (? & ? & ? & ?).
  destruct (poll_datagram r) as [bs|]; [|by auto].
  destruct (apply_outbound_result_frame bs now (poll_retransmission r) s2) as (? & ? & ? & ? & _).
  split; [congruence|]. split; [congruence|]. right. split; congruence.
Qed.

(** ** The life cycle *)

Inductive lifecycle (role : SessionRole) : ConnectionState -> ConnectionState -> Prop :=
| life_stay c : lifecycle role c c
| life_syn_sent : role = Client -> lifecycle role Closed HandshakeSent
| life_syn_received : role = Server -> lifecycle role Closed HandshakeReceived
| life_client_up : role = Client -> lifecycle role HandshakeSent Established
| life_server_up : role = Server -> lifecycle role HandshakeReceived Established
| life_closing c : lifecycle role c Closing
| life_closed : lifecycle role Closing Closed
| life_reset c : lifecycle role c Reset.

(** Deciding from the state after a completed close is one step of the cycle. *)
Lemma decided_lifecycle role cs kind closed :
  (closed = true -> cs = Closing /\ kind <> KindSyn) ->
  let cs1 := if closed : bool then Closed else cs in
  lifecycle role cs (decided_state cs1 (decide_connection_transition role cs1 kind)).
Proof.
  intros Hc. destruct closed.
  - destruct (Hc eq_refl) as [-> Hk]. destruct role, kind; cbn; try done; by constructor.
  - cbn zeta. destruct role, cs, kind; cbn; by constructor.
Qed.

Lemma fin_ack_not_syn cfg h kind tx :
  snd (apply_remote_ack cfg h kind tx) = true -> kind <> KindSyn.
Proof. unfold apply_remote_ack. by intros H ->. Qed.

Lemma received_lifecycle cfg bs now s :
  Forall is_u8 bs -> session_ok cfg s ->
  let s' := on_datagram_received cfg bs now s in
  st_role s' = st_role s /\
  lifecycle (st_role s) (st_connection_state s) (st_connection_state s').
Proof.
  intros Hb Hs. unfold on_datagram_received. destruct (decode bs) as [pv|] eqn:Ed.
  2:{ split; [done|constructor]. }
  pose proof (decode_packet_ok bs pv Hb Ed) as Hp.
  destruct (on_decoded_cases cfg pv (Z.of_nat (length bs)) now s Hp Hs) as (Hr & _ & Hcase).
  split; [done|]. destruct Hcase as [(_ & -> & _)|[(_ & _ & -> & _)|(_ & _ & fin & data & Hf & Hc & _)]].
  - constructor.
  - constructor.
  - rewrite Hc. apply decided_lifecycle. rewrite andb_true_iff. intros [-> Hcl].
    apply bool_decide_eq_true in Hcl. split; [done|]. by eapply fin_ack_not_syn.
Qed.

Lemma poll_tx_lifecycle cfg now s :
  settings_typed cfg -> is_u64 now -> session_ok cfg s ->
  let s' := snd (poll_tx cfg now s) in
  st_role s' = st_role s /\
  lifecycle (st_role s) (st_connection_state s) (st_connection_state s').
Proof.
  intros Hcfg Hnow Hs. destruct (poll_tx cfg now s) as [o s'] eqn:E.
  apply poll_tx_cases in E as (Hr & _ & Hc); try done. cbn. split; [done|].
  destruct (should_timeout_idle_session cfg s now).
  { destruct Hc as (_ & [-> _] & _). constructor. }
  destruct Hc as [(_ & -> & _)|(-> & _)]; [constructor|]. unfold polled_state.
  destruct (decide (st_role s = Client /\ st_connection_state s = Closed)) as [[H1 ->]|Hno].
  - rewrite H1. by constructor.
  - rewrite <- bool_decide_and, bool_decide_eq_false_2 by done. constructor.
Qed.

(** ** Properties *)

(** C10: the life cycle. Whatever a reachable connection is asked to do and
    whatever it receives, its role is fixed and its state moves only along these
    arrows: Closed to HandshakeSent (client) or HandshakeReceived (server); from
    there to Established; any state to Closing or Reset; Closing to Closed. In
    particular Established is never entered from Closed, Closing or Reset. *)
Theorem session_lifecycle cfg s s' :
  settings_typed cfg -> reachable cfg s -> session_step cfg s s' ->
  st_role s' = st_role s /\
  lifecycle (st_role s) (st_connection_state s) (st_connection_state s').
Proof.
  intros Hcfg Hreach Hstep. pose proof (reachable_ok cfg s Hcfg Hreach) as Hs.
  destruct Hstep.
  - split; [done|constructor].
  - by apply poll_tx_lifecycle.
  - by apply received_lifecycle.
  - unfold request_close. case_match; (split; [done|]); constructor.
  - split; [done|constructor].
  - split; [done|constructor].
Qed.

Lemma session_lifecycle_witness :
  let s := new_session Client 7 in
  let s' := snd (poll_tx default_transport 0 s) in
  lifecycle Client Closed (st_connection_state s') /\ st_connection_state s' = HandshakeSent.
Proof.
  intros s s'. split; [|vm_compute; reflexivity].
  refine (proj2 (session_lifecycle default_transport s s' default_transport_typed _ _)).
  - exists Client, 7. split; [unfold is_u32; lia|apply star_refl].
  - apply step_poll, is_u64_0.
Defined.

Lemma decided_up role cs kind closed :
  let cs1 := if closed : bool then Closed else cs in
  let d := decide_connection_transition role cs1 kind in
  cs <> Established -> decided_state cs1 d = Established ->
  closed = false /\ dec_valid d = true /\ dec_emit_connected d = true /\
  dec_emit_connection_closed d = false /\ dec_emit_connection_reset d = false /\
  ((role = Client /\ cs = HandshakeSent /\ kind = KindSynAck) \/
   (role = Server /\ cs = HandshakeReceived /\ kind = KindAck)).
Proof.
  destruct closed; cbn zeta; intros Hne; destruct role, kind; cbn; try done;
    destruct cs; cbn; try done; intros _; auto 10.
Qed.

Definition comes_up (s : SessionState) (kind : ControlKind) : Prop :=
  (st_role s = Client /\ st_connection_state s = HandshakeSent /\ kind = KindSynAck) \/
  (st_role s = Server /\ st_connection_state s = HandshakeReceived /\ kind = KindAck).

Lemma step_not_receive_not_up cfg s s' :
  settings_typed cfg -> session_ok cfg s -> session_step cfg s s' ->
  st_connection_state s <> Established -> st_connection_state s' = Established ->
  exists bs now, Forall is_u8 bs /\ s' = on_datagram_received cfg bs now s.
Proof.
  intros Hcfg Hs Hstep Hne Hup. destruct Hstep as [|now s Hn|bs now s Hb|s| |]; try done.
  - exfalso. destruct (poll_tx cfg now s) as [o s'] eqn:E. cbn in Hup.
    apply poll_tx_cases in E as (_ & _ & Hc); try done.
    destruct (should_timeout_idle_session cfg s now).
    { destruct Hc as (_ & [Hc _] & _). congruence. }
    destruct Hc as [(_ & Hc & _)|(Hc & _)]; [congruence|].
    rewrite Hc in Hup. unfold polled_state in Hup. by case_match.
  - by exists bs, now.
  - unfold request_close in Hup. by rewrite bool_decide_eq_false_2 in Hup.
Qed.

(** C9: how a connection comes up. A step after which a connection is newly
    Established is the receipt of a datagram that decodes to a SYN-ACK at a client
    waiting in HandshakeSent, or to an ACK at a server waiting in
    HandshakeReceived, for this connection's id; the application then sees
    exactly one new event, Connected, and the time is recorded. *)
Theorem established_by_handshake cfg s s' :
  settings_typed cfg -> reachable cfg s -> session_step cfg s s' ->
  st_connection_state s <> Established -> st_connection_state s' = Established ->
  exists bs pv now,
    s' = on_datagram_received cfg bs now s /\ decode bs = Some pv /\
    comes_up s (classify_control_kind (pv_header pv)) /\
    (st_conn_id s <> 0 -> hdr_conn_id (pv_header pv) = st_conn_id s) /\
    pending_events (st_rx s') =
      pending_events (st_rx s) ++ [control_event Connected pv ""] /\
    st_established_since_ms s' = now.
Proof.
  intros Hcfg Hreach Hstep Hne Hup. pose proof (reachable_ok cfg s Hcfg Hreach) as Hs.
  destruct (step_not_receive_not_up cfg s s' Hcfg Hs Hstep Hne Hup) as (bs & now & Hb & ->).
  unfold on_datagram_received in *. destruct (decode bs) as [pv|] eqn:Ed; [|done].
  exists bs, pv, now. rewrite Ed. split; [done|]. split; [done|].
  destruct (on_decoded_cases cfg pv (Z.of_nat (length bs)) now s
              (decode_packet_ok bs pv Hb Ed) Hs) as (_ & _ & Hcase).
  destruct Hcase as [(_ & Hc & _)|[(_ & _ & Hc & _)|(Hmm & _ & fin & data & _ & Hc & _ & He & _ & Hk & Ht & _)]];
    [congruence..|]. rewrite Hc in Hup.
  destruct (decided_up _ _ _ _ Hne Hup) as (Hcl & Hv & Hec & Hecl & Her & Hwho).
  assert (Hnone : classify_control_kind (pv_header pv) <> KindNone)
    by (destruct Hwho as [(_ & _ & ->)|(_ & _ & ->)]; done).
  split; [exact Hwho|]. split; [|split].
  - intros Hid. unfold has_conn_id_mismatch, adopted_id, should_adopt_server_conn_id in Hmm.
    cbn in Hmm. rewrite (proj2 (Z.eqb_neq (st_conn_id s) 0)) in Hmm by done.
    rewrite !andb_false_r in Hmm. cbn in Hmm. rewrite (proj2 (Z.eqb_neq _ _)) in Hmm by done.
    destruct Hwho as [(Hr & Hcs & Hkd)|(Hr & Hcs & Hkd)]; rewrite Hkd in Hmm;
      unfold allows_server_zero_conn_id_bootstrap in Hmm; cbn in Hmm; rewrite Hr, Hcs in Hmm;
      cbn in Hmm; by apply negb_false_iff, Z.eqb_eq in Hmm.
  - rewrite He, (Hk Hnone), Hcl. unfold decision_events. rewrite Hcl in Hv, Hec, Hecl, Her.
    by rewrite Hv, Hec, Hecl, Her.
  - by rewrite Ht, bool_decide_eq_false_2, bool_decide_eq_true_2 by done.
Qed.

(** A client that has sent its SYN, and the server's answer. *)
Definition sample_client : SessionState :=
  snd (poll_tx default_transport 0 (new_session Client 7)).
Definition sample_syn_ack : bytes := encode (control_header 5 0x21 100 8 0) [].

Lemma sample_client_reachable : reachable default_transport sample_client.
Proof.
  exists Client, 7. split; [unfold is_u32; lia|].
  eapply star_snoc; [apply star_refl|]. apply step_poll, is_u64_0.
Qed.

Lemma encode_bytes h p : header_typed h -> Forall is_u8 p -> Forall is_u8 (encode h p).
Proof. intros Hh Hp. rewrite encode_layout. apply Forall_app. by split; [apply header_block_bytes|]. Qed.

Lemma sample_syn_ack_bytes : Forall is_u8 sample_syn_ack.
Proof.
  apply encode_bytes; [|constructor].
  apply (control_header_ok 5 (flag_or FlagSyn FlagAck) 100 8 0); auto with rudp;
    unfold is_u32; lia.
Qed.

Lemma established_by_handshake_witness :
  let s' := on_datagram_received default_transport sample_syn_ack 20 sample_client in
  exists pv, comes_up sample_client (classify_control_kind (pv_header pv)) /\
    st_connection_state s' = Established.
Proof.
  intros s'. destruct (established_by_handshake default_transport sample_client s')
    as (bs & pv & now & _ & _ & Hup & _).
  - apply default_transport_typed.
  - apply sample_client_reachable.
  - apply step_receive, sample_syn_ack_bytes.
  - vm_compute. discriminate.
  - vm_compute. reflexivity.
  - exists pv. split; [exact Hup|vm_compute; reflexivity].
Defined.



(** [poll_tx] on an established connection that has received nothing for
    the idle timeout sends nothing, resets the connection and reports "idle
    timeout"; otherwise it either reports the retry limit the same way, or keeps
    the receive state and the connection state (a closed client moves to
    HandshakeSent). *)
Theorem poll_tx_outcome cfg now s :
  settings_typed cfg -> is_u64 now -> session_ok cfg s ->
  let '(o, s') := poll_tx cfg now s in
  if bool_decide (st_connection_state s = Established) &&
     (u64 (st_last_rx_ms s + idle_timeout_ms cfg) <=? now)
  then o = None /\ poll_error s s' "idle timeout" /\ st_tx s' = st_tx s
  else
    (o = None /\ poll_error s s' "retransmission retry limit exceeded") \/
    (st_connection_state s' = polled_state s /\ st_rx s' = st_rx s).
Proof.
  intros Hcfg Hnow Hs. destruct (poll_tx cfg now s) as [o s'] eqn:E.
  apply poll_tx_cases in E as (_ & _ & Hc); try done.
  unfold should_timeout_idle_session in Hc. by destruct (bool_decide (_ = Established)).
Qed.

Lemma poll_tx_outcome_witness :
  let s := on_datagram_received default_transport sample_syn_ack 20 sample_client in
  st_connection_state (snd (poll_tx default_transport 15020 s)) = Reset.
Proof.
  intros s.
  assert (Hs : session_ok default_transport s).
  { apply on_datagram_received_ok; [apply sample_syn_ack_bytes|].
    exact (reachable_ok _ _ default_transport_typed sample_client_reachable). }
  pose proof (poll_tx_outcome default_transport 15020 s default_transport_typed
    ltac:(unfold is_u64; lia) Hs) as H.
  destruct (poll_tx default_transport 15020 s) as [o s'].
  destruct (bool_decide (st_connection_state s = Established) &&
     (u64 (st_last_rx_ms s + idle_timeout_ms default_transport) <=? 15020)) eqn:E.
  - destruct H as (_ & [H _] & _). exact H.
  - vm_compute in E. discriminate E.
Defined.
