(* ===== verification/Handshake.v ===== *)
(** Two sessions talking: the three-way handshake end to end, for any initial
    sequence numbers, any connection id and any configuration. *)

From S2P Require Import Prelude StdMap Protocol Utils Codec Config SessionTypes.
From S2P Require Import ConnectionStateMachine TxHandler TxInvariant RxHandler RxInvariant.
From S2P Require Import Session SessionInvariant SessionLifecycle.

Lemma decode_control h p : header_ok h -> decode (encode h p) = Some {| pv_header := h; pv_payload := p |}.
Proof.
  intros [Ht Hv]. rewrite encode_layout, decode_block by apply header_block_length.
  by rewrite decode_header_block.
Qed.

Definition sent_entry (h : Header) (now : Z) : TxEntry :=
  new_entry {| op_header := h; op_payload := [] |} now.

Lemma build_reliable_control now id flags rx tx :
  consumes_reliable_seq flags = true -> next_seq tx = remote_ack tx ->
  let h := control_header id flags (next_seq tx) (next_expected rx) (received_bits rx) in
  build_control_packet now id flags rx tx =
  (Some (encode h []), tx <| next_seq ::= fun n => u32 (n + 1) |>
                          <| inflight ::= smap_emplace (next_seq tx) (sent_entry h now) |>).
Proof.
  intros Hf He. unfold build_control_packet.
  assert (reliable_window_full tx = false) as ->
    by (unfold reliable_window_full; by rewrite He, Z.sub_diag).
  by rewrite Hf.
Qed.

Lemma build_plain_control now id flags rx tx :
  consumes_reliable_seq flags = false ->
  let h := control_header id flags 0 (next_expected rx) (received_bits rx) in
  build_control_packet now id flags rx tx = (Some (encode h []), tx).
Proof. intros Hf. unfold build_control_packet. by rewrite Hf. Qed.

Lemma schedule_not_established cfg now s :
  st_connection_state s <> Established -> schedule_pending_tx_work cfg now s = s.
Proof.
  intros H. unfold schedule_pending_tx_work, should_schedule_reliable_ack,
    should_schedule_activity_ack, should_schedule_probe.
  rewrite !bool_decide_eq_false_2 by done. cbn. rewrite orb_true_r.
  by destruct (enable_activity_ack_only cfg).
Qed.

(** A poll in which the handshake step has a packet to send. *)
Lemma poll_tx_handshake cfg now s h p cs' tx' :
  should_timeout_idle_session cfg s now = false -> header_ok h ->
  let s1 := schedule_pending_tx_work cfg now s in
  try_build_handshake cfg now (st_role s1) (st_conn_id s1) (st_connection_state s1)
    (st_rx s1) (st_tx s1) = (Some (encode h p), cs', tx') ->
  let s2 := s1 <| st_connection_state := cs' |> <| st_tx := tx' |> in
  let kind := classify_control_kind h in
  exists st, poll_tx cfg now s =
    (Some (encode h p),
     clear_outbound_ack_state kind
       ((update_outbound_probe_state kind now s2) <| st_last_tx_ms := now |>
                                                  <| st_stats := st |>)).
Proof.
  intros Ht Hh s1 E. unfold poll_tx. rewrite Ht. fold s1. unfold poll. rewrite E.
  cbn [has_value make_poll_result poll_fatal_error poll_datagram poll_retransmission].
  unfold apply_outbound_result. rewrite decode_control by done. eexists. reflexivity.
Qed.

(** The first tracked packet sets the front right after itself. *)
Lemma on_packet_first h kind rx :
  hdr_channel_type h = Unreliable -> kind = KindSyn \/ kind = KindSynAck ->
  next_expected rx = 0 -> received_bits rx = 0 ->
  on_packet {| pv_header := h; pv_payload := [] |} kind rx =
  (false, rx <| next_expected := u32 (hdr_seq h + 1) |>).
Proof.
  intros Ht Hk Hn Hb. unfold on_packet, update_reliable_receive_state. cbn [pv_header].
  rewrite Ht, Hn.
  assert (Ha : advance_receive_window (rx <| next_expected := hdr_seq h |>) =
    rx <| next_expected := u32 (hdr_seq h + 1) |>).
  { unfold advance_receive_window, advance_loop. by rewrite iter_while_stop by (cbn; by rewrite Hb). }
  destruct Hk as [-> | ->]; cbn -[advance_receive_window u32]; by rewrite Z.eqb_refl, Ha.
Qed.

(** An ACK for the only packet in flight. *)
Lemma on_remote_ack_single cfg n e tx :
  is_u32 n -> inflight tx = [(n, e)] ->
  let '(tx', fin) := on_remote_ack cfg (u32 (n + 1)) 0 tx in
  tx' = tx <| remote_ack := u32 (n + 1) |> <| remote_ack_bits := 0 |> <| inflight := [] |> /\
  fin = hasFlag (op_header (te_packet e)) FlagFin.
Proof.
  intros Hn He. unfold on_remote_ack, erase_acknowledged_inflight. cbn. rewrite He. cbn.
  assert (Ha : is_acknowledged_by_remote n (u32 (n + 1)) 0 = true).
  { rewrite is_acked_spec. apply orb_true_iff. left. unfold seq_offset. word_lia. }
  rewrite Ha. cbn. unfold mark_gap_fast_retransmit_candidates. cbn.
  split; [done|]. by destruct (hasFlag _ _).
Qed.

Section handshake.
Context (cfg : TransportSettings) (Hcfg : settings_typed cfg).
Context (c_isn s_isn id : Z) (Hc : is_u32 c_isn) (Hs : is_u32 s_isn) (Hid : is_u32 id).

Let syn := control_header 0 (flag_bits FlagSyn) c_isn 0 0.
Let syn_ack := control_header id (flag_or FlagSyn FlagAck) s_isn (u32 (c_isn + 1)) 0.
Let final_ack := control_header id (flag_bits FlagAck) 0 (u32 (s_isn + 1)) 0.

Lemma syn_ok : header_ok syn.
Proof. apply control_header_ok; auto with rudp. Qed.
Lemma syn_ack_ok : header_ok syn_ack.
Proof. apply control_header_ok; auto with rudp. Qed.
Lemma final_ack_ok : header_ok final_ack.
Proof. apply control_header_ok; auto with rudp. Qed.

(** The client's state after its SYN, with the SYN's entry [e]. *)
Definition client_sent_with (e : TxEntry) (t : Z) (st : SessionStats) : SessionState :=
  {| st_role := Client; st_conn_id := 0; st_connection_state := HandshakeSent;
     st_established_since_ms := 0; st_last_rx_ms := 0; st_last_tx_ms := t; st_stats := st;
     st_tx := (default_tx c_isn) <| next_seq := u32 (c_isn + 1) |> <| inflight := [(c_isn, e)] |>;
     st_rx := default_rx |}.

Definition client_sent (t : Z) (st : SessionStats) : SessionState :=
  client_sent_with (sent_entry syn t) t st.

Lemma client_syn t :
  exists st, poll_tx cfg t (new_session Client c_isn) =
    (Some (encode syn []), client_sent t st).
Proof.
  pose proof (poll_tx_handshake cfg t (new_session Client c_isn) syn [] HandshakeSent
    (st_tx (client_sent t default_stats)) eq_refl syn_ok) as H. cbn zeta in H.
  rewrite schedule_not_established in H by done.
  destruct H as [st ->]; [|by exists st]. unfold try_build_handshake.
  cbn [new_session st_role st_connection_state st_tx st_rx st_conn_id].
  by rewrite build_reliable_control.
Qed.

(** The server's state after the SYN. *)
Definition server_received (t : Z) (st : SessionStats) : SessionState :=
  {| st_role := Server; st_conn_id := id; st_connection_state := HandshakeReceived;
     st_established_since_ms := 0; st_last_rx_ms := t; st_last_tx_ms := 0; st_stats := st;
     st_tx := (default_tx s_isn) <| syn_ack_pending := true |>;
     st_rx := default_rx <| next_expected := u32 (c_isn + 1) |> |}.

Lemma server_syn t :
  exists st, on_datagram_received cfg (encode syn []) t (assign_conn_id id (new_session Server s_isn)) =
    server_received t st.
Proof.
  unfold on_datagram_received. rewrite decode_control by apply syn_ok.
  unfold on_decoded. cbn zeta. cbn [pv_header].
  change (classify_control_kind syn) with KindSyn.
  set (s0 := record_received_stats _ _ _ _).
  change (should_adopt_server_conn_id s0 KindSyn syn) with false. cbv iota.
  assert (Em : has_conn_id_mismatch s0 KindSyn syn = false)
    by (unfold has_conn_id_mismatch; by rewrite andb_false_r).
  rewrite Em. change (is_duplicate_client_syn_ack s0 KindSyn) with false. cbv iota.
  change (handle_probe_receive KindSyn t s0) with s0.
  change (apply_remote_ack cfg syn KindSyn (st_tx s0)) with (st_tx s0, false). cbv iota beta.
  set (s1 := apply_connection_decision _ _ _).
  rewrite (on_packet_first syn KindSyn (st_rx s1)) by (done || by left).
  eexists. reflexivity.
Qed.

(** ... and after its SYN-ACK, with the SYN-ACK's entry [e]. *)
Definition server_answered_with (e : TxEntry) (t0 t : Z) (st : SessionStats) : SessionState :=
  {| st_role := Server; st_conn_id := id; st_connection_state := HandshakeReceived;
     st_established_since_ms := 0; st_last_rx_ms := t0; st_last_tx_ms := t; st_stats := st;
     st_tx := (default_tx s_isn) <| next_seq := u32 (s_isn + 1) |> <| inflight := [(s_isn, e)] |>;
     st_rx := default_rx <| next_expected := u32 (c_isn + 1) |> |}.

Definition server_answered (t0 t : Z) (st : SessionStats) : SessionState :=
  server_answered_with (sent_entry syn_ack t) t0 t st.

Lemma server_syn_ack t0 t st0 :
  exists st, poll_tx cfg t (server_received t0 st0) =
    (Some (encode syn_ack []), server_answered t0 t st).
Proof.
  pose proof (poll_tx_handshake cfg t (server_received t0 st0) syn_ack [] HandshakeReceived
    (st_tx (server_answered t0 t default_stats)) eq_refl syn_ack_ok) as H. cbn zeta in H.
  rewrite schedule_not_established in H by done.
  destruct H as [st ->]; [|by exists st]. unfold try_build_handshake.
  cbn [server_received st_role st_connection_state st_tx st_rx st_conn_id].
  by rewrite (build_reliable_control t id (flag_or FlagSyn FlagAck)).
Qed.

Let syn_ack_view := {| pv_header := syn_ack; pv_payload := [] |}.

(** The client's state after the SYN-ACK. *)
Definition client_up (t0 t : Z) (st : SessionStats) : SessionState :=
  {| st_role := Client; st_conn_id := id; st_connection_state := Established;
     st_established_since_ms := t; st_last_rx_ms := t; st_last_tx_ms := t0; st_stats := st;
     st_tx := (default_tx c_isn) <| next_seq := u32 (c_isn + 1) |>
                <| remote_ack := u32 (c_isn + 1) |> <| final_ack_pending := true |>;
     st_rx := default_rx <| next_expected := u32 (s_isn + 1) |>
                <| pending_events := [control_event Connected syn_ack_view ""] |> |}.

Lemma client_syn_ack_with e t0 t st0 :
  hasFlag (op_header (te_packet e)) FlagFin = false -> id <> 0 ->
  exists st, on_datagram_received cfg (encode syn_ack []) t (client_sent_with e t0 st0) =
    client_up t0 t st.
Proof.
  intros Hfin Hne. unfold on_datagram_received. rewrite decode_control by apply syn_ack_ok.
  unfold on_decoded. cbn zeta. cbn [pv_header].
  change (classify_control_kind syn_ack) with KindSynAck.
  set (s0 := record_received_stats _ _ _ _).
  assert (Ea : should_adopt_server_conn_id s0 KindSynAck syn_ack = true).
  { unfold should_adopt_server_conn_id. cbn. by rewrite (proj2 (Z.eqb_neq _ _)). }
  rewrite Ea. set (s1 := adopt_server_conn_id syn_ack s0).
  assert (Em : has_conn_id_mismatch s1 KindSynAck syn_ack = false).
  { unfold has_conn_id_mismatch. cbn. by rewrite Z.eqb_refl, andb_false_r. }
  rewrite Em. change (is_duplicate_client_syn_ack s1 KindSynAck) with false. cbv iota.
  change (handle_probe_receive KindSynAck t s1) with s1.
  change (apply_remote_ack cfg syn_ack KindSynAck (st_tx s1)) with
    (on_remote_ack cfg (u32 (c_isn + 1)) 0 (st_tx s1)).
  pose proof (on_remote_ack_single cfg c_isn e (st_tx s1) Hc eq_refl) as H.
  destruct (on_remote_ack _ _ _ _) as [tx fin]. destruct H as [-> ->].
  rewrite Hfin. cbv iota beta.
  set (s3 := apply_connection_decision _ _ _).
  rewrite (on_packet_first syn_ack KindSynAck (st_rx s3)) by (done || by right).
  eexists. reflexivity.
Qed.

Lemma client_syn_ack t0 t st0 :
  id <> 0 ->
  exists st, on_datagram_received cfg (encode syn_ack []) t (client_sent t0 st0) = client_up t0 t st.
Proof. by apply client_syn_ack_with. Qed.

(** The final ACK leaves the client established with nothing in flight. *)
Lemma client_final t0 t1 t st0 :
  t < u64 (t1 + idle_timeout_ms cfg) ->
  exists c, poll_tx cfg t (client_up t0 t1 st0) = (Some (encode final_ack []), c) /\
    st_connection_state c = Established /\ st_conn_id c = id /\ inflight (st_tx c) = [] /\
    st_rx c = st_rx (client_up t0 t1 st0) /\ final_ack_pending (st_tx c) = false.
Proof.
  intros Ht. set (s := client_up t0 t1 st0).
  assert (Hto : should_timeout_idle_session cfg s t = false).
  { exact (proj2 (Z.leb_gt _ _) Ht). }
  set (s1 := schedule_pending_tx_work cfg t s).
  pose proof (poll_tx_handshake cfg t s final_ack [] Established
    ((st_tx s1) <| final_ack_pending := false |>
       <| final_ack_linger_until_ms := u64 (t + handshake_linger_ms cfg) |>)
    Hto final_ack_ok) as H. cbn zeta in H. fold s1 in H.
  destruct (schedule_pending_tx_work_frame cfg t s) as (Er & Ei & Ec & Ex & Ef & _).
  fold s1 in Er, Ei, Ec, Ex, Ef.
  destruct H as [st E].
  { unfold try_build_handshake. rewrite Er, Ei, Ec, Ex.
    rewrite (build_plain_control t _ (flag_bits FlagAck)) by done.
    assert (Hp : final_ack_pending (st_tx s1) = true /\ syn_ack_pending (st_tx s1) = false)
      by (subst s1; unfold schedule_pending_tx_work; by repeat case_match).
    by rewrite (proj1 Hp), (proj2 Hp). }
  rewrite E. eexists. split; [reflexivity|].
  change (classify_control_kind final_ack) with KindAck. cbn.
  split; [done|]. split; [done|]. split; [done|]. split; done.
Qed.

(** The final ACK brings the server up. *)
Lemma server_final_ack t0 t1 t st0 :
  let s := on_datagram_received cfg (encode final_ack []) t (server_answered t0 t1 st0) in
  st_connection_state s = Established /\ st_conn_id s = id /\ inflight (st_tx s) = [] /\
  pending_events (st_rx s) =
    [control_event Connected {| pv_header := final_ack; pv_payload := [] |} ""].
Proof.
  unfold on_datagram_received. rewrite decode_control by apply final_ack_ok.
  unfold on_decoded. cbn zeta. cbn [pv_header].
  change (classify_control_kind final_ack) with KindAck.
  set (s0 := record_received_stats _ _ _ _).
  change (should_adopt_server_conn_id s0 KindAck final_ack) with false. cbv iota.
  assert (Em : has_conn_id_mismatch s0 KindAck final_ack = false).
  { unfold has_conn_id_mismatch. cbn. by rewrite Z.eqb_refl, andb_false_r. }
  rewrite Em. change (is_duplicate_client_syn_ack s0 KindAck) with false. cbv iota.
  change (handle_probe_receive KindAck t s0) with s0.
  change (apply_remote_ack cfg final_ack KindAck (st_tx s0)) with
    (on_remote_ack cfg (u32 (s_isn + 1)) 0 (st_tx s0)).
  pose proof (on_remote_ack_single cfg s_isn (sent_entry syn_ack t1) (st_tx s0) Hs eq_refl) as H.
  destruct (on_remote_ack _ _ _ _) as [tx fin]. destruct H as [-> ->].
  change (hasFlag (op_header (te_packet (sent_entry syn_ack t1))) FlagFin) with false. cbv iota beta.
  set (s3 := apply_connection_decision _ _ _).
  destruct (on_packet_events {| pv_header := final_ack; pv_payload := [] |} KindAck (st_rx s3))
    as (new & En & _ & Hnil).
  { split; [apply final_ack_ok|constructor]. }
  { subst s3. cbn. apply rx_ok_events, rx_ok_next; [apply u32_range|apply default_rx_ok]. }
  rewrite Hnil, app_nil_r in En by done.
  destruct (on_packet _ _ _) as [ack rx]. cbn [snd] in En.
  match goal with |- context [schedule_receive_side_ack ?c ?p ?k ?a ?t (update_post_receive_liveness _ ?s)] =>
    destruct (post_receive_frame c p k a t s) as (_ & Hi & Hcs & Hr & _ & Hf) end.
  rewrite Hcs, Hi, Hf, Hr. cbn. rewrite En. done.
Qed.
End handshake.

(** ** Properties *)

Definition deliver (cfg : TransportSettings) (datagram : option bytes) (now_ms : Z)
    (s : SessionState) : SessionState :=
  match datagram with
  | Some bs => on_datagram_received cfg bs now_ms s
  | None => s
  end.

(** The exchange: client poll, server receive, server poll, client receive,
    client poll, server receive, at the given times. *)
Definition handshake (cfg : TransportSettings) (c_isn s_isn id t0 t1 t2 t3 t4 t5 : Z)
    : SessionState * SessionState :=
  let '(d1, c1) := poll_tx cfg t0 (new_session Client c_isn) in
  let s1 := deliver cfg d1 t1 (assign_conn_id id (new_session Server s_isn)) in
  let '(d2, s2) := poll_tx cfg t2 s1 in
  let c2 := deliver cfg d2 t3 c1 in
  let '(d3, c3) := poll_tx cfg t4 c2 in
  let s3 := deliver cfg d3 t5 s2 in
  (c3, s3).

(** The handshake completes. For any configuration, initial sequence
    numbers (the wrap included), non-zero connection id and times (the client
    polling before its idle timeout), a client session and a server session that
    exchange their datagrams are both Established after three packets, agree on
    the connection id the server assigned, have nothing left in flight, and each
    application has seen exactly one event, Connected. *)
Theorem handshake_establishes cfg c_isn s_isn id t0 t1 t2 t3 t4 t5 :
  is_u32 c_isn -> is_u32 s_isn -> is_u32 id -> id <> 0 ->
  t4 < u64 (t3 + idle_timeout_ms cfg) ->
  let '(c, s) := handshake cfg c_isn s_isn id t0 t1 t2 t3 t4 t5 in
  st_connection_state c = Established /\ st_connection_state s = Established /\
  st_conn_id c = id /\ st_conn_id s = id /\
  inflight (st_tx c) = [] /\ inflight (st_tx s) = [] /\
  map ev_type (pending_events (st_rx c)) = [Connected] /\
  map ev_type (pending_events (st_rx s)) = [Connected].
Proof.
  intros Hc Hs Hid Hne Ht. unfold handshake.
  destruct (client_syn cfg c_isn Hc t0) as [st1 ->]. cbn [deliver].
  destruct (server_syn cfg c_isn s_isn id Hc t1) as [st2 ->].
  destruct (server_syn_ack cfg c_isn s_isn id Hs Hid t1 t2 st2) as [st3 ->]. cbn [deliver].
  destruct (client_syn_ack cfg c_isn s_isn id Hc Hs Hid t0 t3 st1 Hne) as [st4 ->].
  destruct (client_final cfg c_isn s_isn id Hid t0 t3 t4 st4 Ht)
    as (c & -> & H1 & H2 & H3 & H4 & _). cbn [deliver].
  destruct (server_final_ack cfg c_isn s_isn id Hs Hid t1 t2 t5 st3) as (H5 & H6 & H7 & H8).
  rewrite H4, H8. done.
Qed.

Lemma handshake_establishes_witness :
  let '(c, s) := handshake default_transport 0xffffffff 0xfffffffe 5 0 10 10 20 20 30 in
  st_connection_state c = Established /\ st_connection_state s = Established.
Proof.
  pose proof (handshake_establishes default_transport 0xffffffff 0xfffffffe 5 0 10 10 20 20 30
    ltac:(unfold is_u32; lia) ltac:(unfold is_u32; lia) ltac:(unfold is_u32; lia)
    ltac:(discriminate) ltac:(vm_compute; reflexivity)) as H.
  destruct (handshake default_transport 0xffffffff 0xfffffffe 5 0 10 10 20 20 30) as [c s].
  destruct H as (H1 & H2 & _). split; [exact H1|exact H2].
Defined.
