(* ===== verification/SessionGiveUp.v ===== *)
(** Deliver or fail: a connection whose packets are not acknowledged retries the
    first of them within its budget and then ends in Reset, and says so. *)

From S2P Require Import Prelude StdMap Protocol Utils Codec Config SessionTypes.
From S2P Require Import ConnectionStateMachine TxHandler TxInvariant TxLiveness RxHandler RxInvariant.
From S2P Require Import Session SessionInvariant SessionLifecycle Handshake.

(** Polls at the times [ts], with nothing received in between: the datagrams, and
    the session after them. *)
Fixpoint polls (cfg : TransportSettings) (ts : list Z) (s : SessionState)
    : list (option bytes) * SessionState :=
  match ts with
  | [] => ([], s)
  | t :: ts =>
      let '(d, s) := poll_tx cfg t s in
      let '(ds, s) := polls cfg ts s in
      (d :: ds, s)
  end.

(** The times of the remaining retransmissions of a packet resent [k] times, the last
    at [last]: each when the timeout has passed, one for each attempt left. *)
Fixpoint retry_times (cfg : TransportSettings) (k last : Z) (ts : list Z) : bool :=
  match ts with
  | [] => max_retransmit_count cfg <=? k
  | t :: ts => (k <? max_retransmit_count cfg) && (u64 (last + retransmit_timeout_for cfg k) <=? t) &&
               retry_times cfg (k + 1) t ts
  end.

Section reset_after_retries.
Context (cfg : TransportSettings) (Hcfg : settings_typed cfg).

(** Two sessions that differ in nothing a retransmission depends on. *)
Definition same_sending (s s' : SessionState) : Prop :=
  st_role s' = st_role s /\ st_connection_state s' = st_connection_state s /\
  st_rx s' = st_rx s /\ st_last_rx_ms s' = st_last_rx_ms s /\
  inflight (st_tx s') = inflight (st_tx s) /\
  handshake_idle (st_role s') (st_connection_state s') (st_tx s') =
    handshake_idle (st_role s) (st_connection_state s) (st_tx s).

Lemma scheduled_same now s : same_sending s (schedule_pending_tx_work cfg now s).
Proof. unfold schedule_pending_tx_work. by repeat case_match. Qed.

Lemma sent_same bs now retx s : same_sending s (apply_outbound_result bs now retx s).
Proof.
  unfold apply_outbound_result, clear_outbound_ack_state, update_outbound_probe_state.
  by repeat case_match.
Qed.

Lemma same_timeout s s' t :
  same_sending s s' -> should_timeout_idle_session cfg s' t = should_timeout_idle_session cfg s t.
Proof. intros (_ & Ec & _ & El & _). unfold should_timeout_idle_session. by rewrite Ec, El. Qed.

(** What the datagrams and the state after a poll depend on. *)
Lemma poll_tx_first_entry now s k e m :
  should_timeout_idle_session cfg s now = false ->
  handshake_idle (st_role s) (st_connection_state s) (st_tx s) = true ->
  inflight (st_tx s) = (k, e) :: m ->
  (te_retry_count e < max_retransmit_count cfg -> entry_timed_out cfg now e = true) ->
  let '(d, s') := poll_tx cfg now s in
  st_rx s' = (if max_retransmit_count cfg <=? te_retry_count e
              then (st_rx s) <| pending_events ::= fun l =>
                     l ++ [local_error "retransmission retry limit exceeded"] |>
              else st_rx s) /\
  if max_retransmit_count cfg <=? te_retry_count e
  then d = None /\ st_connection_state s' = Reset /\ inflight (st_tx s') = m
  else d = Some (resent_datagram (st_rx s) e) /\
       (forall t, should_timeout_idle_session cfg s' t = should_timeout_idle_session cfg s t) /\
       handshake_idle (st_role s') (st_connection_state s') (st_tx s') = true /\
       inflight (st_tx s') = (k, resend_entry now (st_rx s) e) :: m.
Proof.
  intros Hto Hi Hm Hdue. unfold poll_tx. rewrite Hto.
  pose proof (scheduled_same now s) as Hf.
  set (s1 := schedule_pending_tx_work cfg now s) in *. clearbody s1.
  pose proof (fun t => same_timeout s s1 t Hf) as Hst.
  destruct Hf as (Er & Ec & Ex & El & Et & Eh). rewrite <- Eh in Hi. rewrite <- Et in Hm.
  rewrite (poll_first_entry cfg now _ _ _ _ _ k e m) by done.
  destruct (max_retransmit_count cfg <=? te_retry_count e); cbn [retry_limit_error make_poll_result
    poll_fatal_error poll_datagram poll_error_message poll_retransmission].
  - cbn. by rewrite Ex.
  - set (s2 := s1 <| st_connection_state := _ |> <| st_tx := _ |>).
    pose proof (sent_same (resent_datagram (st_rx s1) e) now true s2) as Hf.
    set (s3 := apply_outbound_result _ _ _ _) in *. clearbody s3.
    pose proof (fun t => same_timeout _ _ t Hf) as Hs3. destruct Hf as (F1 & F2 & F3 & F4 & F5 & F6).
    rewrite <- Ex. split; [by rewrite F3|]. split; [done|]. split_and!.
    + intros t. rewrite Hs3, <- Hst. done.
    + by rewrite F6.
    + by rewrite F5.
Qed.

Lemma polls_give_up ts t s k e m :
  handshake_idle (st_role s) (st_connection_state s) (st_tx s) = true ->
  inflight (st_tx s) = (k, e) :: m -> 0 <= te_retry_count e <= max_retransmit_count cfg ->
  retry_times cfg (te_retry_count e) (te_last_send_ms e) ts = true ->
  Forall (fun t => should_timeout_idle_session cfg s t = false) (ts ++ [t]) ->
  let '(ds, s') := polls cfg (ts ++ [t]) s in
  ds = map (fun _ => Some (resent_datagram (st_rx s) e)) ts ++ [None] /\
  poll_error s s' "retransmission retry limit exceeded" /\ inflight (st_tx s') = m.
Proof.
  revert s e. induction ts as [|u ts IH]; intros s e Hi Hm Hk Hts Hto; cbn [app polls map retry_times] in *.
  - apply Z.leb_le in Hts. apply Forall_cons_1 in Hto as [Hto _].
    pose proof (poll_tx_first_entry t s k e m Hto Hi Hm ltac:(lia)) as H.
    destruct (poll_tx cfg t s) as [d s']. rewrite (proj2 (Z.leb_le _ _)) in H by done.
    destruct H as (Hx & -> & Hc & Hf). split; [done|]. by split.
  - apply andb_true_iff in Hts as [[Hlt Hu]%andb_true_iff Hts]. apply Z.ltb_lt in Hlt.
    apply Forall_cons_1 in Hto as [Hu' Hto].
    pose proof (poll_tx_first_entry u s k e m Hu' Hi Hm (fun _ => Hu)) as H.
    destruct (poll_tx cfg u s) as [d s1]. rewrite (proj2 (Z.leb_gt _ _)) in H by done.
    destruct H as (Hx & -> & Hst & Hi1 & Hm1).
    assert (Hr : te_retry_count (resend_entry u (st_rx s) e) = te_retry_count e + 1).
    { cbn. apply u32_id. pose proof (cfg_max_retransmit cfg Hcfg). unfold is_u32 in *. lia. }
    specialize (IH s1 (resend_entry u (st_rx s) e) Hi1 Hm1). rewrite Hr in IH.
    destruct (polls cfg (ts ++ [t]) s1) as [ds s'].
    destruct IH as (-> & [Hc He] & Hf); [lia|exact Hts| |].
    { eapply Forall_impl; [exact Hto|]. intros x Hx'. cbn. by rewrite Hst. }
    rewrite Hx, resent_again in *. split; [done|]. by split.
Qed.
End reset_after_retries.

(** ** Properties *)

(** C14: deliver or fail. Take any session that satisfies the invariant, with no
    handshake or close packet waiting, packets in flight, and nothing received from
    now on. It is polled once per attempt that the packet with the lowest number,
    [k], has left, each time when that packet's timeout has passed; then once more,
    at any time; all this before the idle timeout. Every poll but the last sends the
    same datagram, a copy of that packet: its number, channel, flags and payload,
    with current acknowledgement fields. The last poll, however soon it comes, sends
    nothing, resets the connection, reports the retry limit to the application as the
    only new event, and drops the packet. So the packet is neither retried forever
    nor dropped in silence; and its last retransmission is given no time. *)
Theorem unacknowledged_resets cfg s k e m ts t :
  settings_typed cfg -> session_ok cfg s ->
  handshake_idle (st_role s) (st_connection_state s) (st_tx s) = true ->
  inflight (st_tx s) = (k, e) :: m ->
  retry_times cfg (te_retry_count e) (te_last_send_ms e) ts = true ->
  Forall (fun t => should_timeout_idle_session cfg s t = false) (ts ++ [t]) ->
  exists d,
    let '(ds, s') := polls cfg (ts ++ [t]) s in
    ds = map (fun _ => Some d) ts ++ [None] /\
    st_connection_state s' = Reset /\
    pending_events (st_rx s') = pending_events (st_rx s) ++
      [local_error "retransmission retry limit exceeded"] /\
    inflight (st_tx s') = m /\
    exists pv, decode d = Some pv /\ hdr_seq (pv_header pv) = k /\
      pv_header pv = refresh_acks (st_rx s) (op_header (te_packet e)) /\
      pv_payload pv = op_payload (te_packet e).
Proof.
  intros Hcfg Hs Hi Hm Hts Hto. pose proof (to_entries _ _ (so_tx _ _ Hs)) as He. rewrite Hm in He.
  apply Forall_cons in He as [He _]. cbn [fst snd] in He. exists (resent_datagram (st_rx s) e).
  assert (Hk : 0 <= te_retry_count e <= max_retransmit_count cfg) by (apply He).
  pose proof (polls_give_up cfg Hcfg ts t s k e m Hi Hm Hk Hts Hto) as H.
  destruct (polls cfg (ts ++ [t]) s) as [ds s']. destruct H as (-> & [Hc Hx] & Hf).
  split; [done|]. split; [done|]. split; [by rewrite Hx|]. split; [done|].
  eexists. split; [apply decode_control, header_ok_set_acks; apply Hs || apply He|]. split_and!; [|done|done].
  apply He.
Qed.

(** A client whose SYN is never answered: five retransmissions, and the reset one
    millisecond after the last. *)
Definition sample_retries : list Z := [250; 750; 1750; 3750; 7750].

Lemma unacknowledged_resets_witness :
  exists d,
    let '(ds, s') := polls default_transport (sample_retries ++ [7751]) sample_client in
    ds = [Some d; Some d; Some d; Some d; Some d; None] /\ st_connection_state s' = Reset /\
    exists pv, decode d = Some pv /\ hdr_seq (pv_header pv) = 7.
Proof.
  destruct (inflight (st_tx sample_client)) as [|[k e] m] eqn:E; [vm_compute in E; discriminate E|].
  assert (Hk : k = 7) by (vm_compute in E; injection E as <- _ _; reflexivity).
  destruct (unacknowledged_resets default_transport sample_client k e m sample_retries 7751)
    as [d H].
  - apply default_transport_typed.
  - apply (reachable_ok _ _ default_transport_typed sample_client_reachable).
  - vm_compute. reflexivity.
  - exact E.
  - vm_compute in E. injection E as _ <- _. vm_compute. reflexivity.
  - repeat apply Forall_cons_2; try apply Forall_nil_2; vm_compute; reflexivity.
  - exists d. destruct (polls default_transport (sample_retries ++ [7751]) sample_client) as [ds s'].
    destruct H as (Hd & Hc & _ & _ & pv & Hp & Hn & _).
    split; [exact Hd|]. split; [exact Hc|]. exists pv. split; [exact Hp|]. rewrite <- Hk. exact Hn.
Defined.
