(* ===== verification/DataTransfer.v ===== *)
(** Two established sessions exchanging messages over a network that loses
    datagrams: the building blocks.

    A side is [idle] when nothing is in flight, queued or owed; [waiting] when its
    one reliable packet is unacknowledged. The lemmas are the moves between these
    states: send, retransmit, receive, receive again, acknowledge, and the
    keep-alive probe. *)

From S2P Require Import Prelude StdMap Protocol Utils Codec Config SessionTypes.
From S2P Require Import ConnectionStateMachine TxHandler TxInvariant RxHandler RxInvariant.
From S2P Require Import Session SessionInvariant SessionLifecycle Handshake.

(** ** Receiving and polling in Established *)

Definition plain_kind (kind : ControlKind) : Prop :=
  kind = KindNone \/ kind = KindAck \/ kind = KindPing \/ kind = KindPong.

Lemma decision_default packet s :
  apply_connection_decision packet default_decision s = s.
Proof. by destruct s as [? ? ? ? ? ? ? [] []]. Qed.

(** What is left of [on_decoded] for a packet of the connection that changes no
    connection state. *)
Lemma on_decoded_plain cfg pv size now s :
  let kind := classify_control_kind (pv_header pv) in
  plain_kind kind -> st_connection_state s = Established ->
  hdr_conn_id (pv_header pv) = st_conn_id s ->
  on_decoded cfg pv size now s =
  let s1 := handle_probe_receive kind now (record_received_stats kind size now s) in
  let s2 := s1 <| st_tx ::= fun tx =>
    fst (on_remote_ack cfg (hdr_ack (pv_header pv)) (hdr_ack_bits (pv_header pv)) tx) |> in
  let '(ack, rx) := on_packet pv kind (st_rx s2) in
  schedule_receive_side_ack cfg pv kind ack now
    (update_post_receive_liveness kind (s2 <| st_rx := rx |>)).
Proof.
  intros kind Hk He Hid. unfold on_decoded. fold kind. cbn zeta.
  set (s0 := record_received_stats kind size now s).
  assert (H0 : st_connection_state s0 = Established /\ st_conn_id s0 = st_conn_id s) by done.
  assert (Ea : should_adopt_server_conn_id s0 kind (pv_header pv) = false).
  { unfold should_adopt_server_conn_id. rewrite (bool_decide_eq_false_2 (kind = KindSynAck)).
    - by rewrite andb_false_r. - by destruct Hk as [-> | [-> | [-> | ->]]]. }
  rewrite Ea.
  assert (Em : has_conn_id_mismatch s0 kind (pv_header pv) = false).
  { unfold has_conn_id_mismatch. rewrite Hid, (proj2 H0), Z.eqb_refl. by rewrite andb_false_r. }
  rewrite Em.
  assert (Ed : is_duplicate_client_syn_ack s0 kind = false).
  { unfold is_duplicate_client_syn_ack. rewrite (bool_decide_eq_false_2 (kind = KindSynAck)).
    - by rewrite andb_false_r. - by destruct Hk as [-> | [-> | [-> | ->]]]. }
  rewrite Ed. set (s1 := handle_probe_receive kind now s0).
  assert (H1 : st_connection_state s1 = Established).
  { subst s1. unfold handle_probe_receive. by repeat case_match. }
  assert (Er : apply_remote_ack cfg (pv_header pv) kind (st_tx s1) =
    on_remote_ack cfg (hdr_ack (pv_header pv)) (hdr_ack_bits (pv_header pv)) (st_tx s1)).
  { by destruct Hk as [-> | [-> | [-> | ->]]]. }
  rewrite Er. clear Er.
  replace (s1 <| st_tx ::= _ |>) with (s1 <| st_tx := fst (on_remote_ack cfg (hdr_ack (pv_header pv))
    (hdr_ack_bits (pv_header pv)) (st_tx s1)) |>) by done.
  destruct (on_remote_ack _ _ _ _) as [tx fin]. cbn [fst].
  unfold should_close_after_fin_acknowledgement. cbn [st_connection_state set set_st_tx].
  rewrite (bool_decide_eq_false_2 (_ = Closing)) by (cbn; by rewrite H1).
  rewrite andb_false_r.
  assert (Edec : decide_connection_transition (st_role (s1 <| st_tx := tx |>))
    (st_connection_state (s1 <| st_tx := tx |>)) kind = default_decision).
  { cbn. rewrite H1. destruct Hk as [-> | [-> | [-> | ->]]]; try done. cbn. by rewrite andb_false_r. }
  rewrite Edec, decision_default. done.
Qed.

(** A poll that sends: the state, up to the statistics. *)
Lemma poll_tx_sends cfg now s h p r cs' tx' :
  should_timeout_idle_session cfg s now = false -> header_ok h ->
  let s1 := schedule_pending_tx_work cfg now s in
  poll cfg now (st_role s1) (st_conn_id s1) (st_connection_state s1) (st_rx s1) (st_tx s1) =
    (make_poll_result (Some (encode h p)) r, cs', tx') ->
  let s2 := s1 <| st_connection_state := cs' |> <| st_tx := tx' |> in
  let kind := classify_control_kind h in
  exists st, poll_tx cfg now s =
    (Some (encode h p),
     clear_outbound_ack_state kind
       ((update_outbound_probe_state kind now s2) <| st_last_tx_ms := now |>
                                                  <| st_stats := st |>)).
Proof.
  intros Ht Hh s1 E. unfold poll_tx. rewrite Ht. fold s1. rewrite E.
  cbn [make_poll_result poll_fatal_error poll_datagram poll_retransmission].
  unfold apply_outbound_result. rewrite decode_control by done. eexists. reflexivity.
Qed.

(** ** Sides *)

(** An established side with nothing queued and no control packet due; its next
    number is [mine], it expects [theirs]. [owes]: it owes the acknowledgement of
    a received packet. *)
Record up (s : SessionState) (cid mine theirs : Z) (owes : bool) : Prop := mk_up {
  up_established : st_connection_state s = Established;
  up_conn_id : st_conn_id s = cid;
  up_pending : pending_send (st_tx s) = [];
  up_next : next_seq (st_tx s) = mine;
  up_final_ack : final_ack_pending (st_tx s) = false;
  up_fin : fin_pending (st_tx s) = false;
  up_ack_only : ack_only_pending (st_tx s) = false;
  up_reliable_ack : reliable_ack_pending (st_tx s) = owes;
  up_activity : activity_ack_pending (st_tx s) = owes;
  up_ping : ping_pending (probe (st_tx s)) = false;
  up_pong : pong_pending (probe (st_tx s)) = false;
  up_outstanding : ping_outstanding (probe (st_tx s)) = false;
  up_front : next_expected (st_rx s) = theirs;
  up_bits : received_bits (st_rx s) = 0;
  up_buffer : ordered_reorder_buffer (st_rx s) = []
}.

Record idle (s : SessionState) (cid mine theirs : Z) : Prop := mk_idle {
  idle_up : up s cid mine theirs false;
  idle_inflight : inflight (st_tx s) = [];
  idle_acked : remote_ack (st_tx s) = mine
}.

(** The number [n] was sent [k + 1] times, last at [t]. *)
Record waiting (s : SessionState) (cid n theirs : Z) (packet : OwnedPacket) (k t : Z) : Prop :=
  mk_waiting {
  wait_up : up s cid (u32 (n + 1)) theirs false;
  wait_inflight : exists e, inflight (st_tx s) = [(n, e)] /\ te_packet e = packet /\
    te_retry_count e = k /\ te_last_send_ms e = t
}.

(** The time from which the client's probe is due. *)
Definition probe_baseline (s : SessionState) : Z :=
  let p := probe (st_tx s) in
  if negb (probe_last_sent_ms p =? 0) then probe_last_sent_ms p else st_established_since_ms s.

(** What the moves of data leave alone. *)
Definition same_clock (s s' : SessionState) : Prop :=
  st_role s' = st_role s /\ probe_baseline s' = probe_baseline s.

Definition probe_quiet (cfg : TransportSettings) (s : SessionState) (t : Z) : Prop :=
  st_role s = Client -> t < u64 (probe_baseline s + keepalive_idle_ms cfg).

Definition not_timed_out (cfg : TransportSettings) (s : SessionState) (t : Z) : Prop :=
  t < u64 (st_last_rx_ms s + idle_timeout_ms cfg).

Lemma not_timed_out_false cfg s t :
  not_timed_out cfg s t -> should_timeout_idle_session cfg s t = false.
Proof.
  intros H. unfold should_timeout_idle_session. destruct (negb _); [done|]. by apply Z.leb_gt.
Qed.

Lemma probe_not_due cfg s t : probe_quiet cfg s t -> should_schedule_probe cfg s t = false.
Proof.
  intros Hq. unfold should_schedule_probe. cbn zeta. fold (probe_baseline s).
  destruct (bool_decide_reflect (st_role s = Client)) as [Hc|]; [|done]. cbn [negb orb].
  destruct (_ || _); [done|]. by apply Z.leb_gt, Hq.
Qed.

(** Nothing is scheduled on a side that owes nothing and whose probe is not due. *)
Lemma schedule_quiet cfg s t :
  reliable_ack_pending (st_tx s) = false -> activity_ack_pending (st_tx s) = false ->
  probe_quiet cfg s t -> schedule_pending_tx_work cfg t s = s.
Proof.
  intros Hr Ha Hq. unfold schedule_pending_tx_work. rewrite (probe_not_due _ _ _ Hq).
  assert (should_schedule_reliable_ack s t = false) as ->.
  { unfold should_schedule_reliable_ack. by rewrite Hr, orb_true_r. }
  assert (should_schedule_activity_ack cfg s t = false) as ->; [|done].
  unfold should_schedule_activity_ack. rewrite Ha, orb_true_r. by destruct (negb _).
Qed.

(** In Established, the handshake step of a poll has nothing to send. *)
Lemma no_handshake cfg now role cid rx tx :
  final_ack_pending tx = false ->
  try_build_handshake cfg now role cid Established rx tx = (None, Established, tx).
Proof. intros Hf. unfold try_build_handshake. cbn. by rewrite Hf, !andb_false_r. Qed.

Lemma no_probe cid rx tx :
  ping_pending (probe tx) = false -> pong_pending (probe tx) = false ->
  try_build_probe_lane cid rx tx = (None, tx).
Proof. intros H1 H2. unfold try_build_probe_lane. by rewrite H1, H2. Qed.

(** A poll with nothing to send. *)
Lemma poll_nothing cfg t s :
  should_timeout_idle_session cfg s t = false -> schedule_pending_tx_work cfg t s = s ->
  try_build_handshake cfg t (st_role s) (st_conn_id s) (st_connection_state s) (st_rx s) (st_tx s) =
    (None, st_connection_state s, st_tx s) ->
  inflight (st_tx s) = [] -> ping_pending (probe (st_tx s)) = false ->
  pong_pending (probe (st_tx s)) = false -> ack_only_pending (st_tx s) = false ->
  pending_send (st_tx s) = [] -> poll_tx cfg t s = (None, s).
Proof.
  intros Hto Hsch Hh Hin H1 H2 Ha Hp. unfold poll_tx. rewrite Hto, Hsch. unfold poll. rewrite Hh.
  cbn [has_value]. unfold try_build_retransmit. rewrite Hin.
  cbn [retransmit_loop empty_poll_result poll_fatal_error poll_datagram orb has_value].
  rewrite no_probe by done. cbn [has_value]. unfold try_build_ack_only.
  change (ack_only_pending ((st_tx s) <| inflight := [] |>)) with (ack_only_pending (st_tx s)).
  rewrite Ha. cbn [negb has_value]. unfold try_build_fresh.
  change (pending_send ((st_tx s) <| inflight := [] |>)) with (pending_send (st_tx s)).
  rewrite Hp. cbn [has_value poll_fatal_error poll_datagram empty_poll_result].
  destruct s as [? ? ? ? ? ? ? [] ?]. cbn in *. by subst.
Qed.

(** A poll in which only fresh data can be sent. *)
Lemma poll_fresh cfg now role cid rx tx h p tx' :
  final_ack_pending tx = false -> inflight tx = [] ->
  ping_pending (probe tx) = false -> pong_pending (probe tx) = false ->
  ack_only_pending tx = false ->
  try_build_fresh now cid rx (tx <| inflight := [] |>) = (Some (encode h p), tx') ->
  poll cfg now role cid Established rx tx =
    (make_poll_result (Some (encode h p)) false, Established, tx').
Proof.
  intros Hf Hi H1 H2 Ha E. unfold poll. rewrite no_handshake by done. cbn [has_value].
  unfold try_build_retransmit. rewrite Hi. cbn [retransmit_loop].
  rewrite no_probe by done. cbn [has_value empty_poll_result poll_fatal_error poll_datagram orb].
  unfold try_build_ack_only. change (ack_only_pending (tx <| inflight := [] |>)) with
    (ack_only_pending tx). rewrite Ha. cbn [negb has_value]. rewrite E. done.
Qed.

Definition data_header (cid id : Z) (ty : ChannelType) (n ack : Z) : Header :=
  {| hdr_conn_id := cid; hdr_seq := n; hdr_ack := ack; hdr_ack_bits := 0;
     hdr_channel_id := id; hdr_channel_type := ty; hdr_flags := 0;
     hdr_header_len := kHeaderLength; hdr_reserved := 0 |}.

(** The head of the queue goes out with the next number. *)
Lemma fresh_reliable now cid rx tx req rest :
  pending_send tx = req :: rest -> isReliableChannel (req_channel_type req) = true ->
  next_seq tx = remote_ack tx -> inflight tx = [] -> received_bits rx = 0 ->
  let h := data_header cid (req_channel_id req) (req_channel_type req) (next_seq tx)
             (next_expected rx) in
  try_build_fresh now cid rx tx =
  (Some (encode h (req_payload req)),
   tx <| pending_send := rest |> <| next_seq ::= fun n => u32 (n + 1) |>
      <| inflight := [(next_seq tx,
           new_entry {| op_header := h; op_payload := req_payload req |} now)] |>).
Proof.
  intros Hp Ht Hw Hi Hb. unfold try_build_fresh. rewrite Hp, Ht. cbn [andb].
  assert (reliable_window_full (tx <| pending_send := rest |>) = false) as ->.
  { unfold reliable_window_full. cbn. by rewrite Hw, Z.sub_diag. }
  unfold make_packet_from_request. rewrite Hb. destruct tx. cbn in Hi. subst. reflexivity.
Qed.

(** ** Receiving in order *)

(** Ordered delivery, when it is used, waits for the number [n]. *)
Definition ordered_at (ty : ChannelType) (rx : RxSessionState) (n : Z) : Prop :=
  ty = ReliableOrdered -> ordered_delivery_started rx = true -> next_ordered_delivery rx = n.

(** A reliable packet or a FIN, from the first test on. *)
Lemma update_numbered pv kind rx :
  isReliableChannel (hdr_channel_type (pv_header pv)) || bool_decide (kind = KindFin) = true ->
  update_reliable_receive_state pv kind rx =
  let n := hdr_seq (pv_header pv) in
  let rx := if next_expected rx =? 0 then rx <| next_expected := n |> else rx in
  if n =? next_expected rx then (true, true, advance_receive_window rx)
  else if seq_gt n (next_expected rx) then
    let delta := u32 (n - next_expected rx) in
    if delta <=? kAckBitsWindow then
      let bit := u64 (Z.shiftl 1 (u32 (delta - 1))) in
      (negb (negb (Z.land (received_bits rx) bit =? 0)), true,
       rx <| received_bits ::= fun b => Z.lor b bit |>)
    else (false, true, rx)
  else (false, true, rx).
Proof.
  intros Hr. unfold update_reliable_receive_state. cbn zeta. rewrite Hr.
  assert (negb (isReliableChannel (hdr_channel_type (pv_header pv))) &&
    negb (bool_decide (kind = KindSyn)) && negb (bool_decide (kind = KindSynAck)) &&
    negb (bool_decide (kind = KindAck)) && negb (bool_decide (kind = KindFin)) = false) as ->; [|done].
  destruct (isReliableChannel _), (bool_decide (kind = KindFin)); try done; by rewrite ?andb_false_r.
Qed.

Lemma update_in_order pv kind rx :
  isReliableChannel (hdr_channel_type (pv_header pv)) || bool_decide (kind = KindFin) = true ->
  next_expected rx = hdr_seq (pv_header pv) -> received_bits rx = 0 ->
  update_reliable_receive_state pv kind rx =
  (true, true, rx <| next_expected := u32 (hdr_seq (pv_header pv) + 1) |>).
Proof.
  intros Hr Hn Hb. rewrite (update_numbered pv kind rx Hr). cbn zeta.
  assert ((if next_expected rx =? 0 then rx <| next_expected := hdr_seq (pv_header pv) |> else rx)
          = rx) as ->.
  { destruct (Z.eqb_spec (next_expected rx) 0); [|done]. rewrite <- Hn. by destruct rx. }
  rewrite Hn, Z.eqb_refl. f_equal. unfold advance_receive_window, advance_loop.
  rewrite iter_while_stop by (cbn; by rewrite Hb). destruct rx. cbn in *. by subst.
Qed.

Lemma update_again pv kind rx n :
  isReliableChannel (hdr_channel_type (pv_header pv)) || bool_decide (kind = KindFin) = true ->
  hdr_seq (pv_header pv) = n -> is_u32 n -> next_expected rx = u32 (n + 1) -> u32 (n + 1) <> 0 ->
  update_reliable_receive_state pv kind rx = (false, true, rx).
Proof.
  intros Hr Hs Hn He H0. rewrite (update_numbered pv kind rx Hr). cbn zeta.
  rewrite He, Hs, (proj2 (Z.eqb_neq (u32 (n + 1)) 0)) by done.
  rewrite He, (proj2 (Z.eqb_neq n (u32 (n + 1)))) by word_lia.
  assert (seq_gt n (u32 (n + 1)) = false) as ->; [|done].
  rewrite seq_gt_offset. unfold seq_offset. word_lia.
Qed.

(** The data packet that is expected next is delivered at once. *)
Lemma on_packet_data pv rx n :
  isReliableChannel (hdr_channel_type (pv_header pv)) = true ->
  hdr_seq (pv_header pv) = n -> next_expected rx = n -> received_bits rx = 0 ->
  ordered_reorder_buffer rx = [] -> ordered_at (hdr_channel_type (pv_header pv)) rx n ->
  exists rx', on_packet pv KindNone rx = (true, rx') /\
    next_expected rx' = u32 (n + 1) /\ received_bits rx' = 0 /\ ordered_reorder_buffer rx' = [] /\
    ordered_at (hdr_channel_type (pv_header pv)) rx' (u32 (n + 1)) /\
    pending_events rx' = pending_events rx ++ [make_data_event pv].
Proof.
  intros Hr Hs Hn Hb Hbuf Ho. unfold on_packet.
  rewrite update_in_order by (by rewrite ?Hr, ?Hs). cbn [is_control_only negb bool_decide orb].
  destruct (hdr_channel_type (pv_header pv)) eqn:Et; try done.
  - unfold handle_reliable_ordered, ensure_ordered_delivery_started, drain_contiguous_ordered.
    rewrite Hs. destruct rx as [ne rb buf nod st mv evs]. cbn in *. subst buf.
    assert (Hnod : (if negb st then n else nod) = n).
    { destruct st; [|done]. by apply Ho. }
    destruct st; cbn in *; subst; change (is_control_only KindNone || false) with false; cbv iota;
      unfold drain_guard, drain_body; cbn; repeat (rewrite Z.eqb_refl; cbn);
      (eexists; split; [reflexivity|]; cbn; rewrite Z.eqb_refl; by split_and!).
  - unfold handle_reliable_unordered. eexists. split; [reflexivity|]. cbn. rewrite Hs. by split_and!.
Qed.

(** The same packet again: nothing but the acknowledgement. *)
Lemma on_packet_again pv rx n :
  isReliableChannel (hdr_channel_type (pv_header pv)) = true ->
  hdr_seq (pv_header pv) = n -> is_u32 n -> next_expected rx = u32 (n + 1) -> u32 (n + 1) <> 0 ->
  on_packet pv KindNone rx = (true, rx).
Proof. intros Hr Hs Hn He H0. unfold on_packet. rewrite (update_again pv _ rx n); [done|by rewrite Hr|done..]. Qed.

(** ** Sending a message *)

Section moves.
Context (cfg : TransportSettings) (cid : Z) (Hcid : is_u32 cid).
Context (id : Z) (ty : ChannelType) (payload : bytes).
Context (Hid : is_u32 id) (Hty : isReliableChannel ty = true).

Let packet n m := {| op_header := data_header cid id ty n m; op_payload := payload |}.

Lemma data_header_ok n m : is_u32 n -> is_u32 m -> header_ok (data_header cid id ty n m).
Proof.
  intros Hn Hm. destruct ty; try done; (split;
    [constructor; cbn; try done; word_unfold; unfold kHeaderLength; lia|by apply isValidHeader_iff]).
Qed.

(** The first transmission. *)
Lemma send_first t a n m :
  is_u32 n -> is_u32 m -> idle a cid n m -> not_timed_out cfg a t -> probe_quiet cfg a t ->
  exists a', poll_tx cfg t (queue_send id ty payload a) =
    (Some (encode (data_header cid id ty n m) payload), a') /\
    waiting a' cid n m (packet n m) 0 t /\ same_clock a a' /\
    st_rx a' = st_rx a /\ st_last_rx_ms a' = st_last_rx_ms a.
Proof.
  intros Hn Hm [Hup Hin Hack] Ht Hq. destruct Hup. set (q := queue_send id ty payload a).
  assert (Es : schedule_pending_tx_work cfg t q = q) by (by apply schedule_quiet).
  assert (E1 : poll cfg t (st_role q) (st_conn_id q) (st_connection_state q) (st_rx q) (st_tx q) =
    (make_poll_result (Some (encode (data_header cid id ty n m) payload)) false, Established,
     (st_tx a) <| pending_send := [] |> <| next_seq := u32 (n + 1) |>
       <| inflight := [(n, new_entry (packet n m) t)] |>)).
  { change (st_connection_state q) with (st_connection_state a). rewrite up_established0.
    apply poll_fresh; try done.
    rewrite (fresh_reliable t _ _ _ {| req_channel_id := id; req_channel_type := ty;
      req_payload := payload |} []); try done.
    - change (st_conn_id q) with (st_conn_id a). change (st_rx q) with (st_rx a).
      rewrite up_conn_id0, up_front0. subst q packet. unfold queue_send, queue_app_data.
      destruct a as [? ? ? ? ? ? ? [] ?]. cbn in *. by subst.
    - cbn. by rewrite up_pending0.
    - cbn. congruence. }
  destruct (poll_tx_sends cfg t q (data_header cid id ty n m) payload false Established
    ((st_tx a) <| pending_send := [] |> <| next_seq := u32 (n + 1) |>
       <| inflight := [(n, new_entry (packet n m) t)] |>)) as [st E].
  { by apply not_timed_out_false. }
  { by apply data_header_ok. }
  { by rewrite Es. }
  rewrite E. eexists. split; [reflexivity|]. rewrite Es.
  change (classify_control_kind (data_header cid id ty n m)) with KindNone.
  split; [|done]. constructor; [by constructor|]. by eexists.
Qed.
(** A retransmission, when the timeout of attempt [k] has passed. *)
Lemma send_again t a n m k last :
  is_u32 n -> is_u32 m -> waiting a cid n m (packet n m) k last ->
  k < max_retransmit_count cfg -> u64 (last + retransmit_timeout_for cfg k) <= t ->
  not_timed_out cfg a t -> probe_quiet cfg a t ->
  exists a', poll_tx cfg t a = (Some (encode (data_header cid id ty n m) payload), a') /\
    waiting a' cid n m (packet n m) (u32 (k + 1)) t /\ same_clock a a' /\
    st_rx a' = st_rx a /\ st_last_rx_ms a' = st_last_rx_ms a.
Proof.
  intros Hn Hm [Hup (e & Hin & Hp & Hk & Hl)] Hmax Hto Ht Hq. destruct Hup.
  assert (Es : schedule_pending_tx_work cfg t a = a) by (by apply schedule_quiet).
  assert (Er : refresh_acks (st_rx a) (data_header cid id ty n m) = data_header cid id ty n m).
  { unfold refresh_acks. by rewrite up_front0, up_bits0. }
  assert (E1 : poll cfg t (st_role a) (st_conn_id a) (st_connection_state a) (st_rx a) (st_tx a) =
    (make_poll_result (Some (encode (data_header cid id ty n m) payload)) true, Established,
     (st_tx a) <| inflight := [(n, resend_entry t (st_rx a) e)] |>)).
  { rewrite up_established0. unfold poll. rewrite no_handshake by done. cbn [has_value].
    unfold try_build_retransmit, retransmit_loop. rewrite Hin, Hk, (proj2 (Z.leb_gt _ _)) by done.
    unfold entry_timed_out. rewrite Hl, Hk, (proj2 (Z.leb_le _ _)) by done.
    rewrite andb_false_r, Hp. cbn [packet op_header op_payload]. by rewrite Er. }
  destruct (poll_tx_sends cfg t a (data_header cid id ty n m) payload true Established
    ((st_tx a) <| inflight := [(n, resend_entry t (st_rx a) e)] |>)) as [st E].
  { by apply not_timed_out_false. }
  { by apply data_header_ok. }
  { by rewrite Es. }
  rewrite E. eexists. split; [reflexivity|]. rewrite Es.
  change (classify_control_kind (data_header cid id ty n m)) with KindNone.
  split; [|done]. constructor; [by constructor|]. eexists. split; [reflexivity|].
  split; [|cbn; by rewrite Hk].
  change (te_packet (resend_entry t (st_rx a) e)) with
    (mkOwnedPacket (refresh_acks (st_rx a) (op_header (te_packet e))) (op_payload (te_packet e))).
  rewrite Hp. cbn [packet op_header op_payload]. by rewrite Er.
Qed.

(** ** Receiving it *)

(** A side that has the acknowledgement of its last received packet to send, from
    time [due]. *)
Record owing (s : SessionState) (mine theirs due : Z) : Prop := mk_owing {
  owe_up : up s cid mine theirs true;
  owe_inflight : inflight (st_tx s) = [];
  owe_acked : remote_ack (st_tx s) = mine;
  owe_due : reliable_ack_due_ms (st_tx s) = due
}.

Lemma on_remote_ack_idle ack tx :
  inflight tx = [] ->
  fst (on_remote_ack cfg ack 0 tx) = tx <| remote_ack := ack |> <| remote_ack_bits := 0 |>.
Proof.
  intros Hi. unfold on_remote_ack, erase_acknowledged_inflight. cbn. rewrite Hi. cbn.
  destruct tx. cbn in *. by subst.
Qed.

(** What the receiver does with the packet, once the receive side is known. *)
Lemma receive_data t b n m seq rx' :
  is_u32 seq -> is_u32 m -> idle b cid m n ->
  on_packet {| pv_header := data_header cid id ty seq m; pv_payload := payload |} KindNone (st_rx b)
    = (true, rx') ->
  received_bits rx' = 0 -> ordered_reorder_buffer rx' = [] ->
  let b' := on_datagram_received cfg (encode (data_header cid id ty seq m) payload) t b in
  owing b' m (next_expected rx') (u64 (t + reliable_ack_delay_ms cfg)) /\ st_rx b' = rx' /\
  same_clock b b' /\ st_last_rx_ms b' = t.
Proof.
  intros Hn Hm [Hup Hin Hack] Erx Hb Hbuf. destruct Hup. cbn zeta.
  unfold on_datagram_received. rewrite decode_control by (by apply data_header_ok).
  set (pv := {| pv_header := data_header cid id ty seq m; pv_payload := payload |}) in *.
  rewrite on_decoded_plain; [|by left|done|done].
  change (classify_control_kind (pv_header pv)) with KindNone. cbv zeta.
  set (s0 := record_received_stats _ _ _ _). change (handle_probe_receive KindNone t s0) with s0.
  set (s2 := set st_tx _ s0). change (st_rx s2) with (st_rx b). rewrite Erx.
  assert (Es2 : st_tx s2 = (st_tx b) <| remote_ack := m |> <| remote_ack_bits := 0 |>)
    by exact (on_remote_ack_idle m (st_tx b) Hin).
  unfold update_post_receive_liveness. cbn [st_connection_state set set_st_rx].
  change (st_connection_state s2) with (st_connection_state b). rewrite up_established0.
  change (bool_decide (KindNone = KindNone) && bool_decide (Established = Established)) with true.
  unfold schedule_receive_side_ack. cbn [negb pv_header pv hdr_channel_type data_header].
  rewrite Hty. change (bool_decide (KindNone = KindNone) && true) with true. cbv iota.
  assert (Hs2 : st_role s2 = st_role b /\ st_conn_id s2 = cid /\ st_last_rx_ms s2 = t /\
    st_established_since_ms s2 = st_established_since_ms b /\
    st_connection_state s2 = Established) by done.
  destruct Hs2 as (H1 & H2 & H3 & H4 & H5). clearbody s2.
  split; [constructor; [constructor|..]|split; [|split; [unfold same_clock, probe_baseline|]]];
    cbn; rewrite ?Es2, ?H1, ?H4; done.
Qed.
End moves.

(** ** The acknowledgement *)

Section acks.
Context (cfg : TransportSettings) (cid : Z) (Hcid : is_u32 cid).

Definition ack_header (ack : Z) : Header := control_header cid (flag_bits FlagAck) 0 ack 0.

Lemma ack_header_ok ack : is_u32 ack -> header_ok (ack_header ack).
Proof. intros Ha. apply control_header_ok; auto with rudp. Qed.

Lemma send_ack t b n m due :
  is_u32 n -> owing cid b m n due -> due <= t -> not_timed_out cfg b t ->
  exists b', poll_tx cfg t b = (Some (encode (ack_header n) []), b') /\
    idle b' cid m n /\ same_clock b b' /\ st_rx b' = st_rx b /\
    st_last_rx_ms b' = st_last_rx_ms b.
Proof.
  intros Hn [Hup Hin Hack Hdue] Ht Hto. destruct Hup.
  set (b1 := b <| st_tx ::= fun tx => tx <| ack_only_pending := true |>
                                         <| reliable_ack_pending := false |> |>).
  assert (Es : schedule_pending_tx_work cfg t b = b1).
  { unfold schedule_pending_tx_work.
    assert (should_schedule_reliable_ack b t = true) as ->; [|done].
    unfold should_schedule_reliable_ack.
    rewrite up_established0, up_reliable_ack0, up_ack_only0, up_ping0, up_pong0, Hdue. cbn.
    by apply Z.leb_le. }
  assert (E1 : poll cfg t (st_role b1) (st_conn_id b1) (st_connection_state b1) (st_rx b1)
    (st_tx b1) = (make_poll_result (Some (encode (ack_header n) [])) false, Established,
     (st_tx b) <| inflight := [] |> <| ack_only_pending := false |>
               <| reliable_ack_pending := false |>)).
  { change (st_connection_state b1) with (st_connection_state b). rewrite up_established0.
    unfold poll. rewrite no_handshake by done. cbn [has_value].
    unfold try_build_retransmit. change (inflight (st_tx b1)) with (inflight (st_tx b)).
    rewrite Hin. cbn [retransmit_loop]. rewrite no_probe by done.
    cbn [has_value empty_poll_result poll_fatal_error poll_datagram orb].
    unfold try_build_ack_only.
    change (ack_only_pending ((st_tx b1) <| inflight := [] |>)) with true. cbn [negb has_value].
    change (st_conn_id b1) with (st_conn_id b). change (st_rx b1) with (st_rx b).
    rewrite up_conn_id0, up_front0, up_bits0. done. }
  destruct (poll_tx_sends cfg t b (ack_header n) [] false Established
    ((st_tx b) <| inflight := [] |> <| ack_only_pending := false |>
               <| reliable_ack_pending := false |>)) as [st E].
  { by apply not_timed_out_false. }
  { by apply ack_header_ok. }
  { by rewrite Es. }
  rewrite E. eexists. split; [reflexivity|]. rewrite Es.
  change (classify_control_kind (ack_header n)) with KindAck.
  split; [|done]. constructor; [by constructor|done|done].
Qed.

(** A pure acknowledgement carries the number 0, which the receive side must not
    take for data: its front is neither 0 nor less than 65 below it. *)
Definition front_safe (m : Z) : Prop := 0 < m < 2 ^ 32 - 64.

Lemma on_packet_ack ack rx m :
  next_expected rx = m -> front_safe m ->
  on_packet {| pv_header := ack_header ack; pv_payload := [] |} KindAck rx = (false, rx).
Proof.
  intros Hm Hs. unfold front_safe in Hs. unfold on_packet, update_reliable_receive_state.
  cbn [pv_header ack_header control_header hdr_channel_type hdr_seq].
  change (isReliableChannel Unreliable) with false. cbn -[seq_gt u32 Z.eqb].
  rewrite Hm, (proj2 (Z.eqb_neq m 0)) by lia. rewrite Hm, (proj2 (Z.eqb_neq 0 m)) by lia.
  destruct (seq_gt 0 m); [|done]. unfold kAckBitsWindow.
  rewrite (proj2 (Z.leb_gt (u32 (0 - m)) 64)) by word_lia. done.
Qed.

Lemma receive_ack t a n m pk k last :
  is_u32 n -> waiting a cid n m pk k last -> front_safe m ->
  let a' := on_datagram_received cfg (encode (ack_header (u32 (n + 1))) []) t a in
  idle a' cid (u32 (n + 1)) m /\ st_rx a' = st_rx a /\ same_clock a a' /\ st_last_rx_ms a' = t.
Proof.
  intros Hn [Hup (e & Hin & _)] Hsafe. destruct Hup. cbn zeta.
  unfold on_datagram_received. rewrite decode_control by (apply ack_header_ok, u32_range).
  set (pv := {| pv_header := ack_header (u32 (n + 1)); pv_payload := [] |}).
  rewrite on_decoded_plain; [|by right; left|done|done].
  change (classify_control_kind (pv_header pv)) with KindAck. cbv zeta.
  set (s0 := record_received_stats _ _ _ _). change (handle_probe_receive KindAck t s0) with s0.
  set (s2 := set st_tx _ s0). change (st_rx s2) with (st_rx a).
  assert (Ep : on_packet pv KindAck (st_rx a) = (false, st_rx a)) by (by apply (on_packet_ack _ _ m)).
  rewrite Ep. unfold update_post_receive_liveness, schedule_receive_side_ack.
  change (bool_decide (KindAck = KindNone)) with false. cbn [andb negb].
  assert (Es2 : st_tx s2 = (st_tx a) <| remote_ack := u32 (n + 1) |> <| remote_ack_bits := 0 |>
                                     <| inflight := [] |>).
  { pose proof (on_remote_ack_single cfg n e (st_tx a) Hn Hin) as H. subst s2. cbn.
    destruct (on_remote_ack _ _ _ _) as [tx fin]. by destruct H as [-> _]. }
  assert (Hs2 : st_role s2 = st_role a /\ st_conn_id s2 = cid /\ st_last_rx_ms s2 = t /\
    st_established_since_ms s2 = st_established_since_ms a /\
    st_connection_state s2 = Established) by done.
  destruct Hs2 as (H1 & H2 & H3 & H4 & H5). clearbody s2.
  split; [constructor; [constructor|..]|split; [|split; [unfold same_clock, probe_baseline|]]];
    cbn; rewrite ?Es2, ?H1, ?H4; done.
Qed.
End acks.

(** ** The keep-alive probe *)

Section probes.
Context (cfg : TransportSettings) (cid : Z) (Hcid : is_u32 cid).

Definition probe_header (flag : Flag) (ack : Z) : Header :=
  control_header cid (flag_bits flag) 0 ack 0.

Lemma probe_header_ok flag ack : is_u32 ack -> header_ok (probe_header flag ack).
Proof. intros Ha. apply control_header_ok; auto with rudp. Qed.

(** The side after its PING, sent at [t]. *)
Definition pinged (t : Z) (s s' : SessionState) : Prop :=
  exists st, s' = s <| st_tx ::= fun tx => tx <| probe ::= fun p =>
      p <| ping_pending := false |> <| ping_outstanding := true |> <| probe_last_sent_ms := t |>
        <| last_ping_sent_ms := t |> |> |> <| st_last_tx_ms := t |> <| st_stats := st |>.

Lemma send_ping t c n m :
  is_u32 m -> idle c cid n m -> st_role c = Client ->
  u64 (probe_baseline c + keepalive_idle_ms cfg) <= t -> not_timed_out cfg c t ->
  exists c', poll_tx cfg t c = (Some (encode (probe_header FlagPing m) []), c') /\ pinged t c c'.
Proof.
  intros Hm [Hup Hin Hack] Hrole Hdue Hto. destruct Hup.
  set (c1 := c <| st_tx ::= fun tx => tx <| probe ::= fun p => p <| ping_pending := true |> |> |>).
  assert (Es : schedule_pending_tx_work cfg t c = c1).
  { unfold schedule_pending_tx_work.
    assert (should_schedule_reliable_ack c t = false) as ->
      by (unfold should_schedule_reliable_ack; by rewrite up_reliable_ack0, orb_true_r).
    assert (should_schedule_activity_ack cfg c t = false) as ->.
    { unfold should_schedule_activity_ack. rewrite up_activity0, orb_true_r. by destruct (negb _). }
    assert (should_schedule_probe cfg c t = true) as ->; [|done].
    unfold should_schedule_probe. cbn zeta. fold (probe_baseline c).
    rewrite Hrole, up_established0, up_outstanding0, up_ping0, up_pong0. cbn.
    by apply Z.leb_le. }
  assert (E1 : poll cfg t (st_role c1) (st_conn_id c1) (st_connection_state c1) (st_rx c1)
    (st_tx c1) = (make_poll_result (Some (encode (probe_header FlagPing m) [])) false, Established,
     (st_tx c) <| inflight := [] |> <| probe ::= fun p => p <| ping_pending := false |> |>)).
  { change (st_connection_state c1) with (st_connection_state c). rewrite up_established0.
    unfold poll. rewrite no_handshake by done. cbn [has_value].
    unfold try_build_retransmit. change (inflight (st_tx c1)) with (inflight (st_tx c)).
    rewrite Hin. cbn [retransmit_loop empty_poll_result poll_fatal_error poll_datagram orb has_value].
    unfold try_build_probe_lane.
    change (pong_pending (probe ((st_tx c1) <| inflight := [] |>))) with
      (pong_pending (probe (st_tx c))). rewrite up_pong0.
    change (ping_pending (probe ((st_tx c1) <| inflight := [] |>))) with true.
    cbn [negb has_value]. change (st_conn_id c1) with (st_conn_id c).
    change (st_rx c1) with (st_rx c). unfold make_internal_probe_header.
    rewrite up_conn_id0, up_front0, up_bits0. done. }
  destruct (poll_tx_sends cfg t c (probe_header FlagPing m) [] false Established
    ((st_tx c) <| inflight := [] |> <| probe ::= fun p => p <| ping_pending := false |> |>))
    as [st E].
  { by apply not_timed_out_false. }
  { by apply probe_header_ok. }
  { by rewrite Es. }
  rewrite E. eexists. split; [reflexivity|]. rewrite Es. exists st.
  change (classify_control_kind (probe_header FlagPing m)) with KindPing.
  destruct c as [? ? ? ? ? ? ? [] ?]. cbn in *. by subst.
Qed.

Lemma on_packet_probe kind ack flag rx :
  kind = KindPing \/ kind = KindPong ->
  on_packet {| pv_header := probe_header flag ack; pv_payload := [] |} kind rx = (false, rx).
Proof. by intros [-> | ->]. Qed.

(** The side after a PING, with the PONG due. *)
Definition ponging (s s' : SessionState) (t mine : Z) : Prop :=
  exists st, s' = s <| st_tx ::= fun tx =>
      tx <| probe ::= fun p => p <| pong_pending := true |> |> <| remote_ack := mine |>
         <| remote_ack_bits := 0 |> |> <| st_last_rx_ms := t |> <| st_stats := st |>.

Lemma receive_ping t s n m :
  is_u32 m -> idle s cid m n ->
  ponging s (on_datagram_received cfg (encode (probe_header FlagPing m) []) t s) t m.
Proof.
  intros Hm [Hup Hin Hack]. destruct Hup.
  unfold on_datagram_received. rewrite decode_control by (by apply probe_header_ok).
  set (pv := {| pv_header := probe_header FlagPing m; pv_payload := [] |}).
  rewrite on_decoded_plain; [|by right; right; left|done|done].
  change (classify_control_kind (pv_header pv)) with KindPing. cbv zeta.
  set (s0 := record_received_stats _ _ _ _).
  assert (Eh : handle_probe_receive KindPing t s0 =
    s0 <| st_tx ::= fun tx => tx <| probe ::= fun p => p <| pong_pending := true |> |> |>).
  { unfold handle_probe_receive. change (st_connection_state s0) with (st_connection_state s).
    by rewrite up_established0. }
  rewrite Eh. set (s2 := set st_tx _ _). 
  assert (Ep : on_packet pv KindPing (st_rx s2) = (false, st_rx s2))
    by (apply on_packet_probe; by left).
  rewrite Ep. unfold update_post_receive_liveness, schedule_receive_side_ack.
  change (bool_decide (KindPing = KindNone)) with false. cbn [andb negb].
  exists (st_stats s0).
  set (tx1 := (st_tx s) <| probe ::= fun p => p <| pong_pending := true |> |>).
  assert (E2 : st_tx s2 = fst (on_remote_ack cfg m 0 tx1)) by reflexivity.
  rewrite (on_remote_ack_idle cfg m tx1 Hin) in E2.
  assert (E3 : s2 = s <| st_tx := st_tx s2 |> <| st_last_rx_ms := t |> <| st_stats := st_stats s0 |>)
    by reflexivity.
  assert (E4 : s2 <| st_rx := st_rx s2 |> = s2) by reflexivity.
  rewrite E4, E3, E2. reflexivity.
Qed.

Lemma send_pong t1 t s s1 n m :
  is_u32 n -> idle s cid m n -> st_role s = Server -> ponging s s1 t1 m ->
  t < u64 (t1 + idle_timeout_ms cfg) ->
  exists s', poll_tx cfg t s1 = (Some (encode (probe_header FlagPong n) []), s') /\
    idle s' cid m n /\ same_clock s s' /\ st_rx s' = st_rx s /\ st_last_rx_ms s' = t1.
Proof.
  intros Hn [Hup Hin Hack] Hrole (st0 & E0) Hto. destruct Hup.
  assert (Es : schedule_pending_tx_work cfg t s1 = s1).
  { apply schedule_quiet; [by rewrite E0|by rewrite E0|]. intros Hr. rewrite E0 in Hr. cbn in Hr.
    congruence. }
  assert (E1 : poll cfg t (st_role s1) (st_conn_id s1) (st_connection_state s1) (st_rx s1)
    (st_tx s1) = (make_poll_result (Some (encode (probe_header FlagPong n) [])) false, Established,
     (st_tx s1) <| inflight := [] |> <| probe ::= fun p => p <| pong_pending := false |> |>)).
  { assert (Ec : st_connection_state s1 = Established) by (by rewrite E0). rewrite Ec.
    unfold poll. rewrite no_handshake by (by rewrite E0). cbn [has_value].
    unfold try_build_retransmit. assert (Ei : inflight (st_tx s1) = []) by (by rewrite E0).
    rewrite Ei. cbn [retransmit_loop empty_poll_result poll_fatal_error poll_datagram orb has_value].
    unfold try_build_probe_lane. assert (Ep : pong_pending (probe (st_tx s1)) = true) by (by rewrite E0).
    change (pong_pending (probe ((st_tx s1) <| inflight := [] |>))) with
      (pong_pending (probe (st_tx s1))). rewrite Ep. cbn [has_value].
    assert (Ed : st_conn_id s1 = cid /\ st_rx s1 = st_rx s) by (by rewrite E0).
    destruct Ed as [-> ->]. unfold make_internal_probe_header. by rewrite up_front0, up_bits0. }
  destruct (poll_tx_sends cfg t s1 (probe_header FlagPong n) [] false Established
    ((st_tx s1) <| inflight := [] |> <| probe ::= fun p => p <| pong_pending := false |> |>))
    as [st E].
  { apply not_timed_out_false. unfold not_timed_out. by rewrite E0. }
  { by apply probe_header_ok. }
  { by rewrite Es. }
  rewrite E. eexists. split; [reflexivity|]. rewrite Es.
  change (classify_control_kind (probe_header FlagPong n)) with KindPong. rewrite E0.
  split; [|done]. constructor; [by constructor|done|done].
Qed.

Lemma receive_pong t0 t c c1 n m :
  is_u32 n -> idle c cid n m -> pinged t0 c c1 -> t0 <> 0 ->
  let c' := on_datagram_received cfg (encode (probe_header FlagPong n) []) t c1 in
  idle c' cid n m /\ st_rx c' = st_rx c /\ st_role c' = st_role c /\ probe_baseline c' = t0 /\
  st_last_rx_ms c' = t.
Proof.
  intros Hn [Hup Hin Hack] (st0 & E0) H0. destruct Hup. cbn zeta.
  unfold on_datagram_received. rewrite decode_control by (by apply probe_header_ok).
  set (pv := {| pv_header := probe_header FlagPong n; pv_payload := [] |}).
  rewrite on_decoded_plain; [|by right; right; right|by rewrite E0|by rewrite E0].
  change (classify_control_kind (pv_header pv)) with KindPong. cbv zeta.
  set (s0 := record_received_stats _ _ _ _).
  assert (Eo : ping_outstanding (probe (st_tx s0)) = true) by (subst s0; by rewrite E0).
  set (s1 := handle_probe_receive KindPong t s0).
  assert (Eh : st_tx s1 = (st_tx s0) <| probe ::= fun p => p <| ping_outstanding := false |> |> /\
    st_rx s1 = st_rx s0 /\ st_role s1 = st_role s0 /\ st_conn_id s1 = st_conn_id s0 /\
    st_connection_state s1 = st_connection_state s0 /\ st_last_rx_ms s1 = t).
  { subst s1. unfold handle_probe_receive. by rewrite Eo. }
  assert (Et : st_tx s0 = st_tx c1 /\ st_rx s0 = st_rx c1 /\ st_role s0 = st_role c1 /\
    st_conn_id s0 = st_conn_id c1 /\ st_connection_state s0 = st_connection_state c1) by done.
  clearbody s1. clearbody s0. destruct Et as (T1 & T2 & T3 & T4 & T5).
  destruct Eh as (H1 & H2 & H3 & H4 & H5 & H6). rewrite T1, E0 in H1. rewrite T2, E0 in H2.
  rewrite T3, E0 in H3. rewrite T4, E0 in H4. rewrite T5, E0 in H5. cbn in H2, H3, H4, H5.
  set (s2 := set st_tx _ s1).
  assert (Ep : on_packet pv KindPong (st_rx s2) = (false, st_rx s2))
    by (apply on_packet_probe; by right).
  rewrite Ep. unfold update_post_receive_liveness, schedule_receive_side_ack.
  change (bool_decide (KindPong = KindNone)) with false. cbn [andb negb].
  assert (E2 : st_tx s2 = fst (on_remote_ack cfg n 0 (st_tx s1))) by reflexivity.
  rewrite on_remote_ack_idle, H1 in E2 by (by rewrite H1).
  assert (Hs2 : st_role s2 = st_role c /\ st_conn_id s2 = cid /\ st_last_rx_ms s2 = t /\
    st_connection_state s2 = Established /\ st_rx s2 = st_rx c)
    by (cbn; repeat split; congruence).
  destruct Hs2 as (R1 & R2 & R3 & R4 & R5). clearbody s2.
  assert (Eb : probe_baseline (s2 <| st_rx := st_rx s2 |>) = t0).
  { unfold probe_baseline. cbn. rewrite E2. cbn. by rewrite (proj2 (Z.eqb_neq t0 0)). }
  split; [constructor; [constructor|..]|]; cbn; rewrite ?E2, ?R1, ?R5; done.
Qed.
End probes.
