(* ===== verification/ReliableTransfer.v ===== *)
(** A whole connection over a lossy network: handshake, then any sequence of
    messages in both directions and keep-alive probes, with data and
    acknowledgements lost as long as the retries last.

    An execution is a schedule: for every packet its fate and the times of the
    calls. [schedule_ok] says which schedules are possible: polls before the idle
    timeout, retransmissions after their timeout and within the retry budget,
    acknowledgements after their delay. *)

From S2P Require Import Prelude StdMap Protocol Utils Codec Config SessionTypes.
From S2P Require Import ConnectionStateMachine TxHandler TxInvariant RxHandler RxInvariant.
From S2P Require Import Session SessionInvariant SessionLifecycle Handshake DataTransfer.

(** ** Schedules *)

(** What happens to one transmission: the data is lost; or it arrives at [t_recv],
    the receiver polls at [t_ack], and the acknowledgement is lost or arrives at
    [t_back]. *)
Inductive Fate :=
| DataLost
| AckLost (t_recv t_ack : Z)
| Acked (t_recv t_ack t_back : Z).

(** The sender polls at the given times until an acknowledgement arrives. *)
Fixpoint attempts (cfg : TransportSettings) (sends : list (Z * Fate)) (a b : SessionState)
    : SessionState * SessionState :=
  match sends with
  | [] => (a, b)
  | (t, fate) :: sends =>
      let '(d, a) := poll_tx cfg t a in
      match fate with
      | DataLost => attempts cfg sends a b
      | AckLost t1 t2 => attempts cfg sends a (snd (poll_tx cfg t2 (deliver cfg d t1 b)))
      | Acked t1 t2 t3 =>
          let '(d', b) := poll_tx cfg t2 (deliver cfg d t1 b) in
          (deliver cfg d' t3 a, b)
      end
  end.

Inductive Exchange :=
| ToServer (id : Z) (payload : bytes) (sends : list (Z * Fate))
| ToClient (id : Z) (payload : bytes) (sends : list (Z * Fate))
| Keepalive (t0 t1 t2 t3 : Z).

(** One exchange between client and server, on channels of type [ty]. *)
Definition exchange (cfg : TransportSettings) (ty : ChannelType)
    (p : SessionState * SessionState) (x : Exchange) : SessionState * SessionState :=
  let '(c, s) := p in
  match x with
  | ToServer id payload sends => attempts cfg sends (queue_send id ty payload c) s
  | ToClient id payload sends =>
      let '(s, c) := attempts cfg sends (queue_send id ty payload s) c in (c, s)
  | Keepalive t0 t1 t2 t3 =>
      let '(d, c) := poll_tx cfg t0 c in
      let '(d', s) := poll_tx cfg t2 (deliver cfg d t1 s) in
      (deliver cfg d' t3 c, s)
  end.

(** When the two sides last received something, and when the probe was last sent
    (or the connection established). *)
Record Clock := mkClock { ck_client : Z; ck_server : Z; ck_probe : Z }.

Definition in_time (cfg : TransportSettings) (base t : Z) : bool :=
  t <? u64 (base + idle_timeout_ms cfg).

Definition ack_ok (cfg : TransportSettings) (t1 t2 : Z) : bool :=
  (u64 (t1 + reliable_ack_delay_ms cfg) <=? t2) && in_time cfg t1 t2.

(** [prev]: the time and the retry count of the previous transmission, if any. *)
Definition retry_ok (cfg : TransportSettings) (prev : option (Z * Z)) (t : Z) : bool :=
  match prev with
  | None => true
  | Some (last, k) =>
      (k <? max_retransmit_count cfg) && (u64 (last + retransmit_timeout_for cfg k) <=? t)
  end.

Definition next_retry (prev : option (Z * Z)) : Z :=
  match prev with None => 0 | Some (_, k) => u32 (k + 1) end.

Fixpoint attempts_ok (cfg : TransportSettings) (may_send : Z -> bool) (prev : option (Z * Z))
    (sends : list (Z * Fate)) : bool :=
  match sends with
  | [] => false
  | (t, fate) :: sends =>
      may_send t && retry_ok cfg prev t &&
      match fate with
      | DataLost => attempts_ok cfg may_send (Some (t, next_retry prev)) sends
      | AckLost t1 t2 =>
          ack_ok cfg t1 t2 && attempts_ok cfg may_send (Some (t, next_retry prev)) sends
      | Acked t1 t2 _ => ack_ok cfg t1 t2
      end
  end.

(** When the acknowledged transmission and its acknowledgement arrive. *)
Fixpoint arrival (sends : list (Z * Fate)) : Z * Z :=
  match sends with
  | [] => (0, 0)
  | (_, Acked t1 _ t3) :: _ => (t1, t3)
  | _ :: sends => arrival sends
  end.

Definition exchange_ok (cfg : TransportSettings) (ck : Clock) (x : Exchange) : bool :=
  match x with
  | ToServer _ _ sends =>
      attempts_ok cfg (fun t => in_time cfg (ck_client ck) t &&
                                (t <? u64 (ck_probe ck + keepalive_idle_ms cfg))) None sends
  | ToClient _ _ sends => attempts_ok cfg (in_time cfg (ck_server ck)) None sends
  | Keepalive t0 t1 t2 _ =>
      (u64 (ck_probe ck + keepalive_idle_ms cfg) <=? t0) && in_time cfg (ck_client ck) t0 &&
      negb (t0 =? 0) && in_time cfg t1 t2
  end.

Definition next_clock (ck : Clock) (x : Exchange) : Clock :=
  match x with
  | ToServer _ _ sends => mkClock (snd (arrival sends)) (fst (arrival sends)) (ck_probe ck)
  | ToClient _ _ sends => mkClock (fst (arrival sends)) (snd (arrival sends)) (ck_probe ck)
  | Keepalive t0 t1 _ t3 => mkClock t3 t1 t0
  end.

Fixpoint schedule_ok (cfg : TransportSettings) (ck : Clock) (xs : list Exchange) : bool :=
  match xs with
  | [] => true
  | x :: xs => exchange_ok cfg ck x && schedule_ok cfg (next_clock ck x) xs
  end.

(** The messages of a schedule. *)
Definition to_server (xs : list Exchange) : list (Z * bytes) :=
  omap (fun x => match x with ToServer id payload _ => Some (id, payload) | _ => None end) xs.
Definition to_client (xs : list Exchange) : list (Z * bytes) :=
  omap (fun x => match x with ToClient id payload _ => Some (id, payload) | _ => None end) xs.

(** What an application is told, in order: the type of each event with its channel
    and payload. *)
Definition AppEvent : Type := EventType * Z * bytes.
Definition told (ev : SessionEvent) : AppEvent := (ev_type ev, ev_channel_id ev, ev_payload ev).
Definition app_events (s : SessionState) : list AppEvent := map told (pending_events (st_rx s)).

Definition told_connected : AppEvent := (Connected, 0, []).
Definition told_message (m : Z * bytes) : AppEvent := (DataReceived, fst m, snd m).

(** Every datagram of the exchange carries the connection id, and both sides are
    Established after every step. *)
Definition carries (cid : Z) (payload : bytes) (d : option bytes) : Prop :=
  exists h p, d = Some (encode h p) /\ header_ok h /\ hdr_conn_id h = cid /\
    (Forall is_u8 payload -> Forall is_u8 p).

Definition established (s : SessionState) : Prop := st_connection_state s = Established.

Fixpoint attempts_live (cfg : TransportSettings) (cid : Z) (payload : bytes)
    (sends : list (Z * Fate)) (a b : SessionState) : Prop :=
  match sends with
  | [] => True
  | (t, fate) :: sends =>
      let '(d, a) := poll_tx cfg t a in
      carries cid payload d /\ established a /\
      match fate with
      | DataLost => attempts_live cfg cid payload sends a b
      | AckLost t1 t2 =>
          let b := deliver cfg d t1 b in
          established b /\ established (snd (poll_tx cfg t2 b)) /\
          attempts_live cfg cid payload sends a (snd (poll_tx cfg t2 b))
      | Acked t1 t2 t3 =>
          let b := deliver cfg d t1 b in
          let '(d', b') := poll_tx cfg t2 b in
          established b /\ carries cid payload d' /\ established b' /\
          established (deliver cfg d' t3 a)
      end
  end.

Definition exchange_live (cfg : TransportSettings) (ty : ChannelType) (cid : Z)
    (p : SessionState * SessionState) (x : Exchange) : Prop :=
  let '(c, s) := p in
  match x with
  | ToServer id payload sends =>
      attempts_live cfg cid payload sends (queue_send id ty payload c) s
  | ToClient id payload sends =>
      attempts_live cfg cid payload sends (queue_send id ty payload s) c
  | Keepalive t0 t1 t2 t3 =>
      let '(d, c) := poll_tx cfg t0 c in
      let s := deliver cfg d t1 s in
      carries cid [] d /\ established c /\ established s /\ established (snd (poll_tx cfg t2 s))
  end.

Fixpoint exchanges_live (cfg : TransportSettings) (ty : ChannelType) (cid : Z)
    (p : SessionState * SessionState) (xs : list Exchange) : Prop :=
  match xs with
  | [] => True
  | x :: xs => exchange_live cfg ty cid p x /\ exchanges_live cfg ty cid (exchange cfg ty p x) xs
  end.

(** ** One message *)

Section message.
Context (cfg : TransportSettings) (cid : Z) (Hcid : is_u32 cid).
Context (id : Z) (ty : ChannelType) (payload : bytes).
Context (Hid : is_u32 id) (Hty : isReliableChannel ty = true).
Context (n m : Z) (Hn : is_u32 n) (Hm : front_safe m) (Hn1 : u32 (n + 1) <> 0).

Let h := data_header cid id ty n m.
Let packet := {| op_header := h; op_payload := payload |}.
Let event := make_data_event {| pv_header := h; pv_payload := payload |}.

Lemma front_safe_u32 : is_u32 m.
Proof. unfold front_safe in Hm. unfold is_u32. lia. Qed.

(** Before the first transmission, or after [prev]. *)
Definition sending (prev : option (Z * Z)) (a : SessionState) : Prop :=
  match prev with
  | None => exists a0, a = queue_send id ty payload a0 /\ idle a0 cid n m
  | Some (last, k) => waiting a cid n m packet k last
  end.

Lemma sending_poll prev t a :
  sending prev a -> retry_ok cfg prev t = true -> not_timed_out cfg a t -> probe_quiet cfg a t ->
  exists a', poll_tx cfg t a = (Some (encode h payload), a') /\
    waiting a' cid n m packet (next_retry prev) t /\ same_clock a a' /\
    st_rx a' = st_rx a /\ st_last_rx_ms a' = st_last_rx_ms a.
Proof.
  pose proof front_safe_u32 as Hu. destruct prev as [[last k]|]; cbn [sending retry_ok next_retry].
  - intros Hw Hr Ht Hq. apply andb_true_iff in Hr as [Hk Hl].
    apply Z.ltb_lt in Hk. apply Z.leb_le in Hl.
    by apply (send_again cfg cid Hcid id ty payload Hid Hty t a n m k last).
  - intros (a0 & -> & Hi) _ Ht Hq.
    by apply (send_first cfg cid Hcid id ty payload Hid Hty t a0 n m).
Qed.

(** The receiver, before and after the first arrival. *)
Definition front (got : bool) : Z := if got then u32 (n + 1) else n.

Lemma front_u32 got : is_u32 (front got).
Proof. destruct got; [apply u32_range|exact Hn]. Qed.

Lemma receiving t b got :
  idle b cid m (front got) -> ordered_at ty (st_rx b) (front got) ->
  let b' := on_datagram_received cfg (encode h payload) t b in
  owing cid b' m (u32 (n + 1)) (u64 (t + reliable_ack_delay_ms cfg)) /\
  ordered_at ty (st_rx b') (u32 (n + 1)) /\ same_clock b b' /\ st_last_rx_ms b' = t /\
  pending_events (st_rx b') = pending_events (st_rx b) ++ (if got then [] else [event]).
Proof.
  intros Hi Ho. pose proof front_safe_u32 as Hu. pose proof (idle_up _ _ _ _ Hi) as Hup.
  destruct Hup. destruct got.
  - destruct (receive_data cfg cid Hcid id ty payload Hid Hty t b (u32 (n + 1)) m n (st_rx b))
      as (H1 & H2 & H3 & H4); try done.
    { by apply (on_packet_again _ _ n). }
    fold h in H1, H2, H3, H4. cbn zeta. rewrite H2, app_nil_r. rewrite up_front in H1.
    by split_and!.
  - destruct (on_packet_data {| pv_header := h; pv_payload := payload |} (st_rx b) n)
      as (rx' & E & Hf & Hb & Hbuf & Ho' & Hev); try done.
    destruct (receive_data cfg cid Hcid id ty payload Hid Hty t b n m n rx')
      as (H1 & H2 & H3 & H4); try done.
    fold h in H1, H2, H3, H4. cbn zeta. rewrite H2. rewrite Hf in H1. by split_and!.
Qed.

Lemma acknowledging t1 t2 b got :
  idle b cid m (front got) -> ordered_at ty (st_rx b) (front got) -> ack_ok cfg t1 t2 = true ->
  established (on_datagram_received cfg (encode h payload) t1 b) /\
  exists b', poll_tx cfg t2 (on_datagram_received cfg (encode h payload) t1 b) =
      (Some (encode (ack_header cid (u32 (n + 1))) []), b') /\
    idle b' cid m (u32 (n + 1)) /\ ordered_at ty (st_rx b') (u32 (n + 1)) /\ same_clock b b' /\
    st_last_rx_ms b' = t1 /\
    pending_events (st_rx b') = pending_events (st_rx b) ++ (if got then [] else [event]).
Proof.
  intros Hi Ho Ha. apply andb_true_iff in Ha as [Hd Hto]. apply Z.leb_le in Hd.
  apply Z.ltb_lt in Hto. destruct (receiving t1 b got Hi Ho) as (H1 & H2 & H3 & H4 & H5).
  cbn zeta in *. set (b1 := on_datagram_received _ _ _ _) in *. clearbody b1.
  destruct (send_ack cfg cid Hcid t2 b1 (u32 (n + 1)) m _ (u32_range _) H1 Hd)
    as (b' & E & Hi' & Hs & Hrx & Hl).
  { unfold not_timed_out. by rewrite H4. }
  split; [exact (up_established _ _ _ _ _ (owe_up _ _ _ _ _ H1))|].
  exists b'. rewrite Hrx, Hl. split_and!; try done. destruct H3, Hs. split; congruence.
Qed.

Lemma carries_data : carries cid payload (Some (encode h payload)).
Proof.
  exists h, payload. split_and!; try done. apply data_header_ok; try done. apply front_safe_u32.
Qed.

Lemma carries_ack n' : is_u32 n' -> carries cid payload (Some (encode (ack_header cid n') [])).
Proof. intros. exists (ack_header cid n'), []. by split_and!. Qed.

(** The message gets through: the receiver delivers it exactly once, whatever
    was lost on the way, and both sides are idle again, one number further. *)
Lemma attempts_deliver may_send sends prev a b got :
  (forall t, may_send t = true -> t < u64 (st_last_rx_ms a + idle_timeout_ms cfg) /\
     (st_role a = Client -> t < u64 (probe_baseline a + keepalive_idle_ms cfg))) ->
  sending prev a -> idle b cid m (front got) -> ordered_at ty (st_rx b) (front got) ->
  attempts_ok cfg may_send prev sends = true ->
  let '(a', b') := attempts cfg sends a b in
  idle a' cid (u32 (n + 1)) m /\ idle b' cid m (u32 (n + 1)) /\
  st_rx a' = st_rx a /\ ordered_at ty (st_rx b') (u32 (n + 1)) /\
  same_clock a a' /\ same_clock b b' /\
  st_last_rx_ms b' = fst (arrival sends) /\ st_last_rx_ms a' = snd (arrival sends) /\
  pending_events (st_rx b') = pending_events (st_rx b) ++ (if got then [] else [event]) /\
  attempts_live cfg cid payload sends a b.
Proof.
  pose proof carries_data as Hcar.
  revert prev a b got. induction sends as [|[t fate] sends IH]; intros prev a b got Hmay Ha Hb Ho Hok;
    [done|]. cbn [attempts_ok attempts attempts_live] in *.
  apply andb_true_iff in Hok as [Hok Hfate]. apply andb_true_iff in Hok as [Ht Hr].
  apply Hmay in Ht as [Hto Hq].
  destruct (sending_poll prev t a Ha Hr Hto Hq) as (a1 & E1 & Hw & Hc1 & Hrx1 & Hl1).
  rewrite E1. pose proof (up_established _ _ _ _ _ (wait_up _ _ _ _ _ _ _ Hw)) as He1.
  assert (Hmay1 : forall t, may_send t = true ->
    t < u64 (st_last_rx_ms a1 + idle_timeout_ms cfg) /\
    (st_role a1 = Client -> t < u64 (probe_baseline a1 + keepalive_idle_ms cfg))).
  { destruct Hc1 as [-> ->]. by rewrite Hl1. }
  destruct fate as [|t1 t2|t1 t2 t3]; cbn [arrival].
  - specialize (IH (Some (t, next_retry prev)) a1 b got Hmay1 Hw Hb Ho Hfate).
    destruct (attempts cfg sends a1 b) as [a' b'].
    destruct IH as (H1 & H2 & H3 & H4 & H5 & H6 & H7 & H8 & H9 & H10).
    split_and!; try done; [congruence|]. destruct H5, Hc1. split; congruence.
  - apply andb_true_iff in Hfate as [Hack Hrest].
    destruct (acknowledging t1 t2 b got Hb Ho Hack) as (Heb & b1 & E2 & Hi & Ho1 & Hc2 & _ & Hev).
    pose proof (up_established _ _ _ _ _ (idle_up _ _ _ _ Hi)) as He2.
    cbn [deliver]. rewrite E2. cbn [snd].
    specialize (IH (Some (t, next_retry prev)) a1 b1 true Hmay1 Hw Hi Ho1 Hrest).
    destruct (attempts cfg sends a1 b1) as [a' b'].
    destruct IH as (H1 & H2 & H3 & H4 & H5 & H6 & H7 & H8 & H9 & H10).
    rewrite app_nil_r in H9. split_and!; try done; [congruence| | |congruence].
    + destruct H5, Hc1. split; congruence.
    + destruct H6, Hc2. split; congruence.
  - destruct (acknowledging t1 t2 b got Hb Ho Hfate) as (Heb & b1 & E2 & Hi & Ho1 & Hc2 & Hl2 & Hev).
    pose proof (up_established _ _ _ _ _ (idle_up _ _ _ _ Hi)) as He2.
    cbn [deliver]. rewrite E2. cbn [deliver].
    destruct (receive_ack cfg cid Hcid t3 a1 n m packet (next_retry prev) t Hn Hw Hm)
      as (H1 & H2 & H3 & H4). split_and!; try done; [congruence| | |].
    + destruct H3, Hc1. split; congruence.
    + apply carries_ack, u32_range.
    + exact (up_established _ _ _ _ _ (idle_up _ _ _ _ H1)).
Qed.
End message.

(** ** The pair *)

(** Client and server idle towards each other: the client's next number is [nc],
    the server's [ns]. *)
Record linked (ty : ChannelType) (cid nc ns : Z) (ck : Clock) (p : SessionState * SessionState)
    : Prop := mk_linked {
  lk_client : idle (fst p) cid nc ns;
  lk_server : idle (snd p) cid ns nc;
  lk_client_role : st_role (fst p) = Client;
  lk_server_role : st_role (snd p) = Server;
  lk_client_rx : st_last_rx_ms (fst p) = ck_client ck;
  lk_server_rx : st_last_rx_ms (snd p) = ck_server ck;
  lk_probe : probe_baseline (fst p) = ck_probe ck;
  lk_client_order : ordered_at ty (st_rx (fst p)) ns;
  lk_server_order : ordered_at ty (st_rx (snd p)) nc
}.

Definition exchange_typed (x : Exchange) : Prop :=
  match x with
  | ToServer id _ _ | ToClient id _ _ => is_u32 id
  | Keepalive _ _ _ _ => True
  end.

Lemma received_app s s' evs :
  pending_events (st_rx s') = pending_events (st_rx s) ++ evs ->
  app_events s' = app_events s ++ map told evs.
Proof. intros E. unfold app_events. rewrite E. apply map_app. Qed.

Lemma received_same s s' : st_rx s' = st_rx s -> app_events s' = app_events s.
Proof. unfold app_events. by intros ->. Qed.

Lemma front_safe_next n : front_safe n -> is_u32 n /\ u32 (n + 1) = n + 1 /\ u32 (n + 1) <> 0.
Proof. unfold front_safe, is_u32. intros Hn. rewrite u32_id; [lia|]. unfold is_u32. lia. Qed.

Section pair.
Context (cfg : TransportSettings) (ty : ChannelType) (Hty : isReliableChannel ty = true).
Context (cid : Z) (Hcid : is_u32 cid).

Lemma exchange_to_server id payload sends nc ns ck p :
  is_u32 id -> front_safe nc -> front_safe ns -> linked ty cid nc ns ck p ->
  exchange_ok cfg ck (ToServer id payload sends) = true ->
  let p' := exchange cfg ty p (ToServer id payload sends) in
  linked ty cid (nc + 1) ns (next_clock ck (ToServer id payload sends)) p' /\
  app_events (snd p') = app_events (snd p) ++ [told_message (id, payload)] /\
  app_events (fst p') = app_events (fst p) /\
  exchange_live cfg ty cid p (ToServer id payload sends).
Proof.
  intros Hid Hc Hs [] Hok. destruct p as [c s]. cbn [fst snd] in *. cbn [exchange].
  destruct (front_safe_next nc Hc) as (Hn & E1 & Hn1).
  pose proof (attempts_deliver cfg cid Hcid id ty payload Hid Hty nc ns Hn Hs Hn1
    (fun t => in_time cfg (ck_client ck) t && (t <? u64 (ck_probe ck + keepalive_idle_ms cfg)))
    sends None (queue_send id ty payload c) s false) as H.
  destruct (attempts cfg sends (queue_send id ty payload c) s) as [c' s'].
  destruct H as (H1 & H2 & H3 & H4 & H5 & H6 & H7 & H8 & H9 & H10); try done.
  { intros t Ht. apply andb_true_iff in Ht as [Ht1 Ht2]. apply Z.ltb_lt in Ht1, Ht2.
    change (st_last_rx_ms (queue_send id ty payload c)) with (st_last_rx_ms c).
    change (probe_baseline (queue_send id ty payload c)) with (probe_baseline c).
    rewrite lk_client_rx0, lk_probe0. done. }
  { by exists c. }
  rewrite E1 in *. destruct H5 as [R1 B1], H6 as [R2 B2]. cbn [fst snd]. split_and!.
  - constructor; cbn [fst snd next_clock ck_client ck_server ck_probe]; try done; try congruence.
    + rewrite R1. exact lk_client_role0.
    + rewrite B1. exact lk_probe0.
    + rewrite H3. exact lk_client_order0.
  - by apply received_app in H9.
  - by apply received_same.
  - done.
Qed.

Lemma exchange_to_client id payload sends nc ns ck p :
  is_u32 id -> front_safe nc -> front_safe ns -> linked ty cid nc ns ck p ->
  exchange_ok cfg ck (ToClient id payload sends) = true ->
  let p' := exchange cfg ty p (ToClient id payload sends) in
  linked ty cid nc (ns + 1) (next_clock ck (ToClient id payload sends)) p' /\
  app_events (fst p') = app_events (fst p) ++ [told_message (id, payload)] /\
  app_events (snd p') = app_events (snd p) /\
  exchange_live cfg ty cid p (ToClient id payload sends).
Proof.
  intros Hid Hc Hs [] Hok. destruct p as [c s]. cbn [fst snd] in *. cbn [exchange].
  destruct (front_safe_next ns Hs) as (Hn & E1 & Hn1).
  pose proof (attempts_deliver cfg cid Hcid id ty payload Hid Hty ns nc Hn Hc Hn1
    (in_time cfg (ck_server ck)) sends None (queue_send id ty payload s) c false) as H.
  destruct (attempts cfg sends (queue_send id ty payload s) c) as [s' c'].
  destruct H as (H1 & H2 & H3 & H4 & H5 & H6 & H7 & H8 & H9 & H10); try done.
  { intros t Ht. apply Z.ltb_lt in Ht.
    change (st_last_rx_ms (queue_send id ty payload s)) with (st_last_rx_ms s).
    change (st_role (queue_send id ty payload s)) with (st_role s).
    rewrite lk_server_rx0, lk_server_role0. done. }
  { by exists s. }
  rewrite E1 in *. destruct H5 as [R1 B1], H6 as [R2 B2]. cbn [fst snd]. split_and!.
  - constructor; cbn [fst snd next_clock ck_client ck_server ck_probe]; try done; try congruence.
    + rewrite R1. exact lk_server_role0.
    + rewrite H3. exact lk_server_order0.
  - by apply received_app in H9.
  - by apply received_same.
  - done.
Qed.

Lemma exchange_keepalive t0 t1 t2 t3 nc ns ck p :
  is_u32 nc -> is_u32 ns -> linked ty cid nc ns ck p ->
  exchange_ok cfg ck (Keepalive t0 t1 t2 t3) = true ->
  let p' := exchange cfg ty p (Keepalive t0 t1 t2 t3) in
  linked ty cid nc ns (next_clock ck (Keepalive t0 t1 t2 t3)) p' /\
  app_events (snd p') = app_events (snd p) /\ app_events (fst p') = app_events (fst p) /\
  exchange_live cfg ty cid p (Keepalive t0 t1 t2 t3).
Proof.
  intros Hc Hs [] Hok. destruct p as [c s]. cbn [fst snd] in *. cbn [exchange exchange_ok exchange_live] in *.
  apply andb_true_iff in Hok as [Hok Hto2]. apply andb_true_iff in Hok as [Hok H0].
  apply andb_true_iff in Hok as [Hdue Hto]. apply Z.leb_le in Hdue. apply Z.ltb_lt in Hto, Hto2.
  apply negb_true_iff, Z.eqb_neq in H0.
  destruct (send_ping cfg cid Hcid t0 c nc ns Hs lk_client0 lk_client_role0) as (c1 & E1 & Hp).
  { by rewrite lk_probe0. }
  { unfold not_timed_out. by rewrite lk_client_rx0. }
  rewrite E1. cbn [deliver].
  pose proof (receive_ping cfg cid Hcid t1 s nc ns Hs lk_server0) as Hpong.
  destruct (send_pong cfg cid Hcid t1 t2 s _ nc ns Hc lk_server0 lk_server_role0 Hpong Hto2)
    as (s' & E2 & Hi & [R2 B2] & Hrx & Hl).
  rewrite E2. cbn [deliver].
  destruct (receive_pong cfg cid Hcid t0 t3 c c1 nc ns Hc lk_client0 Hp H0)
    as (H1 & H2 & H3 & H4 & H5).
  cbn [fst snd snd].
  assert (Hlive : carries cid [] (Some (encode (probe_header cid FlagPing ns) [])) /\ established c1 /\
    established (on_datagram_received cfg (encode (probe_header cid FlagPing ns) []) t1 s) /\
    established s').
  { split_and!.
    - eexists _, _. split; [reflexivity|]. split; [by apply probe_header_ok|done].
    - destruct Hp as [? ->]. apply lk_client0.
    - destruct Hpong as [? ->]. apply lk_server0.
    - apply Hi. }
  split; [|split; [by apply received_same|split; [by apply received_same|exact Hlive]]].
  constructor; cbn [fst snd next_clock ck_client ck_server ck_probe]; try done; try congruence.
  - rewrite H2. exact lk_client_order0.
  - rewrite Hrx. exact lk_server_order0.
Qed.

Lemma exchanges_deliver xs nc ns ck p :
  Forall exchange_typed xs -> 0 < nc -> 0 < ns ->
  nc + Z.of_nat (length xs) < 2 ^ 32 - 64 -> ns + Z.of_nat (length xs) < 2 ^ 32 - 64 ->
  linked ty cid nc ns ck p -> schedule_ok cfg ck xs = true ->
  let p' := fold_left (exchange cfg ty) xs p in
  (exists nc' ns' ck', linked ty cid nc' ns' ck' p' /\
     nc <= nc' <= nc + Z.of_nat (length xs) /\ ns <= ns' <= ns + Z.of_nat (length xs)) /\
  app_events (snd p') = app_events (snd p) ++ map told_message (to_server xs) /\
  app_events (fst p') = app_events (fst p) ++ map told_message (to_client xs) /\
  exchanges_live cfg ty cid p xs.
Proof.
  revert nc ns ck p. induction xs as [|x xs IH]; intros nc ns ck p Ht Hc Hs Hbc Hbs Hl Hok.
  { cbn. rewrite !app_nil_r. split; [|done]. eexists _, _, _. split; [done|lia]. }
  apply Forall_cons_1 in Ht as [Hx Ht]. cbn [schedule_ok length fold_left] in *.
  apply andb_true_iff in Hok as [Hx1 Hok].
  assert (Fc : front_safe nc) by (unfold front_safe; lia).
  assert (Fs : front_safe ns) by (unfold front_safe; lia).
  destruct x as [id payload sends|id payload sends|t0 t1 t2 t3].
  - destruct (exchange_to_server id payload sends nc ns ck p Hx Fc Fs Hl Hx1) as (H1 & H2 & H3 & H0).
    destruct (IH (nc + 1) ns _ _ Ht ltac:(lia) Hs ltac:(lia) ltac:(lia) H1 Hok) as ((nc' & ns' & ck' & H4 & Bc & Bs) & H5 & H6 & H7).
    split; [eexists _, _, _; split; [exact H4|lia]|]. cbn zeta. rewrite H5, H6, H2, H3, <- app_assoc. done.
  - destruct (exchange_to_client id payload sends nc ns ck p Hx Fc Fs Hl Hx1) as (H1 & H2 & H3 & H0).
    destruct (IH nc (ns + 1) _ _ Ht Hc ltac:(lia) ltac:(lia) ltac:(lia) H1 Hok) as ((nc' & ns' & ck' & H4 & Bc & Bs) & H5 & H6 & H7).
    split; [eexists _, _, _; split; [exact H4|lia]|]. cbn zeta. rewrite H5, H6, H2, H3, <- app_assoc. done.
  - destruct (exchange_keepalive t0 t1 t2 t3 nc ns ck p) as (H1 & H2 & H3 & H0); try done.
    { by apply front_safe_next. }
    { by apply front_safe_next. }
    destruct (IH nc ns _ _ Ht Hc Hs ltac:(lia) ltac:(lia) H1 Hok) as ((nc' & ns' & ck' & H4 & Bc & Bs) & H5 & H6 & H7).
    split; [eexists _, _, _; split; [exact H4|lia]|]. cbn zeta. rewrite H5, H6, H2, H3. done.
Qed.
End pair.

(** ** From the handshake on *)

Section connection.
Context (cfg : TransportSettings) (ty : ChannelType).
Context (c_isn s_isn id : Z) (Hid : is_u32 id).
Context (Hc : front_safe (c_isn + 1)) (Hs : front_safe (s_isn + 1)).

Lemma isn_next : is_u32 c_isn /\ is_u32 s_isn /\ u32 (c_isn + 1) = c_isn + 1 /\
  u32 (s_isn + 1) = s_isn + 1.
Proof.
  unfold front_safe in *. split_and!; [unfold is_u32; lia..| |]; apply u32_id; unfold is_u32; lia.
Qed.

(** The client after its final ACK, when its probe is not due yet. *)
Lemma client_final_idle t0 t1 t st0 :
  t < u64 (t1 + idle_timeout_ms cfg) -> t < u64 (t1 + keepalive_idle_ms cfg) ->
  exists c, poll_tx cfg t (client_up c_isn s_isn id t0 t1 st0) =
      (Some (encode (ack_header id (u32 (s_isn + 1))) []), c) /\
    idle c id (c_isn + 1) (s_isn + 1) /\ st_role c = Client /\ st_last_rx_ms c = t1 /\
    probe_baseline c = t1 /\ ordered_at ty (st_rx c) (s_isn + 1) /\ app_events c = [told_connected] /\
    final_ack_linger_until_ms (st_tx c) = u64 (t + handshake_linger_ms cfg).
Proof.
  intros Ht Hq. destruct isn_next as (Uc & Us & Ec & Es).
  set (s := client_up c_isn s_isn id t0 t1 st0).
  assert (Esch : schedule_pending_tx_work cfg t s = s)
    by (apply schedule_quiet; [done|done|intros _; exact Hq]).
  destruct (poll_tx_handshake cfg t s (ack_header id (u32 (s_isn + 1))) [] Established
    ((st_tx s) <| final_ack_pending := false |>
       <| final_ack_linger_until_ms := u64 (t + handshake_linger_ms cfg) |>)) as [st E].
  { by apply not_timed_out_false. }
  { apply ack_header_ok; [done|apply u32_range]. }
  { rewrite Esch. reflexivity. }
  rewrite Esch in E. rewrite E. eexists. split; [reflexivity|].
  change (classify_control_kind (ack_header id (u32 (s_isn + 1)))) with KindAck.
  by split_and!.
Qed.

(** The server after the final ACK. *)
Lemma server_final_idle e t0 t1 t st0 :
  hasFlag (op_header (te_packet e)) FlagFin = false ->
  let s := on_datagram_received cfg (encode (ack_header id (u32 (s_isn + 1))) []) t
             (server_answered_with c_isn s_isn id e t0 t1 st0) in
  idle s id (s_isn + 1) (c_isn + 1) /\ st_role s = Server /\ st_last_rx_ms s = t /\
  ordered_at ty (st_rx s) (c_isn + 1) /\ app_events s = [told_connected].
Proof.
  intros Hfin. destruct isn_next as (Uc & Us & Ec & Es). cbn zeta.
  unfold on_datagram_received. rewrite decode_control by (apply ack_header_ok; [done|apply u32_range]).
  set (pv := {| pv_header := ack_header id (u32 (s_isn + 1)); pv_payload := [] |}).
  unfold on_decoded. cbn zeta.
  change (classify_control_kind (pv_header pv)) with KindAck.
  set (s0 := record_received_stats _ _ _ _).
  change (should_adopt_server_conn_id s0 KindAck (pv_header pv)) with false. cbv iota.
  assert (Em : has_conn_id_mismatch s0 KindAck (pv_header pv) = false).
  { unfold has_conn_id_mismatch. cbn. by rewrite Z.eqb_refl, andb_false_r. }
  rewrite Em. change (is_duplicate_client_syn_ack s0 KindAck) with false. cbv iota.
  change (handle_probe_receive KindAck t s0) with s0.
  change (apply_remote_ack cfg (pv_header pv) KindAck (st_tx s0)) with
    (on_remote_ack cfg (u32 (s_isn + 1)) 0 (st_tx s0)).
  pose proof (on_remote_ack_single cfg s_isn e (st_tx s0) Us eq_refl) as H.
  destruct (on_remote_ack _ _ _ _) as [tx fin]. destruct H as [-> ->]. rewrite Hfin.
  set (s3 := apply_connection_decision _ _ _).
  assert (Ep : on_packet pv KindAck (st_rx s3) = (false, st_rx s3)).
  { apply (on_packet_ack id Hid _ _ (c_isn + 1)); [|exact Hc]. exact Ec. }
  rewrite Ep. unfold update_post_receive_liveness, schedule_receive_side_ack.
  change (bool_decide (KindAck = KindNone)) with false. cbn [andb negb].
  by split_and!.
Qed.

Lemma handshake_linked t0 t1 t2 t3 t4 t5 :
  id <> 0 -> t4 < u64 (t3 + idle_timeout_ms cfg) -> t4 < u64 (t3 + keepalive_idle_ms cfg) ->
  let p := handshake cfg c_isn s_isn id t0 t1 t2 t3 t4 t5 in
  linked ty id (c_isn + 1) (s_isn + 1) (mkClock t3 t5 t3) p /\
  app_events (fst p) = [told_connected] /\ app_events (snd p) = [told_connected].
Proof.
  intros Hne Ht Hq. destruct isn_next as (Uc & Us & Ec & Es). unfold handshake. cbn zeta.
  destruct (client_syn cfg c_isn Uc t0) as [st1 ->]. cbn [deliver].
  destruct (server_syn cfg c_isn s_isn id Uc t1) as [st2 ->].
  destruct (server_syn_ack cfg c_isn s_isn id Us Hid t1 t2 st2) as [st3 ->]. cbn [deliver].
  destruct (client_syn_ack cfg c_isn s_isn id Uc Us Hid t0 t3 st1 Hne) as [st4 ->].
  destruct (client_final_idle t0 t3 t4 st4 Ht Hq) as (c & -> & H1 & H2 & H3 & H4 & H5 & H6 & _).
  cbn [deliver].
  destruct (server_final_idle (sent_entry (control_header id (flag_or FlagSyn FlagAck) s_isn
    (u32 (c_isn + 1)) 0) t2) t1 t2 t5 st3 eq_refl) as (G1 & G2 & G3 & G4 & G5).
  cbn [fst snd]. split; [|done]. by constructor.
Qed.
End connection.

(** ** Properties *)

(** C23: keep-alive does not survive a lost reply. A client that has sent a PING
    and never gets the PONG sends no further probe: at every later poll before the
    idle timeout it sends nothing and stays as it is, and at the timeout it resets
    the connection. *)
Theorem lost_pong_stops_keepalive cfg cid n m c c1 t0 t :
  idle c cid n m -> pinged t0 c c1 ->
  if t <? u64 (st_last_rx_ms c + idle_timeout_ms cfg)
  then poll_tx cfg t c1 = (None, c1)
  else poll_tx cfg t c1 = (None, mark_idle_timeout c1) /\
       st_connection_state (mark_idle_timeout c1) = Reset.
Proof.
  intros [Hup Hin Hack] (st & E0). destruct Hup.
  assert (Hl : st_last_rx_ms c1 = st_last_rx_ms c) by (by rewrite E0).
  assert (He : st_connection_state c1 = Established) by (by rewrite E0).
  destruct (Z.ltb_spec t (u64 (st_last_rx_ms c + idle_timeout_ms cfg))) as [Ht|Ht].
  - apply poll_nothing; rewrite ?He; try (by rewrite E0).
    + apply not_timed_out_false. unfold not_timed_out. by rewrite Hl.
    + unfold schedule_pending_tx_work.
      assert (should_schedule_reliable_ack c1 t = false) as ->.
      { unfold should_schedule_reliable_ack. rewrite E0. cbn. by rewrite up_reliable_ack, orb_true_r. }
      assert (should_schedule_activity_ack cfg c1 t = false) as ->.
      { unfold should_schedule_activity_ack. rewrite E0. cbn. rewrite up_activity, orb_true_r.
        by destruct (negb _). }
      assert (should_schedule_probe cfg c1 t = false) as ->; [|done].
      unfold should_schedule_probe. rewrite E0. cbn. by rewrite orb_true_r.
    + apply no_handshake. by rewrite E0.
  - split; [|done]. unfold poll_tx, should_timeout_idle_session. rewrite He, Hl. cbn.
    by rewrite (proj2 (Z.leb_le _ _)).
Qed.

Lemma lost_pong_stops_keepalive_witness :
  let c := fst (handshake default_transport 100 200 5 0 10 10 20 20 30) in
  let c1 := snd (poll_tx default_transport 600 c) in
  poll_tx default_transport 9000 c1 = (None, c1).
Proof.
  destruct (handshake_linked default_transport ReliableOrdered 100 200 5 ltac:(unfold is_u32; lia)
    ltac:(unfold front_safe; lia) ltac:(unfold front_safe; lia) 0 10 10 20 20 30
    ltac:(discriminate) ltac:(vm_compute; reflexivity) ltac:(vm_compute; reflexivity)) as [Hl _].
  cbn zeta. set (c := fst (handshake _ _ _ _ _ _ _ _ _ _)) in *.
  destruct Hl as [Hi _ Hr _ Hx _ Hp _ _]. cbn [ck_client ck_probe] in Hx, Hp.
  fold c in Hi, Hr, Hx, Hp. clearbody c.
  destruct (send_ping default_transport 5 ltac:(unfold is_u32; lia) 600 c (100 + 1) (200 + 1)
    ltac:(unfold is_u32; lia) Hi Hr) as (c1 & E & Hping).
  - rewrite Hp. vm_compute. discriminate.
  - unfold not_timed_out. rewrite Hx. vm_compute. reflexivity.
  - rewrite E. cbn [snd].
    pose proof (lost_pong_stops_keepalive default_transport 5 (100 + 1) (200 + 1) c c1 600 9000
      Hi Hping) as H. rewrite Hx in H. exact H.
Defined.
