(* ===== verification/StreamLog.v ===== *)
(** The log of a connection: what a session has said, in the order of the sequence
    numbers it gave out, and how much of it its peer has handed over.

    Everything that takes a sequence number has an entry in the log; an ordered
    message is an entry [Some], anything else [None]. [sender] relates the send side
    of a session to its own log, [receiver] the receive side to the log of the peer.
    Every operation of a session keeps both, for packets of the peer that arrive in
    any order, any number of times or not at all. *)

From S2P Require Import Prelude StdMap Protocol Utils Codec Config SessionTypes.
From S2P Require Import ConnectionStateMachine TxHandler TxInvariant RxHandler RxInvariant.
From S2P Require Import Session SessionInvariant SessionLifecycle Handshake.

Definition Message : Type := Z * bytes.

(** ** Messages in packets, requests and events *)

Definition ordered_data (h : Header) : bool :=
  bool_decide (classify_control_kind h = KindNone) &&
  bool_decide (hdr_channel_type h = ReliableOrdered).

Definition message_of (h : Header) (p : bytes) : option Message :=
  if ordered_data h then Some (hdr_channel_id h, p) else None.

Definition requested (r : SendRequest) : option Message :=
  if bool_decide (req_channel_type r = ReliableOrdered)
  then Some (req_channel_id r, req_payload r) else None.

Definition request_of (h : Header) (p : bytes) : SendRequest :=
  {| req_channel_id := hdr_channel_id h; req_channel_type := hdr_channel_type h; req_payload := p |}.

Definition event_request (ev : SessionEvent) : SendRequest :=
  {| req_channel_id := ev_channel_id ev; req_channel_type := ev_channel_type ev;
     req_payload := ev_payload ev |}.

Definition is_data (ev : SessionEvent) : bool := bool_decide (ev_type ev = DataReceived).

(** The requests that the data among the events carry, and the ordered messages. *)
Definition data_events (evs : list SessionEvent) : list SendRequest :=
  map event_request (List.filter is_data evs).

Definition stream (rs : list SendRequest) : list Message := omap requested rs.

Lemma data_events_app evs evs' : data_events (evs ++ evs') = data_events evs ++ data_events evs'.
Proof. unfold data_events. by rewrite List.filter_app, map_app. Qed.

Lemma stream_app rs rs' : stream (rs ++ rs') = stream rs ++ stream rs'.
Proof. apply omap_app. Qed.

(** ** The sending side *)

Section log.
Context (isn : Z).

Definition numbered (log : list (option Message)) (n : Z) (msg : Message) : Prop :=
  exists k : nat, log !! k = Some (Some msg) /\ n = u32 (isn + Z.of_nat k).

(** A data packet holds a message of the application, and an ordered one stands in
    the log under its number. *)
Definition genuine (log : list (option Message)) (said : list SendRequest) (h : Header) (p : bytes)
    : Prop :=
  (forall msg, message_of h p = Some msg -> numbered log (hdr_seq h) msg) /\
  (classify_control_kind h = KindNone -> request_of h p ∈ said).

Definition genuine_packet log said (packet : OwnedPacket) : Prop :=
  genuine log said (op_header packet) (op_payload packet).

Lemma numbered_prefix log log' n msg :
  log `prefix_of` log' -> numbered log n msg -> numbered log' n msg.
Proof. intros Hp (k & Hk & ->). exists k. split; [by eapply prefix_lookup_Some|done]. Qed.

Lemma genuine_grows log log' said said' h p :
  log `prefix_of` log' -> (forall r, r ∈ said -> r ∈ said') ->
  genuine log said h p -> genuine log' said' h p.
Proof. intros Hl Hs [H1 H2]. split; eauto using numbered_prefix. Qed.

(** Only the acknowledgement fields of a packet change when it is sent again. *)
Lemma genuine_refresh log said rx h p :
  genuine log said h p -> genuine log said (refresh_acks rx h) p.
Proof. done. Qed.

Lemma genuine_control log said id flags seq ack bits p :
  classify_control_kind (control_header id flags seq ack bits) <> KindNone ->
  genuine log said (control_header id flags seq ack bits) p.
Proof.
  intros Hk. split; [|done]. unfold message_of, ordered_data.
  by rewrite (bool_decide_eq_false_2 _ Hk).
Qed.

Record sender (log : list (option Message)) (said : list SendRequest) (tx : TxSessionState) : Prop :=
  mk_sender {
  sn_next : next_seq tx = u32 (isn + Z.of_nat (length log));
  sn_inflight : Forall (fun x => genuine_packet log said (te_packet (snd x))) (inflight tx);
  sn_stream : stream said = omap id log ++ stream (pending_send tx);
  sn_pending : Forall (fun r => r ∈ said) (pending_send tx)
}.

Lemma sender_frame log said tx tx' :
  next_seq tx' = next_seq tx -> pending_send tx' = pending_send tx -> inflight tx' = inflight tx ->
  sender log said tx -> sender log said tx'.
Proof. intros E1 E2 E3 []. constructor; by rewrite ?E1, ?E2, ?E3. Qed.

Lemma sender_inflight log said tx m :
  Forall (fun x => genuine_packet log said (te_packet (snd x))) m ->
  sender log said tx -> sender log said (tx <| inflight := m |>).
Proof. intros Hm []. by constructor. Qed.

(** A packet takes the next number. *)
Lemma sender_push log said tx h p q now :
  sender log said tx -> hdr_seq h = next_seq tx ->
  (classify_control_kind h = KindNone -> request_of h p ∈ said) ->
  stream (pending_send tx) = omap id [message_of h p] ++ stream q ->
  Forall (fun r => r ∈ said) q ->
  let entry := new_entry {| op_header := h; op_payload := p |} now in
  let log' := log ++ [message_of h p] in
  sender log' said
    (tx <| pending_send := q |> <| next_seq ::= fun n => u32 (n + 1) |>
        <| inflight ::= smap_emplace (next_seq tx) entry |>) /\
  genuine log' said h p.
Proof.
  intros [Hn Hi Hs Hp] Hseq Hin Hq Hqs. cbn zeta.
  assert (Hl : log `prefix_of` log ++ [message_of h p]) by (by eexists).
  assert (Hg : genuine (log ++ [message_of h p]) said h p).
  { split; [|done]. intros msg E. exists (length log). rewrite Hseq, Hn, E.
    split; [|done]. by apply list_lookup_middle. }
  split; [|done]. constructor.
  - change (u32 (next_seq tx + 1) = u32 (isn + Z.of_nat (length (log ++ [message_of h p])))).
    rewrite Hn, u32_add_l, length_app. f_equal. cbn [length]. lia.
  - apply smap_emplace_Forall; [exact Hg|]. eapply Forall_impl; [exact Hi|].
    intros x. by apply genuine_grows.
  - change (stream said = omap id (log ++ [message_of h p]) ++ stream q).
    by rewrite Hs, Hq, omap_app, <- app_assoc.
  - done.
Qed.

(** A datagram of this sender. *)
Definition honest (log : list (option Message)) (said : list SendRequest) (bs : bytes) : Prop :=
  exists h p, bs = encode h p /\ header_ok h /\ Forall is_u8 p /\ genuine log said h p.

Lemma honest_grows log log' said said' bs :
  log `prefix_of` log' -> (forall r, r ∈ said -> r ∈ said') ->
  honest log said bs -> honest log' said' bs.
Proof.
  intros Hl Hs (h & p & E & Hh & Hp & G). exists h, p. split_and!; try done. by eapply genuine_grows.
Qed.

Lemma honest_bytes log said bs : honest log said bs -> Forall is_u8 bs.
Proof.
  intros (h & p & -> & [Hh _] & Hp & _). rewrite encode_layout. apply Forall_app.
  split; [by apply header_block_bytes|done].
Qed.

(** What a builder returns: the log may grow by the packet that is sent. *)
Definition sends (log : list (option Message)) (said : list SendRequest) (o : option bytes)
    (tx' : TxSessionState) : Prop :=
  exists log', log `prefix_of` log' /\ sender log' said tx' /\
    match o with
    | None => log' = log
    | Some bs => (length log' <= S (length log))%nat /\ honest log' said bs
    end.

Lemma sends_nothing log said tx : sender log said tx -> sends log said None tx.
Proof. intros H. by exists log. Qed.

Lemma sends_frame log said o tx tx' :
  next_seq tx' = next_seq tx -> pending_send tx' = pending_send tx -> inflight tx' = inflight tx ->
  sends log said o tx -> sends log said o tx'.
Proof.
  intros E1 E2 E3 (log' & H1 & H2 & H3). exists log'. split; [done|]. split; [|done].
  by eapply sender_frame.
Qed.

Lemma sends_unnumbered log said tx h p :
  sender log said tx -> header_ok h -> Forall is_u8 p -> genuine log said h p ->
  sends log said (Some (encode h p)) tx.
Proof. intros. exists log. split_and!; [done|done|lia|]. by exists h, p. Qed.

Context (cfg : TransportSettings) (Hcfg : settings_typed cfg).
Context (now conn_id : Z) (rx : RxSessionState).
Context (Hnow : is_u64 now) (Hid : is_u32 conn_id).
Context (Hack : is_u32 (next_expected rx)) (Hbits : is_u64 (received_bits rx)).

Lemma build_control_sends log said flags tx o tx' :
  valid_flags flags -> flags ∈ TxInvariant.control_flags -> tx_ok cfg tx -> sender log said tx ->
  build_control_packet now conn_id flags rx tx = (o, tx') -> sends log said o tx'.
Proof.
  intros Hv Hf Htx Hs. unfold build_control_packet.
  set (header n := control_header conn_id flags n (next_expected rx) (received_bits rx)).
  assert (Hk : forall n, classify_control_kind (header n) <> KindNone).
  { intros n. unfold TxInvariant.control_flags in Hf.
    rewrite classify_control_kind_flags. cbn [hdr_flags header control_header].
    repeat (apply elem_of_cons in Hf as [-> |Hf]; [vm_compute; discriminate|]).
    set_solver. }
  destruct (consumes_reliable_seq flags) eqn:Ec; cbn [andb negb].
  - destruct (reliable_window_full tx); [intros [= <- <-]; by apply sends_nothing|].
    intros [= <- <-]. change (encode _ []) with (encode (header (next_seq tx)) []).
    assert (Hm : message_of (header (next_seq tx)) [] = None)
      by (unfold message_of, ordered_data; by rewrite (bool_decide_eq_false_2 _ (Hk _))).
    destruct (sender_push log said tx (header (next_seq tx)) [] (pending_send tx) now Hs eq_refl)
      as [H1 H2]; [intros E; by destruct (Hk _ E)|by rewrite Hm|apply Hs|].
    eexists. split; [by eexists|]. split; [eapply sender_frame, H1; done|].
    split; [rewrite length_app; cbn [length]; lia|]. eexists _, _. split; [done|].
    split; [|done]. apply control_header_ok; try done. apply Htx.
  - intros [= <- <-]. apply (sends_unnumbered _ _ _ (header 0) []); [done| |done|].
    + apply control_header_ok; auto with rudp.
    + apply genuine_control, (Hk 0).
Qed.

Lemma try_build_handshake_sends log said role cs tx o cs' tx' :
  tx_ok cfg tx -> sender log said tx ->
  try_build_handshake cfg now role conn_id cs rx tx = (o, cs', tx') -> sends log said o tx'.
Proof.
  intros Htx Hs. unfold try_build_handshake.
  assert (Hstep : forall flags (g : TxSessionState -> TxSessionState),
    flags ∈ TxInvariant.control_flags -> valid_flags flags ->
    (forall tx1, next_seq (g tx1) = next_seq tx1 /\ pending_send (g tx1) = pending_send tx1 /\
       inflight (g tx1) = inflight tx1) ->
    (let '(packet, tx1) := build_control_packet now conn_id flags rx tx in
     match packet with
     | Some _ => (packet, cs, g tx1)
     | None => (None, cs, tx1)
     end) = (o, cs', tx') -> sends log said o tx').
  { intros flags g Hin Hv Hg.
    destruct (build_control_packet now conn_id flags rx tx) as [o1 tx1] eqn:E.
    apply (build_control_sends log said) in E; [|done..].
    destruct (Hg tx1) as (G1 & G2 & G3).
    destruct o1; intros [= <- <- <-]; [|done]. by eapply sends_frame. }
  destruct (bool_decide (role = Client) && bool_decide (cs = Closed)).
  { destruct (build_control_packet _ _ _ _ _) as [o1 tx1] eqn:E. intros [= <- <- <-].
    apply (build_control_sends log said) in E; auto with rudp. unfold TxInvariant.control_flags. set_solver. }
  destruct (syn_ack_pending tx && _).
  { apply (Hstep _ (fun tx1 => tx1 <| syn_ack_pending := false |>)); auto with rudp.
    unfold TxInvariant.control_flags. set_solver. }
  destruct (final_ack_pending tx && _).
  { apply (Hstep _ (fun tx1 => tx1 <| final_ack_pending := false |>
      <| final_ack_linger_until_ms := u64 (now + handshake_linger_ms cfg) |>)); auto with rudp.
    unfold TxInvariant.control_flags. set_solver. }
  destruct (fin_pending tx && _).
  { apply (Hstep _ (fun tx1 => tx1 <| fin_pending := false |>)); auto with rudp.
    unfold TxInvariant.control_flags. set_solver. }
  intros [= <- <- <-]. by apply sends_nothing.
Qed.

(** Retransmission: the log does not change. *)
Lemma try_build_retransmit_sends log said tx r tx' :
  tx_ok cfg tx -> sender log said tx ->
  try_build_retransmit cfg now rx tx = (r, tx') -> sends log said (poll_datagram r) tx'.
Proof.
  intros Htx Hs. unfold try_build_retransmit.
  destruct (retransmit_loop cfg now rx (inflight tx)) as [r1 m] eqn:E. intros [= <- <-].
  pose proof (sn_inflight _ _ _ Hs) as Hi. pose proof (to_entries _ _ Htx) as He.
  apply retransmit_loop_cases in E
    as [(-> & -> & _)|(m1 & k & e & m2 & Hm & _ & [(_ & -> & ->)|(_ & _ & -> & ->)])].
  - apply sends_nothing. by apply sender_inflight.
  - rewrite Hm in Hi. apply Forall_app in Hi as [H1 [_ H2]%Forall_cons].
    apply sends_nothing, sender_inflight; [by apply Forall_app|done].
  - rewrite Hm in Hi, He. apply Forall_app in Hi as [H1 [H H2]%Forall_cons].
    apply Forall_app in He as [_ [He _]%Forall_cons]. cbn [snd] in H.
    apply sends_unnumbered; [|apply header_ok_set_acks; [done..|apply He]|apply He|exact H].
    apply sender_inflight; [|done]. apply Forall_app. split; [done|]. by constructor.
Qed.

Lemma try_build_probe_lane_sends log said tx o tx' :
  sender log said tx -> try_build_probe_lane conn_id rx tx = (o, tx') -> sends log said o tx'.
Proof.
  intros Hs. unfold try_build_probe_lane.
  assert (Hstep : forall flag g, classify_control_kind (control_header conn_id (flag_bits flag) 0
      (next_expected rx) (received_bits rx)) <> KindNone ->
    sends log said (Some (encode (control_header conn_id (flag_bits flag) 0
      (next_expected rx) (received_bits rx)) [])) (tx <| probe ::= g |>)).
  { intros flag g Hk. apply sends_unnumbered; [by eapply sender_frame; [..|exact Hs]| |done|apply genuine_control].
    - apply control_header_ok; auto with rudp.
    - exact Hk. }
  destruct (pong_pending (probe tx)); [|destruct (ping_pending (probe tx)); cbn [negb]];
    intros [= <- <-]; [by apply (Hstep FlagPong)|by apply (Hstep FlagPing)|by apply sends_nothing].
Qed.

Lemma try_build_ack_only_sends log said tx o tx' :
  sender log said tx -> try_build_ack_only conn_id rx tx = (o, tx') -> sends log said o tx'.
Proof.
  intros Hs. unfold try_build_ack_only. destruct (ack_only_pending tx); cbn [negb];
    intros [= <- <-]; [|by apply sends_nothing].
  apply (sends_unnumbered log said _ (control_header conn_id (flag_bits FlagAck) 0
    (next_expected rx) (received_bits rx)) []); [by eapply sender_frame; [..|exact Hs]| |done|apply genuine_control].
  - apply control_header_ok; auto with rudp.
  - discriminate.
Qed.

Lemma try_build_fresh_sends log said tx o tx' :
  tx_ok cfg tx -> sender log said tx ->
  try_build_fresh now conn_id rx tx = (o, tx') -> sends log said o tx'.
Proof.
  intros Htx Hs E. pose proof (to_pending _ _ Htx) as Hreq. destruct Hs as [Hn Hi Hst Hp].
  revert E. unfold try_build_fresh, make_packet_from_request.
  destruct (pending_send tx) as [|req rest] eqn:Ep.
  { intros [= <- <-]. apply sends_nothing. constructor; by rewrite ?Ep. }
  apply Forall_cons in Hreq as [Hreq _]. apply Forall_cons in Hp as [Hin Hp].
  assert (Hs : sender log said tx) by (constructor; rewrite ?Ep; [done..|by constructor]).
  set (h n := {| hdr_conn_id := conn_id; hdr_seq := n; hdr_ack := next_expected rx;
         hdr_ack_bits := received_bits rx; hdr_channel_id := req_channel_id req;
         hdr_channel_type := req_channel_type req; hdr_flags := 0;
         hdr_header_len := kHeaderLength; hdr_reserved := 0 |}).
  assert (Hr : forall n, request_of (h n) (req_payload req) = req) by (intros; by destruct req).
  assert (Hh : forall n, is_u32 n -> header_ok (h n))
    by (intros n Hn'; eapply (request_packet_ok conn_id rx); done).
  assert (Hm : forall n, message_of (h n) (req_payload req) = requested req) by done.
  destruct (isReliableChannel (req_channel_type req)) eqn:Er; cbn [andb].
  - change (reliable_window_full (tx <| pending_send := rest |>)) with (reliable_window_full tx).
    destruct (reliable_window_full tx).
    { intros [= <- <-]. apply sends_nothing.
      by eapply sender_frame; [..|exact Hs]; [|by rewrite Ep|]. }
    intros [= <- <-]. change (sends log said (Some (encode (h (next_seq tx)) (req_payload req)))
      (tx <| pending_send := rest |> <| next_seq ::= fun n => u32 (n + 1) |>
          <| inflight ::= smap_emplace (next_seq tx) (new_entry {| op_header := h (next_seq tx);
               op_payload := req_payload req |} now) |>)).
    destruct (sender_push log said tx (h (next_seq tx)) (req_payload req) rest now Hs eq_refl)
      as [H1 H2]; [by rewrite Hr| |done|].
    { rewrite Ep, Hm. unfold stream. cbn. by destruct (requested req). }
    eexists. split; [by eexists|]. split; [exact H1|].
    split; [rewrite length_app; cbn [length]; lia|]. eexists _, _. split; [done|].
    split; [apply Hh, Htx|]. split; [apply Hreq|done].
  - intros [= <- <-]. change (sends log said (Some (encode (h 0) (req_payload req)))
      (tx <| pending_send := rest |>)).
    assert (Hnone : requested req = None).
    { unfold requested. rewrite bool_decide_eq_false_2; [done|]. intros E. by rewrite E in Er. }
    apply sends_unnumbered; [|apply Hh; auto with rudp|apply Hreq|].
    + constructor; try done. rewrite Hst. unfold stream. cbn. by rewrite Hnone.
    + split; [by rewrite Hm, Hnone|]. by rewrite Hr.
Qed.

Lemma poll_sends log said role cs tx r cs' tx' :
  tx_ok cfg tx -> sender log said tx -> poll cfg now role conn_id cs rx tx = (r, cs', tx') ->
  sends log said (poll_datagram r) tx'.
Proof.
  intros Htx Hs. unfold poll.
  assert (Hnone : forall tx1, sends log said None tx1 -> sender log said tx1).
  { by intros tx1 (log' & _ & H & ->). }
  destruct (try_build_handshake _ _ _ _ _ _ _) as [[o1 cs1] tx1] eqn:E1.
  pose proof (try_build_handshake_sends log said _ _ _ _ _ _ Htx Hs E1) as H1.
  eapply try_build_handshake_ok in E1 as (T1 & _ & _); [|done..].
  destruct o1 as [bs1|]; cbn [has_value]; [by intros [= <- <- <-]|]. apply Hnone in H1.
  destruct (try_build_retransmit _ _ _ _) as [r2 tx2] eqn:E2.
  pose proof (try_build_retransmit_sends log said _ _ _ T1 H1 E2) as H2.
  eapply try_build_retransmit_ok in E2 as [T2 _]; [|done..].
  destruct (poll_fatal_error r2 || has_value (poll_datagram r2)) eqn:Er; [by intros [= <- <- <-]|].
  apply orb_false_iff in Er as [_ Er]. destruct (poll_datagram r2); [done|]. apply Hnone in H2.
  destruct (try_build_probe_lane _ _ _) as [o3 tx3] eqn:E3.
  pose proof (try_build_probe_lane_sends log said _ _ _ H2 E3) as H3.
  eapply (try_build_probe_lane_ok cfg) in E3 as [T3 _]; [|done..].
  destruct o3 as [bs3|]; cbn [has_value]; [by intros [= <- <- <-]|]. apply Hnone in H3.
  destruct (try_build_ack_only _ _ _) as [o4 tx4] eqn:E4.
  pose proof (try_build_ack_only_sends log said _ _ _ H3 E4) as H4.
  eapply (try_build_ack_only_ok cfg) in E4 as [T4 _]; [|done..].
  destruct o4 as [bs4|]; cbn [has_value]; [by intros [= <- <- <-]|]. apply Hnone in H4.
  destruct (try_build_fresh _ _ _ _) as [o5 tx5] eqn:E5.
  pose proof (try_build_fresh_sends log said _ _ _ T4 H4 E5) as H5.
  by destruct o5; cbn [has_value]; intros [= <- <- <-].
Qed.
End log.

(** ** The receiving side *)

Section receiver.
Context (isn : Z).

Definition buffered (log : list (option Message)) (said : list SendRequest) (x : Z * OwnedPacket)
    : Prop :=
  hdr_channel_type (op_header (snd x)) = ReliableOrdered /\
  numbered isn log (fst x) (hdr_channel_id (op_header (snd x)), op_payload (snd x)) /\
  request_of (op_header (snd x)) (op_payload (snd x)) ∈ said.

(** The ordered messages among [got], all that was delivered so far, are a
    contiguous piece of the log, and the next number is the one after it. *)
Definition in_stream (log : list (option Message)) (got : list SendRequest) (rx : RxSessionState)
    : Prop :=
  if ordered_delivery_started rx then
    exists pre post, log = pre ++ map Some (stream got) ++ post /\
      next_ordered_delivery rx = u32 (isn + Z.of_nat (length pre + length (stream got)))
  else stream got = [].

Record receiver (log : list (option Message)) (said got : list SendRequest) (rx : RxSessionState)
    : Prop := mk_receiver {
  rc_buffer : Forall (buffered log said) (ordered_reorder_buffer rx);
  rc_stream : in_stream log (got ++ data_events (pending_events rx)) rx;
  rc_known : Forall (fun r => r ∈ said) (got ++ data_events (pending_events rx))
}.

Lemma receiver_grows log log' said said' got rx :
  log `prefix_of` log' -> (forall r, r ∈ said -> r ∈ said') ->
  receiver log said got rx -> receiver log' said' got rx.
Proof.
  intros [ext ->] Hs [Hb Hst Hk]. constructor.
  - eapply Forall_impl; [exact Hb|]. intros x (H1 & H2 & H3). split_and!; [done| |auto].
    by eapply numbered_prefix; [eexists|].
  - unfold in_stream in *. case_match; [|done]. destruct Hst as (pre & post & -> & ->).
    exists pre, (post ++ ext). by rewrite <- !app_assoc.
  - by eapply Forall_impl.
Qed.

(** Only these four fields matter. *)
Lemma receiver_frame log said got rx rx' :
  ordered_reorder_buffer rx' = ordered_reorder_buffer rx ->
  next_ordered_delivery rx' = next_ordered_delivery rx ->
  ordered_delivery_started rx' = ordered_delivery_started rx ->
  data_events (pending_events rx') = data_events (pending_events rx) ->
  receiver log said got rx -> receiver log said got rx'.
Proof.
  intros E1 E2 E3 E4 [H1 H2 H3]. constructor; rewrite ?E1, ?E4; [done| |done].
  unfold in_stream in *. by rewrite E2, E3.
Qed.

(** Data of another channel type is handed over at once. *)
Lemma receiver_other log said got packet rx rx' :
  hdr_channel_type (pv_header packet) <> ReliableOrdered ->
  request_of (pv_header packet) (pv_payload packet) ∈ said ->
  ordered_reorder_buffer rx' = ordered_reorder_buffer rx ->
  next_ordered_delivery rx' = next_ordered_delivery rx ->
  ordered_delivery_started rx' = ordered_delivery_started rx ->
  pending_events rx' = pending_events rx ++ [make_data_event packet] ->
  receiver log said got rx -> receiver log said got rx'.
Proof.
  intros Hne Hin E1 E2 E3 E4 [H1 H2 H3].
  assert (Ed : got ++ data_events (pending_events rx') =
    (got ++ data_events (pending_events rx)) ++ [request_of (pv_header packet) (pv_payload packet)]).
  { by rewrite E4, data_events_app, <- app_assoc. }
  constructor; rewrite ?E1, ?Ed; [done| |apply Forall_app; by repeat constructor].
  assert (Es : stream ((got ++ data_events (pending_events rx)) ++
      [request_of (pv_header packet) (pv_payload packet)]) =
    stream (got ++ data_events (pending_events rx))).
  { rewrite (stream_app _ [_]). unfold stream at 2, requested. cbn.
    rewrite bool_decide_eq_false_2 by done. apply app_nil_r. }
  unfold in_stream in *. by rewrite E2, E3, Es.
Qed.

Lemma offset_inj n a b :
  0 <= a < 2 ^ 32 -> 0 <= b < 2 ^ 32 -> u32 (n + a) = u32 (n + b) -> a = b.
Proof. intros. word_lia. Qed.

(** What leaves the reorder buffer continues the stream. *)
Lemma ordered_run_stream log said buf n evs buf' n' pre got post :
  ordered_run buf n evs buf' n' -> Z.of_nat (length log) < 2 ^ 32 ->
  Forall (buffered log said) buf -> log = pre ++ map Some (stream got) ++ post ->
  n = u32 (isn + Z.of_nat (length pre + length (stream got))) ->
  Forall (buffered log said) buf' /\ Forall (fun r => r ∈ said) (data_events evs) /\
  (exists post', log = pre ++ map Some (stream (got ++ data_events evs)) ++ post') /\
  n' = u32 (isn + Z.of_nat (length pre + length (stream (got ++ data_events evs)))).
Proof.
  intros Hrun Hlen. revert got post.
  induction Hrun as [buf n Hn|buf n p evs buf' n' Hf Hr IH]; intros got post Hb El En.
  { cbn. rewrite app_nil_r. split_and!; [done|done|by exists post|done]. }
  apply smap_find_Some_in in Hf. pose proof Hb as Hb0. rewrite Forall_forall in Hb0.
  destruct (Hb0 _ Hf) as (Ht & (k & Hk & Enk) & Hin). cbn [fst snd] in *. clear Hb0.
  assert (Ll : (length pre + length (stream got) + length post = length log)%nat).
  { rewrite El, !length_app, length_map. lia. }
  pose proof (lookup_lt_Some _ _ _ Hk) as Hlt.
  assert (Ek : k = (length pre + length (stream got))%nat).
  { apply Nat2Z.inj, (offset_inj isn); [lia..|congruence]. }
  assert (Hpost : exists post', post = Some (hdr_channel_id (op_header p), op_payload p) :: post').
  { rewrite El, lookup_app_r in Hk by lia.
    rewrite lookup_app_r in Hk by (rewrite length_map; lia).
    rewrite length_map, Ek in Hk. replace (_ - _ - _)%nat with 0%nat in Hk by lia.
    destruct post as [|x post]; [done|]. injection Hk as ->. by exists post. }
  destruct Hpost as [post' ->]. set (r := request_of (op_header p) (op_payload p)).
  assert (Es : stream (got ++ [r]) = stream got ++ [(hdr_channel_id (op_header p), op_payload p)]).
  { rewrite stream_app. f_equal. unfold stream, requested, r. cbn.
    by rewrite bool_decide_eq_true_2. }
  destruct (IH (got ++ [r]) post') as (H1 & H2 & H3 & H4).
  - by apply smap_erase_Forall.
  - rewrite El, Es, map_app, <- !app_assoc. done.
  - rewrite En, u32_add_l, Es, length_app. f_equal. cbn [length]. lia.
  - change (data_events (owned_event p :: evs)) with (r :: data_events evs).
    rewrite <- app_assoc in H3, H4. split_and!; [done|by constructor|done|done].
Qed.

Lemma handle_reliable_ordered_receiver log said got packet rx :
  Z.of_nat (length log) < 2 ^ 32 -> hdr_channel_type (pv_header packet) = ReliableOrdered ->
  classify_control_kind (pv_header packet) = KindNone ->
  genuine isn log said (pv_header packet) (pv_payload packet) ->
  receiver log said got rx -> receiver log said got (handle_reliable_ordered packet rx).
Proof.
  intros Hlen Ht Hk [Hn Hin] [Hb Hst Hkn]. specialize (Hin Hk).
  assert (Hnum : numbered isn log (hdr_seq (pv_header packet))
    (hdr_channel_id (pv_header packet), pv_payload packet)).
  { apply Hn. unfold message_of, ordered_data. by rewrite !bool_decide_eq_true_2. }
  destruct (handle_reliable_ordered_run packet rx) as (evs & buf' & n' & Hrun & ->).
  assert (Hstart : exists pre post,
    log = pre ++ map Some (stream (got ++ data_events (pending_events rx))) ++ post /\
    ordered_front packet rx = u32 (isn + Z.of_nat (length pre +
      length (stream (got ++ data_events (pending_events rx)))))).
  { unfold in_stream, ordered_front in *. destruct (ordered_delivery_started rx); [exact Hst|].
    destruct Hnum as (k & Hk' & ->). exists (take k log), (drop k log). rewrite Hst. cbn [map app].
    split; [by rewrite take_drop|]. apply lookup_lt_Some in Hk'.
    rewrite length_take_le by lia. by rewrite Nat.add_0_r. }
  destruct Hstart as (pre & post & El & Ef).
  destruct (ordered_run_stream log said _ _ _ _ _ pre (got ++ data_events (pending_events rx)) post Hrun Hlen)
    as (H1 & H2 & (post' & H3) & H4); [|exact El|exact Ef|].
  { by apply smap_assign_Forall. }
  set (rx' := set next_ordered_delivery _ _).
  assert (E : ordered_reorder_buffer rx' = buf' /\ next_ordered_delivery rx' = n' /\
    ordered_delivery_started rx' = true /\ pending_events rx' = pending_events rx ++ evs) by done.
  clearbody rx'. destruct E as (E1 & E2 & E3 & E4).
  constructor; unfold in_stream; rewrite ?E1, ?E2, ?E3, ?E4, ?data_events_app, ?app_assoc.
  - done.
  - by exists pre, post'.
  - by apply Forall_app.
Qed.

(** The acknowledgement bookkeeping does not touch delivery. *)
Lemma update_receiver log said got packet kind rx :
  receiver log said got rx ->
  receiver log said got (snd (update_reliable_receive_state packet kind rx)).
Proof.
  intros Hr. unfold update_reliable_receive_state, advance_receive_window, advance_loop. cbn zeta.
  assert (Hn : forall f rx, receiver log said got rx -> receiver log said got (rx <| next_expected ::= f |>))
    by (intros f rx0; by apply receiver_frame).
  assert (Hb : forall f rx, receiver log said got rx -> receiver log said got (rx <| received_bits ::= f |>))
    by (intros f rx0; by apply receiver_frame).
  case_match; [done|]. set (rx1 := if next_expected rx =? 0 then _ else rx).
  assert (H1 : receiver log said got rx1) by (subst rx1; case_match; [by apply Hn|done]).
  clearbody rx1. repeat case_match; cbn [snd]; try done; [|by apply Hb].
  apply iter_while_inv; [|by apply Hn]. intros rx2 H2 _. by apply Hb, Hn.
Qed.

Lemma on_packet_receiver log said got packet kind rx :
  Z.of_nat (length log) < 2 ^ 32 ->
  kind = classify_control_kind (pv_header packet) ->
  genuine isn log said (pv_header packet) (pv_payload packet) ->
  receiver log said got rx -> receiver log said got (snd (on_packet packet kind rx)).
Proof.
  intros Hlen Hk Hg Hr. unfold on_packet.
  pose proof (update_receiver log said got packet kind rx Hr) as H1.
  destruct (update_reliable_receive_state packet kind rx) as [[d a] rx1]. cbn [snd] in *.
  destruct (is_control_only kind || negb d) eqn:Ec; [done|]. cbn [snd].
  assert (Hnone : classify_control_kind (pv_header packet) = KindNone).
  { unfold is_control_only in Ec. rewrite <- Hk.
    destruct (bool_decide_reflect (kind = KindNone)); [done|discriminate Ec]. }
  pose proof (proj2 Hg Hnone) as Hin.
  destruct (hdr_channel_type (pv_header packet)) eqn:Et.
  - by apply handle_reliable_ordered_receiver.
  - by apply (receiver_other log said got packet rx1); rewrite ?Et.
  - by apply (receiver_other log said got packet rx1); rewrite ?Et.
  - unfold handle_monotonic_state. cbn zeta.
    repeat case_match; try done; by apply (receiver_other log said got packet rx1); rewrite ?Et.
  - done.
Qed.

(** Events of the connection itself are not data. *)
Lemma receiver_control log said got ty packet message rx :
  ty <> DataReceived -> receiver log said got rx ->
  receiver log said got (emit_control_event ty packet message rx).
Proof.
  intros Ht. apply receiver_frame; try done.
  etransitivity; [apply (data_events_app (pending_events rx))|].
  unfold data_events at 2, is_data. cbn. rewrite bool_decide_eq_false_2 by done. apply app_nil_r.
Qed.

Lemma receiver_error log said got message rx :
  receiver log said got rx -> receiver log said got (emit_local_error message rx).
Proof.
  apply receiver_frame; try done.
  etransitivity; [apply (data_events_app (pending_events rx))|]. apply app_nil_r.
Qed.
End receiver.

(** ** Sessions *)

Section session.
Context (cfg : TransportSettings) (Hcfg : settings_typed cfg).

Lemma on_remote_ack_sender isn log said ack bits tx :
  sender isn log said tx -> sender isn log said (fst (on_remote_ack cfg ack bits tx)).
Proof.
  intros Hs. unfold on_remote_ack, erase_acknowledged_inflight.
  rewrite erase_acknowledged_loop_spec. cbn [fst].
  set (tx1 := set inflight _ _).
  assert (H1 : sender isn log said tx1).
  { apply (sender_inflight isn log said); [|revert Hs; by apply sender_frame]. cbn.
    apply Forall_forall. intros x Hx. apply list_elem_of_In, List.filter_In in Hx as [Hx _].
    apply list_elem_of_In in Hx. revert x Hx. apply Forall_forall, Hs. }
  clearbody tx1. unfold mark_gap_fast_retransmit_candidates. case_match; [done|].
  apply sender_inflight; [|done]. unfold gap_loop.
  apply (iter_while_inv _ _ (fun s => Forall (fun x => genuine_packet isn log said (te_packet (snd x)))
    (snd s))); [|apply H1].
  intros [n m] Hm _. cbn [snd fst] in *. unfold mark_gap_at. repeat case_match; try done.
  apply smap_alter_Forall; [|done]. intros v Hv. cbn [snd] in *. unfold add_gap_evidence.
  by case_match.
Qed.

(** A change of flags only. *)
Ltac sender_flag := repeat case_match; try done; by apply sender_frame.

Lemma handle_probe_receive_sender isn log said kind now s :
  sender isn log said (st_tx s) -> sender isn log said (st_tx (handle_probe_receive kind now s)).
Proof. unfold handle_probe_receive. sender_flag. Qed.

Lemma apply_connection_decision_sender isn log said packet d s :
  sender isn log said (st_tx s) -> sender isn log said (st_tx (apply_connection_decision packet d s)).
Proof.
  unfold apply_connection_decision, apply_next_state. cbn zeta. repeat case_match; by apply sender_frame.
Qed.

Lemma on_decoded_sender isn log said pv size now s :
  sender isn log said (st_tx s) -> sender isn log said (st_tx (on_decoded cfg pv size now s)).
Proof.
  intros Hs. unfold on_decoded. cbn zeta. set (k := classify_control_kind _).
  set (s1 := if should_adopt_server_conn_id _ _ _ then _ else _).
  assert (H1 : sender isn log said (st_tx s1)) by (subst s1; by case_match). clearbody s1.
  case_match; [done|]. case_match.
  { unfold schedule_final_ack_during_linger. revert H1. sender_flag. }
  apply (handle_probe_receive_sender isn log said k now) in H1.
  set (s2 := handle_probe_receive k now s1) in *. clearbody s2.
  assert (H2 : sender isn log said (fst (apply_remote_ack cfg (pv_header pv) k (st_tx s2)))).
  { unfold apply_remote_ack. case_match; [done|]. by apply on_remote_ack_sender. }
  destruct (apply_remote_ack _ _ _ _) as [tx fin]. cbn [fst] in H2.
  set (s4 := if should_close_after_fin_acknowledgement _ _ then _ else _).
  assert (H4 : sender isn log said (st_tx s4)) by (subst s4; by case_match). clearbody s4.
  set (d := decide_connection_transition _ _ _).
  apply (apply_connection_decision_sender isn log said pv d) in H4.
  set (s5 := apply_connection_decision pv d s4) in *. clearbody s5.
  destruct (on_packet pv k (st_rx s5)) as [ack rx].
  unfold schedule_receive_side_ack, update_post_receive_liveness.
  revert H4. repeat case_match; by apply sender_frame.
Qed.

Lemma apply_connection_decision_receiver isn log said got packet d s :
  receiver isn log said got (st_rx s) ->
  receiver isn log said got (st_rx (apply_connection_decision packet d s)).
Proof.
  intros H. unfold apply_connection_decision, apply_next_state, emit_connection_decision_events. cbn zeta.
  repeat case_match; cbn; repeat (apply receiver_control; [done|]); done.
Qed.

Lemma on_decoded_receiver isn log said got pv size now s :
  Z.of_nat (length log) < 2 ^ 32 -> genuine isn log said (pv_header pv) (pv_payload pv) ->
  receiver isn log said got (st_rx s) ->
  receiver isn log said got (st_rx (on_decoded cfg pv size now s)).
Proof.
  intros Hlen Hg Hr. unfold on_decoded. cbn zeta. set (k := classify_control_kind _).
  set (s1 := if should_adopt_server_conn_id _ _ _ then _ else _).
  assert (H1 : receiver isn log said got (st_rx s1)) by (subst s1; by case_match). clearbody s1.
  case_match; [by apply receiver_error|]. case_match.
  { unfold schedule_final_ack_during_linger. by case_match. }
  set (s2 := handle_probe_receive k now s1).
  assert (H2 : receiver isn log said got (st_rx s2))
    by (subst s2; unfold handle_probe_receive; by repeat case_match). clearbody s2.
  destruct (apply_remote_ack _ _ _ _) as [tx fin].
  set (s4 := if should_close_after_fin_acknowledgement _ _ then _ else _).
  assert (H4 : receiver isn log said got (st_rx s4))
    by (subst s4; case_match; [by apply receiver_control|done]). clearbody s4.
  set (d := decide_connection_transition _ _ _).
  apply (apply_connection_decision_receiver isn log said got pv d) in H4.
  set (s5 := apply_connection_decision pv d s4) in *. clearbody s5.
  pose proof (on_packet_receiver isn log said got pv k (st_rx s5) Hlen eq_refl Hg H4) as H5.
  destruct (on_packet pv k (st_rx s5)) as [ack rx]. cbn [snd] in H5.
  unfold schedule_receive_side_ack, update_post_receive_liveness. by repeat case_match.
Qed.

(** A poll, and what it means for the two sides of the session. *)
Lemma poll_tx_sends_log isn log said t s :
  session_ok cfg s -> is_u64 t -> sender isn log said (st_tx s) ->
  sends isn log said (fst (poll_tx cfg t s)) (st_tx (snd (poll_tx cfg t s))).
Proof.
  intros Hs Ht Hsn. unfold poll_tx. case_match; [by apply sends_nothing|].
  pose proof (schedule_pending_tx_work_ok cfg t s Hs) as H1.
  set (s1 := schedule_pending_tx_work cfg t s) in *.
  assert (Hsn1 : sender isn log said (st_tx s1)).
  { subst s1. unfold schedule_pending_tx_work. revert Hsn. sender_flag. }
  clearbody s1. destruct (poll _ _ _ _ _ _ _) as [[r cs] tx] eqn:E.
  pose proof H1 as [Htx1 [] Hid1 _].
  destruct (poll_ok cfg Hcfg t _ _ Ht Hid1 ro_next ro_bits _ _ _ _ _ _ Htx1 E) as (_ & _ & Hfatal & _).
  pose proof (poll_sends isn cfg Hcfg t _ _ Ht Hid1 ro_next ro_bits log said _ _ _ _ _ _ Htx1 Hsn1 E)
    as Hsend.
  destruct (poll_fatal_error r); cbn [fst snd]; [by rewrite (Hfatal eq_refl) in Hsend|].
  destruct (poll_datagram r) as [bs|]; [|done]. revert Hsend. apply sends_frame;
    unfold apply_outbound_result, update_outbound_probe_state, clear_outbound_ack_state;
    by repeat case_match.
Qed.

Lemma poll_tx_receiver isn log said got t s :
  receiver isn log said got (st_rx s) -> receiver isn log said got (st_rx (snd (poll_tx cfg t s))).
Proof.
  intros Hr. unfold poll_tx. case_match; [by apply receiver_error|].
  set (s1 := schedule_pending_tx_work cfg t s).
  assert (H1 : receiver isn log said got (st_rx s1))
    by (subst s1; unfold schedule_pending_tx_work; by repeat case_match). clearbody s1.
  destruct (poll _ _ _ _ _ _ _) as [[r cs] tx]. case_match; cbn [snd]; [by apply receiver_error|].
  unfold apply_outbound_result, clear_outbound_ack_state, record_outbound_stats,
    update_outbound_probe_state. by repeat case_match.
Qed.
End session.
