(* ===== verification/Stream.v ===== *)
(** Two sessions on an arbitrary network: every datagram that one side has ever
    sent may be lost, delayed, repeated and reordered at will, and any number of
    packets is in flight. What the receiving application is given is then still
    what the sending one said: each delivered message is one of the messages of the
    peer, and reliable-ordered data arrives as one contiguous piece of the stream.
    That piece need not start at the beginning, which the second property shows. *)

From S2P Require Import Prelude StdMap Protocol Utils Codec Config SessionTypes.
From S2P Require Import ConnectionStateMachine TxHandler TxInvariant RxHandler RxInvariant.
From S2P Require Import Session SessionInvariant SessionLifecycle Handshake DataTransfer.
From S2P Require Import ReliableTransfer StreamLog.

(** ** One end of the connection *)

(** The calls of a session, with the ghost history of the end: everything the
    application said, everything it was given by [drain_events], and every datagram
    that was sent. *)
Record End := mkEnd {
  e_state : SessionState;
  e_said : list SendRequest;
  e_got : list SendRequest;
  e_sent : list bytes
}.

Definition option_list {A} (o : option A) : list A := match o with Some a => [a] | None => [] end.

(** Everything this end has been given, with the events that wait to be drained. *)
Definition all_received (e : End) : list SendRequest :=
  e_got e ++ data_events (pending_events (st_rx (e_state e))).

(** [inbox]: the datagrams that may arrive. A datagram that does not decode may
    come from anywhere. *)
Inductive end_step (cfg : TransportSettings) (inbox : list bytes) (e : End) : End -> Prop :=
| end_say id ty payload :
    is_u32 id -> channel_named ty -> Forall is_u8 payload ->
    end_step cfg inbox e (mkEnd (queue_send id ty payload (e_state e))
      (e_said e ++ [{| req_channel_id := id; req_channel_type := ty; req_payload := payload |}])
      (e_got e) (e_sent e))
| end_poll t :
    is_u64 t ->
    end_step cfg inbox e (mkEnd (snd (poll_tx cfg t (e_state e))) (e_said e) (e_got e)
      (e_sent e ++ option_list (fst (poll_tx cfg t (e_state e)))))
| end_receive bs t :
    bs ∈ inbox \/ (Forall is_u8 bs /\ decode bs = None) ->
    end_step cfg inbox e (mkEnd (on_datagram_received cfg bs t (e_state e)) (e_said e) (e_got e)
      (e_sent e))
| end_close :
    end_step cfg inbox e (mkEnd (request_close (e_state e)) (e_said e) (e_got e) (e_sent e))
| end_drain :
    end_step cfg inbox e (mkEnd (snd (drain_events (e_state e))) (e_said e)
      (e_got e ++ data_events (fst (drain_events (e_state e)))) (e_sent e)).

(** The send side of an end: [isn] is its initial number. *)
Record end_sends (cfg : TransportSettings) (isn : Z) (log : list (option Message)) (e : End) : Prop :=
  mk_end_sends {
  es_ok : session_ok cfg (e_state e);
  es_sender : sender isn log (e_said e) (st_tx (e_state e));
  es_length : (length log <= length (e_sent e))%nat;
  es_honest : Forall (honest isn log (e_said e)) (e_sent e)
}.

Section ends.
Context (cfg : TransportSettings) (Hcfg : settings_typed cfg).

(** What holds of an end, and of the log of its own numbers. *)
Lemma end_step_sends isn log inbox e e' :
  Forall (Forall is_u8) inbox -> end_sends cfg isn log e -> end_step cfg inbox e e' ->
  exists log', log `prefix_of` log' /\ end_sends cfg isn log' e' /\
    (forall r, r ∈ e_said e -> r ∈ e_said e').
Proof.
  intros Hbox [Hok Hs Hl Hg] Hstep. destruct Hstep as [id ty payload H1 H2 H3|t Ht|bs t Hb| |].
  - set (r := {| req_channel_id := id; req_channel_type := ty; req_payload := payload |}).
    assert (Hsub : forall x, x ∈ e_said e -> x ∈ e_said e ++ [r]) by set_solver.
    exists log. split; [done|]. split; [|done]. constructor; cbn [e_state e_said e_sent].
    + by apply queue_send_ok.
    + destruct Hs as [N I St P]. constructor; cbn.
      * done.
      * eapply Forall_impl; [exact I|]. intros x. by apply genuine_grows.
      * rewrite !stream_app, St. by rewrite <- app_assoc.
      * apply Forall_app. split; [by eapply Forall_impl|]. repeat constructor. set_solver.
    + done.
    + eapply Forall_impl; [exact Hg|]. intros bs. by apply honest_grows.
  - destruct (poll_tx_sends_log cfg Hcfg isn log (e_said e) t (e_state e) Hok Ht Hs) as (log' & Hp & Hs' & Ho).
    exists log'. split; [done|]. split; [|done].
    assert (Hg' : Forall (honest isn log' (e_said e)) (e_sent e)).
    { eapply Forall_impl; [exact Hg|]. intros bs. by apply honest_grows. }
    constructor; cbn [e_state e_said e_sent]; [by apply poll_tx_ok|done| |].
    + rewrite length_app. destruct (fst (poll_tx cfg t (e_state e))); cbn; [lia|]. subst. lia.
    + apply Forall_app. split; [done|]. destruct (fst (poll_tx cfg t (e_state e))); [|done].
      repeat constructor. apply Ho.
  - exists log. split; [done|]. split; [|done]. constructor; try done.
    + apply on_datagram_received_ok; [|done]. rewrite Forall_forall in Hbox.
      destruct Hb as [Hb|[Hb _]]; [by apply Hbox|done].
    + cbn [e_state]. unfold on_datagram_received. case_match; [|done]. by apply on_decoded_sender.
  - exists log. split; [done|]. split; [|done]. constructor; try done; [by apply request_close_ok|].
    cbn [e_state]. unfold request_close. case_match; [|done]. revert Hs. by apply sender_frame.
  - exists log. split; [done|]. split; [|done]. constructor; try done. by apply drain_events_ok.
Qed.

(** What holds of an end, and of the log of its peer. *)
Lemma end_step_receives isn log said inbox e e' :
  Z.of_nat (length log) < 2 ^ 32 ->
  Forall (honest isn log said) inbox ->
  receiver isn log said (e_got e) (st_rx (e_state e)) -> end_step cfg inbox e e' ->
  receiver isn log said (e_got e') (st_rx (e_state e')).
Proof.
  intros Hlen Hg Hr Hstep. destruct Hstep as [| t _ | bs t Hbs | |]; cbn [e_state e_got]; try done.
  - by apply poll_tx_receiver.
  - unfold on_datagram_received. destruct (decode bs) as [pv|] eqn:Ed; [|done].
    destruct Hbs as [Hin|[_ ?]]; [|done]. rewrite Forall_forall in Hg.
    destruct (Hg bs Hin) as (h & p & -> & Hh & _ & G). rewrite decode_control in Ed by done.
    injection Ed as <-. by apply on_decoded_receiver.
  - unfold request_close. by case_match.
  - destruct Hr as [H1 H2 H3]. constructor; cbn; [done|by rewrite app_nil_r..].
Qed.
End ends.

(** ** Two ends *)

(** The network keeps every datagram that was ever sent. *)
Inductive net_step (cfg : TransportSettings) : End * End -> End * End -> Prop :=
| net_client c s c' : end_step cfg (e_sent s) c c' -> net_step cfg (c, s) (c', s)
| net_server c s s' : end_step cfg (e_sent c) s s' -> net_step cfg (c, s) (c, s').

Definition new_end (s : SessionState) : End := mkEnd s [] [] [].

Definition new_pair (c_isn s_isn id : Z) : End * End :=
  (new_end (new_session Client c_isn), new_end (assign_conn_id id (new_session Server s_isn))).

Record net_ok (cfg : TransportSettings) (c_isn s_isn : Z) (p : End * End) : Prop := mk_net_ok {
  net_logs : exists c_log s_log,
    end_sends cfg c_isn c_log (fst p) /\ end_sends cfg s_isn s_log (snd p) /\
    receiver c_isn c_log (e_said (fst p)) (e_got (snd p)) (st_rx (e_state (snd p))) /\
    receiver s_isn s_log (e_said (snd p)) (e_got (fst p)) (st_rx (e_state (fst p)))
}.

(** No more numbers were used than there are. *)
Definition numbers_left (p : End * End) : Prop :=
  Z.of_nat (length (e_sent (fst p))) < 2 ^ 32 /\ Z.of_nat (length (e_sent (snd p))) < 2 ^ 32.

Lemma net_step_ok cfg c_isn s_isn p p' :
  settings_typed cfg -> numbers_left p -> net_ok cfg c_isn s_isn p -> net_step cfg p p' ->
  net_ok cfg c_isn s_isn p'.
Proof.
  intros Hcfg [Nc Ns] [(c_log & s_log & Hc & Hs & Rs & Rc)] Hstep. constructor.
  assert (Hbytes : forall isn log e, end_sends cfg isn log e -> Forall (Forall is_u8) (e_sent e)).
  { intros isn log e [_ _ _ H]. eapply Forall_impl; [exact H|]. intros bs. apply honest_bytes. }
  destruct Hstep as [c s c' Hstep|c s s' Hstep]; cbn [fst snd] in *.
  - destruct (end_step_sends cfg Hcfg c_isn c_log _ c c' (Hbytes _ _ _ Hs) Hc Hstep)
      as (log' & Hp & Hc' & Hsaid).
    exists log', s_log. split_and!; [done|done|by eapply receiver_grows|].
    pose proof (es_length _ _ _ _ Hs). eapply end_step_receives; [lia|apply Hs|done..].
  - destruct (end_step_sends cfg Hcfg s_isn s_log _ s s' (Hbytes _ _ _ Hc) Hs Hstep)
      as (log' & Hp & Hs' & Hsaid).
    exists c_log, log'. split_and!; [done|done| |by eapply receiver_grows].
    pose proof (es_length _ _ _ _ Hc). eapply end_step_receives; [lia|apply Hc|done..].
Qed.

Lemma net_step_sent cfg p p' : net_step cfg p p' -> numbers_left p' -> numbers_left p.
Proof.
  unfold numbers_left. intros [c s c' Hstep|c s s' Hstep]; destruct Hstep;
    cbn; rewrite ?length_app; lia.
Qed.

Lemma net_reachable_ok cfg c_isn s_isn id p :
  settings_typed cfg -> is_u32 c_isn -> is_u32 s_isn -> is_u32 id ->
  star (net_step cfg) (new_pair c_isn s_isn id) p -> numbers_left p -> net_ok cfg c_isn s_isn p.
Proof.
  intros Hcfg Hc Hs Hid Hstar. induction Hstar as [|p p' Hstar IH Hstep].
  - intros _. constructor. exists [], [].
    assert (Hsend : forall isn s, is_u32 isn -> session_ok cfg s -> st_tx s = default_tx isn ->
      end_sends cfg isn [] (new_end s)).
    { intros isn s Hisn Hok E. constructor; cbn [new_end e_state e_said e_sent]; [done| |done|done].
      rewrite E. constructor; cbn; [|done..]. by rewrite Z.add_0_r, u32_id. }
    split_and!; [..|by constructor|by constructor]; apply Hsend; try done.
    + by apply new_session_ok.
    + by apply session_ok_conn_id, new_session_ok.
  - intros Hn. eapply net_step_ok; [done| |apply IH|exact Hstep]; by eapply net_step_sent.
Qed.

Lemma omap_id_some {A} (l : list A) : omap id (map Some l) = l.
Proof. induction l as [|x l IH]; [done|]. cbn. by rewrite IH. Qed.

Lemma receiver_segment isn log said got rx tx :
  sender isn log said tx -> receiver isn log said got rx ->
  exists pre post, stream said = pre ++ stream (got ++ data_events (pending_events rx)) ++ post.
Proof.
  intros [_ _ E _] [_ Hst _]. unfold in_stream in Hst. case_match.
  - destruct Hst as (pre & post & El & _).
    exists (omap id pre), (omap id post ++ stream (pending_send tx)).
    by rewrite E, El, !omap_app, omap_id_some, <- !app_assoc.
  - rewrite Hst. by exists [], (stream said).
Qed.

(** ** Schedules *)

(** A run as a list of calls; [CallArrive who k t] hands [who] the [k]-th datagram
    that its peer has sent, whenever and however often. *)
Inductive Call :=
| CallSay (who : SessionRole) (channel : Z) (ty : ChannelType) (payload : bytes)
| CallPoll (who : SessionRole) (t : Z)
| CallArrive (who : SessionRole) (k : nat) (t : Z)
| CallClose (who : SessionRole)
| CallDrain (who : SessionRole).

Definition caller (x : Call) : SessionRole :=
  match x with CallSay who _ _ _ | CallPoll who _ | CallArrive who _ _ | CallClose who | CallDrain who => who end.

Definition end_call (cfg : TransportSettings) (inbox : list bytes) (e : End) (x : Call) : End :=
  match x with
  | CallSay _ id ty payload =>
      mkEnd (queue_send id ty payload (e_state e))
        (e_said e ++ [{| req_channel_id := id; req_channel_type := ty; req_payload := payload |}])
        (e_got e) (e_sent e)
  | CallPoll _ t =>
      let '(d, s) := poll_tx cfg t (e_state e) in
      mkEnd s (e_said e) (e_got e) (e_sent e ++ option_list d)
  | CallArrive _ k t =>
      match inbox !! k with
      | Some bs => mkEnd (on_datagram_received cfg bs t (e_state e)) (e_said e) (e_got e) (e_sent e)
      | None => e
      end
  | CallClose _ => mkEnd (request_close (e_state e)) (e_said e) (e_got e) (e_sent e)
  | CallDrain _ =>
      let '(evs, s) := drain_events (e_state e) in
      mkEnd s (e_said e) (e_got e ++ data_events evs) (e_sent e)
  end.

Definition net_call (cfg : TransportSettings) (p : End * End) (x : Call) : End * End :=
  match caller x with
  | Client => (end_call cfg (e_sent (snd p)) (fst p) x, snd p)
  | Server => (fst p, end_call cfg (e_sent (fst p)) (snd p) x)
  end.

Definition call_typed (x : Call) : Prop :=
  match x with
  | CallSay _ id ty payload => is_u32 id /\ channel_named ty /\ Forall is_u8 payload
  | CallPoll _ t => is_u64 t
  | _ => True
  end.

Lemma end_call_step cfg inbox e x :
  call_typed x -> end_call cfg inbox e x = e \/ end_step cfg inbox e (end_call cfg inbox e x).
Proof.
  destruct x as [who id ty payload|who t|who k t|who|who]; cbn [call_typed end_call].
  - intros (H1 & H2 & H3). right. by constructor.
  - intros Ht. right. pose proof (end_poll cfg inbox e t Ht) as H.
    by destruct (poll_tx cfg t (e_state e)).
  - intros _. destruct (inbox !! k) as [bs|] eqn:E; [|by left]. right. apply end_receive. left.
    by eapply list_elem_of_lookup_2.
  - intros _. right. constructor.
  - intros _. right. pose proof (end_drain cfg inbox e) as H. by destruct (drain_events (e_state e)).
Qed.

Lemma net_calls_reachable cfg p0 p xs :
  star (net_step cfg) p0 p -> Forall call_typed xs ->
  star (net_step cfg) p0 (fold_left (net_call cfg) xs p).
Proof.
  intros Hp Hxs. revert p Hp. induction Hxs as [|x xs Hx Hxs IH]; intros p Hp; [done|]. cbn [fold_left].
  apply IH. destruct p as [c s]. unfold net_call. cbn [fst snd]. destruct (caller x).
  - destruct (end_call_step cfg (e_sent s) c x Hx) as [-> |H]; [done|].
    eapply star_snoc; [exact Hp|]. by constructor.
  - destruct (end_call_step cfg (e_sent c) s x Hx) as [-> |H]; [done|].
    eapply star_snoc; [exact Hp|]. by constructor.
Qed.

(** ** Properties *)

(** C3: no network can make a receiver hand over anything but what was said. In every
    run of a client and a server session, with any calls of the two applications,
    any times, and a network that loses, delays, repeats and reorders datagrams
    without limit (with fewer than 2^32 datagrams each way): every message an
    application is given was sent by the peer's application, on that channel and of
    that type; and the reliable-ordered messages it is given, over the whole run, are
    a contiguous piece of those the peer sent, in order, nothing missing inside and
    nothing repeated. *)
Theorem stream_integrity cfg c_isn s_isn id c s :
  settings_typed cfg -> is_u32 c_isn -> is_u32 s_isn -> is_u32 id ->
  star (net_step cfg) (new_pair c_isn s_isn id) (c, s) -> numbers_left (c, s) ->
  (exists pre post, stream (e_said c) = pre ++ stream (all_received s) ++ post) /\
  (exists pre post, stream (e_said s) = pre ++ stream (all_received c) ++ post) /\
  (forall r, r ∈ all_received s -> r ∈ e_said c) /\ (forall r, r ∈ all_received c -> r ∈ e_said s).
Proof.
  intros Hcfg Hc Hs Hid Hstar Hn.
  destruct (net_reachable_ok cfg c_isn s_isn id _ Hcfg Hc Hs Hid Hstar Hn)
    as [(c_log & s_log & Ec & Es & Rs & Rc)]. cbn [fst snd] in *.
  split_and!.
  - eapply receiver_segment; [apply Ec|exact Rs].
  - eapply receiver_segment; [apply Es|exact Rc].
  - apply Forall_forall, (rc_known _ _ _ _ _ Rs).
  - apply Forall_forall, (rc_known _ _ _ _ _ Rc).
Qed.

(** Three messages of the client in flight at once. Their datagrams (numbers 2 to 4 of
    those the client sent) arrive in the order 1, 3, 1, 2. *)
Definition sample_calls : list Call :=
  [CallPoll Client 0; CallArrive Server 0 10; CallPoll Server 10; CallArrive Client 0 20;
   CallPoll Client 20; CallArrive Server 1 30;
   CallSay Client 1 ReliableOrdered [1]; CallSay Client 1 ReliableOrdered [2];
   CallSay Client 1 ReliableOrdered [3];
   CallPoll Client 40; CallPoll Client 40; CallPoll Client 40;
   CallArrive Server 2 50; CallDrain Server; CallArrive Server 4 50; CallArrive Server 2 50;
   CallArrive Server 3 60].

Definition sample_pair : End * End :=
  fold_left (net_call default_transport) sample_calls (new_pair 100 200 5).

Lemma sample_pair_reachable :
  star (net_step default_transport) (new_pair 100 200 5) sample_pair.
Proof.
  apply net_calls_reachable; [apply star_refl|].
  repeat (apply Forall_cons_2; [cbn [call_typed]; split_and?;
    try (unfold is_u32, is_u64; lia); try (unfold channel_named; cbn; lia);
    try (repeat constructor; unfold is_u8; lia); exact I|]); apply Forall_nil_2.
Qed.

Lemma stream_integrity_witness :
  stream (all_received (snd sample_pair)) = [(1, [1]); (1, [2]); (1, [3])] /\
  exists pre post,
    stream (e_said (fst sample_pair)) = pre ++ stream (all_received (snd sample_pair)) ++ post.
Proof.
  split; [vm_compute; reflexivity|].
  pose proof sample_pair_reachable as Hr. pose proof (surjective_pairing sample_pair) as Ep.
  assert (Hn : numbers_left sample_pair) by (vm_compute; split; reflexivity).
  rewrite Ep in Hr, Hn.
  exact (proj1 (stream_integrity default_transport 100 200 5 (fst sample_pair) (snd sample_pair)
    default_transport_typed ltac:(unfold is_u32; lia) ltac:(unfold is_u32; lia)
    ltac:(unfold is_u32; lia) Hr Hn)).
Defined.

(** ** Where the piece begins *)

(** The first ordered packet to arrive, not the first that was sent, starts ordered
    delivery. *)
Lemma ordered_delivery_starts packet rx :
  packet_ok packet -> rx_ok rx -> hdr_channel_type (pv_header packet) = ReliableOrdered ->
  ordered_delivery_started rx = false -> ordered_reorder_buffer rx = [] -> next_expected rx <> 0 ->
  let d := seq_offset (next_expected rx) (hdr_seq (pv_header packet)) in
  1 <= d <= 64 -> Z.testbit (received_bits rx) (d - 1) = false ->
  let rx1 := snd (on_packet packet KindNone rx) in
  pending_events rx1 = pending_events rx ++ [make_data_event packet] /\
  ordered_delivery_started rx1 = true /\
  next_ordered_delivery rx1 = u32 (hdr_seq (pv_header packet) + 1) /\
  next_expected rx1 = next_expected rx.
Proof.
  intros Hp Hrx Ht Hst Hb Hne d Hd Hbit. unfold on_packet.
  pose proof (update_reliable_receive_state_spec packet KindNone rx Hp Hrx) as H.
  destruct (update_reliable_receive_state packet KindNone rx) as [[deliver ack] rx1].
  assert (Htr : tracked packet KindNone = true) by (unfold tracked; by rewrite Ht).
  rewrite Htr in H.
  assert (Ef : rx_front packet rx = next_expected rx)
    by (unfold rx_front; by rewrite (proj2 (Z.eqb_neq _ _))).
  cbv zeta in H. rewrite Ef in H. fold d in H. destruct H as (_ & _ & H & _).
  destruct (H Hd) as (Hdel & _ & Erx). rewrite Hdel, Hbit.
  change (is_control_only KindNone || negb (negb false)) with false. cbn [snd]. rewrite Ht.
  destruct (handle_reliable_ordered_run packet rx1) as (evs & buf' & n' & Hrun & ->).
  assert (E1 : ordered_reorder_buffer rx1 = [] /\ ordered_delivery_started rx1 = false /\
    pending_events rx1 = pending_events rx /\ next_expected rx1 = next_expected rx).
  { rewrite Erx. done. }
  clear Erx. destruct E1 as (E1 & E2 & E3 & E4). unfold ordered_front in Hrun. rewrite E1, E2 in Hrun.
  cbn [smap_assign] in Hrun. inversion Hrun as [? ? Hf|? ? p ? ? ? Hf Hrun2]; subst; cbn in Hf;
    rewrite Z.eqb_refl in Hf; [done|]. injection Hf as <-. cbn in Hrun2. rewrite Z.eqb_refl in Hrun2.
  inversion Hrun2; subst; [|done]. cbn. by rewrite E3, E4.
Qed.

(** C21: a message that is overtaken before the first delivery is lost. The receiver
    expects the number [f] and has no ordered data yet; an ordered packet 1 to 64
    numbers ahead of [f] arrives first. It is delivered at once, and ordered delivery
    continues after it: whatever arrives later, no ordered message with a number from
    [f] up to that packet is delivered any more (in the next 2^32 - 66 deliveries). The
    packet numbered [f], when it arrives, is acknowledged all the same, so the sender
    forgets it. *)
Theorem overtaken_message_lost packet rx :
  packet_ok packet -> rx_ok rx -> hdr_channel_type (pv_header packet) = ReliableOrdered ->
  ordered_delivery_started rx = false -> ordered_reorder_buffer rx = [] -> next_expected rx <> 0 ->
  let f := next_expected rx in
  let d := seq_offset f (hdr_seq (pv_header packet)) in
  1 <= d <= 64 -> Z.testbit (received_bits rx) (d - 1) = false ->
  let rx1 := snd (on_packet packet KindNone rx) in
  pending_events rx1 = pending_events rx ++ [make_data_event packet] /\
  (forall late, packet_ok late -> hdr_seq (pv_header late) = f ->
     isReliableChannel (hdr_channel_type (pv_header late)) = true ->
     let rx2 := snd (on_packet late KindNone rx1) in
     is_acknowledged_by_remote f (next_expected rx2) (received_bits rx2) = true) /\
  (forall ps, Forall (fun p => packet_ok (fst p)) ps ->
     exists new, pending_events (rx_run ps rx1) = pending_events rx1 ++ new /\
       let ordered := List.filter is_ordered_event new in
       (Z.of_nat (length ordered) < 2 ^ 32 - 65 ->
        forall i, 0 <= i < d -> u32 (f + i) ∉ map ev_seq ordered)).
Proof.
  intros Hp Hrx Ht Hst Hb Hne f d Hd Hbit.
  pose proof (ordered_delivery_starts packet rx Hp Hrx Ht Hst Hb Hne Hd Hbit) as H.
  pose proof (on_packet_ok packet KindNone rx Hp Hrx) as Hrx1.
  cbv zeta in *. set (rx1 := snd (on_packet packet KindNone rx)) in *. clearbody rx1.
  destruct H as (He & Hs1 & Hn1 & Hf1). pose proof (ro_next _ Hrx) as Hu. fold f in Hu, Hf1.
  pose proof (ht_seq _ (proj1 Hp)) as Hseq.
  assert (Hfd : u32 (hdr_seq (pv_header packet) + 1) = u32 (f + d + 1)).
  { subst d. unfold seq_offset. clear -Hseq Hu. word_lia. }
  split; [done|]. split.
  - intros late Hl El Hr. destruct (on_packet_acks late KindNone rx1) as [-> ->].
    rewrite update_tracked by (apply Hl || apply Hrx1 || (unfold tracked; by rewrite Hr)). cbv zeta.
    assert (Hfront : rx_front late rx1 = f)
      by (unfold rx_front; rewrite Hf1; by rewrite (proj2 (Z.eqb_neq _ _))).
    rewrite Hfront, El. rewrite (proj2 (Z.eqb_eq (seq_offset f f) 0)) by (apply seq_offset_0; done).
    cbn [snd]. destruct (advance_receive_window_run (rx1 <| next_expected := f |>))
      as (t & Htt & _ & _ & ->); [apply Hrx1|].
    rewrite is_acked_spec. cbn. apply orb_true_iff. left. apply Z.leb_le.
    unfold seq_offset. clear -Hu Htt. word_lia.
  - intros ps Hps. destruct (rx_run_delivery ps rx1 Hps Hrx1) as (new & E & Hprog).
    exists new. split; [done|]. cbv zeta. intros Hlen i Hi Hin.
    destruct Hprog as [(E0 & _)|(n0 & _ & Hold & _ & Em & _)]; [rewrite E0 in Hin; by apply elem_of_nil in Hin|].
    rewrite Em, (Hold Hs1), Hn1, Hfd in Hin. unfold seqs_from in Hin.
    apply list_elem_of_fmap in Hin as (j & Ej & Hj). apply elem_of_seq in Hj.
    clear -Ej Hj Hlen Hi Hd. rewrite u32_add_l in Ej.
    assert (i = d + 1 + Z.of_nat j); [|lia].
    apply (offset_inj f); [lia..|]. rewrite Ej. f_equal. lia.
Qed.

Lemma overtaken_message_lost_witness :
  let rx := default_rx <| next_expected := 10 |> in
  let rx1 := snd (on_packet (data_packet ReliableOrdered 11 [2]) KindNone rx) in
  let rx2 := snd (on_packet (data_packet ReliableOrdered 10 [1]) KindNone rx1) in
  pending_events rx1 = [make_data_event (data_packet ReliableOrdered 11 [2])] /\
  is_acknowledged_by_remote 10 (next_expected rx2) (received_bits rx2) = true.
Proof.
  assert (Hp : forall n b, is_u32 n -> is_u8 b -> packet_ok (data_packet ReliableOrdered n [b]))
    by (intros; apply data_packet_ok; [done|done|apply Forall_cons_2; [done|apply Forall_nil_2]]).
  destruct (overtaken_message_lost (data_packet ReliableOrdered 11 [2])
    (default_rx <| next_expected := 10 |>)) as (H1 & H2 & _); try reflexivity.
  - apply Hp; [unfold is_u32|unfold is_u8]; lia.
  - apply rx_ok_next; [unfold is_u32; lia|apply default_rx_ok].
  - discriminate.
  - split; vm_compute; discriminate.
  - split; [exact H1|]. apply (H2 (data_packet ReliableOrdered 10 [1])); [|reflexivity|reflexivity].
    apply Hp; [unfold is_u32|unfold is_u8]; lia.
Defined.

(** The whole story between two sessions: the datagram of the first message is lost,
    the second arrives, the first is sent again and arrives, both are acknowledged.
    The server's application is given the second message only, and neither side has
    anything left to send. *)
Example first_message_lost :
  let calls :=
    [CallPoll Client 0; CallArrive Server 0 10; CallPoll Server 10; CallArrive Client 0 20;
     CallPoll Client 20; CallArrive Server 1 30;
     CallSay Client 1 ReliableOrdered [1]; CallSay Client 1 ReliableOrdered [2];
     CallPoll Client 40; CallPoll Client 40; CallArrive Server 3 50; CallPoll Client 500;
     CallArrive Server 4 510; CallPoll Server 600; CallArrive Client 1 610] in
  let '(c, s) := fold_left (net_call default_transport) calls (new_pair 100 200 5) in
  stream (e_said c) = [(1, [1]); (1, [2])] /\ stream (all_received s) = [(1, [2])] /\
  inflight (st_tx (e_state c)) = [] /\ pending_send (st_tx (e_state c)) = [] /\
  fst (poll_tx default_transport 700 (e_state s)) = None.
Proof. vm_compute. repeat split; reflexivity. Qed.
