(* ===== verification/LossyHandshake.v ===== *)
(** The handshake over a network that loses its packets, and the connection after
    it.

    SYN packets are repeated until one arrives; the SYN-ACK is repeated until a final
    ACK arrives, the client answering repeated SYN-ACKs while it lingers. *)

From S2P Require Import Prelude StdMap Protocol Utils Codec Config SessionTypes.
From S2P Require Import ConnectionStateMachine TxHandler TxInvariant RxHandler RxInvariant.
From S2P Require Import Session SessionInvariant SessionLifecycle Handshake DataTransfer.
From S2P Require Import ReliableTransfer.

(** ** Schedules *)

(** The SYN is sent at the times [lost] and does not arrive, is sent again at [t0]
    and arrives at [t1]. From there the exchange is that of [attempts]: the server's
    SYN-ACK, with the client's final ACK as its acknowledgement. *)
Definition lossy_handshake (cfg : TransportSettings) (c_isn s_isn id : Z) (lost : list Z) (t0 t1 : Z)
    (sends : list (Z * Fate)) : SessionState * SessionState :=
  let c := fold_left (fun c t => snd (poll_tx cfg t c)) lost (new_session Client c_isn) in
  let '(d, c) := poll_tx cfg t0 c in
  let s := deliver cfg d t1 (assign_conn_id id (new_session Server s_isn)) in
  let '(s, c) := attempts cfg sends s c in
  (c, s).

(** The SYN's transmissions are far enough apart and within the budget. *)
Fixpoint syn_times_ok (cfg : TransportSettings) (prev : option (Z * Z)) (times : list Z) : bool :=
  match times with
  | [] => true
  | t :: times => retry_ok cfg prev t && syn_times_ok cfg (Some (t, next_retry prev)) times
  end.

(** When the client may answer a SYN-ACK that arrives at [t1] with a poll at [t2].
    [seen]: the arrival of the first SYN-ACK and the time of the last final ACK. *)
Definition answer_ok (cfg : TransportSettings) (seen : option (Z * Z)) (t1 t2 : Z) : bool :=
  in_time cfg t1 t2 &&
  match seen with
  | None => t2 <? u64 (t1 + keepalive_idle_ms cfg)
  | Some (first, last) =>
      (t1 <=? u64 (last + handshake_linger_ms cfg)) && (t2 <? u64 (first + keepalive_idle_ms cfg))
  end.

Definition seen_after (seen : option (Z * Z)) (t1 t2 : Z) : option (Z * Z) :=
  match seen with None => Some (t1, t2) | Some (first, _) => Some (first, t2) end.

Fixpoint syn_ack_times_ok (cfg : TransportSettings) (prev seen : option (Z * Z)) (sends : list (Z * Fate))
    : bool :=
  match sends with
  | [] => false
  | (t, fate) :: sends =>
      retry_ok cfg prev t &&
      match fate with
      | DataLost => syn_ack_times_ok cfg (Some (t, next_retry prev)) seen sends
      | AckLost t1 t2 =>
          answer_ok cfg seen t1 t2 &&
          syn_ack_times_ok cfg (Some (t, next_retry prev)) (seen_after seen t1 t2) sends
      | Acked t1 t2 _ => answer_ok cfg seen t1 t2
      end
  end.

(** The clock after the handshake. *)
Fixpoint handshake_clock (seen : option (Z * Z)) (sends : list (Z * Fate)) : Clock :=
  match sends with
  | [] => mkClock 0 0 0
  | (_, DataLost) :: sends => handshake_clock seen sends
  | (_, AckLost t1 t2) :: sends => handshake_clock (seen_after seen t1 t2) sends
  | (_, Acked t1 t2 t3) :: _ =>
      mkClock t1 t3 (match seen with None => t1 | Some (first, _) => first end)
  end.

(** ** The packets *)

Section lossy.
Context (cfg : TransportSettings) (ty : ChannelType).
Context (c_isn s_isn id : Z) (Hid : is_u32 id) (Hne : id <> 0).
Context (Hc : front_safe (c_isn + 1)) (Hs : front_safe (s_isn + 1)).

Let syn := control_header 0 (flag_bits FlagSyn) c_isn 0 0.
Let syn_ack := control_header id (flag_or FlagSyn FlagAck) s_isn (u32 (c_isn + 1)) 0.

(** The entry of a control packet sent [k + 1] times, last at [t]. *)
Definition control_entry (h : Header) (k t : Z) (e : TxEntry) : Prop :=
  te_packet e = {| op_header := h; op_payload := [] |} /\ te_retry_count e = k /\
  te_last_send_ms e = t.

(** A poll that repeats the only packet in flight of a session in a handshake. *)
Lemma resend_control h s t n e k last :
  header_ok h -> refresh_acks (st_rx s) h = h -> st_connection_state s <> Established ->
  try_build_handshake cfg t (st_role s) (st_conn_id s) (st_connection_state s) (st_rx s) (st_tx s) =
    (None, st_connection_state s, st_tx s) ->
  inflight (st_tx s) = [(n, e)] -> control_entry h k last e ->
  k < max_retransmit_count cfg -> u64 (last + retransmit_timeout_for cfg k) <= t ->
  exists st e', control_entry h (u32 (k + 1)) t e' /\
    poll_tx cfg t s = (Some (encode h []),
      clear_outbound_ack_state (classify_control_kind h)
        ((update_outbound_probe_state (classify_control_kind h) t
           (s <| st_tx ::= fun tx => tx <| inflight := [(n, e')] |> |>))
           <| st_last_tx_ms := t |> <| st_stats := st |>)).
Proof.
  intros Hh Hr Hst Hhs Hin (Hp & Hk & Hl) Hmax Hto.
  assert (Hne' : should_timeout_idle_session cfg s t = false).
  { unfold should_timeout_idle_session. by rewrite bool_decide_eq_false_2. }
  destruct (poll_tx_sends cfg t s h [] true (st_connection_state s)
    ((st_tx s) <| inflight := [(n, resend_entry t (st_rx s) e)] |>)) as [st E]; [done|done| |].
  { rewrite schedule_not_established by done. unfold poll. rewrite Hhs. cbn [has_value].
    unfold try_build_retransmit, retransmit_loop. rewrite Hin, Hk, (proj2 (Z.leb_gt _ _)) by done.
    unfold entry_timed_out. rewrite Hl, Hk, (proj2 (Z.leb_le _ _)) by done.
    rewrite andb_false_r, Hp. cbn [op_header op_payload]. by rewrite Hr. }
  rewrite schedule_not_established in E by done. exists st, (resend_entry t (st_rx s) e). split.
  - split; [|cbn; by rewrite Hk].
    change (te_packet (resend_entry t (st_rx s) e)) with
      (mkOwnedPacket (refresh_acks (st_rx s) (op_header (te_packet e))) (op_payload (te_packet e))).
    rewrite Hp. cbn [op_header op_payload]. by rewrite Hr.
  - rewrite E. by destruct s.
Qed.

(** *** The SYN *)

Definition syn_sending (prev : option (Z * Z)) (c : SessionState) : Prop :=
  match prev with
  | None => c = new_session Client c_isn
  | Some (last, k) =>
      exists e st, c = client_sent_with c_isn e last st /\ control_entry syn k last e
  end.

Lemma syn_poll prev t c :
  syn_sending prev c -> retry_ok cfg prev t = true ->
  exists c', poll_tx cfg t c = (Some (encode syn []), c') /\
    syn_sending (Some (t, next_retry prev)) c'.
Proof.
  destruct (isn_next c_isn s_isn Hc Hs) as (Uc & _). destruct prev as [[last k]|]; cbn [syn_sending].
  - intros (e & st & -> & He) [Hk Hl]%andb_true_iff. apply Z.ltb_lt in Hk. apply Z.leb_le in Hl.
    destruct (resend_control syn (client_sent_with c_isn e last st) t c_isn e k last)
      as (st' & e' & He' & E); try done.
    rewrite E. eexists. split; [reflexivity|]. by exists e', st'.
  - intros -> _. destruct (client_syn cfg c_isn Uc t) as [st ->]. eexists. split; [reflexivity|].
    by exists (sent_entry syn t), st.
Qed.

(** The lost SYNs, and the one that arrives. *)
Lemma syn_polls lost t0 prev c :
  syn_sending prev c -> syn_times_ok cfg prev (lost ++ [t0]) = true ->
  exists t k c', poll_tx cfg t0 (fold_left (fun c t => snd (poll_tx cfg t c)) lost c) =
      (Some (encode syn []), c') /\ syn_sending (Some (t, k)) c'.
Proof.
  revert prev c. induction lost as [|t lost IH]; intros prev c Hp Hok;
    cbn [app syn_times_ok fold_left] in *; apply andb_true_iff in Hok as [Hr Hok].
  - destruct (syn_poll prev t0 c Hp Hr) as (c' & E & Hp'). by eexists _, _, c'.
  - destruct (syn_poll prev t c Hp Hr) as (c' & E & Hp'). rewrite E. by eapply IH.
Qed.

(** *** The SYN-ACK *)

Definition syn_ack_sending (prev : option (Z * Z)) (s : SessionState) : Prop :=
  match prev with
  | None => exists t st, s = server_received c_isn s_isn id t st
  | Some (last, k) =>
      exists e t st, s = server_answered_with c_isn s_isn id e t last st /\ control_entry syn_ack k last e
  end.

Lemma syn_ack_poll prev t s :
  syn_ack_sending prev s -> retry_ok cfg prev t = true ->
  exists s', poll_tx cfg t s = (Some (encode syn_ack []), s') /\
    syn_ack_sending (Some (t, next_retry prev)) s'.
Proof.
  destruct (isn_next c_isn s_isn Hc Hs) as (Uc & Us & _).
  destruct prev as [[last k]|]; cbn [syn_ack_sending].
  - intros (e & t1 & st & -> & He) [Hk Hl]%andb_true_iff. apply Z.ltb_lt in Hk. apply Z.leb_le in Hl.
    destruct (resend_control syn_ack (server_answered_with c_isn s_isn id e t1 last st) t s_isn e k last)
      as (st' & e' & He' & E); try done.
    { by apply syn_ack_ok. }
    rewrite E. eexists. split; [reflexivity|]. by exists e', t1, st'.
  - intros (t1 & st & ->) _. destruct (server_syn_ack cfg c_isn s_isn id Us Hid t1 t st) as [st' ->].
    eexists. split; [reflexivity|]. by exists (sent_entry syn_ack t), t1, st'.
Qed.

(** The client once it has sent a final ACK, the last at [last]; it was established
    at [first]. *)
Record lingering (c : SessionState) (first last : Z) : Prop := mk_lingering {
  li_idle : idle c id (c_isn + 1) (s_isn + 1);
  li_role : st_role c = Client;
  li_baseline : probe_baseline c = first;
  li_linger : final_ack_linger_until_ms (st_tx c) = u64 (last + handshake_linger_ms cfg);
  li_order : ordered_at ty (st_rx c) (s_isn + 1);
  li_received : app_events c = [told_connected]
}.

(** The client before and after its first SYN-ACK. *)
Definition answering (seen : option (Z * Z)) (c : SessionState) : Prop :=
  match seen with
  | None => exists t k, syn_sending (Some (t, k)) c
  | Some (first, last) => lingering c first last
  end.

(** A repeated SYN-ACK, while the client lingers. *)
Lemma receive_syn_ack_again c first last t1 :
  lingering c first last -> t1 <= u64 (last + handshake_linger_ms cfg) ->
  exists st, on_datagram_received cfg (encode syn_ack []) t1 c =
    c <| st_last_rx_ms := t1 |> <| st_stats := st |>
      <| st_tx ::= fun tx => tx <| final_ack_pending := true |> |>.
Proof.
  intros [[Hup _ _] Hr _ Hli _ _] Ht. destruct Hup. destruct (isn_next c_isn s_isn Hc Hs) as (Uc & Us & _).
  unfold on_datagram_received. rewrite decode_control by (by apply syn_ack_ok).
  set (pv := {| pv_header := syn_ack; pv_payload := [] |}). unfold on_decoded. cbn zeta.
  change (classify_control_kind (pv_header pv)) with KindSynAck.
  set (c0 := record_received_stats _ _ _ _).
  assert (Ea : should_adopt_server_conn_id c0 KindSynAck (pv_header pv) = false).
  { unfold should_adopt_server_conn_id. change (st_conn_id c0) with (st_conn_id c).
    by rewrite up_conn_id, (proj2 (Z.eqb_neq _ _)), andb_false_r. }
  rewrite Ea.
  assert (Em : has_conn_id_mismatch c0 KindSynAck (pv_header pv) = false).
  { unfold has_conn_id_mismatch. change (st_conn_id c0) with (st_conn_id c). rewrite up_conn_id.
    change (hdr_conn_id (pv_header pv)) with id. by rewrite Z.eqb_refl, andb_false_r. }
  rewrite Em.
  assert (Ed : is_duplicate_client_syn_ack c0 KindSynAck = true).
  { unfold is_duplicate_client_syn_ack. change (st_role c0) with (st_role c).
    change (st_connection_state c0) with (st_connection_state c). by rewrite Hr, up_established. }
  rewrite Ed. unfold schedule_final_ack_during_linger. change (st_tx c0) with (st_tx c).
  rewrite Hli, (proj2 (Z.leb_le _ _)) by done. by exists (st_stats c0).
Qed.

Lemma answer_again c first last t1 t2 :
  lingering c first last -> answer_ok cfg (Some (first, last)) t1 t2 = true ->
  exists c', poll_tx cfg t2 (on_datagram_received cfg (encode syn_ack []) t1 c) =
      (Some (encode (ack_header id (u32 (s_isn + 1))) []), c') /\
    lingering c' first t2 /\ st_last_rx_ms c' = t1.
Proof.
  intros Hl [Hto [Ht Hq]%andb_true_iff]%andb_true_iff. apply Z.ltb_lt in Hto, Hq. apply Z.leb_le in Ht.
  destruct (receive_syn_ack_again c first last t1 Hl Ht) as [st ->].
  destruct Hl as [[Hup Hin Hack] Hr Hb Hli Ho Hrec]. destruct Hup.
  destruct (isn_next c_isn s_isn Hc Hs) as (Uc & Us & _ & Es).
  set (c1 := set st_tx _ _).
  assert (Esch : schedule_pending_tx_work cfg t2 c1 = c1).
  { apply schedule_quiet; [exact up_reliable_ack|exact up_activity|].
    intros _. change (probe_baseline c1) with (probe_baseline c). by rewrite Hb. }
  destruct (poll_tx_handshake cfg t2 c1 (ack_header id (u32 (s_isn + 1))) [] Established
    ((st_tx c1) <| final_ack_pending := false |>
       <| final_ack_linger_until_ms := u64 (t2 + handshake_linger_ms cfg) |>)) as [st' E].
  { by apply not_timed_out_false. }
  { apply ack_header_ok; [done|apply u32_range]. }
  { rewrite Esch. unfold try_build_handshake.
    change (st_connection_state c1) with (st_connection_state c). rewrite up_established.
    rewrite !(bool_decide_eq_false_2 (Established = _)) by done. rewrite !andb_false_r.
    change (final_ack_pending (st_tx c1) && bool_decide (Established = Established)) with true.
    cbv iota. rewrite (build_plain_control t2 _ (flag_bits FlagAck)) by done.
    change (st_rx c1) with (st_rx c). change (st_conn_id c1) with (st_conn_id c).
    rewrite up_front, up_bits, up_conn_id, Es. done. }
  rewrite Esch in E. rewrite E. eexists. split; [reflexivity|].
  change (classify_control_kind (ack_header id (u32 (s_isn + 1)))) with KindAck.
  split; [|done]. by constructor.
Qed.

Lemma answering_poll seen c t1 t2 :
  answering seen c -> answer_ok cfg seen t1 t2 = true ->
  exists c', poll_tx cfg t2 (on_datagram_received cfg (encode syn_ack []) t1 c) =
      (Some (encode (ack_header id (u32 (s_isn + 1))) []), c') /\
    answering (seen_after seen t1 t2) c' /\ st_last_rx_ms c' = t1.
Proof.
  destruct (isn_next c_isn s_isn Hc Hs) as (Uc & Us & _ & Es).
  destruct seen as [[first last]|]; cbn [answering seen_after]; [apply answer_again|].
  intros (t & k & e & st & -> & (He & _)) [Hto Hq]%andb_true_iff. apply Z.ltb_lt in Hto, Hq.
  unfold syn_ack. destruct (client_syn_ack_with cfg c_isn s_isn id Uc Us Hid e t t1 st) as [st' ->]; [by rewrite He|done|].
  destruct (client_final_idle cfg ty c_isn s_isn id Hid Hc Hs t t1 t2 st' Hto Hq)
    as (c' & E & H1 & H2 & H3 & H4 & H5 & H6 & H7).
  exists c'. split_and!; [done|by constructor|done].
Qed.

(** The handshake completes. *)
Lemma syn_ack_attempts sends prev seen s c :
  syn_ack_sending prev s -> answering seen c -> syn_ack_times_ok cfg prev seen sends = true ->
  let '(s', c') := attempts cfg sends s c in
  linked ty id (c_isn + 1) (s_isn + 1) (handshake_clock seen sends) (c', s') /\
  app_events c' = [told_connected] /\ app_events s' = [told_connected].
Proof.
  revert prev seen s c. induction sends as [|[t fate] sends IH]; intros prev seen s c Hp Ha Hok; [done|].
  cbn [syn_ack_times_ok attempts handshake_clock] in *. apply andb_true_iff in Hok as [Hr Hok].
  destruct (syn_ack_poll prev t s Hp Hr) as (s1 & -> & Hp1).
  destruct fate as [|t1 t2|t1 t2 t3]; cbn [deliver].
  - by eapply IH.
  - apply andb_true_iff in Hok as [Hans Hok].
    destruct (answering_poll seen c t1 t2 Ha Hans) as (c1 & -> & Ha1 & _). cbn [snd]. by eapply IH.
  - destruct (answering_poll seen c t1 t2 Ha Hok) as (c1 & -> & Ha1 & Hl). cbn [deliver].
    destruct Hp1 as (e & t' & st & -> & (He & _)).
    destruct (server_final_idle cfg ty c_isn s_isn id Hid Hc Hs e t' t t3 st) as (G1 & G2 & G3 & G4 & G5);
      [by rewrite He|].
    destruct seen as [[first last]|]; destruct Ha1; (split; [|done]); by constructor.
Qed.

Lemma lossy_handshake_linked lost t0 t1 sends :
  syn_times_ok cfg None (lost ++ [t0]) = true -> syn_ack_times_ok cfg None None sends = true ->
  let p := lossy_handshake cfg c_isn s_isn id lost t0 t1 sends in
  linked ty id (c_isn + 1) (s_isn + 1) (handshake_clock None sends) p /\
  app_events (fst p) = [told_connected] /\ app_events (snd p) = [told_connected].
Proof.
  intros Hsyn Hok. destruct (isn_next c_isn s_isn Hc Hs) as (Uc & _). unfold lossy_handshake.
  destruct (syn_polls lost t0 None (new_session Client c_isn) eq_refl Hsyn) as (t & k & c & -> & Hsend).
  cbn [deliver]. unfold syn. destruct (server_syn cfg c_isn s_isn id Uc t1) as [st ->].
  pose proof (syn_ack_attempts sends None None (server_received c_isn s_isn id t1 st) c
    (ex_intro _ t1 (ex_intro _ st eq_refl)) (ex_intro _ t (ex_intro _ k Hsend)) Hok) as H.
  by destruct (attempts cfg sends (server_received c_isn s_isn id t1 st) c) as [s' c'].
Qed.
End lossy.

(** ** Properties *)


(** The first SYN is lost; so is the first SYN-ACK, and the final ACK that answers
    the second. *)
Definition sample_lost : list Z := [0].
Definition sample_answers : list (Z * Fate) :=
  [(320, DataLost); (570, AckLost 580 590); (1070, Acked 1080 1090 1100)].

(** The client sends two messages, the first after a lost packet and a lost
    acknowledgement, the server answers, and the client probes. *)
Definition sample_schedule : list Exchange :=
  [ToServer 1 [1; 2] [(1110, DataLost); (1360, AckLost 1370 1380); (1860, Acked 1870 1880 1890)];
   ToClient 1 [3] [(1900, Acked 1910 1920 1930)];
   Keepalive 2600 2610 2610 2620;
   ToServer 2 [4] [(2650, Acked 2660 2670 2680)]].

Definition sample_settings : TransportSettings :=
  default_transport <| keepalive_idle_ms := 2000 |> <| handshake_linger_ms := 1000 |>.

Lemma sample_schedule_typed : Forall exchange_typed sample_schedule.
Proof. repeat apply Forall_cons_2; cbn; try apply Forall_nil_2; unfold is_u32; lia || exact I. Qed.


(** ** When data overtakes the final ACK *)

Section overtaken.
Context (cfg : TransportSettings) (c_isn s_isn id : Z).
Context (Hid : is_u32 id) (Hc : is_u32 c_isn) (Hs : is_u32 s_isn).

(** What a client sends that has received nothing but the SYN-ACK, the handshake
    packets apart: data, and PING on its control channel. *)
Definition client_traffic (h : Header) : Prop :=
  header_ok h /\ hdr_conn_id h = id /\ hdr_ack h = u32 (s_isn + 1) /\ hdr_ack_bits h = 0 /\
  (classify_control_kind h = KindNone \/
   (classify_control_kind h = KindPing /\ hdr_channel_type h = Unreliable)).

(** A server session that waits for the final ACK, with its SYN-ACK acknowledged. *)
Record wedged (s : SessionState) : Prop := mk_wedged {
  wg_state : st_connection_state s = HandshakeReceived;
  wg_role : st_role s = Server;
  wg_conn_id : st_conn_id s = id;
  wg_syn_ack : syn_ack_pending (st_tx s) = false;
  wg_inflight : inflight (st_tx s) = [];
  wg_pending : pending_send (st_tx s) = [];
  wg_ping : ping_pending (probe (st_tx s)) = false;
  wg_pong : pong_pending (probe (st_tx s)) = false;
  wg_ack_only : ack_only_pending (st_tx s) = false
}.

Lemma wedged_poll t s : wedged s -> poll_tx cfg t s = (None, s).
Proof.
  intros []. apply poll_nothing; try done.
  - unfold should_timeout_idle_session. by rewrite wg_state0.
  - apply schedule_not_established. by rewrite wg_state0.
  - unfold try_build_handshake. rewrite wg_state0, wg_role0, wg_syn_ack0.
    by rewrite !(bool_decide_eq_false_2 (HandshakeReceived = _)), !andb_false_r by done.
Qed.

(** Only reliable data is acknowledged. *)
Lemma on_packet_reliable_ack pv rx :
  fst (on_packet pv KindNone rx) = isReliableChannel (hdr_channel_type (pv_header pv)).
Proof.
  unfold on_packet, update_reliable_receive_state. cbn zeta.
  destruct (isReliableChannel (hdr_channel_type (pv_header pv))); [|done].
  cbn [negb andb orb]. repeat case_match; simplify_eq; done.
Qed.

(** Any such packet, when what is in flight is the SYN-ACK at most. *)
Lemma overtaken_receive h p t s :
  client_traffic h ->
  st_connection_state s = HandshakeReceived -> st_role s = Server -> st_conn_id s = id ->
  syn_ack_pending (st_tx s) = false -> pending_send (st_tx s) = [] ->
  ping_pending (probe (st_tx s)) = false -> pong_pending (probe (st_tx s)) = false ->
  ack_only_pending (st_tx s) = false ->
  on_remote_ack cfg (u32 (s_isn + 1)) 0 (st_tx s) =
    ((st_tx s) <| remote_ack := u32 (s_isn + 1) |> <| remote_ack_bits := 0 |> <| inflight := [] |>, false) ->
  wedged (on_datagram_received cfg (encode h p) t s).
Proof.
  intros (Hh & Hi & Ha & Hb & Hk) Hst Hr Hsi Hsa Hp H1 H2 Hao Hack.
  unfold on_datagram_received. rewrite decode_control by done.
  set (pv := {| pv_header := h; pv_payload := p |}). unfold on_decoded. cbn zeta.
  change (pv_header pv) with h. set (kind := classify_control_kind h) in *.
  set (s0 := record_received_stats kind _ _ _).
  assert (Ea : should_adopt_server_conn_id s0 kind h = false).
  { unfold should_adopt_server_conn_id. change (st_role s0) with (st_role s). by rewrite Hr. }
  rewrite Ea.
  assert (Em : has_conn_id_mismatch s0 kind h = false).
  { unfold has_conn_id_mismatch. change (st_conn_id s0) with (st_conn_id s).
    by rewrite Hsi, Hi, Z.eqb_refl, andb_false_r. }
  rewrite Em.
  assert (Ed : is_duplicate_client_syn_ack s0 kind = false).
  { unfold is_duplicate_client_syn_ack. change (st_role s0) with (st_role s). by rewrite Hr. }
  rewrite Ed.
  assert (Eh : handle_probe_receive kind t s0 = s0).
  { unfold handle_probe_receive. change (st_connection_state s0) with (st_connection_state s).
    rewrite Hst. by destruct Hk as [-> | [-> _]]. }
  rewrite Eh.
  assert (Er : apply_remote_ack cfg h kind (st_tx s0) =
    on_remote_ack cfg (u32 (s_isn + 1)) 0 (st_tx s)).
  { unfold apply_remote_ack. rewrite Ha, Hb. by destruct Hk as [-> | [-> _]]. }
  rewrite Er, Hack. cbn [should_close_after_fin_acknowledgement andb].
  set (s1 := set st_tx _ _).
  assert (Edec : decide_connection_transition (st_role s1) (st_connection_state s1) kind =
    default_decision) by (by destruct Hk as [-> | [-> _]]).
  rewrite Edec, decision_default.
  assert (Hon : fst (on_packet pv kind (st_rx s1)) =
    bool_decide (kind = KindNone) && isReliableChannel (hdr_channel_type h)).
  { destruct Hk as [-> | [-> Hch]]; [apply on_packet_reliable_ack|].
    unfold on_packet, update_reliable_receive_state. change (pv_header pv) with h. by rewrite Hch. }
  destruct (on_packet pv kind (st_rx s1)) as [ack rx]. cbn [fst] in Hon. subst ack.
  unfold update_post_receive_liveness.
  change (st_connection_state (s1 <| st_rx := rx |>)) with (st_connection_state s).
  rewrite Hst, (bool_decide_eq_false_2 (_ = Established)), andb_false_r by done.
  unfold schedule_receive_side_ack. change (pv_header pv) with h.
  destruct (bool_decide (kind = KindNone) && isReliableChannel (hdr_channel_type h)); by constructor.
Qed.

Lemma wedged_receive h p t s :
  client_traffic h -> wedged s -> wedged (on_datagram_received cfg (encode h p) t s).
Proof.
  intros Hh []. apply overtaken_receive; try done.
  unfold on_remote_ack, erase_acknowledged_inflight. cbn. rewrite wg_inflight0. cbn.
  destruct (st_tx s). cbn in *. by subst.
Qed.

(** The first packet that overtakes the final ACK. *)
Lemma overtaken_first e h p t0 t1 t st :
  hasFlag (op_header (te_packet e)) FlagFin = false -> client_traffic h ->
  wedged (on_datagram_received cfg (encode h p) t (server_answered_with c_isn s_isn id e t0 t1 st)).
Proof.
  intros He Hh. apply overtaken_receive; try done.
  pose proof (on_remote_ack_single cfg s_isn e
    (st_tx (server_answered_with c_isn s_isn id e t0 t1 st)) Hs eq_refl) as H.
  destruct (on_remote_ack _ _ _ _) as [tx fin]. destruct H as [-> ->]. by rewrite He.
Qed.
End overtaken.

(** A packet from the client arrives at the server, or the server polls. *)
Inductive WaitStep :=
| Arrives (h : Header) (payload : bytes) (t : Z)
| Polls (t : Z).

Definition wait_step (cfg : TransportSettings) (s : SessionState) (x : WaitStep) : SessionState :=
  match x with
  | Arrives h payload t => on_datagram_received cfg (encode h payload) t s
  | Polls t => snd (poll_tx cfg t s)
  end.

(** C25: a lost final ACK can block a connection for good. The client has received
    the SYN-ACK and is Established; its final ACK is lost, and a message it sends
    reaches the server before a repeated SYN-ACK could get another one. The message
    acknowledges the SYN-ACK, so the server stops repeating it; but it is not a pure
    ACK, so the server stays in HandshakeReceived, where it neither acknowledges data
    nor times out. From then on, whatever data and probes of the client arrive and
    however often the server polls, it sends nothing and stays there. *)
Theorem lost_final_ack_blocks cfg c_isn s_isn id t0 t1 t2 t3 t4 channel ty payload t5 t6 xs t :
  is_u32 id -> id <> 0 -> 0 <= c_isn < 2 ^ 32 - 65 -> 0 <= s_isn < 2 ^ 32 - 65 ->
  is_u32 channel -> isReliableChannel ty = true ->
  t4 < u64 (t3 + idle_timeout_ms cfg) -> t4 < u64 (t3 + keepalive_idle_ms cfg) ->
  t5 < u64 (t3 + idle_timeout_ms cfg) -> t5 < u64 (t3 + keepalive_idle_ms cfg) ->
  (forall h p u, Arrives h p u ∈ xs -> client_traffic s_isn id h) ->
  let '(d1, c1) := poll_tx cfg t0 (new_session Client c_isn) in
  let '(d2, s2) := poll_tx cfg t2 (deliver cfg d1 t1 (assign_conn_id id (new_session Server s_isn))) in
  let '(_, c3) := poll_tx cfg t4 (deliver cfg d2 t3 c1) in
  let '(d4, c4) := poll_tx cfg t5 (queue_send channel ty payload c3) in
  st_connection_state c4 = Established /\
  (exists h, d4 = Some (encode h payload) /\ client_traffic s_isn id h) /\
  let s := fold_left (wait_step cfg) xs (deliver cfg d4 t6 s2) in
  st_connection_state s = HandshakeReceived /\ poll_tx cfg t s = (None, s).
Proof.
  intros Hid Hne Hc Hs Hch Hty Ht Hq Ht5 Hq5 Hxs.
  assert (Fc : front_safe (c_isn + 1)) by (unfold front_safe; lia).
  assert (Fs : front_safe (s_isn + 1)) by (unfold front_safe; lia).
  destruct (isn_next c_isn s_isn Fc Fs) as (Uc & Us & Ec & Es).
  destruct (client_syn cfg c_isn Uc t0) as [st1 ->]. cbn [deliver].
  destruct (server_syn cfg c_isn s_isn id Uc t1) as [st2 ->].
  destruct (server_syn_ack cfg c_isn s_isn id Us Hid t1 t2 st2) as [st3 ->]. cbn [deliver].
  destruct (client_syn_ack cfg c_isn s_isn id Uc Us Hid t0 t3 st1 Hne) as [st4 ->].
  destruct (client_final_idle cfg ty c_isn s_isn id Hid Fc Fs t0 t3 t4 st4 Ht Hq)
    as (c & -> & H1 & H2 & H3 & H4 & _).
  destruct (front_safe_next _ Fc) as (Uc1 & _). destruct (front_safe_next _ Fs) as (Us1 & _).
  destruct (send_first cfg id Hid channel ty payload Hch Hty t5 c (c_isn + 1) (s_isn + 1) Uc1 Us1 H1)
    as (c4 & -> & Hw & _).
  { unfold not_timed_out. by rewrite H3. }
  { intros _. by rewrite H4. }
  set (h := data_header id channel ty (c_isn + 1) (s_isn + 1)).
  assert (Hh : client_traffic s_isn id h).
  { split_and!; [by apply data_header_ok|done|symmetry; exact Es|done|by left]. }
  split; [exact (up_established _ _ _ _ _ (wait_up _ _ _ _ _ _ _ Hw))|]. split; [by exists h|]. cbn [deliver].
  assert (Hs0 : wedged id (on_datagram_received cfg (encode h payload) t6
    (server_answered c_isn s_isn id t1 t2 st3))) by (by apply (overtaken_first cfg c_isn s_isn)).
  cbn zeta. set (s0 := on_datagram_received _ _ _ _) in *. clearbody s0.
  assert (Hend : wedged id (fold_left (wait_step cfg) xs s0)).
  { clear -Hxs Hs0 Hid. revert s0 Hs0. induction xs as [|x xs IH]; intros s0 Hs0; [done|]. cbn [fold_left].
    apply IH.
    { intros h p u Hin. apply (Hxs h p u). apply elem_of_cons. by right. }
    destruct x as [h p u|u]; cbn [wait_step].
    - apply (wedged_receive cfg s_isn); [|done]. apply (Hxs h p u). apply elem_of_cons. by left.
    - by rewrite (wedged_poll cfg id). }
  split; [apply Hend|by apply (wedged_poll cfg id)].
Qed.

(** The client's message and its retransmission arrive, and the server polls for a
    long time. *)
Definition sample_message : Header := data_header 5 1 ReliableOrdered 101 201.
Definition sample_wait : list WaitStep :=
  [Polls 50; Arrives sample_message [1; 2] 300; Polls 310; Polls 1000000000].

Lemma sample_wait_traffic h p u : Arrives h p u ∈ sample_wait -> client_traffic 200 5 h.
Proof.
  unfold sample_wait. rewrite !elem_of_cons. intros [|[Heq|[|[|Hin]]]]; try discriminate.
  - injection Heq as -> _ _. split_and!; try reflexivity; [|by left].
    apply data_header_ok; unfold is_u32; (done || lia).
  - by apply not_elem_of_nil in Hin.
Qed.

Lemma lost_final_ack_blocks_witness :
  let '(d1, c1) := poll_tx default_transport 0 (new_session Client 100) in
  let '(d2, s2) := poll_tx default_transport 10
    (deliver default_transport d1 10 (assign_conn_id 5 (new_session Server 200))) in
  let '(_, c3) := poll_tx default_transport 20 (deliver default_transport d2 20 c1) in
  let '(d4, c4) := poll_tx default_transport 30 (queue_send 1 ReliableOrdered [1; 2] c3) in
  let s := fold_left (wait_step default_transport) sample_wait (deliver default_transport d4 40 s2) in
  st_connection_state c4 = Established /\ st_connection_state s = HandshakeReceived.
Proof.
  pose proof (lost_final_ack_blocks default_transport 100 200 5 0 10 10 20 20 1 ReliableOrdered [1; 2]
    30 40 sample_wait 0 ltac:(unfold is_u32; lia) ltac:(discriminate) ltac:(lia) ltac:(lia)
    ltac:(unfold is_u32; lia) eq_refl ltac:(vm_compute; reflexivity) ltac:(vm_compute; reflexivity)
    ltac:(vm_compute; reflexivity) ltac:(vm_compute; reflexivity) sample_wait_traffic) as H.
  destruct (poll_tx default_transport 0 _) as [d1 c1].
  destruct (poll_tx default_transport 10 _) as [d2 s2].
  destruct (poll_tx default_transport 20 _) as [d3 c3].
  destruct (poll_tx default_transport 30 _) as [d4 c4].
  destruct H as (H1 & _ & H2 & _). split; [exact H1|exact H2].
Defined.
