(* ===== verification/Closing.v ===== *)
(** Closing a connection: the FIN exchange between two sessions, over a network
    that loses packets, and what is left behind.

    The active side sends FIN and is Closed when it is acknowledged; the passive
    side goes to Closing when the FIN arrives. *)

From S2P Require Import Prelude StdMap Protocol Utils Codec Config SessionTypes.
From S2P Require Import ConnectionStateMachine TxHandler TxInvariant RxHandler RxInvariant.
From S2P Require Import Session SessionInvariant SessionLifecycle Handshake DataTransfer.
From S2P Require Import ReliableTransfer LossyHandshake.

(** ** Schedules

    The FIN is acknowledged at once and its sender does not time out, so only the
    retransmissions constrain the times. *)

Fixpoint fin_ok (cfg : TransportSettings) (prev : option (Z * Z)) (sends : list (Z * Fate)) : bool :=
  match sends with
  | [] => false
  | (t, fate) :: sends =>
      retry_ok cfg prev t &&
      match fate with
      | DataLost | AckLost _ _ => fin_ok cfg (Some (t, next_retry prev)) sends
      | Acked _ _ _ => true
      end
  end.

(** How often the FIN arrives. *)
Fixpoint fin_arrivals (sends : list (Z * Fate)) : nat :=
  match sends with
  | [] => 0
  | (_, DataLost) :: sends => fin_arrivals sends
  | (_, AckLost _ _) :: sends => S (fin_arrivals sends)
  | (_, Acked _ _ _) :: _ => 1
  end.

(** ** The active side *)

Definition fin_header (cid n ack : Z) : Header := control_header cid (flag_bits FlagFin) n ack 0.

Lemma fin_header_ok cid n ack : is_u32 cid -> is_u32 n -> is_u32 ack -> header_ok (fin_header cid n ack).
Proof. intros. apply control_header_ok; auto with rudp. Qed.

(** Its FIN, number [n], was sent [k + 1] times, last at [t]. *)
Record fin_waiting (s : SessionState) (cid n theirs k t : Z) : Prop := mk_fin_waiting {
  fw_state : st_connection_state s = Closing;
  fw_conn_id : st_conn_id s = cid;
  fw_fin : fin_pending (st_tx s) = false;
  fw_next : next_seq (st_tx s) = u32 (n + 1);
  fw_inflight : exists e, inflight (st_tx s) = [(n, e)] /\
    te_packet e = {| op_header := fin_header cid n theirs; op_payload := [] |} /\
    te_retry_count e = k /\ te_last_send_ms e = t;
  fw_front : next_expected (st_rx s) = theirs;
  fw_bits : received_bits (st_rx s) = 0
}.

(** Its FIN is acknowledged. *)
Record fin_acked (s : SessionState) (cid n theirs : Z) : Prop := mk_fin_acked {
  fa_state : st_connection_state s = Closed;
  fa_conn_id : st_conn_id s = cid;
  fa_inflight : inflight (st_tx s) = [];
  fa_next : next_seq (st_tx s) = u32 (n + 1);
  fa_acked : remote_ack (st_tx s) = u32 (n + 1);
  fa_front : next_expected (st_rx s) = theirs;
  fa_bits : received_bits (st_rx s) = 0
}.

(** What sending leaves alone. *)
Definition kept (s s' : SessionState) : Prop :=
  pending_events (st_rx s') = pending_events (st_rx s) /\ st_role s' = st_role s.

(** ** The passive side *)

(** After the FIN; [owes]: it has to be acknowledged. *)
Record half_closed (s : SessionState) (cid mine theirs : Z) (owes : bool) : Prop := mk_half_closed {
  hc_state : st_connection_state s = Closing;
  hc_conn_id : st_conn_id s = cid;
  hc_fin : fin_pending (st_tx s) = false;
  hc_inflight : inflight (st_tx s) = [];
  hc_pending : pending_send (st_tx s) = [];
  hc_ping : ping_pending (probe (st_tx s)) = false;
  hc_pong : pong_pending (probe (st_tx s)) = false;
  hc_ack_only : ack_only_pending (st_tx s) = owes;
  hc_front : next_expected (st_rx s) = theirs;
  hc_bits : received_bits (st_rx s) = 0
}.

Lemma not_timed_out_closing cfg s t :
  st_connection_state s = Closing -> should_timeout_idle_session cfg s t = false.
Proof. intros H. unfold should_timeout_idle_session. by rewrite H. Qed.

(** In Closing, the handshake step of a poll only sends a pending FIN. *)
Lemma no_handshake_closing cfg now role cid rx tx :
  fin_pending tx = false ->
  try_build_handshake cfg now role cid Closing rx tx = (None, Closing, tx).
Proof.
  intros Hf. unfold try_build_handshake. cbn. by rewrite Hf, !andb_false_r.
Qed.

Section close.
Context (cfg : TransportSettings) (cid : Z) (Hcid : is_u32 cid).

(** The FIN goes out. *)
Lemma send_fin t c n m :
  is_u32 n -> is_u32 m -> idle c cid n m ->
  exists c', poll_tx cfg t (request_close c) = (Some (encode (fin_header cid n m) []), c') /\
    fin_waiting c' cid n m 0 t /\ kept c c'.
Proof.
  intros Hn Hm [Hup Hin Hack]. destruct Hup.
  set (q := request_close c).
  assert (Eq : q = c <| st_connection_state := Closing |>
                     <| st_tx ::= fun tx => tx <| fin_pending := true |> |>).
  { subst q. unfold request_close. by rewrite up_established. }
  assert (Hq : st_connection_state q = Closing) by (by rewrite Eq).
  destruct (poll_tx_handshake cfg t q (fin_header cid n m) [] Closing
    ((st_tx q) <| next_seq ::= fun n => u32 (n + 1) |>
       <| inflight ::= smap_emplace n (sent_entry (fin_header cid n m) t) |>
       <| fin_pending := false |>)) as [st E].
  { by apply not_timed_out_closing. }
  { by apply fin_header_ok. }
  { rewrite schedule_not_established by (by rewrite Hq). unfold try_build_handshake. rewrite Hq.
    rewrite !(bool_decide_eq_false_2 (Closing = _)) by done. rewrite !andb_false_r.
    assert (Ef : fin_pending (st_tx q) = true) by (by rewrite Eq). rewrite Ef.
    rewrite (build_reliable_control t (st_conn_id q) (flag_bits FlagFin)); [|done|].
    - assert (En : next_seq (st_tx q) = n /\ st_conn_id q = cid /\ st_rx q = st_rx c)
        by (by rewrite Eq). destruct En as (-> & -> & ->). rewrite up_front, up_bits. done.
    - rewrite Eq. cbn. congruence. }
  rewrite schedule_not_established in E by (by rewrite Hq). rewrite E. eexists. split; [reflexivity|].
  change (classify_control_kind (fin_header cid n m)) with KindFin. rewrite Eq.
  split; [|done]. constructor; try done; [by rewrite <- up_next|]. exists (sent_entry (fin_header cid n m) t).
  split; [|done].
  change (smap_emplace n (sent_entry (fin_header cid n m) t) (inflight (st_tx c)) =
    [(n, sent_entry (fin_header cid n m) t)]).
  by rewrite Hin.
Qed.

(** ... and again when its timeout has passed. *)
Lemma send_fin_again t c n m k last :
  is_u32 n -> is_u32 m -> fin_waiting c cid n m k last ->
  k < max_retransmit_count cfg -> u64 (last + retransmit_timeout_for cfg k) <= t ->
  exists c', poll_tx cfg t c = (Some (encode (fin_header cid n m) []), c') /\
    fin_waiting c' cid n m (u32 (k + 1)) t /\ kept c c'.
Proof.
  intros Hn Hm [Hs Hi Hf Hnx (e & Hin & Hp & Hk & Hl) Hfr Hb] Hmax Hto.
  assert (Er : refresh_acks (st_rx c) (fin_header cid n m) = fin_header cid n m).
  { unfold refresh_acks. by rewrite Hfr, Hb. }
  destruct (poll_tx_sends cfg t c (fin_header cid n m) [] true Closing
    ((st_tx c) <| inflight := [(n, resend_entry t (st_rx c) e)] |>)) as [st E].
  { by apply not_timed_out_closing. }
  { by apply fin_header_ok. }
  { rewrite schedule_not_established by (by rewrite Hs). rewrite Hs. unfold poll.
    rewrite no_handshake_closing by done. cbn [has_value].
    unfold try_build_retransmit, retransmit_loop. rewrite Hin, Hk, (proj2 (Z.leb_gt _ _)) by done.
    unfold entry_timed_out. rewrite Hl, Hk, (proj2 (Z.leb_le _ _)) by done.
    rewrite andb_false_r, Hp. cbn [op_header op_payload]. by rewrite Er. }
  rewrite schedule_not_established in E by (by rewrite Hs). rewrite E. eexists.
  split; [reflexivity|].
  change (classify_control_kind (fin_header cid n m)) with KindFin.
  split; [|done]. constructor; try done. eexists. split; [reflexivity|].
  split; [|cbn; by rewrite Hk].
  change (te_packet (resend_entry t (st_rx c) e)) with
    (mkOwnedPacket (refresh_acks (st_rx c) (op_header (te_packet e))) (op_payload (te_packet e))).
  rewrite Hp. cbn [op_header op_payload]. by rewrite Er.
Qed.

(** *** The FIN arrives *)

Let fin_view n m := {| pv_header := fin_header cid n m; pv_payload := [] |}.

Lemma receive_fin t s n m rx' :
  is_u32 n -> is_u32 m -> st_conn_id s = cid -> inflight (st_tx s) = [] ->
  on_packet (fin_view n m) KindFin (emit_control_event ConnectionClosed (fin_view n m) "" (st_rx s))
    = (true, rx') ->
  let s' := on_datagram_received cfg (encode (fin_header cid n m) []) t s in
  st_connection_state s' = Closing /\ st_conn_id s' = cid /\ st_rx s' = rx' /\
  st_tx s' = (st_tx s) <| remote_ack := m |> <| remote_ack_bits := 0 |> <| ack_only_pending := true |>.
Proof.
  intros Hn Hm Hi Hin Erx. cbn zeta.
  unfold on_datagram_received. rewrite decode_control by (by apply fin_header_ok).
  fold (fin_view n m). unfold on_decoded. cbn zeta.
  change (classify_control_kind (pv_header (fin_view n m))) with KindFin.
  set (s0 := record_received_stats _ _ _ _).
  assert (Ea : should_adopt_server_conn_id s0 KindFin (pv_header (fin_view n m)) = false).
  { unfold should_adopt_server_conn_id. by rewrite andb_false_r. }
  rewrite Ea.
  assert (Em : has_conn_id_mismatch s0 KindFin (pv_header (fin_view n m)) = false).
  { unfold has_conn_id_mismatch. change (st_conn_id s0) with (st_conn_id s). rewrite Hi.
    cbn [pv_header fin_view fin_header control_header hdr_conn_id].
    by rewrite Z.eqb_refl, andb_false_r. }
  rewrite Em.
  assert (Ed : is_duplicate_client_syn_ack s0 KindFin = false)
    by (unfold is_duplicate_client_syn_ack; by rewrite andb_false_r).
  rewrite Ed. change (handle_probe_receive KindFin t s0) with s0.
  assert (Er : apply_remote_ack cfg (pv_header (fin_view n m)) KindFin (st_tx s0) =
    ((st_tx s) <| remote_ack := m |> <| remote_ack_bits := 0 |>, false)).
  { change (apply_remote_ack cfg (pv_header (fin_view n m)) KindFin (st_tx s0)) with
      (on_remote_ack cfg m 0 (st_tx s)).
    unfold on_remote_ack, erase_acknowledged_inflight. cbn. rewrite Hin. cbn.
    destruct (st_tx s). cbn in *. by subst. }
  rewrite Er. cbn [should_close_after_fin_acknowledgement andb].
  change (decide_connection_transition _ _ KindFin) with (decide_connection_transition Server Closing KindFin).
  set (s3 := apply_connection_decision _ _ _).
  assert (H3 : st_connection_state s3 = Closing /\ st_conn_id s3 = cid /\
    st_rx s3 = emit_control_event ConnectionClosed (fin_view n m) "" (st_rx s) /\
    st_tx s3 = (st_tx s) <| remote_ack := m |> <| remote_ack_bits := 0 |>
                         <| ack_only_pending := true |>).
  { subst s3. unfold apply_connection_decision. cbn [decide_connection_transition dec_valid negb].
    unfold apply_next_state. cbn [dec_next_state].
    repeat case_match; done. }
  clearbody s3. destruct H3 as (A1 & A2 & A3 & A4). rewrite A3, Erx.
  unfold update_post_receive_liveness, schedule_receive_side_ack.
  change (bool_decide (KindFin = KindNone)) with false. cbn [andb negb].
  split_and!; try done. cbn. rewrite A4. done.
Qed.

Definition fin_event (n m : Z) : SessionEvent :=
  {| ev_type := ConnectionClosed; ev_seq := n; ev_channel_id := 0; ev_channel_type := Unreliable;
     ev_payload := []; ev_error_message := "" |}.

(** The FIN is the next number: it is taken, and reported. *)
Lemma receive_fin_first t s n m :
  is_u32 n -> is_u32 m -> idle s cid m n ->
  let s' := on_datagram_received cfg (encode (fin_header cid n m) []) t s in
  half_closed s' cid m (u32 (n + 1)) true /\
  pending_events (st_rx s') = pending_events (st_rx s) ++ [fin_event n m].
Proof.
  intros Hn Hm [Hup Hin _]. destruct Hup. cbn zeta.
  destruct (receive_fin t s n m
    ((emit_control_event ConnectionClosed (fin_view n m) "" (st_rx s))
       <| next_expected := u32 (n + 1) |>)) as (A1 & A2 & A3 & A4); try done.
  { unfold on_packet. by rewrite update_in_order. }
  rewrite A3. split; [|done]. constructor; rewrite ?A3, ?A4; done.
Qed.

(** The FIN again: it is acknowledged again, and reported again. *)
Lemma receive_fin_again t s n m :
  is_u32 n -> is_u32 m -> u32 (n + 1) <> 0 -> half_closed s cid m (u32 (n + 1)) false ->
  let s' := on_datagram_received cfg (encode (fin_header cid n m) []) t s in
  half_closed s' cid m (u32 (n + 1)) true /\
  pending_events (st_rx s') = pending_events (st_rx s) ++ [fin_event n m].
Proof.
  intros Hn Hm H0 []. cbn zeta.
  destruct (receive_fin t s n m (emit_control_event ConnectionClosed (fin_view n m) "" (st_rx s)))
    as (A1 & A2 & A3 & A4); try done.
  { unfold on_packet. by rewrite (update_again _ _ _ n). }
  rewrite A3. split; [|done]. constructor; rewrite ?A3, ?A4; done.
Qed.

(** *** Its acknowledgement *)

Lemma send_fin_ack t s n m :
  is_u32 n -> half_closed s cid m n true ->
  exists s', poll_tx cfg t s = (Some (encode (ack_header cid n) []), s') /\
    half_closed s' cid m n false /\ pending_events (st_rx s') = pending_events (st_rx s).
Proof.
  intros Hn [].
  destruct (poll_tx_sends cfg t s (ack_header cid n) [] false Closing
    ((st_tx s) <| inflight := [] |> <| ack_only_pending := false |>)) as [st E].
  { by apply not_timed_out_closing. }
  { by apply ack_header_ok. }
  { rewrite schedule_not_established by (by rewrite hc_state0). rewrite hc_state0. unfold poll.
    rewrite no_handshake_closing by done. cbn [has_value].
    unfold try_build_retransmit. rewrite hc_inflight0. cbn [retransmit_loop].
    rewrite no_probe by done. cbn [has_value empty_poll_result poll_fatal_error poll_datagram orb].
    unfold try_build_ack_only.
    change (ack_only_pending ((st_tx s) <| inflight := [] |>)) with (ack_only_pending (st_tx s)).
    rewrite hc_ack_only0. cbn [negb has_value].
    rewrite hc_conn_id0, hc_front0, hc_bits0. done. }
  rewrite schedule_not_established in E by (by rewrite hc_state0). rewrite E.
  eexists. split; [reflexivity|].
  change (classify_control_kind (ack_header cid n)) with KindAck. split; [by constructor|done].
Qed.

(** The acknowledgement closes the active side, with one event. *)
Lemma receive_fin_ack t c n m k last :
  is_u32 n -> front_safe m -> fin_waiting c cid n m k last ->
  let c' := on_datagram_received cfg (encode (ack_header cid (u32 (n + 1))) []) t c in
  fin_acked c' cid n m /\ st_role c' = st_role c /\
  pending_events (st_rx c') = pending_events (st_rx c) ++ [fin_event 0 m].
Proof.
  intros Hn Hm [Hs Hi Hf Hnx (e & Hin & Hp & _) Hfr Hb]. cbn zeta.
  unfold on_datagram_received. rewrite decode_control by (apply ack_header_ok; [done|apply u32_range]).
  set (pv := {| pv_header := ack_header cid (u32 (n + 1)); pv_payload := [] |}).
  unfold on_decoded. cbn zeta. change (classify_control_kind (pv_header pv)) with KindAck.
  set (s0 := record_received_stats _ _ _ _).
  assert (Ea : should_adopt_server_conn_id s0 KindAck (pv_header pv) = false).
  { unfold should_adopt_server_conn_id. by rewrite andb_false_r. }
  rewrite Ea.
  assert (Em : has_conn_id_mismatch s0 KindAck (pv_header pv) = false).
  { unfold has_conn_id_mismatch. change (st_conn_id s0) with (st_conn_id c). rewrite Hi.
    cbn [pv_header pv ack_header control_header hdr_conn_id]. by rewrite Z.eqb_refl, andb_false_r. }
  rewrite Em.
  assert (Ed : is_duplicate_client_syn_ack s0 KindAck = false)
    by (unfold is_duplicate_client_syn_ack; by rewrite andb_false_r).
  rewrite Ed. change (handle_probe_receive KindAck t s0) with s0.
  change (apply_remote_ack cfg (pv_header pv) KindAck (st_tx s0)) with
    (on_remote_ack cfg (u32 (n + 1)) 0 (st_tx c)).
  pose proof (on_remote_ack_single cfg n e (st_tx c) Hn Hin) as H.
  destruct (on_remote_ack _ _ _ _) as [tx fin]. destruct H as [-> ->]. rewrite Hp.
  change (hasFlag (op_header {| op_header := fin_header cid n m; op_payload := [] |}) FlagFin)
    with true. unfold should_close_after_fin_acknowledgement.
  cbn [st_connection_state set set_st_tx]. change (st_connection_state s0) with (st_connection_state c).
  rewrite Hs. change (true && bool_decide (Closing = Closing)) with true. cbv iota.
  set (s2 := close_after_fin_acknowledgement _ _).
  assert (Edec : decide_connection_transition (st_role s2) (st_connection_state s2) KindAck =
    default_decision) by (cbn; by rewrite andb_false_r).
  rewrite Edec, decision_default.
  assert (Ep : on_packet pv KindAck (st_rx s2) = (false, st_rx s2)) by (by apply (on_packet_ack _ Hcid _ _ m)).
  rewrite Ep. unfold update_post_receive_liveness, schedule_receive_side_ack.
  change (bool_decide (KindAck = KindNone)) with false. cbn [andb negb]. done.
Qed.

(** *** The whole exchange *)

Section fin_exchange.
Context (n m : Z) (Hn : is_u32 n) (Hm : front_safe m) (Hn1 : u32 (n + 1) <> 0).

(** Before the first transmission of the FIN, or after [prev]. *)
Definition closing_side (prev : option (Z * Z)) (a : SessionState) : Prop :=
  match prev with
  | None => exists a0, a = request_close a0 /\ idle a0 cid n m
  | Some (last, k) => fin_waiting a cid n m k last
  end.

Lemma closing_poll prev t a :
  closing_side prev a -> retry_ok cfg prev t = true ->
  exists a', poll_tx cfg t a = (Some (encode (fin_header cid n m) []), a') /\
    fin_waiting a' cid n m (next_retry prev) t /\ kept a a'.
Proof.
  assert (Hu : is_u32 m) by (by apply front_safe_next).
  destruct prev as [[last k]|]; cbn [closing_side retry_ok next_retry].
  - intros Hw [Hk Hl]%andb_true_iff. apply Z.ltb_lt in Hk. apply Z.leb_le in Hl.
    by apply (send_fin_again t a n m k last).
  - intros (a0 & -> & Hi) _. destruct (send_fin t a0 n m Hn Hu Hi) as (a' & E & Hw & Hev).
    exists a'. split_and!; try done. destruct Hev. unfold kept, request_close.
    by rewrite (up_established _ _ _ _ _ (idle_up _ _ _ _ Hi)).
Qed.

(** The other side, before and after the first arrival. *)
Definition closed_upon (got : bool) (b : SessionState) : Prop :=
  if got then half_closed b cid m (u32 (n + 1)) false else idle b cid m n.

Lemma fin_answered t1 t2 b got :
  closed_upon got b ->
  exists b', poll_tx cfg t2 (on_datagram_received cfg (encode (fin_header cid n m) []) t1 b) =
      (Some (encode (ack_header cid (u32 (n + 1))) []), b') /\
    closed_upon true b' /\
    pending_events (st_rx b') = pending_events (st_rx b) ++ [fin_event n m].
Proof.
  intros Hb. assert (Hu : is_u32 m) by (by apply front_safe_next).
  assert (H : let b1 := on_datagram_received cfg (encode (fin_header cid n m) []) t1 b in
    half_closed b1 cid m (u32 (n + 1)) true /\
    pending_events (st_rx b1) = pending_events (st_rx b) ++ [fin_event n m]).
  { destruct got; [by apply receive_fin_again|by apply receive_fin_first]. }
  cbn zeta in H. destruct H as [H1 H2].
  destruct (send_fin_ack t2 _ _ _ (u32_range _) H1) as (b' & E & H3 & H4).
  exists b'. split_and!; try done. by rewrite H4.
Qed.

Lemma attempts_close sends prev a b got :
  closing_side prev a -> closed_upon got b -> fin_ok cfg prev sends = true ->
  let '(a', b') := attempts cfg sends a b in
  fin_acked a' cid n m /\ st_role a' = st_role a /\ closed_upon true b' /\
  pending_events (st_rx a') = pending_events (st_rx a) ++ [fin_event 0 m] /\
  pending_events (st_rx b') =
    pending_events (st_rx b) ++ replicate (fin_arrivals sends) (fin_event n m).
Proof.
  revert prev a b got. induction sends as [|[t fate] sends IH]; intros prev a b got Ha Hb Hok;
    [done|]. cbn [fin_ok attempts] in *. apply andb_true_iff in Hok as [Hr Hfate].
  destruct (closing_poll prev t a Ha Hr) as (a1 & E1 & Hw & Hev1 & Hrole). rewrite E1.
  destruct fate as [|t1 t2|t1 t2 t3]; cbn [fin_arrivals].
  - specialize (IH (Some (t, next_retry prev)) a1 b got Hw Hb Hfate).
    destruct (attempts cfg sends a1 b) as [a' b']. by rewrite <- Hev1, <- Hrole.
  - destruct (fin_answered t1 t2 b got Hb) as (b1 & E2 & Hb1 & Hev).
    cbn [deliver]. rewrite E2. cbn [snd].
    specialize (IH (Some (t, next_retry prev)) a1 b1 true Hw Hb1 Hfate).
    destruct (attempts cfg sends a1 b1) as [a' b'].
    rewrite Hev1, Hev, Hrole, <- app_assoc in IH. exact IH.
  - destruct (fin_answered t1 t2 b got Hb) as (b1 & E2 & Hb1 & Hev).
    cbn [deliver]. rewrite E2. cbn [deliver].
    destruct (receive_fin_ack t3 a1 n m (next_retry prev) t Hn Hm Hw)
      as (H1 & H2 & H3).
    split_and!; try done; congruence.
Qed.
End fin_exchange.
End close.

(** ** After the close *)

(** A session in Closing with nothing to send. *)
Record dormant (s : SessionState) : Prop := mk_dormant {
  dm_state : st_connection_state s = Closing;
  dm_fin : fin_pending (st_tx s) = false;
  dm_inflight : inflight (st_tx s) = [];
  dm_pending : pending_send (st_tx s) = [];
  dm_ping : ping_pending (probe (st_tx s)) = false;
  dm_pong : pong_pending (probe (st_tx s)) = false;
  dm_ack_only : ack_only_pending (st_tx s) = false
}.

Lemma half_closed_dormant s cid mine theirs : half_closed s cid mine theirs false -> dormant s.
Proof. intros []. by constructor. Qed.

(** No poll moves it, however late: the idle timeout is for Established only. *)
Lemma dormant_poll cfg t s : dormant s -> poll_tx cfg t s = (None, s).
Proof.
  intros []. apply poll_nothing; try done.
  - by apply not_timed_out_closing.
  - apply schedule_not_established. by rewrite dm_state0.
  - rewrite dm_state0. by apply no_handshake_closing.
Qed.

(** A SYN does not either. *)
Lemma dormant_syn cfg t s cid n m :
  is_u32 cid -> is_u32 n -> is_u32 m -> dormant s ->
  dormant (on_datagram_received cfg (encode (control_header cid (flag_bits FlagSyn) n m 0) []) t s).
Proof.
  intros Hcid Hn Hm []. unfold on_datagram_received.
  rewrite decode_control by (apply control_header_ok; auto with rudp).
  set (pv := {| pv_header := _; pv_payload := [] |}). unfold on_decoded. cbn zeta.
  change (classify_control_kind (pv_header pv)) with KindSyn.
  set (s0 := record_received_stats _ _ _ _).
  assert (Ea : should_adopt_server_conn_id s0 KindSyn (pv_header pv) = false).
  { unfold should_adopt_server_conn_id. by rewrite andb_false_r. }
  rewrite Ea.
  assert (Em : has_conn_id_mismatch s0 KindSyn (pv_header pv) = false).
  { unfold has_conn_id_mismatch. by rewrite andb_false_r. }
  rewrite Em.
  assert (Ed : is_duplicate_client_syn_ack s0 KindSyn = false)
    by (unfold is_duplicate_client_syn_ack; by rewrite andb_false_r).
  rewrite Ed. change (handle_probe_receive KindSyn t s0) with s0.
  change (apply_remote_ack cfg (pv_header pv) KindSyn (st_tx s0)) with (st_tx s, false).
  cbn [should_close_after_fin_acknowledgement andb].
  set (s1 := s0 <| st_tx := st_tx s |>).
  assert (Edec : decide_connection_transition (st_role s1) (st_connection_state s1) KindSyn =
    default_decision).
  { change (st_connection_state s1) with (st_connection_state s). rewrite dm_state0. cbn.
    by rewrite andb_false_r. }
  rewrite Edec, decision_default.
  assert (Ep : exists rx, on_packet pv KindSyn (st_rx s1) = (false, rx)).
  { unfold on_packet, update_reliable_receive_state. cbn zeta.
    change (isReliableChannel (hdr_channel_type (pv_header pv)) || bool_decide (KindSyn = KindFin))
      with false. change (is_control_only KindSyn) with true. cbn [orb].
    repeat case_match; simplify_eq; by eexists. }
  destruct Ep as [rx ->]. by constructor.
Qed.

(** The client's poll once it is Closed: a SYN, under the connection id it has. *)
Lemma closed_client_syn cfg t c cid n m :
  is_u32 cid -> is_u32 n -> is_u32 m ->
  st_role c = Client -> st_connection_state c = Closed -> st_conn_id c = cid ->
  next_seq (st_tx c) = n -> remote_ack (st_tx c) = n ->
  next_expected (st_rx c) = m -> received_bits (st_rx c) = 0 ->
  let '(d, c') := poll_tx cfg t c in
  d = Some (encode (control_header cid (flag_bits FlagSyn) n m 0) []) /\
  st_connection_state c' = HandshakeSent.
Proof.
  intros Hcid Hn Hm Hr Hs Hi E1 E2 E3 E4. set (h := control_header _ _ _ _ _).
  assert (Hh : header_ok h) by (apply control_header_ok; auto with rudp).
  assert (Ht : should_timeout_idle_session cfg c t = false)
    by (unfold should_timeout_idle_session; by rewrite Hs).
  pose proof (poll_tx_handshake cfg t c h [] HandshakeSent
    ((st_tx c) <| next_seq ::= fun n => u32 (n + 1) |>
       <| inflight ::= smap_emplace n (sent_entry h t) |>) Ht Hh) as H. cbn zeta in H.
  rewrite schedule_not_established in H by (by rewrite Hs).
  destruct H as [st ->]; [|done]. unfold try_build_handshake. rewrite Hr, Hs.
  rewrite build_reliable_control by (done || congruence). rewrite Hi, E1, E3, E4. done.
Qed.

(** ** Properties *)

(** The two sides of a pair (client, server). *)
Definition side (who : SessionRole) (p : SessionState * SessionState) : SessionState :=
  match who with Client => fst p | Server => snd p end.
Definition peer (who : SessionRole) : SessionRole :=
  match who with Client => Server | Server => Client end.

(** One side calls [request_close] and polls until its FIN is acknowledged. *)
Definition close_by (cfg : TransportSettings) (who : SessionRole) (sends : list (Z * Fate))
    (p : SessionState * SessionState) : SessionState * SessionState :=
  match who with
  | Client => attempts cfg sends (request_close (fst p)) (snd p)
  | Server => let '(s, c) := attempts cfg sends (request_close (snd p)) (fst p) in (c, s)
  end.

Lemma close_by_linked cfg who sends ty cid nc ns ck p :
  is_u32 cid -> front_safe nc -> front_safe ns -> linked ty cid nc ns ck p ->
  fin_ok cfg None sends = true ->
  let p' := close_by cfg who sends p in
  let n := match who with Client => nc | Server => ns end in
  let m := match who with Client => ns | Server => nc end in
  fin_acked (side who p') cid n m /\ st_role (side who p') = who /\
  half_closed (side (peer who) p') cid m (u32 (n + 1)) false /\
  pending_events (st_rx (side who p')) = pending_events (st_rx (side who p)) ++ [fin_event 0 m] /\
  pending_events (st_rx (side (peer who) p')) =
    pending_events (st_rx (side (peer who) p)) ++ replicate (fin_arrivals sends) (fin_event n m).
Proof.
  intros Hcid Hc Hs Hl Hok. destruct p as [c s], (front_safe_next _ Hc) as (Uc & _ & Zc),
    (front_safe_next _ Hs) as (Us & _ & Zs). pose proof (lk_client _ _ _ _ _ _ Hl) as Ic.
  pose proof (lk_server _ _ _ _ _ _ Hl) as Is. cbn [fst snd] in *.
  assert (Er : forall a x y, idle a cid x y ->
    pending_events (st_rx (request_close a)) = pending_events (st_rx a) /\
    st_role (request_close a) = st_role a).
  { intros a x y Ha. unfold request_close. by case_match. }
  destruct (Er c nc ns Ic) as [Ec Rc], (Er s ns nc Is) as [Es Rs].
  pose proof (lk_client_role _ _ _ _ _ _ Hl) as Kc. pose proof (lk_server_role _ _ _ _ _ _ Hl) as Ks.
  cbn [fst snd] in *.
  destruct who; cbn [close_by side peer fst snd].
  - pose proof (attempts_close cfg cid Hcid nc ns Uc Hs Zc sends None (request_close c) s false) as H.
    destruct (attempts cfg sends (request_close c) s) as [c' s'].
    rewrite <- Kc, <- Rc, <- Ec. apply H; [by exists c|done|done].
  - pose proof (attempts_close cfg cid Hcid ns nc Us Hc Zs sends None (request_close s) c false) as H.
    destruct (attempts cfg sends (request_close s) c) as [s' c'].
    rewrite <- Ks, <- Rs, <- Es. apply H; [by exists s|done|done].
Qed.

(** The report of a close. *)
Definition told_closed : AppEvent := (ConnectionClosed, 0, []).

Lemma closed_reports s s' k n m :
  pending_events (st_rx s') = pending_events (st_rx s) ++ replicate k (fin_event n m) ->
  app_events s' = app_events s ++ replicate k told_closed.
Proof.
  intros E. rewrite (received_app _ _ _ E). f_equal. clear E. induction k; [done|]. cbn. by f_equal.
Qed.

(** The messages of a schedule that are sent to a side. *)
Definition sent_to (who : SessionRole) (xs : list Exchange) : list (Z * bytes) :=
  match who with Client => to_client xs | Server => to_server xs end.


(** A FIN that is lost, then one whose acknowledgement is lost, then one that gets
    through. *)
Definition sample_fin : list (Z * Fate) :=
  [(3000, DataLost); (3250, AckLost 3260 3260); (3750, Acked 3760 3760 3770)].


(** Closing with a message in flight can lose it. The client sends a message, which
    is lost, and closes; the FIN arrives with a hole before it, and the server's
    acknowledgement names it in its bitmap. The client takes the FIN as acknowledged
    and is Closed, with the message still in flight and never resent: the next poll
    starts a new handshake. The server's application is told of the close and not of
    the message. *)
Example close_abandons_message :
  let '(c, s) := handshake default_transport 100 200 5 0 10 10 20 20 30 in
  let '(d, c) := poll_tx default_transport 40 (queue_send 1 ReliableOrdered [1; 2] c) in
  let '(fin, c) := poll_tx default_transport 50 (request_close c) in
  let '(ack, s) := poll_tx default_transport 70 (deliver default_transport fin 60 s) in
  let c := deliver default_transport ack 80 c in
  has_value d = true /\ st_connection_state c = Closed /\
  map fst (inflight (st_tx c)) = [101] /\ app_events s = [told_connected; told_closed] /\
  st_connection_state (snd (poll_tx default_transport 1000 c)) = HandshakeSent.
Proof. vm_compute. auto 10. Qed.

(** A SYN with these fields arrives, or the session is polled. *)
Definition knock (cfg : TransportSettings) (syn : Header) (s : SessionState) (x : bool * Z)
    : SessionState :=
  if fst x then on_datagram_received cfg (encode syn []) (snd x) s else snd (poll_tx cfg (snd x) s).

(** A client cannot come back after a graceful close. Once its FIN is
    acknowledged the client is Closed, and its next poll starts a new handshake by
    itself, with a SYN under the old connection id. The server's session is still
    in Closing, and stays there: however often that SYN arrives and whenever the
    server polls, it sends nothing (no SYN-ACK, no RST), it does not time out and it
    never ends. *)
Theorem reconnect_unanswered cfg ty c_isn s_isn id lost t0 t1 answers xs sends t :
  isReliableChannel ty = true -> is_u32 id -> id <> 0 -> 0 <= c_isn -> 0 <= s_isn ->
  c_isn + 1 + Z.of_nat (length xs) < 2 ^ 32 - 64 ->
  s_isn + 1 + Z.of_nat (length xs) < 2 ^ 32 - 64 ->
  syn_times_ok cfg None (lost ++ [t0]) = true -> syn_ack_times_ok cfg None None answers = true ->
  Forall exchange_typed xs -> schedule_ok cfg (handshake_clock None answers) xs = true ->
  fin_ok cfg None sends = true ->
  let p := fold_left (exchange cfg ty) xs (lossy_handshake cfg c_isn s_isn id lost t0 t1 answers) in
  let '(c, s) := close_by cfg Client sends p in
  let '(d, c') := poll_tx cfg t c in
  st_connection_state c' = HandshakeSent /\
  exists syn, d = Some (encode syn []) /\ classify_control_kind syn = KindSyn /\
    hdr_conn_id syn = id /\
    forall ks t', let s' := fold_left (knock cfg syn) ks s in
      poll_tx cfg t' s' = (None, s') /\ st_connection_state s' = Closing.
Proof.
  intros Hty Hid Hne Hc Hs Hbc Hbs Hsyn Hack Hxs Hok Hfin.
  destruct (lossy_handshake_linked cfg ty c_isn s_isn id Hid Hne ltac:(unfold front_safe; lia)
    ltac:(unfold front_safe; lia) lost t0 t1 answers Hsyn Hack) as (Hl & _ & _).
  destruct (exchanges_deliver cfg ty Hty id Hid xs (c_isn + 1) (s_isn + 1) _ _ Hxs ltac:(lia) ltac:(lia)
    Hbc Hbs Hl Hok) as ((nc & ns & ck & Hl' & Bc & Bs) & _ & _).
  cbn zeta. set (p := fold_left _ _ _) in *. clearbody p.
  assert (Fc : front_safe nc) by (unfold front_safe; lia).
  assert (Fs : front_safe ns) by (unfold front_safe; lia).
  pose proof (close_by_linked cfg Client sends ty id nc ns ck p Hid Fc Fs Hl' Hfin) as H.
  cbn zeta in H. destruct (close_by cfg Client sends p) as [c s]. cbn [side peer fst snd] in H.
  destruct H as ([] & Hr & Hh & _). apply half_closed_dormant in Hh.
  destruct (front_safe_next ns Fs) as (Us & _).
  pose proof (closed_client_syn cfg t c id (u32 (nc + 1)) ns Hid (u32_range _) Us Hr) as H.
  destruct (poll_tx cfg t c) as [d c']. destruct H as [Hd Hs']; try done.
  split; [done|]. eexists. split_and!; [exact Hd|done|done|].
  intros ks t'. cbn zeta.
  assert (Hd' : dormant (fold_left (knock cfg (control_header id (flag_bits FlagSyn)
    (u32 (nc + 1)) ns 0)) ks s)).
  { apply fold_left_inv; [|done]. intros s1 [[] t1'] Hs1; cbn [knock fst snd].
    - apply dormant_syn; try done. apply u32_range.
    - by rewrite dormant_poll. }
  split; [by apply dormant_poll|apply Hd'].
Qed.

Lemma reconnect_unanswered_witness :
  let p := fold_left (exchange sample_settings ReliableOrdered) sample_schedule
    (lossy_handshake sample_settings 100 200 5 sample_lost 300 310 sample_answers) in
  let '(c, s) := close_by sample_settings Client sample_fin p in
  let '(d, c') := poll_tx sample_settings 4000 c in
  st_connection_state c' = HandshakeSent /\
  exists syn, d = Some (encode syn []) /\ hdr_conn_id syn = 5 /\
    st_connection_state (fold_left (knock sample_settings syn)
      [(true, 4010); (false, 4010); (true, 4260); (false, 1000000)] s) = Closing.
Proof.
  pose proof (reconnect_unanswered sample_settings ReliableOrdered 100 200 5 sample_lost 300 310
    sample_answers sample_schedule sample_fin 4000 eq_refl ltac:(unfold is_u32; lia) ltac:(discriminate)
    ltac:(lia) ltac:(lia) ltac:(vm_compute; reflexivity) ltac:(vm_compute; reflexivity)
    ltac:(vm_compute; reflexivity) ltac:(vm_compute; reflexivity)) as H.
  cbn zeta in *. destruct (close_by _ _ _ _) as [c s]. destruct (poll_tx _ _ c) as [d c'].
  destruct H as (H1 & syn & H2 & _ & H3 & H4); [|reflexivity|reflexivity|].
  - exact sample_schedule_typed.
  - split; [exact H1|]. exists syn. split; [exact H2|split; [exact H3|]].
    apply (H4 [(true, 4010); (false, 4010); (true, 4260); (false, 1000000)] 0).
Defined.
