(* ===== verification/ServerSessionManager.v ===== *)
(** The server's session table ([src/ServerSessionManager.cpp]): routing of
    datagrams by endpoint and connection id, promotion of pending sessions,
    clean-up, and the allocation of connection ids.

    An [unordered_map] is a [gmap]; a loop over one takes the visiting order as an
    argument ([order]), since the container does not fix it: the theorems hold
    for every order that lists each key once. [std::random_device] is the argument
    [rd], the words it will return, with the number of words read so far in the
    state; [allocate_conn_id] draws until it finds a free id, so the operations
    that may create a session take a bound on the draws and return [None] when it
    is exhausted. *)

From stdpp Require Import countable.
From S2P Require Import Prelude StdMap Protocol Utils Codec Config SessionTypes.
From S2P Require Import ConnectionStateMachine TxHandler RxHandler Session.

Record EndpointKey := mkEndpoint { address : string; port : Z }.

#[export] Instance EndpointKey_eq_dec : EqDecision EndpointKey.
Proof. solve_decision. Defined.
#[export] Instance EndpointKey_countable : Countable EndpointKey :=
  inj_countable' (fun e => (address e, port e)) (fun x => mkEndpoint (fst x) (snd x))
    (fun e => match e with mkEndpoint _ _ => eq_refl end).

(** [std::hash] is a parameter; [std::size_t] has 64 bits. *)
Definition hash_combine (seed value : Z) : Z :=
  Z.lxor seed (u64 (u64 (u64 (value + 0x9e3779b97f4a7c15) + u64 (Z.shiftl seed 6)) + Z.shiftr seed 2)).

Definition EndpointKeyHash (hash_string : string -> Z) (hash_u16 : Z -> Z) (endpoint : EndpointKey)
    : Z :=
  let seed := hash_string (address endpoint) in
  hash_combine seed (hash_u16 (port endpoint)).

Record OutboundDatagram := mkOutbound { out_endpoint : EndpointKey; out_bytes : bytes }.

Record ServerSessionEvent := mkServerEvent {
  sev_endpoint : EndpointKey;
  sev_conn_id : option Z;
  sev_event : SessionEvent
}.

Record Manager := mkManager {
  pending_by_endpoint : gmap EndpointKey SessionState;
  active_by_conn_id : gmap Z SessionState;
  active_conn_id_by_endpoint : gmap EndpointKey Z;
  retired_conn_ids : gset Z;
  draws : nat
}.
#[export] Instance set_pending_by_endpoint : Setter pending_by_endpoint := fun f r =>
  mkManager (f (pending_by_endpoint r)) (active_by_conn_id r) (active_conn_id_by_endpoint r)
    (retired_conn_ids r) (draws r).
#[export] Instance set_active_by_conn_id : Setter active_by_conn_id := fun f r =>
  mkManager (pending_by_endpoint r) (f (active_by_conn_id r)) (active_conn_id_by_endpoint r)
    (retired_conn_ids r) (draws r).
#[export] Instance set_active_conn_id_by_endpoint : Setter active_conn_id_by_endpoint := fun f r =>
  mkManager (pending_by_endpoint r) (active_by_conn_id r) (f (active_conn_id_by_endpoint r))
    (retired_conn_ids r) (draws r).
#[export] Instance set_retired_conn_ids : Setter retired_conn_ids := fun f r =>
  mkManager (pending_by_endpoint r) (active_by_conn_id r) (active_conn_id_by_endpoint r)
    (f (retired_conn_ids r)) (draws r).
#[export] Instance set_draws : Setter draws := fun f r =>
  mkManager (pending_by_endpoint r) (active_by_conn_id r) (active_conn_id_by_endpoint r)
    (retired_conn_ids r) (f (draws r)).

Definition empty_manager : Manager := mkManager ∅ ∅ ∅ ∅ 0.

(** ** Queries *)

Definition pending_session_count (m : Manager) : Z := Z.of_nat (size (pending_by_endpoint m)).
Definition active_session_count (m : Manager) : Z := Z.of_nat (size (active_by_conn_id m)).

Definition find_pending_session (endpoint : EndpointKey) (m : Manager) : option SessionState :=
  pending_by_endpoint m !! endpoint.
Definition find_active_session (conn_id : Z) (m : Manager) : option SessionState :=
  active_by_conn_id m !! conn_id.
Definition has_pending_session (endpoint : EndpointKey) (m : Manager) : bool :=
  has_value (find_pending_session endpoint m).
Definition has_active_session (conn_id : Z) (m : Manager) : bool :=
  has_value (find_active_session conn_id m).
Definition pending_conn_id (endpoint : EndpointKey) (m : Manager) : option Z :=
  st_conn_id <$> find_pending_session endpoint m.
Definition active_conn_id (endpoint : EndpointKey) (m : Manager) : option Z :=
  active_conn_id_by_endpoint m !! endpoint.
Definition pending_connection_state (endpoint : EndpointKey) (m : Manager)
    : option ConnectionState :=
  st_connection_state <$> find_pending_session endpoint m.
Definition active_stats (conn_id : Z) (m : Manager) : option SessionStats :=
  st_stats <$> find_active_session conn_id m.

Definition is_terminal_state (state : ConnectionState) : bool :=
  bool_decide (state = Reset) || bool_decide (state = Closed).

Definition is_active_endpoint_match (endpoint : EndpointKey) (conn_id : Z) (m : Manager) : bool :=
  match active_conn_id_by_endpoint m !! endpoint with
  | Some c => c =? conn_id
  | None => false
  end.

(** ** Clean-up and promotion *)

Definition cleanup_pending_session (endpoint : EndpointKey) (m : Manager) : Manager :=
  match find_pending_session endpoint m with
  | None => m
  | Some session =>
      let conn_id := st_conn_id session in
      let m := if negb (conn_id =? 0)
               then m <| retired_conn_ids ::= fun r => {[conn_id]} ∪ r |> else m in
      m <| pending_by_endpoint ::= delete endpoint |>
  end.

Definition cleanup_active_session (endpoint : EndpointKey) (conn_id : Z) (m : Manager) : Manager :=
  let m := if negb (conn_id =? 0)
           then m <| retired_conn_ids ::= fun r => {[conn_id]} ∪ r |> else m in
  let m := m <| active_by_conn_id ::= delete conn_id |> in
  match active_conn_id_by_endpoint m !! endpoint with
  | Some c => if c =? conn_id then m <| active_conn_id_by_endpoint ::= delete endpoint |> else m
  | None => m
  end.

Definition cleanup_pending_if_terminal (endpoint : EndpointKey) (m : Manager) : Manager :=
  match find_pending_session endpoint m with
  | None => m
  | Some session =>
      if negb (is_terminal_state (st_connection_state session)) then m
      else cleanup_pending_session endpoint m
  end.

Definition cleanup_active_if_terminal (endpoint : EndpointKey) (conn_id : Z) (m : Manager)
    : Manager :=
  match find_active_session conn_id m with
  | None => m
  | Some session =>
      if negb (is_terminal_state (st_connection_state session)) then m
      else cleanup_active_session endpoint conn_id m
  end.

Definition promote_pending_session (endpoint : EndpointKey) (m : Manager) : Manager :=
  match find_pending_session endpoint m with
  | None => m
  | Some session =>
      let conn_id := st_conn_id session in
      if conn_id =? 0 then m
      else m <| active_conn_id_by_endpoint ::= fun a => <[endpoint := conn_id]> a |>
             <| active_by_conn_id ::= fun a => <[conn_id := session]> a |>
             <| pending_by_endpoint ::= delete endpoint |>
  end.

(** ** Connection ids *)

Definition conn_id_is_in_use (conn_id : Z) (m : Manager) : bool :=
  if conn_id =? 0 then true
  else if bool_decide (conn_id ∈ retired_conn_ids m) then true
  else if has_value (active_by_conn_id m !! conn_id) then true
  else existsb (fun x => st_conn_id (snd x) =? conn_id) (map_to_list (pending_by_endpoint m)).

(** Two words of the device, from position [n]: the upper and the lower half. *)
Definition draw (rd : nat -> Z) (n : nat) : Z := generate_initial_seq (rd n) (rd (S n)).

(** [do { value = ...; } while (conn_id_is_in_use(value))], at most [fuel] draws. *)
Fixpoint allocate_conn_id (rd : nat -> Z) (fuel : nat) (m : Manager) : option (Z * Manager) :=
  match fuel with
  | O => None
  | S fuel =>
      let value := draw rd (draws m) in
      let m := m <| draws ::= fun n => S (S n) |> in
      if conn_id_is_in_use value m then allocate_conn_id rd fuel m else Some (value, m)
  end.

(** The boolean: the iterator returned is not [end()]. *)
Definition ensure_session_for_new_peer (rd : nat -> Z) (fuel : nat) (endpoint : EndpointKey)
    (m : Manager) : option (bool * Manager) :=
  match find_pending_session endpoint m with
  | Some _ => Some (true, m)
  | None =>
      match active_conn_id_by_endpoint m !! endpoint with
      | Some _ => Some (false, m)
      | None =>
          let session := new_random_session Server (rd (draws m)) (rd (S (draws m))) in
          let m := m <| draws ::= fun n => S (S n) |>
                     <| pending_by_endpoint ::= fun p => <[endpoint := session]> p |> in
          match allocate_conn_id rd fuel m with
          | None => None
          | Some (conn_id, m) =>
              Some (true, m <| pending_by_endpoint ::= fun p =>
                                 <[endpoint := assign_conn_id conn_id session]> p |>)
          end
      end
  end.

(** ** Routing *)

Definition try_dispatch_active (cfg : TransportSettings) (endpoint : EndpointKey) (bs : bytes)
    (conn_id now_ms : Z) (m : Manager) : bool * Manager :=
  match find_active_session conn_id m with
  | None => (false, m)
  | Some session =>
      let session := Session.on_datagram_received cfg bs now_ms session in
      let m := m <| active_by_conn_id ::= fun a => <[conn_id := session]> a |> in
      (true, cleanup_active_if_terminal endpoint conn_id m)
  end.

Definition try_dispatch_pending (cfg : TransportSettings) (endpoint : EndpointKey) (bs : bytes)
    (now_ms : Z) (m : Manager) : bool * Manager :=
  match find_pending_session endpoint m with
  | None => (false, m)
  | Some session =>
      let session := Session.on_datagram_received cfg bs now_ms session in
      let m := m <| pending_by_endpoint ::= fun p => <[endpoint := session]> p |> in
      if bool_decide (st_connection_state session = Established)
      then (true, promote_pending_session endpoint m)
      else (true, cleanup_pending_if_terminal endpoint m)
  end.

Definition route_existing_active (cfg : TransportSettings) (endpoint : EndpointKey) (bs : bytes)
    (header : Header) (now_ms : Z) (m : Manager) : bool * Manager :=
  if hdr_conn_id header =? 0 then (false, m)
  else if negb (has_active_session (hdr_conn_id header) m) then (false, m)
  else if negb (is_active_endpoint_match endpoint (hdr_conn_id header) m) then (true, m)
  else try_dispatch_active cfg endpoint bs (hdr_conn_id header) now_ms m.

Definition route_existing_pending := try_dispatch_pending.

Definition route_new_peer (cfg : TransportSettings) (rd : nat -> Z) (fuel : nat)
    (endpoint : EndpointKey) (bs : bytes) (header : Header) (now_ms : Z) (m : Manager)
    : option (bool * Manager) :=
  if negb (hdr_conn_id header =? 0) then Some (false, m)
  else
    match ensure_session_for_new_peer rd fuel endpoint m with
    | None => None
    | Some (false, m) => Some (false, m)
    | Some (true, m) => Some (true, snd (try_dispatch_pending cfg endpoint bs now_ms m))
    end.

Definition on_datagram_received (cfg : TransportSettings) (rd : nat -> Z) (fuel : nat)
    (endpoint : EndpointKey) (bs : bytes) (now_ms : Z) (m : Manager) : option Manager :=
  match decode bs with
  | None => Some m
  | Some decoded =>
      let '(routed, m) := route_existing_active cfg endpoint bs (pv_header decoded) now_ms m in
      if routed then Some m
      else
        let '(routed, m) := route_existing_pending cfg endpoint bs now_ms m in
        if routed then Some m
        else
          match route_new_peer cfg rd fuel endpoint bs (pv_header decoded) now_ms m with
          | None => None
          | Some (_, m) => Some m
          end
  end.

(** ** Polling

    The accumulators are the out-parameters [outbound] and [*_to_cleanup]. *)

Definition collect_pending_step (cfg : TransportSettings) (now_ms : Z)
    (acc : Manager * list OutboundDatagram * list EndpointKey) (endpoint : EndpointKey)
    : Manager * list OutboundDatagram * list EndpointKey :=
  let '(m, outbound, pending_to_cleanup) := acc in
  match find_pending_session endpoint m with
  | None => acc
  | Some session =>
      let '(bs, session) := Session.poll_tx cfg now_ms session in
      let m := m <| pending_by_endpoint ::= fun p => <[endpoint := session]> p |> in
      match bs with
      | Some bs => (m, outbound ++ [mkOutbound endpoint bs], pending_to_cleanup)
      | None =>
          if is_terminal_state (st_connection_state session)
          then (m, outbound, pending_to_cleanup ++ [endpoint])
          else (m, outbound, pending_to_cleanup)
      end
  end.

Definition collect_pending_tx (cfg : TransportSettings) (now_ms : Z) (order : list EndpointKey)
    (m : Manager) (outbound : list OutboundDatagram)
    : Manager * list OutboundDatagram * list EndpointKey :=
  fold_left (collect_pending_step cfg now_ms) order (m, outbound, []).

Definition collect_active_step (cfg : TransportSettings) (now_ms : Z)
    (acc : Manager * list OutboundDatagram * list (EndpointKey * Z)) (endpoint : EndpointKey)
    : Manager * list OutboundDatagram * list (EndpointKey * Z) :=
  let '(m, outbound, active_to_cleanup) := acc in
  match active_conn_id_by_endpoint m !! endpoint with
  | None => acc
  | Some conn_id =>
      match find_active_session conn_id m with
      | None => acc
      | Some session =>
          let '(bs, session) := Session.poll_tx cfg now_ms session in
          let m := m <| active_by_conn_id ::= fun a => <[conn_id := session]> a |> in
          match bs with
          | Some bs => (m, outbound ++ [mkOutbound endpoint bs], active_to_cleanup)
          | None =>
              if is_terminal_state (st_connection_state session)
              then (m, outbound, active_to_cleanup ++ [(endpoint, conn_id)])
              else (m, outbound, active_to_cleanup)
          end
      end
  end.

Definition collect_active_tx (cfg : TransportSettings) (now_ms : Z) (order : list EndpointKey)
    (m : Manager) (outbound : list OutboundDatagram)
    : Manager * list OutboundDatagram * list (EndpointKey * Z) :=
  fold_left (collect_active_step cfg now_ms) order (m, outbound, []).

(** [pending_order] and [active_order]: the orders in which the two endpoint maps
    are visited. *)
Definition poll_tx (cfg : TransportSettings) (now_ms : Z)
    (pending_order active_order : list EndpointKey) (m : Manager)
    : list OutboundDatagram * Manager :=
  let '(m, outbound, pending_to_cleanup) := collect_pending_tx cfg now_ms pending_order m [] in
  let '(m, outbound, active_to_cleanup) :=
    collect_active_tx cfg now_ms active_order m outbound in
  let m := fold_left (fun m endpoint => cleanup_pending_session endpoint m) pending_to_cleanup m in
  let m := fold_left (fun m x => cleanup_active_session (fst x) (snd x) m) active_to_cleanup m in
  (outbound, m).

(** ** Application side *)

Definition drain_active_events (conn_id : Z) (m : Manager) : list SessionEvent * Manager :=
  match find_active_session conn_id m with
  | None => ([], m)
  | Some session =>
      let '(events, session) := Session.drain_events session in
      (events, m <| active_by_conn_id ::= fun a => <[conn_id := session]> a |>)
  end.

Definition queue_send (conn_id channel_id : Z) (channel_type : ChannelType) (payload : bytes)
    (m : Manager) : bool * Manager :=
  match find_active_session conn_id m with
  | None => (false, m)
  | Some session =>
      (true, m <| active_by_conn_id ::= fun a =>
                  <[conn_id := Session.queue_send channel_id channel_type payload session]> a |>)
  end.

Definition drain_pending_step (acc : Manager * list ServerSessionEvent) (endpoint : EndpointKey)
    : Manager * list ServerSessionEvent :=
  let '(m, events) := acc in
  match find_pending_session endpoint m with
  | None => acc
  | Some session =>
      let '(drained, session) := Session.drain_events session in
      let conn_id := if negb (st_conn_id session =? 0) then Some (st_conn_id session) else None in
      (m <| pending_by_endpoint ::= fun p => <[endpoint := session]> p |>,
       events ++ map (mkServerEvent endpoint conn_id) drained)
  end.

Definition drain_active_step (acc : Manager * list ServerSessionEvent) (endpoint : EndpointKey)
    : Manager * list ServerSessionEvent :=
  let '(m, events) := acc in
  match active_conn_id_by_endpoint m !! endpoint with
  | None => acc
  | Some conn_id =>
      match find_active_session conn_id m with
      | None => acc
      | Some session =>
          let '(drained, session) := Session.drain_events session in
          (m <| active_by_conn_id ::= fun a => <[conn_id := session]> a |>,
           events ++ map (mkServerEvent endpoint (Some conn_id)) drained)
      end
  end.

Definition drain_events (pending_order active_order : list EndpointKey) (m : Manager)
    : list ServerSessionEvent * Manager :=
  let acc := fold_left drain_pending_step pending_order (m, []) in
  let '(m, events) := fold_left drain_active_step active_order acc in
  (events, m).
