(* ===== verification/ManagerInvariant.v ===== *)
(** The consistency of the server's session table, kept by every operation, and
    the isolation of endpoints from each other. *)

From S2P Require Import Prelude StdMap Protocol Utils Codec Config SessionTypes.
From S2P Require Import ConnectionStateMachine TxHandler TxInvariant RxHandler RxInvariant.
From S2P Require Import Session SessionInvariant SessionLifecycle ServerSessionManager.

(** ** The interface to [Session]

    What the table relies on: a server session keeps its role, its id and its
    invariant, moves along the life cycle, and a poll that returns a datagram
    does not change the connection state. *)

Definition server_session (cfg : TransportSettings) (s : SessionState) : Prop :=
  session_ok cfg s /\ st_role s = Server.

Class SessionChange (cfg : TransportSettings) (s s' : SessionState) : Prop := {
  sc_server : server_session cfg s -> server_session cfg s';
  sc_id : server_session cfg s -> st_conn_id s' = st_conn_id s;
  sc_life : server_session cfg s ->
            lifecycle Server (st_connection_state s) (st_connection_state s')
}.

#[export] Instance received_change cfg bs now s :
  Forall is_u8 bs -> SessionChange cfg s (Session.on_datagram_received cfg bs now s).
Proof.
  intros Hb. constructor; intros [Hs Hr].
  - split; [by apply on_datagram_received_ok|]. rewrite <- Hr. by apply received_lifecycle.
  - unfold Session.on_datagram_received. destruct (decode bs) as [pv|] eqn:Ed; [|done].
    destruct (on_decoded_cases cfg pv (Z.of_nat (length bs)) now s
                (decode_packet_ok bs pv Hb Ed) Hs) as (_ & -> & _).
    unfold adopted_id, should_adopt_server_conn_id. by rewrite Hr.
  - rewrite <- Hr. by apply received_lifecycle.
Qed.

#[export] Instance polled_change cfg now s :
  settings_typed cfg -> is_u64 now -> SessionChange cfg s (snd (Session.poll_tx cfg now s)).
Proof.
  intros Hc Hn. constructor; intros [Hs Hr].
  - split; [by apply poll_tx_ok|]. rewrite <- Hr. by apply poll_tx_lifecycle.
  - destruct (Session.poll_tx cfg now s) as [o s'] eqn:E.
    apply poll_tx_cases in E as (_ & Hi & _); done.
  - rewrite <- Hr. by apply poll_tx_lifecycle.
Qed.

#[export] Instance drained_change cfg s : SessionChange cfg s (snd (Session.drain_events s)).
Proof.
  constructor; intros [Hs Hr]; [|done|constructor].
  split; [by apply drain_events_ok|done].
Qed.

#[export] Instance queued_change cfg id t p s :
  is_u32 id -> channel_named t -> Forall is_u8 p ->
  SessionChange cfg s (Session.queue_send id t p s).
Proof.
  intros. constructor; intros [Hs Hr]; [|done|constructor].
  split; [by apply queue_send_ok|done].
Qed.

Lemma polled_some_state cfg now s bs s' :
  settings_typed cfg -> is_u64 now -> server_session cfg s ->
  Session.poll_tx cfg now s = (Some bs, s') -> st_connection_state s' = st_connection_state s.
Proof.
  intros Hc Hn [Hs Hr] E. apply poll_tx_cases in E as (_ & _ & H); try done.
  destruct (should_timeout_idle_session cfg s now); [by destruct H|].
  destruct H as [[? _]|[-> _]]; [done|]. unfold polled_state. by rewrite Hr.
Qed.

(** ** The table *)

Record mgr_wf (cfg : TransportSettings) (m : Manager) : Prop := mk_mgr_wf {
  mw_pending : forall e s, pending_by_endpoint m !! e = Some s ->
    server_session cfg s /\ st_conn_id s <> 0 /\
    active_by_conn_id m !! st_conn_id s = None /\ ~ (st_conn_id s ∈ retired_conn_ids m) /\
    active_conn_id_by_endpoint m !! e = None;
  mw_pending_inj : forall e e' s s', pending_by_endpoint m !! e = Some s ->
    pending_by_endpoint m !! e' = Some s' -> st_conn_id s = st_conn_id s' -> e = e';
  mw_active : forall c s, active_by_conn_id m !! c = Some s ->
    server_session cfg s /\ st_conn_id s = c /\ c <> 0 /\ ~ (c ∈ retired_conn_ids m) /\
    exists e, active_conn_id_by_endpoint m !! e = Some c;
  mw_bound : forall e c, active_conn_id_by_endpoint m !! e = Some c ->
    is_Some (active_by_conn_id m !! c);
  mw_inj : forall e e' c, active_conn_id_by_endpoint m !! e = Some c ->
    active_conn_id_by_endpoint m !! e' = Some c -> e = e'
}.

(** The states a session may rest in between operations. *)
Definition pending_live (s : SessionState) : Prop :=
  st_connection_state s = HandshakeReceived \/ st_connection_state s = Closing.
Definition active_live (s : SessionState) : Prop :=
  st_connection_state s = Established \/ st_connection_state s = Closing.

Record mgr_ok (cfg : TransportSettings) (m : Manager) : Prop := mk_mgr_ok {
  mo_wf : mgr_wf cfg m;
  mo_pending_live : forall e s, pending_by_endpoint m !! e = Some s -> pending_live s;
  mo_active_live : forall c s, active_by_conn_id m !! c = Some s -> active_live s
}.

Lemma empty_manager_ok cfg : mgr_ok cfg empty_manager.
Proof. constructor; [constructor|..]; cbn; intros *; by rewrite ?lookup_empty. Qed.

Section table.
Context (cfg : TransportSettings).

(** Replacing a session by a later state of itself. *)
Lemma wf_update_pending m e s s' :
  mgr_wf cfg m -> pending_by_endpoint m !! e = Some s -> SessionChange cfg s s' ->
  mgr_wf cfg (m <| pending_by_endpoint ::= fun p => <[e := s']> p |>).
Proof.
  intros [Hp Hpi Ha Hb Hi] He [Hsv Hid _].
  destruct (Hp e s He) as (H1 & H2 & H3 & H4 & H5). specialize (Hsv H1). specialize (Hid H1).
  constructor; cbn; try done.
  - intros e' x. rewrite lookup_insert_Some. intros [[<- <-]|[Hne Hx]]; [|by apply Hp].
    by rewrite Hid.
  - intros e1 e2 x y. rewrite !lookup_insert_Some.
    intros [[<- <-]|[Hn1 Hx]] [[<- <-]|[Hn2 Hy]] Heq; try done.
    + rewrite Hid in Heq. by eapply Hpi.
    + rewrite Hid in Heq. by eapply Hpi.
    + by eapply Hpi.
Qed.

Lemma wf_update_active m c s s' :
  mgr_wf cfg m -> active_by_conn_id m !! c = Some s -> SessionChange cfg s s' ->
  mgr_wf cfg (m <| active_by_conn_id ::= fun a => <[c := s']> a |>).
Proof.
  intros [Hp Hpi Ha Hb Hi] Hc [Hsv Hid _].
  destruct (Ha c s Hc) as (H1 & H2 & H3 & H4 & H5). specialize (Hsv H1). specialize (Hid H1).
  constructor; cbn; try done.
  - intros e x Hx. destruct (Hp e x Hx) as (P1 & P2 & P3 & P4 & P5).
    repeat (split; [done|]). split; [|done].
    rewrite lookup_insert_ne; [done|]. intros ->. congruence.
  - intros c' x. rewrite lookup_insert_Some. intros [[<- <-]|[Hne Hx]]; [|by apply Ha].
    rewrite Hid. done.
  - intros e c' He. destruct (decide (c' = c)) as [->|Hne].
    + rewrite lookup_insert_eq. by eexists.
    + rewrite lookup_insert_ne by done. by eapply Hb.
Qed.

Lemma wf_cleanup_pending m e : mgr_wf cfg m -> mgr_wf cfg (cleanup_pending_session e m).
Proof.
  intros Hm. unfold cleanup_pending_session, find_pending_session.
  destruct (pending_by_endpoint m !! e) as [s|] eqn:He; [|done].
  destruct Hm as [Hp Hpi Ha Hb Hi]. destruct (Hp e s He) as (H1 & H2 & H3 & H4 & H5).
  rewrite (proj2 (Z.eqb_neq _ _)) by done. constructor; cbn; try done.
  - intros e' x. rewrite lookup_delete_Some. intros [Hne Hx].
    destruct (Hp e' x Hx) as (P1 & P2 & P3 & P4 & P5). repeat (split; [done|]).
    split; [|done]. apply not_elem_of_union. split; [|done].
    apply not_elem_of_singleton. intros Heq. by apply Hne, (Hpi e e' s x).
  - intros e1 e2 x y. rewrite !lookup_delete_Some. intros [_ Hx] [_ Hy]. by apply Hpi.
  - intros c x Hx. destruct (Ha c x Hx) as (A1 & A2 & A3 & A4 & A5). repeat (split; [done|]).
    split; [|done]. apply not_elem_of_union. split; [|done].
    apply not_elem_of_singleton. intros ->. congruence.
Qed.

Lemma wf_cleanup_active m e c :
  mgr_wf cfg m -> active_conn_id_by_endpoint m !! e = Some c ->
  mgr_wf cfg (cleanup_active_session e c m).
Proof.
  intros [Hp Hpi Ha Hb Hi] He. unfold cleanup_active_session.
  destruct (Hb e c He) as [s Hs]. destruct (Ha c s Hs) as (H1 & H2 & H3 & H4 & H5).
  rewrite (proj2 (Z.eqb_neq _ _)) by done. cbn. rewrite He, Z.eqb_refl.
  constructor; cbn.
  - intros e' x Hx. destruct (Hp e' x Hx) as (P1 & P2 & P3 & P4 & P5). repeat (split; [done|]).
    assert (st_conn_id x <> c) by congruence.
    split; [by rewrite lookup_delete_ne|]. split; [set_solver|].
    rewrite lookup_delete_ne; [done|]. intros ->. congruence.
  - done.
  - intros c' x. rewrite lookup_delete_Some. intros [Hne Hx].
    destruct (Ha c' x Hx) as (A1 & A2 & A3 & A4 & e' & A5). repeat (split; [done|]).
    split; [set_solver|]. exists e'. rewrite lookup_delete_ne; [done|]. intros ->. congruence.
  - intros e' c'. rewrite lookup_delete_Some. intros [Hne Hx].
    rewrite lookup_delete_ne; [by eapply Hb|]. intros ->. by apply Hne, (Hi e e' c').
  - intros e1 e2 c'. rewrite !lookup_delete_Some. intros [_ Hx] [_ Hy]. by eapply Hi.
Qed.

Lemma wf_promote m e : mgr_wf cfg m -> mgr_wf cfg (promote_pending_session e m).
Proof.
  intros Hm. unfold promote_pending_session, find_pending_session.
  destruct (pending_by_endpoint m !! e) as [s|] eqn:He; [|done].
  destruct Hm as [Hp Hpi Ha Hb Hi]. destruct (Hp e s He) as (H1 & H2 & H3 & H4 & H5).
  rewrite (proj2 (Z.eqb_neq _ _)) by done. constructor; cbn.
  - intros e' x. rewrite lookup_delete_Some. intros [Hne Hx].
    destruct (Hp e' x Hx) as (P1 & P2 & P3 & P4 & P5). repeat (split; [done|]).
    split; [|split; [done|]].
    + rewrite lookup_insert_ne; [done|]. intros Heq. by apply Hne, (Hpi e e' s x).
    + by rewrite lookup_insert_ne.
  - intros e1 e2 x y. rewrite !lookup_delete_Some. intros [_ Hx] [_ Hy]. by apply Hpi.
  - intros c x. rewrite lookup_insert_Some. intros [[<- <-]|[Hne Hx]].
    + repeat (split; [done|]). exists e. apply lookup_insert_eq.
    + destruct (Ha c x Hx) as (A1 & A2 & A3 & A4 & e' & A5). repeat (split; [done|]).
      exists e'. rewrite lookup_insert_ne; [done|]. intros ->. congruence.
  - intros e' c. rewrite lookup_insert_Some. intros [[<- <-]|[Hne Hx]].
    + rewrite lookup_insert_eq. by eexists.
    + rewrite lookup_insert_ne; [by eapply Hb|]. intros <-.
      destruct (Hb _ _ Hx) as [y Hy]. congruence.
  - intros e1 e2 c. rewrite !lookup_insert_Some.
    intros [[<- <-]|[Hn1 Hx]] [[<- ?]|[Hn2 Hy]]; try done.
    + exfalso. destruct (Hb _ _ Hy) as [y Hy']. congruence.
    + exfalso. subst. destruct (Hb _ _ Hx) as [y Hy']. congruence.
    + by eapply Hi.
Qed.

(** *** Connection ids *)

Lemma lxor_range w x y :
  0 <= w -> 0 <= x < 2 ^ w -> 0 <= y < 2 ^ w -> 0 <= Z.lxor x y < 2 ^ w.
Proof.
  intros Hw Hx Hy. assert (0 <= Z.lxor x y) by (apply Z.lxor_nonneg; lia).
  split; [done|]. apply range_of_bits; [done..|].
  intros i Hi. rewrite Z.lxor_spec, !(testbit_high w) by lia. done.
Qed.

(** Hashes are 64-bit words, and the ports of one address have different ones when
    [std::hash] has. *)
Lemma hash_combine_u64 seed value : is_u64 seed -> is_u64 (hash_combine seed value).
Proof. intros Hs. apply (lxor_range 64); [lia|exact Hs|apply u64_range]. Qed.

Lemma hash_combine_inj seed v1 v2 :
  is_u64 v1 -> is_u64 v2 -> hash_combine seed v1 = hash_combine seed v2 -> v1 = v2.
Proof.
  unfold hash_combine. intros H1 H2 E.
  assert (E' : forall a b c : Z, Z.lxor a b = Z.lxor a c -> b = c).
  { intros a b c H. rewrite <- (Z.lxor_0_l b), <- (Z.lxor_0_l c), <- (Z.lxor_nilpotent a).
    by rewrite !Z.lxor_assoc, H. }
  apply E' in E. revert E. generalize (Z.shiftr seed 2) (u64 (Z.shiftl seed 6)). intros r l.
  unfold is_u64, u64 in *. intros E. Z.div_mod_to_equations. lia.
Qed.

Lemma endpoint_hash_ports hs hu e e' :
  (forall p, is_u64 (hu p)) -> (forall p q, hu p = hu q -> p = q) -> address e = address e' ->
  EndpointKeyHash hs hu e = EndpointKeyHash hs hu e' -> e = e'.
Proof.
  unfold EndpointKeyHash. intros Hr Hi Ha E. rewrite Ha in E. apply hash_combine_inj in E; [|done..].
  apply Hi in E. destruct e, e'. cbn in *. congruence.
Qed.

Lemma draw_u32 rd n : is_u32 (draw rd n).
Proof.
  apply (lxor_range 32); [lia|apply u32_range|].
  pose proof (u32_range (rd (S n))) as [H _].
  split; [apply Z.land_nonneg; by left|].
  apply range_of_bits; [lia|apply Z.land_nonneg; by left|].
  intros i Hi. rewrite Z.land_spec. change 0xffff with (Z.ones 16).
  rewrite (Z.ones_spec_high 16 i) by lia. apply andb_false_r.
Qed.

Lemma conn_id_in_use_spec c m :
  conn_id_is_in_use c m = false <->
  c <> 0 /\ ~ (c ∈ retired_conn_ids m) /\ active_by_conn_id m !! c = None /\
  forall e s, pending_by_endpoint m !! e = Some s -> st_conn_id s <> c.
Proof.
  unfold conn_id_is_in_use. destruct (Z.eqb_spec c 0); [naive_solver|].
  case_bool_decide; [naive_solver|]. destruct (active_by_conn_id m !! c) eqn:Ea; [naive_solver|].
  cbn. rewrite <- not_true_iff_false, existsb_exists. split.
  - intros Hex. repeat (split; [done|]). intros e s He <-. apply Hex. exists (e, s).
    split; [by apply list_elem_of_In, elem_of_map_to_list|apply Z.eqb_refl].
  - intros (_ & _ & _ & Hp) ([e s] & Hin & Heq). apply Z.eqb_eq in Heq. cbn in Heq.
    by apply (Hp e s); [apply elem_of_map_to_list, list_elem_of_In|].
Qed.

Lemma allocate_conn_id_spec rd fuel m c m' :
  allocate_conn_id rd fuel m = Some (c, m') ->
  is_u32 c /\ conn_id_is_in_use c m = false /\ exists n, m' = m <| draws := n |>.
Proof.
  revert m. induction fuel as [|fuel IH]; intros m; [done|]. cbn [allocate_conn_id].
  set (m1 := m <| draws ::= _ |>).
  change (conn_id_is_in_use (draw rd (draws m)) m1) with (conn_id_is_in_use (draw rd (draws m)) m).
  destruct (conn_id_is_in_use (draw rd (draws m)) m) eqn:E.
  - intros H. apply IH in H as (H1 & H2 & n & ->). split; [done|]. split; [done|].
    by exists n.
  - intros [= <- <-]. split; [apply draw_u32|]. split; [done|]. by eexists.
Qed.

Lemma wf_draws n m : mgr_wf cfg m -> mgr_wf cfg (m <| draws := n |>).
Proof. intros []. by constructor. Qed.

(** A new pending session under a free id. *)
Lemma wf_new_pending m e s :
  mgr_wf cfg m -> server_session cfg s -> conn_id_is_in_use (st_conn_id s) m = false ->
  pending_by_endpoint m !! e = None -> active_conn_id_by_endpoint m !! e = None ->
  mgr_wf cfg (m <| pending_by_endpoint ::= fun p => <[e := s]> p |>).
Proof.
  intros [Hp Hpi Ha Hb Hi] Hs Hid Hpe Hae.
  apply conn_id_in_use_spec in Hid as (I1 & I2 & I3 & I4).
  constructor; cbn; try done.
  - intros e' x. rewrite lookup_insert_Some. intros [[<- <-]|[Hne Hx]]; [done|by apply Hp].
  - intros e1 e2 x y. rewrite !lookup_insert_Some.
    intros [[<- <-]|[Hn1 Hx]] [[<- <-]|[Hn2 Hy]] Heq; try done.
    + by destruct (I4 e2 y Hy).
    + by destruct (I4 e1 x Hx).
    + by eapply Hpi.
Qed.

(** [conn_id_is_in_use] ignores the session being created, whose id is still 0. *)
Lemma in_use_insert_zero c m e s :
  conn_id_is_in_use c (m <| pending_by_endpoint ::= fun p => <[e := s]> p |>) = false ->
  pending_by_endpoint m !! e = None -> conn_id_is_in_use c m = false.
Proof.
  intros H He. apply conn_id_in_use_spec in H as (H1 & H2 & H3 & H4). cbn in *.
  apply conn_id_in_use_spec. repeat (split; [done|]). intros e' x Hx. apply (H4 e').
  rewrite lookup_insert_ne; [done|]. intros ->. congruence.
Qed.

Lemma ensure_session_ok rd fuel e m r m' :
  mgr_wf cfg m -> ensure_session_for_new_peer rd fuel e m = Some (r, m') ->
  mgr_wf cfg m' /\
  ((m' = m /\ (r = true -> is_Some (pending_by_endpoint m !! e)) /\
    (r = false -> is_Some (active_conn_id_by_endpoint m !! e))) \/
   (r = true /\ pending_by_endpoint m !! e = None /\
    active_conn_id_by_endpoint m !! e = None /\
    exists c isn n, is_u32 isn /\ is_u32 c /\ conn_id_is_in_use c m = false /\
      m' = m <| draws := n |>
             <| pending_by_endpoint ::= fun p =>
                  <[e := assign_conn_id c (new_session Server isn)]> p |>)).
Proof.
  intros Hm. unfold ensure_session_for_new_peer, find_pending_session.
  destruct (pending_by_endpoint m !! e) as [s|] eqn:Ep.
  { intros [= <- <-]. split; [done|]. left. split; [done|]. split; [by eexists|done]. }
  destruct (active_conn_id_by_endpoint m !! e) as [c|] eqn:Ea.
  { intros [= <- <-]. split; [done|]. left. split; [done|]. split; [done|by eexists]. }
  set (s := new_random_session Server _ _). set (m1 := set pending_by_endpoint _ _).
  destruct (allocate_conn_id rd fuel m1) as [[c m2]|] eqn:Eal; [|done].
  apply allocate_conn_id_spec in Eal as (Hc & Hu & n & ->).
  intros [= <- <-]. pose proof (in_use_insert_zero c m e s Hu Ep) as Hfree.
  assert (E : m1 <| draws := n |> <| pending_by_endpoint ::= fun p => <[e := assign_conn_id c s]> p |> =
    m <| draws := n |> <| pending_by_endpoint ::= fun p => <[e := assign_conn_id c s]> p |>).
  { subst m1. destruct m; unfold set, set_draws, set_pending_by_endpoint; cbn. f_equal.
    apply insert_insert_eq. }
  rewrite E. split.
  - apply wf_new_pending; try done; [by apply wf_draws|]. split; [|done].
    apply session_ok_conn_id; [done|]. apply new_session_ok, draw_u32.
  - right. split; [done|]. split; [done|]. split; [done|].
    exists c, (draw rd (draws m)), n. split; [apply draw_u32|]. done.
Qed.

(** *** Routing *)

(** Everything at rest except possibly the pending session of [e]. *)
Definition rest_but (e : EndpointKey) (m : Manager) : Prop :=
  mgr_wf cfg m /\
  (forall e' s, e' <> e -> pending_by_endpoint m !! e' = Some s -> pending_live s) /\
  (forall c s, active_by_conn_id m !! c = Some s -> active_live s).

Lemma mgr_ok_rest e m : mgr_ok cfg m -> rest_but e m.
Proof. intros [Hw Hp Ha]. split; [done|]. split; [|done]. intros. by eapply Hp. Qed.

Lemma cleanup_pending_rest e m :
  rest_but e m -> mgr_ok cfg (cleanup_pending_session e m).
Proof.
  intros (Hw & Hp & Ha). pose proof (wf_cleanup_pending m e Hw) as Hw'.
  unfold cleanup_pending_session, find_pending_session in *.
  destruct (pending_by_endpoint m !! e) as [s|] eqn:He.
  - split; [done| |]; case_match; cbn; try done; intros e' x; rewrite lookup_delete_Some;
      intros [Hne Hx]; by apply (Hp e').
  - split; [done| |done]. intros e' x Hx. apply (Hp e'); [congruence|done].
Qed.

Lemma promote_rest e m s :
  rest_but e m -> pending_by_endpoint m !! e = Some s -> st_connection_state s = Established ->
  mgr_ok cfg (promote_pending_session e m).
Proof.
  intros (Hw & Hp & Ha) He Hs. pose proof (wf_promote m e Hw) as Hw'.
  destruct (mw_pending _ _ Hw e s He) as (_ & Hid & _).
  unfold promote_pending_session, find_pending_session in *. rewrite He in *.
  rewrite (proj2 (Z.eqb_neq _ _)) in * by done. split; [done| |]; cbn.
  - intros e' x. rewrite lookup_delete_Some. intros [Hne Hx]. by apply (Hp e').
  - intros c x. rewrite lookup_insert_Some. intros [[_ <-]|[_ Hx]]; [by left|by eapply Ha].
Qed.

Lemma life_pending a b :
  lifecycle Server a b -> a = Closed \/ a = HandshakeReceived \/ a = Closing ->
  b <> Established -> is_terminal_state b = false -> b = HandshakeReceived \/ b = Closing.
Proof. destruct 1; naive_solver. Qed.

Lemma life_active a b :
  lifecycle Server a b -> a = Established \/ a = Closing ->
  is_terminal_state b = false -> b = Established \/ b = Closing.
Proof. destruct 1; naive_solver. Qed.

Lemma try_dispatch_pending_ok e bs now m s :
  rest_but e m -> Forall is_u8 bs -> pending_by_endpoint m !! e = Some s ->
  (st_connection_state s = Closed \/ pending_live s) ->
  mgr_ok cfg (snd (try_dispatch_pending cfg e bs now m)).
Proof.
  intros (Hw & Hp & Ha) Hb He Hst. unfold try_dispatch_pending, find_pending_session. rewrite He.
  pose proof (received_change cfg bs now s Hb) as Hch.
  set (s' := Session.on_datagram_received cfg bs now s) in *. clearbody s'.
  pose proof (sc_life (proj1 (mw_pending _ _ Hw e s He))) as Hlife.
  set (m1 := m <| pending_by_endpoint ::= fun p => <[e := s']> p |>).
  assert (He1 : pending_by_endpoint m1 !! e = Some s') by apply lookup_insert_eq.
  assert (Hr : rest_but e m1).
  { split; [by eapply wf_update_pending|]. split; [|done]. intros e' x Hne. cbn.
    rewrite lookup_insert_ne by done. by apply Hp. }
  case_bool_decide as Hest; cbn [snd]; [by eapply promote_rest|].
  unfold cleanup_pending_if_terminal, find_pending_session. rewrite He1.
  destruct (is_terminal_state (st_connection_state s')) eqn:Et; cbn [negb].
  { by apply cleanup_pending_rest. }
  destruct Hr as (Hw1 & Hp1 & Ha1). split; [done| |done]. intros e' x Hx.
  destruct (decide (e' = e)) as [->|Hne]; [|by eapply Hp1]. rewrite He1 in Hx. injection Hx as <-.
  by eapply life_pending.
Qed.

Lemma cleanup_active_rest e c m :
  mgr_wf cfg m -> active_conn_id_by_endpoint m !! e = Some c ->
  (forall e' s, pending_by_endpoint m !! e' = Some s -> pending_live s) ->
  (forall c' s, c' <> c -> active_by_conn_id m !! c' = Some s -> active_live s) ->
  mgr_ok cfg (cleanup_active_session e c m).
Proof.
  intros Hw He Hp Ha. pose proof (wf_cleanup_active m e c Hw He) as Hw'. split; [done| |].
  - intros e' x. unfold cleanup_active_session. repeat case_match; apply Hp.
  - intros c' x. unfold cleanup_active_session. repeat case_match; cbn;
      rewrite lookup_delete_Some; intros [Hne Hx]; by apply (Ha c').
Qed.

Lemma try_dispatch_active_ok e bs c now m :
  mgr_ok cfg m -> Forall is_u8 bs -> active_conn_id_by_endpoint m !! e = Some c ->
  mgr_ok cfg (snd (try_dispatch_active cfg e bs c now m)).
Proof.
  intros [Hw Hp Ha] Hb He. unfold try_dispatch_active, find_active_session.
  destruct (active_by_conn_id m !! c) as [s|] eqn:Ec; [|done]. cbn [snd].
  pose proof (received_change cfg bs now s Hb) as Hch.
  set (s' := Session.on_datagram_received cfg bs now s) in *. clearbody s'.
  pose proof (sc_life (proj1 (mw_active _ _ Hw c s Ec))) as Hlife.
  set (m1 := m <| active_by_conn_id ::= fun a => <[c := s']> a |>).
  assert (Hc1 : active_by_conn_id m1 !! c = Some s') by apply lookup_insert_eq.
  assert (Hw1 : mgr_wf cfg m1) by (by eapply wf_update_active).
  assert (Ha1 : forall c' x, c' <> c -> active_by_conn_id m1 !! c' = Some x -> active_live x).
  { intros c' x Hne. cbn. rewrite lookup_insert_ne by done. apply Ha. }
  unfold cleanup_active_if_terminal, find_active_session. rewrite Hc1.
  destruct (is_terminal_state (st_connection_state s')) eqn:Et; cbn [negb].
  { by apply cleanup_active_rest. }
  split; [done|done|]. intros c' x Hx. destruct (decide (c' = c)) as [->|Hne]; [|by eapply Ha1].
  rewrite Hc1 in Hx. injection Hx as <-. eapply life_active; [done|by eapply Ha|done].
Qed.

Lemma route_existing_active_ok e bs h now m :
  mgr_ok cfg m -> Forall is_u8 bs ->
  mgr_ok cfg (snd (route_existing_active cfg e bs h now m)) /\
  (fst (route_existing_active cfg e bs h now m) = false ->
   snd (route_existing_active cfg e bs h now m) = m).
Proof.
  intros Hm Hb. unfold route_existing_active, is_active_endpoint_match.
  case_match; [done|]. case_match; [done|].
  destruct (active_conn_id_by_endpoint m !! e) as [c|] eqn:Ee; [|done].
  destruct (Z.eqb_spec c (hdr_conn_id h)) as [->|]; [|done]. cbn [negb].
  split; [by apply try_dispatch_active_ok|].
  unfold try_dispatch_active. by case_match.
Qed.

Lemma route_existing_pending_ok e bs now m :
  mgr_ok cfg m -> Forall is_u8 bs ->
  mgr_ok cfg (snd (route_existing_pending cfg e bs now m)) /\
  (fst (route_existing_pending cfg e bs now m) = false ->
   snd (route_existing_pending cfg e bs now m) = m /\ pending_by_endpoint m !! e = None).
Proof.
  intros Hm Hb. unfold route_existing_pending.
  destruct (pending_by_endpoint m !! e) as [s|] eqn:Ep.
  - split.
    + eapply try_dispatch_pending_ok; [by apply mgr_ok_rest|done..|].
      right. by eapply mo_pending_live.
    + unfold try_dispatch_pending, find_pending_session. rewrite Ep. by case_match.
  - unfold try_dispatch_pending, find_pending_session. by rewrite Ep.
Qed.

Lemma route_new_peer_ok rd fuel e bs h now m r m' :
  mgr_ok cfg m -> Forall is_u8 bs ->
  route_new_peer cfg rd fuel e bs h now m = Some (r, m') -> mgr_ok cfg m'.
Proof.
  intros Hm Hb. unfold route_new_peer. case_match; [by intros [= <- <-]|].
  destruct (ensure_session_for_new_peer rd fuel e m) as [[r1 m1]|] eqn:E; [|done].
  apply ensure_session_ok in E as [Hw1 Hc]; [|apply Hm].
  destruct Hc as [(-> & Ht & _)|(-> & Ep & Ea & c & isn & n & _ & _ & _ & ->)].
  - destruct r1; intros [= <- <-]; [|done]. by apply (route_existing_pending_ok e bs now m).
  - intros [= <- <-]. eapply try_dispatch_pending_ok; [|done|apply lookup_insert_eq|by left].
    destruct Hm as [_ Hp Ha]. split; [done|]. split; [|exact Ha]. intros e' s Hne. cbn.
    rewrite lookup_insert_ne by done. apply Hp.
Qed.

Lemma on_datagram_received_mgr_ok rd fuel e bs now m m' :
  mgr_ok cfg m -> Forall is_u8 bs ->
  on_datagram_received cfg rd fuel e bs now m = Some m' -> mgr_ok cfg m'.
Proof.
  intros Hm Hb. unfold on_datagram_received. destruct (decode bs) as [pv|]; [|by intros [= <-]].
  destruct (route_existing_active_ok e bs (pv_header pv) now m Hm Hb) as [H1 _].
  destruct (route_existing_active cfg e bs (pv_header pv) now m) as [[] m1]; cbn in H1.
  { by intros [= <-]. }
  destruct (route_existing_pending_ok e bs now m1 H1 Hb) as [H2 _].
  destruct (route_existing_pending cfg e bs now m1) as [[] m2]; cbn in H2.
  { by intros [= <-]. }
  destruct (route_new_peer cfg rd fuel e bs (pv_header pv) now m2) as [[r m3]|] eqn:E; [|done].
  intros [= <-]. by eapply route_new_peer_ok.
Qed.
End table.
