(* ===== verification/ManagerPolling.v ===== *)
(** What one poll of the session table does, for any order in which the two
    endpoint maps are visited: every session is polled exactly once, and the ones
    that ended are removed. *)

From S2P Require Import Prelude StdMap Protocol Utils Codec Config SessionTypes.
From S2P Require Import ConnectionStateMachine TxHandler TxInvariant RxHandler RxInvariant.
From S2P Require Import Session SessionInvariant SessionLifecycle ServerSessionManager.
From S2P Require Import ManagerInvariant.

Section polling.
Context (cfg : TransportSettings) (now : Z).
Context (Hcfg : settings_typed cfg) (Hnow : is_u64 now).

(** The session after a poll, what it sent, and whether it ended without sending. *)
Definition after (s : SessionState) : SessionState := snd (Session.poll_tx cfg now s).
Definition sent (s : SessionState) : option bytes := fst (Session.poll_tx cfg now s).
Definition ended (s : SessionState) : bool :=
  negb (has_value (sent s)) && is_terminal_state (st_connection_state (after s)).

Lemma after_state s :
  server_session cfg s ->
  st_connection_state (after s) = Reset \/
  st_connection_state (after s) = st_connection_state s.
Proof.
  intros [Hs Hr]. unfold after. destruct (Session.poll_tx cfg now s) as [o s'] eqn:E.
  apply poll_tx_cases in E as (_ & _ & H); try done. cbn.
  destruct (should_timeout_idle_session cfg s now).
  { left. by destruct H as (_ & [? _] & _). }
  destruct H as [(_ & ? & _)|(-> & _)]; [by left|right]. unfold polled_state. by rewrite Hr.
Qed.

(** A session at rest that did not end is still at rest. *)
Lemma after_live s :
  server_session cfg s -> is_terminal_state (st_connection_state s) = false ->
  ended s = false -> st_connection_state (after s) = st_connection_state s.
Proof.
  intros Hs Ht He. destruct (after_state s Hs) as [Hr|]; [|done]. unfold ended in He.
  rewrite Hr, andb_true_r in He. apply negb_false_iff in He. unfold sent, after in *.
  destruct (Session.poll_tx cfg now s) as [[bs|] s'] eqn:E; [|done].
  by eapply polled_some_state.
Qed.

(** *** The pending map *)

Definition datagram_of (e : EndpointKey) (s : SessionState) : option OutboundDatagram :=
  mkOutbound e <$> sent s.

Definition pending_out (m : Manager) (e : EndpointKey) : option OutboundDatagram :=
  pending_by_endpoint m !! e ≫= datagram_of e.
Definition pending_ended (m : Manager) (e : EndpointKey) : option EndpointKey :=
  pending_by_endpoint m !! e ≫= fun s => if ended s then Some e else None.
Definition pending_after (m : Manager) (e : EndpointKey) : Manager :=
  match pending_by_endpoint m !! e with
  | Some s => m <| pending_by_endpoint ::= fun p => <[e := after s]> p |>
  | None => m
  end.

Lemma omap_cons {A B} (f : A -> option B) x (l : list A) :
  omap f (x :: l) = option_list (f x) ++ omap f l.
Proof. cbn. by destruct (f x). Qed.

Lemma omap_ext_in {A B} (f g : A -> option B) (l : list A) :
  (forall x, x ∈ l -> f x = g x) -> omap f l = omap g l.
Proof.
  intros H. apply list_omap_ext, Forall_Forall2_diag, Forall_forall. exact H.
Qed.

Lemma collect_pending_one m out cl e :
  collect_pending_step cfg now (m, out, cl) e =
  (pending_after m e, out ++ option_list (pending_out m e),
   cl ++ option_list (pending_ended m e)).
Proof.
  unfold collect_pending_step, find_pending_session, pending_after, pending_out, pending_ended.
  destruct (pending_by_endpoint m !! e) as [s|]; cbn; [|by rewrite !app_nil_r].
  unfold datagram_of, ended, sent, after. destruct (Session.poll_tx cfg now s) as [[bs|] s'];
    cbn; [by rewrite app_nil_r|]. rewrite app_nil_r.
  destruct (is_terminal_state _); cbn; by rewrite ?app_nil_r.
Qed.

Lemma collect_pending_run order m out cl :
  NoDup order ->
  exists p, fold_left (collect_pending_step cfg now) order (m, out, cl) =
    (m <| pending_by_endpoint := p |>, out ++ omap (pending_out m) order,
     cl ++ omap (pending_ended m) order) /\
    forall e, p !! e = (if bool_decide (e ∈ order) then after <$> pending_by_endpoint m !! e
                        else pending_by_endpoint m !! e).
Proof.
  intros Hnd. revert m out cl. induction Hnd as [|e order Hnin Hnd IH]; intros m out cl.
  { exists (pending_by_endpoint m). split; [cbn; rewrite !app_nil_r; by destruct m|].
    intros e. by rewrite bool_decide_eq_false_2 by set_solver. }
  cbn [fold_left]. rewrite collect_pending_one, !omap_cons.
  assert (Hl : forall e', pending_by_endpoint (pending_after m e) !! e' =
    if bool_decide (e' = e) then after <$> pending_by_endpoint m !! e
    else pending_by_endpoint m !! e').
  { intros e'. unfold pending_after. destruct (pending_by_endpoint m !! e) as [s|] eqn:Ee; cbn.
    - case_bool_decide; [subst; by rewrite lookup_insert_eq|by rewrite lookup_insert_ne].
    - case_bool_decide; [by subst|done]. }
  assert (Hsame : forall e', e' ∈ order ->
    pending_by_endpoint (pending_after m e) !! e' = pending_by_endpoint m !! e')
    by (intros e' Hin; by rewrite Hl, bool_decide_eq_false_2 by set_solver).
  destruct (IH (pending_after m e) (out ++ option_list (pending_out m e))
              (cl ++ option_list (pending_ended m e))) as (p & Hrun & Hp). exists p. split.
  - rewrite Hrun, <- !app_assoc. f_equal; [f_equal|].
    + unfold pending_after. by case_match.
    + f_equal. f_equal. apply omap_ext_in. intros e' Hin. unfold pending_out. by rewrite Hsame.
    + f_equal. f_equal. apply omap_ext_in. intros e' Hin. unfold pending_ended. by rewrite Hsame.
  - intros e'. rewrite Hp, Hl. repeat case_bool_decide; subst; set_solver.
Qed.

(** *** The active map *)

Definition active_of (m : Manager) (e : EndpointKey) : option (Z * SessionState) :=
  c ← active_conn_id_by_endpoint m !! e; s ← active_by_conn_id m !! c; Some (c, s).

Definition active_out (m : Manager) (e : EndpointKey) : option OutboundDatagram :=
  active_of m e ≫= fun x => datagram_of e (snd x).
Definition active_ended (m : Manager) (e : EndpointKey) : option (EndpointKey * Z) :=
  active_of m e ≫= fun x => if ended (snd x) then Some (e, fst x) else None.

(** The ids of the endpoints in [order]. *)
Definition visited (m : Manager) (order : list EndpointKey) (c : Z) : Prop :=
  Exists (fun e => active_conn_id_by_endpoint m !! e = Some c) order.

#[local] Instance visited_dec m order c : Decision (visited m order c).
Proof. unfold visited. apply _. Defined.

Definition endpoints_injective (m : Manager) : Prop :=
  forall e e' c, active_conn_id_by_endpoint m !! e = Some c ->
    active_conn_id_by_endpoint m !! e' = Some c -> e = e'.

(** Replacing the session under [c] does not affect an endpoint with another id. *)
Lemma active_of_insert m c s e :
  active_conn_id_by_endpoint m !! e <> Some c ->
  active_of (m <| active_by_conn_id ::= fun a => <[c := s]> a |>) e = active_of m e.
Proof.
  intros Hne. unfold active_of. cbn. destruct (active_conn_id_by_endpoint m !! e) as [c'|]; [|done].
  cbn. by rewrite lookup_insert_ne by congruence.
Qed.

Definition active_after (m : Manager) (e : EndpointKey) : Manager :=
  match active_of m e with
  | Some (c, s) => m <| active_by_conn_id ::= fun a => <[c := after s]> a |>
  | None => m
  end.

Lemma collect_active_one m out cl e :
  collect_active_step cfg now (m, out, cl) e =
  (active_after m e, out ++ option_list (active_out m e),
   cl ++ option_list (active_ended m e)).
Proof.
  unfold collect_active_step, find_active_session, active_after, active_out, active_ended,
    active_of.
  destruct (active_conn_id_by_endpoint m !! e) as [c|]; cbn; [|by rewrite !app_nil_r].
  destruct (active_by_conn_id m !! c) as [s|]; cbn; [|by rewrite !app_nil_r].
  unfold datagram_of, ended, sent, after. destruct (Session.poll_tx cfg now s) as [[bs|] s'];
    cbn; [by rewrite app_nil_r|]. rewrite app_nil_r.
  destruct (is_terminal_state _); cbn; by rewrite ?app_nil_r.
Qed.

Lemma active_after_lookup m e c :
  active_by_conn_id (active_after m e) !! c =
  if bool_decide (active_conn_id_by_endpoint m !! e = Some c)
  then after <$> active_by_conn_id m !! c else active_by_conn_id m !! c.
Proof.
  unfold active_after, active_of.
  destruct (active_conn_id_by_endpoint m !! e) as [c'|]; cbn;
    [|by rewrite bool_decide_eq_false_2].
  destruct (active_by_conn_id m !! c') as [s|] eqn:Ec; cbn; case_bool_decide as Hc.
  - injection Hc as ->. by rewrite lookup_insert_eq, Ec.
  - by rewrite lookup_insert_ne by congruence.
  - injection Hc as ->. by rewrite Ec.
  - done.
Qed.

Lemma active_after_same m e e' :
  endpoints_injective m -> e' <> e -> active_of (active_after m e) e' = active_of m e'.
Proof.
  intros Hinj Hne. unfold active_after. destruct (active_of m e) as [[c s]|] eqn:E; [|done].
  apply active_of_insert. intros He'. apply Hne. unfold active_of in E.
  destruct (active_conn_id_by_endpoint m !! e) as [c'|] eqn:Ee; [|done]. cbn in E.
  destruct (active_by_conn_id m !! c'); [|done]. injection E as -> _. by eapply Hinj.
Qed.

Lemma collect_active_run order m out cl :
  NoDup order -> endpoints_injective m ->
  exists a, fold_left (collect_active_step cfg now) order (m, out, cl) =
    (m <| active_by_conn_id := a |>, out ++ omap (active_out m) order,
     cl ++ omap (active_ended m) order) /\
    forall c, a !! c = (if bool_decide (visited m order c) then after <$> active_by_conn_id m !! c
                        else active_by_conn_id m !! c).
Proof.
  intros Hnd. revert m out cl. induction Hnd as [|e order Hnin Hnd IH]; intros m out cl Hinj.
  { exists (active_by_conn_id m). split; [cbn; rewrite !app_nil_r; by destruct m|]. intros c.
    by rewrite bool_decide_eq_false_2 by (by intros ?%Exists_nil). }
  cbn [fold_left]. rewrite collect_active_one, !omap_cons.
  assert (Hep : active_conn_id_by_endpoint (active_after m e) = active_conn_id_by_endpoint m)
    by (unfold active_after; by repeat case_match).
  assert (Hsame : forall e', e' ∈ order -> active_of (active_after m e) e' = active_of m e')
    by (intros e' Hin; apply active_after_same; set_solver).
  destruct (IH (active_after m e) (out ++ option_list (active_out m e))
              (cl ++ option_list (active_ended m e))) as (a & Hrun & Ha).
  { unfold endpoints_injective. by rewrite Hep. }
  exists a. split.
  - rewrite Hrun, <- !app_assoc. f_equal; [f_equal|].
    + unfold active_after. by repeat case_match.
    + f_equal. f_equal. apply omap_ext_in. intros e' Hin. unfold active_out. by rewrite Hsame.
    + f_equal. f_equal. apply omap_ext_in. intros e' Hin. unfold active_ended. by rewrite Hsame.
  - intros c. rewrite Ha, active_after_lookup.
    assert (Hv : visited (active_after m e) order c <-> visited m order c)
      by (unfold visited; by rewrite Hep).
    assert (Hv' : visited m (e :: order) c <->
      active_conn_id_by_endpoint m !! e = Some c \/ visited m order c) by apply Exists_cons.
    assert (Hno : active_conn_id_by_endpoint m !! e = Some c -> ~ visited m order c).
    { intros He (e' & Hin & He')%Exists_exists. apply Hnin. by rewrite (Hinj e e' c He He'). }
    repeat case_bool_decide; tauto.
Qed.

(** *** Clean-up *)

Lemma cleanup_pending_run cl m :
  exists p r, fold_left (fun m e => cleanup_pending_session e m) cl m =
    m <| pending_by_endpoint := p |> <| retired_conn_ids := r |> /\
    (retired_conn_ids m ⊆ r) /\
    forall e, p !! e = if bool_decide (e ∈ cl) then None else pending_by_endpoint m !! e.
Proof.
  revert m. induction cl as [|e cl IH]; intros m.
  { exists (pending_by_endpoint m), (retired_conn_ids m). split; [by destruct m|].
    split; [done|]. intros e. by rewrite bool_decide_eq_false_2 by set_solver. }
  cbn [fold_left].
  assert (Hone : exists r, cleanup_pending_session e m =
    m <| pending_by_endpoint ::= delete e |> <| retired_conn_ids := r |> /\
    (retired_conn_ids m ⊆ r)).
  { unfold cleanup_pending_session, find_pending_session.
    destruct (pending_by_endpoint m !! e) as [s|] eqn:Ee.
    - case_match; [eexists; split; [reflexivity|set_solver]|].
      exists (retired_conn_ids m). split; [by destruct m|done].
    - exists (retired_conn_ids m). split; [|done]. unfold set, set_pending_by_endpoint.
      rewrite delete_id by done. by destruct m. }
  destruct Hone as (r1 & -> & Hr1).
  destruct (IH (m <| pending_by_endpoint ::= delete e |> <| retired_conn_ids := r1 |>))
    as (p & r & -> & Hr & Hp). exists p, r. split; [done|]. cbn in *. split; [set_solver|].
  intros e'. rewrite Hp. destruct (decide (e' = e)) as [->|Hne].
  - rewrite lookup_delete_eq, (bool_decide_eq_true_2 (e ∈ e :: cl)) by set_solver.
    by case_bool_decide.
  - rewrite lookup_delete_ne by done. by rewrite (bool_decide_ext (e' ∈ e :: cl) (e' ∈ cl)) by set_solver.
Qed.

Definition bound_pairs (m : Manager) (cl : list (EndpointKey * Z)) : Prop :=
  NoDup cl.*1 /\ forall e c, (e, c) ∈ cl -> active_conn_id_by_endpoint m !! e = Some c.

Lemma cleanup_active_run cl m :
  mgr_wf cfg m -> bound_pairs m cl ->
  let m' := fold_left (fun m x => cleanup_active_session (fst x) (snd x) m) cl m in
  mgr_wf cfg m' /\ pending_by_endpoint m' = pending_by_endpoint m /\
  (retired_conn_ids m ⊆ retired_conn_ids m') /\
  (forall e, active_conn_id_by_endpoint m' !! e =
     if bool_decide (e ∈ cl.*1) then None else active_conn_id_by_endpoint m !! e) /\
  (forall c, active_by_conn_id m' !! c =
     if bool_decide (c ∈ cl.*2) then None else active_by_conn_id m !! c).
Proof.
  revert m. induction cl as [|[e c] cl IH]; intros m Hw [Hnd Hb]; cbn [fold_left fst snd].
  { split; [done|]. split; [done|]. split; [done|].
    split; intros; by rewrite bool_decide_eq_false_2 by set_solver. }
  apply NoDup_cons in Hnd as [Hnin Hnd].
  assert (He : active_conn_id_by_endpoint m !! e = Some c) by (apply Hb; set_solver).
  pose proof (wf_cleanup_active cfg m e c Hw He) as Hw1.
  assert (E1 : pending_by_endpoint (cleanup_active_session e c m) = pending_by_endpoint m /\
    (retired_conn_ids m ⊆ retired_conn_ids (cleanup_active_session e c m)) /\
    active_conn_id_by_endpoint (cleanup_active_session e c m) =
      delete e (active_conn_id_by_endpoint m) /\
    active_by_conn_id (cleanup_active_session e c m) = delete c (active_by_conn_id m)).
  { unfold cleanup_active_session. destruct (c =? 0); cbn; rewrite He, Z.eqb_refl; cbn;
      (split; [done|]); (split; [set_solver|done]). }
  destruct E1 as (E1 & E2 & E3 & E4).
  destruct (IH (cleanup_active_session e c m) Hw1) as (H1 & H2 & H3 & H4 & H5).
  { split; [done|]. intros e' c' Hin. rewrite E3, lookup_delete_ne; [apply Hb; set_solver|].
    intros ->. apply Hnin, list_elem_of_fmap. by exists (e', c'). }
  split; [done|]. split; [congruence|]. split; [set_solver|]. split.
  - intros e'. rewrite H4, E3. destruct (decide (e' = e)) as [->|Hne].
    + rewrite lookup_delete_eq, (bool_decide_eq_true_2 (e ∈ ((e, c) :: cl).*1)) by set_solver.
      by case_bool_decide.
    + rewrite lookup_delete_ne by done.
      by rewrite (bool_decide_ext (e' ∈ ((e, c) :: cl).*1) (e' ∈ cl.*1)) by set_solver.
  - intros c'. rewrite H5, E4. destruct (decide (c' = c)) as [->|Hne].
    + rewrite lookup_delete_eq, (bool_decide_eq_true_2 (c ∈ ((e, c) :: cl).*2)) by set_solver.
      by case_bool_decide.
    + rewrite lookup_delete_ne by done.
      by rewrite (bool_decide_ext (c' ∈ ((e, c) :: cl).*2) (c' ∈ cl.*2)) by set_solver.
Qed.

(** *** Well-formedness through the two loops *)

Lemma collect_pending_wf order m out cl :
  mgr_wf cfg m ->
  mgr_wf cfg (fst (fst (fold_left (collect_pending_step cfg now) order (m, out, cl)))).
Proof.
  revert m out cl. induction order as [|e order IH]; intros m out cl Hm; [done|].
  cbn [fold_left]. rewrite collect_pending_one. apply IH. unfold pending_after.
  case_match; [|done]. eapply wf_update_pending; [done..|]. by apply polled_change.
Qed.

Lemma collect_active_wf order m out cl :
  mgr_wf cfg m ->
  mgr_wf cfg (fst (fst (fold_left (collect_active_step cfg now) order (m, out, cl)))).
Proof.
  revert m out cl. induction order as [|e order IH]; intros m out cl Hm; [done|].
  cbn [fold_left]. rewrite collect_active_one. apply IH. unfold active_after, active_of.
  destruct (active_conn_id_by_endpoint m !! e) as [c|]; cbn; [|done].
  destruct (active_by_conn_id m !! c) as [s|] eqn:Ec; cbn; [|done].
  eapply wf_update_active; [done..|]. by apply polled_change.
Qed.

Lemma cleanup_pending_wf cl m :
  mgr_wf cfg m -> mgr_wf cfg (fold_left (fun m e => cleanup_pending_session e m) cl m).
Proof. revert m. induction cl; intros m Hm; cbn; [done|]. by apply IHcl, wf_cleanup_pending. Qed.

(** *** The whole poll *)

(** A visiting order of a map: every key once. *)
Definition valid_order {V} (order : list EndpointKey) (map : gmap EndpointKey V) : Prop :=
  NoDup order /\ forall e, e ∈ order <-> is_Some (map !! e).

(** The session an endpoint talks to. *)
Definition bound (m : Manager) (e : EndpointKey) : option SessionState :=
  match pending_by_endpoint m !! e with
  | Some s => Some s
  | None => snd <$> active_of m e
  end.

Lemma elem_of_omap_order {V A} (f : EndpointKey -> option A) order (map : gmap EndpointKey V) x :
  valid_order order map -> (forall e, is_Some (f e) -> is_Some (map !! e)) ->
  x ∈ omap f order <-> exists e, f e = Some x.
Proof.
  intros [_ Ho] Hf. rewrite list_elem_of_omap. split; [by intros (e & _ & He); exists e|].
  intros (e & He). exists e. split; [|done]. apply Ho, Hf. by eexists.
Qed.

Lemma pending_some m e {A} (f : SessionState -> option A) :
  is_Some (pending_by_endpoint m !! e ≫= f) -> is_Some (pending_by_endpoint m !! e).
Proof. destruct (pending_by_endpoint m !! e); [by eexists|by intros []]. Qed.

Lemma active_some m e {A} (f : Z * SessionState -> option A) :
  is_Some (active_of m e ≫= f) -> is_Some (active_conn_id_by_endpoint m !! e).
Proof.
  unfold active_of. destruct (active_conn_id_by_endpoint m !! e); [by eexists|by intros []].
Qed.

Lemma active_of_spec m e c s :
  active_of m e = Some (c, s) <->
  active_conn_id_by_endpoint m !! e = Some c /\ active_by_conn_id m !! c = Some s.
Proof.
  unfold active_of. destruct (active_conn_id_by_endpoint m !! e) as [c'|]; cbn; [|naive_solver].
  destruct (active_by_conn_id m !! c') as [s'|] eqn:E; cbn; [|naive_solver].
  split; [by intros [= <- <-]|]. intros [[= ->] H]. congruence.
Qed.

Lemma active_ended_spec m e x :
  active_ended m e = Some x <->
  exists c s, x = (e, c) /\ active_of m e = Some (c, s) /\ ended s = true.
Proof.
  unfold active_ended. destruct (active_of m e) as [[c s]|]; cbn.
  - destruct (ended s) eqn:E; split.
    + intros [= <-]. by exists c, s.
    + by intros (c' & s' & -> & [= <- <-] & _).
    + done.
    + intros (c' & s' & _ & [= <- <-] & H). congruence.
  - split; [done|]. by intros (c' & s' & _ & ? & _).
Qed.

Lemma pending_ended_spec m e x :
  pending_ended m e = Some x <->
  x = e /\ exists s, pending_by_endpoint m !! e = Some s /\ ended s = true.
Proof.
  unfold pending_ended. destruct (pending_by_endpoint m !! e) as [s|]; cbn.
  - destruct (ended s) eqn:E; split.
    + intros [= <-]. split; [done|]. by exists s.
    + by intros [-> _].
    + done.
    + intros (_ & s' & [= <-] & H). congruence.
  - split; [done|]. by intros (_ & s' & ? & _).
Qed.

(** The two clean-up lists. *)
Lemma pending_cleanup_spec po m e :
  valid_order po (pending_by_endpoint m) ->
  e ∈ omap (pending_ended m) po <->
  exists s, pending_by_endpoint m !! e = Some s /\ ended s = true.
Proof.
  intros Hpo. rewrite (elem_of_omap_order _ _ _ _ Hpo) by (intros e'; apply pending_some).
  split; [intros (e' & He); apply pending_ended_spec in He as [-> ?]; done|].
  intros H. exists e. by apply pending_ended_spec.
Qed.

Lemma active_cleanup_spec ao m e c :
  valid_order ao (active_conn_id_by_endpoint m) ->
  (e, c) ∈ omap (active_ended m) ao <->
  exists s, active_of m e = Some (c, s) /\ ended s = true.
Proof.
  intros Hao. rewrite (elem_of_omap_order _ _ _ _ Hao) by (intros e'; apply active_some).
  split.
  - intros (e' & He). apply active_ended_spec in He as (c' & s & [= -> ->] & H). by exists s.
  - intros (s & H). exists e. apply active_ended_spec. by exists c, s.
Qed.

Lemma active_cleanup_bound ao m :
  valid_order ao (active_conn_id_by_endpoint m) -> bound_pairs m (omap (active_ended m) ao).
Proof.
  intros Hao. split.
  - destruct Hao as [Hnd _]. induction Hnd as [|e order Hnin Hnd IH]; [constructor|].
    rewrite omap_cons. destruct (active_ended m e) as [x|] eqn:E; [|done]. cbn.
    apply active_ended_spec in E as (c & s & -> & _). constructor; [|done].
    intros Hin. apply list_elem_of_fmap in Hin as ([e' c'] & Heq & Hin). cbn in Heq. subst e'.
    apply list_elem_of_omap in Hin as (e' & Hin & He').
    apply active_ended_spec in He' as (? & ? & [= <- <-] & _). done.
  - intros e c Hin. apply active_cleanup_spec in Hin as (s & Hof & _); [|done].
    by apply active_of_spec in Hof as [? _].
Qed.

Lemma cleaned_endpoint ao m e :
  valid_order ao (active_conn_id_by_endpoint m) ->
  e ∈ (omap (active_ended m) ao).*1 <->
  exists c s, active_of m e = Some (c, s) /\ ended s = true.
Proof.
  intros Hao. rewrite list_elem_of_fmap. split.
  - intros ([e' c] & -> & Hin). exists c. by apply active_cleanup_spec in Hin.
  - intros (c & Hc). exists (e, c). split; [done|]. by apply active_cleanup_spec.
Qed.

Lemma cleaned_id ao m c s :
  mgr_wf cfg m -> valid_order ao (active_conn_id_by_endpoint m) ->
  active_by_conn_id m !! c = Some s ->
  c ∈ (omap (active_ended m) ao).*2 <-> ended s = true.
Proof.
  intros Hw Hao Ec. destruct (mw_active _ _ Hw c s Ec) as (_ & _ & _ & _ & e & He).
  rewrite list_elem_of_fmap. split.
  - intros ([e' c'] & -> & Hin). apply active_cleanup_spec in Hin as (s' & Hs' & ?); [|done].
    apply active_of_spec in Hs' as [_ Hs']. cbn in Ec. congruence.
  - intros Hs. exists (e, c). split; [done|]. apply active_cleanup_spec; [done|].
    exists s. split; [by apply active_of_spec|done].
Qed.

(** The lookups of the table after a poll. *)
Lemma poll_tx_lookups po ao m out m' :
  mgr_ok cfg m -> valid_order po (pending_by_endpoint m) ->
  valid_order ao (active_conn_id_by_endpoint m) ->
  poll_tx cfg now po ao m = (out, m') ->
  mgr_wf cfg m' /\
  out = omap (pending_out m) po ++ omap (active_out m) ao /\
  (retired_conn_ids m ⊆ retired_conn_ids m') /\
  (forall e, pending_by_endpoint m' !! e =
     (s ← pending_by_endpoint m !! e; if ended s then None else Some (after s))) /\
  (forall e, active_conn_id_by_endpoint m' !! e =
     (x ← active_of m e; if ended (snd x) then None else Some (fst x))) /\
  (forall c, active_by_conn_id m' !! c =
     (s ← active_by_conn_id m !! c; if ended s then None else Some (after s))).
Proof.
  intros [Hw _ _] Hpo Hao. unfold poll_tx, collect_pending_tx, collect_active_tx.
  destruct (collect_pending_run po m [] [] (proj1 Hpo)) as (p1 & E1 & Hp1).
  pose proof (collect_pending_wf po m [] [] Hw) as Hw1. rewrite E1 in Hw1 |- *. cbn [fst] in Hw1.
  set (m1 := m <| pending_by_endpoint := p1 |>) in *.
  destruct (collect_active_run ao m1 ([] ++ omap (pending_out m) po) [] (proj1 Hao)
              (mw_inj _ _ Hw)) as (a1 & E2 & Ha1).
  pose proof (collect_active_wf ao m1 ([] ++ omap (pending_out m) po) [] Hw1) as Hw2.
  rewrite E2 in Hw2 |- *. cbn [fst] in Hw2. set (m2 := m1 <| active_by_conn_id := a1 |>) in *.
  change (active_ended m1) with (active_ended m). change (active_out m1) with (active_out m).
  set (cl1 := [] ++ omap (pending_ended m) po). set (cl2 := [] ++ omap (active_ended m) ao).
  destruct (cleanup_pending_run cl1 m2) as (p2 & r & E3 & Hr & Hp2).
  pose proof (cleanup_pending_wf cl1 m2 Hw2) as Hw3. rewrite E3 in Hw3 |- *.
  set (m3 := m2 <| pending_by_endpoint := p2 |> <| retired_conn_ids := r |>) in *.
  destruct (cleanup_active_run cl2 m3 Hw3 (active_cleanup_bound ao m Hao))
    as (Hw4 & Ep & Er & Hep & Ha).
  intros [= <- <-]. split; [done|]. split; [done|]. split; [cbn in *; set_solver|].
  split; [|split].
  - intros e. rewrite Ep. cbn. rewrite Hp2. cbn. rewrite Hp1.
    destruct (pending_by_endpoint m !! e) as [s|] eqn:Ee; cbn; [|by repeat case_bool_decide].
    rewrite (bool_decide_eq_true_2 (e ∈ po)) by (apply Hpo; by eexists). cbn.
    destruct (ended s) eqn:Es; case_bool_decide as Hin; try done; exfalso.
    + apply Hin, pending_cleanup_spec; [done|]. by exists s.
    + apply pending_cleanup_spec in Hin as (s' & Hs' & ?); [|done]. congruence.
  - intros e. rewrite Hep. cbn.
    pose proof (cleaned_endpoint ao m e Hao : e ∈ cl2.*1 <-> _) as Hin.
    destruct (active_of m e) as [[c s]|] eqn:Eo; cbn.
    + apply active_of_spec in Eo as [-> _].
      case_bool_decide as Hd; destruct (ended s) eqn:Es; try done; exfalso.
      * apply Hin in Hd as (? & ? & [= <- <-] & ?). congruence.
      * apply Hd, Hin. by exists c, s.
    + case_bool_decide as Hd; [done|]. unfold active_of in Eo.
      destruct (active_conn_id_by_endpoint m !! e) as [c|] eqn:Ec; [|done]. exfalso.
      destruct (mw_bound _ _ Hw e c Ec) as [s Hs]. cbn in Eo. by rewrite Hs in Eo.
  - intros c. rewrite Ha. cbn. rewrite Ha1. cbn.
    destruct (active_by_conn_id m !! c) as [s|] eqn:Ec; cbn; [|by repeat case_bool_decide].
    destruct (mw_active _ _ Hw c s Ec) as (_ & _ & _ & _ & e & He).
    rewrite (bool_decide_eq_true_2 (visited _ _ _)).
    2:{ apply Exists_exists. exists e. split; [apply Hao; by eexists|done]. }
    pose proof (cleaned_id ao m c s Hw Hao Ec : c ∈ cl2.*2 <-> _) as Hin.
    case_bool_decide as Hd; destruct (ended s); try done; exfalso; tauto || (apply Hin in Hd; done).
Qed.

Lemma poll_tx_mgr_ok po ao m out m' :
  mgr_ok cfg m -> valid_order po (pending_by_endpoint m) ->
  valid_order ao (active_conn_id_by_endpoint m) ->
  poll_tx cfg now po ao m = (out, m') -> mgr_ok cfg m'.
Proof.
  intros Hm Hpo Hao E. destruct (poll_tx_lookups po ao m out m' Hm Hpo Hao E)
    as (Hw & _ & _ & Hp & _ & Ha). destruct Hm as [Hw0 Hpl Hal].
  split; [done| |].
  - intros e x. rewrite Hp. destruct (pending_by_endpoint m !! e) as [s|] eqn:Ee; cbn; [|done].
    destruct (ended s) eqn:Es; [done|]. intros [= <-]. specialize (Hpl e s Ee).
    unfold pending_live in *. rewrite after_live; [done|exact (proj1 (mw_pending _ _ Hw0 e s Ee))| |done].
    by destruct Hpl as [-> | ->].
  - intros c x. rewrite Ha. destruct (active_by_conn_id m !! c) as [s|] eqn:Ec; cbn; [|done].
    destruct (ended s) eqn:Es; [done|]. intros [= <-]. specialize (Hal c s Ec).
    unfold active_live in *. rewrite after_live; [done|exact (proj1 (mw_active _ _ Hw0 c s Ec))| |done].
    by destruct Hal as [-> | ->].
Qed.

Lemma out_endpoints po ao m :
  mgr_wf cfg m -> valid_order po (pending_by_endpoint m) ->
  valid_order ao (active_conn_id_by_endpoint m) ->
  NoDup (map out_endpoint (omap (pending_out m) po ++ omap (active_out m) ao)).
Proof.
  intros Hw [Hp Hpo] [Ha Hao].
  assert (Hpe : forall e d, pending_out m e = Some d -> out_endpoint d = e).
  { intros e d. unfold pending_out. destruct (_ !! e) as [s|]; [|done]. cbn.
    unfold datagram_of. destruct (sent s); [|done]. by intros [= <-]. }
  assert (Hae : forall e d, active_out m e = Some d -> out_endpoint d = e).
  { intros e d. unfold active_out. destruct (active_of m e) as [s|]; [|done]. cbn.
    unfold datagram_of. destruct (sent _); [|done]. by intros [= <-]. }
  assert (Hin : forall f e (l : list EndpointKey), (forall e d, f e = Some d -> out_endpoint d = e) ->
    e ∈ map out_endpoint (omap f l) -> e ∈ l).
  { intros f e l Hf Hin. apply list_elem_of_fmap in Hin as (d & -> & Hd).
    apply list_elem_of_omap in Hd as (e' & Hl & He'). by rewrite (Hf e' d He'). }
  assert (Hnd : forall f (l : list EndpointKey), (forall e d, f e = Some d -> out_endpoint d = e) ->
    NoDup l -> NoDup (map out_endpoint (omap f l))).
  { intros f l Hf. induction 1 as [|e l Hnin Hnd IH]; [constructor|]. rewrite omap_cons.
    destruct (f e) as [d|] eqn:E; [|done]. cbn. constructor; [|done].
    rewrite (Hf e d E). intros He. by apply Hnin, (Hin f). }
  rewrite map_app. apply NoDup_app. split; [by apply Hnd|]. split; [|by apply Hnd].
  intros e H1 H2. apply (Hin _ _ _ Hpe), Hpo in H1 as [s Hs]. apply (Hin _ _ _ Hae), Hao in H2.
  destruct (mw_pending _ _ Hw e s Hs) as (_ & _ & _ & _ & Hno). rewrite Hno in H2. by destruct H2.
Qed.

Lemma datagram_of_spec e s e' bs :
  datagram_of e s = Some (mkOutbound e' bs) <-> e = e' /\ sent s = Some bs.
Proof.
  unfold datagram_of. destruct (sent s); cbn; [|naive_solver].
  split; [by intros [= <- <-]|by intros [-> [= ->]]].
Qed.

Lemma out_spec po ao m e bs :
  mgr_wf cfg m -> valid_order po (pending_by_endpoint m) ->
  valid_order ao (active_conn_id_by_endpoint m) ->
  mkOutbound e bs ∈ omap (pending_out m) po ++ omap (active_out m) ao <->
  exists s, bound m e = Some s /\ sent s = Some bs.
Proof.
  intros Hw Hpo Hao. rewrite elem_of_app.
  rewrite (elem_of_omap_order _ _ _ _ Hpo) by (intros e'; apply pending_some).
  rewrite (elem_of_omap_order _ _ _ _ Hao) by (intros e'; apply active_some).
  unfold bound, pending_out, active_out. split.
  - intros [(e' & He)|(e' & He)].
    + destruct (pending_by_endpoint m !! e') as [s|] eqn:Es; [|done].
      apply datagram_of_spec in He as [-> Hs]. exists s. by rewrite Es.
    + destruct (active_of m e') as [[c s]|] eqn:Es; [|done].
      apply datagram_of_spec in He as [-> Hs]. exists s. split; [|done].
      destruct (pending_by_endpoint m !! e) as [s'|] eqn:Ep; [|by rewrite Es]. exfalso.
      destruct (mw_pending _ _ Hw e s' Ep) as (_ & _ & _ & _ & Hno).
      apply active_of_spec in Es as [Es _]. congruence.
  - intros (s & Hb & Hs). destruct (pending_by_endpoint m !! e) as [s'|] eqn:Ep.
    + left. exists e. rewrite Ep. injection Hb as ->. by apply datagram_of_spec.
    + right. exists e. destruct (active_of m e) as [[c s']|]; [|done].
      injection Hb as <-. by apply datagram_of_spec.
Qed.

Lemma poll_tx_bound po ao m out m' e :
  mgr_ok cfg m -> valid_order po (pending_by_endpoint m) ->
  valid_order ao (active_conn_id_by_endpoint m) -> poll_tx cfg now po ao m = (out, m') ->
  bound m' e = (s ← bound m e; if ended s then None else Some (after s)).
Proof.
  intros Hm Hpo Hao E. destruct (poll_tx_lookups po ao m out m' Hm Hpo Hao E)
    as (_ & _ & _ & Hp & He & Ha). destruct Hm as [Hw _ _].
  unfold bound. rewrite Hp. unfold active_of at 1. rewrite He.
  destruct (pending_by_endpoint m !! e) as [s|] eqn:Ep; cbn.
  - destruct (ended s); [|done]. unfold active_of.
    by destruct (mw_pending _ _ Hw e s Ep) as (_ & _ & _ & _ & ->).
  - destruct (active_of m e) as [[c s]|] eqn:Eo; cbn; [|done].
    apply active_of_spec in Eo as [_ Ec]. destruct (ended s) eqn:Es; cbn; [done|].
    rewrite Ha, Ec. cbn. by rewrite Es.
Qed.
End polling.

(** ** Properties *)

(** C15: one poll of the server, for any order in which the hash maps are
    walked: every session is polled exactly once; the datagrams returned are
    exactly those the sessions produced, each addressed to the endpoint its
    session is bound to and at most one per endpoint; a session that ended (reset
    or closed without sending) is removed and the others carry on; retired
    connection ids are never forgotten; and the table stays consistent. *)
Theorem poll_tx_sessions cfg now po ao m :
  settings_typed cfg -> is_u64 now -> mgr_ok cfg m ->
  valid_order po (pending_by_endpoint m) -> valid_order ao (active_conn_id_by_endpoint m) ->
  let '(out, m') := poll_tx cfg now po ao m in
  mgr_ok cfg m' /\ NoDup (map out_endpoint out) /\
  (retired_conn_ids m ⊆ retired_conn_ids m') /\
  (forall e bs, mkOutbound e bs ∈ out <->
     exists s, bound m e = Some s /\ fst (Session.poll_tx cfg now s) = Some bs) /\
  (forall e, bound m' e =
     (s ← bound m e; if ended cfg now s then None else Some (snd (Session.poll_tx cfg now s)))).
Proof.
  intros Hcfg Hnow Hm Hpo Hao. destruct (poll_tx cfg now po ao m) as [out m'] eqn:E.
  destruct (poll_tx_lookups cfg now Hcfg Hnow po ao m out m' Hm Hpo Hao E)
    as (_ & -> & Hr & _).
  split; [by eapply poll_tx_mgr_ok|]. split; [exact (out_endpoints cfg now po ao m (mo_wf _ _ Hm) Hpo Hao)|].
  split; [done|]. split.
  - intros e bs. by apply (out_spec cfg now); [apply Hm|..].
  - intros e. by eapply poll_tx_bound.
Qed.

(** The order a [gmap] lists its own keys in is one of the valid orders. *)
Definition key_order {V} (map : gmap EndpointKey V) : list EndpointKey := (map_to_list map).*1.

Lemma key_order_valid {V} (map : gmap EndpointKey V) : valid_order (key_order map) map.
Proof.
  split; [apply NoDup_fst_map_to_list|]. intros e. unfold key_order.
  rewrite list_elem_of_fmap. split.
  - intros ([k v] & -> & Hin). apply elem_of_map_to_list in Hin. by eexists.
  - intros [v Hv]. exists (e, v). split; [done|]. by apply elem_of_map_to_list.
Qed.

(** A server that has received one SYN. *)
Definition sample_endpoint : EndpointKey := mkEndpoint "10.0.0.1" 4000.
Definition sample_syn : bytes := encode (control_header 0 1 7 0 0) [].
Definition sample_manager : Manager :=
  default empty_manager
    (ServerSessionManager.on_datagram_received default_transport (fun _ => 1) 1 sample_endpoint
       sample_syn 0 empty_manager).

Lemma sample_syn_bytes : Forall is_u8 sample_syn.
Proof.
  apply encode_bytes; [|constructor].
  apply (control_header_ok 0 (flag_bits FlagSyn) 7 0 0); auto with rudp; unfold is_u32; lia.
Qed.

Lemma sample_manager_ok : mgr_ok default_transport sample_manager.
Proof.
  unfold sample_manager.
  destruct (ServerSessionManager.on_datagram_received _ _ _ _ _ _ _) as [m|] eqn:E;
    [|apply empty_manager_ok].
  eapply on_datagram_received_mgr_ok; [apply empty_manager_ok|apply sample_syn_bytes|exact E].
Qed.

Lemma poll_tx_sessions_witness :
  let m := sample_manager in
  let '(out, m') := poll_tx default_transport 5 (key_order (pending_by_endpoint m))
                      (key_order (active_conn_id_by_endpoint m)) m in
  NoDup (map out_endpoint out) /\ map out_endpoint out = [sample_endpoint].
Proof.
  intros m. pose proof (poll_tx_sessions default_transport 5 (key_order (pending_by_endpoint m))
    (key_order (active_conn_id_by_endpoint m)) m default_transport_typed
    ltac:(unfold is_u64; lia) sample_manager_ok (key_order_valid _) (key_order_valid _)) as H.
  assert (E : map out_endpoint (fst (poll_tx default_transport 5 (key_order (pending_by_endpoint m))
    (key_order (active_conn_id_by_endpoint m)) m)) = [sample_endpoint]) by (vm_compute; reflexivity).
  destruct (poll_tx default_transport 5 (key_order (pending_by_endpoint m))
    (key_order (active_conn_id_by_endpoint m)) m) as [out m'].
  destruct H as (_ & H & _). split; [exact H|exact E].
Defined.
