(* ===== verification/ManagerRouting.v ===== *)
(** The server's session table over time: every reachable state is consistent,
    endpoints do not affect each other, unroutable datagrams are dropped, fresh
    connection ids are found, and what happens to the events of a session that
    ends. *)

From S2P Require Import Prelude StdMap Protocol Utils Codec Config SessionTypes.
From S2P Require Import ConnectionStateMachine TxHandler TxInvariant RxHandler RxInvariant.
From S2P Require Import Session SessionInvariant SessionLifecycle ServerSessionManager.
From S2P Require Import ManagerInvariant ManagerPolling.

(** ** The application side *)

Section application.
Context (cfg : TransportSettings).

(** A change that keeps the connection state keeps the table at rest. *)
Lemma mgr_ok_update_pending m e s s' :
  mgr_ok cfg m -> pending_by_endpoint m !! e = Some s -> SessionChange cfg s s' ->
  st_connection_state s' = st_connection_state s ->
  mgr_ok cfg (m <| pending_by_endpoint ::= fun p => <[e := s']> p |>).
Proof.
  intros [Hw Hp Ha] He Hc Hst. split; [by eapply wf_update_pending| |done].
  intros e' x. cbn. rewrite lookup_insert_Some. intros [[_ <-]|[_ Hx]]; [|by eapply Hp].
  unfold pending_live. rewrite Hst. by eapply Hp.
Qed.

Lemma mgr_ok_update_active m c s s' :
  mgr_ok cfg m -> active_by_conn_id m !! c = Some s -> SessionChange cfg s s' ->
  st_connection_state s' = st_connection_state s ->
  mgr_ok cfg (m <| active_by_conn_id ::= fun a => <[c := s']> a |>).
Proof.
  intros [Hw Hp Ha] Hcs Hc Hst. split; [by eapply wf_update_active|done|].
  intros c' x. cbn. rewrite lookup_insert_Some. intros [[_ <-]|[_ Hx]]; [|by eapply Ha].
  unfold active_live. rewrite Hst. by eapply Ha.
Qed.

Lemma queue_send_mgr_ok c id t p m :
  is_u32 id -> channel_named t -> Forall is_u8 p ->
  mgr_ok cfg m -> mgr_ok cfg (snd (queue_send c id t p m)).
Proof.
  intros Hid Ht Hp Hm. unfold queue_send, find_active_session.
  destruct (active_by_conn_id m !! c) as [s|] eqn:E; [|done]. cbn [snd].
  eapply mgr_ok_update_active; [done..| |done]. by apply queued_change.
Qed.

Lemma drain_active_events_mgr_ok c m :
  mgr_ok cfg m -> mgr_ok cfg (snd (drain_active_events c m)).
Proof.
  intros Hm. unfold drain_active_events, find_active_session.
  destruct (active_by_conn_id m !! c) as [s|] eqn:E; [|done].
  exact (mgr_ok_update_active m c s _ Hm E (drained_change cfg s) eq_refl).
Qed.

Lemma drain_pending_step_ok acc e :
  mgr_ok cfg (fst acc) -> mgr_ok cfg (fst (drain_pending_step acc e)).
Proof.
  destruct acc as [m evs]. cbn [fst]. intros Hm. unfold drain_pending_step, find_pending_session.
  destruct (pending_by_endpoint m !! e) as [s|] eqn:E; [|done].
  exact (mgr_ok_update_pending m e s _ Hm E (drained_change cfg s) eq_refl).
Qed.

Lemma drain_active_step_ok acc e :
  mgr_ok cfg (fst acc) -> mgr_ok cfg (fst (drain_active_step acc e)).
Proof.
  destruct acc as [m evs]. cbn [fst]. intros Hm. unfold drain_active_step, find_active_session.
  destruct (active_conn_id_by_endpoint m !! e) as [c|]; [|done].
  destruct (active_by_conn_id m !! c) as [s|] eqn:E; [|done].
  exact (mgr_ok_update_active m c s _ Hm E (drained_change cfg s) eq_refl).
Qed.

Lemma drain_events_mgr_ok po ao m :
  mgr_ok cfg m -> mgr_ok cfg (snd (drain_events po ao m)).
Proof.
  intros Hm. unfold drain_events.
  assert (H1 : forall l acc, mgr_ok cfg (fst acc) ->
    mgr_ok cfg (fst (fold_left drain_pending_step l acc))).
  { induction l as [|e l IH]; intros acc Hacc; [done|]. by apply IH, drain_pending_step_ok. }
  assert (H2 : forall l acc, mgr_ok cfg (fst acc) ->
    mgr_ok cfg (fst (fold_left drain_active_step l acc))).
  { induction l as [|e l IH]; intros acc Hacc; [done|]. by apply IH, drain_active_step_ok. }
  specialize (H2 ao _ (H1 po (m, []) Hm)).
  by destruct (fold_left drain_active_step ao _) as [m' evs].
Qed.
End application.

(** ** Every history of the server *)

Inductive mgr_step (cfg : TransportSettings) (rd : nat -> Z) : Manager -> Manager -> Prop :=
| mstep_receive fuel e bs now m m' :
    Forall is_u8 bs -> on_datagram_received cfg rd fuel e bs now m = Some m' ->
    mgr_step cfg rd m m'
| mstep_poll now po ao m :
    is_u64 now -> valid_order po (pending_by_endpoint m) ->
    valid_order ao (active_conn_id_by_endpoint m) ->
    mgr_step cfg rd m (snd (poll_tx cfg now po ao m))
| mstep_send c id t p m :
    is_u32 id -> channel_named t -> Forall is_u8 p ->
    mgr_step cfg rd m (snd (queue_send c id t p m))
| mstep_drain po ao m :
    valid_order po (pending_by_endpoint m) -> valid_order ao (active_conn_id_by_endpoint m) ->
    mgr_step cfg rd m (snd (drain_events po ao m))
| mstep_drain_active c m : mgr_step cfg rd m (snd (drain_active_events c m)).

Lemma mgr_step_ok cfg rd m m' :
  settings_typed cfg -> mgr_ok cfg m -> mgr_step cfg rd m m' -> mgr_ok cfg m'.
Proof.
  intros Hcfg Hm Hs. destruct Hs.
  - by eapply on_datagram_received_mgr_ok.
  - destruct (poll_tx cfg now po ao m) as [out m'] eqn:E. by eapply poll_tx_mgr_ok.
  - by apply queue_send_mgr_ok.
  - by apply drain_events_mgr_ok.
  - by apply drain_active_events_mgr_ok.
Qed.

Lemma mgr_reachable_ok cfg rd m :
  settings_typed cfg -> star (mgr_step cfg rd) empty_manager m -> mgr_ok cfg m.
Proof.
  intros Hcfg. apply (star_inv _ (mgr_ok cfg)); [|apply empty_manager_ok].
  intros x y. by apply mgr_step_ok.
Qed.

(** ** Properties *)

(** C7: in every reachable state of the server, whatever datagrams arrive
    from whatever endpoints: an active session is stored under its own non-zero
    connection id, is bound to exactly one endpoint, and is Established or
    Closing; a pending session is in HandshakeReceived or Closing, its endpoint
    has no active session; no two sessions, pending or active, share a
    connection id, and no live id has been retired. *)
Theorem server_table_consistent cfg rd m :
  settings_typed cfg -> star (mgr_step cfg rd) empty_manager m ->
  (forall c s, active_by_conn_id m !! c = Some s ->
     st_conn_id s = c /\ c <> 0 /\ ~ (c ∈ retired_conn_ids m) /\ active_live s /\
     exists e, active_conn_id_by_endpoint m !! e = Some c /\
       forall e', active_conn_id_by_endpoint m !! e' = Some c -> e' = e) /\
  (forall e c, active_conn_id_by_endpoint m !! e = Some c -> is_Some (active_by_conn_id m !! c)) /\
  (forall e s, pending_by_endpoint m !! e = Some s ->
     st_conn_id s <> 0 /\ ~ (st_conn_id s ∈ retired_conn_ids m) /\ pending_live s /\
     active_conn_id_by_endpoint m !! e = None /\ active_by_conn_id m !! st_conn_id s = None /\
     forall e' s', pending_by_endpoint m !! e' = Some s' -> st_conn_id s' = st_conn_id s -> e' = e).
Proof.
  intros Hcfg Hr. destruct (mgr_reachable_ok cfg rd m Hcfg Hr) as [[Hp Hpi Ha Hb Hi] Hpl Hal].
  split; [|split; [done|]].
  - intros c s Hc. destruct (Ha c s Hc) as (_ & ? & ? & ? & e & He). repeat (split; [by eauto|]).
    exists e. split; [done|]. intros e' He'. by eapply Hi.
  - intros e s He. destruct (Hp e s He) as (_ & ? & ? & ? & ?). repeat (split; [by eauto|]).
    intros e' s' He' Heq. by eapply Hpi.
Qed.

Lemma server_table_consistent_witness :
  exists s, pending_by_endpoint sample_manager !! sample_endpoint = Some s /\
    st_conn_id s <> 0 /\ pending_live s.
Proof.
  destruct (server_table_consistent default_transport (fun _ => 1) sample_manager) as (_ & _ & H).
  - apply default_transport_typed.
  - eapply star_snoc; [apply star_refl|].
    apply (mstep_receive _ _ 1 sample_endpoint sample_syn 0); [apply sample_syn_bytes|].
    vm_compute. reflexivity.
  - destruct (pending_by_endpoint sample_manager !! sample_endpoint) as [s|] eqn:E;
      [|vm_compute in E; discriminate E].
    exists s. split; [reflexivity|]. destruct (H sample_endpoint s E) as (H1 & _ & H2 & _).
    split; [exact H1|exact H2].
Defined.

(** *** Isolation *)

(** [m'] looks like [m] to the endpoint [e]. *)
Definition same_for (e : EndpointKey) (m m' : Manager) : Prop :=
  pending_by_endpoint m' !! e = pending_by_endpoint m !! e /\ active_of m' e = active_of m e.

Lemma same_for_refl e m : same_for e m m.
Proof. done. Qed.
Lemma same_for_trans e m1 m2 m3 : same_for e m1 m2 -> same_for e m2 m3 -> same_for e m1 m3.
Proof. intros [] []. split; congruence. Qed.

Lemma same_for_pending e e' s m :
  e <> e' -> same_for e m (m <| pending_by_endpoint ::= fun p => <[e' := s]> p |>).
Proof. intros Hne. split; [|done]. cbn. by rewrite lookup_insert_ne. Qed.

Section isolation.
Context (cfg : TransportSettings) (e e' : EndpointKey) (Hne : e <> e').

Lemma same_for_cleanup_pending m : same_for e m (cleanup_pending_session e' m).
Proof.
  unfold cleanup_pending_session. case_match; [|done].
  destruct (st_conn_id _ =? 0); (split; [|done]); cbn; by rewrite lookup_delete_ne.
Qed.

Lemma same_for_promote m :
  mgr_wf cfg m -> same_for e m (promote_pending_session e' m).
Proof.
  intros Hw. unfold promote_pending_session, find_pending_session.
  destruct (pending_by_endpoint m !! e') as [s|] eqn:Ep; [|done].
  destruct (mw_pending _ _ Hw e' s Ep) as (_ & Hid & Hact & _).
  rewrite (proj2 (Z.eqb_neq _ _)) by done. split; cbn; [by rewrite lookup_delete_ne|].
  unfold active_of. cbn. rewrite lookup_insert_ne by done.
  destruct (active_conn_id_by_endpoint m !! e) as [c|] eqn:Ec; [|done]. cbn.
  rewrite lookup_insert_ne; [done|]. intros Heq.
  destruct (mw_bound _ _ Hw e c Ec) as [x Hx]. congruence.
Qed.

Lemma same_for_dispatch_pending bs now m :
  mgr_wf cfg m -> Forall is_u8 bs ->
  same_for e m (snd (try_dispatch_pending cfg e' bs now m)).
Proof.
  intros Hw Hb. unfold try_dispatch_pending, find_pending_session.
  destruct (pending_by_endpoint m !! e') as [s|] eqn:Ep; [|done].
  eapply same_for_trans; [by apply (same_for_pending e e' (Session.on_datagram_received cfg bs now s))|].
  case_bool_decide; cbn [snd].
  - apply same_for_promote. eapply wf_update_pending; [done..|]. by apply received_change.
  - unfold cleanup_pending_if_terminal. repeat case_match; try done.
    apply same_for_cleanup_pending.
Qed.

Lemma same_for_dispatch_active bs c now m :
  mgr_wf cfg m -> active_conn_id_by_endpoint m !! e' = Some c ->
  same_for e m (snd (try_dispatch_active cfg e' bs c now m)).
Proof.
  intros Hw Hc. unfold try_dispatch_active.
  destruct (find_active_session c m) as [s|]; [|done]. cbn [snd].
  assert (Hother : active_conn_id_by_endpoint m !! e <> Some c)
    by (intros He; by apply Hne, (mw_inj _ _ Hw e e' c)).
  eapply same_for_trans.
  { split; [|apply (active_of_insert m c (Session.on_datagram_received cfg bs now s) e Hother)].
    done. }
  set (m1 := m <| active_by_conn_id ::= _ |>). unfold cleanup_active_if_terminal.
  repeat case_match; try done. unfold cleanup_active_session.
  destruct (c =? 0); cbn; rewrite Hc, Z.eqb_refl; (split; [done|]); unfold active_of; cbn;
    rewrite lookup_delete_ne by done;
    destruct (active_conn_id_by_endpoint m !! e) as [c'|]; cbn; try done;
    by rewrite lookup_delete_ne by congruence.
Qed.

Lemma same_for_received rd fuel bs now m m' :
  mgr_ok cfg m -> Forall is_u8 bs ->
  on_datagram_received cfg rd fuel e' bs now m = Some m' -> same_for e m m'.
Proof.
  intros Hm Hb. unfold on_datagram_received. destruct (decode bs) as [pv|]; [|by intros [= <-]].
  destruct (route_existing_active_ok cfg e' bs (pv_header pv) now m Hm Hb) as [_ H1].
  assert (S1 : same_for e m (snd (route_existing_active cfg e' bs (pv_header pv) now m))).
  { unfold route_existing_active, is_active_endpoint_match. repeat case_match; try done.
    apply same_for_dispatch_active; [apply Hm|].
    match goal with H : negb (?z =? _) = false |- _ => apply negb_false_iff, Z.eqb_eq in H end.
    congruence. }
  destruct (route_existing_active cfg e' bs (pv_header pv) now m) as [[] m1]; cbn in *.
  { by intros [= <-]. }
  specialize (H1 eq_refl). subst m1.
  destruct (route_existing_pending_ok cfg e' bs now m Hm Hb) as [_ H2].
  assert (S2 : same_for e m (snd (route_existing_pending cfg e' bs now m)))
    by (apply same_for_dispatch_pending; [apply Hm|done]).
  destruct (route_existing_pending cfg e' bs now m) as [[] m2]; cbn in *.
  { by intros [= <-]. }
  destruct (H2 eq_refl) as [-> _]. unfold route_new_peer.
  destruct (negb _); [by intros [= <-]|].
  destruct (ensure_session_for_new_peer rd fuel e' m) as [[r m1]|] eqn:E; [|done].
  apply (ensure_session_ok cfg) in E as [Hw1 Hc]; [|apply Hm].
  assert (S3 : same_for e m m1).
  { destruct Hc as [(-> & _)|(_ & _ & _ & c & isn & n & _ & _ & _ & ->)]; [done|].
    split; [|done]. cbn. by rewrite lookup_insert_ne. }
  destruct r; intros [= <-]; [|done].
  eapply same_for_trans; [exact S3|]. by apply same_for_dispatch_pending.
Qed.
End isolation.

(** C8: endpoints are isolated. A datagram from one endpoint, whatever
    connection id it claims, changes nothing for any other endpoint: its pending
    session, the connection id it is bound to and its active session stay as
    they are. *)
Theorem datagram_isolated cfg rd fuel e e' bs now m m' :
  settings_typed cfg -> star (mgr_step cfg rd) empty_manager m -> Forall is_u8 bs -> e <> e' ->
  on_datagram_received cfg rd fuel e' bs now m = Some m' ->
  pending_by_endpoint m' !! e = pending_by_endpoint m !! e /\ active_of m' e = active_of m e.
Proof.
  intros Hcfg Hr Hb Hne E. eapply (same_for_received cfg e e'); try done.
  by eapply mgr_reachable_ok.
Qed.

Definition other_endpoint : EndpointKey := mkEndpoint "10.0.0.2" 4000.

Lemma datagram_isolated_witness :
  exists m', on_datagram_received default_transport (fun n => if (n <? 4)%nat then 1 else 2) 1
               other_endpoint sample_syn 0 sample_manager = Some m' /\
    pending_by_endpoint m' !! sample_endpoint = pending_by_endpoint sample_manager !! sample_endpoint.
Proof.
  destruct (on_datagram_received default_transport (fun n => if (n <? 4)%nat then 1 else 2) 1
              other_endpoint sample_syn 0 sample_manager) as [m'|] eqn:E;
    [|vm_compute in E; discriminate E].
  exists m'. split; [reflexivity|].
  refine (proj1 (datagram_isolated default_transport (fun n => if (n <? 4)%nat then 1 else 2) 1
    sample_endpoint other_endpoint sample_syn 0 sample_manager m' default_transport_typed _
    sample_syn_bytes _ E)).
  - eapply star_snoc; [apply star_refl|].
    apply (mstep_receive _ _ 1 sample_endpoint sample_syn 0); [apply sample_syn_bytes|].
    vm_compute. reflexivity.
  - discriminate.
Defined.

(** *** Unroutable datagrams *)

(** A datagram from [e] that belongs to no session of [e] and may not start one. *)
Definition unroutable (e : EndpointKey) (pv : PacketView) (m : Manager) : Prop :=
  let c := hdr_conn_id (pv_header pv) in
  (c <> 0 /\ is_Some (active_by_conn_id m !! c) /\ active_conn_id_by_endpoint m !! e <> Some c) \/
  (c <> 0 /\ active_by_conn_id m !! c = None /\ pending_by_endpoint m !! e = None) \/
  (c = 0 /\ pending_by_endpoint m !! e = None /\ is_Some (active_conn_id_by_endpoint m !! e)).

(** A datagram claiming the connection of another endpoint, or an unknown
    connection, or a bare new handshake from an endpoint that already has a
    connection, is dropped without any effect; so is one that does not decode. *)
Theorem unroutable_dropped cfg rd fuel e bs now m :
  (forall pv, decode bs = Some pv -> unroutable e pv m) ->
  on_datagram_received cfg rd fuel e bs now m = Some m.
Proof.
  unfold on_datagram_received. destruct (decode bs) as [pv|]; [|done].
  intros H. specialize (H pv eq_refl). unfold route_existing_active, has_active_session,
    find_active_session, is_active_endpoint_match, route_existing_pending, try_dispatch_pending,
    find_pending_session, route_new_peer, ensure_session_for_new_peer.
  destruct H as [(Hc & [s Hs] & He)|[(Hc & Hn & Hp)|(Hc & Hp & [c He])]].
  - rewrite (proj2 (Z.eqb_neq _ _) Hc), Hs. cbn.
    destruct (active_conn_id_by_endpoint m !! e) as [c'|]; [|done]. cbn.
    by rewrite (proj2 (Z.eqb_neq c' _)) by congruence.
  - rewrite (proj2 (Z.eqb_neq _ _) Hc), Hn. cbn. by rewrite ?Hp.
  - rewrite Hc. cbn. rewrite Hp, He. unfold find_pending_session. by rewrite Hp.
Qed.

Lemma unroutable_dropped_witness :
  on_datagram_received default_transport (fun _ => 1) 0 other_endpoint sample_syn_ack 0
    sample_manager = Some sample_manager.
Proof.
  apply unroutable_dropped. intros pv Hpv. right; left.
  assert (Hc : hdr_conn_id (pv_header pv) = 5).
  { assert (E : (hdr_conn_id ∘ pv_header <$> decode sample_syn_ack) = Some 5)
      by (vm_compute; reflexivity). rewrite Hpv in E. injection E as E. exact E. }
  rewrite Hc. split; [discriminate|]. split; vm_compute; reflexivity.
Defined.

(** *** The events of a session that ends *)

Definition no_event_for (e : EndpointKey) (evs : list ServerSessionEvent) : Prop :=
  Forall (fun ev => sev_endpoint ev <> e) evs.

(** No session, pending or active, for [e]. *)
Definition absent (e : EndpointKey) (m : Manager) : Prop :=
  pending_by_endpoint m !! e = None /\ active_conn_id_by_endpoint m !! e = None.

Lemma no_event_for_app e e' c evs drained :
  e' <> e -> no_event_for e evs -> no_event_for e (evs ++ map (mkServerEvent e' c) drained).
Proof.
  intros Hne Hn. apply Forall_app. split; [done|].
  apply Forall_forall. intros ev Hin. by apply list_elem_of_fmap in Hin as (x & -> & _).
Qed.

Lemma drain_pending_step_absent e e' acc :
  absent e (fst acc) /\ no_event_for e (snd acc) ->
  absent e (fst (drain_pending_step acc e')) /\ no_event_for e (snd (drain_pending_step acc e')).
Proof.
  destruct acc as [m evs]. cbn [fst snd]. intros [[Hp Ha] Hn].
  unfold drain_pending_step, find_pending_session.
  destruct (pending_by_endpoint m !! e') as [s|] eqn:E; [|done].
  assert (e' <> e) by congruence. cbn. split; [|by apply no_event_for_app].
  split; [cbn; by rewrite lookup_insert_ne|done].
Qed.

Lemma drain_active_step_absent e e' acc :
  absent e (fst acc) /\ no_event_for e (snd acc) ->
  absent e (fst (drain_active_step acc e')) /\ no_event_for e (snd (drain_active_step acc e')).
Proof.
  destruct acc as [m evs]. cbn [fst snd]. intros [[Hp Ha] Hn].
  unfold drain_active_step, find_active_session.
  destruct (active_conn_id_by_endpoint m !! e') as [c|] eqn:E; [|done].
  assert (e' <> e) by congruence. destruct (active_by_conn_id m !! c) as [s|]; [|done].
  split; [done|by apply no_event_for_app].
Qed.

Lemma drain_events_absent e po ao m :
  absent e m -> no_event_for e (fst (drain_events po ao m)).
Proof.
  intros He. unfold drain_events.
  assert (H : absent e (fst (fold_left drain_active_step ao (fold_left drain_pending_step po (m, [])))) /\
    no_event_for e (snd (fold_left drain_active_step ao (fold_left drain_pending_step po (m, []))))).
  { apply (fold_left_inv (fun acc => absent e (fst acc) /\ no_event_for e (snd acc))).
    { intros. by apply drain_active_step_absent. }
    apply (fold_left_inv (fun acc => absent e (fst acc) /\ no_event_for e (snd acc))).
    { intros. by apply drain_pending_step_absent. }
    split; [done|constructor]. }
  destruct (fold_left drain_active_step ao _) as [m' evs]. exact (proj2 H).
Qed.

Lemma reset_event cfg pv size now s :
  packet_ok pv -> server_session cfg s -> st_conn_id s = hdr_conn_id (pv_header pv) ->
  st_conn_id s <> 0 -> classify_control_kind (pv_header pv) = KindRst ->
  let s' := on_decoded cfg pv size now s in
  st_connection_state s' = Reset /\
  control_event ConnectionReset pv "" ∈ pending_events (st_rx s').
Proof.
  intros Hp [Hs Hr] Hid Hne Hk.
  destruct (on_decoded_cases cfg pv size now s Hp Hs) as (_ & _ & Hcase).
  unfold rejected, repeated_syn_ack, handled in Hcase. rewrite Hk in Hcase.
  destruct Hcase as [(Hmm & _)|[(_ & Hd & _)|(_ & _ & fin & data & _ & Hc & _ & He & _)]].
  - exfalso. unfold has_conn_id_mismatch, adopted_id, should_adopt_server_conn_id in Hmm.
    rewrite Hr in Hmm. cbn in Hmm. rewrite Hid, Z.eqb_refl, !andb_false_r in Hmm. done.
  - exfalso. unfold is_duplicate_client_syn_ack in Hd. by rewrite Hr in Hd.
  - cbn zeta in Hc, He. unfold decide_connection_transition, decided_state in Hc. cbn in Hc.
    split; [done|]. rewrite He. unfold decision_events, decide_connection_transition. cbn.
    set_solver.
Qed.

(** C27: the events of a session that ends are lost. When an RST arrives for an
    active connection, the session records a ConnectionReset event; but the table
    removes a terminal session before the application drains, so no later
    [drain_events] returns any event for that endpoint. *)
Theorem reset_event_lost cfg rd fuel e bs now m pv s :
  settings_typed cfg -> star (mgr_step cfg rd) empty_manager m -> Forall is_u8 bs ->
  decode bs = Some pv -> classify_control_kind (pv_header pv) = KindRst ->
  active_of m e = Some (hdr_conn_id (pv_header pv), s) ->
  (control_event ConnectionReset pv "" ∈
     pending_events (st_rx (Session.on_datagram_received cfg bs now s))) /\
  exists m', on_datagram_received cfg rd fuel e bs now m = Some m' /\
    forall po ao, no_event_for e (fst (drain_events po ao m')).
Proof.
  intros Hcfg Hr Hb Hd Hk Ho. destruct (mgr_reachable_ok cfg rd m Hcfg Hr) as [Hw _ _].
  apply active_of_spec in Ho as [He Hc].
  destruct (mw_active _ _ Hw _ s Hc) as (Hs & Hid & Hne & _).
  destruct (reset_event cfg pv (Z.of_nat (length bs)) now s (decode_packet_ok bs pv Hb Hd) Hs Hid)
    as [Hreset Hev]; [congruence|done|].
  unfold Session.on_datagram_received, on_datagram_received. rewrite Hd. split; [done|].
  unfold route_existing_active, has_active_session, is_active_endpoint_match,
    try_dispatch_active, find_active_session.
  rewrite (proj2 (Z.eqb_neq _ _) Hne), Hc, He, Z.eqb_refl. cbn [has_value negb].
  unfold Session.on_datagram_received. rewrite Hd.
  set (s' := on_decoded _ _ _ _ _) in *. eexists. split; [reflexivity|]. intros po ao.
  apply drain_events_absent. unfold cleanup_active_if_terminal, find_active_session. cbn.
  rewrite lookup_insert_eq, Hreset. cbn.
  unfold cleanup_active_session. rewrite (proj2 (Z.eqb_neq _ _) Hne). cbn.
  rewrite He, Z.eqb_refl. split; cbn; [|apply lookup_delete_eq].
  destruct (pending_by_endpoint m !! e) as [x|] eqn:Ep; [|done].
  destruct (mw_pending _ _ Hw e x Ep) as (_ & _ & _ & _ & Hno). congruence.
Qed.

(** The same server after its SYN-ACK and the client's final ACK, and an RST for
    the connection. *)
Definition sample_polled : Manager :=
  snd (poll_tx default_transport 5 (key_order (pending_by_endpoint sample_manager))
         (key_order (active_conn_id_by_endpoint sample_manager)) sample_manager).
Definition sample_ack : bytes := encode (control_header 0x10001 0x20 0 0x10002 0) [].
Definition sample_active : Manager :=
  default empty_manager
    (on_datagram_received default_transport (fun _ => 1) 0 sample_endpoint sample_ack 6 sample_polled).
Definition sample_rst : bytes := encode (control_header 0x10001 4 0 0 0) [].

Lemma sample_control_bytes f seq ack :
  valid_flags f -> is_u32 seq -> is_u32 ack ->
  Forall is_u8 (encode (control_header 0x10001 f seq ack 0) []).
Proof.
  intros Hf Hs Ha. apply encode_bytes; [|constructor].
  apply control_header_ok; auto with rudp. unfold is_u32. lia.
Qed.

Lemma sample_active_reachable :
  star (mgr_step default_transport (fun _ => 1)) empty_manager sample_active.
Proof.
  eapply star_snoc.
  - eapply star_snoc; [eapply star_snoc; [apply star_refl|]|].
    + apply (mstep_receive _ _ 1 sample_endpoint sample_syn 0 _ sample_manager);
        [apply sample_syn_bytes|]. vm_compute. reflexivity.
    + apply (mstep_poll _ _ 5); [unfold is_u64; lia|apply key_order_valid..].
  - apply (mstep_receive _ _ 0 sample_endpoint sample_ack 6).
    + apply (sample_control_bytes (flag_bits FlagAck)); auto with rudp. unfold is_u32. lia.
    + vm_compute. reflexivity.
Qed.

Lemma reset_event_lost_witness :
  exists m', on_datagram_received default_transport (fun _ => 1) 0 sample_endpoint sample_rst 7
               sample_active = Some m' /\
    no_event_for sample_endpoint (fst (drain_events [] [] m')).
Proof.
  destruct (decode sample_rst) as [pv|] eqn:Ed; [|vm_compute in Ed; discriminate Ed].
  assert (Hv : Some pv = decode sample_rst) by (symmetry; exact Ed).
  vm_compute in Hv. injection Hv as Hv.
  destruct (active_of sample_active sample_endpoint) as [[c s]|] eqn:Eo;
    [|vm_compute in Eo; discriminate Eo].
  assert (Hc : fst <$> active_of sample_active sample_endpoint = Some 0x10001)
    by (vm_compute; reflexivity).
  rewrite Eo in Hc. injection Hc as ->.
  destruct (reset_event_lost default_transport (fun _ => 1) 0 sample_endpoint sample_rst 7
    sample_active pv s) as (_ & m' & E & H).
  - apply default_transport_typed.
  - apply sample_active_reachable.
  - apply (sample_control_bytes (flag_bits FlagRst)); auto with rudp.
  - exact Ed.
  - rewrite Hv. reflexivity.
  - rewrite Hv. exact Eo.
  - exists m'. split; [exact E|apply H].
Defined.
