(* ===== verification/ManagerTermination.v ===== *)
(** When the session manager finishes ([ServerSessionManager]): its only unbounded
    loop is the search for a connection id. The search goes on exactly as long as the
    values drawn are 0 or taken, an operation takes at most one id per datagram, and
    the bound on the draws ([fuel]) only cuts the search off: a larger one gives the
    same result. Nothing is assumed of the random device. *)

From stdpp Require Import countable.
From S2P Require Import Prelude StdMap Protocol Utils Codec Config SessionTypes.
From S2P Require Import ConnectionStateMachine TxHandler TxInvariant RxHandler RxInvariant.
From S2P Require Import Session SessionInvariant ServerSessionManager ManagerInvariant.
From S2P Require Import ManagerPolling ManagerRouting.

(** ** Connection ids: the search ends *)

Lemma in_use_draws c f m : conn_id_is_in_use c (m <| draws ::= f |>) = conn_id_is_in_use c m.
Proof. done. Qed.

(** The [k]-th id the search tries. *)
Definition candidate (rd : nat -> Z) (m : Manager) (k : nat) : Z :=
  draw rd (S (S (draws m)) + 2 * k).

(** The first [fuel] ids it tries are 0 or taken. *)
Definition search_blocked (rd : nat -> Z) (fuel : nat) (m : Manager) : Prop :=
  forall k, (k < fuel)%nat -> conn_id_is_in_use (candidate rd m k) m = true.

Lemma allocate_none rd fuel m :
  allocate_conn_id rd fuel m = None <->
  forall k, (k < fuel)%nat -> conn_id_is_in_use (draw rd (draws m + 2 * k)) m = true.
Proof.
  revert m. induction fuel as [|fuel IH]; intros m; [split; [lia|done]|]. cbn [allocate_conn_id].
  rewrite in_use_draws. destruct (conn_id_is_in_use (draw rd (draws m)) m) eqn:E.
  - rewrite IH. setoid_rewrite in_use_draws. cbn [draws set set_draws]. split; intros H k Hk.
    + destruct k as [|k]; [by rewrite Nat.mul_0_r, Nat.add_0_r|].
      replace (draws m + 2 * S k)%nat with (S (S (draws m)) + 2 * k)%nat by lia. apply H. lia.
    + replace (S (S (draws m)) + 2 * k)%nat with (draws m + 2 * S k)%nat by lia. apply H. lia.
  - split; [done|]. intros H. specialize (H 0%nat ltac:(lia)).
    rewrite Nat.mul_0_r, Nat.add_0_r in H. congruence.
Qed.

(** The ids that may not be given out. *)
Definition used_ids (m : Manager) : gset Z :=
  {[0]} ∪ retired_conn_ids m ∪ dom (active_by_conn_id m) ∪
  list_to_set (st_conn_id <$> (map_to_list (pending_by_endpoint m)).*2).

Lemma in_use_used c m : conn_id_is_in_use c m = true -> c ∈ used_ids m.
Proof.
  unfold conn_id_is_in_use, used_ids. destruct (Z.eqb_spec c 0) as [->|]; [set_solver|].
  case_bool_decide; [set_solver|]. destruct (active_by_conn_id m !! c) eqn:Ea; cbn.
  { intros _. apply elem_of_union_l, elem_of_union_r, elem_of_dom. by eexists. }
  intros Hex. apply existsb_exists in Hex as ([e s] & Hin & Heq). apply Z.eqb_eq in Heq.
  apply elem_of_union_r, elem_of_list_to_set, list_elem_of_fmap. exists s. split; [done|].
  apply list_elem_of_fmap. exists (e, s). split; [done|]. by apply list_elem_of_In.
Qed.

(** The ids given out and not pending: in use or retired. *)
Definition occupied_ids (m : Manager) : gset Z := retired_conn_ids m ∪ dom (active_by_conn_id m).

(** How many ids the table holds. *)
Definition weight (m : Manager) : nat := (size (occupied_ids m) + size (pending_by_endpoint m))%nat.

Lemma size_union_le (X Y : gset Z) : (size (X ∪ Y) <= size X + size Y)%nat.
Proof.
  rewrite size_union_alt. assert (size (Y ∖ X) <= size Y)%nat by (apply subseteq_size; set_solver).
  lia.
Qed.

Lemma size_list_to_set_le (l : list Z) : (size (list_to_set l : gset Z) <= length l)%nat.
Proof.
  induction l as [|x l IH]; cbn; [by rewrite size_empty|].
  pose proof (size_union_le {[x]} (list_to_set l)) as H. rewrite size_singleton in H. lia.
Qed.

Lemma used_ids_size m : (size (used_ids m) <= 1 + weight m)%nat.
Proof.
  unfold used_ids, weight. set (P := list_to_set _ : gset Z).
  assert (HP : (size P <= size (pending_by_endpoint m))%nat).
  { subst P. etransitivity; [apply size_list_to_set_le|].
    by rewrite !length_fmap, length_map_to_list. }
  replace ({[0]} ∪ retired_conn_ids m ∪ dom (active_by_conn_id m) ∪ P)
    with ({[0]} ∪ (occupied_ids m ∪ P)) by (unfold occupied_ids; set_solver).
  pose proof (size_union_le {[0]} (occupied_ids m ∪ P)) as H1.
  pose proof (size_union_le (occupied_ids m) P) as H2. rewrite size_singleton in H1. lia.
Qed.

Lemma set_pigeonhole (X U : gset Z) : (size U < size X)%nat -> exists c, c ∈ X /\ ~ (c ∈ U).
Proof.
  intros Hlt. assert (Hd : X ∖ U <> ∅).
  { intros E. assert (Hsub : X ⊆ U) by set_solver. apply subseteq_size in Hsub. lia. }
  apply set_choose_L in Hd as (c & Hc). exists c. by apply elem_of_difference.
Qed.

Lemma route_existing_active_false cfg e bs h now m m' :
  route_existing_active cfg e bs h now m = (false, m') -> m' = m.
Proof.
  unfold route_existing_active, try_dispatch_active. repeat case_match; naive_solver.
Qed.

Lemma route_existing_pending_false cfg e bs now m m' :
  route_existing_pending cfg e bs now m = (false, m') -> m' = m.
Proof. unfold route_existing_pending, try_dispatch_pending. repeat case_match; naive_solver. Qed.

(** The session being created, whose id is still 0, does not get in the way. *)
Lemma in_use_opening c e s m :
  pending_by_endpoint m !! e = None -> st_conn_id s = 0 ->
  conn_id_is_in_use c (m <| pending_by_endpoint ::= fun p => <[e := s]> p |>) = conn_id_is_in_use c m.
Proof.
  intros He Hs. apply eq_true_iff_eq. rewrite <- !not_false_iff_true, !conn_id_in_use_spec.
  apply not_iff_compat. cbn. split; intros (H1 & H2 & H3 & H4); (repeat (split; [done|])).
  - intros e' x Hx. apply (H4 e'). rewrite lookup_insert_ne; [done|congruence].
  - intros e' x. rewrite lookup_insert_Some. intros [[_ <-]|[_ Hx]]; [congruence|by apply (H4 e')].
Qed.

(** A datagram that opens a session: a packet without a connection id, from an
    endpoint the table does not know. *)
Definition opens_session (e : EndpointKey) (bs : bytes) (m : Manager) : bool :=
  match decode bs with
  | None => false
  | Some pv => (hdr_conn_id (pv_header pv) =? 0) && negb (has_value (pending_by_endpoint m !! e)) &&
               negb (has_value (active_conn_id_by_endpoint m !! e))
  end.

Lemma ensure_session_none rd fuel e m :
  ensure_session_for_new_peer rd fuel e m = None <->
  pending_by_endpoint m !! e = None /\ active_conn_id_by_endpoint m !! e = None /\
  search_blocked rd fuel m.
Proof.
  unfold ensure_session_for_new_peer, find_pending_session.
  destruct (pending_by_endpoint m !! e) eqn:Ep; [naive_solver|].
  destruct (active_conn_id_by_endpoint m !! e) eqn:Ea; [naive_solver|].
  set (s := new_random_session Server _ _). set (m1 := set pending_by_endpoint _ _).
  assert (Hm : forall c, conn_id_is_in_use c m1 = conn_id_is_in_use c m)
    by (intros c; subst m1; rewrite in_use_opening; done).
  transitivity (allocate_conn_id rd fuel m1 = None).
  { by destruct (allocate_conn_id rd fuel m1) as [[]|]. }
  rewrite allocate_none. change (draws m1) with (S (S (draws m))). unfold search_blocked, candidate.
  setoid_rewrite Hm. naive_solver.
Qed.

Lemma on_datagram_received_none cfg rd fuel e bs now m :
  on_datagram_received cfg rd fuel e bs now m = None <->
  opens_session e bs m = true /\ search_blocked rd fuel m.
Proof.
  unfold on_datagram_received, opens_session. destruct (decode bs) as [pv|]; [|naive_solver].
  rewrite !andb_true_iff, !negb_true_iff.
  destruct (route_existing_active cfg e bs (pv_header pv) now m) as [[] m1] eqn:E1.
  { split; [done|]. intros [[[H _] _] _]. unfold route_existing_active in E1. by rewrite H in E1. }
  apply route_existing_active_false in E1 as ->.
  destruct (route_existing_pending cfg e bs now m) as [[] m2] eqn:E2.
  { split; [done|]. intros [[[_ H] _] _]. unfold route_existing_pending, try_dispatch_pending,
      find_pending_session in E2. by destruct (pending_by_endpoint m !! e). }
  apply route_existing_pending_false in E2 as ->. unfold route_new_peer.
  destruct (hdr_conn_id (pv_header pv) =? 0); cbn [negb]; [|naive_solver].
  transitivity (ensure_session_for_new_peer rd fuel e m = None).
  { by destruct (ensure_session_for_new_peer rd fuel e m) as [[[] ?]|]. }
  rewrite ensure_session_none.
  destruct (pending_by_endpoint m !! e), (active_conn_id_by_endpoint m !! e); cbn; naive_solver.
Qed.

(** The distinct values among the first [fuel] ids tried. *)
Definition candidates (rd : nat -> Z) (m : Manager) (fuel : nat) : gset Z :=
  list_to_set (map (candidate rd m) (seq 0 fuel)).

(** A blocked search has seen only ids that may not be given out. *)
Lemma blocked_candidates rd fuel m :
  search_blocked rd fuel m -> (size (candidates rd m fuel) <= 1 + weight m)%nat.
Proof.
  intros Hb. etransitivity; [|apply used_ids_size]. apply subseteq_size. intros c.
  unfold candidates. rewrite elem_of_list_to_set, list_elem_of_In, in_map_iff.
  intros (k & <- & Hk). apply in_seq in Hk. apply in_use_used, Hb. lia.
Qed.

(** ** More draws change nothing *)

Lemma allocate_mono rd fuel fuel' m r :
  allocate_conn_id rd fuel m = Some r -> (fuel <= fuel')%nat ->
  allocate_conn_id rd fuel' m = Some r.
Proof.
  revert fuel' m. induction fuel as [|fuel IH]; intros [|fuel'] m E Hf; [done|done|lia|].
  cbn [allocate_conn_id] in *. destruct (conn_id_is_in_use _ _); [|done]. apply IH; [done|lia].
Qed.

Lemma on_datagram_received_mono cfg rd fuel fuel' e bs now m m' :
  on_datagram_received cfg rd fuel e bs now m = Some m' -> (fuel <= fuel')%nat ->
  on_datagram_received cfg rd fuel' e bs now m = Some m'.
Proof.
  intros E Hf. unfold on_datagram_received, route_new_peer, ensure_session_for_new_peer in *.
  destruct (decode bs) as [pv|]; [|done].
  destruct (route_existing_active _ _ _ _ _ _) as [[] m1]; [done|].
  destruct (route_existing_pending _ _ _ _ _) as [[] m2]; [done|].
  destruct (negb _); [done|]. destruct (find_pending_session e m2); [done|].
  destruct (active_conn_id_by_endpoint m2 !! e); [done|].
  set (m3 := set pending_by_endpoint _ _) in *.
  destruct (allocate_conn_id rd fuel m3) as [[c m4]|] eqn:Ea; [|done].
  by rewrite (allocate_mono _ _ _ _ _ Ea Hf).
Qed.

(** ** One id per datagram *)

Create HintDb fits.

(** At most [w] ids are held. *)
Definition fits (w : nat) (m : Manager) : Prop := (weight m <= w)%nat.

Lemma fits_start : fits 0 empty_manager.
Proof. unfold fits, weight, occupied_ids. cbn. set_solver by lia. Qed.

Lemma fits_le w w' m : fits w m -> (w <= w')%nat -> fits w' m.
Proof. unfold fits. lia. Qed.

Lemma fits_update_pending w m e s s' :
  pending_by_endpoint m !! e = Some s -> fits w m ->
  fits w (m <| pending_by_endpoint ::= fun p => <[e := s']> p |>).
Proof.
  intros Hs Hw. unfold fits, weight, occupied_ids in *. cbn.
  rewrite map_size_insert_Some by (by eexists). exact Hw.
Qed.

Lemma occupied_update_active m c s s' :
  active_by_conn_id m !! c = Some s ->
  occupied_ids (m <| active_by_conn_id ::= fun a => <[c := s']> a |>) = occupied_ids m.
Proof.
  intros Hs. unfold occupied_ids. cbn. rewrite dom_insert_lookup_L; [done|by eexists].
Qed.

Lemma fits_update_active w m c s s' :
  active_by_conn_id m !! c = Some s -> fits w m ->
  fits w (m <| active_by_conn_id ::= fun a => <[c := s']> a |>).
Proof.
  intros Hs Hw. unfold fits, weight in *.
  by rewrite (occupied_update_active m c s s').
Qed.

Lemma size_delete_Some {K V} `{Countable K} (m : gmap K V) k v :
  m !! k = Some v -> size m = S (size (delete k m)).
Proof.
  intros E. rewrite <- (map_size_insert_None k v (delete k m)) by apply lookup_delete_eq.
  by rewrite insert_delete_id.
Qed.

Lemma fits_cleanup_pending w e m : fits w m -> fits w (cleanup_pending_session e m).
Proof.
  intros Hw. unfold cleanup_pending_session, find_pending_session.
  destruct (pending_by_endpoint m !! e) as [s|] eqn:E; [|done].
  unfold fits, weight, occupied_ids in *.
  rewrite (size_delete_Some _ _ _ E) in Hw. destruct (negb _); cbn; [|lia].
  pose proof (size_union_le {[st_conn_id s]}
    (retired_conn_ids m ∪ dom (active_by_conn_id m))) as Hu.
  rewrite size_singleton, union_assoc_L in Hu. lia.
Qed.

(** An id that is given up was held before. *)
Lemma cleanup_active_occupied e c m :
  c = 0 \/ c ∈ occupied_ids m -> occupied_ids (cleanup_active_session e c m) ⊆ occupied_ids m.
Proof.
  intros Hc. unfold cleanup_active_session, occupied_ids in *.
  destruct (Z.eqb_spec c 0); cbn; repeat case_match; cbn; rewrite dom_delete_L; set_solver.
Qed.

Lemma cleanup_active_kept e c c' m :
  c' = 0 \/ c' ∈ occupied_ids m -> c' = 0 \/ c' ∈ occupied_ids (cleanup_active_session e c m).
Proof.
  intros [->|Hc]; [by left|]. destruct (decide (c' = 0)) as [|Hne]; [by left|right].
  unfold cleanup_active_session, occupied_ids in *.
  destruct (Z.eqb_spec c 0); cbn; repeat case_match; cbn; rewrite dom_delete_L;
    destruct (decide (c' = c)); set_solver.
Qed.

Lemma fits_cleanup_active w e c m :
  c = 0 \/ c ∈ occupied_ids m -> fits w m -> fits w (cleanup_active_session e c m).
Proof.
  intros Hc Hw. pose proof (subseteq_size _ _ (cleanup_active_occupied e c m Hc)) as Hs.
  assert (Hp : pending_by_endpoint (cleanup_active_session e c m) = pending_by_endpoint m).
  { unfold cleanup_active_session. destruct (negb _); cbn; by repeat case_match. }
  unfold fits, weight in *. rewrite Hp. lia.
Qed.

Lemma fits_promote w e m : fits w m -> fits w (promote_pending_session e m).
Proof.
  intros Hw. unfold promote_pending_session, find_pending_session.
  destruct (pending_by_endpoint m !! e) as [s|] eqn:E; [|done].
  destruct (_ =? 0); [done|]. unfold fits, weight, occupied_ids in *.
  rewrite (size_delete_Some _ _ _ E) in Hw. cbn. rewrite dom_insert_L.
  pose proof (size_union_le {[st_conn_id s]}
    (retired_conn_ids m ∪ dom (active_by_conn_id m))) as Hu. rewrite size_singleton in Hu.
  replace (retired_conn_ids m ∪ ({[st_conn_id s]} ∪ dom (active_by_conn_id m)))
    with ({[st_conn_id s]} ∪ (retired_conn_ids m ∪ dom (active_by_conn_id m))) by set_solver.
  lia.
Qed.

#[export] Hint Resolve fits_cleanup_pending fits_promote fits_update_pending fits_update_active : fits.

Lemma fits_dispatch_pending cfg w e bs now m :
  fits w m -> fits w (snd (try_dispatch_pending cfg e bs now m)).
Proof.
  intros Hm. unfold try_dispatch_pending. unfold find_pending_session at 1.
  destruct (pending_by_endpoint m !! e) as [s|] eqn:E; [|done].
  destruct (bool_decide _); cbn [snd]; [by eauto with fits|].
  unfold cleanup_pending_if_terminal. destruct (find_pending_session _ _); [|by eauto with fits].
  destruct (negb _); by eauto with fits.
Qed.

Lemma fits_route_active cfg w e bs h now m :
  fits w m -> fits w (snd (route_existing_active cfg e bs h now m)).
Proof.
  intros Hm. unfold route_existing_active. do 3 (case_match; [done|]).
  unfold try_dispatch_active, cleanup_active_if_terminal, find_active_session.
  destruct (active_by_conn_id m !! hdr_conn_id h) as [s|] eqn:E; [|done]. cbn [snd].
  case_match; [|by eauto with fits]. case_match; [by eauto with fits|].
  apply fits_cleanup_active; [|by eauto with fits]. right.
  rewrite (occupied_update_active m _ s) by done. unfold occupied_ids.
  apply elem_of_union_r, elem_of_dom. by eexists.
Qed.

Lemma allocate_conn_id_table rd fuel m c m' :
  allocate_conn_id rd fuel m = Some (c, m') ->
  exists n, m' = m <| draws := (draws m + 2 * n)%nat |>.
Proof.
  revert m. induction fuel as [|fuel IH]; intros m; [done|]. cbn [allocate_conn_id].
  destruct (conn_id_is_in_use _ _).
  - intros E. destruct (IH _ E) as (n & ->). exists (S n). cbn. unfold set, set_draws. cbn.
    f_equal. lia.
  - intros [= <- <-]. exists 1%nat. unfold set, set_draws. cbn. f_equal. lia.
Qed.

Lemma fits_ensure_session rd fuel w e m b m' :
  fits w m -> ensure_session_for_new_peer rd fuel e m = Some (b, m') -> fits (S w) m'.
Proof.
  intros Hm. unfold ensure_session_for_new_peer, find_pending_session.
  assert (H1 : fits (S w) m) by (eapply fits_le; [exact Hm|lia]).
  destruct (pending_by_endpoint m !! e) as [s|] eqn:Ep; [by intros [= _ <-]|].
  destruct (active_conn_id_by_endpoint m !! e); [by intros [= _ <-]|].
  set (s := new_random_session Server _ _).
  destruct (allocate_conn_id _ _ _) as [[c m4]|] eqn:Ea; [|done]. intros [= _ <-].
  apply allocate_conn_id_table in Ea as (n & ->).
  unfold fits, weight, occupied_ids in *. cbn. rewrite insert_insert_eq, map_size_insert_None by done.
  lia.
Qed.

Lemma fits_received cfg rd fuel w e bs now m m' :
  fits w m -> on_datagram_received cfg rd fuel e bs now m = Some m' -> fits (S w) m'.
Proof.
  intros Hm. unfold on_datagram_received.
  assert (H1 : forall x, fits w x -> fits (S w) x) by (intros; eapply fits_le; [done|lia]).
  destruct (decode bs) as [pv|]; [|intros [= <-]; by apply H1].
  pose proof (fits_route_active cfg w e bs (pv_header pv) now m Hm) as Ha.
  destruct (route_existing_active _ _ _ _ _ _) as [[] m1]; [intros [= <-]; by apply H1|].
  pose proof (fits_dispatch_pending cfg w e bs now m1 Ha) as Hp. unfold route_existing_pending.
  destruct (try_dispatch_pending _ _ _ _ _) as [[] m2]; [intros [= <-]; by apply H1|].
  unfold route_new_peer. destruct (negb _); [intros [= <-]; by apply H1|].
  destruct (ensure_session_for_new_peer _ _ _ _) as [[[] m3]|] eqn:Ee; [| |done];
    intros [= <-]; apply (fits_ensure_session _ _ _ _ _ _ _ Hp) in Ee; [|done].
  by apply fits_dispatch_pending.
Qed.

(** *** The other operations give out no id *)

Lemma fits_queue_send w c id t p m : fits w m -> fits w (snd (queue_send c id t p m)).
Proof.
  intros Hm. unfold queue_send, find_active_session.
  destruct (active_by_conn_id m !! c) eqn:E; cbn [snd]; by eauto with fits.
Qed.

Lemma fits_drain_events w po ao m : fits w m -> fits w (snd (drain_events po ao m)).
Proof.
  intros Hm. unfold drain_events.
  assert (H1 : fits w (fst (fold_left drain_pending_step po (m, [])))).
  { apply (fold_left_inv (fun acc => fits w (fst acc))); [|done]. intros [x evs] e Hx.
    unfold drain_pending_step, find_pending_session.
    destruct (pending_by_endpoint x !! e) eqn:E; [|done]. cbn. by eapply fits_update_pending. }
  generalize dependent (fold_left drain_pending_step po (m, [])). intros acc H1.
  assert (H2 : fits w (fst (fold_left drain_active_step ao acc))).
  { apply (fold_left_inv (fun acc => fits w (fst acc))); [|done]. intros [x evs] e Hx.
    unfold drain_active_step, find_active_session.
    destruct (active_conn_id_by_endpoint x !! e) as [c|]; [|done].
    destruct (active_by_conn_id x !! c) eqn:E; [|done]. cbn. by eapply fits_update_active. }
  by destruct (fold_left drain_active_step ao acc).
Qed.

(** What the poll's loops keep: the bound, and that the ids to give up are held. *)
Definition collected (w : nat) (acc : Manager * list OutboundDatagram * list (EndpointKey * Z))
    : Prop :=
  let '(m, _, cl) := acc in fits w m /\ Forall (fun x => snd x ∈ occupied_ids m) cl.

Lemma fits_collect_pending cfg now w po m out :
  fits w m -> fits w (fst (fst (collect_pending_tx cfg now po m out))).
Proof.
  intros Hm. unfold collect_pending_tx.
  apply (fold_left_inv (fun acc => fits w (fst (fst acc)))); [|done]. intros [[x out'] cl] e Hx.
  unfold collect_pending_step, find_pending_session.
  destruct (pending_by_endpoint x !! e) as [s|] eqn:E; [|done].
  destruct (Session.poll_tx cfg now s) as [[bs|] s']; [|case_match];
    cbn; by eapply fits_update_pending.
Qed.

Lemma fits_collect_active cfg now w ao m out :
  fits w m -> collected w (collect_active_tx cfg now ao m out).
Proof.
  intros Hm. unfold collect_active_tx. apply (fold_left_inv (collected w)); [|by split].
  intros [[x out'] cl] e [Hx Hcl]. unfold collect_active_step, find_active_session.
  destruct (active_conn_id_by_endpoint x !! e) as [c|]; [|by split].
  destruct (active_by_conn_id x !! c) as [s|] eqn:E; [|by split].
  destruct (Session.poll_tx cfg now s) as [bs s'].
  assert (H1 : fits w (x <| active_by_conn_id ::= fun a => <[c := s']> a |>))
    by (by eapply fits_update_active).
  assert (Ho : c ∈ occupied_ids x) by (apply elem_of_union_r, elem_of_dom; by eexists).
  destruct bs; [|case_match]; (split; [exact H1|]);
    rewrite (occupied_update_active x c s s' E); [done| |done].
  apply Forall_app_2; [done|]. by apply Forall_singleton.
Qed.

Lemma fits_cleanup_active_list w cl m :
  fits w m -> Forall (fun x => snd x = 0 \/ snd x ∈ occupied_ids m) cl ->
  fits w (fold_left (fun m x => cleanup_active_session (fst x) (snd x) m) cl m).
Proof.
  revert m. induction cl as [|x cl IH]; intros m Hm Hcl; [done|].
  apply Forall_cons_1 in Hcl as [Hx Hcl]. cbn [fold_left]. apply IH.
  - by apply fits_cleanup_active.
  - eapply Forall_impl; [exact Hcl|]. intros y. apply cleanup_active_kept.
Qed.

Lemma cleanup_pending_occupied e m : occupied_ids m ⊆ occupied_ids (cleanup_pending_session e m).
Proof.
  unfold cleanup_pending_session, occupied_ids. destruct (find_pending_session e m); [|done].
  destruct (negb _); cbn; set_solver.
Qed.

Lemma fits_poll_tx cfg now w po ao m : fits w m -> fits w (snd (poll_tx cfg now po ao m)).
Proof.
  intros Hm. unfold poll_tx. pose proof (fits_collect_pending cfg now w po m [] Hm) as H1.
  destruct (collect_pending_tx _ _ _ _ _) as [[m1 out1] pcl]. cbn [fst] in H1.
  pose proof (fits_collect_active cfg now w ao m1 out1 H1) as H2.
  destruct (collect_active_tx _ _ _ _ _) as [[m2 out2] acl]. destruct H2 as [H2 Hcl]. cbn [snd].
  assert (H3 : fits w (fold_left (fun m e => cleanup_pending_session e m) pcl m2) /\
    occupied_ids m2 ⊆ occupied_ids (fold_left (fun m e => cleanup_pending_session e m) pcl m2)).
  { apply (fold_left_inv (fun x => fits w x /\ occupied_ids m2 ⊆ occupied_ids x)); [|by split].
    intros x e [Hx Ho]. split; [by apply fits_cleanup_pending|].
    etransitivity; [exact Ho|apply cleanup_pending_occupied]. }
  destruct H3 as [H3 Ho]. apply fits_cleanup_active_list; [done|].
  eapply Forall_impl; [exact Hcl|]. intros x Hx. right. by apply Ho.
Qed.

(** ** Properties *)

(** C28: when the datagram handler finishes, whatever the random device returns.
    [fuel] bounds the draws of the only loop, the search for a connection id. The
    handler is still searching after [fuel] draws exactly when the datagram opens a
    session (a packet without connection id from an endpoint the table does not know)
    and every id drawn was 0 or taken; for every other datagram it finishes without
    drawing. The ids that may not be given out are at most 1 plus [weight], the number
    of ids held by sessions or retired, so the handler finishes as soon as the device
    has returned more distinct values than that; once it has finished, a larger bound
    gives the same table; and one datagram adds at most one id to those held. *)
Theorem on_datagram_received_total cfg rd fuel e bs now m :
  (on_datagram_received cfg rd fuel e bs now m = None <->
     opens_session e bs m = true /\ search_blocked rd fuel m) /\
  ((1 + weight m < size (candidates rd m fuel))%nat ->
     is_Some (on_datagram_received cfg rd fuel e bs now m)) /\
  (forall m', on_datagram_received cfg rd fuel e bs now m = Some m' ->
     (weight m' <= S (weight m))%nat /\
     forall fuel', (fuel <= fuel')%nat -> on_datagram_received cfg rd fuel' e bs now m = Some m').
Proof.
  split; [apply on_datagram_received_none|]. split.
  - intros Hlt. destruct (on_datagram_received cfg rd fuel e bs now m) eqn:E; [by eexists|].
    apply on_datagram_received_none in E as [_ Hb]. apply blocked_candidates in Hb. lia.
  - intros m' E. split.
    + apply (fits_received cfg rd fuel (weight m) e bs now m m'); [unfold fits; lia|exact E].
    + intros fuel' Hf. by apply (on_datagram_received_mono _ _ fuel).
Qed.

(** A device that repeats itself: the third draw differs from the first two. *)
Definition stuttering_device (n : nat) : Z := if (n <? 6)%nat then 0 else 7.

Lemma on_datagram_received_total_witness :
  on_datagram_received default_transport stuttering_device 2 sample_endpoint sample_syn 0
    empty_manager = None /\
  is_Some (on_datagram_received default_transport stuttering_device 3 sample_endpoint sample_syn 0
    empty_manager).
Proof.
  split.
  - apply (proj1 (on_datagram_received_total default_transport stuttering_device 2 sample_endpoint
      sample_syn 0 empty_manager)).
    split; [vm_compute; reflexivity|]. intros k Hk. destruct k as [|[|k]]; [reflexivity|reflexivity|lia].
  - apply (proj1 (proj2 (on_datagram_received_total default_transport stuttering_device 3 sample_endpoint
      sample_syn 0 empty_manager))).
    vm_compute. reflexivity.
Defined.
