(* ===== verification/ServerHosting.v ===== *)
(** The server's session table as the host of one connection: the operations of
    the endpoint's session carried out through the table, with anything happening
    to the other endpoints in between. The table simulates the session. *)

From S2P Require Import Prelude StdMap Protocol Utils Codec Config SessionTypes.
From S2P Require Import ConnectionStateMachine TxHandler TxInvariant RxHandler RxInvariant.
From S2P Require Import Session SessionInvariant SessionLifecycle Handshake DataTransfer.
From S2P Require Import ReliableTransfer Closing.
From S2P Require Import ServerSessionManager ManagerInvariant ManagerPolling ManagerRouting.
From S2P Require Import ManagerTermination.

Local Abbreviation s_receive := Session.on_datagram_received.
Local Abbreviation s_poll := Session.poll_tx.
Local Abbreviation m_receive := ServerSessionManager.on_datagram_received.
Local Abbreviation m_poll := ServerSessionManager.poll_tx.

(** What a poll of the server sends to one endpoint. *)
Definition datagram_for (e : EndpointKey) (out : list OutboundDatagram) : option bytes :=
  out_bytes <$> List.find (fun o => bool_decide (out_endpoint o = e)) out.

Lemma datagram_for_spec e out bs :
  NoDup (map out_endpoint out) ->
  datagram_for e out = Some bs <-> mkOutbound e bs ∈ out.
Proof.
  unfold datagram_for. induction out as [|[e' bs'] out IH]; cbn; intros Hnd.
  { split; [done|]. by intros ?%not_elem_of_nil. }
  apply NoDup_cons in Hnd as [Hni Hnd]. rewrite elem_of_cons. case_bool_decide as He; cbn.
  - subst e'. split; [intros [= ->]; by left|]. intros [[= ->]|Hin]; [done|].
    destruct Hni. apply list_elem_of_fmap. by exists (mkOutbound e bs).
  - rewrite IH by done. naive_solver.
Qed.

(** Payloads are bytes. *)
Definition payload_typed (x : Exchange) : Prop :=
  match x with
  | ToServer _ payload _ | ToClient _ payload _ => Forall is_u8 payload
  | Keepalive _ _ _ _ => Forall is_u8 []
  end.

(** ** Operations of one session, through the table *)

Section hosting.
Context (cfg : TransportSettings) (Hcfg : settings_typed cfg) (rd : nat -> Z) (e : EndpointKey).

(** The endpoint's connection is [cid], and [s] its session. *)
Record serves (m : Manager) (cid : Z) (s : SessionState) : Prop := mk_serves {
  sv_ok : mgr_ok cfg m;
  sv_active : active_of m e = Some (cid, s)
}.

Lemma serves_bound m cid s : serves m cid s -> bound m e = Some s.
Proof.
  intros [[Hw _ _] Ha]. unfold bound. rewrite Ha.
  destruct (pending_by_endpoint m !! e) as [s'|] eqn:Ep; [|done].
  apply active_of_spec in Ha as [Ha _].
  destruct (mw_pending _ _ Hw e s' Ep) as (_ & _ & _ & _ & Hn). congruence.
Qed.

Lemma established_not_terminal s :
  established s -> is_terminal_state (st_connection_state s) = false.
Proof. by intros ->. Qed.

Lemma serves_receive fuel h p t m m' cid s :
  serves m cid s -> header_ok h -> hdr_conn_id h = cid -> Forall is_u8 p ->
  is_terminal_state (st_connection_state (s_receive cfg (encode h p) t s)) = false ->
  m_receive cfg rd fuel e (encode h p) t m = Some m' ->
  serves m' cid (s_receive cfg (encode h p) t s).
Proof.
  intros [Hm Ha] Hh Hid Hp Hest E.
  assert (Hm' : mgr_ok cfg m')
    by (eapply on_datagram_received_mgr_ok; [exact Hm|apply encode_bytes; [apply Hh|done]|exact E]).
  split; [done|]. apply active_of_spec in Ha as [Ha Hs].
  destruct (mw_active _ _ (mo_wf _ _ Hm) cid s Hs) as (_ & _ & Hne & _).
  revert E. unfold m_receive. rewrite decode_control by done. cbn [pv_header].
  unfold route_existing_active, has_active_session, find_active_session, is_active_endpoint_match.
  rewrite Hid, (proj2 (Z.eqb_neq _ _)), Hs, Ha, Z.eqb_refl by done. cbn [has_value negb].
  unfold try_dispatch_active, find_active_session. rewrite Hs.
  unfold cleanup_active_if_terminal, find_active_session. cbn [active_by_conn_id set set_active_by_conn_id].
  rewrite lookup_insert_eq, Hest. cbn [negb].
  intros [= <-]. apply active_of_spec. cbn. by rewrite lookup_insert_eq.
Qed.

Lemma serves_poll t po ao m out m' cid s :
  is_u64 t -> valid_order po (pending_by_endpoint m) ->
  valid_order ao (active_conn_id_by_endpoint m) -> serves m cid s ->
  is_terminal_state (st_connection_state (snd (s_poll cfg t s))) = false ->
  m_poll cfg t po ao m = (out, m') ->
  datagram_for e out = fst (s_poll cfg t s) /\ serves m' cid (snd (s_poll cfg t s)).
Proof.
  intros Ht Hpo Hao Hsv Hest E. pose proof (serves_bound _ _ _ Hsv) as Hb. destruct Hsv as [Hm Ha].
  pose proof (out_endpoints cfg t po ao m (mo_wf _ _ Hm) Hpo Hao) as Hnd.
  destruct (poll_tx_lookups cfg t Hcfg Ht po ao m out m' Hm Hpo Hao E) as (_ & Eo & _ & _ & He & Hact).
  rewrite <- Eo in Hnd.
  assert (Hend : ended cfg t s = false).
  { unfold ended, after. by rewrite Hest, andb_false_r. }
  split.
  - apply option_eq. intros bs. rewrite (datagram_for_spec _ _ _ Hnd), Eo.
    rewrite (out_spec cfg t po ao m e bs) by (done || apply Hm). rewrite Hb.
    unfold sent. split; [by intros (? & [= <-] & ?)|intros ?; by exists s].
  - split; [by eapply poll_tx_mgr_ok|]. apply active_of_spec in Ha as Hl. destruct Hl as [_ Hs].
    apply active_of_spec. rewrite He, Hact, Ha, Hs. cbn. by rewrite Hend.
Qed.

Lemma serves_send id ty payload m m' cid s :
  is_u32 id -> channel_named ty -> Forall is_u8 payload -> serves m cid s ->
  queue_send cid id ty payload m = (true, m') ->
  serves m' cid (Session.queue_send id ty payload s).
Proof.
  intros Hid Hty Hp [Hm Ha] E. split.
  { change m' with (snd (true, m')). rewrite <- E. by apply queue_send_mgr_ok. }
  apply active_of_spec in Ha as [Ha Hs]. revert E. unfold queue_send, find_active_session.
  rewrite Hs. intros [= <-]. apply active_of_spec. cbn. by rewrite lookup_insert_eq.
Qed.

(** *** The others

    What the server does in between: it receives from other endpoints, sends to
    and drains other connections, and polls. [polled] restricts the polls. *)

Inductive away (polled : Z -> SessionState -> Prop) (m : Manager) : Manager -> Prop :=
| away_receive fuel e' bs now m' :
    e <> e' -> Forall is_u8 bs -> m_receive cfg rd fuel e' bs now m = Some m' -> away polled m m'
| away_send c id ty payload :
    active_conn_id_by_endpoint m !! e <> Some c ->
    is_u32 id -> channel_named ty -> Forall is_u8 payload ->
    away polled m (snd (queue_send c id ty payload m))
| away_drain c :
    active_conn_id_by_endpoint m !! e <> Some c -> away polled m (snd (drain_active_events c m))
| away_poll now po ao :
    is_u64 now -> valid_order po (pending_by_endpoint m) ->
    valid_order ao (active_conn_id_by_endpoint m) ->
    (forall s, bound m e = Some s -> polled now s) ->
    away polled m (snd (m_poll cfg now po ao m)).

(** A poll with nothing to do. *)
Definition quiet (now : Z) (s : SessionState) : Prop := s_poll cfg now s = (None, s).

Lemma same_for_poll now po ao m :
  is_u64 now -> mgr_ok cfg m -> valid_order po (pending_by_endpoint m) ->
  valid_order ao (active_conn_id_by_endpoint m) ->
  (forall s, bound m e = Some s -> quiet now s) ->
  same_for e m (snd (m_poll cfg now po ao m)).
Proof.
  intros Hnow Hm Hpo Hao Hq. destruct (m_poll cfg now po ao m) as [out m'] eqn:E. cbn [snd].
  destruct (poll_tx_lookups cfg now Hcfg Hnow po ao m out m' Hm Hpo Hao E)
    as (_ & _ & _ & Hp & He & Ha).
  assert (Hstay : forall s, bound m e = Some s -> is_terminal_state (st_connection_state s) = false ->
    ended cfg now s = false /\ after cfg now s = s).
  { intros s Hs Ht. unfold ended, sent, after. by rewrite (Hq s Hs). }
  unfold bound in Hstay. split.
  - rewrite Hp. destruct (pending_by_endpoint m !! e) as [s|] eqn:Ep; [|done]. cbn.
    destruct (Hstay s eq_refl) as [-> ->]; [|done].
    by destruct (mo_pending_live _ _ Hm e s Ep) as [-> | ->].
  - unfold active_of at 1. rewrite He. destruct (active_of m e) as [[c s]|] eqn:Eo; [|done]. cbn.
    apply active_of_spec in Eo as [Ec Es].
    destruct (pending_by_endpoint m !! e) as [s'|] eqn:Ep.
    { destruct (mw_pending _ _ (mo_wf _ _ Hm) e s' Ep) as (_ & _ & _ & _ & ?). congruence. }
    destruct (Hstay s eq_refl) as [H1 H2].
    { by destruct (mo_active_live _ _ Hm c s Es) as [-> | ->]. }
    rewrite H1. cbn. rewrite Ha, Es. cbn. by rewrite H1, H2.
Qed.

Lemma away_same polled m m' :
  mgr_ok cfg m -> (forall now s, bound m e = Some s -> polled now s -> quiet now s) ->
  away polled m m' -> mgr_ok cfg m' /\ same_for e m m'.
Proof.
  intros Hm Hq Hs. destruct Hs as [fuel e' bs now m' Hne Hb E|c id ty p Hne Hid Hty Hp|c Hne|
    now po ao Hnow Hpo Hao Hpoll].
  - split; [by eapply on_datagram_received_mgr_ok|by eapply same_for_received].
  - split; [by apply queue_send_mgr_ok|]. unfold queue_send.
    destruct (find_active_session c m) as [s|]; [|done]. split; [done|]. by apply active_of_insert.
  - split; [by apply drain_active_events_mgr_ok|]. unfold drain_active_events.
    destruct (find_active_session c m) as [s|]; [|done]. split; [done|].
    cbn. by apply active_of_insert.
  - split; [|apply same_for_poll; try done; intros s Hs; by apply Hq, Hpoll].
    destruct (m_poll cfg now po ao m) as [out m'] eqn:E. by eapply poll_tx_mgr_ok.
Qed.

Definition others : Manager -> Manager -> Prop := star (away quiet).

Lemma others_same m m' : mgr_ok cfg m -> others m m' -> mgr_ok cfg m' /\ same_for e m m'.
Proof.
  intros Hm Hs.
  apply (star_inv (away quiet) (fun m' => mgr_ok cfg m' /\ same_for e m m')) with (a := m); [|done|done].
  intros x y [Hx Sx] Hxy. destruct (away_same quiet x y Hx) as [Hy Sy]; [done|done|].
  split; [done|]. by eapply same_for_trans.
Qed.

Lemma others_serves m m' cid s : serves m cid s -> others m m' -> serves m' cid s.
Proof.
  intros [Hm Ha] Ho. destruct (others_same m m' Hm Ho) as [Hm' [_ Hs]]. split; [done|]. by rewrite Hs.
Qed.

(** *** The endpoint's own operations, with others before them *)

Definition srv_receive (d : option bytes) (t : Z) (m m' : Manager) : Prop :=
  exists m1, others m m1 /\
    match d with
    | Some bs => exists fuel, m_receive cfg rd fuel e bs t m1 = Some m'
    | None => m' = m1
    end.

Definition srv_poll (t : Z) (m : Manager) (d : option bytes) (m' : Manager) : Prop :=
  exists m1 po ao out, others m m1 /\ is_u64 t /\
    valid_order po (pending_by_endpoint m1) /\ valid_order ao (active_conn_id_by_endpoint m1) /\
    m_poll cfg t po ao m1 = (out, m') /\ d = datagram_for e out.

Definition srv_send (cid id : Z) (ty : ChannelType) (payload : bytes) (m m' : Manager) : Prop :=
  exists m1, others m m1 /\ queue_send cid id ty payload m1 = (true, m').

Lemma srv_receive_serves d t m m' cid payload s :
  serves m cid s -> carries cid payload d -> Forall is_u8 payload ->
  is_terminal_state (st_connection_state (deliver cfg d t s)) = false -> srv_receive d t m m' ->
  serves m' cid (deliver cfg d t s).
Proof.
  intros Hs (h & p & -> & Hh & Hid & Hp) Hpay Hest (m1 & Ho & fuel & E). cbn [deliver] in *.
  eapply serves_receive; [by eapply others_serves|done|done|by apply Hp|done|exact E].
Qed.

Lemma srv_poll_serves t m d m' cid s :
  serves m cid s -> is_terminal_state (st_connection_state (snd (s_poll cfg t s))) = false ->
  srv_poll t m d m' -> d = fst (s_poll cfg t s) /\ serves m' cid (snd (s_poll cfg t s)).
Proof.
  intros Hs Hest (m1 & po & ao & out & Ho & Ht & Hpo & Hao & E & ->).
  eapply (serves_poll t po ao m1 out m'); try done. by eapply others_serves.
Qed.

(** *** Exchanges with the server

    [attempts] and [exchange] with the table in place of the server's session. *)

Inductive up_attempts : list (Z * Fate) -> SessionState -> Manager -> SessionState -> Manager -> Prop :=
| up_nil c m : up_attempts [] c m c m
| up_lost t sends c m c' m' :
    up_attempts sends (snd (s_poll cfg t c)) m c' m' ->
    up_attempts ((t, DataLost) :: sends) c m c' m'
| up_ack_lost t t1 t2 sends c m m1 d m2 c' m' :
    srv_receive (fst (s_poll cfg t c)) t1 m m1 -> srv_poll t2 m1 d m2 ->
    up_attempts sends (snd (s_poll cfg t c)) m2 c' m' ->
    up_attempts ((t, AckLost t1 t2) :: sends) c m c' m'
| up_acked t t1 t2 t3 sends c m m1 d m2 :
    srv_receive (fst (s_poll cfg t c)) t1 m m1 -> srv_poll t2 m1 d m2 ->
    up_attempts ((t, Acked t1 t2 t3) :: sends) c m (deliver cfg d t3 (snd (s_poll cfg t c))) m2.

Inductive down_attempts : list (Z * Fate) -> Manager -> SessionState -> Manager -> SessionState -> Prop :=
| down_nil m c : down_attempts [] m c m c
| down_lost t sends m d m1 c m' c' :
    srv_poll t m d m1 -> down_attempts sends m1 c m' c' ->
    down_attempts ((t, DataLost) :: sends) m c m' c'
| down_ack_lost t t1 t2 sends m d m1 c m' c' :
    srv_poll t m d m1 ->
    down_attempts sends m1 (snd (s_poll cfg t2 (deliver cfg d t1 c))) m' c' ->
    down_attempts ((t, AckLost t1 t2) :: sends) m c m' c'
| down_acked t t1 t2 t3 sends m d m1 c m' :
    srv_poll t m d m1 ->
    srv_receive (fst (s_poll cfg t2 (deliver cfg d t1 c))) t3 m1 m' ->
    down_attempts ((t, Acked t1 t2 t3) :: sends) m c m' (snd (s_poll cfg t2 (deliver cfg d t1 c))).

Inductive hosted_exchange (ty : ChannelType) (cid : Z)
    : SessionState -> Manager -> Exchange -> SessionState -> Manager -> Prop :=
| hosted_to_server id payload sends c m c' m' :
    up_attempts sends (Session.queue_send id ty payload c) m c' m' ->
    hosted_exchange ty cid c m (ToServer id payload sends) c' m'
| hosted_to_client id payload sends c m m1 c' m' :
    srv_send cid id ty payload m m1 -> down_attempts sends m1 c m' c' ->
    hosted_exchange ty cid c m (ToClient id payload sends) c' m'
| hosted_keepalive t0 t1 t2 t3 c m m1 d m2 :
    srv_receive (fst (s_poll cfg t0 c)) t1 m m1 -> srv_poll t2 m1 d m2 ->
    hosted_exchange ty cid c m (Keepalive t0 t1 t2 t3)
      (deliver cfg d t3 (snd (s_poll cfg t0 c))) m2.

Inductive hosted_exchanges (ty : ChannelType) (cid : Z)
    : SessionState -> Manager -> list Exchange -> SessionState -> Manager -> Prop :=
| hosted_nil c m : hosted_exchanges ty cid c m [] c m
| hosted_cons x xs c m c1 m1 c2 m2 :
    hosted_exchange ty cid c m x c1 m1 -> hosted_exchanges ty cid c1 m1 xs c2 m2 ->
    hosted_exchanges ty cid c m (x :: xs) c2 m2.

(** *** The table simulates the session *)

Lemma up_attempts_simulates payload sends c m c' m' cid s :
  Forall is_u8 payload -> serves m cid s -> up_attempts sends c m c' m' ->
  attempts_live cfg cid payload sends c s ->
  c' = fst (attempts cfg sends c s) /\ serves m' cid (snd (attempts cfg sends c s)).
Proof.
  intros Hp Hs Hup. revert s Hs. induction Hup as [|t sends c m c' m' _ IH|
    t t1 t2 sends c m m1 d m2 c' m' Hr Hpl _ IH|t t1 t2 t3 sends c m m1 d m2 Hr Hpl];
    intros s Hs; [done|..]; cbn [attempts attempts_live];
    destruct (s_poll cfg t c) as [dc c1]; cbn [fst snd] in *.
  - intros (_ & _ & Hl). by apply IH.
  - intros (Hcar & _ & H1 & H2 & Hl).
    pose proof (srv_receive_serves _ _ _ _ _ _ _ Hs Hcar Hp (established_not_terminal _ H1) Hr) as Hs1.
    destruct (srv_poll_serves _ _ _ _ _ _ Hs1 (established_not_terminal _ H2) Hpl) as [_ Hs2]. by apply IH.
  - destruct (s_poll cfg t2 (deliver cfg dc t1 s)) as [d' s'] eqn:E.
    intros (Hcar & _ & H1 & _ & H2 & _).
    pose proof (srv_receive_serves _ _ _ _ _ _ _ Hs Hcar Hp (established_not_terminal _ H1) Hr) as Hs1.
    destruct (srv_poll_serves t2 m1 d m2 cid _ Hs1) as [-> Hs2]; [rewrite E; by apply established_not_terminal|done|].
    by rewrite E in Hs2 |- *.
Qed.

Lemma down_attempts_simulates payload sends c m c' m' cid s :
  Forall is_u8 payload -> serves m cid s -> down_attempts sends m c m' c' ->
  attempts_live cfg cid payload sends s c ->
  c' = snd (attempts cfg sends s c) /\ serves m' cid (fst (attempts cfg sends s c)).
Proof.
  intros Hp Hs Hdown. revert s Hs. induction Hdown as [|t sends m d m1 c m' c' Hpl _ IH|
    t t1 t2 sends m d m1 c m' c' Hpl _ IH|t t1 t2 t3 sends m d m1 c m' Hpl Hr];
    intros s Hs; [done|..]; cbn [attempts attempts_live];
    destruct (s_poll cfg t s) as [ds s1] eqn:E.
  - intros (_ & H1 & Hl). destruct (srv_poll_serves t m d m1 cid s Hs) as [-> Hs1];
      [rewrite E; by apply established_not_terminal|done|]. rewrite E in Hs1. by apply IH.
  - intros (_ & H1 & _ & _ & Hl). destruct (srv_poll_serves t m d m1 cid s Hs) as [-> Hs1];
      [rewrite E; by apply established_not_terminal|done|]. rewrite E in *. by apply IH.
  - destruct (s_poll cfg t2 (deliver cfg ds t1 c)) as [d' c1] eqn:E2.
    intros (_ & H1 & _ & Hcar & _ & H3).
    destruct (srv_poll_serves t m d m1 cid s Hs) as [-> Hs1]; [rewrite E; by apply established_not_terminal|done|].
    rewrite E in *. cbn [fst snd] in *. rewrite E2 in *. cbn [fst snd] in *.
    split; [done|]. eapply srv_receive_serves; try done. by apply established_not_terminal.
Qed.

Lemma exchange_simulates ty x c m c' m' cid s :
  isReliableChannel ty = true -> exchange_typed x -> payload_typed x -> serves m cid s ->
  hosted_exchange ty cid c m x c' m' -> exchange_live cfg ty cid (c, s) x ->
  c' = fst (exchange cfg ty (c, s) x) /\ serves m' cid (snd (exchange cfg ty (c, s) x)).
Proof.
  intros Hty Ht Hp Hs Hx. assert (Hch : channel_named ty) by (by destruct ty).
  destruct Hx as [id payload sends c m c' m' Hu|id payload sends c m m1 c' m' Hq Hd|
    t0 t1 t2 t3 c m m1 d m2 Hr Hpl]; cbn [exchange exchange_live].
  - intros Hl. by eapply up_attempts_simulates.
  - intros Hl. destruct Hq as (m0 & Ho & E).
    assert (Hs1 : serves m1 cid (Session.queue_send id ty payload s)).
    { eapply serves_send; [done..| |exact E]. by eapply others_serves. }
    destruct (down_attempts_simulates payload sends c m1 c' m' cid _ Hp Hs1 Hd Hl) as [-> Hs2].
    by destruct (attempts cfg sends (Session.queue_send id ty payload s) c).
  - destruct (s_poll cfg t0 c) as [dc c1]. cbn [fst snd] in *. intros (Hcar & _ & H1 & H2).
    pose proof (srv_receive_serves _ _ _ _ _ _ _ Hs Hcar Hp (established_not_terminal _ H1) Hr) as Hs1.
    destruct (srv_poll_serves _ _ _ _ _ _ Hs1 (established_not_terminal _ H2) Hpl) as [-> Hs2].
    by destruct (s_poll cfg t2 (deliver cfg dc t1 s)).
Qed.

(** The server plays its part in any schedule exactly as a session of its own
    would. *)
Lemma exchanges_simulate ty xs c m c' m' cid s :
  isReliableChannel ty = true -> Forall exchange_typed xs -> Forall payload_typed xs ->
  serves m cid s -> hosted_exchanges ty cid c m xs c' m' -> exchanges_live cfg ty cid (c, s) xs ->
  c' = fst (fold_left (exchange cfg ty) xs (c, s)) /\
  serves m' cid (snd (fold_left (exchange cfg ty) xs (c, s))).
Proof.
  intros Hty Ht Hp Hs Hxs. revert s Hs. induction Hxs as [|x xs c m c1 m1 c2 m2 Hx _ IH];
    intros s Hs; [done|]. cbn [exchanges_live fold_left]. intros [Hl Hls].
  apply Forall_cons_1 in Ht as [Hx1 Ht], Hp as [Hx2 Hp].
  destruct (exchange_simulates ty x c m c1 m1 cid s Hty Hx1 Hx2 Hs Hx Hl) as [-> Hs1].
  destruct (exchange cfg ty (c, s) x) as [c1 s1]. by apply IH.
Qed.

(** *** The handshake through the table *)

(** The endpoint's session [s] is pending. *)
Record awaits (m : Manager) (s : SessionState) : Prop := mk_awaits {
  aw_ok : mgr_ok cfg m;
  aw_pending : pending_by_endpoint m !! e = Some s
}.

Lemma others_awaits m m' s : awaits m s -> others m m' -> awaits m' s.
Proof.
  intros [Hm Ha] Ho. destruct (others_same m m' Hm Ho) as [Hm' [Hs _]]. split; [done|]. by rewrite Hs.
Qed.

Lemma others_absent m m' : mgr_ok cfg m -> absent e m -> others m m' -> absent e m'.
Proof.
  intros Hm [Hp Ha] Ho. destruct (others_same m m' Hm Ho) as [Hm' [Sp Sa]]. split; [by rewrite Sp|].
  unfold active_of in Sa. rewrite Ha in Sa.
  destruct (active_conn_id_by_endpoint m' !! e) as [c|] eqn:Ec; [|done].
  destruct (mw_bound _ _ (mo_wf _ _ Hm') e c Ec) as [s Hs]. cbn in Sa. by rewrite Hs in Sa.
Qed.

(** A datagram without connection id from an unknown endpoint: a session with the
    next random number and a fresh id, which takes the datagram. *)
Lemma new_peer_receive fuel h t m m' :
  mgr_ok cfg m -> absent e m -> header_ok h -> hdr_conn_id h = 0 ->
  (forall cid, st_connection_state (s_receive cfg (encode h []) t
     (assign_conn_id cid (new_session Server (draw rd (draws m))))) = HandshakeReceived) ->
  m_receive cfg rd fuel e (encode h []) t m = Some m' ->
  exists cid, is_u32 cid /\ cid <> 0 /\
    awaits m' (s_receive cfg (encode h []) t
      (assign_conn_id cid (new_session Server (draw rd (draws m))))).
Proof.
  intros Hm [Hp Ha] Hh H0 Hst E.
  assert (Hm' : mgr_ok cfg m').
  { eapply on_datagram_received_mgr_ok; [exact Hm|apply encode_bytes; [apply Hh|done]|exact E]. }
  revert E. unfold m_receive. rewrite decode_control by done. cbn [pv_header].
  unfold route_existing_active. rewrite H0. cbn [Z.eqb].
  unfold route_existing_pending, try_dispatch_pending, find_pending_session. rewrite Hp.
  unfold route_new_peer. rewrite H0. cbn [Z.eqb negb].
  unfold ensure_session_for_new_peer, find_pending_session. rewrite Hp, Ha.
  set (m1 := set pending_by_endpoint _ _).
  destruct (allocate_conn_id rd fuel m1) as [[cid m2]|] eqn:Eal; [|done].
  apply allocate_conn_id_spec in Eal as (Hc & Hu & n & ->).
  apply conn_id_in_use_spec in Hu as (Hne & _).
  unfold try_dispatch_pending, find_pending_session. cbn [pending_by_endpoint set set_pending_by_endpoint].
  rewrite lookup_insert_eq, Hst, bool_decide_eq_false_2 by done. cbn [snd].
  unfold cleanup_pending_if_terminal, find_pending_session.
  cbn [pending_by_endpoint set set_pending_by_endpoint]. rewrite lookup_insert_eq, Hst. cbn [negb is_terminal_state].
  intros [= <-]. exists cid. split_and!; [done|done|]. split; [exact Hm'|]. cbn. by rewrite lookup_insert_eq.
Qed.

Lemma awaits_poll t m d m' s :
  awaits m s -> st_connection_state (snd (s_poll cfg t s)) = HandshakeReceived ->
  srv_poll t m d m' -> d = fst (s_poll cfg t s) /\ awaits m' (snd (s_poll cfg t s)).
Proof.
  intros Hs Hst (m1 & po & ao & out & Ho & Ht & Hpo & Hao & E & ->).
  destruct (others_awaits _ _ _ Hs Ho) as [Hm Hp].
  pose proof (out_endpoints cfg t po ao m1 (mo_wf _ _ Hm) Hpo Hao) as Hnd.
  destruct (poll_tx_lookups cfg t Hcfg Ht po ao m1 out m' Hm Hpo Hao E) as (_ & Eo & _ & Hpl & _ & _).
  rewrite <- Eo in Hnd.
  assert (Hend : ended cfg t s = false) by (unfold ended, after; by rewrite Hst, andb_false_r).
  split.
  - apply option_eq. intros bs. rewrite (datagram_for_spec _ _ _ Hnd), Eo.
    rewrite (out_spec cfg t po ao m1 e bs) by (done || apply Hm). unfold bound. rewrite Hp.
    unfold sent. split; [by intros (? & [= <-] & ?)|intros ?; by exists s].
  - split; [by eapply poll_tx_mgr_ok|]. rewrite Hpl, Hp. cbn. by rewrite Hend.
Qed.

(** The final ACK promotes the session. *)
Lemma awaits_receive fuel h t m m' s :
  awaits m s -> header_ok h -> hdr_conn_id h = st_conn_id s ->
  st_conn_id (s_receive cfg (encode h []) t s) = st_conn_id s ->
  established (s_receive cfg (encode h []) t s) ->
  m_receive cfg rd fuel e (encode h []) t m = Some m' ->
  serves m' (st_conn_id s) (s_receive cfg (encode h []) t s).
Proof.
  intros [Hm Hp] Hh Hid Hid' Hest E.
  assert (Hm' : mgr_ok cfg m').
  { eapply on_datagram_received_mgr_ok; [exact Hm|apply encode_bytes; [apply Hh|done]|exact E]. }
  split; [done|]. destruct (mw_pending _ _ (mo_wf _ _ Hm) e s Hp) as (_ & Hne & Hact & _).
  revert E. unfold m_receive. rewrite decode_control by done. cbn [pv_header].
  unfold route_existing_active, has_active_session, find_active_session.
  rewrite Hid, (proj2 (Z.eqb_neq _ _)), Hact by done. cbn [has_value negb].
  unfold route_existing_pending, try_dispatch_pending, find_pending_session. rewrite Hp.
  unfold established in Hest. rewrite Hest, bool_decide_eq_true_2 by done.
  unfold promote_pending_session, find_pending_session.
  cbn [pending_by_endpoint set set_pending_by_endpoint].
  rewrite lookup_insert_eq, Hid', (proj2 (Z.eqb_neq _ _)) by done.
  intros [= <-]. apply active_of_spec. cbn. by rewrite !lookup_insert_eq.
Qed.

(** The exchange of [handshake], with the table in the server's place: a new
    client at the endpoint. [s_isn] and [cid] are the server's random choices. *)
Definition hosted_handshake (c_isn s_isn cid t0 t1 t2 t3 t4 t5 : Z) (m : Manager) (c : SessionState)
    (m' : Manager) : Prop :=
  let '(d1, c1) := s_poll cfg t0 (new_session Client c_isn) in
  exists m0 fuel bs m1 d2 m2, others m m0 /\ d1 = Some bs /\
    m_receive cfg rd fuel e bs t1 m0 = Some m1 /\
    s_isn = draw rd (draws m0) /\ pending_conn_id e m1 = Some cid /\
    srv_poll t2 m1 d2 m2 /\
    let '(d3, c3) := s_poll cfg t4 (deliver cfg d2 t3 c1) in
    c = c3 /\ srv_receive d3 t5 m2 m'.

Lemma handshake_simulates c_isn s_isn cid t0 t1 t2 t3 t4 t5 m c m' :
  is_u32 c_isn -> t4 < u64 (t3 + idle_timeout_ms cfg) -> mgr_ok cfg m -> absent e m ->
  hosted_handshake c_isn s_isn cid t0 t1 t2 t3 t4 t5 m c m' ->
  is_u32 s_isn /\ is_u32 cid /\ cid <> 0 /\
  exists s, handshake cfg c_isn s_isn cid t0 t1 t2 t3 t4 t5 = (c, s) /\ serves m' cid s.
Proof.
  intros Hc Ht Hm Habs. unfold hosted_handshake, handshake.
  destruct (client_syn cfg c_isn Hc t0) as [st1 ->].
  intros (m0 & fuel & bs & m1 & d2 & m2 & Ho & [= <-] & E1 & -> & Hcid & Hpl & Hrest).
  pose proof (draw_u32 rd (draws m0)) as Hs. set (s_isn := draw rd (draws m0)) in *.
  destruct (others_same _ _ Hm Ho) as [Hm0 _].
  destruct (new_peer_receive fuel _ t1 m0 m1 Hm0 (others_absent _ _ Hm Habs Ho)
    (syn_ok c_isn Hc) eq_refl) as (cid' & Uc & Hne & Haw); [|exact E1|].
  { intros id. fold s_isn. by destruct (server_syn cfg c_isn s_isn id Hc t1) as [st ->]. }
  fold s_isn in Haw. destruct (server_syn cfg c_isn s_isn cid' Hc t1) as [st2 E2].
  rewrite E2 in Haw. assert (cid' = cid) as ->.
  { unfold pending_conn_id, find_pending_session in Hcid. destruct Haw as [_ Hp]. rewrite Hp in Hcid.
    by injection Hcid. }
  destruct (server_syn_ack cfg c_isn s_isn cid Hs Uc t1 t2 st2) as [st3 E3].
  destruct (awaits_poll t2 m1 d2 m2 _ Haw) as [-> Haw2]; [by rewrite E3|done|].
  rewrite E3 in Haw2, Hrest. cbn [fst snd deliver] in *. rewrite E2, E3. cbn [deliver].
  destruct (client_syn_ack cfg c_isn s_isn cid Hc Hs Uc t0 t3 st1 Hne) as [st4 E4].
  rewrite E4 in *.
  destruct (client_final cfg c_isn s_isn cid Uc t0 t3 t4 st4 Ht) as (c' & E5 & _). rewrite E5 in *.
  destruct Hrest as [-> (m3 & Ho3 & fuel' & E6)]. cbn [deliver].
  destruct (server_final_ack cfg c_isn s_isn cid Hs Uc t1 t2 t5 st3) as (H5 & H6 & _).
  split_and!; [done..|]. eexists. split; [done|].
  apply (awaits_receive fuel' _ t5 m3 m' _ (others_awaits _ _ _ Haw2 Ho3)); try done.
  by apply final_ack_ok.
Qed.
End hosting.

(** ** Draining the events *)

Section draining.
Context (e : EndpointKey).

(** The events of one endpoint. *)
Definition inbox (evs : list ServerSessionEvent) : list ServerSessionEvent :=
  filter (fun ev => sev_endpoint ev = e) evs.

Lemma inbox_app e' c evs (drained : list SessionEvent) :
  inbox (evs ++ map (mkServerEvent e' c) drained) =
  inbox evs ++ if decide (e' = e) then map (mkServerEvent e' c) drained else [].
Proof.
  unfold inbox. rewrite filter_app. f_equal. induction drained as [|d drained IH]; cbn [map].
  { by destruct (decide (e' = e)). }
  destruct (decide (e' = e)) as [->|Hne].
  - rewrite filter_cons_True by done. by rewrite IH.
  - by rewrite filter_cons_False.
Qed.

(** What the loops keep while they visit other endpoints. *)
Definition drained_else (m : Manager) (acc : Manager * list ServerSessionEvent) : Prop :=
  active_conn_id_by_endpoint (fst acc) = active_conn_id_by_endpoint m /\
  active_of (fst acc) e = active_of m e.

Lemma drain_pending_loop m po acc :
  ~ (e ∈ po) -> drained_else m acc ->
  drained_else m (fold_left drain_pending_step po acc) /\
  inbox (snd (fold_left drain_pending_step po acc)) = inbox (snd acc).
Proof.
  revert acc. induction po as [|e' po IH]; intros acc Hni Ha; [done|]. cbn [fold_left].
  apply not_elem_of_cons in Hni as [Hne Hni].
  assert (H : drained_else m (drain_pending_step acc e') /\
    inbox (snd (drain_pending_step acc e')) = inbox (snd acc)).
  { destruct acc as [m1 evs]. unfold drain_pending_step.
    destruct (find_pending_session e' m1) as [s|]; [|done]. split; [done|].
    cbn [snd Session.drain_events RxHandler.drain_events]. rewrite inbox_app, decide_False, app_nil_r by done. done. }
  destruct (IH (drain_pending_step acc e') Hni (proj1 H)) as [H1 H2].
  split; [done|]. rewrite H2. apply H.
Qed.

Lemma drain_active_loop m ao acc :
  (forall e' c, active_conn_id_by_endpoint m !! e = Some c ->
     active_conn_id_by_endpoint m !! e' = Some c -> e = e') ->
  ~ (e ∈ ao) -> active_conn_id_by_endpoint (fst acc) = active_conn_id_by_endpoint m ->
  active_conn_id_by_endpoint (fst (fold_left drain_active_step ao acc)) =
    active_conn_id_by_endpoint m /\
  active_of (fst (fold_left drain_active_step ao acc)) e = active_of (fst acc) e /\
  inbox (snd (fold_left drain_active_step ao acc)) = inbox (snd acc).
Proof.
  intros Hinj. revert acc. induction ao as [|e' ao IH]; intros acc Hni Ha; [done|]. cbn [fold_left].
  apply not_elem_of_cons in Hni as [Hne Hni].
  assert (H : active_conn_id_by_endpoint (fst (drain_active_step acc e')) =
      active_conn_id_by_endpoint m /\
    active_of (fst (drain_active_step acc e')) e = active_of (fst acc) e /\
    inbox (snd (drain_active_step acc e')) = inbox (snd acc)).
  { destruct acc as [m1 evs]. cbn [fst] in Ha. unfold drain_active_step.
    destruct (active_conn_id_by_endpoint m1 !! e') as [c|] eqn:Ec; [|done].
    destruct (find_active_session c m1) as [s|]; [|done]. cbn [fst snd Session.drain_events RxHandler.drain_events].
    split_and!; [done| |].
    - apply active_of_insert. rewrite Ha in *. intros He. by apply Hne, (Hinj e' c).
    - rewrite inbox_app, decide_False, app_nil_r by done. done. }
  destruct H as (H1 & H2 & H3). destruct (IH (drain_active_step acc e') Hni H1) as (H4 & H5 & H6).
  split_and!; [done|congruence|congruence].
Qed.

(** Draining the server yields, for an endpoint with a connection, the events of
    its session, in their order. *)
Lemma drain_events_inbox cfg po ao m cid s :
  mgr_wf cfg m -> valid_order po (pending_by_endpoint m) ->
  valid_order ao (active_conn_id_by_endpoint m) -> active_of m e = Some (cid, s) ->
  inbox (fst (drain_events po ao m)) = map (mkServerEvent e (Some cid)) (pending_events (st_rx s)).
Proof.
  intros Hw Hpo Hao Ha. pose proof Ha as Hl. apply active_of_spec in Hl as [Hc Hs].
  destruct (drain_pending_loop m po (m, [])) as [[P1 P2] P3]; [|done|].
  { intros Hin. apply Hpo in Hin as [s' Hs']. destruct (mw_pending _ _ Hw e s' Hs') as (_ & _ & _ & _ & ?).
    congruence. }
  assert (Hin : e ∈ ao) by (apply Hao; by eexists).
  apply list_elem_of_split in Hin as (l1 & l2 & ->). destruct Hao as [Hnd _].
  apply NoDup_app in Hnd as (_ & Hdis & Hnd). apply NoDup_cons in Hnd as [Hn2 _].
  assert (Hn1 : ~ (e ∈ l1)) by (intros H; apply (Hdis e H); apply elem_of_cons; by left).
  assert (Hinj : forall e' c, active_conn_id_by_endpoint m !! e = Some c ->
    active_conn_id_by_endpoint m !! e' = Some c -> e = e') by (intros e' c; apply (mw_inj _ _ Hw)).
  unfold drain_events. rewrite fold_left_app. cbn [fold_left].
  set (acc1 := fold_left drain_pending_step po (m, [])) in *.
  destruct (drain_active_loop m l1 acc1 Hinj Hn1 P1) as (A1 & A2 & A3).
  set (acc2 := fold_left drain_active_step l1 acc1) in *. clearbody acc2.
  rewrite P2, Ha in A2. rewrite P3 in A3. cbn in A3.
  destruct acc2 as [m2 evs2]. cbn [fst snd] in *.
  assert (E : drain_active_step (m2, evs2) e =
    (m2 <| active_by_conn_id ::= fun a => <[cid := snd (Session.drain_events s)]> a |>,
     evs2 ++ map (mkServerEvent e (Some cid)) (pending_events (st_rx s)))).
  { apply active_of_spec in A2 as [E1 E2]. unfold drain_active_step, find_active_session.
    by rewrite E1, E2. }
  rewrite E. set (acc3 := (_, _)).
  destruct (drain_active_loop m l2 acc3 Hinj Hn2 A1) as (_ & _ & H).
  destruct (fold_left drain_active_step l2 acc3) as [m3 evs3]. cbn [fst snd] in *.
  rewrite H. subst acc3. cbn [snd]. by rewrite inbox_app, A3, decide_True.
Qed.
End draining.
