(* ===== verification/ServerConnection.v ===== *)
(** Connections between clients and the server: what holds for two sessions talking
    to each other holds for a client and a server with any number of other clients;
    and what a closed connection leaves in the table. *)

From S2P Require Import Prelude StdMap Protocol Utils Codec Config SessionTypes.
From S2P Require Import ConnectionStateMachine TxHandler TxInvariant RxHandler RxInvariant.
From S2P Require Import Session SessionInvariant SessionLifecycle Handshake DataTransfer.
From S2P Require Import ReliableTransfer Closing.
From S2P Require Import ServerSessionManager ManagerInvariant ManagerPolling ManagerRouting.
From S2P Require Import ManagerTermination ServerHosting.

Local Abbreviation s_receive := Session.on_datagram_received.
Local Abbreviation s_poll := Session.poll_tx.
Local Abbreviation m_receive := ServerSessionManager.on_datagram_received.
Local Abbreviation m_poll := ServerSessionManager.poll_tx.

(** ** Properties *)

(** What the application of the server is told of an endpoint. *)
Definition told_of (evs : list ServerSessionEvent) : list AppEvent := map (fun ev => told (sev_event ev)) evs.

Lemma told_of_session e c s :
  told_of (map (mkServerEvent e c) (pending_events (st_rx s))) = app_events s.
Proof. unfold told_of, app_events. by rewrite map_map. Qed.


(** A client of [sample_endpoint], with another client connecting in between. *)
Definition host_poll (e : EndpointKey) (t : Z) (m : Manager) : option bytes * Manager :=
  let '(out, m') := m_poll default_transport t (key_order (pending_by_endpoint m))
                      (key_order (active_conn_id_by_endpoint m)) m in
  (datagram_for e out, m').

Lemma host_poll_srv rd e t m :
  is_u64 t -> srv_poll default_transport rd e t m (fst (host_poll e t m)) (snd (host_poll e t m)).
Proof.
  intros Ht. unfold host_poll.
  destruct (m_poll default_transport t (key_order (pending_by_endpoint m))
    (key_order (active_conn_id_by_endpoint m)) m) as [out m'] eqn:E.
  exists m, (key_order (pending_by_endpoint m)), (key_order (active_conn_id_by_endpoint m)), out.
  split; [apply star_refl|]. split_and!; [apply Ht..|apply key_order_valid|apply key_order_valid|done|done].
Qed.

Definition host_rd (n : nat) : Z := if (n <? 4)%nat then 1 else 2.
Definition host_receive (e : EndpointKey) (d : option bytes) (t : Z) (m : Manager) : Manager :=
  default m (m_receive default_transport host_rd 1 e (default [] d) t m).

Definition host_syn := s_poll default_transport 0 (new_session Client 100).
Definition host_m0 := host_receive other_endpoint (Some sample_syn) 5 empty_manager.
Definition host_m1 := host_receive sample_endpoint (fst host_syn) 10 host_m0.
Definition host_answer := host_poll sample_endpoint 10 host_m1.
Definition host_ack :=
  s_poll default_transport 20 (deliver default_transport (fst host_answer) 20 (snd host_syn)).
Definition host_m2 := host_receive sample_endpoint (fst host_ack) 30 (snd host_answer).
Definition host_data :=
  s_poll default_transport 40 (Session.queue_send 1 ReliableOrdered [1; 2] (snd host_ack)).
Definition host_m3 := host_receive sample_endpoint (fst host_data) 50 host_m2.
Definition host_done := host_poll sample_endpoint 60 host_m3.

Definition host_schedule : list Exchange := [ToServer 1 [1; 2] [(40, Acked 50 60 70)]].

Lemma host_schedule_typed : Forall exchange_typed host_schedule /\ Forall payload_typed host_schedule.
Proof.
  split; (apply Forall_cons_2; [|apply Forall_nil_2]); cbn; [unfold is_u32; lia|].
  repeat apply Forall_cons_2; try apply Forall_nil_2; unfold is_u8; lia.
Qed.

Lemma host_handshake_run :
  hosted_handshake default_transport host_rd sample_endpoint 100 0x20002 0x20002 0 10 10 20 20 30
    empty_manager (snd host_ack) host_m2.
Proof.
  unfold hosted_handshake. fold host_syn. destruct host_syn as [d1 c1] eqn:E1.
  exists host_m0, 1%nat, (default [] (fst host_syn)), host_m1, (fst host_answer), (snd host_answer).
  split.
  { eapply star_snoc; [apply star_refl|].
    apply (away_receive _ _ _ _ _ 1 other_endpoint sample_syn 5);
      [discriminate|apply sample_syn_bytes|vm_compute; reflexivity]. }
  split; [rewrite E1; vm_compute in E1; by injection E1 as <- _|].
  split; [vm_compute; reflexivity|]. split; [vm_compute; reflexivity|]. split; [vm_compute; reflexivity|].
  split; [apply host_poll_srv; unfold is_u64; lia|].
  assert (c1 = snd host_syn) as -> by (by rewrite E1). fold host_ack.
  destruct host_ack as [d3 c3] eqn:E2. split; [done|].
  exists (snd host_answer). split; [apply star_refl|].
  assert (d3 = Some (default [] d3)) as -> by (vm_compute in E2; by injection E2 as <- _).
  exists 1%nat. assert (d3 = fst host_ack) as -> by (by rewrite E2). vm_compute. reflexivity.
Qed.

Lemma host_exchange_run :
  hosted_exchanges default_transport host_rd sample_endpoint ReliableOrdered 0x20002
    (snd host_ack) host_m2 host_schedule
    (deliver default_transport (fst host_done) 70 (snd host_data)) (snd host_done).
Proof.
  eapply hosted_cons; [|apply hosted_nil]. apply hosted_to_server.
  eapply (up_acked _ _ _ 40 50 60 70 [] _ _ host_m3); [|apply host_poll_srv; unfold is_u64; lia].
  exists host_m2. split; [apply star_refl|]. fold host_data.
  destruct (fst host_data) as [bs|] eqn:E; [|vm_compute in E; discriminate E].
  exists 1%nat. assert (bs = default [] (fst host_data)) as -> by (by rewrite E).
  vm_compute. reflexivity.
Qed.


(** A session at rest in Closing stays, whatever happens elsewhere and however late
    the server polls. *)
Lemma dormant_stays cfg rd e m m' cid s :
  settings_typed cfg -> serves cfg e m cid s -> dormant s ->
  star (away cfg rd e (fun _ _ => True)) m m' -> serves cfg e m' cid s.
Proof.
  intros Hcfg Hs Hd. apply (star_inv _ (fun x => serves cfg e x cid s)); [|done]. intros x y Hx Hxy.
  pose proof (serves_bound _ _ _ _ _ Hx) as Hb. destruct Hx as [Hm Ha].
  destruct (away_same cfg Hcfg rd e (fun _ _ => True) x y Hm) as [Hy [_ Hsame]]; [|done|].
  { intros now s' Hs' _. rewrite Hb in Hs'. injection Hs' as <-. by apply dormant_poll. }
  split; [done|]. by rewrite Hsame.
Qed.

(** C26: the server never forgets a client that closed. When the client of an idle
    connection closes it, the server acknowledges the FIN, and from then on the
    session stays in its table in the state Closing, with its connection id in use:
    no amount of time, of polls and of traffic with other endpoints removes it. Only
    sessions in Reset or Closed are cleaned up, and the idle timeout applies in
    Established only. *)
Theorem closed_session_leaks cfg rd e cid n k m s t1 t2 m1 d m2 m3 :
  settings_typed cfg -> star (mgr_step cfg rd) empty_manager m ->
  is_u32 cid -> is_u32 n -> is_u32 k ->
  active_of m e = Some (cid, s) -> idle s cid k n ->
  srv_receive cfg rd e (Some (encode (fin_header cid n k) [])) t1 m m1 ->
  srv_poll cfg rd e t2 m1 d m2 ->
  star (away cfg rd e (fun _ _ => True)) m2 m3 ->
  d = Some (encode (ack_header cid (u32 (n + 1))) []) /\
  exists s', active_of m3 e = Some (cid, s') /\ st_connection_state s' = Closing /\
    conn_id_is_in_use cid m3 = true.
Proof.
  intros Hcfg Hr Hcid Hn Hk Ha Hi Hrec Hpoll Haway.
  pose proof (mgr_reachable_ok cfg rd m Hcfg Hr) as Hm.
  destruct (receive_fin_first cfg cid Hcid t1 s n k Hn Hk Hi) as [Hh _].
  destruct (send_fin_ack cfg cid Hcid t2 _ _ _ (u32_range _) Hh) as (s2 & E2 & Hh2 & _).
  assert (Hs1 : serves cfg e m1 cid (s_receive cfg (encode (fin_header cid n k) []) t1 s)).
  { apply (srv_receive_serves cfg Hcfg rd e (Some (encode (fin_header cid n k) [])) t1 m m1 cid [] s);
      [done| |done|cbn [deliver]; by rewrite (hc_state _ _ _ _ _ Hh)|done].
    eexists _, []. split_and!; [reflexivity|by apply fin_header_ok|done|done]. }
  destruct (srv_poll_serves cfg Hcfg rd e t2 m1 d m2 cid _ Hs1) as [-> Hs2]; [|done|].
  { rewrite E2. cbn [snd]. by rewrite (hc_state _ _ _ _ _ Hh2). }
  rewrite E2 in *. split; [done|].
  pose proof (dormant_stays cfg rd e m2 m3 cid s2 Hcfg Hs2 (half_closed_dormant _ _ _ _ Hh2) Haway)
    as [_ Ha3].
  exists s2. split_and!; [done|apply Hh2|]. apply active_of_spec in Ha3 as [_ Ha3].
  unfold conn_id_is_in_use. rewrite Ha3. by repeat case_match.
Qed.

Definition leak_fin : bytes := encode (fin_header 0x10001 8 0x10002) [].
Definition leak_m1 : Manager :=
  default empty_manager
    (m_receive default_transport (fun _ => 1) 1 sample_endpoint leak_fin 7 sample_active).
Definition leak_m2 := host_poll sample_endpoint 8 leak_m1.
Definition leak_m3 := snd (host_poll sample_endpoint 1000000000 (snd leak_m2)).

Lemma closed_session_leaks_witness :
  exists s', active_of leak_m3 sample_endpoint = Some (0x10001, s') /\
    st_connection_state s' = Closing /\ conn_id_is_in_use 0x10001 leak_m3 = true.
Proof.
  destruct (active_of sample_active sample_endpoint) as [[c s]|] eqn:Ea;
    [|vm_compute in Ea; discriminate Ea].
  assert (Hc : c = 0x10001 /\ idle s 0x10001 0x10002 8).
  { vm_compute in Ea. injection Ea as <- <-. split; [reflexivity|].
    constructor; [constructor|..]; reflexivity. }
  destruct Hc as [-> Hi].
  refine (proj2 (closed_session_leaks default_transport (fun _ => 1) sample_endpoint 0x10001 8 0x10002
    sample_active s 7 8 leak_m1 (fst leak_m2) (snd leak_m2) leak_m3 default_transport_typed
    sample_active_reachable ltac:(unfold is_u32; lia) ltac:(unfold is_u32; lia)
    ltac:(unfold is_u32; lia) Ea Hi _ (host_poll_srv _ _ 8 _ ltac:(unfold is_u64; lia)) _)).
  - exists sample_active. split; [apply star_refl|]. exists 1%nat. vm_compute. reflexivity.
  - eapply star_snoc; [apply star_refl|].
    assert (leak_m3 = snd (m_poll default_transport 1000000000
      (key_order (pending_by_endpoint (snd leak_m2)))
      (key_order (active_conn_id_by_endpoint (snd leak_m2))) (snd leak_m2))) as ->
      by (vm_compute; reflexivity).
    apply (away_poll default_transport (fun _ => 1) sample_endpoint (fun _ _ => True) (snd leak_m2)
      1000000000); [unfold is_u64; lia|apply key_order_valid|apply key_order_valid|].
    intros s' _. exact I.
Defined.
