(* ===== verification/BsdUdpSocket.v ===== *)
(** The socket wrapper ([src/BsdUdpSocket.cpp], [include/Rudp/BsdUdpSocket.hpp]):
    who owns a file descriptor, and what a receive does to a datagram.

    The system calls are not part of the program. Name resolution and address
    printing are the class [Kernel]; the status that [socket], [fcntl], [bind],
    [sendto] or [recvfrom] returns is an argument of the operation that calls it, and
    so is whether the memory for the receive buffer could be had.
    [close] acts on the table of open descriptors. *)

From S2P Require Import Prelude Protocol Utils Codec Text SessionTypes ServerSessionManager.

(** ** Addresses, sending and receiving *)

Class Kernel := {
  sockaddr_in : Type;
  getaddrinfo : string -> string -> option sockaddr_in;
  inet_ntop : sockaddr_in -> option string;
  ntohs_port : sockaddr_in -> Z
}.

Record ReceivedDatagram := mkReceived { rd_endpoint : EndpointKey; rd_bytes : bytes }.

(** [std::vector<std::byte>::max_size()] with a 64-bit [std::ptrdiff_t]. *)
Definition max_vector_size : Z := 2 ^ 63 - 1.
Definition buffer_too_large (buffer_size : Z) : bool := max_vector_size <? buffer_size.

Section calls.
Context `{Kernel}.

Definition make_sockaddr (address : string) (port : Z) : option sockaddr_in :=
  let service := to_string port in getaddrinfo address service.

(** [bind_status]: what [::bind] returns. *)
Definition bind (address : string) (port : Z) (bind_status : Z) : bool :=
  match make_sockaddr address port with
  | None => false
  | Some addr => if bind_status <? 0 then false else true
  end.

(** The result, and what was handed to [::sendto], which returns [sent]. *)
Definition send_to (endpoint : EndpointKey) (bs : bytes) (sent : Z)
    : bool * option (sockaddr_in * bytes) :=
  match make_sockaddr (address endpoint) (port endpoint) with
  | None => (false, None)
  | Some addr => (negb (sent <? 0), Some (addr, bs))
  end.

(** [::recvfrom]: an error (no datagram waiting included), or the next datagram
    and its sender. *)
Inductive RecvResult :=
| RecvError (errno : Z)
| RecvDatagram (datagram : bytes) (addr : sockaddr_in).

(** What a call of [recv_from] does: it returns, or [std::vector<std::byte>
    buffer(buffer_size)] throws. *)
Inductive RecvOutcome :=
| RecvThrows
| RecvReturns (received : option ReceivedDatagram).

(** [allocated]: whether there is memory for the buffer; the vector throws
    [std::bad_alloc] when there is not, and [std::length_error] for a size over its
    [max_size()]. [recvfrom] stores at most [buffer_size] bytes and drops the rest. *)
Definition recv_from (buffer_size : Z) (allocated : bool) (result : RecvResult) : RecvOutcome :=
  if buffer_too_large buffer_size || negb allocated then RecvThrows
  else
    match result with
    | RecvError _ => RecvReturns None
    | RecvDatagram datagram addr =>
        let buffer := take (Z.to_nat buffer_size) datagram in
        match inet_ntop addr with
        | None => RecvReturns None
        | Some address_buf =>
            RecvReturns (Some {| rd_endpoint := mkEndpoint address_buf (ntohs_port addr);
                                 rd_bytes := buffer |})
        end
    end.
End calls.

(** ** Descriptor ownership

    A program state has the descriptors that are open, the live [BsdUdpSocket]
    objects with their [fd_], and whether [close] was ever called on a descriptor
    that is not open. Objects are named by a number. *)

Record FdWorld := mkFdWorld {
  open_fds : gset Z;
  objects : gmap nat Z;
  bad_close : bool
}.
#[export] Instance set_objects : Setter objects := fun f w =>
  mkFdWorld (open_fds w) (f (objects w)) (bad_close w).

Definition empty_world : FdWorld := mkFdWorld ∅ ∅ false.

(** [::close(fd)]. *)
Definition os_close (fd : Z) (w : FdWorld) : FdWorld :=
  if bool_decide (fd ∈ open_fds w) then mkFdWorld (open_fds w ∖ {[fd]}) (objects w) (bad_close w)
  else mkFdWorld (open_fds w) (objects w) true.

Definition fd_of (o : nat) (w : FdWorld) : Z := default (-1) (objects w !! o).

(** [BsdUdpSocket()] and [BsdUdpSocket(fd)]. *)
Definition construct (o : nat) (fd : Z) (w : FdWorld) : FdWorld :=
  w <| objects ::= <[o := fd]> |>.

(** [BsdUdpSocket::close]. *)
Definition close (o : nat) (w : FdWorld) : FdWorld :=
  let fd := fd_of o w in
  if 0 <=? fd then (os_close fd w) <| objects ::= <[o := -1]> |> else w.

(** [BsdUdpSocket(BsdUdpSocket&& other)]. *)
Definition move_construct (o other : nat) (w : FdWorld) : FdWorld :=
  let fd := fd_of other w in
  let w := w <| objects ::= <[other := -1]> |> in
  construct o fd w.

(** [operator=(BsdUdpSocket&& other)]. *)
Definition move_assign (o other : nat) (w : FdWorld) : FdWorld :=
  if negb (bool_decide (o = other)) then
    let w := close o w in
    let fd := fd_of other w in
    w <| objects ::= <[other := -1]> |> <| objects ::= <[o := fd]> |>
  else w.

(** [~BsdUdpSocket]. *)
Definition destroy (o : nat) (w : FdWorld) : FdWorld :=
  (close o w) <| objects ::= delete o |>.

(** [::socket] opened [fd] when its result is not negative. *)
Definition os_socket (fd : Z) (w : FdWorld) : FdWorld :=
  if 0 <=? fd then mkFdWorld ({[fd]} ∪ open_fds w) (objects w) (bad_close w) else w.

(** [create_non_blocking()] into the optional object [o]; [fd], [current_flags]
    and [setfl_status] are the results of [::socket] and the two [::fcntl] calls,
    [tmp] names the temporary that [return BsdUdpSocket(fd)] moves from. *)
Definition create_non_blocking (o tmp : nat) (fd current_flags setfl_status : Z) (w : FdWorld)
    : bool * FdWorld :=
  let w := os_socket fd w in
  if fd <? 0 then (false, w)
  else if (current_flags <? 0) || (setfl_status <? 0) then (false, os_close fd w)
  else (true, destroy tmp (move_construct o tmp (construct tmp fd w))).

(** What a program may do with sockets: the copy operations are deleted, and a new
    object gets a new name. [::socket] returns a descriptor that is not open. *)
Inductive fd_step (w : FdWorld) : FdWorld -> Prop :=
| FdDefault o : objects w !! o = None -> fd_step w (construct o (-1) w)
| FdCreate o tmp fd current_flags setfl_status :
    o <> tmp -> objects w !! o = None -> objects w !! tmp = None -> fd ∉ open_fds w ->
    fd_step w (snd (create_non_blocking o tmp fd current_flags setfl_status w))
| FdMove o other :
    objects w !! o = None -> is_Some (objects w !! other) ->
    fd_step w (move_construct o other w)
| FdAssign o other :
    is_Some (objects w !! o) -> is_Some (objects w !! other) ->
    fd_step w (move_assign o other w)
| FdDestroy o : is_Some (objects w !! o) -> fd_step w (destroy o w).

(** Every open descriptor has exactly one owner, every owner's descriptor is open,
    and nothing was closed twice. *)
Record fd_ok (w : FdWorld) : Prop := mk_fd_ok {
  fo_open : forall o fd, objects w !! o = Some fd -> 0 <= fd -> fd ∈ open_fds w;
  fo_unique : forall o o' fd,
    objects w !! o = Some fd -> objects w !! o' = Some fd -> 0 <= fd -> o = o';
  fo_owned : forall fd, fd ∈ open_fds w -> 0 <= fd /\ exists o, objects w !! o = Some fd;
  fo_closed_once : bad_close w = false
}.

(** ** Lemmas *)

Lemma fd_of_Some o fd w : objects w !! o = Some fd -> fd_of o w = fd.
Proof. unfold fd_of. by intros ->. Qed.

(** An object without a descriptor can be added, overwritten or dropped. *)
Lemma fd_ok_insert_closed o v w :
  fd_ok w -> fd_of o w < 0 -> v < 0 -> fd_ok (w <| objects ::= <[o := v]> |>).
Proof.
  intros [H1 H2 H3 H4] Ho Hv. constructor; cbn.
  - intros o' fd. rewrite lookup_insert_Some. naive_solver lia.
  - intros o1 o2 fd. rewrite !lookup_insert_Some. naive_solver lia.
  - intros fd Hfd. destruct (H3 fd Hfd) as (Hp & o' & Ho'). split; [done|]. exists o'.
    rewrite lookup_insert_ne; [done|]. intros ->. apply fd_of_Some in Ho'. lia.
  - done.
Qed.

Lemma fd_ok_delete_closed o w : fd_ok w -> fd_of o w < 0 -> fd_ok (w <| objects ::= delete o |>).
Proof.
  intros [H1 H2 H3 H4] Ho. constructor; cbn.
  - intros o' fd. rewrite lookup_delete_Some. naive_solver.
  - intros o1 o2 fd. rewrite !lookup_delete_Some. naive_solver.
  - intros fd Hfd. destruct (H3 fd Hfd) as (Hp & o' & Ho'). split; [done|]. exists o'.
    rewrite lookup_delete_ne; [done|]. intros ->. apply fd_of_Some in Ho'. lia.
  - done.
Qed.

(** [std::exchange(other.fd_, -1)] into an object without a descriptor. *)
Lemma fd_ok_transfer o other fd w :
  fd_ok w -> o <> other -> fd_of o w < 0 -> objects w !! other = Some fd ->
  fd_ok (w <| objects ::= <[other := -1]> |> <| objects ::= <[o := fd]> |>).
Proof.
  intros [H1 H2 H3 H4] Hne Ho Hother. constructor; cbn.
  - intros o' fd'. rewrite !lookup_insert_Some. naive_solver lia.
  - intros o1 o2 fd'. rewrite !lookup_insert_Some.
    intros [[-> E1]|(Hn1 & [[-> E1]|[Hm1 E1]])] [[-> E2]|(Hn2 & [[-> E2]|[Hm2 E2]])] Hp;
      try done; try lia; subst.
    + exfalso. apply Hm2. by eapply H2.
    + exfalso. apply Hm1. by eapply H2.
    + by eapply H2.
  - intros fd' Hfd. destruct (H3 fd' Hfd) as (Hp & o' & Ho'). split; [done|].
    destruct (decide (o' = other)) as [->|].
    + exists o. rewrite Hother in Ho'. injection Ho' as ->. by rewrite lookup_insert_eq.
    + exists o'. rewrite !lookup_insert_ne; try done. intros ->. apply fd_of_Some in Ho'. lia.
  - done.
Qed.

Lemma close_ok o w :
  fd_ok w -> fd_ok (close o w) /\ fd_of o (close o w) < 0 /\
  (forall o', o' <> o -> objects (close o w) !! o' = objects w !! o').
Proof.
  intros Hw. pose proof Hw as [H1 H2 H3 H4]. unfold close.
  destruct (Z.leb_spec 0 (fd_of o w)) as [Hfd|Hfd]; [|done].
  assert (Ho : objects w !! o = Some (fd_of o w)).
  { unfold fd_of in *. destruct (objects w !! o); [done|]. cbn in Hfd. lia. }
  set (fd := fd_of o w) in *. unfold os_close.
  rewrite bool_decide_eq_true_2 by by eapply H1. split.
  - constructor; cbn.
    + intros o' fd'. rewrite lookup_insert_Some. intros [[-> <-]|[Hne Ho']] Hp; [lia|].
      apply elem_of_difference. split; [by eapply H1|]. rewrite elem_of_singleton.
      intros ->. apply Hne. by eapply H2.
    + intros o1 o2 fd'. rewrite !lookup_insert_Some. naive_solver lia.
    + intros fd' [Hin Hne]%elem_of_difference. rewrite elem_of_singleton in Hne.
      destruct (H3 fd' Hin) as (Hp & o' & Ho'). split; [done|]. exists o'.
      rewrite lookup_insert_ne; [done|]. intros ->. congruence.
    + done.
  - split; [unfold fd_of; cbn; by rewrite lookup_insert_eq|].
    intros o' Hne. cbn. by rewrite lookup_insert_ne.
Qed.

Lemma destroy_ok o w : fd_ok w -> fd_ok (destroy o w).
Proof. intros Hw. destruct (close_ok o w Hw) as (H & Ho & _). by apply fd_ok_delete_closed. Qed.

Lemma move_assign_ok o other w :
  fd_ok w -> is_Some (objects w !! other) -> fd_ok (move_assign o other w).
Proof.
  intros Hw [fd Hfd]. unfold move_assign. case_bool_decide as Hne; [done|]. cbn [negb].
  destruct (close_ok o w Hw) as (H & Ho & Hsame).
  assert (E : objects (close o w) !! other = Some fd) by by rewrite Hsame.
  rewrite (fd_of_Some _ _ _ E). by apply fd_ok_transfer.
Qed.

Lemma absent_fd o w : objects w !! o = None -> fd_of o w < 0.
Proof. unfold fd_of. by intros ->. Qed.

Lemma move_construct_ok o other w :
  fd_ok w -> objects w !! o = None -> is_Some (objects w !! other) ->
  fd_ok (move_construct o other w).
Proof.
  intros Hw Ho [fd Hfd]. unfold move_construct, construct. rewrite (fd_of_Some _ _ _ Hfd).
  apply fd_ok_transfer; [done|by intros ->; congruence|by apply absent_fd|done].
Qed.

Lemma construct_new_ok o fd w :
  fd_ok w -> objects w !! o = None -> fd ∉ open_fds w -> 0 <= fd ->
  fd_ok (construct o fd (os_socket fd w)).
Proof.
  intros [H1 H2 H3 H4] Ho Hfd Hp. unfold os_socket, construct.
  rewrite (proj2 (Z.leb_le 0 fd) Hp). constructor; cbn.
  - intros o' fd'. rewrite lookup_insert_Some. set_solver.
  - intros o1 o2 fd'. rewrite !lookup_insert_Some. naive_solver.
  - intros fd' [->%elem_of_singleton|Hin]%elem_of_union.
    + split; [done|]. exists o. by rewrite lookup_insert_eq.
    + destruct (H3 fd' Hin) as (? & o' & Ho'). split; [done|]. exists o'.
      rewrite lookup_insert_ne; [done|]. intros ->. congruence.
  - done.
Qed.

Lemma create_ok o tmp fd current_flags setfl_status w :
  fd_ok w -> o <> tmp -> objects w !! o = None -> objects w !! tmp = None ->
  fd ∉ open_fds w ->
  fd_ok (snd (create_non_blocking o tmp fd current_flags setfl_status w)).
Proof.
  intros Hw Hne Ho Ht Hfd. unfold create_non_blocking.
  destruct (Z.ltb_spec fd 0) as [Hn|Hp].
  { unfold os_socket. by rewrite (proj2 (Z.leb_gt 0 fd) Hn). }
  destruct (_ || _); cbn [snd].
  - unfold os_socket, os_close. rewrite (proj2 (Z.leb_le 0 fd) Hp). cbn.
    rewrite bool_decide_eq_true_2 by set_solver.
    replace (({[fd]} ∪ open_fds w) ∖ {[fd]}) with (open_fds w) by set_solver.
    by destruct w.
  - apply destroy_ok, move_construct_ok.
    + by apply construct_new_ok.
    + unfold os_socket. rewrite (proj2 (Z.leb_le 0 fd) Hp). cbn. by rewrite lookup_insert_ne.
    + unfold os_socket. rewrite (proj2 (Z.leb_le 0 fd) Hp). cbn. by rewrite lookup_insert_eq.
Qed.

Lemma fd_step_ok w w' : fd_ok w -> fd_step w w' -> fd_ok w'.
Proof.
  intros Hw []; [|by apply create_ok|by apply move_construct_ok|by apply move_assign_ok
                 |by apply destroy_ok].
  apply fd_ok_insert_closed; [done|by apply absent_fd|lia].
Qed.

Lemma empty_world_ok : fd_ok empty_world.
Proof. constructor; cbn; [done..|set_solver|done]. Qed.

(** ** Properties *)

(** C36: descriptors are neither leaked nor closed twice. In every state a
    program can reach by creating, moving, assigning (to itself included) and
    destroying sockets, with any results of the system calls, [close] was never
    called on a descriptor that is not open, every open descriptor belongs to
    exactly one live object, and once all objects are gone nothing is open. *)
Theorem socket_ownership w :
  star fd_step empty_world w ->
  bad_close w = false /\
  (forall fd, fd ∈ open_fds w ->
     exists o, objects w !! o = Some fd /\ forall o', objects w !! o' = Some fd -> o' = o) /\
  (objects w = ∅ -> open_fds w = ∅).
Proof.
  intros Hs. assert (Hw : fd_ok w).
  { apply (star_inv fd_step fd_ok empty_world); eauto using fd_step_ok, empty_world_ok. }
  destruct Hw as [H1 H2 H3 H4]. split; [done|]. split.
  - intros fd Hfd. destruct (H3 fd Hfd) as (Hp & o & Ho). exists o. split; [done|].
    intros o' Ho'. by eapply H2.
  - intros E. apply set_eq. intros fd. split; [|set_solver]. intros Hfd.
    destruct (H3 fd Hfd) as (_ & o & Ho). by rewrite E, lookup_empty in Ho.
Qed.

Lemma socket_ownership_witness :
  let w := destroy 0 (snd (create_non_blocking 0 1 3 0 0 empty_world)) in
  bad_close w = false /\ (objects w = ∅ -> open_fds w = ∅).
Proof.
  set (w := destroy 0 (snd (create_non_blocking 0 1 3 0 0 empty_world))).
  assert (Hs : star fd_step empty_world w).
  { eapply star_snoc; [eapply star_snoc; [apply star_refl|]|].
    - apply (FdCreate _ 0 1 3 0 0); [discriminate|reflexivity|reflexivity|].
      apply not_elem_of_empty.
    - apply FdDestroy. vm_compute. eexists. reflexivity. }
  destruct (socket_ownership w Hs) as (H1 & _ & H3). exact (conj H1 H3).
Defined.

(** An oversized datagram is delivered cut short. A well-formed packet
    longer than the receive buffer still decodes after [recv_from]: the header is
    intact and the payload silently loses its end, since nothing in the header
    records its length; one that fits is received unchanged. (The buffer is no larger
    than a vector can be and there is memory for it.) *)
Theorem oversized_datagram_truncated `{Kernel} h p buffer_size addr name :
  header_typed h -> isValidHeader h = true -> Forall is_u8 p ->
  inet_ntop addr = Some name -> 28 <= buffer_size <= max_vector_size ->
  exists r, recv_from buffer_size true (RecvDatagram (encode h p) addr) = RecvReturns (Some r) /\
    decode (rd_bytes r) =
      Some {| pv_header := h; pv_payload := take (Z.to_nat buffer_size - 28) p |} /\
    (Z.of_nat (length (encode h p)) <= buffer_size -> rd_bytes r = encode h p).
Proof.
  intros Ht Hv Hp Ha Hb. unfold recv_from, buffer_too_large.
  rewrite (proj2 (Z.ltb_ge _ _)), Ha by lia. eexists. split; [done|]. cbn [rd_bytes].
  split.
  - rewrite encode_layout, take_app, header_block_length.
    rewrite take_ge by (rewrite header_block_length; lia).
    rewrite decode_block by apply header_block_length. by rewrite decode_header_block.
  - intros Hl. apply take_ge. lia.
Qed.

Definition loopback_kernel : Kernel :=
  {| sockaddr_in := Z;
     getaddrinfo := fun address service => stoull service;
     inet_ntop := fun _ => Some "127.0.0.1";
     ntohs_port := fun a => u16 a |}.

Lemma oversized_datagram_truncated_witness :
  exists r, @recv_from loopback_kernel 30 true
      (@RecvDatagram loopback_kernel (encode default_header [1; 2; 3; 4]) 9000) = RecvReturns (Some r) /\
    decode (rd_bytes r) = Some {| pv_header := default_header; pv_payload := [1; 2] |}.
Proof.
  destruct (@oversized_datagram_truncated loopback_kernel default_header [1; 2; 3; 4] 30 9000
    "127.0.0.1") as (r & H1 & H2 & _).
  - constructor; cbn; unfold is_u8, is_u32, is_u64, kHeaderLength; lia.
  - reflexivity.
  - repeat apply Forall_cons_2; try apply Forall_nil_2; unfold is_u8; lia.
  - reflexivity.
  - unfold max_vector_size. lia.
  - exists r. split; [exact H1|]. exact H2.
Defined.
