(* ===== verification/Process.v ===== *)
(** What the two applications share with the process they run in: the stop flag
    and its signal handlers, and the socket they open first.

    The handlers are called between two instructions of the program, so a signal is
    an input like any other: each iteration comes with the signals that arrived
    since the flag was last read. *)

From S2P Require Import Prelude Protocol Utils Text SessionTypes ServerSessionManager BsdUdpSocket.

(** ** Signals *)

Inductive StopSignal := SIGINT | SIGTERM.

#[export] Instance StopSignal_eq_dec : EqDecision StopSignal.
Proof. solve_decision. Defined.

(** What a signal does. A handler updates the flag; the default action of both
    signals ends the process, so a run receives them only while it has handlers. *)
Inductive SigAction :=
| SigDefault
| SigHandler (handler : StopSignal -> bool -> bool).

Definition SigTable := StopSignal -> SigAction.

(** [std::signal(signum, handler)]. *)
Definition std_signal (signum : StopSignal) (handler : StopSignal -> bool -> bool)
    (actions : SigTable) : SigTable :=
  fun n => if decide (n = signum) then SigHandler handler else actions n.

Definition raise (actions : SigTable) (flag : bool) (n : StopSignal) : bool :=
  match actions n with
  | SigDefault => flag
  | SigHandler handler => handler n flag
  end.

Definition raise_all (actions : SigTable) (signals : list StopSignal) (flag : bool) : bool :=
  fold_left (raise actions) signals flag.

(** How [run_client_app] and [run_server_app] end: before the loop, because the
    socket could not be opened or bound; after it; in it, by an exception that
    nothing in the program catches, so that [std::terminate] ends the process without
    a destructor being run; or not within the draws that were granted to the search
    for a connection id. *)
Inductive AppResult (A : Type) :=
| SetupFailed
| Finished (a : A)
| Crashed (a : A)
| Unfinished.
Arguments SetupFailed {A}.
Arguments Finished {A} a.
Arguments Crashed {A} a.
Arguments Unfinished {A}.

(** What [::socket], the two [::fcntl] and [::bind] return. *)
Record SocketCalls := mkSocketCalls {
  sk_fd : Z;
  sk_flags : Z;
  sk_setfl : Z;
  sk_bind : Z
}.

(** The names of the local variable [socket] and of the temporary it is moved
    from. *)
Definition the_socket : nat := 0.
Definition the_temporary : nat := 1.

(** ** Reading the flag *)

Section flag.
Context {I : Type} (set_stop : bool -> I -> I) (actions : SigTable).

(** The inputs of the loop, each with the flag as [g_stop_requested.load()] finds
    it after the signals that precede it. *)
Fixpoint load_flags (flag : bool) (inputs : list (list StopSignal * I)) : list I :=
  match inputs with
  | [] => []
  | (signals, input) :: inputs =>
      let flag := raise_all actions signals flag in
      set_stop flag input :: load_flags flag inputs
  end.
End flag.

(** ** Lemmas *)

(** A table in which both signals set the flag. *)
Definition handles_stop (actions : SigTable) : Prop :=
  forall n, exists h, actions n = SigHandler h /\ forall b, h n b = true.

Lemma raise_stop actions signals flag :
  handles_stop actions -> signals <> [] -> raise_all actions signals flag = true.
Proof.
  intros Ha. unfold raise_all. revert flag.
  induction signals as [|n signals IH]; intros flag Hs; [done|]. cbn [fold_left].
  destruct signals as [|n' signals]; [|by apply IH]. cbn [fold_left]. unfold raise.
  destruct (Ha n) as (h & -> & Hh). apply Hh.
Qed.

(** The socket is given back: the descriptors are those of before. *)
Lemma create_fails o tmp fd flags setfl w w' :
  fd ∉ open_fds w -> create_non_blocking o tmp fd flags setfl w = (false, w') ->
  open_fds w' = open_fds w /\ bad_close w' = bad_close w /\ objects w' = objects w.
Proof.
  intros Hfd. unfold create_non_blocking, os_socket.
  destruct (Z.ltb_spec fd 0) as [Hneg|Hpos].
  { rewrite (proj2 (Z.leb_gt _ _)) by done. by intros [= <-]. }
  rewrite (proj2 (Z.leb_le _ _)) by lia. destruct (_ || _); [|done]. intros [= <-].
  unfold os_close. cbn. rewrite bool_decide_eq_true_2 by set_solver. cbn. split; [set_solver|done].
Qed.

Lemma create_destroy o tmp fd flags setfl w w' :
  o <> tmp -> objects w !! o = None -> objects w !! tmp = None -> fd ∉ open_fds w ->
  create_non_blocking o tmp fd flags setfl w = (true, w') ->
  0 <= fd /\ open_fds (destroy o w') = open_fds w /\ bad_close (destroy o w') = bad_close w /\
  objects (destroy o w') = objects w.
Proof.
  intros Hne Ho Ht Hfd. unfold create_non_blocking, os_socket.
  destruct (Z.ltb_spec fd 0) as [Hneg|Hpos]; [done|].
  rewrite (proj2 (Z.leb_le _ _)) by lia. destruct (_ || _); [done|]. intros [= <-].
  assert (E : destroy tmp (move_construct o tmp (construct tmp fd
    (mkFdWorld ({[fd]} ∪ open_fds w) (objects w) (bad_close w)))) =
    mkFdWorld ({[fd]} ∪ open_fds w) (<[o := fd]> (objects w)) (bad_close w)).
  { unfold destroy, close, move_construct, construct, fd_of.
    unfold set, set_objects. cbn [objects open_fds bad_close].
    rewrite (lookup_insert_ne _ o tmp), !lookup_insert_eq by done. cbn. f_equal.
    apply map_eq. intros k. destruct (decide (k = tmp)) as [->|Hk].
    - rewrite lookup_delete_eq, lookup_insert_ne by done. by rewrite Ht.
    - rewrite lookup_delete_ne by done. destruct (decide (k = o)) as [->|Hk'].
      + by rewrite !lookup_insert_eq.
      + by rewrite !lookup_insert_ne. }
  rewrite E. unfold destroy, close, fd_of. unfold set, set_objects. cbn [objects open_fds bad_close].
  rewrite lookup_insert_eq. cbn [default from_option id]. rewrite (proj2 (Z.leb_le _ _)) by lia.
  unfold os_close. cbn [objects open_fds bad_close]. rewrite bool_decide_eq_true_2 by set_solver.
  cbn [objects open_fds bad_close]. split_and!; [lia|set_solver|done|].
  apply map_eq. intros k. destruct (decide (k = o)) as [->|Hk].
  - by rewrite lookup_delete_eq.
  - by rewrite lookup_delete_ne, !lookup_insert_ne.
Qed.
