(* ===== verification/LoadGenerator.v ===== *)
(** The client's load generator ([src/BsdClientApp.cpp], [class LoadGenerator]):
    worker threads that push messages into a shared queue, and the main thread
    that spawns, stops and drains.

    A thread is a program counter and its captured values. The steps are the
    accesses to shared state: the load of the atomic stop flag, the push under the
    queue mutex, the update of the atomic counter. Everything between two of them
    is local to the thread. The sleep or yield between iterations changes no
    state: the interleaving is arbitrary. *)

From S2P Require Import Prelude Protocol Text SessionTypes.

(** ** Data *)

Record QueuedSend := mkQueuedSend {
  qs_channel_id : Z;
  qs_channel_type : ChannelType;
  qs_payload : string
}.

(** The arguments of [spawn], captured by each worker. *)
Record SpawnArgs := mkSpawnArgs {
  sa_channel_id : Z;
  sa_channel_type : ChannelType;
  sa_message_count : Z;
  sa_interval_ms : Z;
  sa_payload : string
}.

(** Where a worker is: before the test of the loop, before the push, after the
    loop, or returned. *)
Inductive WorkerPc := AtCheck | AtPush | AtExit | WorkerDone.

#[export] Instance WorkerPc_eq_dec : EqDecision WorkerPc.
Proof. solve_decision. Defined.

Record Worker := mkWorker {
  w_args : SpawnArgs;
  w_index : Z;
  w_produced : Z;
  w_pc : WorkerPc
}.
#[export] Instance set_w_pc : Setter w_pc := fun f w =>
  mkWorker (w_args w) (w_index w) (w_produced w) (f (w_pc w)).
#[export] Instance set_w_produced : Setter w_produced := fun f w =>
  mkWorker (w_args w) (w_index w) (f (w_produced w)) (w_pc w).

(** The main thread: outside the class, in the loop of [spawn], joining in
    [stop_all], or gone: the constructor of [std::thread] threw in [spawn], and
    nothing in the client catches that. *)
Inductive MainPc :=
| MainIdle
| Spawning (args : SpawnArgs) (i thread_count : Z)
| Joining
| MainThrown.

Record LoadGenerator := mkLoadGenerator {
  stop_requested : bool;
  active_worker_count : Z;
  lg_queue : list QueuedSend;
  workers : list Worker;
  lg_main : MainPc
}.
#[export] Instance set_stop_requested : Setter stop_requested := fun f r =>
  mkLoadGenerator (f (stop_requested r)) (active_worker_count r) (lg_queue r) (workers r) (lg_main r).
#[export] Instance set_active_worker_count : Setter active_worker_count := fun f r =>
  mkLoadGenerator (stop_requested r) (f (active_worker_count r)) (lg_queue r) (workers r) (lg_main r).
#[export] Instance set_lg_queue : Setter lg_queue := fun f r =>
  mkLoadGenerator (stop_requested r) (active_worker_count r) (f (lg_queue r)) (workers r) (lg_main r).
#[export] Instance set_workers : Setter workers := fun f r =>
  mkLoadGenerator (stop_requested r) (active_worker_count r) (lg_queue r) (f (workers r)) (lg_main r).
#[export] Instance set_lg_main : Setter lg_main := fun f r =>
  mkLoadGenerator (stop_requested r) (active_worker_count r) (lg_queue r) (workers r) (f (lg_main r)).

(** [LoadGenerator()]. *)
Definition new_load_generator : LoadGenerator :=
  {| stop_requested := false; active_worker_count := 0; lg_queue := []; workers := [];
     lg_main := MainIdle |}.

(** ** Operations *)

(** The message a worker pushes when [produced] is [n]. *)
Definition message (w : Worker) (n : Z) : QueuedSend :=
  {| qs_channel_id := sa_channel_id (w_args w);
     qs_channel_type := sa_channel_type (w_args w);
     qs_payload := sa_payload (w_args w) +:+ " [t" +:+ to_string (w_index w) +:+ " #" +:+
                   to_string n +:+ "]" |}.

(** What the rest of the program can see of a step. *)
Inductive LgEvent :=
| EvPush (k : nat) (m : QueuedSend)
| EvDrain (ms : list QueuedSend)
| EvJoin.

(** One step of worker [k]. *)
Definition worker_step (k : nat) (lg : LoadGenerator) : option (LoadGenerator * list LgEvent) :=
  match workers lg !! k with
  | None => None
  | Some w =>
      let count := sa_message_count (w_args w) in
      match w_pc w with
      | AtCheck =>
          let pc := if stop_requested lg then AtExit
                    else if negb (count =? 0) && (count <=? w_produced w) then AtExit
                    else AtPush in
          Some (lg <| workers ::= <[k := w <| w_pc := pc |>]> |>, [])
      | AtPush =>
          let m := message w (w_produced w) in
          let w := w <| w_produced ::= fun n => u32 (n + 1) |> <| w_pc := AtCheck |> in
          Some (lg <| lg_queue ::= fun q => q ++ [m] |> <| workers ::= <[k := w]> |>, [EvPush k m])
      | AtExit =>
          Some (lg <| active_worker_count ::= fun n => u64 (n - 1) |>
                   <| workers ::= <[k := w <| w_pc := WorkerDone |>]> |>, [])
      | WorkerDone => None
      end
  end.

(** [spawn]: the flag, then one iteration of the loop per step. *)
Definition spawn_begin (args : SpawnArgs) (thread_count : Z) (lg : LoadGenerator)
    : option LoadGenerator :=
  match lg_main lg with
  | MainIdle => Some (lg <| stop_requested := false |> <| lg_main := Spawning args 0 thread_count |>)
  | _ => None
  end.

(** [created]: whether the system could start the thread; when it cannot, the
    constructor throws, with the counter already incremented. *)
Definition spawn_next (created : bool) (lg : LoadGenerator) : option LoadGenerator :=
  match lg_main lg with
  | Spawning args i thread_count =>
      if i <? thread_count then
        let lg := lg <| active_worker_count ::= fun n => u64 (n + 1) |> in
        if negb created then Some (lg <| lg_main := MainThrown |>)
        else
          Some (lg <| workers ::= fun ws => ws ++ [mkWorker args i 0 AtCheck] |>
                   <| lg_main := Spawning args (u32 (i + 1)) thread_count |>)
      else Some (lg <| lg_main := MainIdle |>)
  | _ => None
  end.

(** [stop_all]: the flag, then (when every worker has returned and was joined) the
    clean-up. *)
Definition stop_begin (lg : LoadGenerator) : option LoadGenerator :=
  match lg_main lg with
  | MainIdle => Some (lg <| stop_requested := true |> <| lg_main := Joining |>)
  | _ => None
  end.

Definition all_returned (lg : LoadGenerator) : bool :=
  forallb (fun w => bool_decide (w_pc w = WorkerDone)) (workers lg).

Definition stop_finish (lg : LoadGenerator) : option (LoadGenerator * list LgEvent) :=
  match lg_main lg with
  | Joining =>
      if all_returned lg then
        Some (lg <| workers := [] |> <| active_worker_count := 0 |> <| lg_main := MainIdle |>, [EvJoin])
      else None
  | _ => None
  end.

(** The loop of [drain]: the front moves to the back of [drained] until the queue
    is empty. *)
Fixpoint drain_queue (queue drained : list QueuedSend) : list QueuedSend * list QueuedSend :=
  match queue with
  | [] => ([], drained)
  | m :: queue => drain_queue queue (drained ++ [m])
  end.

Definition drain (lg : LoadGenerator) : list QueuedSend * LoadGenerator :=
  let '(queue, drained) := drain_queue (lg_queue lg) [] in
  (drained, lg <| lg_queue := queue |>).

Definition worker_count (lg : LoadGenerator) : Z := active_worker_count lg.
Definition has_pending_messages (lg : LoadGenerator) : bool :=
  negb (bool_decide (lg_queue lg = [])).

(** ** Executions

    The main thread is single-threaded: it calls one method at a time, and its
    steps interleave with those of the workers. The second component records the
    events so far. *)

Inductive lg_step : LoadGenerator * list LgEvent -> LoadGenerator * list LgEvent -> Prop :=
| LgWorker k lg lg' tr evs :
    worker_step k lg = Some (lg', evs) -> lg_step (lg, tr) (lg', tr ++ evs)
| LgSpawn args n lg lg' tr :
    is_u32 (sa_message_count args) -> is_u32 n ->
    spawn_begin args n lg = Some lg' -> lg_step (lg, tr) (lg', tr)
| LgSpawnNext created lg lg' tr : spawn_next created lg = Some lg' -> lg_step (lg, tr) (lg', tr)
| LgStop lg lg' tr : stop_begin lg = Some lg' -> lg_step (lg, tr) (lg', tr)
| LgJoin lg lg' tr evs : stop_finish lg = Some (lg', evs) -> lg_step (lg, tr) (lg', tr ++ evs)
| LgDrain lg lg' ms tr :
    lg_main lg = MainIdle -> drain lg = (ms, lg') -> lg_step (lg, tr) (lg', tr ++ [EvDrain ms]).

Definition lg_reachable (s : LoadGenerator * list LgEvent) : Prop :=
  star lg_step (new_load_generator, []) s.

(** All messages ever pushed, all messages ever drained, and the messages of
    worker [k] of the current generation (since the last join). *)
Definition pushed (tr : list LgEvent) : list QueuedSend :=
  omap (fun e => match e with EvPush _ m => Some m | _ => None end) tr.
Definition drained (tr : list LgEvent) : list QueuedSend :=
  concat (map (fun e => match e with EvDrain ms => ms | _ => [] end) tr).
Definition pushes_of (k : nat) (tr : list LgEvent) : list QueuedSend :=
  fold_left (fun acc e =>
    match e with
    | EvPush k' m => if Nat.eqb k k' then acc ++ [m] else acc
    | EvJoin => []
    | EvDrain _ => acc
    end) tr [].

(** The first [n] messages of a worker. *)
Definition messages (w : Worker) (n : nat) : list QueuedSend :=
  map (fun j => message w (u32 (Z.of_nat j))) (seq 0 n).

(** ** The invariant *)

Definition running (w : Worker) : bool :=
  match w_pc w with WorkerDone => false | _ => true end.
Definition running_count (ws : list Worker) : Z := Z.of_nat (length (List.filter running ws)).

(** The thread that was counted and not started. *)
Definition thrown_count (pc : MainPc) : Z := match pc with MainThrown => 1 | _ => 0 end.

(** What worker [w] has done after pushing [ms]. *)
Record worker_ok (joining : Prop) (ms : list QueuedSend) (w : Worker) : Prop := mk_worker_ok {
  wo_count : is_u32 (sa_message_count (w_args w));
  wo_messages : ms = messages w (length ms);
  wo_produced : w_produced w = u32 (Z.of_nat (length ms));
  wo_bound : sa_message_count (w_args w) <> 0 ->
    Z.of_nat (length ms) <= sa_message_count (w_args w);
  wo_push : w_pc w = AtPush -> sa_message_count (w_args w) <> 0 ->
    Z.of_nat (length ms) < sa_message_count (w_args w);
  wo_exit : w_pc w = AtExit \/ w_pc w = WorkerDone ->
    joining \/ (sa_message_count (w_args w) <> 0 /\
                Z.of_nat (length ms) = sa_message_count (w_args w))
}.

Record lg_ok (s : LoadGenerator * list LgEvent) : Prop := mk_lg_ok {
  lo_active : active_worker_count (fst s) =
    u64 (running_count (workers (fst s)) + thrown_count (lg_main (fst s)));
  lo_fifo : pushed (snd s) = drained (snd s) ++ lg_queue (fst s);
  lo_workers : forall k w, workers (fst s) !! k = Some w ->
    worker_ok (lg_main (fst s) = Joining) (pushes_of k (snd s)) w;
  lo_fresh : forall k, (length (workers (fst s)) <= k)%nat -> pushes_of k (snd s) = [];
  lo_flag : lg_main (fst s) <> Joining -> stop_requested (fst s) = false \/ workers (fst s) = [];
  lo_joining : lg_main (fst s) = Joining -> stop_requested (fst s) = true;
  lo_spawn : forall args i n, lg_main (fst s) = Spawning args i n ->
    is_u32 (sa_message_count args) /\ is_u32 n /\ 0 <= i <= n /\ stop_requested (fst s) = false
}.

Lemma pushed_app t1 t2 : pushed (t1 ++ t2) = pushed t1 ++ pushed t2.
Proof. apply omap_app. Qed.

Lemma drained_app t1 t2 : drained (t1 ++ t2) = drained t1 ++ drained t2.
Proof. unfold drained. by rewrite map_app, concat_app. Qed.

Lemma pushes_of_snoc k tr e :
  pushes_of k (tr ++ [e]) =
  match e with
  | EvPush k' m => if Nat.eqb k k' then pushes_of k tr ++ [m] else pushes_of k tr
  | EvJoin => []
  | EvDrain _ => pushes_of k tr
  end.
Proof. unfold pushes_of. by rewrite fold_left_app. Qed.

Lemma messages_snoc w n :
  messages w (S n) = messages w n ++ [message w (u32 (Z.of_nat n))].
Proof. unfold messages. by rewrite seq_S, map_app. Qed.

(** Only the captured values and the index decide a worker's messages. *)
Lemma messages_same w w' n :
  w_args w = w_args w' -> w_index w = w_index w' -> messages w n = messages w' n.
Proof. intros E1 E2. unfold messages, message. by rewrite E1, E2. Qed.

Lemma running_count_insert ws k w w' :
  ws !! k = Some w ->
  running_count (<[k := w']> ws) =
  running_count ws + (if running w' then 1 else 0) - (if running w then 1 else 0).
Proof.
  intros Hk. rewrite <- (take_drop_middle ws k w Hk) at 2.
  rewrite insert_take_drop by (apply lookup_lt_is_Some; eauto).
  unfold running_count. rewrite !List.filter_app, !length_app. cbn [List.filter].
  destruct (running w), (running w'); cbn [length]; lia.
Qed.

Lemma running_count_snoc ws w :
  running w = true -> running_count (ws ++ [w]) = running_count ws + 1.
Proof.
  intros Hw. unfold running_count. rewrite List.filter_app, length_app. cbn. rewrite Hw. cbn. lia.
Qed.

Lemma drain_queue_spec queue acc : drain_queue queue acc = ([], acc ++ queue).
Proof.
  revert acc. induction queue as [|m queue IH]; intros acc; simpl; [by rewrite app_nil_r|].
  by rewrite IH, <- app_assoc.
Qed.

Lemma drain_spec lg : drain lg = (lg_queue lg, lg <| lg_queue := [] |>).
Proof. unfold drain. by rewrite drain_queue_spec. Qed.

Lemma u64_succ_l x : u64 (u64 x + 1) = u64 (x + 1).
Proof. unfold u64. apply Zplus_mod_idemp_l. Qed.
Lemma u64_pred_l x : u64 (u64 x - 1) = u64 (x - 1).
Proof. unfold u64. apply Zminus_mod_idemp_l. Qed.

(** The worker's view: its step keeps [worker_ok]. *)
Lemma worker_check_ok (joining : Prop) ms w stop :
  worker_ok joining ms w -> w_pc w = AtCheck -> (stop = true -> joining) ->
  let count := sa_message_count (w_args w) in
  let pc := if stop then AtExit
            else if negb (count =? 0) && (count <=? w_produced w) then AtExit else AtPush in
  worker_ok joining ms (w <| w_pc := pc |>).
Proof.
  intros [H1 H2 H3 H4 H5 H6] Hpc Hstop count pc. subst count.
  assert (Hsmall : sa_message_count (w_args w) <> 0 -> w_produced w = Z.of_nat (length ms)).
  { intros Hc. rewrite H3. specialize (H4 Hc). apply u32_id. unfold is_u32 in *. lia. }
  constructor; cbn; auto.
  - intros Epc Hc. subst pc. destruct stop; [done|].
    destruct (Z.eqb_spec (sa_message_count (w_args w)) 0); [done|]. cbn in Epc.
    rewrite Hsmall in Epc by done. destruct (Z.leb_spec (sa_message_count (w_args w)) (Z.of_nat (length ms))); [done|lia].
  - intros Epc. subst pc. destruct stop; [by left; apply Hstop|].
    destruct (Z.eqb_spec (sa_message_count (w_args w)) 0) as [E0|E0]; cbn in Epc; [naive_solver|].
    rewrite Hsmall in Epc by done. specialize (H4 E0).
    destruct (Z.leb_spec (sa_message_count (w_args w)) (Z.of_nat (length ms))); [|naive_solver].
    right. split; [done|lia].
Qed.

Lemma worker_push_ok (joining : Prop) ms w :
  worker_ok joining ms w -> w_pc w = AtPush ->
  worker_ok joining (ms ++ [message w (w_produced w)])
    (w <| w_produced ::= fun n => u32 (n + 1) |> <| w_pc := AtCheck |>).
Proof.
  intros [H1 H2 H3 H4 H5 H6] Hpc.
  assert (El : length (ms ++ [message w (w_produced w)]) = S (length ms))
    by (rewrite length_app; cbn; lia).
  constructor; rewrite ?El, ?messages_snoc; cbn -[messages].
  - done.
  - f_equal.
    + rewrite H2 at 1. by apply messages_same.
    + by rewrite H3.
  - rewrite H3, u32_add_l. f_equal. lia.
  - intros Hc. specialize (H5 Hpc Hc). lia.
  - done.
  - naive_solver.
Qed.

Lemma worker_exit_ok (joining : Prop) ms w :
  worker_ok joining ms w -> w_pc w = AtExit -> worker_ok joining ms (w <| w_pc := WorkerDone |>).
Proof. intros [H1 H2 H3 H4 H5 H6] Hpc. constructor; cbn; auto. done. Qed.

(** A step of worker [k] changes only that worker. *)
Lemma lg_ok_worker lg lg' tr evs k w w' :
  lg_ok (lg, tr) -> workers lg !! k = Some w ->
  workers lg' = <[k := w']> (workers lg) -> lg_main lg' = lg_main lg ->
  stop_requested lg' = stop_requested lg ->
  active_worker_count lg' = u64 (running_count (workers lg') + thrown_count (lg_main lg)) ->
  pushed (tr ++ evs) = drained (tr ++ evs) ++ lg_queue lg' ->
  (forall k', k' <> k -> pushes_of k' (tr ++ evs) = pushes_of k' tr) ->
  worker_ok (lg_main lg = Joining) (pushes_of k (tr ++ evs)) w' ->
  lg_ok (lg', tr ++ evs).
Proof.
  intros [H1 H2 H3 H4 H5 H6 H7] Hk Hws Hm Hs Ha Hq Hp Hw. cbn [fst snd] in *.
  constructor; cbn [fst snd]; rewrite ?Hws, ?Hm, ?Hs, ?length_insert in *; try done.
  - intros k' w0 Hk'. destruct (decide (k' = k)) as [->|Hne].
    + rewrite list_lookup_insert_eq in Hk' by by eapply lookup_lt_Some.
      injection Hk' as <-. done.
    + rewrite list_lookup_insert_ne in Hk' by done. rewrite Hp by done. by apply H3.
  - intros k' Hk'. rewrite Hp; [by apply H4|]. intros ->. apply lookup_lt_Some in Hk. lia.
  - intros Hj. destruct (H5 Hj) as [|E]; [by left|]. rewrite E in Hk. done.
Qed.

Lemma worker_step_ok k lg lg' tr evs :
  lg_ok (lg, tr) -> worker_step k lg = Some (lg', evs) -> lg_ok (lg', tr ++ evs).
Proof.
  intros Hok. unfold worker_step. destruct (workers lg !! k) as [w|] eqn:Hk; [|done].
  pose proof (lo_workers _ Hok k w Hk) as Hw. pose proof (lo_active _ Hok) as Ha.
  pose proof (lo_fifo _ Hok) as Hq. cbn [fst snd] in *.
  destruct (w_pc w) eqn:Hpc; [| | |done]; intros [= <- <-].
  - eapply lg_ok_worker; [done|done|reflexivity..|idtac|idtac|idtac|idtac]; rewrite ?app_nil_r; cbn.
    + rewrite (running_count_insert _ _ _ _ Hk), Ha. generalize (running_count (workers lg)).
      intros n. generalize (thrown_count (lg_main lg)). intros d. unfold running. rewrite Hpc. cbn.
      destruct (stop_requested lg), (sa_message_count (w_args w) =? 0),
        (sa_message_count (w_args w) <=? w_produced w); cbn; f_equal; lia.
    + done.
    + done.
    + apply worker_check_ok; [done|done|]. intros Es.
      destruct (lg_main lg) eqn:Em; try done;
        (destruct (lo_flag _ Hok) as [Hf|Hf]; cbn in *; [by rewrite Em|congruence|by rewrite Hf in Hk]).
  - eapply lg_ok_worker; [done|done|reflexivity..|idtac|idtac|idtac|idtac]; cbn.
    + rewrite (running_count_insert _ _ _ _ Hk), Ha. unfold running. rewrite Hpc.
      cbn -[running_count]. f_equal. lia.
    + rewrite pushed_app, drained_app, Hq. cbn. by rewrite app_nil_r, app_assoc.
    + intros k' Hne. rewrite pushes_of_snoc. by rewrite (proj2 (Nat.eqb_neq _ _) Hne).
    + rewrite pushes_of_snoc, Nat.eqb_refl. by apply worker_push_ok.
  - eapply lg_ok_worker; [done|done|reflexivity..|idtac|idtac|idtac|idtac]; rewrite ?app_nil_r; cbn.
    + rewrite (running_count_insert _ _ _ _ Hk), Ha, u64_pred_l. unfold running. rewrite Hpc.
      cbn -[running_count]. f_equal. lia.
    + done.
    + done.
    + by apply worker_exit_ok.
Qed.

Lemma worker_ok_impl (P Q : Prop) ms w : (P -> Q) -> worker_ok P ms w -> worker_ok Q ms w.
Proof. intros H []. constructor; auto. naive_solver. Qed.

Lemma lg_step_ok s s' : lg_ok s -> lg_step s s' -> lg_ok s'.
Proof.
  intros Hok Hs. destruct Hs as [k lg lg' tr evs E|args n lg lg' tr Hc Hn E|created lg lg' tr E|lg lg' tr E
    |lg lg' tr evs E|lg lg' ms tr Em E]; [by eapply worker_step_ok|..];
    destruct Hok as [H1 H2 H3 H4 H5 H6 H7]; cbn [fst snd] in *.
  - unfold spawn_begin in E. destruct (lg_main lg) eqn:Em; [|done..]. injection E as <-.
    constructor; cbn -[running_count pushes_of pushed drained]; auto; try done.
    + intros k w Hk. eapply worker_ok_impl; [|by apply H3]. done.
    + intros args' i n' [= <- <- <-]. unfold is_u32 in *. split_and!; (done || lia).
  - unfold spawn_next in E. destruct (lg_main lg) as [|args i n| |] eqn:Em; [done| |done|done].
    destruct (H7 _ _ _ eq_refl) as (Hc & Hn & Hi & Hst). cbn [thrown_count] in H1.
    rewrite Z.add_0_r in H1. destruct (Z.ltb_spec i n); [destruct created; cbn [negb] in E|];
      injection E as <-; constructor; cbn -[running_count pushes_of pushed drained]; auto;
      try done; rewrite ?Z.add_0_r; try done.
    + by rewrite running_count_snoc, H1, u64_succ_l.
    + intros k w [Hk|[Hge Hk]]%lookup_app_Some.
      * eapply worker_ok_impl; [|by apply H3]. done.
      * apply list_lookup_singleton_Some in Hk as [Hk <-]. rewrite H4 by lia.
        constructor; cbn; (done || lia || naive_solver).
    + intros k. rewrite length_app. cbn. intros Hk. apply H4. lia.
    + intros args' i' n' [= <- <- <-]. unfold is_u32 in *. rewrite u32_id by (unfold is_u32; lia).
      split_and!; (done || lia).
    + by rewrite H1, u64_succ_l.
    + intros k w Hk. eapply worker_ok_impl; [|by apply H3]. done.
    + intros k w Hk. eapply worker_ok_impl; [|by apply H3]. done.
  - unfold stop_begin in E. destruct (lg_main lg) eqn:Em; [|done..]. injection E as <-.
    constructor; cbn -[running_count pushes_of pushed drained]; auto; try done.
    intros k w Hk. eapply worker_ok_impl; [|by apply H3]. done.
  - unfold stop_finish in E. destruct (lg_main lg) eqn:Em; [done|done| |done].
    destruct (all_returned lg); [|done]. injection E as <- <-.
    constructor; cbn -[running_count pushes_of pushed drained]; auto; try done.
    + rewrite pushed_app, drained_app, H2. cbn. by rewrite !app_nil_r.
    + intros k _. by rewrite pushes_of_snoc.
  - rewrite drain_spec in E. injection E as <- <-.
    constructor; cbn -[running_count pushes_of pushed drained]; auto; try done.
    + rewrite pushed_app, drained_app, H2. cbn. by rewrite !app_nil_r.
    + intros k w Hk. rewrite pushes_of_snoc. auto.
    + intros k Hk. rewrite pushes_of_snoc. auto.
Qed.

Lemma lg_reachable_ok s : lg_reachable s -> lg_ok s.
Proof.
  apply star_inv; [exact lg_step_ok|]. constructor; cbn; (done || auto).
Qed.

(** ** Stopping *)

(** Steps a worker still takes once the stop flag is set. *)
Definition steps_left (w : Worker) : nat :=
  match w_pc w with AtPush => 3 | AtCheck => 2 | AtExit => 1 | WorkerDone => 0 end.
Definition join_work (lg : LoadGenerator) : nat := list_sum (map steps_left (workers lg)).

Lemma steps_left_insert ws k w w' :
  ws !! k = Some w ->
  (list_sum (map steps_left (<[k := w']> ws)) + steps_left w =
   list_sum (map steps_left ws) + steps_left w')%nat.
Proof.
  intros Hk. rewrite <- (take_drop_middle ws k w Hk) at 2.
  rewrite insert_take_drop by (apply lookup_lt_is_Some; eauto).
  rewrite !map_app, !list_sum_app. cbn [map list_sum foldr]. unfold list_sum. cbn. lia.
Qed.

Lemma worker_step_joining k lg lg' evs :
  stop_requested lg = true -> worker_step k lg = Some (lg', evs) ->
  (join_work lg' < join_work lg)%nat /\ lg_main lg' = lg_main lg /\ stop_requested lg' = true.
Proof.
  intros Hs. unfold worker_step. destruct (workers lg !! k) as [w|] eqn:Hk; [|done].
  destruct (w_pc w) eqn:Hpc; [| | |done]; rewrite ?Hs; intros [= <- <-];
    (split; [|done]); unfold join_work; cbn [workers set set_workers set_lg_queue set_active_worker_count];
    match goal with |- context [<[k := ?w']> _] =>
      pose proof (steps_left_insert (workers lg) k w w' Hk) as E end;
    unfold steps_left at 2 4 in E; rewrite Hpc in E; cbn [w_pc set set_w_pc set_w_produced] in E; lia.
Qed.

(** While the main thread joins, a worker or the join itself can step. *)
Lemma joining_progress lg tr : lg_main lg = Joining -> exists s', lg_step (lg, tr) s'.
Proof.
  intros Hm. destruct (all_returned lg) eqn:Ea.
  - eexists. apply LgJoin. unfold stop_finish. by rewrite Hm, Ea.
  - assert (H : exists k w, workers lg !! k = Some w /\ w_pc w <> WorkerDone).
    { unfold all_returned in Ea. revert Ea. induction (workers lg) as [|w ws IH]; [done|]. cbn.
      case_bool_decide as Hw; cbn; [|by exists 0%nat, w].
      intros Ea. destruct (IH Ea) as (k & w' & Hk & Hw'). by exists (S k), w'. }
    destruct H as (k & w & Hk & Hw).
    destruct (worker_step k lg) as [[lg' evs]|] eqn:E; [eexists; by eapply LgWorker|].
    unfold worker_step in E. rewrite Hk in E. by destruct (w_pc w).
Qed.

(** ** Properties *)

(** C34: the queue neither loses, duplicates nor reorders messages, under any
    interleaving of workers and main thread, any number of spawns, stops and
    drains: what was drained so far followed by what is queued is exactly what
    was pushed, in order; worker [k] pushed its messages #0, #1, ... without a
    gap and never more than its message count; a worker that returned without
    being stopped pushed exactly its count; and the worker counter is the number
    of workers that have not returned (one more after the creation of a thread
    failed, which ends the client). *)
Theorem load_generator_exact lg tr :
  lg_reachable (lg, tr) ->
  pushed tr = drained tr ++ lg_queue lg /\
  worker_count lg = u64 (running_count (workers lg) + thrown_count (lg_main lg)) /\
  forall k w, workers lg !! k = Some w ->
    let count := sa_message_count (w_args w) in
    exists n, pushes_of k tr = messages w n /\ (count <> 0 -> Z.of_nat n <= count) /\
      (w_pc w = WorkerDone -> lg_main lg <> Joining -> count <> 0 /\ Z.of_nat n = count).
Proof.
  intros [H1 H2 H3 _ _ _ _]%lg_reachable_ok. cbn [fst snd] in *.
  split; [done|]. split; [done|]. intros k w Hk. destruct (H3 k w Hk) as [_ Hm _ Hb _ He].
  exists (length (pushes_of k tr)). split; [done|]. split; [done|]. intros Hd Hj.
  destruct He as [|[]]; [by right|done|done].
Qed.

Definition sample_args : SpawnArgs :=
  {| sa_channel_id := 1; sa_channel_type := Unreliable; sa_message_count := 1;
     sa_interval_ms := 0; sa_payload := "x" |}.

Definition sample_lg : LoadGenerator :=
  {| stop_requested := false; active_worker_count := 1;
     lg_queue := [mkQueuedSend 1 Unreliable "x [t0 #0]"];
     workers := [mkWorker sample_args 0 1 AtCheck]; lg_main := MainIdle |}.

(** One worker is spawned and pushes its message. *)
Lemma sample_run :
  lg_reachable (sample_lg, [EvPush 0 (mkQueuedSend 1 Unreliable "x [t0 #0]")]).
Proof.
  unfold lg_reachable.
  eapply star_snoc; [eapply star_snoc; [eapply star_snoc; [eapply star_snoc; [eapply star_snoc;
    [apply star_refl|]|]|]|]|].
  - apply (LgSpawn sample_args 1); [split; cbn; lia|split; lia|reflexivity].
  - apply (LgSpawnNext true). reflexivity.
  - apply (LgSpawnNext true). reflexivity.
  - eapply (LgWorker 0 _ _ [] []). reflexivity.
  - eapply (LgWorker 0 _ _ [] [EvPush 0 (mkQueuedSend 1 Unreliable "x [t0 #0]")]). reflexivity.
Defined.

Lemma load_generator_exact_witness :
  pushed [EvPush 0 (mkQueuedSend 1 Unreliable "x [t0 #0]")] =
  drained [EvPush 0 (mkQueuedSend 1 Unreliable "x [t0 #0]")] ++ lg_queue sample_lg.
Proof. exact (proj1 (load_generator_exact _ _ sample_run)). Defined.

(** C35: [stop_all] returns. Once the main thread waits for its workers, every
    execution, whatever the scheduler does, reaches the state in which all
    workers were joined: no workers, a worker count of 0, the main thread back in
    control. *)
Theorem stop_all_terminates lg tr :
  lg_reachable (lg, tr) -> lg_main lg = Joining ->
  inevitable lg_step
    (fun s => lg_main (fst s) = MainIdle /\ workers (fst s) = [] /\ worker_count (fst s) = 0)
    (lg, tr).
Proof.
  intros Hr Hm. pose proof (lo_joining _ (lg_reachable_ok _ Hr) Hm) as Hs.
  apply (inevitable_measure _ _
    (fun s => lg_main (fst s) = Joining /\ stop_requested (fst s) = true)
    (fun s => join_work (fst s))); [| |done].
  - intros [lg' tr'] [Hm' _]. by apply joining_progress.
  - intros s s' [Hm' Hs'] Hstep. destruct Hstep as [k l l' t evs E|args n l l' t Hc Hn E|created l l' t E
      |l l' t E|l l' t evs E|l l' ms t Em E]; cbn [fst snd] in *.
    + right. destruct (worker_step_joining _ _ _ _ Hs' E) as (H1 & H2 & H3). by rewrite H2.
    + unfold spawn_begin in E. by rewrite Hm' in E.
    + unfold spawn_next in E. by rewrite Hm' in E.
    + unfold stop_begin in E. by rewrite Hm' in E.
    + left. unfold stop_finish in E. rewrite Hm' in E. destruct (all_returned l); [|done].
      by injection E as <- <-.
    + congruence.
Qed.

Lemma stop_all_terminates_witness :
  inevitable lg_step
    (fun s => lg_main (fst s) = MainIdle /\ workers (fst s) = [] /\ worker_count (fst s) = 0)
    (sample_lg <| stop_requested := true |> <| lg_main := Joining |>,
     [EvPush 0 (mkQueuedSend 1 Unreliable "x [t0 #0]")]).
Proof.
  apply stop_all_terminates; [|reflexivity].
  eapply star_snoc; [exact sample_run|]. apply LgStop. reflexivity.
Defined.
