(* ===== verification/ClientApp.v ===== *)
(** The client application ([src/BsdClientApp.cpp]): the command line, the
    bootstrap file and one iteration of the event loop around a [Session].

    A [const ChannelDefinition*] is an [option]. What the iteration reads from its
    surroundings (the stop flag, [select], the received datagrams, a line of input,
    the drained load messages, the clock) is the record [ClientInput]; what it does
    to them (datagrams sent, lines logged, requests to the load generator) is
    accumulated in [ClientState]. *)

From S2P Require Import Prelude StdMap Protocol Utils Codec Text Config ConfigEnv SessionTypes.
From S2P Require Import ConnectionStateMachine TxHandler RxHandler Session.
From S2P Require Import RuntimeLogger BsdUdpSocket Process LoadGenerator.

(** ** Channels *)

Definition default_channel (profile : RuntimeProfile) : option ChannelDefinition :=
  match List.find ch_is_default (pf_channels profile) with
  | Some channel => Some channel
  | None => head (pf_channels profile)
  end.

Definition find_channel (profile : RuntimeProfile) (token : string) : option ChannelDefinition :=
  match List.find (fun channel => ch_name channel == token) (pf_channels profile) with
  | Some channel => Some channel
  | None =>
      match stoull token with
      | Some value =>
          let id := u32 value in
          List.find (fun channel => ch_id channel =? id) (pf_channels profile)
      | None => None
      end
  end.

(** The text of one line of [log_channels]. *)
Definition channel_line (prefix : string) (channel : ChannelDefinition) : string :=
  let line := prefix +:+ " channel id=" +:+ to_string (ch_id channel) in
  let line := line +:+ " name=" +:+ ch_name channel in
  let line := line +:+ " type=" +:+ channelTypeName (ch_type channel) in
  if ch_is_default channel then line +:+ " default=true" else line.

(** The lines logged. *)
Definition log_channels (profile : RuntimeProfile) : list string :=
  map (channel_line "[client]") (pf_channels profile).

(** ** Commands *)

Definition parse_client_send_command (profile : RuntimeProfile) (line : string)
    : option (ChannelDefinition * string) :=
  if starts_with line "send " then
    let rest := substr_from line (String.length "send ") in
    match find rest " " with
    | None => None
    | Some space =>
        match find_channel profile (substr rest 0 space) with
        | None => None
        | Some channel => Some (channel, substr_from rest (space + 1))
        end
    end
  else
    match default_channel profile with
    | None => None
    | Some channel => Some (channel, line)
    end.

Record SpawnCommand := mkSpawnCommand {
  sc_channel : ChannelDefinition;
  sc_thread_count : Z;
  sc_message_count : Z;
  sc_interval_ms : Z;
  sc_payload : string
}.

(** [static_cast<std::uint32_t>(std::stoul(...))]; [None] is an exception. *)
Definition stoul_u32 (s : string) : option Z := u32 <$> stoull s.

(** The fields between the spaces of [/spawn ]; the nested matches are the early
    returns. *)
Definition parse_spawn_command (profile : RuntimeProfile) (line : string) : option SpawnCommand :=
  if negb (starts_with line "/spawn ") then None
  else
    let rest := substr_from line (String.length "/spawn ") in
    match find rest " " with
    | None => None
    | Some first_space =>
    match find_from rest " " (first_space + 1) with
    | None => None
    | Some second_space =>
    match find_from rest " " (second_space + 1) with
    | None => None
    | Some third_space =>
    match find_from rest " " (third_space + 1) with
    | None => None
    | Some fourth_space =>
    match find_channel profile (substr rest 0 first_space) with
    | None => None
    | Some channel =>
        match stoul_u32 (substr rest (first_space + 1) (second_space - first_space - 1)),
              stoul_u32 (substr rest (second_space + 1) (third_space - second_space - 1)),
              stoul_u32 (substr rest (third_space + 1) (fourth_space - third_space - 1)) with
        | Some thread_count, Some message_count, Some interval_ms =>
            Some {| sc_channel := channel; sc_thread_count := thread_count;
                    sc_message_count := message_count; sc_interval_ms := interval_ms;
                    sc_payload := substr_from rest (fourth_space + 1) |}
        | _, _, _ => None
        end
    end end end end end.

(** Calls on the load generator; the last is a [spawn] that starts [created] threads
    and then throws. *)
Inductive LgRequest :=
| ReqStopAll
| ReqSpawn (args : SpawnArgs) (thread_count : Z)
| ReqSpawnThrows (args : SpawnArgs) (thread_count : Z) (created : nat).

Definition spawn_args (c : SpawnCommand) : SpawnArgs :=
  {| sa_channel_id := ch_id (sc_channel c); sa_channel_type := ch_type (sc_channel c);
     sa_message_count := sc_message_count c; sa_interval_ms := sc_interval_ms c;
     sa_payload := sc_payload c |}.

Definition unknown_command : string :=
  "[client] unknown command; use: send <channel> <message> or /spawn <channel> <threads> <count> <interval-ms> <payload>".

(** The result of one command: the return value, the session, [should_exit], the
    lines logged, the calls on the load generator, and whether an exception left it. *)
Record CommandResult := mkCommandResult {
  cr_handled : bool;
  cr_session : SessionState;
  cr_should_exit : bool;
  cr_log : list string;
  cr_requests : list LgRequest;
  cr_thrown : bool
}.

(** What a command asks of the system: [load_generator.worker_count()], and how many
    threads can be started before the constructor of [std::thread] throws, if it
    does. *)
Record CommandSystem := mkCommandSystem {
  sys_load_workers : Z;
  sys_threads : option nat
}.

(** The number of threads started by a [spawn] that throws. *)
Definition spawn_throws (system : CommandSystem) (thread_count : Z) : option nat :=
  match sys_threads system with
  | Some created => if Z.of_nat created <? thread_count then Some created else None
  | None => None
  end.

Definition process_client_command (profile : RuntimeProfile) (session : SessionState)
    (system : CommandSystem) (line : string) (should_exit : bool) : CommandResult :=
  if line == "/quit" then mkCommandResult true session true [] [] false
  else if line == "/channels" then
    mkCommandResult true session should_exit (log_channels profile) [] false
  else if line == "/workers" then
    mkCommandResult true session should_exit
      ["[client] load workers=" +:+ to_string (sys_load_workers system)] [] false
  else if line == "/stop-load" then
    mkCommandResult true session should_exit ["[client] load workers stopped"] [ReqStopAll] false
  else
    match parse_spawn_command profile line with
    | Some spawn =>
        match spawn_throws system (sc_thread_count spawn) with
        | Some created =>
            mkCommandResult false session should_exit []
              [ReqSpawnThrows (spawn_args spawn) (sc_thread_count spawn) created] true
        | None =>
            mkCommandResult true session should_exit
              ["[client] spawned " +:+ to_string (sc_thread_count spawn) +:+ " workers on " +:+
               ch_name (sc_channel spawn) +:+ " count=" +:+ to_string (sc_message_count spawn) +:+
               " interval_ms=" +:+ to_string (sc_interval_ms spawn)]
              [ReqSpawn (spawn_args spawn) (sc_thread_count spawn)] false
        end
    | None =>
        match parse_client_send_command profile line with
        | None => mkCommandResult false session should_exit [unknown_command] [] false
        | Some (channel, payload) =>
            mkCommandResult true
              (queue_send (ch_id channel) (ch_type channel) (bytes_of_text payload) session)
              should_exit [] [] false
        end
    end.

(** [path] is the value of the environment variable, [file] what it names. *)
Definition load_bootstrap_commands (path : option string) (file : string -> option string)
    : list string * list string :=
  match path with
  | None => ([], [])
  | Some path =>
      if is_empty path then ([], [])
      else
        match file path with
        | None => ([], ["[client] failed to open bootstrap file: " +:+ path])
        | Some text =>
            (List.filter (fun line => negb (is_empty line || front_is line "#")) (getlines text), [])
        end
  end.

(** ** The event loop *)

(** [cl_crashed]: an exception that nothing catches was thrown. *)
Record ClientState := mkClientState {
  cl_session : SessionState;
  cl_bootstrap_applied : bool;
  cl_stdin_enabled : bool;
  cl_should_exit : bool;
  cl_sent : list bytes;
  cl_log : list string;
  cl_requests : list LgRequest;
  cl_crashed : bool
}.
#[export] Instance set_cl_session : Setter cl_session := fun f r =>
  mkClientState (f (cl_session r)) (cl_bootstrap_applied r) (cl_stdin_enabled r) (cl_should_exit r)
    (cl_sent r) (cl_log r) (cl_requests r) (cl_crashed r).
#[export] Instance set_cl_bootstrap_applied : Setter cl_bootstrap_applied := fun f r =>
  mkClientState (cl_session r) (f (cl_bootstrap_applied r)) (cl_stdin_enabled r) (cl_should_exit r)
    (cl_sent r) (cl_log r) (cl_requests r) (cl_crashed r).
#[export] Instance set_cl_stdin_enabled : Setter cl_stdin_enabled := fun f r =>
  mkClientState (cl_session r) (cl_bootstrap_applied r) (f (cl_stdin_enabled r)) (cl_should_exit r)
    (cl_sent r) (cl_log r) (cl_requests r) (cl_crashed r).
#[export] Instance set_cl_should_exit : Setter cl_should_exit := fun f r =>
  mkClientState (cl_session r) (cl_bootstrap_applied r) (cl_stdin_enabled r) (f (cl_should_exit r))
    (cl_sent r) (cl_log r) (cl_requests r) (cl_crashed r).
#[export] Instance set_cl_sent : Setter cl_sent := fun f r =>
  mkClientState (cl_session r) (cl_bootstrap_applied r) (cl_stdin_enabled r) (cl_should_exit r)
    (f (cl_sent r)) (cl_log r) (cl_requests r) (cl_crashed r).
#[export] Instance set_cl_log : Setter cl_log := fun f r =>
  mkClientState (cl_session r) (cl_bootstrap_applied r) (cl_stdin_enabled r) (cl_should_exit r)
    (cl_sent r) (f (cl_log r)) (cl_requests r) (cl_crashed r).
#[export] Instance set_cl_requests : Setter cl_requests := fun f r =>
  mkClientState (cl_session r) (cl_bootstrap_applied r) (cl_stdin_enabled r) (cl_should_exit r)
    (cl_sent r) (cl_log r) (f (cl_requests r)) (cl_crashed r).
#[export] Instance set_cl_crashed : Setter cl_crashed := fun f r =>
  mkClientState (cl_session r) (cl_bootstrap_applied r) (cl_stdin_enabled r) (cl_should_exit r)
    (cl_sent r) (cl_log r) (cl_requests r) (f (cl_crashed r)).

(** What one iteration reads. [in_datagrams] are the results of [recv_from] before
    it returns nothing or, with [in_alloc_fails], has no memory for its buffer, each
    with the clock at that call; [in_system] and [in_poll_times] give what the system
    answers to the successive commands and the clock at the successive polls. *)
Record ClientInput := mkClientInput {
  in_stop_requested : bool;
  in_select_failed : bool;
  in_socket_ready : bool;
  in_datagrams : list (bytes * Z);
  in_alloc_fails : bool;
  in_stdin_ready : bool;
  in_stdin_line : option string;
  in_generated : list QueuedSend;
  in_system : nat -> CommandSystem;
  in_poll_times : nat -> Z
}.

(** [process_client_command(...)] on the state of the application. *)
Definition run_command (profile : RuntimeProfile) (system : CommandSystem) (line : string)
    (st : ClientState) : ClientState :=
  let r := process_client_command profile (cl_session st) system line (cl_should_exit st) in
  st <| cl_session := cr_session r |> <| cl_should_exit := cr_should_exit r |>
     <| cl_log ::= fun l => l ++ cr_log r |> <| cl_requests ::= fun l => l ++ cr_requests r |>
     <| cl_crashed ::= fun b => b || cr_thrown r |>.

Definition receive_all (cfg : TransportSettings) (datagrams : list (bytes * Z))
    (session : SessionState) : SessionState :=
  fold_left (fun s d => on_datagram_received cfg (fst d) (snd d) s) datagrams session.

Definition queue_generated (generated : list QueuedSend) (session : SessionState) : SessionState :=
  fold_left (fun s g =>
    queue_send (qs_channel_id g) (qs_channel_type g) (bytes_of_text (qs_payload g)) s)
    generated session.

(** [for (i = 0; i < poll_budget; ++i)] with its [break]: at most [budget] polls,
    the clock of the next one being [times i]. *)
Fixpoint poll_loop (cfg : TransportSettings) (budget : nat) (i : nat) (times : nat -> Z)
    (session : SessionState) : list bytes * SessionState :=
  match budget with
  | O => ([], session)
  | S budget =>
      match poll_tx cfg (times i) session with
      | (None, session) => ([], session)
      | (Some outbound, session) =>
          let '(sent, session) := poll_loop cfg budget (S i) times session in
          (outbound :: sent, session)
      end
  end.

(** The lines logged, and the session without its events. *)
Definition drain_client_events (session : SessionState) : list string * SessionState :=
  let '(events, session) := drain_events session in
  (map (fun event => format_session_event "[client]" event +:+
                     format_session_stats (st_stats session)) events, session).

(** The loop over the bootstrap commands; [system i] answers the [i]-th command of the
    iteration. *)
Fixpoint run_bootstrap (profile : RuntimeProfile) (system : nat -> CommandSystem) (i : nat)
    (commands : list string) (st : ClientState) : ClientState :=
  match commands with
  | [] => st
  | command :: commands =>
      let st := st <| cl_log ::= fun l => l ++ ["[client] bootstrap> " +:+ command] |> in
      let st := run_command profile (system i) command st in
      if cl_crashed st || cl_should_exit st then st
      else run_bootstrap profile system (S i) commands st
  end.

(** Everything after the commands from the terminal. *)
Definition client_transmit (cfg : TransportSettings) (profile : RuntimeProfile)
    (bootstrap_commands : list string) (input : ClientInput) (st : ClientState) : ClientState :=
  let st := st <| cl_session ::= queue_generated (in_generated input) |> in
  let '(sent, session) :=
    poll_loop cfg (Z.to_nat (pf_poll_budget profile)) 0 (in_poll_times input) (cl_session st) in
  let st := st <| cl_session := session |> <| cl_sent ::= fun l => l ++ sent |> in
  let '(lines, session) := drain_client_events (cl_session st) in
  let st := st <| cl_session := session |> <| cl_log ::= fun l => l ++ lines |> in
  let bootstrapping := negb (cl_bootstrap_applied st) &&
                       bool_decide (st_connection_state (cl_session st) = Established) in
  let st := if bootstrapping
            then run_bootstrap profile (in_system input) 1 bootstrap_commands st else st in
  if cl_crashed st then st
  else
    let st := if bootstrapping then st <| cl_bootstrap_applied := true |> else st in
    if bool_decide (st_connection_state (cl_session st) = Reset)
    then st <| cl_log ::= fun l => l ++ ["[client] session entered Reset, exiting"] |>
            <| cl_should_exit := true |>
    else st.

(** The loop over [recv_from]: a buffer no vector can have throws at the first call. *)
Definition client_receive (cfg : TransportSettings) (profile : RuntimeProfile) (input : ClientInput)
    (st : ClientState) : ClientState :=
  if negb (in_socket_ready input) then st
  else if buffer_too_large (pf_socket_buffer_size profile) then st <| cl_crashed := true |>
  else st <| cl_session ::= receive_all cfg (in_datagrams input) |>
          <| cl_crashed ::= fun b => b || in_alloc_fails input |>.

(** The part of an iteration before [client_transmit]; the boolean: the loop was
    left by a [break] or an exception. *)
Definition client_input_step (cfg : TransportSettings) (profile : RuntimeProfile)
    (input : ClientInput) (st : ClientState) : bool * ClientState :=
  if in_stop_requested input then (true, st <| cl_should_exit := true |>)
  else if in_select_failed input then (true, st)
  else
    let st := client_receive cfg profile input st in
    if cl_crashed st then (true, st)
    else if cl_stdin_enabled st && in_stdin_ready input then
      match in_stdin_line input with
      | None => (false, st <| cl_stdin_enabled := false |>)
      | Some line =>
          let st := run_command profile (in_system input 0) line st in
          (cl_crashed st || cl_should_exit st, st)
      end
    else (false, st).

(** One iteration. *)
Definition client_iteration (cfg : TransportSettings) (profile : RuntimeProfile)
    (bootstrap_commands : list string) (input : ClientInput) (st : ClientState)
    : bool * ClientState :=
  let '(broke, st) := client_input_step cfg profile input st in
  if broke then (true, st)
  else
    let st := client_transmit cfg profile bootstrap_commands input st in
    (cl_crashed st, st).

(** [while (!should_exit)] over the inputs of the successive iterations. *)
Fixpoint client_loop (cfg : TransportSettings) (profile : RuntimeProfile)
    (bootstrap_commands : list string) (inputs : list ClientInput) (st : ClientState)
    : ClientState :=
  match inputs with
  | [] => st
  | input :: inputs =>
      if cl_should_exit st then st
      else
        let '(broke, st) := client_iteration cfg profile bootstrap_commands input st in
        if broke then st else client_loop cfg profile bootstrap_commands inputs st
  end.

Definition client_help : string :=
  "type a line to send it on the default channel; use: send <channel> <message>, /spawn <channel> <threads> <count> <interval-ms> <payload>, /workers, /stop-load, /channels, /quit".

(** The state before the loop: the session with the initial sequence number [isn],
    the bootstrap commands, and whether the input is a terminal. *)
Definition client_start (profile : RuntimeProfile) (isn : Z) (bootstrap : list string * list string)
    (is_a_tty : bool) : ClientState :=
  {| cl_session := new_session Client isn;
     cl_bootstrap_applied := bool_decide (fst bootstrap = []);
     cl_stdin_enabled := is_a_tty;
     cl_should_exit := false;
     cl_sent := [];
     cl_log := snd bootstrap ++
       ["client targeting " +:+ pf_remote_address profile +:+ ":" +:+
        to_string (pf_remote_port profile);
        if is_a_tty then client_help
        else "[client] stdin is not interactive; runtime commands disabled"];
     cl_requests := [];
     cl_crashed := false |}.

(** [run_client_app] from the successful [bind] to the end: the summary is logged
    and the load generator is stopped, unless an exception ended the process. *)
Definition client_main (cfg : TransportSettings) (profile : RuntimeProfile) (isn : Z)
    (bootstrap : list string * list string) (is_a_tty : bool) (inputs : list ClientInput)
    : ClientState :=
  let st := client_loop cfg profile (fst bootstrap) inputs
              (client_start profile isn bootstrap is_a_tty) in
  if cl_crashed st then st
  else
  st <| cl_log ::= fun l => l ++ [format_session_summary "[client]" (st_stats (cl_session st))] |>
     <| cl_requests ::= fun l => l ++ [ReqStopAll] |>.

(** ** The application *)

Definition handle_stop_signal (signum : StopSignal) (g_stop_requested : bool) : bool := true.

Definition install_signal_handlers (actions : SigTable) : SigTable :=
  let actions := std_signal SIGINT handle_stop_signal actions in
  std_signal SIGTERM handle_stop_signal actions.

Definition set_stop_requested_in (flag : bool) (input : ClientInput) : ClientInput :=
  mkClientInput flag (in_select_failed input) (in_socket_ready input) (in_datagrams input)
    (in_alloc_fails input) (in_stdin_ready input) (in_stdin_line input) (in_generated input)
    (in_system input) (in_poll_times input).

(** [early] are the signals between the installation of the handlers and the reset
    of the flag; [w] is the table of descriptors. *)
Definition run_client_app `{Kernel} (cfg : TransportSettings) (profile : RuntimeProfile)
    (actions : SigTable) (g_stop_requested : bool) (early : list StopSignal) (calls : SocketCalls)
    (isn : Z) (bootstrap : list string * list string) (is_a_tty : bool)
    (inputs : list (list StopSignal * ClientInput)) (w : FdWorld)
    : AppResult ClientState * FdWorld :=
  let actions := install_signal_handlers actions in
  let g_stop_requested := raise_all actions early g_stop_requested in
  let g_stop_requested := false in
  let '(created, w) := create_non_blocking the_socket the_temporary (sk_fd calls) (sk_flags calls)
                         (sk_setfl calls) w in
  if negb created then (SetupFailed, w)
  else if negb (bind (pf_bind_address profile) (pf_bind_port profile) (sk_bind calls)) then
    (SetupFailed, destroy the_socket w)
  else
    let st := client_main cfg profile isn bootstrap is_a_tty
                (load_flags set_stop_requested_in actions g_stop_requested inputs) in
    if cl_crashed st then (Crashed st, w) else (Finished st, destroy the_socket w).
