(* ===== verification/ClientAppSpec.v ===== *)
(** What the client application guarantees ([ClientApp]): commands are parsed as
    documented, every line has an outcome, and the event loop only ever drives its
    session through the session's own operations. *)

From S2P Require Import Prelude StdMap Protocol Utils Codec Text Config ConfigEnv ConfigYaml.
From S2P Require Import ConfigYamlSpec SessionTypes ConnectionStateMachine TxHandler TxInvariant.
From S2P Require Import RxHandler RxInvariant Session SessionInvariant RuntimeLogger LoadGenerator.
From S2P Require Import BsdUdpSocket ClientApp.

(** ** Space-separated fields *)

(** The field [x] of [pre ++ " " ++ x ++ " " ++ post]. *)
Lemma field_at pre x post :
  no_char " " x = true ->
  let r := pre +:+ String " " (x +:+ String " " post) in
  let start := (String.length pre + 1)%nat in
  let stop := (start + String.length x)%nat in
  find_from r " " start = Some stop /\ substr r start (stop - String.length pre - 1) = x /\
  r = (pre +:+ String " " x) +:+ String " " post /\
  String.length (pre +:+ String " " x) = stop.
Proof.
  intros Hx. cbn zeta. unfold find_from, substr. rewrite sdrop_app_cons, find_app by done.
  replace (String.length pre + 1 + String.length x - String.length pre - 1)%nat
    with (String.length x) by lia.
  split; [done|]. split; [apply stake_app|]. split; [by rewrite sapp_assoc|].
  rewrite slength_app. cbn. lia.
Qed.

Lemma last_field pre post :
  substr_from (pre +:+ String " " post) (String.length pre + 1) = post.
Proof. apply sdrop_app_cons. Qed.

Definition spawn_line (name : string) (threads count interval : Z) (payload : string) : string :=
  "/spawn " +:+ name +:+ String " " (to_string threads +:+ String " " (to_string count +:+
    String " " (to_string interval +:+ String " " payload))).

Lemma stoul_u32_to_string x : is_u32 x -> stoul_u32 (to_string x) = Some x.
Proof.
  intros Hx. unfold stoul_u32. rewrite stoull_to_string by by apply is_u32_u64.
  cbn. by rewrite u32_id.
Qed.

Lemma parse_spawn_line profile name c threads count interval payload :
  no_char " " name = true -> find_channel profile name = Some c ->
  is_u32 threads -> is_u32 count -> is_u32 interval ->
  parse_spawn_command profile (spawn_line name threads count interval payload) =
  Some {| sc_channel := c; sc_thread_count := threads; sc_message_count := count;
          sc_interval_ms := interval; sc_payload := payload |}.
Proof.
  intros Hn Hc Ht Hm Hi.
  assert (Hno : forall x, is_u32 x -> no_char " " (to_string x) = true)
    by (intros x Hx; apply to_string_no_char; [unfold is_u32 in Hx; lia|done]).
  unfold parse_spawn_command, spawn_line. rewrite starts_with_app. cbn [negb].
  change (substr_from (_ +:+ _) (String.length "/spawn ")) with
    (name +:+ String " " (to_string threads +:+ String " " (to_string count +:+
       String " " (to_string interval +:+ String " " payload)))). cbv zeta.
  set (t := to_string threads). set (m := to_string count). set (i := to_string interval).
  rewrite find_app by done.
  destruct (field_at name t (m +:+ String " " (i +:+ String " " payload)) (Hno _ Ht))
    as (F1 & S1 & R1 & L1). cbn zeta in *. rewrite F1, S1.
  destruct (field_at (name +:+ String " " t) m (i +:+ String " " payload) (Hno _ Hm))
    as (F2 & S2 & R2 & L2). cbn zeta in *. rewrite L1 in F2, S2, L2.
  rewrite R1. rewrite F2, S2.
  destruct (field_at ((name +:+ String " " t) +:+ String " " m) i payload (Hno _ Hi))
    as (F3 & S3 & R3 & L3). cbn zeta in *. rewrite L2 in F3, S3, L3.
  rewrite R2, F3, S3.
  unfold substr_from. rewrite R3, <- L3, sdrop_app_cons.
  rewrite <- R3, <- R2, <- R1. unfold substr. cbn [sdrop]. rewrite stake_app, Hc.
  subst t m i. by rewrite !stoul_u32_to_string.
Qed.

Definition send_line (name message : string) : string := "send " +:+ name +:+ String " " message.

Lemma parse_send_line profile name c message :
  no_char " " name = true -> find_channel profile name = Some c ->
  parse_client_send_command profile (send_line name message) = Some (c, message).
Proof.
  intros Hn Hc. unfold parse_client_send_command, send_line. rewrite starts_with_app.
  change (substr_from (_ +:+ _) (String.length "send ")) with (name +:+ String " " message).
  cbv zeta. rewrite find_app by done. unfold substr_from.
  unfold substr. cbn [sdrop]. rewrite stake_app, Hc. by rewrite sdrop_app_cons.
Qed.

(** ** Channel lookup *)

Lemma find_unique {A} (p : A -> bool) (l : list A) x :
  x ∈ l -> p x = true -> (forall y, y ∈ l -> p y = true -> y = x) -> List.find p l = Some x.
Proof.
  intros Hx Hp Hu. destruct (List.find p l) as [y|] eqn:E.
  - apply find_some in E as [Hy Hpy]. f_equal. apply Hu; [by apply list_elem_of_In|done].
  - pose proof (List.find_none _ _ E x (proj1 (list_elem_of_In _ _) Hx)). congruence.
Qed.

(** Channel names and ids identify the channels. *)
Definition channels_distinct (p : RuntimeProfile) : Prop :=
  NoDup (map ch_name (pf_channels p)) /\ NoDup (map ch_id (pf_channels p)).

Lemma map_inj_in {A B} (f : A -> B) (l : list A) x y :
  NoDup (map f l) -> x ∈ l -> y ∈ l -> f x = f y -> x = y.
Proof.
  induction l as [|a l IH]; intros Hnd Hx Hy E; [by apply not_elem_of_nil in Hx|].
  cbn in Hnd. apply NoDup_cons in Hnd as [Hna Hnd].
  apply elem_of_cons in Hx as [->|Hx], Hy as [->|Hy]; [done| | |by apply IH].
  - destruct Hna. rewrite E. by apply list_elem_of_fmap_2.
  - destruct Hna. rewrite <- E. by apply list_elem_of_fmap_2.
Qed.

Lemma find_channel_name p c :
  channels_distinct p -> c ∈ pf_channels p -> find_channel p (ch_name c) = Some c.
Proof.
  intros [Hn _] Hc. unfold find_channel.
  rewrite (find_unique _ _ c Hc); [done|by apply String.eqb_eq|].
  intros y Hy E. apply String.eqb_eq in E. by eapply map_inj_in.
Qed.

Lemma find_channel_id p c :
  channels_distinct p -> c ∈ pf_channels p -> is_u32 (ch_id c) ->
  (forall d, d ∈ pf_channels p -> ch_name d <> to_string (ch_id c)) ->
  find_channel p (to_string (ch_id c)) = Some c.
Proof.
  intros [_ Hi] Hc Hu Hd. unfold find_channel.
  destruct (List.find _ _) as [d|] eqn:E.
  { apply find_some in E as [Hin E]. apply String.eqb_eq in E.
    by destruct (Hd d); [apply list_elem_of_In|]. }
  rewrite stoull_to_string, u32_id by (done || by apply is_u32_u64).
  apply find_unique; [done|by apply Z.eqb_eq|].
  intros y Hy Ey. apply Z.eqb_eq in Ey. by eapply map_inj_in.
Qed.

(** ** The loop and the session *)

Lemma channel_ok_named c : channel_ok c -> channel_named (ch_type c).
Proof. intros [_ H]. unfold channel_named. destruct (ch_type c); cbn; (done || lia). Qed.

Lemma default_channel_ready p :
  profile_ready p ->
  exists c, default_channel p = Some c /\ c ∈ pf_channels p /\ ch_is_default c = true.
Proof.
  intros [_ _ Hd _]. unfold default_channel.
  destruct (List.find ch_is_default (pf_channels p)) as [c|] eqn:E.
  - apply find_some in E as [Hin Hc]. exists c. split; [done|].
    split; [by apply list_elem_of_In|done].
  - exfalso. apply Exists_exists in Hd as (x & Hx & Hxd).
    pose proof (List.find_none _ _ E x (proj1 (list_elem_of_In _ _) Hx)). congruence.
Qed.

Lemma default_channel_in p c : default_channel p = Some c -> c ∈ pf_channels p.
Proof.
  unfold default_channel. destruct (List.find ch_is_default (pf_channels p)) as [d|] eqn:E.
  - intros [= ->]. apply find_some in E as [Hin _]. by apply list_elem_of_In.
  - destruct (pf_channels p); [done|]. intros [= ->]. apply list_elem_of_here.
Qed.

Lemma find_channel_in p token c : find_channel p token = Some c -> c ∈ pf_channels p.
Proof.
  unfold find_channel. destruct (List.find _ _) as [d|] eqn:E.
  - intros [= ->]. apply find_some in E as [Hin _]. by apply list_elem_of_In.
  - destruct (stoull token); [|done]. intros E'. apply find_some in E' as [Hin _].
    by apply list_elem_of_In.
Qed.

Lemma parse_client_send_in p line c payload :
  parse_client_send_command p line = Some (c, payload) -> c ∈ pf_channels p.
Proof.
  unfold parse_client_send_command. destruct (starts_with _ _).
  - destruct (find _ _); [|done]. destruct (find_channel _ _) eqn:E; [|done].
    intros [= <- _]. by eapply find_channel_in.
  - destruct (default_channel p) eqn:E; [|done]. intros [= <- _]. by apply default_channel_in.
Qed.

(** Inputs of the right types. *)
Definition queued_ok (g : QueuedSend) : Prop :=
  is_u32 (qs_channel_id g) /\ channel_named (qs_channel_type g).

Record input_ok (input : ClientInput) : Prop := mk_input_ok {
  io_datagrams : Forall (fun d => Forall is_u8 (fst d)) (in_datagrams input);
  io_generated : Forall queued_ok (in_generated input);
  io_times : forall i, is_u64 (in_poll_times input i)
}.

(** *** Calls on the session *)

(** A call the client makes on its session; a message of the load generator is kept
    apart from one that was typed. *)
Inductive SessionCall :=
| CallReceive (bs : bytes) (now : Z)
| CallSend (channel_id : Z) (channel_type : ChannelType) (payload : bytes)
| CallGenerated (g : QueuedSend)
| CallPoll (now : Z)
| CallDrain.

(** The datagrams handed to the socket so far, and the session. *)
Definition run_call (cfg : TransportSettings) (acc : list bytes * SessionState) (c : SessionCall)
    : list bytes * SessionState :=
  let '(sent, s) := acc in
  match c with
  | CallReceive bs now => (sent, on_datagram_received cfg bs now s)
  | CallSend channel_id channel_type payload => (sent, queue_send channel_id channel_type payload s)
  | CallGenerated g =>
      (sent, queue_send (qs_channel_id g) (qs_channel_type g) (bytes_of_text (qs_payload g)) s)
  | CallPoll now => let '(d, s) := poll_tx cfg now s in (sent ++ option_list d, s)
  | CallDrain => (sent, snd (drain_events s))
  end.

Definition run_calls (cfg : TransportSettings) (calls : list SessionCall)
    (acc : list bytes * SessionState) : list bytes * SessionState :=
  fold_left (run_call cfg) calls acc.

(** The messages of the load generator among the calls. *)
Definition generated_of (calls : list SessionCall) : list QueuedSend :=
  omap (fun c => match c with CallGenerated g => Some g | _ => None end) calls.

Definition call_ok (c : SessionCall) : Prop :=
  match c with
  | CallReceive bs _ => Forall is_u8 bs
  | CallSend channel_id channel_type payload =>
      is_u32 channel_id /\ channel_named channel_type /\ Forall is_u8 payload
  | CallGenerated g => queued_ok g
  | CallPoll now => is_u64 now
  | CallDrain => True
  end.

Lemma run_calls_star cfg calls sent s :
  Forall call_ok calls -> star (session_step cfg) s (snd (run_calls cfg calls (sent, s))).
Proof.
  intros H. revert sent s. induction H as [|c calls Hc _ IH]; intros sent s; [apply star_refl|].
  assert (H1 : session_step cfg s (snd (run_call cfg (sent, s) c))).
  { destruct c; cbn [run_call snd].
    - by apply step_receive.
    - destruct Hc as (? & ? & ?). by apply step_send.
    - destruct Hc. apply step_send; [done|done|apply bytes_of_text_typed].
    - pose proof (step_poll cfg now s Hc) as Hp. by destruct (poll_tx cfg now s).
    - apply step_drain. }
  cbn [run_calls fold_left]. destruct (run_call cfg (sent, s) c) as [sent1 s1].
  eapply star_trans; [by apply star_one|apply IH].
Qed.

(** The calls of a line, of the datagrams of an iteration, of some polls and of the
    first bootstrap commands. *)
Definition line_calls (profile : RuntimeProfile) (line : string) : list SessionCall :=
  if bool_decide (line ∈ ["/quit"; "/channels"; "/workers"; "/stop-load"]) then []
  else
    match parse_spawn_command profile line, parse_client_send_command profile line with
    | None, Some (channel, payload) => [CallSend (ch_id channel) (ch_type channel) (bytes_of_text payload)]
    | _, _ => []
    end.
Definition typed_calls (profile : RuntimeProfile) (input : ClientInput) : list SessionCall :=
  match in_stdin_line input with Some line => line_calls profile line | None => [] end.
Definition receive_calls (input : ClientInput) : list SessionCall :=
  map (fun d => CallReceive (fst d) (snd d)) (in_datagrams input).
Definition poll_calls (times : nat -> Z) (i n : nat) : list SessionCall :=
  map (fun i => CallPoll (times i)) (seq i n).

(** A complete iteration, in this order: every datagram when the socket is ready, the
    line if one is read, every message of the load generator, at most [poll_budget]
    polls, the drain of the events, and the bootstrap commands once the connection is
    up. *)
Definition iteration_calls (profile : RuntimeProfile) (commands : list string) (input : ClientInput)
    (calls : list SessionCall) : Prop :=
  exists (reads : bool) polls boot,
    calls = (if in_socket_ready input then receive_calls input else []) ++
            (if reads then typed_calls profile input else []) ++
            map CallGenerated (in_generated input) ++
            poll_calls (in_poll_times input) 0 polls ++ [CallDrain] ++
            concat (map (line_calls profile) (take boot commands)) /\
    (polls <= Z.to_nat (pf_poll_budget profile))%nat.

(** An iteration that is left before the load generator is drained. *)
Definition partial_calls (profile : RuntimeProfile) (input : ClientInput) (calls : list SessionCall)
    : Prop :=
  exists receives reads : bool,
    calls = (if receives then receive_calls input else []) ++
            (if reads then typed_calls profile input else []).

Section loop.
Context (cfg : TransportSettings) (profile : RuntimeProfile) (commands : list string).

(** [st] becomes [st'] by these calls: the session, and the datagrams sent. *)
Definition makes (calls : list SessionCall) (st st' : ClientState) : Prop :=
  run_calls cfg calls (cl_sent st, cl_session st) = (cl_sent st', cl_session st').

Lemma makes_nil st st' : cl_sent st' = cl_sent st -> cl_session st' = cl_session st -> makes [] st st'.
Proof. intros E1 E2. unfold makes. cbn. by rewrite E1, E2. Qed.

Lemma makes_app c1 c2 st st1 st2 : makes c1 st st1 -> makes c2 st1 st2 -> makes (c1 ++ c2) st st2.
Proof. unfold makes, run_calls. intros E1 E2. by rewrite fold_left_app, E1. Qed.

Lemma makes_frame calls st st1 st2 :
  makes calls st st1 -> cl_sent st2 = cl_sent st1 -> cl_session st2 = cl_session st1 ->
  makes calls st st2.
Proof. unfold makes. intros E -> ->. exact E. Qed.

Lemma run_command_makes system line st :
  makes (line_calls profile line) st (run_command profile system line st).
Proof.
  unfold line_calls. case_bool_decide as Hl.
  - apply makes_nil; [done|]. cbn. unfold process_client_command.
    repeat (apply elem_of_cons in Hl as [->|Hl]; [done|]). by apply not_elem_of_nil in Hl.
  - repeat (rewrite not_elem_of_cons in Hl; destruct Hl as [? Hl]).
    unfold makes, run_command, process_client_command.
    rewrite !(proj2 (String.eqb_neq _ _)) by done.
    destruct (parse_spawn_command profile line).
    { by destruct (spawn_throws _ _). }
    by destruct (parse_client_send_command profile line) as [[c payload]|].
Qed.

Lemma receive_all_makes ds st :
  makes (map (fun d => CallReceive (fst d) (snd d)) ds) st (st <| cl_session ::= receive_all cfg ds |>).
Proof.
  unfold makes, receive_all. cbn. generalize (cl_session st). induction ds as [|d ds IH]; intros s; [done|].
  cbn. apply IH.
Qed.

Lemma queue_generated_makes gs st :
  makes (map CallGenerated gs) st (st <| cl_session ::= queue_generated gs |>).
Proof.
  unfold makes, queue_generated. cbn. generalize (cl_session st). induction gs as [|g gs IH]; intros s; [done|].
  cbn. apply IH.
Qed.

Lemma poll_loop_calls budget i times sent s :
  exists n, (n <= budget)%nat /\
    run_calls cfg (poll_calls times i n) (sent, s) =
      (sent ++ fst (poll_loop cfg budget i times s), snd (poll_loop cfg budget i times s)) /\
    (length (fst (poll_loop cfg budget i times s)) <= budget)%nat.
Proof.
  revert i sent s. induction budget as [|budget IH]; intros i sent s; cbn [poll_loop].
  { exists 0%nat. cbn. by rewrite app_nil_r. }
  destruct (poll_tx cfg (times i) s) as [[d|] s'] eqn:E.
  - destruct (IH (S i) (sent ++ [d]) s') as (n & Hn & Hr & Hl). exists (S n).
    destruct (poll_loop cfg budget (S i) times s') as [ds s'']. cbn [fst snd length] in *.
    split; [lia|]. split; [|lia]. unfold poll_calls, run_calls in *.
    assert (E' : run_call cfg (sent, s) (CallPoll (times i)) = (sent ++ [d], s'))
      by (cbn; by rewrite E).
    cbn [seq map fold_left]. rewrite E', Hr, <- app_assoc. done.
  - exists 1%nat. split; [lia|]. cbn. rewrite E. split; [done|lia].
Qed.

Lemma run_bootstrap_makes system i cmds st :
  exists n, makes (concat (map (line_calls profile) (take n cmds))) st
              (run_bootstrap profile system i cmds st).
Proof.
  revert i st. induction cmds as [|c cmds IH]; intros i st.
  { exists 0%nat. by apply makes_nil. }
  cbn [run_bootstrap]. set (st1 := st <| cl_log ::= _ |>).
  assert (H1 : makes (line_calls profile c) st (run_command profile (system i) c st1))
    by (apply (run_command_makes (system i) c st1)).
  destruct (_ || _).
  - exists 1%nat. cbn. by rewrite app_nil_r.
  - destruct (IH (S i) (run_command profile (system i) c st1)) as (n & Hn). exists (S n).
    cbn [take map concat]. by eapply makes_app.
Qed.

Lemma run_bootstrap_sent system i cmds st :
  cl_sent (run_bootstrap profile system i cmds st) = cl_sent st.
Proof.
  revert i st. induction cmds as [|c cmds IH]; intros i st; [done|]. cbn [run_bootstrap].
  destruct (_ || _); [done|]. by rewrite IH.
Qed.

Lemma client_input_step_sent input st :
  cl_sent (snd (client_input_step cfg profile input st)) = cl_sent st.
Proof.
  unfold client_input_step, client_receive. by repeat (case_match; cbn [snd]).
Qed.

Lemma client_input_step_makes input st :
  let '(broke, st') := client_input_step cfg profile input st in
  if broke then exists calls, partial_calls profile input calls /\ makes calls st st'
  else exists reads : bool,
    makes ((if in_socket_ready input then receive_calls input else []) ++
           (if reads then typed_calls profile input else [])) st st'.
Proof.
  unfold client_input_step.
  assert (Hnone : forall st', cl_sent st' = cl_sent st -> cl_session st' = cl_session st ->
    exists calls, partial_calls profile input calls /\ makes calls st st').
  { intros st' E1 E2. exists []. split; [by exists false, false|by apply makes_nil]. }
  destruct (in_stop_requested input); [by apply Hnone|].
  destruct (in_select_failed input); [by apply Hnone|].
  assert (H1 : exists rx : bool,
    makes (if rx then receive_calls input else []) st (client_receive cfg profile input st) /\
    (cl_crashed (client_receive cfg profile input st) = false -> rx = in_socket_ready input)).
  { unfold client_receive. destruct (in_socket_ready input); cbn [negb].
    - destruct (buffer_too_large _).
      + exists false. split; [by apply makes_nil|done].
      + exists true. split; [|done].
        by eapply makes_frame; [apply (receive_all_makes (in_datagrams input))|..].
    - exists false. split; [by apply makes_nil|done]. }
  destruct H1 as (rx & H1 & Hrx). set (st1 := client_receive cfg profile input st) in *. clearbody st1.
  destruct (cl_crashed st1).
  { exists ((if rx then receive_calls input else []) ++ []). split; [by exists rx, false|].
    by rewrite app_nil_r. }
  rewrite (Hrx eq_refl) in H1. clear Hrx.
  assert (Hidle : forall st', cl_sent st' = cl_sent st1 -> cl_session st' = cl_session st1 ->
    exists reads : bool, makes ((if in_socket_ready input then receive_calls input else []) ++
      (if reads then typed_calls profile input else [])) st st').
  { intros st' E1 E2. exists false. rewrite app_nil_r. by eapply makes_frame. }
  destruct (_ && _); [|by apply Hidle].
  destruct (in_stdin_line input) as [line|] eqn:El; [|by apply Hidle].
  pose proof (run_command_makes (in_system input 0) line st1) as H2.
  assert (Ht : typed_calls profile input = line_calls profile line) by (unfold typed_calls; by rewrite El).
  destruct (_ || _).
  - eexists. split; [by exists (in_socket_ready input), true|]. rewrite Ht. by eapply makes_app.
  - exists true. rewrite Ht. by eapply makes_app.
Qed.

Lemma client_transmit_makes input st :
  exists polls boot,
    makes (map CallGenerated (in_generated input) ++ poll_calls (in_poll_times input) 0 polls ++
           [CallDrain] ++ concat (map (line_calls profile) (take boot commands)))
      st (client_transmit cfg profile commands input st) /\
    (polls <= Z.to_nat (pf_poll_budget profile))%nat /\
    (length (cl_sent (client_transmit cfg profile commands input st)) <=
       length (cl_sent st) + Z.to_nat (pf_poll_budget profile))%nat.
Proof.
  unfold client_transmit. set (st1 := st <| cl_session ::= _ |>).
  pose proof (queue_generated_makes (in_generated input) st) as H1. fold st1 in H1.
  destruct (poll_loop_calls (Z.to_nat (pf_poll_budget profile)) 0 (in_poll_times input) (cl_sent st1)
    (cl_session st1)) as (n & Hn & Hr & Hl).
  destruct (poll_loop _ _ _ _ _) as [sent s2]. cbn [fst snd] in *.
  set (st2 := (st1 <| cl_session := s2 |>) <| cl_sent ::= _ |>).
  assert (H2 : makes (poll_calls (in_poll_times input) 0 n) st1 st2) by exact Hr.
  assert (H3 : makes [CallDrain] st2 ((st2 <| cl_session := snd (drain_client_events (cl_session st2)) |>)
    <| cl_log ::= fun l => l ++ fst (drain_client_events (cl_session st2)) |>)).
  { unfold makes, drain_client_events. cbn. done. }
  destruct (drain_client_events (cl_session st2)) as [lines s3]. cbn [fst snd] in H3.
  set (st3 := (st2 <| cl_session := s3 |>) <| cl_log ::= _ |>) in *.
  assert (El : (length (cl_sent st3) <= length (cl_sent st) + Z.to_nat (pf_poll_budget profile))%nat).
  { change (cl_sent st3) with (cl_sent st ++ sent). rewrite length_app. lia. }
  set (bootstrapping := negb _ && _).
  set (st4 := if bootstrapping then run_bootstrap _ _ _ _ st3 else st3).
  assert (H4 : exists boot, makes (concat (map (line_calls profile) (take boot commands))) st3 st4 /\
    cl_sent st4 = cl_sent st3).
  { subst st4. destruct bootstrapping.
    - destruct (run_bootstrap_makes (in_system input) 1 commands st3) as (b & Hb). exists b.
      split; [exact Hb|apply run_bootstrap_sent].
    - exists 0%nat. split; [by apply makes_nil|done]. }
  destruct H4 as (boot & H4 & E4). exists n, boot.
  assert (H : makes (map CallGenerated (in_generated input) ++ poll_calls (in_poll_times input) 0 n ++
           [CallDrain] ++ concat (map (line_calls profile) (take boot commands))) st st4).
  { eapply makes_app; [exact H1|]. eapply makes_app; [exact H2|]. by eapply makes_app. }
  clearbody st4 bootstrapping. rewrite <- E4 in El.
  destruct (cl_crashed st4); [done|]. destruct bootstrapping; case_bool_decide; done.
Qed.

(** One iteration: the calls of a complete one, or of one that was left early. *)
Lemma client_iteration_makes input st :
  let '(left_early, st1) := client_input_step cfg profile input st in
  let st' := snd (client_iteration cfg profile commands input st) in
  (exists calls, makes calls st st' /\
     if left_early then partial_calls profile input calls
     else iteration_calls profile commands input calls) /\
  (length (cl_sent st') <= length (cl_sent st) + Z.to_nat (pf_poll_budget profile))%nat.
Proof.
  unfold client_iteration. pose proof (client_input_step_makes input st) as H.
  pose proof (client_input_step_sent input st) as Hs.
  destruct (client_input_step cfg profile input st) as [[] st1]; cbn [snd] in *.
  - destruct H as (calls & H1 & H2). split; [by exists calls|]. rewrite Hs. lia.
  - destruct H as (reads & H1).
    destruct (client_transmit_makes input st1) as (polls & boot & H2 & Hn & Hl). split; [|by rewrite <- Hs].
    eexists. split; [by eapply makes_app|]. exists reads, polls, boot. split; [|exact Hn].
    by rewrite <- !app_assoc.
Qed.

(** The iterations that got to the drain of the load generator. *)
Fixpoint completed (inputs : list ClientInput) (st : ClientState) : list ClientInput :=
  match inputs with
  | [] => []
  | input :: inputs =>
      if cl_should_exit st then []
      else if fst (client_input_step cfg profile input st) then []
      else
        let '(broke, st) := client_iteration cfg profile commands input st in
        input :: (if broke then [] else completed inputs st)
  end.

(** The calls of a whole run: those of the completed iterations, and those of the one
    that was left early. *)
Definition run_traces (inputs : list ClientInput) (st : ClientState) (traces : list (list SessionCall))
    (rest : list SessionCall) : Prop :=
  Forall2 (iteration_calls profile commands) (completed inputs st) traces /\
  (rest = [] \/ exists input, input ∈ inputs /\ partial_calls profile input rest).

Lemma client_loop_makes inputs st :
  let st' := client_loop cfg profile commands inputs st in
  (exists traces rest, run_traces inputs st traces rest /\ makes (concat traces ++ rest) st st') /\
  (length (cl_sent st') <= length (cl_sent st) + length inputs * Z.to_nat (pf_poll_budget profile))%nat.
Proof.
  unfold run_traces. revert st. induction inputs as [|input inputs IH]; intros st; cbn [client_loop completed].
  { split; [|cbn; lia]. exists [], []. split; [split; [constructor|by left]|by apply makes_nil]. }
  destruct (cl_should_exit st).
  { split; [|cbn; lia]. exists [], []. split; [split; [constructor|by left]|by apply makes_nil]. }
  pose proof (client_iteration_makes input st) as H. unfold client_iteration in *.
  destruct (client_input_step cfg profile input st) as [[] st1]; cbn [fst snd] in *.
  { destruct H as [(calls & H1 & H2) Hl]. split; [|cbn; lia]. exists [], calls.
    split; [split; [constructor|right]|exact H1]. exists input. split; [left|done]. }
  destruct H as [(calls & H1 & H2) Hl]. set (st2 := client_transmit _ _ _ _ _) in *.
  destruct (cl_crashed st2).
  { split; [|cbn; lia]. exists [calls], []. split; [split; [by repeat constructor|by left]|].
    cbn. by rewrite !app_nil_r. }
  destruct (IH st2) as [(traces & rest & [Ht Hr] & Hm) Hl2]. split; [|cbn; lia].
  exists (calls :: traces), rest. split; [split; [by constructor|]|].
  - destruct Hr as [->|(i & Hi & Hp)]; [by left|right]. exists i. split; [by right|done].
  - cbn [concat]. rewrite <- app_assoc. by eapply makes_app.
Qed.

(** *** Typed calls *)

Context (Hchannels : Forall channel_ok (pf_channels profile)).

Lemma line_calls_ok line : Forall call_ok (line_calls profile line).
Proof.
  unfold line_calls. case_bool_decide; [constructor|].
  destruct (parse_spawn_command profile line); [constructor|].
  destruct (parse_client_send_command profile line) as [[c payload]|] eqn:E; [|constructor].
  apply parse_client_send_in in E. rewrite Forall_forall in Hchannels.
  pose proof (Hchannels _ E) as Hc. apply Forall_singleton.
  split; [apply Hc|]. split; [by apply channel_ok_named|apply bytes_of_text_typed].
Qed.

Lemma typed_calls_ok input : Forall call_ok (typed_calls profile input).
Proof. unfold typed_calls. destruct (in_stdin_line input); [apply line_calls_ok|constructor]. Qed.

Lemma receive_calls_ok input : input_ok input -> Forall call_ok (receive_calls input).
Proof. intros [H _ _]. by apply Forall_map. Qed.

Lemma partial_calls_ok input calls :
  input_ok input -> partial_calls profile input calls -> Forall call_ok calls.
Proof.
  intros Hi ([] & [] & ->); cbn; rewrite ?app_nil_r; try apply Forall_app_2;
    auto using receive_calls_ok, typed_calls_ok.
Qed.

Lemma iteration_calls_ok input calls :
  input_ok input -> iteration_calls profile commands input calls -> Forall call_ok calls.
Proof.
  intros Hi (reads & polls & boot & -> & _). repeat apply Forall_app_2.
  - destruct (in_socket_ready input); [by apply receive_calls_ok|constructor].
  - destruct reads; [apply typed_calls_ok|constructor].
  - apply Forall_map. apply Hi.
  - apply Forall_map, Forall_true. intros i. apply Hi.
  - by apply Forall_singleton.
  - apply Forall_concat, Forall_map, Forall_true. intros line. apply line_calls_ok.
Qed.

Lemma completed_ok inputs st : Forall input_ok inputs -> Forall input_ok (completed inputs st).
Proof.
  intros H. revert st. induction H as [|input inputs Hi _ IH]; intros st; [constructor|].
  cbn [completed]. destruct (cl_should_exit st); [constructor|].
  destruct (fst _); [constructor|]. destruct (client_iteration _ _ _ _ _) as [[] st1];
    constructor; (done || constructor || apply IH).
Qed.

Lemma run_traces_ok inputs st traces rest :
  Forall input_ok inputs -> run_traces inputs st traces rest -> Forall call_ok (concat traces ++ rest).
Proof.
  intros Hin [Ht Hr]. apply Forall_app_2.
  - apply Forall_concat. pose proof (completed_ok inputs st Hin) as Hc.
    induction Ht as [|input calls ins traces Hx _ IH]; [constructor|].
    apply Forall_cons_1 in Hc as [Hc Hcs]. constructor; [by eapply iteration_calls_ok|by apply IH].
  - destruct Hr as [->|(i & Hi & Hp)]; [constructor|]. rewrite Forall_forall in Hin.
    eapply partial_calls_ok; [by apply Hin|done].
Qed.

(** *** The messages of the load generator *)

Lemma generated_app c1 c2 : generated_of (c1 ++ c2) = generated_of c1 ++ generated_of c2.
Proof. apply omap_app. Qed.

Lemma generated_none calls :
  Forall (fun c => forall g, c <> CallGenerated g) calls -> generated_of calls = [].
Proof. induction 1 as [|c calls Hc _ IH]; [done|]. cbn. destruct c; (done || by destruct (Hc g)). Qed.

Lemma line_calls_generated line : generated_of (line_calls profile line) = [].
Proof. unfold line_calls. by repeat case_match. Qed.

Lemma partial_calls_generated input calls :
  partial_calls profile input calls -> generated_of calls = [].
Proof.
  intros (rx & reads & ->). rewrite generated_app.
  assert (H1 : generated_of (if rx then receive_calls input else []) = []).
  { destruct rx; [|done]. apply generated_none, Forall_map, Forall_true. by intros. }
  assert (H2 : generated_of (if reads then typed_calls profile input else []) = []).
  { destruct reads; [|done]. unfold typed_calls. destruct (in_stdin_line input); [apply line_calls_generated|done]. }
  by rewrite H1, H2.
Qed.

Lemma iteration_calls_generated input calls :
  iteration_calls profile commands input calls -> generated_of calls = in_generated input.
Proof.
  intros (reads & polls & boot & -> & _). rewrite app_assoc, generated_app.
  rewrite (partial_calls_generated input) by by exists (in_socket_ready input), reads.
  rewrite !generated_app.
  assert (H1 : generated_of (poll_calls (in_poll_times input) 0 polls) = [])
    by (apply generated_none, Forall_map, Forall_true; by intros).
  assert (H2 : generated_of (concat (map (line_calls profile) (take boot commands))) = []).
  { induction (take boot commands) as [|c cs IH]; [done|]. cbn [map concat].
    by rewrite generated_app, line_calls_generated. }
  rewrite H1, H2. cbn [app]. rewrite app_nil_r. cbn. induction (in_generated input); cbn; by f_equal.
Qed.

Lemma run_traces_generated inputs st traces rest :
  run_traces inputs st traces rest ->
  generated_of (concat traces ++ rest) = concat (map in_generated (completed inputs st)).
Proof.
  intros [Ht Hr]. rewrite generated_app.
  assert (Hn : generated_of rest = []) by (destruct Hr as [->|(i & _ & Hp)]; [done|by eapply partial_calls_generated]).
  rewrite Hn, app_nil_r. induction Ht as [|input calls ins trs Hx _ IH]; [done|].
  cbn [concat map]. by rewrite generated_app, IH, (iteration_calls_generated input).
Qed.
End loop.

(** The whole application: the calls that lead from a new session to the one it ends
    with, and what they sent. *)
Lemma client_main_traces cfg profile isn bootstrap tty inputs :
  let st := client_main cfg profile isn bootstrap tty inputs in
  (exists traces rest,
     run_traces cfg profile (fst bootstrap) inputs (client_start profile isn bootstrap tty) traces rest /\
     run_calls cfg (concat traces ++ rest) ([], new_session Client isn) = (cl_sent st, cl_session st)) /\
  (length (cl_sent st) <= length inputs * Z.to_nat (pf_poll_budget profile))%nat.
Proof.
  unfold client_main.
  destruct (client_loop_makes cfg profile (fst bootstrap) inputs (client_start profile isn bootstrap tty))
    as [(traces & rest & Ht & Hm) Hl].
  set (st := client_loop _ _ _ _ _) in *. clearbody st.
  split; [exists traces, rest; split; [exact Ht|]|]; by destruct (cl_crashed st).
Qed.

Lemma client_main_calls cfg profile isn bootstrap tty inputs :
  Forall channel_ok (pf_channels profile) -> is_u32 isn -> Forall input_ok inputs ->
  let st := client_main cfg profile isn bootstrap tty inputs in
  star (session_step cfg) (new_session Client isn) (cl_session st) /\
  reachable cfg (cl_session st) /\
  (length (cl_sent st) <= length inputs * Z.to_nat (pf_poll_budget profile))%nat.
Proof.
  intros Hp Hi Hin. destruct (client_main_traces cfg profile isn bootstrap tty inputs)
    as [(traces & rest & Ht & Hr) Hl]. cbn zeta.
  pose proof (run_calls_star cfg (concat traces ++ rest) [] (new_session Client isn)
    (run_traces_ok _ _ _ Hp _ _ _ _ Hin Ht)) as H. rewrite Hr in H. cbn [snd] in H.
  split; [exact H|]. split; [by exists Client, isn|exact Hl].
Qed.

(** ** Properties *)

(** The client application refines the session. Whatever the network,
    the terminal, the bootstrap file and the load generator supply, over any
    number of iterations, the session the client ends with is one that calls of
    the session's own operations, with well-typed arguments, lead to from a new
    client session; so every invariant of reachable sessions holds in the
    application. At most [poll_budget] datagrams are sent per iteration. *)
Theorem client_app_refines_session cfg profile isn bootstrap tty inputs :
  profile_ready profile -> is_u32 isn -> Forall input_ok inputs ->
  let st := client_main cfg profile isn bootstrap tty inputs in
  star (session_step cfg) (new_session Client isn) (cl_session st) /\
  reachable cfg (cl_session st) /\
  (length (cl_sent st) <= length inputs * Z.to_nat (pf_poll_budget profile))%nat.
Proof. intros Hp. apply client_main_calls, (pr_channels _ Hp). Qed.

Definition sample_ready_profile : RuntimeProfile :=
  {| pf_mode := ModeClient; pf_bind_address := "0.0.0.0"; pf_bind_port := 0;
     pf_remote_address := "127.0.0.1"; pf_remote_port := 9000; pf_log_path := "c.log";
     pf_socket_buffer_size := 1500; pf_loop_sleep_us := 10000; pf_select_timeout_us := 10000;
     pf_poll_budget := 8;
     pf_channels := [mkChannel 1 "chat" Unreliable true; mkChannel 3 "stream" ReliableOrdered false] |}.

Lemma sample_profile_ready : profile_ready sample_ready_profile.
Proof.
  constructor; cbn.
  - constructor; cbn; try (unfold is_u16, is_u32, is_u64; lia).
    repeat apply Forall_cons_2; try apply Forall_nil_2; unfold is_u32; cbn; lia.
  - repeat apply Forall_cons_2; try apply Forall_nil_2; (split; [unfold is_u32; cbn; lia|exact I]).
  - apply Exists_cons_hd. reflexivity.
  - split; discriminate.
Qed.

Definition sample_input : ClientInput :=
  {| in_stop_requested := false; in_select_failed := false; in_socket_ready := false;
     in_datagrams := []; in_alloc_fails := false; in_stdin_ready := true;
     in_stdin_line := Some "hello"; in_generated := [];
     in_system := fun _ => mkCommandSystem 0 None; in_poll_times := fun _ => 0 |}.

Lemma client_app_refines_session_witness :
  let st := client_main default_transport sample_ready_profile 7 ([], []) true [sample_input] in
  reachable default_transport (cl_session st) /\ (1 <= length (cl_sent st) <= 8)%nat.
Proof.
  destruct (client_app_refines_session default_transport sample_ready_profile 7 ([], []) true
    [sample_input]) as (_ & H1 & H2).
  - exact sample_profile_ready.
  - unfold is_u32; lia.
  - apply Forall_singleton. constructor; [apply Forall_nil_2|apply Forall_nil_2|].
    intros i. apply is_u64_0.
  - split; [exact H1|]. split; [vm_compute; lia|exact H2].
Defined.

(** The command line is read as its usage text says. A channel is found
    by its name, or by its number when no channel has that number for a name; then
    [send <channel> <message>] yields that channel and the whole message, spaces
    included, and [/spawn <channel> <threads> <count> <interval> <payload>] yields
    the channel, the three numbers and the whole payload. *)
Theorem client_commands_parsed profile c token message threads count interval :
  channels_distinct profile -> c ∈ pf_channels profile -> is_u32 (ch_id c) ->
  token = ch_name c \/
    (token = to_string (ch_id c) /\ forall d, d ∈ pf_channels profile -> ch_name d <> token) ->
  no_char " " token = true -> is_u32 threads -> is_u32 count -> is_u32 interval ->
  parse_client_send_command profile (send_line token message) = Some (c, message) /\
  parse_spawn_command profile (spawn_line token threads count interval message) =
    Some {| sc_channel := c; sc_thread_count := threads; sc_message_count := count;
            sc_interval_ms := interval; sc_payload := message |}.
Proof.
  intros Hd Hc Hi Ht Hn H1 H2 H3.
  assert (Hf : find_channel profile token = Some c).
  { destruct Ht as [->|[-> Hother]]; [by apply find_channel_name|by apply find_channel_id]. }
  split; [by apply parse_send_line|by apply parse_spawn_line].
Qed.

Lemma client_commands_parsed_witness :
  parse_client_send_command sample_ready_profile (send_line "3" "a b c") =
    Some (mkChannel 3 "stream" ReliableOrdered false, "a b c") /\
  parse_spawn_command sample_ready_profile (spawn_line "3" 2 10 5 "a b c") =
    Some (mkSpawnCommand (mkChannel 3 "stream" ReliableOrdered false) 2 10 5 "a b c").
Proof.
  apply (client_commands_parsed sample_ready_profile (mkChannel 3 "stream" ReliableOrdered false)
    "3" "a b c" 2 10 5); try (unfold is_u32; cbn; lia).
  - split; (apply NoDup_cons; split; [set_solver|apply NoDup_singleton]).
  - right; left.
  - right. split; [reflexivity|]. intros d Hd. cbn in Hd.
    apply elem_of_cons in Hd as [->|Hd]; [discriminate|].
    apply list_elem_of_singleton in Hd as ->. discriminate.
Defined.

(** Every line has an outcome. With a ready profile a line that is not
    one of the commands is queued, whole, on the default channel; a line is
    rejected only when it starts with [send ] and names no known channel or has
    no message (or a thread it asks for cannot be started, which ends the client). So a [/spawn] command with a missing field, a bad number or an
    unknown channel is not rejected: its text is sent to the peer as data. *)
Theorem client_line_outcome profile session system line exit :
  profile_ready profile ->
  let r := process_client_command profile session system line exit in
  (cr_handled r = false -> cr_thrown r = false ->
     starts_with line "send " = true /\ cr_session r = session /\ cr_log r = [unknown_command]) /\
  (~ (line ∈ ["/quit"; "/channels"; "/workers"; "/stop-load"]) ->
   starts_with line "send " = false -> parse_spawn_command profile line = None ->
   exists c, default_channel profile = Some c /\ ch_is_default c = true /\
     r = mkCommandResult true
           (queue_send (ch_id c) (ch_type c) (bytes_of_text line) session) exit [] [] false).
Proof.
  intros Hp. destruct (default_channel_ready profile Hp) as (c & Ec & _ & Hcd).
  unfold process_client_command. split.
  - do 4 (case_match; [done|]).
    destruct (parse_spawn_command profile line); [by destruct (spawn_throws _ _)|].
    destruct (parse_client_send_command profile line) as [[d payload]|] eqn:E; [done|].
    intros _ _. split; [|done]. unfold parse_client_send_command in E. rewrite Ec in E.
    by destruct (starts_with line "send ").
  - intros Hl Hs Hn.
    repeat (rewrite not_elem_of_cons in Hl; destruct Hl as [? Hl]).
    rewrite !(proj2 (String.eqb_neq _ _)), Hn by done.
    unfold parse_client_send_command. rewrite Hs, Ec. by exists c.
Qed.

Lemma client_line_outcome_witness :
  process_client_command sample_ready_profile (new_session Client 7) (mkCommandSystem 0 None)
    "/spawn stream 2 x 5 data" false =
  mkCommandResult true
    (queue_send 1 Unreliable (bytes_of_text "/spawn stream 2 x 5 data") (new_session Client 7))
    false [] [] false.
Proof.
  destruct (client_line_outcome sample_ready_profile (new_session Client 7) (mkCommandSystem 0 None)
    "/spawn stream 2 x 5 data" false sample_profile_ready) as [_ H].
  destruct H as (c & Hc & _ & Hr).
  - intros Hin. repeat (apply elem_of_cons in Hin as [Hin|Hin]; [discriminate Hin|]).
    exact (not_elem_of_nil _ Hin).
  - reflexivity.
  - reflexivity.
  - cbn in Hc. injection Hc as <-. exact Hr.
Defined.
