(* ===== verification/ClientLoad.v ===== *)
(** The client application together with its load generator: the main thread's
    loop and the worker threads, in any interleaving.

    [ClientApp] has the calls on the load generator as requests and what [drain]
    returns as an input; here the requests are carried out and the input is what
    the queue holds. *)

From S2P Require Import Prelude StdMap Protocol Utils Codec Text Config ConfigEnv SessionTypes.
From S2P Require Import Session RuntimeLogger BsdUdpSocket LoadGenerator ClientApp ClientAppSpec.

(** ** Calls on the load generator *)

Definition LgState : Type := LoadGenerator * list LgEvent.

(** A step of a worker. *)
Inductive lg_worker : LgState -> LgState -> Prop :=
| lg_worker_step k lg lg' tr evs :
    worker_step k lg = Some (lg', evs) -> lg_worker (lg, tr) (lg', tr ++ evs).

(** A step while [spawn] runs. *)
Inductive lg_spawning : LgState -> LgState -> Prop :=
| lg_spawning_worker s s' : lg_worker s s' -> lg_spawning s s'
| lg_spawning_next lg lg' tr : spawn_next true lg = Some lg' -> lg_spawning (lg, tr) (lg', tr).

(** A whole call, with what the workers do meanwhile. *)
Inductive lg_call : LgRequest -> LgState -> LgState -> Prop :=
| lg_call_stop lg tr lg1 lg2 tr2 lg3 evs :
    stop_begin lg = Some lg1 -> star lg_worker (lg1, tr) (lg2, tr2) ->
    stop_finish lg2 = Some (lg3, evs) -> lg_call ReqStopAll (lg, tr) (lg3, tr2 ++ evs)
| lg_call_spawn args n lg tr lg1 s2 :
    spawn_begin args n lg = Some lg1 -> star lg_spawning (lg1, tr) s2 ->
    lg_main (fst s2) = MainIdle -> lg_call (ReqSpawn args n) (lg, tr) s2
| lg_call_spawn_throws args n created lg tr lg1 lg2 tr2 lg3 :
    spawn_begin args n lg = Some lg1 -> star lg_spawning (lg1, tr) (lg2, tr2) ->
    lg_main lg2 = Spawning args (Z.of_nat created) n -> spawn_next false lg2 = Some lg3 ->
    lg_call (ReqSpawnThrows args n created) (lg, tr) (lg3, tr2).

(** The calls one after the other, the workers running before, between and after. *)
Inductive lg_calls : list LgRequest -> LgState -> LgState -> Prop :=
| lg_calls_nil s s' : star lg_worker s s' -> lg_calls [] s s'
| lg_calls_cons r rs s s1 s2 s' :
    star lg_worker s s1 -> lg_call r s1 s2 -> lg_calls rs s2 s' -> lg_calls (r :: rs) s s'.

(** ** The loop *)

Section joint.
Context (cfg : TransportSettings) (profile : RuntimeProfile) (commands : list string).

(** The requests a part of an iteration made. *)
Definition new_requests (st st' : ClientState) : list LgRequest :=
  drop (length (cl_requests st)) (cl_requests st').

(** An iteration left before the drain, and one that gets to it: the commands of the
    terminal, the drain, and the commands of the bootstrap file. *)
Inductive joint_iteration (input : ClientInput)
    : ClientState * LgState -> bool -> ClientState * LgState -> Prop :=
| joint_break st s st' s' :
    client_input_step cfg profile input st = (true, st') ->
    lg_calls (new_requests st st') s s' ->
    joint_iteration input (st, s) true (st', s')
| joint_complete broke st s st1 lg tr lg' s' :
    client_input_step cfg profile input st = (false, st1) ->
    lg_calls (new_requests st st1) s (lg, tr) ->
    drain lg = (in_generated input, lg') ->
    let st2 := client_transmit cfg profile commands input st1 in
    lg_calls (new_requests st1 st2) (lg', tr ++ [EvDrain (in_generated input)]) s' ->
    broke = cl_crashed st2 -> joint_iteration input (st, s) broke (st2, s').

Inductive joint_loop : list ClientInput -> ClientState * LgState -> ClientState * LgState -> Prop :=
| joint_nil p : joint_loop [] p p
| joint_exit inputs st s : cl_should_exit st = true -> joint_loop inputs (st, s) (st, s)
| joint_last input inputs st s p :
    cl_should_exit st = false -> joint_iteration input (st, s) true p ->
    joint_loop (input :: inputs) (st, s) p
| joint_cons input inputs st s p p' :
    cl_should_exit st = false -> joint_iteration input (st, s) false p -> joint_loop inputs p p' ->
    joint_loop (input :: inputs) (st, s) p'.

(** ** What the load generator sees is a run of its own *)

Definition request_ok (r : LgRequest) : Prop :=
  match r with
  | ReqStopAll => True
  | ReqSpawn args n | ReqSpawnThrows args n _ => is_u32 (sa_message_count args) /\ is_u32 n
  end.

(** The call that does not return. *)
Definition request_throws (r : LgRequest) : bool :=
  match r with ReqSpawnThrows _ _ _ => true | _ => false end.

Lemma worker_runs s s' : star lg_worker s s' -> star lg_step s s'.
Proof.
  intros H. induction H as [|y z _ IH Hw]; [apply star_refl|]. destruct Hw as [k lg lg' tr evs E].
  eapply star_snoc; [exact IH|]. by eapply LgWorker.
Qed.

(** No step of a worker moves the main thread or drains. *)
Lemma worker_keeps s s' :
  star lg_worker s s' -> lg_main (fst s') = lg_main (fst s) /\ drained (snd s') = drained (snd s).
Proof.
  intros H. apply (star_inv lg_worker (fun x => lg_main (fst x) = lg_main (fst s) /\
    drained (snd x) = drained (snd s))) with (a := s); [|done|done].
  intros x y [H1 H2] Hw. destruct Hw as [k lg lg' tr evs E]. cbn [fst snd] in *. unfold worker_step in E.
  destruct (workers lg !! k) as [w|]; [|done].
  destruct (w_pc w); try done; injection E as <- <-; (split; [exact H1|]);
    rewrite drained_app, H2; apply app_nil_r.
Qed.

Lemma spawning_runs s s' :
  star lg_spawning s s' -> star lg_step s s' /\ drained (snd s') = drained (snd s).
Proof.
  intros H. induction H as [|y z _ [IH1 IH2] Hs]; [split; [apply star_refl|done]|].
  destruct Hs as [y z Hw|lg lg' tr E].
  - apply star_one in Hw. split; [eapply star_trans; [exact IH1|by apply worker_runs]|].
    destruct (worker_keeps _ _ Hw) as [_ ->]. done.
  - split; [eapply star_snoc; [exact IH1|by eapply LgSpawnNext]|done].
Qed.

Lemma lg_call_runs r s s' :
  request_ok r -> lg_call r s s' ->
  star lg_step s s' /\ drained (snd s') = drained (snd s) /\
  (request_throws r = false -> lg_main (fst s') = MainIdle).
Proof.
  intros Hr Hc. destruct Hc as [lg tr lg1 lg2 tr2 lg3 evs E1 Hs E2|args n lg tr lg1 s2 E1 Hs Hm
    |args n created lg tr lg1 lg2 tr2 lg3 E1 Hs Hm E2].
  - destruct (worker_keeps _ _ Hs) as [_ Hd]. cbn [fst snd] in *.
    assert (Hf : lg_main lg3 = MainIdle /\ evs = [EvJoin]).
    { unfold stop_finish in E2. destruct (lg_main lg2); try done. destruct (all_returned lg2); [|done].
      by injection E2 as <- <-. }
    destruct Hf as [Hf ->]. split_and!; [|by rewrite drained_app, Hd, app_nil_r|done].
    eapply star_snoc; [|by apply LgJoin]. eapply star_trans; [|by apply worker_runs].
    apply star_one. by apply LgStop.
  - destruct (spawning_runs _ _ Hs) as [Hrun Hd]. destruct Hr. split_and!; [|exact Hd|done].
    eapply star_trans; [|exact Hrun]. apply star_one. by eapply LgSpawn.
  - destruct (spawning_runs _ _ Hs) as [Hrun Hd]. destruct Hr. split_and!; [|exact Hd|done].
    eapply star_snoc; [|by eapply LgSpawnNext].
    eapply star_trans; [|exact Hrun]. apply star_one. by eapply LgSpawn.
Qed.

Lemma lg_calls_run rs s s' :
  Forall request_ok rs -> lg_calls rs s s' ->
  star lg_step s s' /\ drained (snd s') = drained (snd s) /\
  (lg_main (fst s) = MainIdle -> Forall (fun r => request_throws r = false) rs ->
   lg_main (fst s') = MainIdle).
Proof.
  intros Hr Hc. induction Hc as [s s' Hw|r rs s s1 s2 s' Hw Hc _ IH].
  - destruct (worker_keeps _ _ Hw) as [-> ->]. split; [by apply worker_runs|done].
  - apply Forall_cons_1 in Hr as [Hr Hrs]. destruct (worker_keeps _ _ Hw) as [_ Hd1].
    destruct (lg_call_runs r s1 s2 Hr Hc) as (H1 & H2 & H3).
    destruct (IH Hrs) as (H4 & H5 & H6). split_and!; [|congruence|].
    + eapply star_trans; [by apply worker_runs|]. by eapply star_trans.
    + intros _ [Ht Hts]%Forall_cons_1. apply H6; [by apply H3|done].
Qed.

(** ** The requests of the client *)

Lemma command_requests_ok session system line exit :
  let r := process_client_command profile session system line exit in
  Forall request_ok (cr_requests r) /\
  (cr_thrown r = false -> Forall (fun r => request_throws r = false) (cr_requests r)).
Proof.
  assert (Hnil : Forall request_ok [] /\ (false = false -> Forall (fun r => request_throws r = false) []))
    by (split; [|intros _]; apply Forall_nil_2).
  unfold process_client_command.
  repeat match goal with |- context [if ?b then _ else _] => destruct b end; try exact Hnil.
  { split; [|intros _]; by apply Forall_singleton. }
  destruct (parse_spawn_command profile line) as [c|] eqn:E.
  - assert (Hc : is_u32 (sa_message_count (spawn_args c)) /\ is_u32 (sc_thread_count c)).
    { cbn. revert E. unfold parse_spawn_command, stoul_u32.
      repeat case_match; try done; intros [= <-]; cbn; simplify_option_eq; split; apply u32_range. }
    destruct (spawn_throws system (sc_thread_count c)); cbn [cr_requests cr_thrown];
      (split; [by apply Forall_singleton|]); [done|]. intros _. by apply Forall_singleton.
  - by destruct (parse_client_send_command profile line) as [[]|].
Qed.

(** The requests only grow, by well-typed ones; while no exception is thrown, by ones
    that return. *)
Definition requests_grow (st st' : ClientState) : Prop :=
  exists rs, cl_requests st' = cl_requests st ++ rs /\ Forall request_ok rs /\
    (cl_crashed st' = false -> cl_crashed st = false /\
                               Forall (fun r => request_throws r = false) rs).

Lemma grow_refl st st' :
  cl_requests st' = cl_requests st -> (cl_crashed st' = false -> cl_crashed st = false) ->
  requests_grow st st'.
Proof.
  intros E Hc. exists []. rewrite app_nil_r. split_and!; [done|apply Forall_nil_2|].
  intros H. split; [by apply Hc|apply Forall_nil_2].
Qed.

Lemma grow_trans st1 st2 st3 : requests_grow st1 st2 -> requests_grow st2 st3 -> requests_grow st1 st3.
Proof.
  intros (r1 & E1 & H1 & C1) (r2 & E2 & H2 & C2). exists (r1 ++ r2). rewrite E2, E1, app_assoc.
  split_and!; [done|by apply Forall_app|]. intros H. destruct (C2 H) as [H' T2].
  destruct (C1 H') as [H'' T1]. split; [done|by apply Forall_app].
Qed.

Lemma grow_new st st' :
  requests_grow st st' ->
  Forall request_ok (new_requests st st') /\
  (cl_crashed st' = false -> Forall (fun r => request_throws r = false) (new_requests st st')).
Proof.
  intros (rs & E & H & Hc). unfold new_requests. rewrite E, drop_app_length. split; [done|].
  intros Hf. by apply Hc.
Qed.

Lemma run_command_grows system line st : requests_grow st (run_command profile system line st).
Proof.
  destruct (command_requests_ok (cl_session st) system line (cl_should_exit st)) as [H1 H2].
  eexists. split; [reflexivity|]. split; [exact H1|]. cbn. intros [Ha Hb]%orb_false_iff.
  split; [exact Ha|by apply H2].
Qed.

Lemma run_bootstrap_grows system i cmds st :
  requests_grow st (run_bootstrap profile system i cmds st).
Proof.
  revert i st. induction cmds as [|c cmds IH]; intros i st; [by apply grow_refl|].
  cbn [run_bootstrap]. set (st1 := st <| cl_log ::= _ |>).
  assert (H : requests_grow st (run_command profile (system i) c st1))
    by (eapply grow_trans; [by apply (grow_refl st st1)|apply run_command_grows]).
  destruct (_ || _); [done|]. by eapply grow_trans.
Qed.

Lemma input_step_grows input st : requests_grow st (snd (client_input_step cfg profile input st)).
Proof.
  unfold client_input_step. destruct (in_stop_requested input); [by apply grow_refl|].
  destruct (in_select_failed input); [by apply grow_refl|].
  assert (H1 : requests_grow st (client_receive cfg profile input st)).
  { unfold client_receive. destruct (negb _); [by apply grow_refl|].
    destruct (buffer_too_large _); apply grow_refl; try done. cbn. by intros [? _]%orb_false_iff. }
  set (st1 := client_receive cfg profile input st) in *. clearbody st1.
  destruct (cl_crashed st1); [done|]. destruct (_ && _); [|done].
  destruct (in_stdin_line input); (eapply grow_trans; [exact H1|]); [apply run_command_grows|].
  by apply grow_refl.
Qed.

(** The loop goes on only when no exception was thrown. *)
Lemma input_step_runs input st st' :
  client_input_step cfg profile input st = (false, st') -> cl_crashed st' = false.
Proof.
  unfold client_input_step. destruct (in_stop_requested input); [done|].
  destruct (in_select_failed input); [done|].
  destruct (cl_crashed (client_receive cfg profile input st)) eqn:E; [done|].
  destruct (_ && _); [|by intros [= <-]]. destruct (in_stdin_line input); [|by intros [= <-]].
  intros [= H <-]. by apply orb_false_iff in H as [H _].
Qed.

Lemma transmit_grows input st :
  requests_grow st (client_transmit cfg profile commands input st).
Proof.
  unfold client_transmit. set (st1 := st <| cl_session ::= _ |>).
  destruct (poll_loop _ _ _ _ _) as [sent s2]. set (st2 := (st1 <| cl_session := s2 |>) <| cl_sent ::= _ |>).
  destruct (drain_client_events _) as [lines s3]. set (st3 := (st2 <| cl_session := s3 |>) <| cl_log ::= _ |>).
  assert (H3 : requests_grow st st3) by (by apply grow_refl). clearbody st3.
  set (bootstrapping := negb _ && _). set (st4 := if bootstrapping then _ else st3).
  assert (H4 : requests_grow st st4).
  { subst st4. destruct bootstrapping; [|done]. eapply grow_trans; [exact H3|apply run_bootstrap_grows]. }
  clearbody st4 bootstrapping. destruct (cl_crashed st4); [done|].
  destruct bootstrapping; case_bool_decide; try done;
    (eapply grow_trans; [exact H4|]); by apply grow_refl.
Qed.

(** ** The joint run *)

Lemma joint_iteration_runs input st s broke st' s' :
  lg_main (fst s) = MainIdle -> joint_iteration input (st, s) broke (st', s') ->
  client_iteration cfg profile commands input st = (broke, st') /\ star lg_step s s' /\
  (cl_crashed st' = false -> lg_main (fst s') = MainIdle) /\ (broke = false -> cl_crashed st' = false) /\
  drained (snd s') = drained (snd s) ++
    (if fst (client_input_step cfg profile input st) then [] else in_generated input).
Proof.
  intros Hm Hj. unfold client_iteration.
  inversion Hj as [? ? ? ? E Hc|? ? ? st1 lg tr lg' ? E Hc1 Ed st2 Hc2 Hb]; subst; clear Hj; rewrite E;
    pose proof (input_step_grows input st) as Hg; rewrite E in Hg; cbn [fst snd] in *;
    apply grow_new in Hg as [Hg Ht].
  - destruct (lg_calls_run _ _ _ Hg Hc) as (H1 & H2 & H3).
    split_and!; [done|done|auto|done|by rewrite app_nil_r].
  - pose proof (input_step_runs _ _ _ E) as Hrun.
    destruct (lg_calls_run _ _ _ Hg Hc1) as (H1 & H2 & H3). cbn [fst snd] in *.
    specialize (H3 Hm (Ht Hrun)).
    assert (Hm' : lg_main lg' = MainIdle) by (rewrite drain_spec in Ed; by injection Ed as _ <-).
    destruct (grow_new _ _ (transmit_grows input st1)) as [Hg2 Ht2].
    destruct (lg_calls_run _ (lg', _) _ Hg2 Hc2) as (H4 & H5 & H6).
    cbn [fst snd] in H5, H6. split_and!; [done| |auto|done|].
    + eapply star_trans; [exact H1|]. eapply star_trans; [|exact H4]. apply star_one.
      by apply LgDrain.
    + rewrite H5, drained_app, H2. cbn. by rewrite app_nil_r.
Qed.

Lemma joint_loop_runs inputs st s st' s' :
  lg_main (fst s) = MainIdle -> cl_crashed st = false -> joint_loop inputs (st, s) (st', s') ->
  client_loop cfg profile commands inputs st = st' /\
  star lg_step s s' /\ (cl_crashed st' = false -> lg_main (fst s') = MainIdle) /\
  drained (snd s') =
    drained (snd s) ++ concat (map in_generated (completed cfg profile commands inputs st)).
Proof.
  revert st s. induction inputs as [|input inputs IH]; intros st s Hm Hcr Hj.
  - inversion Hj; subst; cbn; rewrite app_nil_r; split_and!; (done || apply star_refl).
  - cbn [client_loop completed]. inversion Hj as [| |? ? ? ? ? Hx Hi|? ? ? ? [st1 s1] ? Hx Hi Hl]; subst.
    + match goal with H : cl_should_exit _ = true |- _ => rewrite H end.
      cbn. rewrite app_nil_r. split_and!; (done || apply star_refl).
    + rewrite Hx. destruct (joint_iteration_runs _ _ _ _ _ _ Hm Hi) as (-> & H1 & H2 & _ & H3).
      split_and!; [done|done|done|]. rewrite H3.
      destruct (fst (client_input_step cfg profile input st)); [done|]. cbn. by rewrite app_nil_r.
    + rewrite Hx. destruct (joint_iteration_runs _ _ _ _ _ _ Hm Hi) as (E & H1 & H2 & Hf & H3).
      rewrite E. specialize (Hf eq_refl).
      destruct (IH st1 s1 (H2 Hf) Hf Hl) as (-> & H4 & H5 & H6).
      split_and!; [done|by eapply star_trans|done|]. rewrite H6, H3.
      assert (Es : fst (client_input_step cfg profile input st) = false).
      { unfold client_iteration in E. by destruct (client_input_step cfg profile input st) as [[] ?]. }
      rewrite Es. cbn. by rewrite app_assoc.
Qed.
End joint.

(** ** Properties *)

(** [client_main] with its load generator: the loop, then [stop_all], unless an
    exception ended the process. *)
Definition joint_main (cfg : TransportSettings) (profile : RuntimeProfile) (isn : Z)
    (bootstrap : list string * list string) (is_a_tty : bool) (inputs : list ClientInput)
    (st : ClientState) (s : LgState) : Prop :=
  exists st1 s1,
    joint_loop cfg profile (fst bootstrap) inputs
      (client_start profile isn bootstrap is_a_tty, (new_load_generator, [])) (st1, s1) /\
    if cl_crashed st1 then st = st1 /\ s = s1
    else
      st = st1 <| cl_log ::= fun l =>
                    l ++ [format_session_summary "[client]" (st_stats (cl_session st1))] |>
               <| cl_requests ::= fun l => l ++ [ReqStopAll] |> /\
      exists s2, star lg_worker s1 s2 /\ lg_call ReqStopAll s2 s.

(** C31: the client and its load generator together. In every run, with the worker
    threads interleaved in any way, the client behaves as [client_main] does with the
    drained messages as inputs, and there is the list of the calls it made on its
    session. These calls, run from a new session, give exactly the session the client
    ends with and exactly the datagrams it sent. Each iteration that got to the drain
    contributes, in this order: its datagrams, the line it read, [queue_send] of every
    message it drained, in the order drained, its polls, the drain of the events, and
    the bootstrap commands. Over the run, the messages of the load generator given to
    the session, followed by those still queued at the end, are exactly the messages
    that the workers pushed, once each and in the order of the pushes. When the client
    returns (no exception ended it) no worker is left. And all that the load generator
    promises holds, since the client never calls it while another call runs. *)
Theorem client_load_exact cfg profile isn bootstrap tty inputs st lg tr :
  joint_main cfg profile isn bootstrap tty inputs st (lg, tr) ->
  st = client_main cfg profile isn bootstrap tty inputs /\
  (exists traces rest,
     run_traces cfg profile (fst bootstrap) inputs (client_start profile isn bootstrap tty) traces rest /\
     run_calls cfg (concat traces ++ rest) ([], new_session Client isn) = (cl_sent st, cl_session st) /\
     pushed tr = generated_of (concat traces ++ rest) ++ lg_queue lg) /\
  (cl_crashed st = false -> workers lg = [] /\ worker_count lg = 0) /\ lg_reachable (lg, tr).
Proof.
  intros (st1 & s1 & Hl & Hend).
  destruct (joint_loop_runs cfg profile (fst bootstrap) inputs (client_start profile isn bootstrap tty)
    (new_load_generator, []) _ _ eq_refl eq_refl Hl)
    as (E & H1 & Hm & Hd).
  assert (Hfin : st = client_main cfg profile isn bootstrap tty inputs /\ lg_reachable (lg, tr) /\
    drained tr = drained (snd s1) /\ (cl_crashed st = false -> workers lg = [] /\ worker_count lg = 0)).
  { unfold client_main. rewrite E. destruct (cl_crashed st1) eqn:Ec.
    - destruct Hend as [-> <-]. split_and!; [done|exact H1|done|congruence].
    - destruct Hend as (-> & s2 & Hw & Hc). destruct (worker_keeps _ _ Hw) as [_ Hd2].
      destruct (lg_call_runs ReqStopAll s2 (lg, tr) I Hc) as (H3 & Hd3 & _). cbn [snd] in *.
      split_and!; [done| |congruence|].
      + eapply star_trans; [exact H1|]. eapply star_trans; [by apply worker_runs|exact H3].
      + intros _. inversion Hc as [? ? ? lg2 ? ? ? _ _ Hf| |]; subst. revert Hf. unfold stop_finish.
        destruct (lg_main lg2); try discriminate. destruct (all_returned lg2); [|discriminate].
        by intros [= <- _]. }
  destruct Hfin as (Est & Hreach & Hdr & Hw). split; [exact Est|].
  split; [|by split]. destruct (client_main_traces cfg profile isn bootstrap tty inputs)
    as [(traces & rest & Ht & Hr) _]. rewrite <- Est in Hr.
  exists traces, rest. split; [exact Ht|]. split; [exact Hr|].
  destruct (lg_reachable_ok _ Hreach) as [_ Hq _ _ _ _ _]. cbn [fst snd] in Hq, Hd.
  rewrite Hq, Hdr, Hd, (run_traces_generated _ _ _ _ _ _ _ Ht). done.
Qed.

(** A client that is told to spawn a worker with one message, and drains it in the
    next iteration. *)
Definition load_input (line : option string) (generated : list QueuedSend) : ClientInput :=
  mkClientInput false false false [] false (negb (bool_decide (line = None))) line generated
    (fun _ => mkCommandSystem 0 None) (fun _ => 0).

Definition load_message : QueuedSend := mkQueuedSend 1 ReliableOrdered "x [t0 #0]".
Definition load_inputs : list ClientInput :=
  [load_input (Some "/spawn 1 1 1 0 x") []; load_input None [load_message]].
Definition load_profile : RuntimeProfile :=
  default_profile <| pf_channels := [mkChannel 1 "chat" ReliableOrdered true] |>.

Definition load_args : SpawnArgs :=
  {| sa_channel_id := 1; sa_channel_type := ReliableOrdered; sa_message_count := 1;
     sa_interval_ms := 0; sa_payload := "x" |}.
Definition load_lg (queue : list QueuedSend) (produced : Z) : LoadGenerator :=
  {| stop_requested := false; active_worker_count := 1; lg_queue := queue;
     workers := [mkWorker load_args 0 produced AtCheck]; lg_main := MainIdle |}.
Definition load_end : LoadGenerator :=
  {| stop_requested := true; active_worker_count := 0; lg_queue := []; workers := [];
     lg_main := MainIdle |}.
Definition load_trace : list LgEvent :=
  [EvDrain []; EvPush 0 load_message; EvDrain [load_message]; EvJoin].

Lemma load_spawned :
  lg_calls [ReqSpawn load_args 1] (new_load_generator, []) (load_lg [] 0, []).
Proof.
  eapply lg_calls_cons; [apply star_refl| |apply lg_calls_nil, star_refl].
  eapply lg_call_spawn; [reflexivity| |reflexivity].
  eapply star_snoc; [eapply star_snoc; [apply star_refl|]|]; apply lg_spawning_next; reflexivity.
Qed.

Lemma load_pushed :
  lg_calls [] (load_lg [] 0, [EvDrain []]) (load_lg [load_message] 1, [EvDrain []; EvPush 0 load_message]).
Proof.
  apply lg_calls_nil. eapply star_snoc; [eapply star_snoc; [apply star_refl|]|].
  - eapply (lg_worker_step 0 _ _ [EvDrain []] []). reflexivity.
  - eapply (lg_worker_step 0 _ _ [EvDrain []] [EvPush 0 load_message]). reflexivity.
Qed.

Lemma load_stopped :
  lg_call ReqStopAll (load_lg [] 1, [EvDrain []; EvPush 0 load_message; EvDrain [load_message]])
    (load_end, load_trace).
Proof.
  eapply (lg_call_stop _ _ _ _ [EvDrain []; EvPush 0 load_message; EvDrain [load_message]] _ [EvJoin]).
  - reflexivity.
  - eapply star_snoc; [eapply star_snoc; [apply star_refl|]|];
      eapply (lg_worker_step 0 _ _ [EvDrain []; EvPush 0 load_message; EvDrain [load_message]] []);
      reflexivity.
  - reflexivity.
Qed.

Lemma load_run :
  joint_main default_transport load_profile 7 ([], []) true load_inputs
    (client_main default_transport load_profile 7 ([], []) true load_inputs) (load_end, load_trace).
Proof.
  set (st0 := client_start load_profile 7 ([], []) true).
  set (i1 := load_input (Some "/spawn 1 1 1 0 x") []). set (i2 := load_input None [load_message]).
  set (st1 := snd (client_input_step default_transport load_profile i1 st0)).
  set (st2 := client_transmit default_transport load_profile [] i1 st1).
  set (st3 := client_transmit default_transport load_profile [] i2 st2).
  exists st3, (load_lg [] 1, [EvDrain []; EvPush 0 load_message; EvDrain [load_message]]).
  split; [|assert (cl_crashed st3 = false) as -> by (vm_compute; reflexivity);
           split; [vm_compute; reflexivity|]; eexists; split; [apply star_refl|apply load_stopped]].
  apply (joint_cons _ _ _ i1 [i2] _ _ (st2, (load_lg [load_message] 1,
    [EvDrain []; EvPush 0 load_message]))); [reflexivity| |].
  - apply (joint_complete _ _ _ i1 false st0 _ st1 (load_lg [] 0) [] (load_lg [] 0));
      [vm_compute; reflexivity| |reflexivity| |vm_compute; reflexivity].
    + assert (new_requests st0 st1 = [ReqSpawn load_args 1]) as -> by (vm_compute; reflexivity).
      apply load_spawned.
    + assert (new_requests st1 (client_transmit default_transport load_profile (fst ([], [])) i1 st1) = [])
        as -> by (vm_compute; reflexivity). apply load_pushed.
  - apply (joint_cons _ _ _ i2 [] _ _ (st3, (load_lg [] 1,
      [EvDrain []; EvPush 0 load_message; EvDrain [load_message]]))); [vm_compute; reflexivity| |apply joint_nil].
    apply (joint_complete _ _ _ i2 false st2 _ st2 (load_lg [load_message] 1) [EvDrain []; EvPush 0 load_message]
      (load_lg [] 1)); [vm_compute; reflexivity| |reflexivity| |vm_compute; reflexivity].
    + assert (new_requests st2 st2 = []) as -> by (vm_compute; reflexivity).
      apply lg_calls_nil, star_refl.
    + assert (new_requests st2 (client_transmit default_transport load_profile (fst ([], [])) i2 st2) = [])
        as -> by (vm_compute; reflexivity). apply lg_calls_nil, star_refl.
Qed.

Lemma client_load_exact_witness :
  let st := client_main default_transport load_profile 7 ([], []) true load_inputs in
  (exists calls,
     run_calls default_transport calls ([], new_session Client 7) = (cl_sent st, cl_session st) /\
     [load_message] = generated_of calls ++ []) /\
  workers load_end = [].
Proof.
  destruct (client_load_exact default_transport load_profile 7 ([], []) true load_inputs _ load_end
    load_trace load_run) as (_ & (traces & rest & _ & H1 & H2) & H3 & _).
  split; [exists (concat traces ++ rest); split; [exact H1|exact H2]|].
  exact (proj1 (H3 ltac:(vm_compute; reflexivity))).
Defined.
