(* ===== verification/ServerApp.v ===== *)
(** The server application ([src/BsdServerApp.cpp]): the events of the manager, the
    command line and one iteration of the event loop around a
    [ServerSessionManager].

    The order in which the unordered maps are visited is the class
    [IterationOrder]. [rd] and [fuel] are those of the manager: [None] means that
    the search for a connection id took more than [fuel] draws. What an iteration
    reads is the record [ServerInput], what it does is accumulated in
    [ServerState]. *)

From S2P Require Import Prelude StdMap Protocol Utils Codec Text Config ConfigEnv SessionTypes.
From S2P Require Import ConnectionStateMachine TxHandler RxHandler Session ServerSessionManager.
From S2P Require Import RuntimeLogger BsdUdpSocket Process LoadGenerator ClientApp.

Class IterationOrder := {
  pending_order : Manager -> list EndpointKey;
  active_order : Manager -> list EndpointKey;
  endpoint_order : gmap Z EndpointKey -> list Z
}.

(** ** Channels: the same code as in the client. *)

Definition server_default_channel := default_channel.
Definition server_find_channel := find_channel.

(** The lines logged. *)
Definition server_log_channels (profile : RuntimeProfile) : list string :=
  map (channel_line "[server]") (pf_channels profile).

(** ** Events *)

Definition endpoint_text (e : EndpointKey) : string := address e +:+ ":" +:+ to_string (port e).

(** [preferred_conn_id] and [active_endpoints]. *)
Record Directory := mkDirectory {
  preferred_conn_id : option Z;
  active_endpoints : gmap Z EndpointKey
}.

Definition ends_connection (type : EventType) : bool :=
  match type with
  | ConnectionReset | ConnectionClosed | ErrorEvent => true
  | DataReceived | Connected => false
  end.

(** The body of the loop over the events: the line logged and the directory. *)
Definition drain_server_event (manager : Manager) (wrapped : ServerSessionEvent) (d : Directory)
    : string * Directory :=
  let prefix := "[server] endpoint=" +:+ endpoint_text (sev_endpoint wrapped) in
  match sev_conn_id wrapped with
  | None => (format_session_event prefix (sev_event wrapped), d)
  | Some conn_id =>
      let prefix := prefix +:+ " conn_id=" +:+ to_string conn_id in
      let d := {| preferred_conn_id := Some conn_id;
                  active_endpoints := <[conn_id := sev_endpoint wrapped]> (active_endpoints d) |} in
      let line := format_session_event prefix (sev_event wrapped) in
      let line := match active_stats conn_id manager with
                  | Some stats => line +:+ format_session_stats stats
                  | None => line
                  end in
      if ends_connection (ev_type (sev_event wrapped)) then
        (line,
         {| preferred_conn_id := if bool_decide (preferred_conn_id d = Some conn_id) then None
                                 else preferred_conn_id d;
            active_endpoints := delete conn_id (active_endpoints d) |})
      else (line, d)
  end.

Fixpoint drain_server_event_list (manager : Manager) (events : list ServerSessionEvent)
    (d : Directory) : list string * Directory :=
  match events with
  | [] => ([], d)
  | wrapped :: events =>
      let '(line, d) := drain_server_event manager wrapped d in
      let '(lines, d) := drain_server_event_list manager events d in
      (line :: lines, d)
  end.

Definition drain_server_events `{IterationOrder} (manager : Manager) (d : Directory)
    : list string * Manager * Directory :=
  let '(events, manager) := drain_events (pending_order manager) (active_order manager) manager in
  let '(lines, d) := drain_server_event_list manager events d in
  (lines, manager, d).

(** ** Commands *)

Record ServerSendCommand := mkServerSend {
  ss_conn_id : Z;
  ss_channel : ChannelDefinition;
  ss_payload : string
}.

Definition parse_server_send_command (profile : RuntimeProfile) (line : string)
    (preferred : option Z) : option ServerSendCommand :=
  if starts_with line "send " then
    let rest := substr_from line (String.length "send ") in
    match find rest " " with
    | None => None
    | Some first_space =>
        match find_from rest " " (first_space + 1) with
        | None => None
        | Some second_space =>
            match stoul_u32 (substr rest 0 first_space) with
            | None => None
            | Some conn_id =>
                match server_find_channel profile
                        (substr rest (first_space + 1) (second_space - first_space - 1)) with
                | None => None
                | Some channel =>
                    Some {| ss_conn_id := conn_id; ss_channel := channel;
                            ss_payload := substr_from rest (second_space + 1) |}
                end
            end
        end
    end
  else
    match preferred with
    | None => None
    | Some conn_id =>
        match server_default_channel profile with
        | None => None
        | Some channel =>
            Some {| ss_conn_id := conn_id; ss_channel := channel; ss_payload := line |}
        end
    end.

Definition session_line (conn_id : Z) (endpoint : EndpointKey) : string :=
  "[server] active conn_id=" +:+ to_string conn_id +:+ " endpoint=" +:+ endpoint_text endpoint.

(** The lines of a loop over [active_endpoints]. *)
Definition for_each_endpoint `{IterationOrder} (f : Z -> EndpointKey -> list string)
    (endpoints : gmap Z EndpointKey) : list string :=
  concat (map (fun conn_id =>
    match endpoints !! conn_id with Some e => f conn_id e | None => [] end)
    (endpoint_order endpoints)).

Definition unresolved_target : string :=
  "[server] unable to resolve target session; use: send <conn_id> <channel> <message>".

(** [line] is what [std::getline] read, if anything; the result is the manager,
    [should_exit] and the lines logged. *)
Definition handle_server_stdin `{IterationOrder} (profile : RuntimeProfile) (manager : Manager)
    (d : Directory) (line : option string) (should_exit : bool)
    : Manager * bool * list string :=
  match line with
  | None => (manager, true, [])
  | Some line =>
      if line == "/quit" then (manager, true, [])
      else if line == "/sessions" then
        (manager, should_exit,
         if bool_decide (active_endpoints d = ∅) then ["[server] no active sessions"]
         else for_each_endpoint (fun c e => [session_line c e]) (active_endpoints d))
      else if line == "/channels" then (manager, should_exit, server_log_channels profile)
      else
        match parse_server_send_command profile line (preferred_conn_id d) with
        | None => (manager, should_exit, [unresolved_target])
        | Some command =>
            let '(queued, manager) :=
              queue_send (ss_conn_id command) (ch_id (ss_channel command))
                (ch_type (ss_channel command)) (bytes_of_text (ss_payload command)) manager in
            (manager, should_exit,
             if negb queued
             then ["[server] unknown active conn_id=" +:+ to_string (ss_conn_id command)] else [])
        end
  end.

(** The lines of the final summary. *)
Definition log_server_summaries `{IterationOrder} (manager : Manager)
    (endpoints : gmap Z EndpointKey) : list string :=
  if bool_decide (endpoints = ∅) then ["[server] summary no-active-sessions"]
  else for_each_endpoint (fun conn_id endpoint =>
    match active_stats conn_id manager with
    | None => []
    | Some stats =>
        [format_session_summary ("[server] endpoint=" +:+ endpoint_text endpoint +:+ " conn_id=" +:+
                                 to_string conn_id) stats]
    end) endpoints.

(** ** The event loop *)

(** [sv_crashed]: an exception that nothing catches was thrown. *)
Record ServerState := mkServerState {
  sv_manager : Manager;
  sv_directory : Directory;
  sv_stdin_enabled : bool;
  sv_should_exit : bool;
  sv_sent : list OutboundDatagram;
  sv_log : list string;
  sv_crashed : bool
}.
#[export] Instance set_sv_manager : Setter sv_manager := fun f r =>
  mkServerState (f (sv_manager r)) (sv_directory r) (sv_stdin_enabled r) (sv_should_exit r)
    (sv_sent r) (sv_log r) (sv_crashed r).
#[export] Instance set_sv_directory : Setter sv_directory := fun f r =>
  mkServerState (sv_manager r) (f (sv_directory r)) (sv_stdin_enabled r) (sv_should_exit r)
    (sv_sent r) (sv_log r) (sv_crashed r).
#[export] Instance set_sv_stdin_enabled : Setter sv_stdin_enabled := fun f r =>
  mkServerState (sv_manager r) (sv_directory r) (f (sv_stdin_enabled r)) (sv_should_exit r)
    (sv_sent r) (sv_log r) (sv_crashed r).
#[export] Instance set_sv_should_exit : Setter sv_should_exit := fun f r =>
  mkServerState (sv_manager r) (sv_directory r) (sv_stdin_enabled r) (f (sv_should_exit r))
    (sv_sent r) (sv_log r) (sv_crashed r).
#[export] Instance set_sv_sent : Setter sv_sent := fun f r =>
  mkServerState (sv_manager r) (sv_directory r) (sv_stdin_enabled r) (sv_should_exit r)
    (f (sv_sent r)) (sv_log r) (sv_crashed r).
#[export] Instance set_sv_log : Setter sv_log := fun f r =>
  mkServerState (sv_manager r) (sv_directory r) (sv_stdin_enabled r) (sv_should_exit r)
    (sv_sent r) (f (sv_log r)) (sv_crashed r).
#[export] Instance set_sv_crashed : Setter sv_crashed := fun f r =>
  mkServerState (sv_manager r) (sv_directory r) (sv_stdin_enabled r) (sv_should_exit r)
    (sv_sent r) (sv_log r) (f (sv_crashed r)).

(** What one iteration reads: [si_datagrams] are the results of [recv_from] with
    the clock at each, before it returns nothing or, with [si_alloc_fails], has no
    memory for its buffer; [si_cin_good] and [si_cin_good_after] are [std::cin.good()]
    before and after the command. *)
Record ServerInput := mkServerInput {
  si_stop_requested : bool;
  si_select_failed : bool;
  si_socket_ready : bool;
  si_datagrams : list (EndpointKey * bytes * Z);
  si_alloc_fails : bool;
  si_stdin_ready : bool;
  si_cin_good : bool;
  si_stdin_line : option string;
  si_cin_good_after : bool;
  si_poll_time : Z
}.

Section server.
Context `{IterationOrder} (cfg : TransportSettings) (rd : nat -> Z) (fuel : nat).
Context (profile : RuntimeProfile).

(** [drain_server_events(manager, logger, preferred_conn_id, active_endpoints)] *)
Definition drain_step (st : ServerState) : ServerState :=
  let '(lines, manager, d) := drain_server_events (sv_manager st) (sv_directory st) in
  st <| sv_manager := manager |> <| sv_directory := d |> <| sv_log ::= fun l => l ++ lines |>.

Fixpoint server_receive (datagrams : list (EndpointKey * bytes * Z)) (st : ServerState)
    : option ServerState :=
  match datagrams with
  | [] => Some st
  | (endpoint, bs, now) :: datagrams =>
      match on_datagram_received cfg rd fuel endpoint bs now (sv_manager st) with
      | None => None
      | Some manager => server_receive datagrams (drain_step (st <| sv_manager := manager |>))
      end
  end.

(** The loop over [recv_from]: a buffer no vector can have throws at the first call. *)
Definition server_receive_step (input : ServerInput) (st : ServerState) : option ServerState :=
  if negb (si_socket_ready input) then Some st
  else if buffer_too_large (pf_socket_buffer_size profile) then Some (st <| sv_crashed := true |>)
  else
    match server_receive (si_datagrams input) st with
    | None => None
    | Some st => Some (st <| sv_crashed := si_alloc_fails input |>)
    end.

Definition server_command (input : ServerInput) (st : ServerState) : ServerState :=
  if sv_stdin_enabled st && si_stdin_ready input then
    if negb (si_cin_good input) then st <| sv_stdin_enabled := false |>
    else
      let '(manager, should_exit, lines) :=
        handle_server_stdin profile (sv_manager st) (sv_directory st) (si_stdin_line input)
          (sv_should_exit st) in
      let st := st <| sv_manager := manager |> <| sv_should_exit := should_exit |>
                   <| sv_log ::= fun l => l ++ lines |> in
      if negb (si_cin_good_after input) then st <| sv_stdin_enabled := false |> else st
  else st.

(** One iteration; the boolean: the loop was left by a [break] or an exception. *)
Definition server_iteration (input : ServerInput) (st : ServerState) : option (bool * ServerState) :=
  if si_stop_requested input then Some (true, st <| sv_should_exit := true |>)
  else if si_select_failed input then Some (true, st)
  else
    match server_receive_step input st with
    | None => None
    | Some st =>
        if sv_crashed st then Some (true, st)
        else
          let st := server_command input st in
          let '(outbound, manager) :=
            poll_tx cfg (si_poll_time input) (pending_order (sv_manager st))
              (active_order (sv_manager st)) (sv_manager st) in
          let st := st <| sv_manager := manager |> <| sv_sent ::= fun l => l ++ outbound |> in
          Some (false, drain_step st)
    end.

(** [while (!should_exit)] over the inputs of the successive iterations. *)
Fixpoint server_loop (inputs : list ServerInput) (st : ServerState) : option ServerState :=
  match inputs with
  | [] => Some st
  | input :: inputs =>
      if sv_should_exit st then Some st
      else
        match server_iteration input st with
        | None => None
        | Some (true, st) => Some st
        | Some (false, st) => server_loop inputs st
        end
  end.

Definition server_help : string :=
  "type a line to send on the default channel, or use: send <conn_id> <channel> <message>, /channels".

Definition server_start (is_a_tty : bool) : ServerState :=
  {| sv_manager := empty_manager; sv_directory := mkDirectory None ∅;
     sv_stdin_enabled := is_a_tty; sv_should_exit := false; sv_sent := [];
     sv_crashed := false; sv_log := ["server listening on " +:+ pf_bind_address profile +:+ ":" +:+
                to_string (pf_bind_port profile);
                if is_a_tty then server_help
                else "[server] stdin is not interactive; runtime commands disabled"] |}.

(** [run_server_app] from the successful [bind] to the end: the summaries are logged,
    unless an exception ended the process. *)
Definition server_main (is_a_tty : bool) (inputs : list ServerInput) : option ServerState :=
  match server_loop inputs (server_start is_a_tty) with
  | None => None
  | Some st =>
      if sv_crashed st then Some st
      else
      Some (st <| sv_log ::= fun l =>
              l ++ log_server_summaries (sv_manager st) (active_endpoints (sv_directory st)) |>)
  end.

(** ** The application *)

Definition handle_stop_signal (signum : StopSignal) (g_stop_requested : bool) : bool := true.

Definition install_signal_handlers (actions : SigTable) : SigTable :=
  let actions := std_signal SIGINT handle_stop_signal actions in
  std_signal SIGTERM handle_stop_signal actions.

Definition set_stop_requested_si (flag : bool) (input : ServerInput) : ServerInput :=
  mkServerInput flag (si_select_failed input) (si_socket_ready input) (si_datagrams input)
    (si_alloc_fails input) (si_stdin_ready input) (si_cin_good input) (si_stdin_line input)
    (si_cin_good_after input) (si_poll_time input).

(** [early] are the signals between the installation of the handlers and the reset
    of the flag; [w] is the table of descriptors. *)
Definition run_server_app `{Kernel} (actions : SigTable) (g_stop_requested : bool)
    (early : list StopSignal) (calls : SocketCalls) (is_a_tty : bool)
    (inputs : list (list StopSignal * ServerInput)) (w : FdWorld)
    : AppResult ServerState * FdWorld :=
  let actions := install_signal_handlers actions in
  let g_stop_requested := raise_all actions early g_stop_requested in
  let g_stop_requested := false in
  let '(created, w) := create_non_blocking the_socket the_temporary (sk_fd calls) (sk_flags calls)
                         (sk_setfl calls) w in
  if negb created then (SetupFailed, w)
  else if negb (bind (pf_bind_address profile) (pf_bind_port profile) (sk_bind calls)) then
    (SetupFailed, destroy the_socket w)
  else
    match server_main is_a_tty
            (load_flags set_stop_requested_si actions g_stop_requested inputs) with
    | None => (Unfinished, w)
    | Some st => if sv_crashed st then (Crashed st, w) else (Finished st, destroy the_socket w)
    end.
End server.
