(* ===== verification/ServerAppSpec.v ===== *)
(** What the server application guarantees ([ServerApp]): the loop only drives its
    manager through the manager's own operations, the directory of connections is
    consistent, and no line typed at the terminal is lost silently. *)

From S2P Require Import Prelude StdMap Protocol Utils Codec Text Config ConfigEnv ConfigYaml.
From S2P Require Import ConfigYamlSpec SessionTypes ConnectionStateMachine TxHandler TxInvariant.
From S2P Require Import RxHandler RxInvariant Session SessionInvariant ServerSessionManager.
From S2P Require Import ManagerInvariant ManagerPolling ManagerRouting ManagerTermination.
From S2P Require Import RuntimeLogger BsdUdpSocket LoadGenerator ClientApp ClientAppSpec ServerApp.

(** Iterating an unordered map visits every key exactly once. *)
Class IterationOrderOk `{IterationOrder} := {
  pending_order_valid : forall m, valid_order (pending_order m) (pending_by_endpoint m);
  active_order_valid : forall m, valid_order (active_order m) (active_conn_id_by_endpoint m);
  endpoint_order_valid : forall d, NoDup (endpoint_order d) /\
    forall c, c ∈ endpoint_order d <-> is_Some (d !! c)
}.

(** The order of the model's own maps is one such order. *)
Definition map_keys {K V} `{Countable K} (m : gmap K V) : list K := (map_to_list m).*1.

Lemma map_keys_valid {K V} `{Countable K} (m : gmap K V) :
  NoDup (map_keys m) /\ forall k, k ∈ map_keys m <-> is_Some (m !! k).
Proof.
  split; [apply NoDup_fst_map_to_list|]. intros k. unfold map_keys.
  rewrite list_elem_of_fmap. split.
  - intros ([k' v] & -> & Hin%elem_of_map_to_list). by exists v.
  - intros [v Hv]. exists (k, v). split; [done|]. by apply elem_of_map_to_list.
Qed.

Definition map_order : IterationOrder :=
  {| pending_order := fun m => map_keys (pending_by_endpoint m);
     active_order := fun m => map_keys (active_conn_id_by_endpoint m);
     endpoint_order := map_keys |}.

Lemma map_order_ok : @IterationOrderOk map_order.
Proof. constructor; intros; apply map_keys_valid. Qed.

(** The connection a plain line goes to is one the directory lists. *)
Definition directory_ok (d : Directory) : Prop :=
  forall c, preferred_conn_id d = Some c -> is_Some (active_endpoints d !! c).

Lemma drain_server_event_ok m ev d : directory_ok d -> directory_ok (snd (drain_server_event m ev d)).
Proof.
  intros Hd. unfold drain_server_event. destruct (sev_conn_id ev) as [c|]; [|done].
  destruct (ends_connection _); cbn.
  - intros c' Hc'. cbn in Hc'. by rewrite bool_decide_eq_true_2 in Hc'.
  - intros c' [= <-]. cbn. by rewrite lookup_insert_eq.
Qed.

Lemma drain_server_event_list_ok m evs d :
  directory_ok d -> directory_ok (snd (drain_server_event_list m evs d)).
Proof.
  revert d. induction evs as [|ev evs IH]; intros d Hd; [done|]. cbn.
  pose proof (drain_server_event_ok m ev d Hd) as H.
  destruct (drain_server_event m ev d) as [l d1]. specialize (IH d1 H).
  by destruct (drain_server_event_list m evs d1) as [ls d2].
Qed.

Record server_input_ok (input : ServerInput) : Prop := mk_server_input_ok {
  sio_datagrams : Forall (fun d => Forall is_u8 (snd (fst d))) (si_datagrams input);
  sio_time : is_u64 (si_poll_time input)
}.

Lemma parse_server_send_in profile line preferred c :
  parse_server_send_command profile line preferred = Some c ->
  ss_channel c ∈ pf_channels profile.
Proof.
  unfold parse_server_send_command, server_find_channel, server_default_channel.
  destruct (starts_with _ _).
  - destruct (find _ _); [|done]. destruct (find_from _ _ _); [|done].
    destruct (stoul_u32 _); [|done]. destruct (find_channel _ _) eqn:E; [|done].
    intros [= <-]. by eapply find_channel_in.
  - destruct preferred; [|done]. destruct (default_channel profile) eqn:E; [|done].
    intros [= <-]. by apply default_channel_in.
Qed.

(** ** Operations on the table

    What the loop does to the manager, as a list of operations that is computed from
    the inputs alone. *)

Inductive MgrOp :=
| OpReceive (endpoint : EndpointKey) (bs : bytes) (now : Z)
| OpLine (line : string)
| OpPoll (now : Z)
| OpDrain.

(** The table, the directory, and the datagrams handed to the socket so far. *)
Record MgrRun := mkMgrRun {
  run_manager : Manager;
  run_directory : Directory;
  run_sent : list OutboundDatagram
}.

Definition start_run : MgrRun := mkMgrRun empty_manager (mkDirectory None ∅) [].

Section operations.
Context `{IterationOrder} (cfg : TransportSettings) (rd : nat -> Z) (fuel : nat).
Context (profile : RuntimeProfile).

(** A line that is sent: to the connection and on the channel it names, or to the
    preferred connection on the default channel. *)
Definition send_of (line : string) (d : Directory) : option ServerSendCommand :=
  if bool_decide (line ∈ ["/quit"; "/sessions"; "/channels"]) then None
  else parse_server_send_command profile line (preferred_conn_id d).

Definition run_op (op : MgrOp) (r : MgrRun) : option MgrRun :=
  let '(mkMgrRun m d sent) := r in
  match op with
  | OpReceive e bs now =>
      match on_datagram_received cfg rd fuel e bs now m with
      | None => None
      | Some m => Some (mkMgrRun m d sent)
      end
  | OpLine line =>
      match send_of line d with
      | None => Some r
      | Some c =>
          Some (mkMgrRun (snd (queue_send (ss_conn_id c) (ch_id (ss_channel c)) (ch_type (ss_channel c))
                                 (bytes_of_text (ss_payload c)) m)) d sent)
      end
  | OpPoll now =>
      let '(out, m) := poll_tx cfg now (pending_order m) (active_order m) m in
      Some (mkMgrRun m d (sent ++ out))
  | OpDrain =>
      let '(events, m) := drain_events (pending_order m) (active_order m) m in
      Some (mkMgrRun m (snd (drain_server_event_list m events d)) sent)
  end.

Fixpoint run_ops (ops : list MgrOp) (r : MgrRun) : option MgrRun :=
  match ops with
  | [] => Some r
  | op :: ops => match run_op op r with None => None | Some r => run_ops ops r end
  end.

(** Every datagram is followed by a drain. *)
Definition receive_ops (datagrams : list (EndpointKey * bytes * Z)) : list MgrOp :=
  concat (map (fun x => [OpReceive (fst (fst x)) (snd (fst x)) (snd x); OpDrain]) datagrams).

(** The line an iteration reads, if the terminal is still [enabled]. *)
Definition read_ops (enabled : bool) (input : ServerInput) : list MgrOp :=
  if enabled && si_stdin_ready input && si_cin_good input
  then match si_stdin_line input with Some line => [OpLine line] | None => [] end
  else [].

(** Whether it is enabled afterwards, and whether the line ends the loop. *)
Definition still_enabled (enabled : bool) (input : ServerInput) : bool :=
  if enabled && si_stdin_ready input then si_cin_good input && si_cin_good_after input else enabled.
Definition quits (enabled : bool) (input : ServerInput) : bool :=
  enabled && si_stdin_ready input && si_cin_good input &&
  match si_stdin_line input with Some line => line == "/quit" | None => true end.

(** The operations of a run: per iteration the datagrams, the line, the poll and the
    drain, until a signal, a failed [select], an exception or a line ends the loop. *)
Fixpoint server_ops (enabled : bool) (inputs : list ServerInput) : list MgrOp :=
  match inputs with
  | [] => []
  | input :: inputs =>
      let too_large := si_socket_ready input && buffer_too_large (pf_socket_buffer_size profile) in
      if si_stop_requested input || si_select_failed input || too_large then []
      else
        let received := if si_socket_ready input then receive_ops (si_datagrams input) else [] in
        if si_socket_ready input && si_alloc_fails input then received
        else
          received ++ read_ops enabled input ++ [OpPoll (si_poll_time input); OpDrain] ++
          (if quits enabled input then [] else server_ops (still_enabled enabled input) inputs)
  end.

Lemma run_ops_app ops1 ops2 r :
  run_ops (ops1 ++ ops2) r = match run_ops ops1 r with None => None | Some r => run_ops ops2 r end.
Proof.
  revert r. induction ops1 as [|op ops1 IH]; intros r; [done|]. cbn. by destruct (run_op op r).
Qed.

(** The part of the application's state that the operations act on. *)
Definition run_of (st : ServerState) : MgrRun :=
  mkMgrRun (sv_manager st) (sv_directory st) (sv_sent st).

Lemma drain_step_op st : run_op OpDrain (run_of st) = Some (run_of (drain_step st)).
Proof.
  unfold run_of, drain_step, drain_server_events. cbn [run_op].
  destruct (drain_events _ _ _) as [evs m]. by destruct (drain_server_event_list m evs _).
Qed.

Lemma drain_step_frame st :
  sv_stdin_enabled (drain_step st) = sv_stdin_enabled st /\
  sv_should_exit (drain_step st) = sv_should_exit st /\ sv_crashed (drain_step st) = sv_crashed st.
Proof. unfold drain_step. by destruct (drain_server_events _ _) as [[lines m] d]. Qed.

Lemma server_receive_ops ds st :
  run_ops (receive_ops ds) (run_of st) = run_of <$> server_receive cfg rd fuel ds st.
Proof.
  revert st. induction ds as [|[[e bs] now] ds IH]; intros st; [done|].
  unfold receive_ops. cbn [map concat app run_ops server_receive fst snd].
  change (run_op (OpReceive e bs now) (run_of st)) with
    (match on_datagram_received cfg rd fuel e bs now (sv_manager st) with
     | None => None | Some m => Some (mkMgrRun m (sv_directory st) (sv_sent st)) end).
  destruct (on_datagram_received _ _ _ _ _ _ _) as [m|]; [|done].
  change (mkMgrRun m (sv_directory st) (sv_sent st)) with (run_of (st <| sv_manager := m |>)).
  rewrite drain_step_op. apply IH.
Qed.

Lemma server_receive_frame ds st st' :
  server_receive cfg rd fuel ds st = Some st' ->
  sv_stdin_enabled st' = sv_stdin_enabled st /\ sv_should_exit st' = sv_should_exit st.
Proof.
  revert st. induction ds as [|[[e bs] now] ds IH]; intros st; [by intros [= <-]|]. cbn [server_receive].
  destruct (on_datagram_received _ _ _ _ _ _ _) as [m|]; [|done]. intros E.
  destruct (IH _ E) as [H1 H2].
  destruct (drain_step_frame (st <| sv_manager := m |>)) as (E1 & E2 & _).
  by rewrite H1, H2, E1, E2.
Qed.

Lemma server_command_ops input st :
  let st' := server_command profile input st in
  run_ops (read_ops (sv_stdin_enabled st) input) (run_of st) = Some (run_of st') /\
  sv_stdin_enabled st' = still_enabled (sv_stdin_enabled st) input /\
  sv_should_exit st' = sv_should_exit st || quits (sv_stdin_enabled st) input /\
  sv_crashed st' = sv_crashed st.
Proof.
  unfold server_command, read_ops, still_enabled, quits. cbn zeta.
  destruct (sv_stdin_enabled st && si_stdin_ready input) eqn:Er; cbn [andb].
  2:{ by rewrite orb_false_r. }
  destruct (si_cin_good input); cbn [andb negb]; [|by rewrite orb_false_r].
  assert (Hen : sv_stdin_enabled st = true) by (by apply andb_true_iff in Er as [? _]).
  assert (Hcase : forall m ex lines,
    handle_server_stdin profile (sv_manager st) (sv_directory st) (si_stdin_line input)
      (sv_should_exit st) = (m, ex, lines) ->
    run_ops (match si_stdin_line input with Some line => [OpLine line] | None => [] end) (run_of st) =
      Some (mkMgrRun m (sv_directory st) (sv_sent st)) /\
    ex = sv_should_exit st ||
         match si_stdin_line input with Some line => line == "/quit" | None => true end).
  { intros m ex lines. unfold handle_server_stdin. destruct (si_stdin_line input) as [line|];
      [|intros [= <- <- _]; by rewrite orb_true_r].
    cbn [run_ops run_op run_of]. unfold send_of.
    destruct (line == "/quit") eqn:E1.
    { apply String.eqb_eq in E1 as ->. intros [= <- <- _]. by rewrite orb_true_r. }
    rewrite orb_false_r. destruct (line == "/sessions") eqn:E2.
    { apply String.eqb_eq in E2 as ->. by intros [= <- <- _]. }
    destruct (line == "/channels") eqn:E3.
    { apply String.eqb_eq in E3 as ->. by intros [= <- <- _]. }
    rewrite bool_decide_eq_false_2.
    2:{ apply String.eqb_neq in E1, E2, E3. rewrite !not_elem_of_cons. split_and!; try done. apply not_elem_of_nil. }
    destruct (parse_server_send_command _ _ _) as [c|]; [|by intros [= <- <- _]].
    destruct (queue_send _ _ _ _ _) as [q m']. by intros [= <- <- _]. }
  destruct (handle_server_stdin _ _ _ _ _) as [[m ex] lines].
  destruct (Hcase m ex lines eq_refl) as [H1 H2]. rewrite H1, H2.
  destruct (si_cin_good_after input); cbn; by rewrite ?Hen.
Qed.

(** One iteration: its operations, and whether the loop goes on. *)
Lemma server_loop_ops inputs st :
  sv_should_exit st = false -> sv_crashed st = false ->
  run_ops (server_ops (sv_stdin_enabled st) inputs) (run_of st) =
  run_of <$> server_loop cfg rd fuel profile inputs st.
Proof.
  revert st. induction inputs as [|input inputs IH]; intros st Hx Hc; [done|].
  cbn [server_ops server_loop]. rewrite Hx. unfold server_iteration.
  destruct (si_stop_requested input); [done|]. destruct (si_select_failed input); [done|].
  cbn [orb]. unfold server_receive_step.
  set (received := if si_socket_ready input then _ else _).
  assert (Hr : run_ops received (run_of st) =
    run_of <$> (if si_socket_ready input then server_receive cfg rd fuel (si_datagrams input) st
                else Some st)).
  { subst received. destruct (si_socket_ready input); [apply server_receive_ops|done]. }
  assert (Hnext : forall st1, sv_stdin_enabled st1 = sv_stdin_enabled st -> sv_should_exit st1 = false ->
    sv_crashed st1 = false -> run_ops received (run_of st) = Some (run_of st1) ->
    run_ops (received ++ read_ops (sv_stdin_enabled st) input ++ [OpPoll (si_poll_time input); OpDrain] ++
      (if quits (sv_stdin_enabled st) input then []
       else server_ops (still_enabled (sv_stdin_enabled st) input) inputs)) (run_of st) =
    run_of <$> server_loop cfg rd fuel profile inputs
      (let st := server_command profile input st1 in
       let '(out, m) := poll_tx cfg (si_poll_time input) (pending_order (sv_manager st))
                          (active_order (sv_manager st)) (sv_manager st) in
       drain_step (st <| sv_manager := m |> <| sv_sent ::= fun l => l ++ out |>))).
  { intros st1 En Ex Ec Hst1. rewrite run_ops_app, Hst1, run_ops_app.
    destruct (server_command_ops input st1) as (H1 & H2 & H3 & H4). rewrite En in H1, H2, H3.
    rewrite H1. set (st2 := server_command profile input st1) in *. clearbody st2.
    rewrite run_ops_app. cbn [run_ops].
    destruct (poll_tx cfg (si_poll_time input) _ _ _) as [out m] eqn:Ep.
    assert (Ho : run_op (OpPoll (si_poll_time input)) (run_of st2) =
      Some (run_of (st2 <| sv_manager := m |> <| sv_sent ::= fun l => l ++ out |>))).
    { unfold run_of. cbn [run_op]. by rewrite Ep. }
    rewrite Ho, drain_step_op. set (st3 := st2 <| sv_manager := m |> <| sv_sent ::= _ |>).
    destruct (drain_step_frame st3) as (F1 & F2 & F3). change (sv_should_exit st3) with (sv_should_exit st2) in F2.
    change (sv_stdin_enabled st3) with (sv_stdin_enabled st2) in F1.
    change (sv_crashed st3) with (sv_crashed st2) in F3. rewrite Ex in H3. cbn [orb] in H3.
    destruct (quits (sv_stdin_enabled st) input).
    - cbn [run_ops]. destruct inputs; cbn [server_loop]; [done|]. by rewrite F2, H3.
    - rewrite <- H2, <- F1. apply IH; congruence. }
  destruct (si_socket_ready input); cbn [andb negb] in *.
  - destruct (buffer_too_large _); [done|].
    destruct (server_receive cfg rd fuel (si_datagrams input) st) as [st1|] eqn:Es.
    + destruct (server_receive_frame _ _ _ Es) as [En Ex]. destruct (si_alloc_fails input).
      { rewrite Hr. done. }
      cbn [sv_crashed set set_sv_crashed].
      rewrite (Hnext (st1 <| sv_crashed := false |>)); [|done|cbn; congruence|done|exact Hr].
      by destruct (poll_tx _ _ _ _ _).
    + cbn [fmap option_fmap option_map] in Hr |- *. destruct (si_alloc_fails input); [done|].
      by rewrite run_ops_app, Hr.
  - rewrite (Hnext st); [|done..]. rewrite Hc. by destruct (poll_tx _ _ _ _ _).
Qed.

Lemma server_main_ops tty inputs :
  run_ops (server_ops tty inputs) start_run = run_of <$> server_main cfg rd fuel profile tty inputs.
Proof.
  pose proof (server_loop_ops inputs (server_start profile tty) eq_refl eq_refl) as Hl.
  change (run_of (server_start profile tty)) with start_run in Hl.
  change (sv_stdin_enabled (server_start profile tty)) with tty in Hl. unfold server_main.
  destruct (server_loop _ _ _ _ _ _) as [st|]; rewrite Hl; [|done]. by destruct (sv_crashed st).
Qed.
End operations.

(** ** What a run of operations guarantees *)

Definition op_ok (op : MgrOp) : Prop :=
  match op with
  | OpReceive _ bs _ => Forall is_u8 bs
  | OpPoll now => is_u64 now
  | OpLine _ | OpDrain => True
  end.

(** How many datagrams were received. *)
Definition is_receive (op : MgrOp) : bool := match op with OpReceive _ _ _ => true | _ => false end.
Definition receives (ops : list MgrOp) : nat := length (List.filter is_receive ops).

Section guarantees.
Context `{IterationOrder} {Hord : IterationOrderOk}.
Context (cfg : TransportSettings) (rd : nat -> Z) (fuel : nat) (profile : RuntimeProfile).
Context (Hchannels : Forall channel_ok (pf_channels profile)).

(** The table is reachable, the directory consistent, and at most one id is held per
    datagram. *)
Definition run_good (w : nat) (r : MgrRun) : Prop :=
  star (mgr_step cfg rd) empty_manager (run_manager r) /\ directory_ok (run_directory r) /\
  fits w (run_manager r).

Lemma start_run_good : run_good 0 start_run.
Proof. split; [apply star_refl|]. split; [done|apply fits_start]. Qed.

Lemma send_of_ok line d c :
  send_of profile line d = Some c ->
  is_u32 (ch_id (ss_channel c)) /\ channel_named (ch_type (ss_channel c)).
Proof.
  unfold send_of. case_bool_decide; [done|]. intros E%parse_server_send_in.
  rewrite Forall_forall in Hchannels. pose proof (Hchannels _ E) as Hc.
  split; [apply Hc|by apply channel_ok_named].
Qed.

Lemma run_op_good w op r r' :
  op_ok op -> run_good w r -> run_op cfg rd fuel profile op r = Some r' ->
  run_good (w + receives [op]) r'.
Proof.
  intros Hop (Hs & Hd & Hf). destruct r as [m d sent]. cbn [run_manager run_directory] in *.
  destruct op as [e bs now|line|now|]; cbn [run_op op_ok] in *; rewrite ?Nat.add_0_r.
  - destruct (on_datagram_received _ _ _ _ _ _ _) as [m'|] eqn:E; [|done]. intros [= <-].
    split_and!; cbn; [by eapply star_snoc; [exact Hs|eapply mstep_receive]|done|].
    rewrite Nat.add_1_r. by eapply fits_received.
  - destruct (send_of profile line d) as [c|] eqn:E; [|by intros [= <-]]. intros [= <-].
    destruct (send_of_ok _ _ _ E) as [H1 H2]. split_and!; [|done|by apply fits_queue_send].
    eapply star_snoc; [exact Hs|]. apply mstep_send; [done|done|apply bytes_of_text_typed].
  - pose proof (mstep_poll cfg rd now (pending_order m) (active_order m) m Hop
      (pending_order_valid _) (active_order_valid _)) as H1.
    pose proof (fits_poll_tx cfg now w (pending_order m) (active_order m) m Hf) as H2.
    destruct (poll_tx _ _ _ _ _) as [out m']. intros [= <-].
    split_and!; cbn in *; [by eapply star_snoc|done|done].
  - pose proof (mstep_drain cfg rd (pending_order m) (active_order m) m
      (pending_order_valid _) (active_order_valid _)) as H1.
    pose proof (fits_drain_events w (pending_order m) (active_order m) m Hf) as H2.
    destruct (drain_events _ _ _) as [evs m']. intros [= <-].
    split_and!; cbn in *; [by eapply star_snoc|by apply drain_server_event_list_ok|done].
Qed.

Lemma receives_cons op ops : receives (op :: ops) = (receives [op] + receives ops)%nat.
Proof. unfold receives. cbn. by destruct (is_receive op). Qed.

Lemma run_ops_good ops w r r' :
  Forall op_ok ops -> run_good w r -> run_ops cfg rd fuel profile ops r = Some r' ->
  run_good (w + receives ops) r'.
Proof.
  intros Hok. revert w r. induction Hok as [|op ops Hop _ IH]; intros w r Hr; cbn [run_ops].
  { intros [= <-]. by rewrite Nat.add_0_r. }
  destruct (run_op cfg rd fuel profile op r) as [r1|] eqn:E; [|done]. intros E'.
  rewrite receives_cons, Nat.add_assoc. eapply IH; [|exact E']. by eapply run_op_good.
Qed.

(** The only operation that may not finish is the receipt of a datagram. *)
Lemma run_ops_stuck ops r :
  run_ops cfg rd fuel profile ops r = None ->
  exists ops1 e bs now ops2 r1, ops = ops1 ++ OpReceive e bs now :: ops2 /\
    run_ops cfg rd fuel profile ops1 r = Some r1 /\
    on_datagram_received cfg rd fuel e bs now (run_manager r1) = None.
Proof.
  revert r. induction ops as [|op ops IH]; intros r; [done|]. cbn [run_ops].
  destruct (run_op cfg rd fuel profile op r) as [r1|] eqn:E.
  - intros E'. destruct (IH r1 E') as (ops1 & e & bs & now & ops2 & r2 & -> & H1 & H2).
    exists (op :: ops1), e, bs, now, ops2, r2. split; [done|]. cbn [run_ops]. by rewrite E.
  - intros _. destruct r as [m d sent].
    destruct op as [e bs now|line|now|]; cbn [run_op] in E.
    + exists [], e, bs, now, ops, (mkMgrRun m d sent). split; [done|]. split; [done|].
      cbn. by destruct (on_datagram_received _ _ _ _ _ _ _).
    + by destruct (send_of profile line d).
    + by destruct (poll_tx _ _ _ _ _).
    + by destruct (drain_events _ _ _).
Qed.

Lemma server_ops_ok enabled inputs :
  Forall server_input_ok inputs -> Forall op_ok (server_ops profile enabled inputs).
Proof.
  intros Hin. revert enabled. induction Hin as [|input inputs [Hds Ht] _ IH]; intros enabled; [constructor|].
  cbn [server_ops]. destruct (_ || _ || _); [constructor|].
  assert (Hr : Forall op_ok (if si_socket_ready input then receive_ops (si_datagrams input) else [])).
  { destruct (si_socket_ready input); [|constructor]. unfold receive_ops. apply Forall_concat, Forall_map.
    eapply Forall_impl; [exact Hds|]. intros x Hx. apply Forall_cons_2; [exact Hx|].
    by apply Forall_singleton. }
  destruct (_ && _); [done|]. apply Forall_app_2; [done|]. apply Forall_app_2;
    [|apply (Forall_app_2 _ [_; _]); [apply Forall_cons_2; [exact Ht|by apply Forall_singleton]|]].
  - unfold read_ops. destruct (_ && _); [|constructor].
    destruct (si_stdin_line input); [by apply Forall_singleton|apply Forall_nil_2].
  - destruct (quits enabled input); [constructor|apply IH].
Qed.

Lemma server_main_outcome tty inputs :
  Forall server_input_ok inputs ->
  let ops := server_ops profile tty inputs in
  match server_main cfg rd fuel profile tty inputs with
  | Some st =>
      run_ops cfg rd fuel profile ops start_run = Some (run_of st) /\ run_good (receives ops) (run_of st)
  | None =>
      exists ops1 e bs now ops2 r,
        ops = ops1 ++ OpReceive e bs now :: ops2 /\
        run_ops cfg rd fuel profile ops1 start_run = Some r /\ run_good (receives ops1) r /\
        opens_session e bs (run_manager r) = true /\ search_blocked rd fuel (run_manager r) /\
        (size (candidates rd (run_manager r) fuel) <= 1 + receives ops1)%nat
  end.
Proof.
  intros Hin. cbn zeta. pose proof (server_main_ops cfg rd fuel profile tty inputs) as E.
  pose proof (server_ops_ok tty inputs Hin) as Hok.
  destruct (server_main cfg rd fuel profile tty inputs) as [st|]; cbn [fmap option_fmap option_map] in E.
  - split; [done|]. by apply (run_ops_good _ 0 _ _ Hok start_run_good).
  - destruct (run_ops_stuck _ _ E) as (ops1 & e & bs & now & ops2 & r & Eo & Hr & Hn).
    rewrite Eo in Hok. apply Forall_app in Hok as [Hok _].
    pose proof (run_ops_good _ 0 _ _ Hok start_run_good Hr) as Hg. cbn [Nat.add] in Hg.
    apply on_datagram_received_none in Hn as [Ho Hb].
    exists ops1, e, bs, now, ops2, r. split_and!; [done..|].
    pose proof (blocked_candidates _ _ _ Hb) as Hc. destruct Hg as (_ & _ & Hf). unfold fits in Hf. lia.
Qed.
End guarantees.

(** A larger bound on the draws gives the same run. *)
Section mono.
Context `{IterationOrder} (cfg : TransportSettings) (rd : nat -> Z) (profile : RuntimeProfile).
Context (fuel fuel' : nat) (Hf : (fuel <= fuel')%nat).

Lemma server_receive_mono ds st st' :
  server_receive cfg rd fuel ds st = Some st' -> server_receive cfg rd fuel' ds st = Some st'.
Proof.
  revert st. induction ds as [|[[e bs] now] ds IH]; intros st E; [done|].
  cbn [server_receive] in *.
  destruct (on_datagram_received cfg rd fuel e bs now (sv_manager st)) as [m|] eqn:Em; [|done].
  rewrite (on_datagram_received_mono _ _ _ _ _ _ _ _ _ Em Hf). by apply IH.
Qed.

Lemma server_iteration_mono input st r :
  server_iteration cfg rd fuel profile input st = Some r ->
  server_iteration cfg rd fuel' profile input st = Some r.
Proof.
  unfold server_iteration, server_receive_step. destruct (si_stop_requested input); [done|].
  destruct (si_select_failed input); [done|]. destruct (negb (si_socket_ready input)); [done|].
  destruct (buffer_too_large _); [done|].
  destruct (server_receive cfg rd fuel _ st) as [st1|] eqn:E; [|done].
  by rewrite (server_receive_mono _ _ _ E).
Qed.

Lemma server_loop_mono inputs st st' :
  server_loop cfg rd fuel profile inputs st = Some st' ->
  server_loop cfg rd fuel' profile inputs st = Some st'.
Proof.
  revert st. induction inputs as [|input inputs IH]; intros st E; [done|].
  cbn [server_loop] in *. destruct (sv_should_exit st); [done|].
  destruct (server_iteration cfg rd fuel profile input st) as [[[] st1]|] eqn:Ei; [| |done];
    rewrite (server_iteration_mono _ _ _ Ei); [done|by apply IH].
Qed.

Lemma server_main_mono tty inputs st :
  server_main cfg rd fuel profile tty inputs = Some st ->
  server_main cfg rd fuel' profile tty inputs = Some st.
Proof.
  unfold server_main. destruct (server_loop cfg rd fuel profile inputs _) as [st1|] eqn:E; [|done].
  by rewrite (server_loop_mono _ _ _ E).
Qed.
End mono.

(** ** Commands *)

Definition server_send_line (conn_id : Z) (name message : string) : string :=
  "send " +:+ to_string conn_id +:+ String " " (name +:+ String " " message).

Lemma parse_server_send_line profile conn_id name c message preferred :
  is_u32 conn_id -> no_char " " name = true -> find_channel profile name = Some c ->
  parse_server_send_command profile (server_send_line conn_id name message) preferred =
  Some {| ss_conn_id := conn_id; ss_channel := c; ss_payload := message |}.
Proof.
  intros Hi Hn Hc. unfold parse_server_send_command, server_send_line, server_find_channel.
  rewrite starts_with_app.
  change (substr_from (_ +:+ _) (String.length "send ")) with
    (to_string conn_id +:+ String " " (name +:+ String " " message)). cbv zeta.
  rewrite find_app by (apply to_string_no_char; [unfold is_u32 in Hi; lia|done]).
  destruct (field_at (to_string conn_id) name message Hn) as (F & S & R & L). cbn zeta in *.
  rewrite F, S, Hc. unfold substr. cbn [sdrop]. rewrite stake_app, stoul_u32_to_string by done.
  unfold substr_from. rewrite R, <- L, sdrop_app_cons. done.
Qed.

Lemma for_each_endpoint_nonempty `{IterationOrderOk} (f : Z -> EndpointKey -> list string) d :
  (forall c e, f c e <> []) -> d <> ∅ -> for_each_endpoint f d <> [].
Proof.
  intros Hf Hd E. apply Hd, map_empty. intros c. apply eq_None_not_Some. intros Hc.
  destruct (endpoint_order_valid d) as [_ Ho]. pose proof (proj2 (Ho c) Hc) as Hin.
  destruct Hc as [e He]. unfold for_each_endpoint in E.
  apply list_elem_of_In, in_split in Hin as (l1 & l2 & El).
  rewrite El, map_app, concat_app in E. cbn in E. rewrite He in E.
  apply app_eq_nil in E as [_ E]. apply app_eq_nil in E as [E _]. by apply (Hf c e).
Qed.

(** ** Properties *)

(** C30: the server application refines the session manager. For any visiting order
    of its maps, any random device, any bound [fuel] on the draws of one search and any
    inputs over any number of iterations: the list of operations [server_ops], which is
    computed from the inputs alone (per iteration: each datagram followed by a drain,
    the line read from the terminal, the poll, a drain), run on an empty table, gives
    exactly the table and the directory the application ends with and, in order,
    exactly the datagrams it hands to its socket; a larger bound gives the same run.
    The table is one that the manager's own operations lead to, and the connection
    that plain lines go to is listed in the directory. The application fails to end
    within the bound only in a search for a connection id: at a datagram that opens a
    session, on a table that the operations before it give, where the first [fuel] ids
    drawn were all 0 or taken, and so at most 1 plus the number of datagrams received
    before it were distinct. *)
Theorem server_app_refines_manager `{IterationOrderOk} cfg rd fuel profile tty inputs :
  profile_ready profile -> Forall server_input_ok inputs ->
  let ops := server_ops profile tty inputs in
  match server_main cfg rd fuel profile tty inputs with
  | Some st =>
      run_ops cfg rd fuel profile ops start_run =
        Some (mkMgrRun (sv_manager st) (sv_directory st) (sv_sent st)) /\
      star (mgr_step cfg rd) empty_manager (sv_manager st) /\ directory_ok (sv_directory st) /\
      forall fuel', (fuel <= fuel')%nat -> server_main cfg rd fuel' profile tty inputs = Some st
  | None =>
      exists ops1 e bs now ops2 r,
        ops = ops1 ++ OpReceive e bs now :: ops2 /\
        run_ops cfg rd fuel profile ops1 start_run = Some r /\
        star (mgr_step cfg rd) empty_manager (run_manager r) /\
        opens_session e bs (run_manager r) = true /\ search_blocked rd fuel (run_manager r) /\
        (size (candidates rd (run_manager r) fuel) <= 1 + receives ops1)%nat
  end.
Proof.
  intros Hp Hin. pose proof (server_main_outcome cfg rd fuel profile (pr_channels _ Hp) tty inputs Hin) as Ho.
  cbn zeta in *. destruct (server_main cfg rd fuel profile tty inputs) as [st|] eqn:E.
  - destruct Ho as (Hr & Hs & Hd & _). split_and!; [done..|]. intros fuel' Hf.
    by apply (server_main_mono cfg rd profile fuel).
  - destruct Ho as (ops1 & e & bs & now & ops2 & r & H1 & H2 & (Hs & _) & H3).
    by exists ops1, e, bs, now, ops2, r.
Qed.

Definition sample_server_profile : RuntimeProfile :=
  sample_ready_profile <| pf_mode := ModeServer |> <| pf_remote_address := "" |>
    <| pf_remote_port := 0 |>.

Lemma sample_server_ready : profile_ready sample_server_profile.
Proof.
  destruct sample_profile_ready as [Ht Hc Hd _]. destruct Ht.
  constructor; [constructor; cbn; auto|exact Hc|exact Hd|split; reflexivity].
Qed.

(** A peer sends its SYN. *)
Definition sample_server_input : ServerInput :=
  {| si_stop_requested := false; si_select_failed := false; si_socket_ready := true;
     si_datagrams := [(sample_endpoint, sample_syn, 0)]; si_alloc_fails := false;
     si_stdin_ready := false; si_cin_good := true; si_stdin_line := None; si_cin_good_after := true; si_poll_time := 0 |}.

(** A device whose words are the numbers in turn. *)
Definition sample_device (n : nat) : Z := Z.of_nat n.

Lemma server_app_refines_manager_witness :
  match @server_main map_order default_transport sample_device 1 sample_server_profile true
          [sample_server_input] with
  | Some st =>
      @run_ops map_order default_transport sample_device 1 sample_server_profile
        [OpReceive sample_endpoint sample_syn 0; OpDrain; OpPoll 0; OpDrain] start_run =
        Some (mkMgrRun (sv_manager st) (sv_directory st) (sv_sent st)) /\
      length (sv_sent st) = 1%nat
  | None => False
  end.
Proof.
  assert (Hin : Forall server_input_ok [sample_server_input]).
  { apply Forall_singleton. constructor; [|apply is_u64_0]. apply Forall_singleton. exact sample_syn_bytes. }
  pose proof (@server_app_refines_manager map_order map_order_ok default_transport sample_device 1
    sample_server_profile true [sample_server_input] sample_server_ready Hin) as H.
  cbn zeta in H. destruct (server_main _ _ _ _ _ _) as [st|] eqn:E.
  - destruct H as (H & _). split; [exact H|]. vm_compute in E. injection E as <-. reflexivity.
  - vm_compute in E. discriminate E.
Defined.

(** No line typed at the server is lost silently, and a line changes at
    most one session. With a ready profile, a line either ends the server, or is
    answered in the log with the table unchanged, or is queued, whole, on the
    active session it addresses; [send <conn_id> <channel> <message>] addresses
    that connection and channel, and any other text the preferred connection on
    the default channel. *)
Theorem server_line_outcome `{IterationOrderOk} profile m d line exit :
  profile_ready profile ->
  (forall conn_id name ch message, line = server_send_line conn_id name message ->
     is_u32 conn_id -> no_char " " name = true -> find_channel profile name = Some ch ->
     parse_server_send_command profile line (preferred_conn_id d) =
       Some (mkServerSend conn_id ch message)) /\
  let '(m', exit', lines) := handle_server_stdin profile m d (Some line) exit in
  (m' = m /\ exit' = true) \/
  (m' = m /\ exit' = exit /\ lines <> []) \/
  (exit' = exit /\ exists c s,
     parse_server_send_command profile line (preferred_conn_id d) = Some c /\
     active_by_conn_id m !! ss_conn_id c = Some s /\
     (starts_with line "send " = false ->
        ss_payload c = line /\ preferred_conn_id d = Some (ss_conn_id c) /\
        default_channel profile = Some (ss_channel c)) /\
     m' = m <| active_by_conn_id ::= fun a =>
             <[ss_conn_id c := Session.queue_send (ch_id (ss_channel c)) (ch_type (ss_channel c))
                                 (bytes_of_text (ss_payload c)) s]> a |>).
Proof.
  intros Hp. split; [intros conn_id name ch msg -> Hi Hn Hc; by apply parse_server_send_line|].
  unfold handle_server_stdin. destruct (line == "/quit"); [by left|].
  destruct (line == "/sessions").
  { right; left. split; [done|]. split; [done|]. destruct (bool_decide_reflect (active_endpoints d = ∅)) as [|He]; [done|].
    by apply for_each_endpoint_nonempty. }
  destruct (line == "/channels").
  { right; left. split; [done|]. split; [done|]. unfold server_log_channels.
    destruct Hp as [_ _ Hd _]. destruct (pf_channels profile); [by inversion Hd|done]. }
  destruct (parse_server_send_command _ _ _) as [c|] eqn:E; [|by right; left].
  unfold queue_send, find_active_session.
  destruct (active_by_conn_id m !! ss_conn_id c) as [s|] eqn:Es; [|by right; left].
  right; right. split; [done|]. exists c, s. split; [done|]. split; [done|]. split; [|done].
  intros Hs. unfold parse_server_send_command, server_default_channel in E. rewrite Hs in E.
  destruct (preferred_conn_id d) as [p|]; [|done].
  destruct (default_channel profile) as [ch|]; [|done]. by injection E as <-.
Qed.

Lemma server_line_outcome_witness :
  parse_server_send_command sample_server_profile (server_send_line 5 "stream" "hi there") None =
    Some (mkServerSend 5 (mkChannel 3 "stream" ReliableOrdered false) "hi there") /\
  exists lines, lines <> [] /\
    @handle_server_stdin map_order sample_server_profile empty_manager (mkDirectory None ∅)
      (Some (server_send_line 5 "stream" "hi there")) false = (empty_manager, false, lines).
Proof.
  destruct (@server_line_outcome map_order map_order_ok sample_server_profile empty_manager
    (mkDirectory None ∅) (server_send_line 5 "stream" "hi there") false sample_server_ready)
    as [H1 H2].
  split.
  - apply (H1 5 "stream" (mkChannel 3 "stream" ReliableOrdered false) "hi there");
      [reflexivity|unfold is_u32; lia|reflexivity|reflexivity].
  - destruct (handle_server_stdin _ _ _ _ _) as [[m' ex] lines] eqn:E.
    destruct H2 as [[-> ->]|[(-> & -> & Hl)|(-> & c & s & _ & Hs & _)]].
    + vm_compute in E. discriminate E.
    + exists lines. split; [exact Hl|reflexivity].
    + discriminate Hs.
Defined.
