(* ===== verification/Runtime.v ===== *)
(** The entry point ([src/BsdRuntime.cpp], [src/main.cpp]): settings, profile,
    environment overrides, and which application runs.

    The environment is the function [getenv], the file system the functions
    [exists_] and [read_file] (a file may exist and not open), the log files the
    class [LogBackend]. What [run_cli] decides is a [CliResult]: the exit code with
    what it prints, an exception that ends the program, or the application it
    starts and the settings, profile and logger it starts it with. *)

From S2P Require Import Prelude Protocol Text Config ConfigEnv ConfigYaml ConfigYamlSpec.
From S2P Require Import RuntimeLogger.

(** ** Overrides *)

Section overrides.
Context (getenv : string -> option string).

Definition apply_string_override (target : string) (env_name : string) : string :=
  match getenv env_name with
  | Some value => if negb (is_empty value) then value else target
  | None => target
  end.

Definition apply_u16_override (target : Z) (env_name : string) : Z :=
  match getenv env_name with
  | Some value =>
      if is_empty value then target
      else match stoull value with Some v => u16 v | None => target end
  | None => target
  end.

Definition apply_log_path_override (profile : RuntimeProfile) : RuntimeProfile :=
  let override_path :=
    if bool_decide (pf_mode profile = ModeServer) then getenv "RUDP_RUNTIME_SERVER_LOG_PATH"
    else getenv "RUDP_RUNTIME_CLIENT_LOG_PATH" in
  match override_path with
  | Some path => if negb (is_empty path) then profile <| pf_log_path := path |> else profile
  | None => profile
  end.

Definition apply_connection_overrides (profile : RuntimeProfile) : RuntimeProfile :=
  if bool_decide (pf_mode profile = ModeServer) then
    let profile := profile <| pf_bind_address ::= fun t =>
      apply_string_override t "RUDP_RUNTIME_SERVER_BIND_ADDRESS" |> in
    profile <| pf_bind_port ::= fun t => apply_u16_override t "RUDP_RUNTIME_SERVER_BIND_PORT" |>
  else
    let profile := profile <| pf_bind_address ::= fun t =>
      apply_string_override t "RUDP_RUNTIME_CLIENT_BIND_ADDRESS" |> in
    let profile := profile <| pf_bind_port ::= fun t =>
      apply_u16_override t "RUDP_RUNTIME_CLIENT_BIND_PORT" |> in
    let profile := profile <| pf_remote_address ::= fun t =>
      apply_string_override t "RUDP_RUNTIME_CLIENT_REMOTE_ADDRESS" |> in
    profile <| pf_remote_port ::= fun t => apply_u16_override t "RUDP_RUNTIME_CLIENT_REMOTE_PORT" |>.
End overrides.

(** ** The command line *)

Definition usage (argv0 : string) : string :=
  "Usage:" +:+ String newline
  ("  " +:+ argv0 +:+ " <runtime-config.yaml>" +:+ String newline
  ("Transport defaults are loaded from .env when present." +:+ String newline "")).

(** [argv]; the path, or what is printed. *)
Definition parse_args (argv : list string) : string + string :=
  match argv with
  | [_; path] => inl path
  | _ => inr (usage (hd "" argv))
  end.

Section cli.
Context `{LogBackend}.

(** The logger and what is printed on the standard error; [None]: the exception of
    [make_text_logger] is not one that is caught. *)
Definition make_runtime_logger (profile : RuntimeProfile) (w : LogWorld)
    : option (LogSink LogWorld * string) * LogWorld :=
  let sinks := [make_console_logger] in
  let logger_name := if bool_decide (pf_mode profile = ModeServer) then "rudp_server_file"
                     else "rudp_client_file" in
  match make_text_logger logger_name (pf_log_path profile) w with
  | (ThrowsFilesystem, w) => (None, w)
  | (ThrowsSpdlog what, w) =>
      (Some (compose_loggers sinks,
             "failed to create file logger: " +:+ what +:+ String newline ""), w)
  | (MadeSink sink, w) => (Some (compose_loggers (sinks ++ [sink]), ""), w)
  end.

Inductive CliResult :=
| CliExit (code : Z) (message : string)
| CliTerminate
| RunServer (settings : Settings) (profile : RuntimeProfile) (logger : LogSink LogWorld)
    (w : LogWorld)
| RunClient (settings : Settings) (profile : RuntimeProfile) (logger : LogSink LogWorld)
    (w : LogWorld).

(** [g_settings] is the global before the call; [exists_] is [std::filesystem::exists],
    whose overload without an error code throws when the status cannot be had:
    [None]. *)
Definition run_cli (g_settings : Settings) (getenv : string -> option string)
    (exists_ : string -> option bool) (read_file : string -> option string) (argv : list string)
    (w : LogWorld) : CliResult :=
  match exists_ ".env" with
  | None => CliTerminate
  | Some env_exists =>
  let '(ok, g_settings, env_error) :=
    if env_exists then load_from_env_file ".env" (read_file ".env") g_settings (Some "")
    else (true, g_settings, Some "") in
  if negb ok then
    CliExit 1 ("failed to load .env: " +:+ default "" env_error +:+ String newline "")
  else
    match parse_args argv with
    | inr message => CliExit 1 message
    | inl config_path =>
        let '(ok, profile, profile_error) :=
          load_runtime_profile_from_yaml config_path (read_file config_path) g_settings
            default_profile (Some "") in
        if negb ok then
          CliExit 1 ("failed to load runtime config: " +:+ default "" profile_error +:+
                     String newline "")
        else
          let profile := apply_connection_overrides getenv profile in
          let profile := apply_log_path_override getenv profile in
          match make_runtime_logger profile w with
          | (None, _) => CliTerminate
          | (Some (logger, _), w) =>
              if bool_decide (pf_mode profile = ModeServer)
              then RunServer g_settings profile logger w
              else RunClient g_settings profile logger w
          end
    end
  end.
End cli.

(** ** Lemmas *)

Section lemmas.
Context (getenv : string -> option string).

Lemma apply_u16_override_typed t name : is_u16 t -> is_u16 (apply_u16_override getenv t name).
Proof.
  intros Ht. unfold apply_u16_override. destruct (getenv name) as [v|]; [|done].
  destruct (is_empty v); [done|]. destruct (stoull v); [apply u16_range|done].
Qed.

Lemma apply_string_override_nonempty t name :
  t <> "" -> apply_string_override getenv t name <> "".
Proof.
  intros Ht. unfold apply_string_override, is_empty. destruct (getenv name) as [v|]; [|done].
  by destruct (String.eqb_spec v "").
Qed.

(** What survives the overrides. *)
Record profile_runnable (p : RuntimeProfile) : Prop := mk_profile_runnable {
  ru_typed : profile_typed p;
  ru_channels : Forall channel_ok (pf_channels p);
  ru_default : Exists (fun c => ch_is_default c = true) (pf_channels p);
  ru_remote :
    match pf_mode p with
    | ModeServer => pf_remote_address p = "" /\ pf_remote_port p = 0
    | ModeClient => pf_remote_address p <> ""
    end
}.

Lemma overrides_runnable p :
  profile_ready p ->
  profile_runnable (apply_log_path_override getenv (apply_connection_overrides getenv p)) /\
  pf_mode (apply_log_path_override getenv (apply_connection_overrides getenv p)) = pf_mode p.
Proof.
  intros [[] Hc Hd Hr].
  assert (H : profile_runnable (apply_connection_overrides getenv p) /\
              pf_mode (apply_connection_overrides getenv p) = pf_mode p).
  { unfold apply_connection_overrides. destruct (pf_mode p) eqn:Em.
    - rewrite bool_decide_eq_true_2 by done. split; [|exact Em].
      constructor; cbn; try done; [|by rewrite Em].
      constructor; cbn; auto using apply_u16_override_typed.
    - rewrite bool_decide_eq_false_2 by done. split; [|exact Em].
      constructor; cbn; try done; [|rewrite Em; by apply apply_string_override_nonempty, Hr].
      constructor; cbn; auto using apply_u16_override_typed. }
  destruct H as [H Em]. unfold apply_log_path_override.
  destruct (if bool_decide _ then _ else _) as [path|]; [|by split].
  destruct (negb (is_empty path)); [|by split].
  split; [|exact Em]. destruct H as [[] ? ? ?]. constructor; done.
Qed.
End lemmas.

(** Each line goes to the standard output once, with a newline. *)
Definition writes_stdout `{LogBackend} (logger : LogSink LogWorld) : Prop :=
  forall message w,
    log_stdout (log_line logger message w) = log_stdout w +:+ message +:+ String newline "".

Lemma make_runtime_logger_spec `{LogBackend} profile w :
  match fst (make_runtime_logger profile w) with
  | None => fst (create_parent_directories (pf_log_path profile) (log_files w)) = false
  | Some (logger, _) => writes_stdout logger
  end.
Proof.
  unfold make_runtime_logger, make_text_logger, writes_stdout.
  destruct (create_parent_directories _ _) as [ok files]. destruct ok; [|done]. cbn [negb].
  by destruct (basic_logger_mt _ _ _).
Qed.

Lemma run_cli_spec `{LogBackend} g getenv exists_ read_file argv w :
  all_settings_typed g ->
  match run_cli g getenv exists_ read_file argv w with
  | CliExit code message => code = 1 /\ message <> ""
  | CliTerminate =>
      exists_ ".env" = None \/
      exists path, fst (create_parent_directories path (log_files w)) = false
  | RunServer s p logger _ =>
      all_settings_typed s /\ profile_runnable p /\ pf_mode p = ModeServer /\
      length argv = 2%nat /\ writes_stdout logger
  | RunClient s p logger _ =>
      all_settings_typed s /\ profile_runnable p /\ pf_mode p = ModeClient /\
      length argv = 2%nat /\ writes_stdout logger
  end.
Proof.
  intros Hg. unfold run_cli. destruct (exists_ ".env") as [env_exists|]; [|by left].
  set (env := if env_exists then _ else _).
  assert (He : let '(ok, g', _) := env in ok = true -> all_settings_typed g').
  { subst env. destruct env_exists; [|done].
    pose proof (env_lines_typed g) as Ht. unfold load_from_env_file.
    destruct (read_file ".env") as [text|]; [|done].
    specialize (Ht (getlines text) 0 (Some "") Hg).
    destruct (env_lines _ _ _ _) as [[[] s] e]; cbn in *; done. }
  destruct env as [[[] g'] e]; [|done]. specialize (He eq_refl). cbn [negb].
  destruct (parse_args argv) as [path|message] eqn:Ea.
  2: { split; [done|]. destruct argv as [|? [|? [|]]]; cbn in Ea; by simplify_eq. }
  assert (Hl : length argv = 2%nat) by (by destruct argv as [|? [|? [|]]]).
  unfold load_runtime_profile_from_yaml. destruct (read_file path) as [text|]; [|done].
  pose proof (apply_profile_yaml_spec g' (default_runtime_profile g') text (Some "")
    (default_runtime_profile_ok g' He)) as Hp.
  destruct (apply_profile_yaml _ _ _ _) as [[[] p] e']; [|done]. cbn [negb].
  destruct Hp as [Hp _]. destruct (overrides_runnable getenv p Hp) as [Hr Hm].
  pose proof (make_runtime_logger_spec
    (apply_log_path_override getenv (apply_connection_overrides getenv p)) w) as Hlog.
  destruct (make_runtime_logger _ w) as [[[logger err]|] w']; [|right; eexists; exact Hlog].
  case_bool_decide as Hs; (split; [done|]; split; [done|]; split; [|done]).
  - done.
  - by destruct (pf_mode _).
Qed.

(** ** Properties *)

(** The command line either runs an application with usable settings or
    fails with exit code 1 and a message; it ends by an uncaught exception only
    when the status of [.env] or the directories of the log file cannot be had. For any environment, any
    files and any arguments: an application is started only when there is exactly
    one argument, the [.env] file, if present, loads and the profile loads; it is
    the application of the profile's mode; all integers of settings and profile
    fit their fields, there is a default channel, a server has no remote endpoint
    and a client has a remote address; and its logger writes every line to the
    standard output once, also when the log file could not be opened. *)
Theorem run_cli_outcome `{LogBackend} g getenv exists_ read_file argv w :
  all_settings_typed g ->
  match run_cli g getenv exists_ read_file argv w with
  | CliExit code message => code = 1 /\ message <> ""
  | CliTerminate =>
      exists_ ".env" = None \/
      exists path, fst (create_parent_directories path (log_files w)) = false
  | RunServer s p logger _ =>
      all_settings_typed s /\ profile_runnable p /\ pf_mode p = ModeServer /\
      length argv = 2%nat /\ writes_stdout logger
  | RunClient s p logger _ =>
      all_settings_typed s /\ profile_runnable p /\ pf_mode p = ModeClient /\
      length argv = 2%nat /\ writes_stdout logger
  end.
Proof. apply run_cli_spec. Qed.

(** A library that opens every log file but those in /readonly/. *)
Definition sample_backend : LogBackend :=
  {| FileWorld := list (string * string);
     create_parent_directories := fun path files => (negb (starts_with path "/readonly/"), files);
     basic_logger_mt := fun _ _ files => inl files;
     logger_info := fun path line files => files ++ [(path, line)] |}.

Lemma run_cli_outcome_witness :
  match @run_cli sample_backend default_settings (fun _ => None) (fun _ => Some false)
          (fun path => if path == "server.yaml" then Some sample_server_yaml else None)
          ["rudp"; "server.yaml"] (@mkLogWorld sample_backend "" []) with
  | RunServer s p logger w => profile_runnable p /\ pf_bind_port p = 9020
  | _ => False
  end.
Proof.
  pose proof (@run_cli_outcome sample_backend default_settings (fun _ => None) (fun _ => Some false)
    (fun path => if path == "server.yaml" then Some sample_server_yaml else None)
    ["rudp"; "server.yaml"] (@mkLogWorld sample_backend "" []) default_settings_typed) as H.
  destruct (run_cli _ _ _ _ _ _) as [code msg| |s p lg w|s p lg w] eqn:E;
    try (vm_compute in E; discriminate E).
  split; [exact (proj1 (proj2 H))|]. vm_compute in E. injection E as _ <- _ _. reflexivity.
Defined.

(** When the directories of the log file cannot be made, the program ends by
    an uncaught exception instead of going on with the console alone, as it does
    when the file itself cannot be opened. *)
Theorem log_directory_failure_terminates `{LogBackend} profile w :
  fst (create_parent_directories (pf_log_path profile) (log_files w)) = false ->
  fst (make_runtime_logger profile w) = None.
Proof.
  intros E. unfold make_runtime_logger, make_text_logger.
  destruct (create_parent_directories _ _) as [ok files]. cbn in E. by rewrite E.
Qed.

Lemma log_directory_failure_terminates_witness :
  fst (@make_runtime_logger sample_backend (default_profile <| pf_log_path := "/readonly/a.log" |>)
         (@mkLogWorld sample_backend "" [])) = None.
Proof. apply (@log_directory_failure_terminates sample_backend). reflexivity. Defined.

(** The environment can undo the loader's check. A client profile is only
    accepted with a non-zero remote port, but an override with any text that
    reads as a multiple of 2^16, such as 65536, then sets the port to 0 without a
    message. *)
Theorem override_port_zero getenv p text v :
  pf_mode p = ModeClient -> getenv "RUDP_RUNTIME_CLIENT_REMOTE_PORT" = Some text ->
  stoull text = Some v -> v mod 2 ^ 16 = 0 ->
  pf_remote_port (apply_connection_overrides getenv p) = 0.
Proof.
  intros Hm He Hv H0. unfold apply_connection_overrides.
  rewrite bool_decide_eq_false_2 by congruence. cbn. unfold apply_u16_override, is_empty.
  rewrite He. destruct (String.eqb_spec text "") as [->|]; [done|]. by rewrite Hv.
Qed.

Lemma override_port_zero_witness :
  pf_remote_port (apply_connection_overrides
    (fun name => if name == "RUDP_RUNTIME_CLIENT_REMOTE_PORT" then Some "65536" else None)
    (default_profile <| pf_mode := ModeClient |>)) = 0.
Proof. apply (override_port_zero _ _ "65536" 65536); reflexivity. Defined.

Lemma yaml_lines_bind_address g x st lines n err :
  yaml_lines (g <| runtime ::= fun r => r <| client_bind_address := x |> |>) st lines n err =
  yaml_lines g st lines n err.
Proof.
  revert st n err. induction lines as [|l lines IH]; intros st n err; [done|]. cbn [yaml_lines].
  change (yaml_line (g <| runtime ::= fun r => r <| client_bind_address := x |> |>) st l
    (u64 (n + 1)) err) with (yaml_line g st l (u64 (n + 1)) err).
  destruct (yaml_line _ _ _ _ _) as [[[] st'] err']; [apply IH|done].
Qed.

(** The setting RUDP_RUNTIME_CLIENT_BIND_ADDRESS of the [.env] file has no
    effect: whatever it is, the same profile is loaded from the same file. *)
Theorem client_bind_address_ignored g x path file p err :
  load_runtime_profile_from_yaml path file
    (g <| runtime ::= fun r => r <| client_bind_address := x |> |>) p err =
  load_runtime_profile_from_yaml path file g p err.
Proof.
  unfold load_runtime_profile_from_yaml, apply_profile_yaml. destruct file as [text|]; [|done].
  by rewrite yaml_lines_bind_address.
Qed.
