(* ===== verification/Program.v ===== *)
(** The whole program ([src/main.cpp]): the command line, then the application it
    starts, with the settings and the profile it loaded.

    The theorems are about complete runs: what a run guarantees whatever the
    environment, the files, the network and the terminal supply, and how a stop
    signal ends it. *)

From S2P Require Import Prelude StdMap Protocol Utils Codec Text Config ConfigEnv ConfigYaml.
From S2P Require Import ConfigYamlSpec SessionTypes RuntimeLogger.
From S2P Require Import Session SessionInvariant ServerSessionManager ManagerInvariant.
From S2P Require Import ManagerPolling ManagerRouting ManagerTermination.
From S2P Require Import BsdUdpSocket Process LoadGenerator ClientApp ClientAppSpec.
From S2P Require Import ServerApp ServerAppSpec Runtime.

(** What the applications read: the flag and the actions of the signals at the
    start, the signals before the flag is reset, the results of the calls on the
    socket, whether the input is a terminal, and the rest of each application. *)
Record Surroundings := mkSurroundings {
  sr_actions : SigTable;
  sr_flag : bool;
  sr_early : list StopSignal;
  sr_calls : SocketCalls;
  sr_is_a_tty : bool;
  sr_isn : Z;
  sr_bootstrap : list string * list string;
  sr_client_inputs : list (list StopSignal * ClientInput);
  sr_server_inputs : list (list StopSignal * ServerInput)
}.

(** The exit status with what the application left; an exception that is not
    caught ends the program without one. *)
Inductive ProgramResult :=
| Exited (code : Z)
| Terminated
| ServerDone (settings : Settings) (profile : RuntimeProfile)
    (result : AppResult ServerState) (w : FdWorld) (code : option Z)
| ClientDone (settings : Settings) (profile : RuntimeProfile)
    (result : AppResult ClientState) (w : FdWorld) (code : option Z).

(** The status of a run of an application; none when it does not return. *)
Definition exit_status {A} (result : AppResult A) : option Z :=
  match result with
  | SetupFailed | Finished _ => Some 0
  | Crashed _ | Unfinished => None
  end.

Section program.
Context `{LogBackend} `{Kernel} `{IterationOrder}.

Definition main (g_settings : Settings) (getenv : string -> option string)
    (exists_ : string -> option bool) (read_file : string -> option string) (argv : list string)
    (lw : LogWorld) (rd : nat -> Z) (fuel : nat) (sr : Surroundings) (w : FdWorld)
    : ProgramResult :=
  match run_cli g_settings getenv exists_ read_file argv lw with
  | CliExit code _ => Exited code
  | CliTerminate => Terminated
  | RunServer settings profile _ _ =>
      let '(result, w) := run_server_app (transport settings) rd fuel profile (sr_actions sr)
                            (sr_flag sr) (sr_early sr) (sr_calls sr) (sr_is_a_tty sr)
                            (sr_server_inputs sr) w in
      ServerDone settings profile result w (exit_status result)
  | RunClient settings profile _ _ =>
      let '(result, w) := run_client_app (transport settings) profile (sr_actions sr) (sr_flag sr)
                            (sr_early sr) (sr_calls sr) (sr_isn sr) (sr_bootstrap sr)
                            (sr_is_a_tty sr) (sr_client_inputs sr) w in
      ClientDone settings profile result w (exit_status result)
  end.
End program.

(** ** The set-up *)

(** The calls that open and bind the socket succeed. *)
Definition calls_succeed `{Kernel} (profile : RuntimeProfile) (calls : SocketCalls) : bool :=
  (0 <=? sk_fd calls) && (0 <=? sk_flags calls) && (0 <=? sk_setfl calls) &&
  bind (pf_bind_address profile) (pf_bind_port profile) (sk_bind calls).

(** No object lives in the frame of the function yet, and [::socket] returns a
    descriptor that is not open. *)
Definition frame_free (w : FdWorld) (calls : SocketCalls) : Prop :=
  objects w !! the_socket = None /\ objects w !! the_temporary = None /\ sk_fd calls ∉ open_fds w.

Lemma open_socket `{Kernel} w profile calls created w1 :
  frame_free w calls ->
  create_non_blocking the_socket the_temporary (sk_fd calls) (sk_flags calls) (sk_setfl calls) w =
    (created, w1) ->
  (created && bind (pf_bind_address profile) (pf_bind_port profile) (sk_bind calls) =
     calls_succeed profile calls) /\
  (created = true -> destroy the_socket w1 = w) /\ (created = false -> w1 = w).
Proof.
  intros (Ho & Ht & Hfd) E.
  assert (Hw : forall a b : FdWorld, open_fds a = open_fds b -> bad_close a = bad_close b ->
    objects a = objects b -> a = b).
  { intros [] []; cbn; by intros -> -> ->. }
  split; [|split; intros ->].
  - unfold calls_succeed. f_equal. revert E. unfold create_non_blocking.
    rewrite (Z.leb_antisym (sk_fd calls)), (Z.leb_antisym (sk_flags calls)), (Z.leb_antisym (sk_setfl calls)).
    destruct (sk_fd calls <? 0); [by intros [= <- _]|].
    destruct (sk_flags calls <? 0), (sk_setfl calls <? 0); by intros [= <- _].
  - assert (Hne : the_socket <> the_temporary) by done.
    destruct (create_destroy _ _ _ _ _ _ _ Hne Ho Ht Hfd E) as (_ & H1 & H2 & H3).
    by apply Hw.
  - destruct (create_fails _ _ _ _ _ _ _ Hfd E) as (H1 & H2 & H3). by apply Hw.
Qed.

(** The descriptors while the application runs. *)
Definition opened (w : FdWorld) (calls : SocketCalls) : FdWorld :=
  snd (create_non_blocking the_socket the_temporary (sk_fd calls) (sk_flags calls) (sk_setfl calls) w).

(** An application runs its main part exactly when the calls succeed. It gives the
    socket back when it returns, and not when an exception ends the process. *)
Lemma run_client_app_spec `{Kernel} cfg profile actions g early calls isn bootstrap tty inputs w :
  frame_free w calls ->
  run_client_app cfg profile actions g early calls isn bootstrap tty inputs w =
  if calls_succeed profile calls
  then let st := client_main cfg profile isn bootstrap tty
         (load_flags set_stop_requested_in (ClientApp.install_signal_handlers actions) false inputs) in
       if cl_crashed st then (Crashed st, opened w calls) else (Finished st, w)
  else (SetupFailed, w).
Proof.
  intros Hw. unfold run_client_app, opened. cbn zeta.
  destruct (create_non_blocking _ _ _ _ _ _) as [created w1] eqn:E.
  destruct (open_socket w profile calls created w1 Hw E) as (<- & H1 & H2).
  destruct created; cbn [negb andb].
  - rewrite H1 by done. by destruct (bind _ _ _).
  - by rewrite H2.
Qed.

Lemma run_server_app_spec `{Kernel} `{IterationOrder} cfg rd fuel profile actions g early calls tty
    inputs w :
  frame_free w calls ->
  run_server_app cfg rd fuel profile actions g early calls tty inputs w =
  if calls_succeed profile calls
  then match server_main cfg rd fuel profile tty
         (load_flags set_stop_requested_si (ServerApp.install_signal_handlers actions) false inputs) with
       | None => (Unfinished, opened w calls)
       | Some st => if sv_crashed st then (Crashed st, opened w calls) else (Finished st, w)
       end
  else (SetupFailed, w).
Proof.
  intros Hw. unfold run_server_app, opened. cbn zeta.
  destruct (create_non_blocking _ _ _ _ _ _) as [created w1] eqn:E.
  destruct (open_socket w profile calls created w1 Hw E) as (<- & H1 & H2).
  destruct created; cbn [negb andb].
  - rewrite H1 by done. by destruct (bind _ _ _).
  - by rewrite H2.
Qed.

Lemma load_flags_forall {I} (P : I -> Prop) set_stop actions flag inputs :
  (forall b i, P i -> P (set_stop b i)) -> Forall (fun x => P (snd x)) inputs ->
  Forall P (load_flags set_stop actions flag inputs).
Proof.
  intros HP H. revert flag. induction H as [|[sigs i] inputs Hi _ IH]; intros flag; [constructor|].
  cbn [load_flags]. constructor; [by apply HP|apply IH].
Qed.

Lemma load_flags_exists {I} (P : I -> Prop) set_stop actions flag inputs :
  (forall b i, P (set_stop b i) -> P i) ->
  Exists P (load_flags set_stop actions flag inputs) -> Exists (fun x => P (snd x)) inputs.
Proof.
  intros HP. revert flag. induction inputs as [|[sigs i] inputs IH]; intros flag H; cbn [load_flags] in H.
  - by apply Exists_nil in H.
  - apply Exists_cons in H as [H|H]; [left; by eapply HP|right; by eapply IH].
Qed.

Lemma load_flags_length {I} set_stop actions flag (inputs : list (list StopSignal * I)) :
  length (load_flags set_stop actions flag inputs) = length inputs.
Proof.
  revert flag. induction inputs as [|[sigs i] inputs IH]; intros flag; [done|].
  cbn [load_flags length]. by rewrite IH.
Qed.

(** ** Exceptions *)

(** In this iteration [recv_from] throws: no vector has the size of its buffer, or
    there is no memory for it. *)
Definition server_throws (profile : RuntimeProfile) (input : ServerInput) : Prop :=
  si_socket_ready input = true /\
  (buffer_too_large (pf_socket_buffer_size profile) = true \/ si_alloc_fails input = true).

(** Or, in the client, a thread cannot be started. *)
Definition client_throws (profile : RuntimeProfile) (input : ClientInput) : Prop :=
  (in_socket_ready input = true /\
   (buffer_too_large (pf_socket_buffer_size profile) = true \/ in_alloc_fails input = true)) \/
  exists i, is_Some (sys_threads (in_system input i)).

Section exceptions.
Context (cfg : TransportSettings) (profile : RuntimeProfile).

Lemma server_loop_crashed `{IterationOrder} rd fuel inputs st st' :
  server_loop cfg rd fuel profile inputs st = Some st' -> sv_crashed st' = true ->
  sv_crashed st = true \/ Exists (server_throws profile) inputs.
Proof.
  revert st. induction inputs as [|input inputs IH]; intros st; cbn [server_loop];
    [intros [= <-]; by left|].
  destruct (sv_should_exit st); [intros [= <-]; by left|]. unfold server_iteration.
  destruct (si_stop_requested input); [intros [= <-]; by left|].
  destruct (si_select_failed input); [intros [= <-]; by left|].
  assert (Hstep : forall st1, server_receive_step cfg rd fuel profile input st = Some st1 ->
    sv_crashed st1 = true -> sv_crashed st = true \/ server_throws profile input).
  { unfold server_receive_step, server_throws. intros st1.
    destruct (si_socket_ready input); cbn [negb]; [|intros [= <-]; by left].
    destruct (buffer_too_large _); [intros [= <-] _; right; by auto|].
    destruct (server_receive _ _ _ _ _); [|done]. intros [= <-] Ec. right. by auto. }
  destruct (server_receive_step _ _ _ _ _ _) as [st1|]; [|done]. specialize (Hstep st1 eq_refl).
  destruct (sv_crashed st1) eqn:E1.
  { intros [= <-] _. destruct (Hstep eq_refl); [by left|right; by left]. }
  destruct (server_command_ops cfg rd fuel profile input st1) as (_ & _ & _ & E2).
  destruct (poll_tx _ _ _ _ _) as [out m]. intros Hl Hc.
  destruct (IH _ Hl Hc) as [Hd|Hd]; [|right; by right].
  rewrite (proj2 (proj2 (drain_step_frame _))) in Hd. cbn in Hd. congruence.
Qed.

Lemma server_main_crashed `{IterationOrder} rd fuel tty inputs st :
  server_main cfg rd fuel profile tty inputs = Some st -> sv_crashed st = true ->
  Exists (server_throws profile) inputs.
Proof.
  unfold server_main. destruct (server_loop _ _ _ _ _ _) as [st1|] eqn:E; [|done].
  destruct (sv_crashed st1) eqn:Ec; intros [= <-] Hc; [|cbn in Hc; congruence].
  by destruct (server_loop_crashed _ _ _ _ _ E Ec).
Qed.

Lemma run_command_crashed system line st :
  cl_crashed (run_command profile system line st) = true ->
  cl_crashed st = true \/ is_Some (sys_threads system).
Proof.
  unfold run_command. cbn. intros [Hc|Hc]%orb_prop; [by left|right]. revert Hc.
  unfold process_client_command, spawn_throws. destruct (sys_threads system); [by eexists|].
  by repeat (case_match; try done).
Qed.

Lemma run_bootstrap_crashed system i commands st :
  cl_crashed (run_bootstrap profile system i commands st) = true ->
  cl_crashed st = true \/ exists i, is_Some (sys_threads (system i)).
Proof.
  revert i st. induction commands as [|c commands IH]; intros i st; [by left|]. cbn [run_bootstrap].
  set (st1 := run_command _ _ _ _).
  assert (H1 : cl_crashed st1 = true -> cl_crashed st = true \/ exists i, is_Some (sys_threads (system i))).
  { intros [Hc|Hc]%run_command_crashed; [by left|right; by exists i]. }
  destruct (_ || _); [exact H1|]. intros [Hc|Hc]%IH; [by apply H1|by right].
Qed.

Lemma client_iteration_crashed commands input st :
  cl_crashed (snd (client_iteration cfg profile commands input st)) = true ->
  cl_crashed st = true \/ client_throws profile input.
Proof.
  unfold client_iteration, client_input_step, client_throws.
  destruct (in_stop_requested input); [by left|]. destruct (in_select_failed input); [by left|].
  set (st1 := client_receive _ _ _ _).
  assert (H1 : cl_crashed st1 = true -> cl_crashed st = true \/ (in_socket_ready input = true /\
    (buffer_too_large (pf_socket_buffer_size profile) = true \/ in_alloc_fails input = true))).
  { subst st1. unfold client_receive. destruct (in_socket_ready input); cbn [negb]; [|by left].
    destruct (buffer_too_large _); [by auto|]. cbn. intros [Hc|Hc]%orb_prop; auto. }
  destruct (cl_crashed st1) eqn:E1; [cbn; intros _; destruct (H1 eq_refl); auto|].
  assert (Ht : forall st2,
    (cl_crashed st2 = true -> exists i, is_Some (sys_threads (in_system input i))) ->
    cl_crashed (client_transmit cfg profile commands input st2) = true ->
    exists i, is_Some (sys_threads (in_system input i))).
  { intros st2 H2. unfold client_transmit. destruct (poll_loop _ _ _ _ _) as [sent s2].
    destruct (drain_client_events _) as [lines s3]. set (st3 := _ <| cl_log ::= _ |>).
    change (cl_crashed st2) with (cl_crashed st3) in H2. clearbody st3. set (bs := _ && _). clearbody bs.
    set (st4 := if bs then _ else _).
    assert (H4 : cl_crashed st4 = true -> exists i, is_Some (sys_threads (in_system input i))).
    { subst st4. destruct bs; [|exact H2]. intros [Hc|Hc]%run_bootstrap_crashed; auto. }
    clearbody st4. destruct (cl_crashed st4) eqn:E4; [by auto|].
    destruct bs; case_bool_decide; cbn; congruence. }
  destruct (_ && _).
  - destruct (in_stdin_line input) as [line|].
    + pose proof (run_command_crashed (in_system input 0) line st1) as Hr. rewrite E1 in Hr.
      destruct (_ || _); cbn [snd]; intros Hc; right; right.
      * destruct (Hr Hc); [done|by exists 0%nat].
      * apply (Ht _) in Hc; [done|]. intros Hc'. destruct (Hr Hc'); [done|by exists 0%nat].
    + cbn [snd]. intros Hc. right; right. apply (Ht _) in Hc; [done|]. cbn. congruence.
  - cbn [snd]. intros Hc. right; right. apply (Ht _) in Hc; [done|]. congruence.
Qed.

Lemma client_main_crashed isn bootstrap tty inputs :
  cl_crashed (client_main cfg profile isn bootstrap tty inputs) = true ->
  Exists (client_throws profile) inputs.
Proof.
  assert (Hl : forall st, cl_crashed (client_loop cfg profile (fst bootstrap) inputs st) = true ->
    cl_crashed st = true \/ Exists (client_throws profile) inputs).
  { induction inputs as [|input rest IH]; intros st; [by left|]. cbn [client_loop].
    destruct (cl_should_exit st); [by left|].
    pose proof (client_iteration_crashed (fst bootstrap) input st) as Hi.
    destruct (client_iteration _ _ _ _ _) as [[] st1]; cbn [snd] in Hi.
    - intros [Hc|Hc]%Hi; [by left|right; by left].
    - intros [[Hc|Hc]%Hi|Hc]%IH; [by left|right; by left|right; by right]. }
  unfold client_main. destruct (cl_crashed (client_loop _ _ _ _ _)) eqn:E.
  - intros _. by destruct (Hl _ E).
  - cbn. congruence.
Qed.
End exceptions.

(** ** Stop signals *)

Lemma client_handles_stop actions : handles_stop (ClientApp.install_signal_handlers actions).
Proof. intros []; by eexists. Qed.

Lemma server_handles_stop actions : handles_stop (ServerApp.install_signal_handlers actions).
Proof. intros []; by eexists. Qed.

Section stopping.
Context (cfg : TransportSettings) (profile : RuntimeProfile) (actions : SigTable).
Context (Hact : handles_stop actions) (signals : list StopSignal) (Hsig : signals <> []).

Lemma client_loop_stopped commands pre input post flag st :
  let r0 := client_loop cfg profile commands (load_flags set_stop_requested_in actions flag pre) st in
  let r := client_loop cfg profile commands
             (load_flags set_stop_requested_in actions flag (pre ++ (signals, input) :: post)) st in
  r = r0 \/ r = r0 <| cl_should_exit := true |>.
Proof.
  revert flag st. induction pre as [|[sigs i] pre IH]; intros flag st; cbn [app load_flags client_loop].
  - rewrite (raise_stop _ _ _ Hact Hsig). destruct (cl_should_exit st); [by left|]. by right.
  - destruct (cl_should_exit st); [by left|].
    destruct (client_iteration _ _ _ _ _) as [[] st1]; [by left|]. apply IH.
Qed.

Lemma server_loop_stopped `{IterationOrder} rd fuel pre input post flag st :
  let r0 := server_loop cfg rd fuel profile (load_flags set_stop_requested_si actions flag pre) st in
  let r := server_loop cfg rd fuel profile
             (load_flags set_stop_requested_si actions flag (pre ++ (signals, input) :: post)) st in
  r = r0 \/ r = (fun st => st <| sv_should_exit := true |>) <$> r0.
Proof.
  revert flag st. induction pre as [|[sigs i] pre IH]; intros flag st; cbn [app load_flags server_loop].
  - rewrite (raise_stop _ _ _ Hact Hsig). destruct (sv_should_exit st); [by left|]. by right.
  - destruct (sv_should_exit st); [by left|].
    destruct (server_iteration _ _ _ _ _ _) as [[[] st1]|]; [by left|apply IH|by left].
Qed.
End stopping.

(** ** Properties *)

(** The types of what the surroundings supply. *)
Record surroundings_ok (sr : Surroundings) : Prop := mk_surroundings_ok {
  so_isn : is_u32 (sr_isn sr);
  so_client : Forall (fun x => input_ok (snd x)) (sr_client_inputs sr);
  so_server : Forall (fun x => server_input_ok (snd x)) (sr_server_inputs sr)
}.

(** What the server's loop reads, with the flag that the signals set. *)
Definition server_inputs (sr : Surroundings) : list ServerInput :=
  load_flags set_stop_requested_si (ServerApp.install_signal_handlers (sr_actions sr)) false
    (sr_server_inputs sr).

(** What a server leaves. A session table is always one that satisfies the invariant
    of the manager, and a run that does not return searches for a connection id. *)
Definition server_outcome `{IterationOrder} (cfg : TransportSettings) (rd : nat -> Z) (fuel : nat)
    (sr : Surroundings) (profile : RuntimeProfile) (result : AppResult ServerState)
    (w w' : FdWorld) (code : option Z) : Prop :=
  match result with
  | SetupFailed => w' = w /\ code = Some 0
  | Finished st =>
      w' = w /\ code = Some 0 /\ mgr_ok cfg (sv_manager st) /\
      star (mgr_step cfg rd) empty_manager (sv_manager st)
  | Crashed st =>
      w' = opened w (sr_calls sr) /\ code = None /\ mgr_ok cfg (sv_manager st) /\
      Exists (fun x => server_throws profile (snd x)) (sr_server_inputs sr)
  | Unfinished =>
      code = None /\
      exists ops1 e bs now ops2 r,
        server_ops profile (sr_is_a_tty sr) (server_inputs sr) = ops1 ++ OpReceive e bs now :: ops2 /\
        run_ops cfg rd fuel profile ops1 start_run = Some r /\ mgr_ok cfg (run_manager r) /\
        opens_session e bs (run_manager r) = true /\ search_blocked rd fuel (run_manager r) /\
        (size (candidates rd (run_manager r) fuel) <= 1 + receives ops1)%nat
  end.

(** What a client leaves: a session that satisfies its invariant, and at most
    [poll_budget] datagrams sent per iteration. *)
Definition client_outcome (cfg : TransportSettings) (sr : Surroundings) (profile : RuntimeProfile)
    (result : AppResult ClientState) (w w' : FdWorld) (code : option Z) : Prop :=
  let session_good st :=
    session_ok cfg (cl_session st) /\ reachable cfg (cl_session st) /\
    (length (cl_sent st) <= length (sr_client_inputs sr) * Z.to_nat (pf_poll_budget profile))%nat in
  match result with
  | SetupFailed => w' = w /\ code = Some 0
  | Finished st => w' = w /\ code = Some 0 /\ session_good st
  | Crashed st =>
      w' = opened w (sr_calls sr) /\ code = None /\ session_good st /\
      Exists (fun x => client_throws profile (snd x)) (sr_client_inputs sr)
  | Unfinished => False
  end.

Lemma server_run_outcome `{Kernel} `{IterationOrderOk} cfg rd fuel profile sr w :
  settings_typed cfg -> Forall channel_ok (pf_channels profile) -> surroundings_ok sr -> frame_free w (sr_calls sr) ->
  let '(result, w') := run_server_app cfg rd fuel profile (sr_actions sr) (sr_flag sr) (sr_early sr)
                         (sr_calls sr) (sr_is_a_tty sr) (sr_server_inputs sr) w in
  (result = SetupFailed <-> calls_succeed profile (sr_calls sr) = false) /\
  server_outcome cfg rd fuel sr profile result w w' (exit_status result).
Proof.
  intros Hcfg Hp [_ _ Hs] Hw. rewrite run_server_app_spec by done. fold (server_inputs sr).
  destruct (calls_succeed profile (sr_calls sr)); [|done].
  assert (Hin : Forall server_input_ok (server_inputs sr)).
  { apply load_flags_forall; [|done]. intros b i []. by constructor. }
  pose proof (server_main_outcome cfg rd fuel profile Hp (sr_is_a_tty sr) _ Hin) as Ho. cbn zeta in Ho.
  destruct (server_main _ _ _ _ _ _) as [st|] eqn:E.
  - destruct Ho as (_ & Hst & _). cbn [run_of run_manager] in Hst.
    pose proof (mgr_reachable_ok _ _ _ Hcfg Hst) as Hm.
    destruct (sv_crashed st) eqn:Ec; (split; [done|split_and!; try done]).
    eapply (load_flags_exists (server_throws profile)); [|by eapply server_main_crashed].
    by intros b i.
  - split; [done|]. destruct Ho as (ops1 & e & bs & now & ops2 & r & Eo & Er & (Es & _) & Hb).
    split; [done|]. exists ops1, e, bs, now, ops2, r. split_and!; try done; try apply Hb.
    by eapply mgr_reachable_ok.
Qed.

Lemma client_run_outcome `{Kernel} cfg profile sr w :
  settings_typed cfg -> Forall channel_ok (pf_channels profile) -> surroundings_ok sr -> frame_free w (sr_calls sr) ->
  let '(result, w') := run_client_app cfg profile (sr_actions sr) (sr_flag sr) (sr_early sr)
                         (sr_calls sr) (sr_isn sr) (sr_bootstrap sr) (sr_is_a_tty sr)
                         (sr_client_inputs sr) w in
  (result = SetupFailed <-> calls_succeed profile (sr_calls sr) = false) /\
  client_outcome cfg sr profile result w w' (exit_status result).
Proof.
  intros Hcfg Hp [Hisn Hc _] Hw. rewrite run_client_app_spec by done. cbn zeta.
  destruct (calls_succeed profile (sr_calls sr)); [|done].
  set (inputs := load_flags _ _ _ _).
  assert (Hin : Forall input_ok inputs).
  { apply load_flags_forall; [|done]. intros b i []. by constructor. }
  destruct (client_main_calls cfg profile (sr_isn sr) (sr_bootstrap sr) (sr_is_a_tty sr) inputs Hp Hisn Hin)
    as (_ & Hr & Hl).
  assert (El : length inputs = length (sr_client_inputs sr)) by apply load_flags_length.
  rewrite El in Hl. pose proof (reachable_ok _ _ Hcfg Hr) as Hok.
  destruct (cl_crashed _) eqn:Ec; (split; [done|split_and!; try done]).
  eapply (load_flags_exists (client_throws profile)); [|by eapply client_main_crashed].
  by intros b i.
Qed.


(** A kernel that resolves every address, and a server profile that loads. *)
Definition sample_kernel : Kernel :=
  {| sockaddr_in := string * string;
     getaddrinfo := fun name service => Some (name, service);
     inet_ntop := fun addr => Some (fst addr);
     ntohs_port := fun _ => 4000 |}.

Definition program_server_input : ServerInput :=
  mkServerInput false false true [(sample_endpoint, sample_syn, 0)] false false true None true 5.

Definition sample_surroundings : Surroundings :=
  {| sr_actions := fun _ => SigDefault; sr_flag := false; sr_early := [];
     sr_calls := mkSocketCalls 3 0 0 0; sr_is_a_tty := false; sr_isn := 7;
     sr_bootstrap := ([], []); sr_client_inputs := [];
     sr_server_inputs := [([], program_server_input); ([SIGINT], program_server_input)] |}.

Lemma sample_surroundings_ok : surroundings_ok sample_surroundings.
Proof.
  constructor; [unfold is_u32; cbn; lia|constructor|].
  assert (server_input_ok program_server_input).
  { constructor; [|unfold is_u64; cbn; lia]. apply Forall_singleton. exact sample_syn_bytes. }
  by repeat apply Forall_cons_2; try apply Forall_nil_2.
Qed.

Definition sample_files (path : string) : option string :=
  if path == "server.yaml" then Some sample_server_yaml else None.

(** The sample run is a server that receives a SYN and is then stopped. *)
Example sample_program_runs :
  match @main sample_backend sample_kernel map_order default_settings (fun _ => None)
          (fun _ => Some false) sample_files ["rudp"; "server.yaml"] (@mkLogWorld sample_backend "" [])
          sample_device 5 sample_surroundings empty_world with
  | ServerDone _ _ (Finished st) _ _ =>
      sv_should_exit st && has_pending_session sample_endpoint (sv_manager st)
  | _ => false
  end = true.
Proof. vm_compute. reflexivity. Qed.


(** The loaders accept any 64-bit size for the buffer: here the text -1, which reads
    as 2^64 - 1. The server then ends by an exception at the first datagram. *)
Definition huge_buffer_yaml : string :=
  sample_server_yaml +:+ "runtime:" +:+ String newline ("  socket_buffer_size: -1" +:+ String newline "").

Example huge_buffer_crashes :
  match @main sample_backend sample_kernel map_order default_settings (fun _ => None)
          (fun _ => Some false) (fun _ => Some huge_buffer_yaml) ["rudp"; "server.yaml"]
          (@mkLogWorld sample_backend "" []) sample_device 5 sample_surroundings empty_world with
  | ServerDone _ p (Crashed st) _ code =>
      bool_decide (pf_socket_buffer_size p = 2 ^ 64 - 1) && bool_decide (code = None) &&
      negb (has_pending_session sample_endpoint (sv_manager st))
  | _ => false
  end = true.
Proof. vm_compute. reflexivity. Qed.

(** C33: SIGINT and SIGTERM end an application at once and cleanly. When a signal
    arrives while the loop runs, the application ends as if its inputs had stopped
    before the iteration that finds the flag set: no datagram is received or sent
    after that, the summary is logged and the socket closed. A run that an exception
    ended before, or that was still searching for a connection id, is the same. *)
Theorem stop_signal_ends_run `{Kernel} `{IterationOrder} cfg rd fuel profile actions g early calls isn
    bootstrap tty signals w :
  signals <> [] -> frame_free w calls ->
  (forall pre input post,
     let run inputs := run_client_app cfg profile actions g early calls isn bootstrap tty inputs w in
     match run (pre ++ (signals, input) :: post), run pre with
     | (Finished st, w1), (Finished st0, w2) =>
         (st = st0 \/ st = st0 <| cl_should_exit := true |>) /\ w1 = w /\ w2 = w
     | (Crashed st, w1), (Crashed st0, w2) =>
         (st = st0 \/ st = st0 <| cl_should_exit := true |>) /\ w1 = w2
     | (SetupFailed, _), (SetupFailed, _) => True
     | _, _ => False
     end) /\
  (forall pre input post,
     let run inputs := run_server_app cfg rd fuel profile actions g early calls tty inputs w in
     match run (pre ++ (signals, input) :: post), run pre with
     | (Finished st, w1), (Finished st0, w2) =>
         (st = st0 \/ st = st0 <| sv_should_exit := true |>) /\ w1 = w /\ w2 = w
     | (Crashed st, w1), (Crashed st0, w2) =>
         (st = st0 \/ st = st0 <| sv_should_exit := true |>) /\ w1 = w2
     | (Unfinished, w1), (Unfinished, w2) => w1 = w2
     | (SetupFailed, _), (SetupFailed, _) => True
     | _, _ => False
     end).
Proof.
  intros Hsig Hw. split; intros pre input post; cbv beta zeta.
  - rewrite !run_client_app_spec by done. destruct (calls_succeed profile calls); [|done].
    cbn zeta. unfold client_main.
    destruct (client_loop_stopped cfg profile _ (client_handles_stop actions) signals Hsig
      (fst bootstrap) pre input post false (client_start profile isn bootstrap tty)) as [-> | ->];
      set (st0 := client_loop _ _ _ _ _); clearbody st0; cbn;
      destruct (cl_crashed st0) eqn:E; cbn; rewrite ?E; auto.
  - rewrite !run_server_app_spec by done. destruct (calls_succeed profile calls); [|done].
    unfold server_main.
    destruct (server_loop_stopped cfg profile _ (server_handles_stop actions) signals Hsig rd fuel
      pre input post false (server_start profile tty)) as [-> | ->];
      (destruct (server_loop _ _ _ _ _ _) as [st0|]; [|done]); cbn;
      destruct (sv_crashed st0) eqn:E; cbn; rewrite ?E; auto.
Qed.

Definition sample_server_run (inputs : list (list StopSignal * ServerInput)) : AppResult ServerState * FdWorld :=
  @run_server_app map_order default_transport sample_device 5 sample_ready_profile sample_kernel
    (fun _ => SigDefault) false [] (mkSocketCalls 3 0 0 0) false inputs empty_world.

Example sample_run_finishes :
  match fst (sample_server_run [([], program_server_input)]) with Finished _ => true | _ => false end = true.
Proof. vm_compute. reflexivity. Qed.

Lemma stop_signal_ends_run_witness :
  match sample_server_run ([([], program_server_input)] ++
          ([SIGTERM], program_server_input) :: [([], program_server_input)]),
        sample_server_run [([], program_server_input)] with
  | (Finished st, w1), (Finished st0, w2) =>
      (st = st0 \/ st = st0 <| sv_should_exit := true |>) /\ w1 = empty_world /\ w2 = empty_world
  | _, _ => False
  end.
Proof.
  assert (Hw : frame_free empty_world (mkSocketCalls 3 0 0 0)).
  { split; [reflexivity|split; [reflexivity|]]. cbn. set_solver. }
  pose proof (proj2 (@stop_signal_ends_run sample_kernel map_order default_transport sample_device 5
    sample_ready_profile (fun _ => SigDefault) false [] (mkSocketCalls 3 0 0 0) 7 ([], []) false
    [SIGTERM] empty_world ltac:(discriminate) Hw)
    [([], program_server_input)] program_server_input [([], program_server_input)]) as H.
  pose proof sample_run_finishes as E. cbv beta zeta in H. fold (sample_server_run [([], program_server_input)]) in H.
  fold (sample_server_run ([([], program_server_input)] ++
    ([SIGTERM], program_server_input) :: [([], program_server_input)])) in H.
  destruct (sample_server_run [([], program_server_input)]) as [[] w2]; try discriminate E.
  destruct (sample_server_run _) as [[] w1]; try contradiction. exact H.
Defined.

(** A signal that arrives after the handlers are installed and before the flag is
    reset is lost: the run is the same without it. *)
Theorem early_signal_lost `{Kernel} `{IterationOrder} cfg rd fuel profile actions g early calls isn
    bootstrap tty cinputs sinputs w :
  run_client_app cfg profile actions g early calls isn bootstrap tty cinputs w =
    run_client_app cfg profile actions g [] calls isn bootstrap tty cinputs w /\
  run_server_app cfg rd fuel profile actions g early calls tty sinputs w =
    run_server_app cfg rd fuel profile actions g [] calls tty sinputs w.
Proof. done. Qed.
